(* ===== verification/_CoqProject ===== *)
-Q . S2P
Prelude.v
Printf.v
Ringbuffer.v
Platform.v
AppTypes.v
Adc.v
VehicleIo.v
Power.v
Can.v
Eeprom.v
Storage.v
StorageSpec.v
UartRing.v
Serial.v
Wakeup.v
UartCrc.v
UartText.v
UartFrame.v
Odometer.v
SocStatus.v
McuStatus.v
UartCmd.v
HostLine.v
LcdTime.v
LcdPages.v
LcdGfx.v
LcdState.v
LcdData.v
LcdText.v
LcdTables.v
LcdRender.v
LcdNav.v
LcdKeys.v
LcdInv.v
LcdTask.v
LcdSystem.v
LcdSettings.v
LcdJourney.v
LcdPictures.v
LcdHost.v
Pins.v
LcdPanel.v
Startup.v
System.v
Driving.v
