(* ===== verification/Prelude.v ===== *)
(** * CAR-DVR: the MCU firmware of a vehicle driving recorder

    The firmware runs on an HPM6280 under RT-Thread.  It keeps the recorder's
    supplies, reads the vehicle inputs and the four keys, supervises three CAN
    nodes, talks to the host processor (SOC) over a serial line, counts the
    mileage, keeps settings in an I2C EEPROM and drives a 132x64 display with
    its menus.  Each service of [src/applications] is a thread with static
    state; services read each other's snapshots and call each other's functions.

    ** Files and sources

    - [Prelude]: notations, records with field update, C integers (wrapped
      [Z]), C arrays and strings as lists, tactics, hint database.
    - [Printf] ([rt-thread/src/kservice.c]): the formatter behind [rt_snprintf];
      the display's texts are formatted by it on the source's format strings.
    - [Ringbuffer] ([ringbuffer.c]), [Serial] ([serial_v2.c], [device.c],
      [drv_uart_v2.c]): the device framework's ring buffer and the driver of the
      host line, from the transfer channel to the ring of the application.
      [Wakeup] ([ipc.c]): the semaphore between that notification and the
      command thread.  [HostLine]: driver and command task together.
    - [Platform]: GPIO registers ([hpm_gpio_drv.h]), ticks ([clock.c]).
      [AppTypes]: [app_types.h], [app_config.h].
    - [Adc] ([svc_adc.c]): conversions, key decoding and debouncing, sampling.
      [VehicleIo] ([svc_vehicle_io.c]): inputs, change log.
    - [Power] ([svc_power.c]): the power state machine, one definition per
      handler, composed to a round of its thread; [reach] are the states of
      the thread, with the time since when it has been shutting down.
    - [Can] ([app_can.c], [svc_can.c]): nodes, life monitor, send and receive;
      the kernel and the device layer are an oracle.
    - [Eeprom], [Storage] ([svc_storage.c]): the chip and its bus as the
      classes [I2cBus], [EepromLaws] and [EepromReady], with a simulator
      ([Chip]) as instance; the five records with their layout and every load
      and save.  [StorageSpec]: the abstract store they implement.
    - [UartRing], [UartCrc], [UartText], [UartFrame], [Odometer], [SocStatus],
      [McuStatus], [UartCmd] ([app_usart_cmd.c]): receive ring, check sum, text
      assembly, frame parser, mileage, status messages in both directions, and
      the command task that dispatches.
    - [LcdTime], [LcdPages], [LcdState], [LcdData], [LcdText], [LcdTables],
      [LcdRender], [LcdNav], [LcdKeys] ([svc_lcd.c], [LCD/lcd_ui.c]): date,
      page table, state and its monad, data updates from the host, text page,
      menu texts, every page as its drawing calls, navigation, editors and the
      round of the thread.  [LcdGfx] ([LCD/lcd_graphics.c], [u8g2_port.c]): the
      drawing calls as values and the frame buffer.
    - [LcdInv], [LcdTask], [LcdSystem], [LcdSettings], [LcdJourney],
      [LcdPictures], [LcdHost]: theorems on the display, alone and with the
      command task and the store.
    - [Pins], [LcdPanel] ([LCD/lcd_drv.c], [u8g2_port.c]): driver functions as
      traces of pin operations; the controller as a class with a simulator.
    - [Startup] ([app_init.c], [app_task.c], [main.c], [svc_led.c],
      [board/rtt_board.c]): initialisation and thread start over all services.
    - [System]: all threads interleaved over the shared state.  [Driving]: a
      safety property from the inputs to the supply outputs across services.

    A static variable is a field of the record of its module, a function of the
    C sources is a definition with the same name, an error code or a null
    pointer is a value.  A tick or another answer of the kernel is an argument.

    ** What is proved

    - Power: the hold output is released only after 3 s of uninterrupted
      shutdown, with the other supplies off; a persisting shutdown cuts nothing
      earlier and then completes in one round; what of the driving stages is
      debounced (the arrival of the supply) and what is not; a cut is final.
    - System: start-up leaves safe outputs wherever it stops; in the running
      system every part stays in states of its own model, the supply pins are
      touched by the power thread only, and the recorder is not switched off
      while the vehicle is driven.
    - Storage: paged writes are flat writes; saves implement an abstract store;
      damage is detected and confined.
    - Serial line: the framework's ring buffer is a bounded queue; the driver
      moves everything that arrives into the application's ring, and the
      command thread never sleeps on received bytes; the ring is a queue with
      one known race, at one of the memory accesses of its pop; the parser
      refines a parser on lists, delivers well-formed frames only and every clean
      frame; round trips of frames, status messages and texts; the check sum is
      polynomial division and detects bursts; the mileage is exact, and after a
      power cut it is the recorded kilometre or, when the cut hit the write of
      the record, zero.
    - Formatted output stays within its buffer for every format and size, with
      [int] and addresses at their 32 bits.
    - CAN: the life state is a function of frames and passes, with one known
      race.
    - Display: all indices stay in range, the screen shows the state, every page
      has a way home, settings round-trip to the store, pictures mark the
      selection and show numbers completely, the last picture is what the panel
      shows; and the cases where a page does not follow its data (the location,
      driver and vehicle pages are excepted from the rest).

    ** Bounds and fuel

    Time is a [Z] of milliseconds; the code sees it modulo 2^32.  Loops over
    data have the data as measure.  The poll loop runs at most once per byte of
    the ring and once more ([poll_drains] shows that this empties the ring);
    the paged write has one unit of fuel per byte, a page being at least one;
    the text loops have 4098 units, one more than the longest text with its
    terminator; the walk to the root of the page tree needs at most six, the
    tree being five deep; a decimal number has at most ten digits, a binary one
    32; a format is read with one unit of fuel per character; the notification
    reads at most once per byte announced; the command thread needs three steps
    per count of its semaphore and one per byte.  Each of these is shown to be
    enough.

    ** Granularity

    A turn of a thread is one step.  Preemption inside a turn is modelled where
    the code depends on it: the receive interrupt between any two accesses of a
    pop ([UartRing]), a host update between drawing and the reset of the redraw
    request ([LcdHost]), interrupts between any two bytes the command thread
    takes ([Wakeup]) and a frame received in a monitor pass ([Can]).  In
    [System] the turns start when [main] has ended; its receive turn has any
    blocks a device may return, and [driver_takes_turn] shows that the driver's
    notification is such a turn.

    ** Not modelled

    - The u8g2 library and its fonts: drawing calls are values, glyph widths a
      parameter ([FontMetrics]).
    - The RT-Thread kernel, its drivers, the HPM SDK and the board support
      beyond the parts named above: third-party; their answers are inputs.  Of
      the serial driver, closing, control commands and buffered transmission,
      which the host line does not use, and the registers; bytes that arrive
      while the transfer channel is set up again.
    - Log output (except where a service logs changes), names, stack sizes and
      priorities of threads.
    - Code that is not compiled or not called: [test.c], blocks under [#if 0],
      commented-out functions, the test update of the home page.

    Every part of the application under [src/applications] that changes state is
    modelled, and of the third-party code what lies between the wire and the
    application on the host line.  What could be added is behind the remaining
    interfaces: the I2C, CAN and ADC drivers, the scheduler, and preemption
    inside the turns of [System]. *)

From stdpp Require Export prelude.

#[global] Set Default Goal Selector "!".

Declare Scope dvr_scope.
Delimit Scope dvr_scope with dvr.
Global Open Scope Z_scope.

(** ** Machine integers

    A C object of an unsigned type of width [w] is a [Z]; every assignment
    to it goes through the wrap-around of its type. *)

Definition u8 (x : Z) : Z := x mod 2 ^ 8.
Definition u16 (x : Z) : Z := x mod 2 ^ 16.
Definition u32 (x : Z) : Z := x mod 2 ^ 32.
Definition u64 (x : Z) : Z := x mod 2 ^ 64.

(** Conversion to a signed 16-bit object (two's complement). *)
Definition i16 (x : Z) : Z := (x + 2 ^ 15) mod 2 ^ 16 - 2 ^ 15.

Definition is_u8 (x : Z) : Prop := 0 <= x < 2 ^ 8.
Definition is_u16 (x : Z) : Prop := 0 <= x < 2 ^ 16.
Definition is_u32 (x : Z) : Prop := 0 <= x < 2 ^ 32.

(** [c ? 1U : 0U] *)
Definition b2u (b : bool) : Z := if b then 1 else 0.

(** ** Record update

    [r <| f := v |>] is [r] with field [f] set to [v].  A record type takes
    part by declaring its eta expansion; the update function of a field is
    found by abstracting that projection out of the expansion. *)

Class Eta (R : Type) := eta_of : R -> R.
Class Update {R T : Type} (proj : R -> T) := mk_update { update_with : (T -> T) -> R -> R }.
Arguments update_with {R T} proj {_}.

Ltac solve_update :=
  match goal with
  | |- @Update ?R _ ?proj =>
      let e := constr:(@eta_of R _) in
      let e := eval hnf in e in
      match (eval pattern proj in e) with
      | ?abs _ => let t := eval cbv beta in (fun f => abs (fun r => f (proj r))) in
                  exact (mk_update _ _ _ t)
      end
  end.

#[export] Hint Extern 0 (Update _) => solve_update : typeclass_instances.

Notation "r <| f := v |>" := (update_with f (fun _ => v) r)
  (at level 12, left associativity, f at next level,
   format "r  <| f  :=  v |>") : dvr_scope.
Global Open Scope dvr_scope.


(** ** Decision and arithmetic tactics *)

Ltac Zify.zify_post_hook ::= Z.div_mod_to_equations.

(** Turn every boolean comparison of the context into its proposition. *)
Ltac bool_hyps :=
  repeat match goal with
  | H : (_ && _)%bool = true |- _ => apply andb_true_iff in H as [? ?]
  | H : (_ || _)%bool = false |- _ => apply orb_false_iff in H as [? ?]
  | H : negb _ = true |- _ => apply negb_true_iff in H
  | H : negb _ = false |- _ => apply negb_false_iff in H
  | H : (_ =? _) = true |- _ => apply Z.eqb_eq in H
  | H : (_ =? _) = false |- _ => apply Z.eqb_neq in H
  | H : (_ <? _) = true |- _ => apply Z.ltb_lt in H
  | H : (_ <? _) = false |- _ => apply Z.ltb_ge in H
  | H : (_ <=? _) = true |- _ => apply Z.leb_le in H
  | H : (_ <=? _) = false |- _ => apply Z.leb_gt in H
  end.

(** Case split on every [if] of the goal, keeping the tests as facts. *)
Ltac split_ifs :=
  repeat (match goal with
          | |- context [if ?b then _ else _] =>
              lazymatch b with context [if _ then _ else _] => fail | _ => idtac end;
              let E := fresh "E" in destruct b eqn:E; simpl in *
          end); bool_hyps.

Ltac wraps := unfold u8, u16, u32, u64, is_u8, is_u16, is_u32 in *; lia.

(** A concrete list of bytes. *)
Ltac solve_bytes := repeat (apply Forall_cons; split; [by vm_compute |]); by apply Forall_nil.

Create HintDb dvr.
Create Rewrite HintDb dvr_rw.

(** ** Wrap-around *)

Lemma u8_range x : 0 <= u8 x < 2 ^ 8.
Proof. wraps. Qed.

Lemma u16_range x : 0 <= u16 x < 2 ^ 16.
Proof. wraps. Qed.

Lemma u32_range x : 0 <= u32 x < 2 ^ 32.
Proof. wraps. Qed.

Lemma u8_id x : is_u8 x -> u8 x = x.
Proof. wraps. Qed.

Lemma u16_id x : is_u16 x -> u16 x = x.
Proof. wraps. Qed.

Lemma u32_id x : is_u32 x -> u32 x = x.
Proof. wraps. Qed.

Lemma u64_id x : 0 <= x < 2 ^ 64 -> u64 x = x.
Proof. wraps. Qed.

#[export] Hint Resolve u8_range u16_range u32_range : dvr.
#[export] Hint Rewrite u8_id u16_id u32_id u64_id using wraps : dvr_rw.

Lemma b2u_bit b : 0 <= b2u b <= 1.
Proof. destruct b; simpl; lia. Qed.

(** [a | (b << n)] adds when [a] has only the low [n] bits. *)
Lemma lor_shiftl a b n :
  0 <= n -> 0 <= a < 2 ^ n -> Z.lor a (Z.shiftl b n) = a + 2 ^ n * b.
Proof.
  intros Hn Ha. rewrite Z.mul_comm, <- Z.shiftl_mul_pow2 by done.
  assert (Z.land a (Z.shiftl b n) = 0) as H0.
  { apply Z.bits_inj'. intros i Hi. rewrite Z.land_spec, Z.shiftl_spec, Z.bits_0 by lia.
    destruct (Z_lt_le_dec i n); [by rewrite (Z.testbit_neg_r b), andb_false_r by lia |].
    destruct (decide (a = 0)) as [->|]; [by rewrite Z.bits_0 |].
    rewrite (Z.bits_above_log2 a); [done | lia |].
    apply Z.lt_le_trans with n; [apply Z.log2_lt_pow2; lia | lia]. }
  by rewrite <- Z.lxor_lor, <- Z.add_nocarry_lxor.
Qed.

(** ** Arrays

    A C array of [n] elements is a list of length [n].  [get l i] is the
    element at index [i]; [slice off n l] is the block of [n] elements from
    [off]; [blit off d l] is [l] after a [memcpy] of [d] to [&l[off]]. *)

Definition get (l : list Z) (i : Z) : Z := nth (Z.to_nat i) l 0.
Definition put (l : list Z) (i v : Z) : list Z := <[Z.to_nat i := v]> l.
Definition slice (off n : nat) (l : list Z) : list Z := take n (drop off l).
Definition blit (off : nat) (d l : list Z) : list Z :=
  take off l ++ d ++ drop (off + length d) l.
Definition zeros (n : nat) : list Z := replicate n 0.

Lemma length_put l i v : length (put l i v) = length l.
Proof. apply length_insert. Qed.

Lemma get_put_eq l i v : 0 <= i < Z.of_nat (length l) -> get (put l i v) i = v.
Proof.
  intros. unfold get, put. apply nth_lookup_Some, list_lookup_insert_eq. lia.
Qed.

Lemma get_put_ne l i j v : 0 <= i -> 0 <= j -> i <> j -> get (put l i v) j = get l j.
Proof.
  intros. unfold get, put. rewrite !nth_lookup, list_lookup_insert_ne; [done | lia].
Qed.

Lemma get_zeros n i : get (zeros n) i = 0.
Proof.
  unfold get, zeros. destruct (nth_in_or_default (Z.to_nat i) (replicate n 0) 0) as [Hin|]; [| done].
  by apply list_elem_of_In, elem_of_replicate in Hin as [-> _].
Qed.

Lemma length_slice off n l : (off + n <= length l)%nat -> length (slice off n l) = n.
Proof. intros. unfold slice. rewrite length_take, length_drop. lia. Qed.

Lemma length_blit off d l :
  (off + length d <= length l)%nat -> length (blit off d l) = length l.
Proof. intros. unfold blit. rewrite !length_app, length_take, length_drop. lia. Qed.

Lemma get_app l1 l2 i : 0 <= i ->
  get (l1 ++ l2) i = if i <? Z.of_nat (length l1) then get l1 i else get l2 (i - Z.of_nat (length l1)).
Proof.
  intros Hi. unfold get. destruct (Z.ltb_spec i (Z.of_nat (length l1))); [apply app_nth1; lia |].
  rewrite app_nth2 by lia. f_equal. lia.
Qed.

Lemma get_drop k l i : 0 <= i -> get (drop k l) i = get l (Z.of_nat k + i).
Proof. intros Hi. unfold get. rewrite !nth_lookup, lookup_drop. do 2 f_equal. lia. Qed.

Lemma get_take l k i : 0 <= i < Z.of_nat k -> get (take k l) i = get l i.
Proof. intros Hi. unfold get. rewrite !nth_lookup, lookup_take_lt by lia. done. Qed.

Lemma get_slice from n l i : 0 <= i < Z.of_nat n -> get (slice from n l) i = get l (Z.of_nat from + i).
Proof. intros Hi. unfold slice. rewrite get_take, get_drop by lia. done. Qed.

Lemma get_blit off d l i : (off + length d <= length l)%nat -> 0 <= i < Z.of_nat (length l) ->
  get (blit off d l) i =
  if (Z.of_nat off <=? i) && (i <? Z.of_nat (off + length d)) then get d (i - Z.of_nat off) else get l i.
Proof.
  intros Ho Hi. unfold blit. rewrite !get_app, length_take by lia. replace (off `min` length l)%nat with off by lia.
  destruct (Z.ltb_spec i (Z.of_nat off)), (Z.leb_spec (Z.of_nat off) i); try lia; cbn [andb]; [apply get_take; lia |].
  rewrite get_app by lia. destruct (Z.ltb_spec (i - Z.of_nat off) (Z.of_nat (length d))), (Z.ltb_spec i (Z.of_nat (off + length d))); try lia.
  rewrite get_drop by lia. f_equal. lia.
Qed.

Lemma list_eq_get a b : length a = length b -> (forall i, 0 <= i < Z.of_nat (length a) -> get a i = get b i) -> a = b.
Proof.
  intros Hl H. apply (nth_ext _ _ 0 0 Hl). intros i Hi. specialize (H (Z.of_nat i) ltac:(lia)). unfold get in H. by rewrite Nat2Z.id in H.
Qed.

Lemma slice_app_l off n a b :
  (off + n <= length a)%nat -> slice off n (a ++ b) = slice off n a.
Proof.
  intros. unfold slice. rewrite drop_app_le by lia. rewrite take_app_le; [done |].
  rewrite length_drop. lia.
Qed.

Lemma slice_app_r off n a b :
  (length a <= off)%nat -> slice off n (a ++ b) = slice (off - length a) n b.
Proof. intros. unfold slice. by rewrite drop_app_ge by lia. Qed.

Lemma slice_all l : slice 0 (length l) l = l.
Proof. unfold slice. rewrite drop_0. by apply take_ge. Qed.

(** ** Little-endian integers in memory (RV32 is little-endian) *)

Fixpoint to_le (n : nat) (x : Z) : list Z :=
  match n with
  | O => []
  | S n => x mod 256 :: to_le n (x / 256)
  end.

Fixpoint of_le (l : list Z) : Z :=
  match l with
  | [] => 0
  | b :: l => b + 256 * of_le l
  end.

Lemma length_to_le n x : length (to_le n x) = n.
Proof. revert x. induction n as [|n IH]; intros; simpl; [done | by rewrite IH]. Qed.

Lemma to_le_bytes n x : Forall is_u8 (to_le n x).
Proof.
  revert x. induction n as [|n IH]; intros; simpl; constructor; [wraps | done].
Qed.

Lemma of_le_bounds l :
  Forall is_u8 l -> 0 <= of_le l < 256 ^ Z.of_nat (length l).
Proof.
  induction 1 as [|b l Hb _ IH]; simpl length; simpl of_le; [by vm_compute |].
  rewrite Nat2Z.inj_succ, Z.pow_succ_r by lia. unfold is_u8 in Hb. lia.
Qed.

Lemma to_le_of_le l n : length l = n -> Forall is_u8 l -> to_le n (of_le l) = l.
Proof.
  intros <-. induction 1 as [|b l Hb _ IH]; [done |].
  cbn [length to_le of_le]. unfold is_u8 in Hb. f_equal; [lia |].
  by replace ((b + 256 * of_le l) / 256) with (of_le l) by lia.
Qed.

Lemma of_le_to_le n x : 0 <= x < 256 ^ Z.of_nat n -> of_le (to_le n x) = x.
Proof.
  revert x. induction n as [|n IH]; intros x Hx; cbn [to_le of_le].
  - change (256 ^ Z.of_nat 0) with 1 in Hx. lia.
  - rewrite Nat2Z.inj_succ, Z.pow_succ_r in Hx by lia.
    rewrite IH by lia. lia.
Qed.

#[export] Hint Rewrite length_to_le length_put @length_app : dvr_rw.
#[export] Hint Resolve to_le_bytes : dvr.

(** ** Option-valued out parameters

    A pointer argument is [None] for [RT_NULL] and [Some v] when it points
    to an object holding [v]. *)

Abbreviation pointer := option.
