(* ===== verification/Printf.v ===== *)
(** * Formatted output ([rt_vsnprintf] of [kservice.c])

    The formatter behind every number the display shows, on the format strings
    of the sources: parsing of a directive, the number and string conversions,
    and the bounded writing of their characters.  [int], [unsigned long] and
    addresses have 32 bits; an [int] wraps round in two's complement ([i32]),
    an address wraps round at 2^32.  [RT_PRINTF_PRECISION] and
    [RT_PRINTF_SPECIAL] are defined, [RT_KPRINTF_USING_LONGLONG] is not. *)

From Stdlib Require Import String Ascii.
From S2P Require Import Prelude.

(** ** Strings *)

Definition chr (a : ascii) : Z := Z.of_N (N_of_ascii a).
#[local] Coercion chr : ascii >-> Z.

(** A string literal without its terminator. *)
Definition str (s : string) : list Z := map chr (list_ascii_of_string s).

(** The string in a character array. *)
Fixpoint cstr (l : list Z) : list Z :=
  match l with
  | [] => []
  | c :: l => if c =? 0 then [] else c :: cstr l
  end.

#[local] Open Scope char_scope.
#[local] Open Scope Z_scope.

Definition i32 (x : Z) : Z := (x + 2 ^ 31) mod 2 ^ 32 - 2 ^ 31.

(** ** Output

    [o_buf] is the array at address [o_base]; [o_str] is the pointer [str], and
    [e] in the operations the pointer [end].  A character at or beyond [end] is
    counted and not stored.  [o_ok] is false once a store has gone outside the
    array, from where the call has no defined behaviour. *)
Record sink := mk_sink { o_buf : list Z; o_base : Z; o_str : Z; o_ok : bool }.
#[export] Instance eta_sink : Eta sink := fun o => mk_sink (o_buf o) (o_base o) (o_str o) (o_ok o).

(** [*p = c] *)
Definition store (o : sink) (p c : Z) : sink :=
  let i := p - o_base o in
  if (0 <=? i) && (i <? Z.of_nat (List.length (o_buf o))) then o <| o_buf := put (o_buf o) i c |> else o <| o_ok := false |>.

Definition emit (e : Z) (o : sink) (c : Z) : sink :=
  let o := if o_str o <? e then store o (o_str o) c else o in
  o <| o_str := u32 (o_str o + 1) |>.
Definition emits (e : Z) (cs : list Z) (o : sink) : sink := foldl (emit e) o cs.

(** [while (size-- > 0)] writing [c]; with the value left in [size]. *)
Definition pad_left (size : Z) : Z := i32 (Z.min size 0 - 1).
Definition pad (e c size : Z) (o : sink) : Z * sink := (pad_left size, emits e (replicate (Z.to_nat size) c) o).

(** ** Numbers *)

Definition ZEROPAD : Z := Z.shiftl 1 0.
Definition SIGN : Z := Z.shiftl 1 1.
Definition PLUS : Z := Z.shiftl 1 2.
Definition SPACE : Z := Z.shiftl 1 3.
Definition LEFT : Z := Z.shiftl 1 4.
Definition SPECIAL : Z := Z.shiftl 1 5.
Definition LARGE : Z := Z.shiftl 1 6.

(** [type & flag] *)
Definition has (type flag : Z) : bool := negb (Z.land type flag =? 0).

Definition small_digits : list Z := str "0123456789abcdef".
Definition large_digits : list Z := str "0123456789ABCDEF".

(** The remainder and the quotient. *)
Definition divide (n base : Z) : Z * Z := (n mod base, n / base).

(** The digits in [tmp], the lowest first; [tmp] has 32 places. *)
Fixpoint digit_loop (fuel : nat) (digits : list Z) (num base : Z) : list Z :=
  match fuel with
  | O => []
  | S fuel =>
      if num =? 0 then []
      else let '(res, num) := divide num base in get digits res :: digit_loop fuel digits num base
  end.
Definition tmp_digits (digits : list Z) (num base : Z) : list Z :=
  if num =? 0 then [chr "0"] else digit_loop 32 digits num base.

(** The sign character (0 for none) and the magnitude. *)
Definition print_sign (num qualifier type : Z) : Z * Z :=
  if has type SIGN then
    let '(sign, num) :=
      if qualifier =? "h" then if i16 num <? 0 then (chr "-", u16 (- num)) else (0, num)
      else if i32 num <? 0 then (chr "-", u32 (- num)) else (0, num) in
    let sign :=
      if negb (sign =? "-") then
        if has type PLUS then chr "+" else if has type SPACE then chr " " else sign
      else sign in
    (sign, num)
  else (0, num).

Definition special_prefix (base type : Z) : list Z :=
  if has type SPECIAL then
    if base =? 2 then str "0b" else if base =? 8 then str "0"
    else if base =? 16 then [chr "0"; if has type LARGE then chr "X" else chr "x"] else []
  else [].

(** The writing part: padding, sign, prefix and digits. *)
Definition print_fields (e type sign precision precision_bak size : Z) (prefix tmp : list Z) (o : sink) : sink :=
  let c := if has type ZEROPAD then chr "0" else chr " " in
  let i := Z.of_nat (List.length tmp) in
  let '(size, o) :=
    if negb (has type (Z.lor ZEROPAD LEFT)) then
      let size := if negb (sign =? 0) && (0 <? size) then i32 (size - 1) else size in
      pad e " " size o
    else (size, o) in
  let '(size, o) := if negb (sign =? 0) then (i32 (size - 1), emit e o sign) else (size, o) in
  let o := emits e prefix o in
  let '(size, o) := if negb (has type LEFT) then pad e c size o else (size, o) in
  let o := emits e (replicate (Z.to_nat (precision - i)) (chr "0")) o in
  let o := if precision_bak =? 0 then o else emits e (rev tmp) o in
  snd (pad e " " size o).

Definition print_number (e num base qualifier s precision type : Z) (o : sink) : sink :=
  let precision_bak := precision in
  let size := s in
  let digits := if has type LARGE then large_digits else small_digits in
  let type := if has type LEFT then Z.land type (Z.lnot ZEROPAD) else type in
  let '(sign, num) := print_sign num qualifier type in
  let size :=
    if has type SPECIAL then
      if (base =? 2) || (base =? 16) then i32 (size - 2) else if base =? 8 then i32 (size - 1) else size
    else size in
  let tmp := tmp_digits digits num base in
  let i := Z.of_nat (List.length tmp) in
  let precision := if precision <? i then i else precision in
  let size := i32 (size - precision) in
  print_fields e type sign precision precision_bak size (special_prefix base type) tmp o.

(** ** Directives *)

(** A width or precision: not given, a number, or the next argument. *)
Inductive field := Absent | Number (n : Z) | Star.

(** What follows a [%]; the conversion is 0 at the end of the format. *)
Record directive := mk_directive { d_flags : Z; d_width : field; d_precision : field; d_qualifier : Z; d_conv : Z }.

Definition _ISDIGIT (c : Z) : bool := u32 (c - "0") <? 10.

Fixpoint skip_atoi (i : Z) (s : list Z) : Z * list Z :=
  match s with
  | c :: s' => if _ISDIGIT c then skip_atoi (i32 (i * 10 + c - "0")) s' else (i, s)
  | [] => (i, [])
  end.

Fixpoint get_flags (flags : Z) (fmt : list Z) : Z * list Z :=
  match fmt with
  | c :: fmt' =>
      if c =? "-" then get_flags (Z.lor flags LEFT) fmt'
      else if c =? "+" then get_flags (Z.lor flags PLUS) fmt'
      else if c =? " " then get_flags (Z.lor flags SPACE) fmt'
      else if c =? "#" then get_flags (Z.lor flags SPECIAL) fmt'
      else if c =? "0" then get_flags (Z.lor flags ZEROPAD) fmt'
      else (flags, fmt)
  | [] => (flags, [])
  end.

(** A number or a star at the head of the format. *)
Definition get_field (fmt : list Z) : field * list Z :=
  match fmt with
  | c :: fmt' =>
      if _ISDIGIT c then let '(n, fmt) := skip_atoi 0 fmt in (Number n, fmt)
      else if c =? "*" then (Star, fmt') else (Absent, fmt)
  | [] => (Absent, [])
  end.

Definition get_precision (fmt : list Z) : field * list Z :=
  match fmt with
  | c :: fmt' =>
      if c =? "." then
        let '(f, fmt) := get_field fmt' in
        (match f with Absent => Number 0 | f => f end, fmt)
      else (Absent, fmt)
  | [] => (Absent, [])
  end.

Definition get_qualifier (fmt : list Z) : Z * list Z :=
  match fmt with
  | c :: fmt' => if (c =? "h") || (c =? "l") then (c, fmt') else (0, fmt)
  | [] => (0, [])
  end.

Definition get_directive (fmt : list Z) : directive * list Z :=
  let '(flags, fmt) := get_flags 0 fmt in
  let '(width, fmt) := get_field fmt in
  let '(precision, fmt) := get_precision fmt in
  let '(qualifier, fmt) := get_qualifier fmt in
  let '(conv, fmt) := match fmt with c :: fmt => (c, fmt) | [] => (0, []) end in
  (mk_directive flags width precision qualifier conv, fmt).

(** ** Conversions *)

(** An argument: an integer or pointer value, or a string. *)
Inductive va := VInt (n : Z) | VStr (s : pointer (list Z)).

(** [va_arg]; [None] where the call has no defined behaviour: no argument left,
    or one of another type. *)
Definition arg_int (args : list va) : option (Z * list va) :=
  match args with VInt n :: args => Some (n, args) | _ => None end.
Definition arg_str (args : list va) : option (pointer (list Z) * list va) :=
  match args with VStr s :: args => Some (s, args) | _ => None end.

(** The width with the flags, a negative argument standing for [-]. *)
Definition field_width (d : directive) (args : list va) : option (Z * Z * list va) :=
  match d_width d with
  | Absent => Some (-1, d_flags d, args)
  | Number n => Some (n, d_flags d, args)
  | Star => '(n, args) ← arg_int args;
            let n := i32 n in
            if n <? 0 then Some (i32 (- n), Z.lor (d_flags d) LEFT, args) else Some (n, d_flags d, args)
  end.

Definition precision (d : directive) (args : list va) : option (Z * list va) :=
  match d_precision d with
  | Absent => Some (-1, args)
  | Number n => Some (if n <? 0 then 0 else n, args)
  | Star => '(n, args) ← arg_int args; let n := i32 n in Some (if n <? 0 then 0 else n, args)
  end.

(** [while (--field_width > 0)] writing blanks. *)
Definition pad_pre (e width : Z) (o : sink) : Z * sink :=
  let width := i32 (width - 1) in (Z.min width 0, emits e (replicate (Z.to_nat width) (chr " ")) o).

(** [%c]: the first padding is left out with [-]. *)
Definition convert_char (e width flags c : Z) (o : sink) : sink :=
  let '(width, o) := if negb (has flags LEFT) then pad_pre e width o else (width, o) in
  let o := emit e o (u8 c) in
  snd (pad_pre e width o).

(** The length of the string, at most [width] (a negative one is no bound). *)
Fixpoint str_len (width len : Z) (s : list Z) : Z :=
  match s with
  | [] => len
  | c :: s => if negb (len =? width) && negb (c =? 0) then str_len width (i32 (len + 1)) s else len
  end.

Definition convert_str (e width prec flags : Z) (s : pointer (list Z)) (o : sink) : sink :=
  let s := default (str "(NULL)") s in
  let len := str_len width 0 s in
  let len := if (0 <? prec) && (prec <? len) then prec else len in
  let '(width, o) :=
    if negb (has flags LEFT) then
      (i32 (Z.min width len - 1), emits e (replicate (Z.to_nat (width - len)) (chr " ")) o)
    else (width, o) in
  let o := emits e (take (Z.to_nat len) s) o in
  emits e (replicate (Z.to_nat (width - len)) (chr " ")) o.

(** The number an integer conversion reads. *)
Definition convert_num (qualifier flags n : Z) : Z :=
  if qualifier =? "l" then u32 n
  else if qualifier =? "h" then let num := u16 n in if has flags SIGN then u32 (i16 num) else num
  else u32 n.

(** Base and flags of an integer conversion. *)
Definition int_conv (conv flags : Z) : option (Z * Z) :=
  if conv =? "b" then Some (2, flags)
  else if conv =? "o" then Some (8, flags)
  else if conv =? "X" then Some (16, Z.lor flags LARGE)
  else if conv =? "x" then Some (16, flags)
  else if (conv =? "d") || (conv =? "i") then Some (10, Z.lor flags SIGN)
  else if conv =? "u" then Some (10, flags)
  else None.

Definition convert (e : Z) (d : directive) (args : list va) (o : sink) : option (list va * sink) :=
  '(width, flags, args) ← field_width d args;
  '(prec, args) ← precision d args;
  let conv := d_conv d in
  if conv =? "c" then
    '(c, args) ← arg_int args; Some (args, convert_char e width flags c o)
  else if conv =? "s" then
    '(s, args) ← arg_str args; Some (args, convert_str e width prec flags s o)
  else if conv =? "p" then
    let '(width, flags) :=
      if width =? -1 then (10, Z.lor (Z.lor flags SPECIAL) ZEROPAD) else (width, flags) in
    '(n, args) ← arg_int args;
    Some (args, print_number e (u32 n) 16 (d_qualifier d) width prec flags o)
  else if conv =? "%" then Some (args, emit e o "%")
  else match int_conv conv flags with
  | Some (base, flags) =>
      '(n, args) ← arg_int args;
      Some (args, print_number e (convert_num (d_qualifier d) flags n) base (d_qualifier d) width prec flags o)
  | None =>
      let o := emit e o "%" in
      Some (args, if conv =? 0 then o else emit e o conv)
  end.

(** ** The formatter *)

Fixpoint format_loop (fuel : nat) (e : Z) (fmt : list Z) (args : list va) (o : sink) : option sink :=
  match fuel, fmt with
  | _, [] => Some o
  | O, _ => None
  | S fuel, c :: fmt =>
      if negb (c =? "%") then format_loop fuel e fmt args (emit e o c)
      else
        let '(d, fmt) := get_directive fmt in
        '(args, o) ← convert e d args o;
        format_loop fuel e fmt args o
  end.

(** The result and the buffer, which is at address [base]; [None] where a store
    would go outside it. *)
Definition rt_vsnprintf (base : Z) (buf : list Z) (size : Z) (fmt : list Z) (args : list va) : option (Z * list Z) :=
  let e := u32 (base + size) in
  let '(e, size) := if e <? base then (2 ^ 32 - 1, u32 (2 ^ 32 - 1 - base)) else (e, size) in
  o ← format_loop (List.length fmt) e fmt args (mk_sink buf base base true);
  let o := if 0 <? size then if o_str o <? e then store o (o_str o) 0 else store o (e - 1) 0 else o in
  if o_ok o then Some (i32 (o_str o - base), o_buf o) else None.

Definition rt_snprintf (base : Z) (buf : list Z) (size : Z) (fmt : string) (args : list va) : option (Z * list Z) :=
  rt_vsnprintf base buf size (str fmt) args.

(** The string a call leaves in a local array of [size] bytes, here at an address
    in the middle of the address space; the text does not depend on it
    ([vsnprintf_text]). *)
Definition array_address : Z := 2 ^ 31.
Definition sprinted (size : nat) (fmt : string) (args : list va) : list Z :=
  match rt_snprintf array_address (zeros size) (Z.of_nat size) fmt args with
  | Some (_, buf) => cstr buf
  | None => []
  end.

(** ** Specification *)

(** The argument types a format asks for; a string has fewer than 2^31 characters. *)
Inductive kind := KInt | KStr.
Definition has_kind (a : va) (k : kind) : Prop :=
  match a, k with
  | VInt _, KInt => True
  | VStr s, KStr => Z.of_nat (List.length (default [] s)) < 2 ^ 31
  | _, _ => False
  end.

Definition field_kinds (f : field) : list kind := match f with Star => [KInt] | _ => [] end.
Definition conv_kinds (conv : Z) : list kind :=
  if conv =? "s" then [KStr]
  else if (conv =? "c") || (conv =? "p") || bool_decide (is_Some (int_conv conv 0)) then [KInt] else [].
Definition directive_kinds (d : directive) : list kind :=
  field_kinds (d_width d) ++ field_kinds (d_precision d) ++ conv_kinds (d_conv d).
Fixpoint format_kinds (fuel : nat) (fmt : list Z) : list kind :=
  match fuel, fmt with
  | S fuel, c :: fmt =>
      if c =? "%" then let '(d, fmt) := get_directive fmt in directive_kinds d ++ format_kinds fuel fmt
      else format_kinds fuel fmt
  | _, _ => []
  end.

(** The array at [base] with [end] at [base + e] takes a text [out]: neither
    wraps round, and the array reaches to [end]. *)
Definition fits (base : Z) (e : nat) (out buf : list Z) : Prop :=
  0 <= base /\ base + Z.of_nat e < 2 ^ 32 /\ base + Z.of_nat (List.length out) < 2 ^ 32 /\ (e <= List.length buf)%nat.

(** The sink after the text [out], in an array that held [buf]. *)
Definition written (base : Z) (e : nat) (out buf : list Z) : sink :=
  let k := (List.length out `min` e)%nat in
  mk_sink (take k out ++ drop k buf) base (base + Z.of_nat (List.length out)) true.

(** An operation that appends [cs] whatever the array. *)
Definition appends (f : Z -> sink -> sink) (cs : list Z) : Prop :=
  forall base e out buf, fits base e (out ++ cs) buf ->
  f (base + Z.of_nat e) (written base e out buf) = written base e (out ++ cs) buf.

(** A format with arguments that prints [out]. *)
Definition prints (fmt : list Z) (args : list va) (out : list Z) : Prop :=
  forall fuel base e pre buf, (List.length fmt <= fuel)%nat -> fits base e (pre ++ out) buf ->
  format_loop fuel (base + Z.of_nat e) fmt args (written base e pre buf) = Some (written base e (pre ++ out) buf).

(** ** Lemmas *)

Lemma take_min {A} (l : list A) n : take (length l `min` n) l = take n l.
Proof. destruct (decide (length l <= n)%nat); [rewrite Nat.min_l, !take_ge by lia; done | by rewrite Nat.min_r by lia]. Qed.

Lemma put_splice out buf c : (List.length out < List.length buf)%nat ->
  put (out ++ drop (List.length out) buf) (Z.of_nat (List.length out)) c = out ++ c :: drop (S (List.length out)) buf.
Proof.
  intros H. unfold put. rewrite Nat2Z.id, insert_take_drop by (rewrite length_app, length_drop; lia).
  rewrite take_app_length, drop_app_ge, drop_drop by lia. do 3 f_equal. lia.
Qed.

(** A part of a text that fits, fits. *)
Ltac room := unfold fits in *; rewrite ?length_app in *; cbn [List.length] in *; lia.

Lemma i32_id x : - 2 ^ 31 <= x < 2 ^ 31 -> i32 x = x.
Proof. intros H. unfold i32. rewrite Z.mod_small; lia. Qed.

Lemma emit_appends c : appends (fun e o => emit e o c) [c].
Proof.
  intros base e out buf Hr. pose proof Hr as (Hb & He & Hs & Hl). rewrite length_app in Hs. cbn [List.length] in Hs.
  unfold emit, written, store. cbn [o_str o_buf o_base]. rewrite length_app. cbn [List.length].
  rewrite !length_app, length_take, length_drop.
  destruct (Z.ltb_spec (base + Z.of_nat (List.length out)) (base + Z.of_nat e)) as [Hlt|Hge].
  - destruct (Z.leb_spec 0 (base + Z.of_nat (List.length out) - base)); [| lia].
    destruct (Z.ltb_spec (base + Z.of_nat (List.length out) - base) (Z.of_nat (List.length out `min` e `min` List.length out + (List.length buf - List.length out `min` e)))); [| lia].
    cbn [andb o_str o_buf o_base o_ok update_with eta_sink]. rewrite u32_id by wraps. f_equal; [| cbn [List.length]; lia].
    rewrite Nat.min_l, Nat.min_l, !take_ge by (rewrite ?length_app; simpl; lia).
    replace (base + Z.of_nat (List.length out) - base) with (Z.of_nat (List.length out)) by lia.
    rewrite put_splice, <- app_assoc by lia. do 3 f_equal. cbn [List.length]. lia.
  - cbn [o_str o_buf o_base o_ok update_with eta_sink]. rewrite u32_id by wraps. f_equal; [| cbn [List.length]; lia].
    rewrite !Nat.min_r by lia. f_equal. by rewrite take_app_le by lia.
Qed.

Lemma appends_id : appends (fun _ o => o) [].
Proof. intros base e out buf _. by rewrite app_nil_r. Qed.

Lemma appends_comp f g cs ds : appends f cs -> appends g ds -> appends (fun e o => g e (f e o)) (cs ++ ds).
Proof. intros Hf Hg base e out buf Hr. rewrite app_assoc in *. rewrite Hf, Hg; [done | done | room]. Qed.

Lemma emits_appends cs : appends (fun e o => emits e cs o) cs.
Proof.
  induction cs as [|c cs IH]; [apply appends_id |]. exact (appends_comp _ _ [c] cs (emit_appends c) IH).
Qed.

Lemma emits_written cs base e out buf : fits base e (out ++ cs) buf ->
  emits (base + Z.of_nat e) cs (written base e out buf) = written base e (out ++ cs) buf.
Proof. apply emits_appends. Qed.

Lemma emit_written c base e out buf : fits base e (out ++ [c]) buf ->
  emit (base + Z.of_nat e) (written base e out buf) c = written base e (out ++ [c]) buf.
Proof. apply emit_appends. Qed.

(** Follows the characters an operation writes. *)
Ltac follow := repeat (first [rewrite emits_written | rewrite emit_written]; [| room]); rewrite <- ?app_assoc, ?app_nil_r.

(** The text of a number: blanks up to the width, the sign, the prefix, zeros or
    blanks up to the width, zeros up to the precision, the digits, blanks up to
    the width; [size] is what is left of the width. *)
Definition fields_text (type sign precision precision_bak size : Z) (prefix tmp : list Z) : list Z :=
  let i := Z.of_nat (List.length tmp) in
  let '(size, blanks) :=
    if negb (has type (Z.lor ZEROPAD LEFT)) then
      let size := if negb (sign =? 0) && (0 <? size) then i32 (size - 1) else size in
      (pad_left size, replicate (Z.to_nat size) (chr " "))
    else (size, []) in
  let '(size, sign) := if negb (sign =? 0) then (i32 (size - 1), [sign]) else (size, []) in
  let '(size, fill) :=
    if negb (has type LEFT) then (pad_left size, replicate (Z.to_nat size) (if has type ZEROPAD then chr "0" else chr " ")) else (size, []) in
  blanks ++ sign ++ prefix ++ fill ++ replicate (Z.to_nat (precision - i)) (chr "0") ++
  (if precision_bak =? 0 then [] else rev tmp) ++ replicate (Z.to_nat size) (chr " ").
Definition number_text (num base qualifier width prec type : Z) : list Z :=
  let digits := if has type LARGE then large_digits else small_digits in
  let type := if has type LEFT then Z.land type (Z.lnot ZEROPAD) else type in
  let '(sign, num) := print_sign num qualifier type in
  let prefix := special_prefix base type in
  let tmp := tmp_digits digits num base in
  let n := Z.max prec (Z.of_nat (List.length tmp)) in
  fields_text type sign n prec (i32 (i32 (width - Z.of_nat (List.length prefix)) - n)) prefix tmp.

Lemma print_fields_appends type sign precision precision_bak size prefix tmp :
  appends (fun e => print_fields e type sign precision precision_bak size prefix tmp)
    (fields_text type sign precision precision_bak size prefix tmp).
Proof.
  intros base e out buf. unfold print_fields, fields_text, pad. cbn [snd].
  destruct (negb (has type (Z.lor ZEROPAD LEFT))), (negb (sign =? 0)), (negb (has type LEFT)), (precision_bak =? 0);
    cbn [andb]; intros Hr; follow; done.
Qed.

(** A field width is an [int]. *)
Definition is_int (x : Z) : Prop := - 2 ^ 31 <= x < 2 ^ 31.

Lemma i32_int x : is_int (i32 x).
Proof. unfold is_int, i32. pose proof (Z.mod_pos_bound (x + 2 ^ 31) (2 ^ 32)). lia. Qed.

Lemma special_size base type size : base ∈ [2; 8; 10; 16] -> is_int size ->
  (if has type SPECIAL then if (base =? 2) || (base =? 16) then i32 (size - 2) else if base =? 8 then i32 (size - 1) else size else size) =
  i32 (size - Z.of_nat (List.length (special_prefix base type))).
Proof.
  unfold special_prefix. intros Hb Hs. assert (i32 (size - 0) = size) as E by (rewrite Z.sub_0_r; by apply i32_id).
  destruct (has type SPECIAL); [| symmetry; exact E]. rewrite !elem_of_cons, elem_of_nil in Hb.
  destruct Hb as [->|[->|[->|[->|[]]]]]; cbn [Z.eqb Pos.eqb orb]; first [reflexivity | symmetry; exact E].
Qed.

Lemma max_if a b : (if a <? b then b else a) = Z.max a b.
Proof. destruct (Z.ltb_spec a b); lia. Qed.

Lemma print_number_appends num nbase qualifier width prec type : nbase ∈ [2; 8; 10; 16] -> is_int width ->
  appends (fun e => print_number e num nbase qualifier width prec type) (number_text num nbase qualifier width prec type).
Proof.
  intros Hb Hw base e out buf. unfold print_number, number_text. destruct (print_sign _ _ _) as [sign n].
  rewrite special_size, max_if by done. apply print_fields_appends.
Qed.

(** The text of a character and of a string. *)
Definition char_text (width flags c : Z) : list Z :=
  let pre := i32 (width - 1) in
  if has flags LEFT then u8 c :: replicate (Z.to_nat pre) (chr " ")
  else replicate (Z.to_nat pre) (chr " ") ++ u8 c :: replicate (Z.to_nat (i32 (Z.min pre 0 - 1))) (chr " ").
Definition string_text (width prec flags : Z) (s : pointer (list Z)) : list Z :=
  let s := default (str "(NULL)") s in
  let len := str_len width 0 s in
  let len := if (0 <? prec) && (prec <? len) then prec else len in
  let blanks width := replicate (Z.to_nat (width - len)) (chr " ") in
  if has flags LEFT then take (Z.to_nat len) s ++ blanks width
  else blanks width ++ take (Z.to_nat len) s ++ blanks (i32 (Z.min width len - 1)).

Lemma convert_char_appends width flags c : appends (fun e => convert_char e width flags c) (char_text width flags c).
Proof.
  intros base e out buf. unfold convert_char, char_text, pad_pre. destruct (has flags LEFT); cbn [negb snd]; intros Hr; follow; done.
Qed.

Lemma convert_str_appends width prec flags s : appends (fun e => convert_str e width prec flags s) (string_text width prec flags s).
Proof.
  intros base e out buf. unfold convert_str, string_text. set (len := if _ && _ then prec else _).
  destruct (has flags LEFT); cbn [negb]; intros Hr; follow; done.
Qed.

Lemma int_conv_some conv flags base flags' : int_conv conv flags = Some (base, flags') -> base ∈ [2; 8; 10; 16].
Proof.
  unfold int_conv. intros H. apply (bool_decide_unpack _). repeat case_match; simplify_eq; by vm_compute.
Qed.

Lemma int_conv_flags conv flags flags' : is_Some (int_conv conv flags) <-> is_Some (int_conv conv flags').
Proof. unfold int_conv. repeat case_match; split; intros []; simplify_eq; eauto. Qed.

(** Arguments of the types a part of the format asks for. *)
Abbreviation kinded args ks := (Forall2 has_kind args ks).

Definition int_field (f : field) : Prop := match f with Number n => is_int n | _ => True end.

Lemma field_width_spec d args1 args2 : kinded args1 (field_kinds (d_width d)) ->
  exists width flags, field_width d (args1 ++ args2) = Some (width, flags, args2).
Proof.
  unfold field_width. destruct (d_width d) as [|n|]; cbn [field_kinds]; intros H.
  - apply Forall2_nil_inv_r in H as ->. by eexists _, _.
  - apply Forall2_nil_inv_r in H as ->. by eexists _, _.
  - inversion H as [|[n|] k args' ks' Ha Hr]; subst; [| done]. apply Forall2_nil_inv_r in Hr as ->. cbn.
    destruct (_ <? 0); by eexists _, _.
Qed.

Lemma precision_spec d args1 args2 : kinded args1 (field_kinds (d_precision d)) ->
  exists prec, precision d (args1 ++ args2) = Some (prec, args2).
Proof.
  unfold precision. destruct (d_precision d) as [|n|]; cbn [field_kinds]; intros H.
  - apply Forall2_nil_inv_r in H as ->. by eexists.
  - apply Forall2_nil_inv_r in H as ->. by eexists.
  - inversion H as [|[n|] k args' ks' Ha Hr]; subst; [| done]. apply Forall2_nil_inv_r in Hr as ->. by eexists.
Qed.

(** What a directive makes of its arguments, whatever the buffer. *)
Definition converts (d : directive) (args args' : list va) (cs : list Z) : Prop :=
  forall base e out buf, fits base e (out ++ cs) buf ->
  convert (base + Z.of_nat e) d args (written base e out buf) = Some (args', written base e (out ++ cs) buf).

Lemma arg_int_spec args1 args2 : kinded args1 [KInt] -> exists n, arg_int (args1 ++ args2) = Some (n, args2).
Proof.
  intros H. inversion H as [|[n|] k args' ks' Ha Hr]; subst; [| done]. apply Forall2_nil_inv_r in Hr as ->. by exists n.
Qed.

Lemma arg_str_spec args1 args2 : kinded args1 [KStr] -> exists s, arg_str (args1 ++ args2) = Some (s, args2).
Proof.
  intros H. inversion H as [|[n|s] k args' ks' Ha Hr]; subst; [done |]. apply Forall2_nil_inv_r in Hr as ->. by exists s.
Qed.

(** The text a directive makes of its arguments. *)
Definition convert_text (d : directive) (args : list va) : option (list va * list Z) :=
  '(width, flags, args) ← field_width d args;
  '(prec, args) ← precision d args;
  let conv := d_conv d in
  if conv =? "c" then '(c, args) ← arg_int args; Some (args, char_text width flags c)
  else if conv =? "s" then '(s, args) ← arg_str args; Some (args, string_text width prec flags s)
  else if conv =? "p" then
    '(n, args) ← arg_int args;
    Some (args, if width =? -1 then number_text (u32 n) 16 (d_qualifier d) 10 prec (Z.lor (Z.lor flags SPECIAL) ZEROPAD)
                else number_text (u32 n) 16 (d_qualifier d) width prec flags)
  else if conv =? "%" then Some (args, [chr "%"])
  else match int_conv conv flags with
  | Some (base, flags) =>
      '(n, args) ← arg_int args;
      Some (args, number_text (convert_num (d_qualifier d) flags n) base (d_qualifier d) width prec flags)
  | None => Some (args, chr "%" :: if conv =? 0 then [] else [conv])
  end.

Lemma field_width_int d args width flags args' : int_field (d_width d) -> field_width d args = Some (width, flags, args') -> is_int width.
Proof.
  unfold field_width. destruct (d_width d) as [|n|]; cbn [int_field]; intros Hi H; [by simplify_eq | by simplify_eq |].
  destruct (arg_int args) as [[n rest]|]; cbn in H; [| done]. destruct (_ <? 0); simplify_eq; apply i32_int.
Qed.

Lemma convert_text_converts d args args' cs : int_field (d_width d) -> convert_text d args = Some (args', cs) -> converts d args args' cs.
Proof.
  unfold convert_text. intros Hi H base e out buf. unfold convert.
  destruct (field_width d args) as [[[width flags] args1]|] eqn:Ew; [| done]. apply field_width_int in Ew; [| done].
  cbn [mbind option_bind] in *. destruct (precision d args1) as [[prec args2]|]; [| done]. cbn [mbind option_bind] in *.
  destruct (d_conv d =? "c"); [destruct (arg_int args2) as [[]|]; cbn in *; simplify_eq; intros Hr; by rewrite convert_char_appends |].
  destruct (d_conv d =? "s"); [destruct (arg_str args2) as [[]|]; cbn in *; simplify_eq; intros Hr; by rewrite convert_str_appends |].
  destruct (d_conv d =? "p").
  { destruct (width =? -1), (arg_int args2) as [[]|]; cbn [mbind option_bind] in *; simplify_eq; intros Hr;
      (rewrite print_number_appends; [done | by apply (bool_decide_unpack _) | done | done]). }
  destruct (d_conv d =? "%"); [simplify_eq; intros Hr; by rewrite emit_written |].
  destruct (int_conv (d_conv d) flags) as [[nb fl]|] eqn:Ei.
  - destruct (arg_int args2) as [[]|]; cbn [mbind option_bind] in *; simplify_eq. intros Hr.
    rewrite print_number_appends; [done | by eapply int_conv_some | done | done].
  - simplify_eq. destruct (d_conv d =? 0); intros Hr; follow; done.
Qed.

Lemma convert_text_total d args1 args2 : kinded args1 (directive_kinds d) -> exists cs, convert_text d (args1 ++ args2) = Some (args2, cs).
Proof.
  unfold directive_kinds. intros H. apply Forall2_app_inv_r in H as (a & bc & Ha & Hbc & ->).
  apply Forall2_app_inv_r in Hbc as (b & c & Hb & Hc & ->). rewrite <- !app_assoc.
  destruct (field_width_spec d a (b ++ c ++ args2) Ha) as (width & flags & Hw).
  destruct (precision_spec d b (c ++ args2) Hb) as (prec & Hp).
  unfold convert_text. rewrite Hw. cbn [mbind option_bind]. rewrite Hp. cbn [mbind option_bind].
  unfold conv_kinds in Hc. destruct (d_conv d =? "c") eqn:Ec.
  { apply Z.eqb_eq in Ec. rewrite Ec in Hc. destruct (arg_int_spec c args2 Hc) as (n & ->). by eexists. }
  destruct (d_conv d =? "s") eqn:Es; [destruct (arg_str_spec c args2 Hc) as (s & ->); by eexists |].
  destruct (d_conv d =? "p") eqn:Ep; [destruct (arg_int_spec c args2 Hc) as (n & ->); by eexists |].
  destruct (d_conv d =? "%") eqn:Epc.
  { apply Z.eqb_eq in Epc. rewrite Epc in Hc. apply Forall2_nil_inv_r in Hc as ->. by eexists. }
  cbn [orb] in Hc. destruct (int_conv (d_conv d) flags) as [[base fl]|] eqn:Ei.
  - rewrite bool_decide_true in Hc by (apply (int_conv_flags _ _ flags); by rewrite Ei).
    destruct (arg_int_spec c args2 Hc) as (n & ->). by eexists.
  - rewrite bool_decide_false in Hc by (rewrite (int_conv_flags _ _ flags), Ei; by intros []).
    apply Forall2_nil_inv_r in Hc as ->. by eexists.
Qed.

(** *** Formats *)

Lemma skip_atoi_length i s : (List.length (snd (skip_atoi i s)) <= List.length s)%nat.
Proof. revert i. induction s as [|c s IH]; intros i; cbn; [lia |]. destruct (_ISDIGIT c); cbn; [| lia]. specialize (IH (i32 (i * 10 + c - chr "0"))). lia. Qed.

Lemma skip_atoi_int i s : is_int i -> is_int (fst (skip_atoi i s)).
Proof. revert i. induction s as [|c s IH]; intros i Hi; cbn; [done |]. destruct (_ISDIGIT c); [apply IH, i32_int | done]. Qed.

Lemma get_field_int s : int_field (fst (get_field s)).
Proof.
  destruct s as [|c s]; [done |]. unfold get_field. pose proof (skip_atoi_int 0 (c :: s) ltac:(unfold is_int; lia)) as H.
  destruct (_ISDIGIT c); [destruct (skip_atoi 0 (c :: s)); exact H |]. by destruct (c =? "*").
Qed.

Lemma get_directive_int s : int_field (d_width (fst (get_directive s))).
Proof.
  unfold get_directive. destruct (get_flags 0 s) as [fl s1]. pose proof (get_field_int s1) as H. destruct (get_field s1) as [w s2].
  destruct (get_precision s2) as [p s3]. by destruct (get_qualifier s3) as [q [|c s4]].
Qed.

Lemma get_flags_length flags s : (List.length (snd (get_flags flags s)) <= List.length s)%nat.
Proof.
  revert flags. induction s as [|c s IH]; intros flags; cbn [get_flags snd List.length]; [lia |].
  repeat (case_match; [etransitivity; [apply IH | lia] |]). cbn. lia.
Qed.

Lemma get_field_length s : (List.length (snd (get_field s)) <= List.length s)%nat.
Proof.
  destruct s as [|c s]; [cbn; lia |]. unfold get_field. pose proof (skip_atoi_length 0 (c :: s)) as H.
  destruct (_ISDIGIT c); [destruct (skip_atoi 0 (c :: s)); exact H |]. destruct (c =? "*"); cbn; lia.
Qed.

Lemma get_precision_length s : (List.length (snd (get_precision s)) <= List.length s)%nat.
Proof.
  destruct s as [|c s]; [cbn; lia |]. unfold get_precision. pose proof (get_field_length s) as H.
  destruct (c =? "."); [| cbn; lia]. destruct (get_field s) as [f s']. cbn in *. lia.
Qed.

Lemma get_directive_length s : (List.length (snd (get_directive s)) <= List.length s)%nat.
Proof.
  unfold get_directive. pose proof (get_flags_length 0 s) as H1. destruct (get_flags 0 s) as [fl s1].
  pose proof (get_field_length s1) as H2. destruct (get_field s1) as [w s2].
  pose proof (get_precision_length s2) as H3. destruct (get_precision s2) as [p s3].
  assert (List.length (snd (get_qualifier s3)) <= List.length s3)%nat as H4.
  { destruct s3 as [|c s3]; cbn; [lia |]. destruct (_ || _); cbn; lia. }
  destruct (get_qualifier s3) as [q [|c s4]]; cbn in *; lia.
Qed.

Lemma prints_nil args : prints [] args [].
Proof. intros [|fuel] base e pre buf _ _; cbn [format_loop]; by rewrite app_nil_r. Qed.

Lemma prints_char c fmt args out : c <> chr "%" -> prints fmt args out -> prints (c :: fmt) args (c :: out).
Proof.
  intros Hc H [|fuel] base e pre buf Hf Hr; cbn [List.length] in Hf; [lia |]. cbn [format_loop].
  rewrite (proj2 (Z.eqb_neq _ _) Hc). cbn [negb]. rewrite emit_written by room. rewrite H by (lia || room). by rewrite <- app_assoc.
Qed.

Lemma prints_directive fmt d fmt' args args' cs out :
  get_directive fmt = (d, fmt') -> converts d args args' cs -> prints fmt' args' out -> prints (chr "%" :: fmt) args (cs ++ out).
Proof.
  intros Hd Hc H [|fuel] base e pre buf Hf Hr; cbn [List.length] in Hf; [lia |]. cbn [format_loop].
  pose proof (get_directive_length fmt) as Hl. rewrite Hd in *. cbn [negb Z.eqb Pos.eqb chr].
  change (chr "%" =? chr "%") with true. cbn [negb]. rewrite Hc by room. cbn [mbind option_bind snd] in *.
  rewrite H by (lia || room). by rewrite app_assoc.
Qed.

(** The text a format makes of its arguments. *)
Fixpoint format_text (fuel : nat) (fmt : list Z) (args : list va) : option (list Z) :=
  match fuel, fmt with
  | _, [] => Some []
  | O, _ => None
  | S fuel, c :: fmt =>
      if negb (c =? "%") then out ← format_text fuel fmt args; Some (c :: out)
      else
        let '(d, fmt) := get_directive fmt in
        '(args, cs) ← convert_text d args;
        out ← format_text fuel fmt args; Some (cs ++ out)
  end.

Lemma format_text_prints n fmt args out : format_text n fmt args = Some out -> prints fmt args out.
Proof.
  revert fmt args out. induction n as [|n IH]; intros [|c fmt] args out H; cbn [format_text] in H; simplify_eq; try apply prints_nil.
  destruct (Z.eqb_spec c "%") as [->|Hc]; cbn [negb] in H.
  - pose proof (get_directive_int fmt) as Hi. destruct (get_directive fmt) as [d fmt'] eqn:Ed. cbn [fst] in Hi.
    destruct (convert_text d args) as [[args' cs]|] eqn:Ec; [| done]. cbn [mbind option_bind] in H.
    destruct (format_text n fmt' args') as [out'|] eqn:Ef; [| done]. cbn in H. simplify_eq.
    eapply prints_directive; [done | by apply convert_text_converts | by apply IH].
  - destruct (format_text n fmt args) as [out'|] eqn:Ef; [| done]. cbn in H. simplify_eq. apply prints_char; [done | by apply IH].
Qed.

Lemma format_text_total n fmt args : (List.length fmt <= n)%nat -> kinded args (format_kinds n fmt) -> exists out, format_text n fmt args = Some out.
Proof.
  revert fmt args. induction n as [|n IH]; intros [|c fmt] args Hn Hk; cbn [List.length] in Hn; try lia; try by eexists.
  cbn [format_kinds format_text] in *. destruct (c =? "%"); cbn [negb].
  - pose proof (get_directive_length fmt) as Hl. destruct (get_directive fmt) as [d fmt']. cbn [snd] in Hl.
    apply Forall2_app_inv_r in Hk as (args1 & args2 & H1 & H2 & ->).
    destruct (convert_text_total d args1 args2 H1) as [cs ->]. destruct (IH fmt' args2 ltac:(lia) H2) as [out Hout].
    cbn [mbind option_bind]. rewrite Hout. by eexists.
  - destruct (IH fmt args ltac:(lia) Hk) as [out ->]. by eexists.
Qed.

(** The result of a call: the text, cut to the buffer and terminated.  The end of
    the buffer is limited to the last address. *)
Definition room_for (base size : Z) : nat := Z.to_nat (Z.min size (2 ^ 32 - 1 - base)).

Lemma vsnprintf_end base size : is_u32 base -> is_u32 size ->
  (if u32 (base + size) <? base then (2 ^ 32 - 1, u32 (2 ^ 32 - 1 - base)) else (u32 (base + size), size)) =
  (base + Z.of_nat (room_for base size), Z.of_nat (room_for base size)).
Proof.
  unfold is_u32, room_for. intros Hb Hs. destruct (Z.lt_ge_cases (base + size) (2 ^ 32)).
  - rewrite u32_id by wraps. destruct (Z.ltb_spec (base + size) base); [lia |]. f_equal; lia.
  - assert (u32 (base + size) = base + size - 2 ^ 32) as -> by wraps.
    destruct (Z.ltb_spec (base + size - 2 ^ 32) base); [| lia]. rewrite u32_id by wraps. f_equal; lia.
Qed.

Lemma vsnprintf_text fmt args out base buf size : prints fmt args out ->
  is_u32 base -> is_u32 size -> base + Z.of_nat (List.length out) < 2 ^ 32 -> (room_for base size <= List.length buf)%nat ->
  let k := (List.length out `min` (room_for base size - 1))%nat in
  rt_vsnprintf base buf size fmt args =
    Some (i32 (Z.of_nat (List.length out)), if (room_for base size =? 0)%nat then buf else take k out ++ 0 :: drop (S k) buf).
Proof.
  intros Hp Hb Hs Ho Hl k. unfold rt_vsnprintf. rewrite vsnprintf_end by done. set (e := room_for base size) in *.
  assert (base + Z.of_nat e < 2 ^ 32) as He by (subst e; unfold room_for, is_u32 in *; lia). clearbody e. destruct Hb as [Hb _].
  pose proof (Hp (List.length fmt) base e [] buf ltac:(lia) ltac:(done)) as E.
  assert (written base e [] buf = mk_sink buf base base true) as E0 by (unfold written; cbn; f_equal; lia).
  rewrite E0 in E. rewrite E. cbn [mbind option_bind app]. unfold written, store. cbn [o_str o_buf o_base].
  replace (base + Z.of_nat (List.length out) - base) with (Z.of_nat (List.length out)) by lia.
  rewrite !length_app, length_take, length_drop. subst k.
  destruct (Nat.eqb_spec e 0) as [->|]; [change (0 <? Z.of_nat 0) with false; cbn [o_ok o_str o_buf]; rewrite Nat.min_0_r; f_equal; f_equal; f_equal; lia |].
  destruct (Z.ltb_spec 0 (Z.of_nat e)); [| lia].
  destruct (Z.ltb_spec (base + Z.of_nat (List.length out)) (base + Z.of_nat e)).
  - rewrite (proj2 (Z.leb_le 0 _)), (proj2 (Z.ltb_lt _ _)) by lia. cbn [andb o_ok o_str o_buf update_with eta_sink].
    replace (base + Z.of_nat (List.length out) - base) with (Z.of_nat (List.length out)) by lia.
    do 2 f_equal. rewrite !Nat.min_l, !take_ge by lia. by apply put_splice; lia.
  - rewrite (proj2 (Z.leb_le 0 _)), (proj2 (Z.ltb_lt _ _)) by lia. cbn [andb o_ok o_str o_buf update_with eta_sink].
    replace (base + Z.of_nat (List.length out) - base) with (Z.of_nat (List.length out)) by lia.
    do 2 f_equal. rewrite !Nat.min_r by lia. unfold put. replace (Z.to_nat (base + Z.of_nat e - 1 - base)) with (e - 1)%nat by lia.
    rewrite insert_take_drop by (rewrite length_app, length_take, length_drop; lia).
    replace (S (e - 1)) with e by lia. rewrite take_app_le, take_take, Nat.min_l by (rewrite ?length_take; lia).
    rewrite drop_app_ge, length_take, Nat.min_l, Nat.sub_diag by (rewrite ?length_take; lia). done.
Qed.

(** *** Decimal numbers *)

(** [%u] and [%0<width>u]: the digits, and at least [width] of them. *)
Fixpoint dec_loop (fuel : nat) (n : Z) (acc : list Z) : list Z :=
  match fuel with
  | O => acc
  | S fuel => let acc := (48 + n mod 10) :: acc in if n / 10 =? 0 then acc else dec_loop fuel (n / 10) acc
  end.
Definition fmt_u (n : Z) : list Z := dec_loop 10 n [].
Definition fmt_0u (width : nat) (n : Z) : list Z :=
  let s := fmt_u n in replicate (width - List.length s) 48 ++ s.

Lemma small_digit i : 0 <= i < 10 -> get small_digits i = 48 + i.
Proof.
  intros H. assert (forallb (fun i => get small_digits i =? 48 + i) (map Z.of_nat (seq 0 10)) = true) as Hall by by vm_compute.
  rewrite forallb_forall in Hall. apply Z.eqb_eq, Hall, in_map_iff. exists (Z.to_nat i). split; [lia | apply in_seq; lia].
Qed.

Lemma digit_loop_dec fuel n acc k : 0 < n < 10 ^ Z.of_nat fuel -> (fuel <= k)%nat ->
  rev (digit_loop k small_digits n 10) ++ acc = dec_loop fuel n acc.
Proof.
  revert n acc k. induction fuel as [|fuel IH]; intros n acc [|k] Hn Hk; try (simpl in Hn; lia). cbn [digit_loop dec_loop divide].
  destruct (Z.eqb_spec n 0); [lia |]. rewrite small_digit by lia. cbn [rev].
  rewrite <- app_assoc. cbn [app]. destruct (Z.eqb_spec (n / 10) 0) as [E|E].
  - rewrite E. destruct k; reflexivity.
  - apply IH; [| lia]. rewrite Nat2Z.inj_succ, Z.pow_succ_r in Hn by lia. lia.
Qed.

Lemma tmp_digits_dec n : is_u32 n -> rev (tmp_digits small_digits n 10) = fmt_u n.
Proof.
  unfold is_u32. intros Hn. unfold tmp_digits, fmt_u. destruct (Z.eqb_spec n 0) as [->|]; [done |].
  rewrite <- (digit_loop_dec 10 n [] 32), app_nil_r; [done | simpl; lia | lia].
Qed.

Lemma tmp_digits_length n : is_u32 n -> List.length (tmp_digits small_digits n 10) = List.length (fmt_u n).
Proof. intros Hn. by rewrite <- (tmp_digits_dec n), length_rev. Qed.

(** The directives the display uses. *)
Definition u_directive (qualifier : Z) (width : field) (flags : Z) : directive := mk_directive flags width Absent qualifier (chr "u").

Lemma fmt_u_length n : (List.length (fmt_u n) <= 10)%nat.
Proof.
  assert (forall fuel n acc, (List.length (dec_loop fuel n acc) <= fuel + List.length acc)%nat) as H.
  { clear n. induction fuel as [|fuel IH]; intros n acc; cbn [dec_loop]; [lia |]. destruct (_ =? 0); [cbn; lia |].
    etransitivity; [apply IH |]. cbn. lia. }
  apply (H 10%nat n []).
Qed.

Lemma number_text_u q n : is_u32 n -> number_text n 10 q (-1) (-1) 0 = fmt_u n.
Proof.
  intros Hn. pose proof (fmt_u_length n) as Hl.
  unfold number_text, fields_text. change (has 0 LARGE) with false. change (has 0 LEFT) with false. cbn [negb andb orb].
  change (has 0 (Z.lor ZEROPAD LEFT)) with false. change (print_sign n q 0) with (0, n). cbn [Z.eqb app List.length negb andb].
  change (special_prefix 10 0) with (@nil Z). cbn [app List.length].
  rewrite tmp_digits_dec, tmp_digits_length, (Z.max_r (-1)), Z.sub_diag by (done || lia).
  rewrite (i32_id (-1 - Z.of_nat 0)), (i32_id (_ - Z.of_nat (List.length (fmt_u n)))) by lia. unfold pad_left.
  rewrite !Z.min_l by (rewrite ?i32_id; lia). rewrite !i32_id by (rewrite ?i32_id; lia). rewrite !Z2Nat.nonpos by (rewrite ?i32_id; lia).
  change (has 0 LEFT) with false. cbn [negb replicate app]. rewrite Z2Nat.nonpos by lia. cbn [replicate]. by rewrite app_nil_r.
Qed.

Lemma number_text_0u q (w : nat) n : (0 < w < 100)%nat -> is_u32 n ->
  number_text n 10 q (Z.of_nat w) (-1) ZEROPAD = fmt_0u w n.
Proof.
  intros Hw Hn. pose proof (fmt_u_length n) as Hl.
  unfold number_text, fields_text. change (has ZEROPAD LARGE) with false. change (has ZEROPAD LEFT) with false. cbn [negb andb orb].
  change (has ZEROPAD (Z.lor ZEROPAD LEFT)) with true.
  change (print_sign n q ZEROPAD) with (0, n). cbn [Z.eqb app List.length negb andb].
  change (special_prefix 10 ZEROPAD) with (@nil Z). change (has ZEROPAD ZEROPAD) with true. change (has ZEROPAD LEFT) with false.
  cbn [app List.length negb].
  rewrite tmp_digits_dec, tmp_digits_length, (Z.max_r (-1)), Z.sub_diag by (done || lia).
  rewrite (i32_id (Z.of_nat w - Z.of_nat 0)), (i32_id (_ - Z.of_nat (List.length (fmt_u n)))) by lia. unfold pad_left.
  rewrite (Z2Nat.nonpos (i32 _)), (Z2Nat.nonpos 0) by (rewrite ?i32_id; lia). cbn [replicate app]. rewrite app_nil_r.
  unfold fmt_0u. do 2 f_equal. lia.
Qed.

Lemma converts_u q n args : q ∈ [0; chr "l"] -> is_u32 n -> converts (u_directive q Absent 0) (VInt n :: args) args (fmt_u n).
Proof.
  intros Hq Hn base e out buf Hr.
  assert (forall o, convert (base + Z.of_nat e) (u_directive q Absent 0) (VInt n :: args) o =
    Some (args, print_number (base + Z.of_nat e) n 10 q (-1) (-1) 0 o)) as ->.
  { intros o. rewrite <- (u32_id n Hn) at 2. apply elem_of_cons in Hq as [->|Hq]; [done |]. by apply list_elem_of_singleton in Hq as ->. }
  rewrite <- (number_text_u q n) in * by done.
  rewrite print_number_appends; [done | by apply (bool_decide_unpack _) | unfold is_int; lia | done].
Qed.

Lemma converts_0u q (w : nat) n args : q ∈ [0; chr "l"] -> (0 < w < 100)%nat -> is_u32 n ->
  converts (u_directive q (Number (Z.of_nat w)) ZEROPAD) (VInt n :: args) args (fmt_0u w n).
Proof.
  intros Hq Hw Hn base e out buf Hr.
  assert (forall o, convert (base + Z.of_nat e) (u_directive q (Number (Z.of_nat w)) ZEROPAD) (VInt n :: args) o =
    Some (args, print_number (base + Z.of_nat e) n 10 q (Z.of_nat w) (-1) ZEROPAD o)) as ->.
  { intros o. rewrite <- (u32_id n Hn) at 2. apply elem_of_cons in Hq as [->|Hq]; [done |]. by apply list_elem_of_singleton in Hq as ->. }
  rewrite <- (number_text_0u q w n) in * by done.
  rewrite print_number_appends; [done | by apply (bool_decide_unpack _) | unfold is_int; lia | done].
Qed.

Lemma str_len_all s len : Forall (fun c => c <> 0) s -> 0 <= len -> len + Z.of_nat (List.length s) < 2 ^ 31 ->
  str_len (-1) len s = len + Z.of_nat (List.length s).
Proof.
  intros Hs. revert len. induction Hs as [|c s Hc _ IH]; intros len Hl Hb; cbn [str_len List.length] in *; [lia |].
  rewrite (proj2 (Z.eqb_neq len (-1))), (proj2 (Z.eqb_neq c 0)) by lia. cbn [negb andb]. rewrite i32_id, IH; lia.
Qed.

Lemma converts_str s args : Forall (fun c => c <> 0) s -> Z.of_nat (List.length s) < 2 ^ 31 ->
  converts (mk_directive 0 Absent Absent 0 (chr "s")) (VStr (Some s) :: args) args s.
Proof.
  intros Hs Hb base e out buf Hr.
  assert (forall o, convert (base + Z.of_nat e) (mk_directive 0 Absent Absent 0 (chr "s")) (VStr (Some s) :: args) o =
    Some (args, convert_str (base + Z.of_nat e) (-1) (-1) 0 (Some s) o)) as -> by done.
  assert (string_text (-1) (-1) 0 (Some s) = s) as E.
  { unfold string_text. change (has 0 LEFT) with false. change (default (str "(NULL)") (Some s)) with s. cbn [Z.ltb Z.compare andb].
    rewrite str_len_all, Z.add_0_l, Z.min_l, (i32_id (-1 - 1)), !(Z2Nat.nonpos (_ - Z.of_nat (List.length s))) by (done || lia).
    cbn [replicate app]. rewrite app_nil_r. apply take_ge. lia. }
  rewrite <- E in Hr at 1. rewrite convert_str_appends by done. by rewrite E.
Qed.

(** No digit is a terminator. *)
Lemma dec_loop_nonzero fuel n acc : 0 <= n -> Forall (fun c => c <> 0) acc -> Forall (fun c => c <> 0) (dec_loop fuel n acc).
Proof.
  revert n acc. induction fuel as [|fuel IH]; intros n acc Hn Ha; [done |]. cbn [dec_loop].
  assert (Forall (fun c => c <> 0) ((48 + n mod 10) :: acc)) by (constructor; [lia | done]).
  destruct (_ =? 0); [done | apply IH; [lia | done]].
Qed.

Lemma fmt_u_nonzero n : is_u32 n -> Forall (fun c => c <> 0) (fmt_u n).
Proof. intros [Hn _]. by apply dec_loop_nonzero. Qed.

Lemma fmt_0u_nonzero w n : is_u32 n -> Forall (fun c => c <> 0) (fmt_0u w n).
Proof. intros Hn. apply Forall_app_2; [by apply Forall_replicate | by apply fmt_u_nonzero]. Qed.

Lemma cstr_text s l : Forall (fun c => c <> 0) s -> cstr (s ++ 0 :: l) = s.
Proof.
  induction 1 as [|c s Hc _ IH]; [done |]. cbn [app cstr]. by rewrite (proj2 (Z.eqb_neq _ _) Hc), IH.
Qed.

(** A call on a local array leaves the text, cut to the array. *)
Lemma sprinted_text size fmt args out : (0 < size)%nat -> Z.of_nat size < 2 ^ 31 -> Z.of_nat (List.length out) < 2 ^ 31 ->
  prints (str fmt) args out -> Forall (fun c => c <> 0) out ->
  sprinted size fmt args = take (size - 1) out.
Proof.
  intros Hs Hb Ho Hp Hz. unfold sprinted, rt_snprintf.
  assert (room_for array_address (Z.of_nat size) = size) as E by (unfold room_for, array_address; lia).
  rewrite (vsnprintf_text _ _ _ _ _ _ Hp); rewrite ?E; try (unfold is_u32, array_address, zeros; rewrite ?length_replicate; lia).
  destruct (Nat.eqb_spec size 0); [lia |]. rewrite cstr_text by by apply Forall_take. apply take_min.
Qed.

(** The directives that occur, as the characters they are written with. *)
Section Directives.
Context (fmt : list Z) (args : list va) (out : list Z) (Hout : prints fmt args out).

Lemma prints_u n : is_u32 n -> prints (37 :: 117 :: fmt) (VInt n :: args) (fmt_u n ++ out).
Proof. intros Hn. eapply prints_directive; [reflexivity | apply (converts_u 0); [apply (bool_decide_unpack _); by vm_compute | done] | done]. Qed.

Lemma prints_lu n : is_u32 n -> prints (37 :: 108 :: 117 :: fmt) (VInt n :: args) (fmt_u n ++ out).
Proof. intros Hn. eapply prints_directive; [reflexivity | apply (converts_u (chr "l")); [apply (bool_decide_unpack _); by vm_compute | done] | done]. Qed.

Lemma prints_02u n : is_u32 n -> prints (37 :: 48 :: 50 :: 117 :: fmt) (VInt n :: args) (fmt_0u 2 n ++ out).
Proof. intros Hn. eapply prints_directive; [reflexivity | apply (converts_0u 0 2); [apply (bool_decide_unpack _); by vm_compute | lia | done] | done]. Qed.

Lemma prints_03u n : is_u32 n -> prints (37 :: 48 :: 51 :: 117 :: fmt) (VInt n :: args) (fmt_0u 3 n ++ out).
Proof. intros Hn. eapply prints_directive; [reflexivity | apply (converts_0u 0 3); [apply (bool_decide_unpack _); by vm_compute | lia | done] | done]. Qed.

Lemma prints_06lu n : is_u32 n -> prints (37 :: 48 :: 54 :: 108 :: 117 :: fmt) (VInt n :: args) (fmt_0u 6 n ++ out).
Proof. intros Hn. eapply prints_directive; [reflexivity | apply (converts_0u (chr "l") 6); [apply (bool_decide_unpack _); by vm_compute | lia | done] | done]. Qed.

Lemma prints_s s : Forall (fun c => c <> 0) s -> Z.of_nat (List.length s) < 2 ^ 31 -> prints (37 :: 115 :: fmt) (VStr (Some s) :: args) (s ++ out).
Proof. intros Hs Hb. eapply prints_directive; [reflexivity | by apply converts_str | done]. Qed.
End Directives.

(** Prints a concrete format piece by piece. *)
Ltac printing :=
  match goal with |- prints ?f _ _ => let l := eval vm_compute in f in change f with l end;
  repeat first
    [ apply prints_nil | apply prints_u | apply prints_lu | apply prints_02u | apply prints_03u | apply prints_06lu | apply prints_s
    | apply prints_char; [discriminate |] ].

#[export] Hint Resolve fmt_u_nonzero fmt_0u_nonzero : dvr.

(** ** Properties *)

(** C16: Formatted output is bounded.  For every format and arguments of the types
    it asks for, the conversions make one text, and a call with any array,
    address and size, as long as the array reaches to the end of the given size
    (cut at the last address) and counting the text does not wrap round the
    address space, returns the length of the whole text as an [int] (not, as the
    comment of the function says, the number of characters written), makes no
    store outside the size, stores the longest prefix of the text that leaves
    room for the terminator, terminates it, and leaves the rest of the array
    alone; with size 0 it stores nothing.  Every such call returns. *)
Theorem snprintf_bounded fmt args :
  kinded args (format_kinds (List.length fmt) fmt) ->
  exists out, format_text (List.length fmt) fmt args = Some out /\
  forall base buf size, is_u32 base -> is_u32 size ->
  base + Z.of_nat (List.length out) < 2 ^ 32 -> (room_for base size <= List.length buf)%nat ->
  let k := (List.length out `min` (room_for base size - 1))%nat in
  rt_vsnprintf base buf size fmt args =
    Some (i32 (Z.of_nat (List.length out)), if (room_for base size =? 0)%nat then buf else take k out ++ 0 :: drop (S k) buf).
Proof.
  intros Hk. destruct (format_text_total _ fmt args (le_n _) Hk) as [out Ht]. exists out. split; [done |].
  intros base buf size Hb Hs Ho Hl. apply vsnprintf_text; try done. by eapply format_text_prints.
Qed.

(** A text of 13 characters in a buffer of 8, a width that wraps round to a
    negative number and so pads nothing, and a size that reaches beyond the last
    address. *)
Lemma snprintf_bounded_witness :
  let args := [VStr (Some (str "ab")); VInt (-42); VInt 255] in
  rt_vsnprintf 1024 (replicate 10 7) 8 (str "%s%5d|%-4x|") args = Some (13, str "ab  -42" ++ [0; 7; 7]) /\
  rt_vsnprintf 1024 (replicate 10 7) 8 (str "%3000000000d") [VInt 5] = Some (1, str "5" ++ [0; 7; 7; 7; 7; 7; 7; 7; 7]) /\
  exists out, format_text 11 (str "%s%5d|%-4x|") args = Some out /\
    rt_vsnprintf (2 ^ 32 - 20) (replicate 19 7) 1000 (str "%s%5d|%-4x|") args =
    Some (13, take 13 out ++ 0 :: drop 14 (replicate 19 7)).
Proof.
  split; [by vm_compute |]. split; [by vm_compute |].
  destruct (snprintf_bounded (str "%s%5d|%-4x|") [VStr (Some (str "ab")); VInt (-42); VInt 255]) as (out & Ht & Hout).
  - assert (format_kinds (List.length (str "%s%5d|%-4x|")) (str "%s%5d|%-4x|") = [KStr; KInt; KInt]) as -> by by vm_compute.
    constructor; [by vm_compute |]. by repeat constructor.
  - exists out. split; [exact Ht |].
    assert (List.length out = 13%nat) as El by (vm_compute in Ht; by injection Ht as <-).
    refine (eq_trans (Hout (2 ^ 32 - 20) (replicate 19 7) 1000 _ _ _ _) _);
      [by vm_compute | by vm_compute | rewrite El; by vm_compute | apply Nat.leb_le; by vm_compute |].
    rewrite El. change (room_for (2 ^ 32 - 20) 1000) with 19%nat. reflexivity.
Defined.
