(* ===== verification/Ringbuffer.v ===== *)
(** * The ring buffer of the device framework ([ringbuffer.c])

    The byte buffer between the drivers and their users, with its two mirror
    bits, as an implementation of a bounded queue.  The serial driver receives
    into it. *)

From S2P Require Import Prelude.

(** ** Data *)

(** The 1-bit mirror fields are [bool]s. *)
Record rt_ringbuffer := mk_ringbuffer {
  buffer_ptr : list Z;
  read_mirror : bool;
  read_index : Z;
  write_mirror : bool;
  write_index : Z;
  buffer_size : Z
}.

#[export] Instance eta_ringbuffer : Eta rt_ringbuffer := fun r =>
  mk_ringbuffer (buffer_ptr r) (read_mirror r) (read_index r) (write_mirror r) (write_index r) (buffer_size r).

Inductive rt_ringbuffer_state := RT_RINGBUFFER_EMPTY | RT_RINGBUFFER_FULL | RT_RINGBUFFER_HALFFULL.

Definition RT_ALIGN_SIZE : Z := 8.
Definition RT_ALIGN_DOWN (size align : Z) : Z := Z.land size (Z.lnot (align - 1)).

(** ** Operations *)

Definition rt_ringbuffer_status (rb : rt_ringbuffer) : rt_ringbuffer_state :=
  if read_index rb =? write_index rb then
    if Bool.eqb (read_mirror rb) (write_mirror rb) then RT_RINGBUFFER_EMPTY else RT_RINGBUFFER_FULL
  else RT_RINGBUFFER_HALFFULL.

Definition rt_ringbuffer_data_len (rb : rt_ringbuffer) : Z :=
  match rt_ringbuffer_status rb with
  | RT_RINGBUFFER_EMPTY => 0
  | RT_RINGBUFFER_FULL => buffer_size rb
  | RT_RINGBUFFER_HALFFULL =>
      let wi := write_index rb in
      let ri := read_index rb in
      if ri <? wi then wi - ri else buffer_size rb - (ri - wi)
  end.

Definition rt_ringbuffer_space_len (rb : rt_ringbuffer) : Z := buffer_size rb - rt_ringbuffer_data_len rb.

Definition rt_ringbuffer_init (pool : list Z) (size : Z) : rt_ringbuffer :=
  mk_ringbuffer pool false 0 false 0 (RT_ALIGN_DOWN size RT_ALIGN_SIZE).

Definition rt_ringbuffer_reset (rb : rt_ringbuffer) : rt_ringbuffer :=
  rb <| read_mirror := false |> <| read_index := 0 |> <| write_mirror := false |> <| write_index := 0 |>.

(** [rt_memcpy(&buf[off], &ptr[from], n)] *)
Definition rt_memcpy (off from n : Z) (ptr buf : list Z) : list Z :=
  blit (Z.to_nat off) (slice (Z.to_nat from) (Z.to_nat n) ptr) buf.

Definition rt_ringbuffer_put (rb : rt_ringbuffer) (ptr : list Z) (length : Z) : Z * rt_ringbuffer :=
  let size := rt_ringbuffer_space_len rb in
  if size =? 0 then (0, rb)
  else
    let length := if size <? length then size else length in
    if length <? buffer_size rb - write_index rb then
      (length, rb <| buffer_ptr := rt_memcpy (write_index rb) 0 length ptr (buffer_ptr rb) |>
                  <| write_index := write_index rb + length |>)
    else
      let n := buffer_size rb - write_index rb in
      let buf := rt_memcpy (write_index rb) 0 n ptr (buffer_ptr rb) in
      let buf := rt_memcpy 0 n (length - n) ptr buf in
      (length, rb <| buffer_ptr := buf |> <| write_mirror := negb (write_mirror rb) |> <| write_index := length - n |>).

Definition rt_ringbuffer_put_force (rb : rt_ringbuffer) (ptr : list Z) (length : Z) : Z * rt_ringbuffer :=
  let space_length := rt_ringbuffer_space_len rb in
  let '(ptr, length) :=
    if buffer_size rb <? length then (drop (Z.to_nat (length - buffer_size rb)) ptr, buffer_size rb) else (ptr, length) in
  if length <? buffer_size rb - write_index rb then
    let rb := rb <| buffer_ptr := rt_memcpy (write_index rb) 0 length ptr (buffer_ptr rb) |>
                 <| write_index := write_index rb + length |> in
    (length, if space_length <? length then rb <| read_index := write_index rb |> else rb)
  else
    let n := buffer_size rb - write_index rb in
    let buf := rt_memcpy (write_index rb) 0 n ptr (buffer_ptr rb) in
    let buf := rt_memcpy 0 n (length - n) ptr buf in
    let rb := rb <| buffer_ptr := buf |> <| write_mirror := negb (write_mirror rb) |> <| write_index := length - n |> in
    (length,
     if space_length <? length then
       let rb := if write_index rb <=? read_index rb then rb <| read_mirror := negb (read_mirror rb) |> else rb in
       rb <| read_index := write_index rb |>
     else rb).

(** The bytes read, whose number is the result, and the buffer after. *)
Definition rt_ringbuffer_get (rb : rt_ringbuffer) (length : Z) : list Z * rt_ringbuffer :=
  let size := rt_ringbuffer_data_len rb in
  if size =? 0 then ([], rb)
  else
    let length := if size <? length then size else length in
    if length <? buffer_size rb - read_index rb then
      (slice (Z.to_nat (read_index rb)) (Z.to_nat length) (buffer_ptr rb), rb <| read_index := read_index rb + length |>)
    else
      let n := buffer_size rb - read_index rb in
      (slice (Z.to_nat (read_index rb)) (Z.to_nat n) (buffer_ptr rb) ++ slice 0 (Z.to_nat (length - n)) (buffer_ptr rb),
       rb <| read_mirror := negb (read_mirror rb) |> <| read_index := length - n |>).

(** The block [ptr] points to, with its size. *)
Definition rt_ringbuffer_peek (rb : rt_ringbuffer) : list Z * rt_ringbuffer :=
  let size := rt_ringbuffer_data_len rb in
  if size =? 0 then ([], rb)
  else if size <? buffer_size rb - read_index rb then
    (slice (Z.to_nat (read_index rb)) (Z.to_nat size) (buffer_ptr rb), rb <| read_index := read_index rb + size |>)
  else
    let size := buffer_size rb - read_index rb in
    (slice (Z.to_nat (read_index rb)) (Z.to_nat size) (buffer_ptr rb),
     rb <| read_mirror := negb (read_mirror rb) |> <| read_index := 0 |>).

Definition rt_ringbuffer_putchar (rb : rt_ringbuffer) (ch : Z) : Z * rt_ringbuffer :=
  if rt_ringbuffer_space_len rb =? 0 then (0, rb)
  else
    let rb := rb <| buffer_ptr := put (buffer_ptr rb) (write_index rb) ch |> in
    (1, if write_index rb =? buffer_size rb - 1
        then rb <| write_mirror := negb (write_mirror rb) |> <| write_index := 0 |>
        else rb <| write_index := write_index rb + 1 |>).

Definition rt_ringbuffer_putchar_force (rb : rt_ringbuffer) (ch : Z) : Z * rt_ringbuffer :=
  let full := match rt_ringbuffer_status rb with RT_RINGBUFFER_FULL => true | _ => false end in
  let rb := rb <| buffer_ptr := put (buffer_ptr rb) (write_index rb) ch |> in
  (1, if write_index rb =? buffer_size rb - 1 then
        let rb := rb <| write_mirror := negb (write_mirror rb) |> <| write_index := 0 |> in
        if full : bool then rb <| read_mirror := negb (read_mirror rb) |> <| read_index := write_index rb |> else rb
      else
        let rb := rb <| write_index := write_index rb + 1 |> in
        if full : bool then rb <| read_index := write_index rb |> else rb).

Definition rt_ringbuffer_getchar (rb : rt_ringbuffer) : option Z * rt_ringbuffer :=
  if rt_ringbuffer_data_len rb =? 0 then (None, rb)
  else
    let ch := get (buffer_ptr rb) (read_index rb) in
    (Some ch,
     if read_index rb =? buffer_size rb - 1
     then rb <| read_mirror := negb (read_mirror rb) |> <| read_index := 0 |>
     else rb <| read_index := read_index rb + 1 |>).

(** ** Specification: a queue of at most [buffer_size] bytes *)

(** A position behind the end is one at the start. *)
Definition wrap (size p : Z) : Z := if p <? size then p else p - size.

(** [n] bytes are stored: the write position is [n] behind the read position,
    and the mirror bits tell whether the end of the buffer lies in between. *)
Definition rb_inv (rb : rt_ringbuffer) (n : Z) : Prop :=
  Z.of_nat (length (buffer_ptr rb)) = buffer_size rb /\ 0 <= read_index rb < buffer_size rb /\ 0 <= n <= buffer_size rb /\
  write_index rb = wrap (buffer_size rb) (read_index rb + n) /\
  xorb (read_mirror rb) (write_mirror rb) = (buffer_size rb <=? read_index rb + n).

(** The bytes of a circular buffer from position [p] on. *)
Definition ring_slice (buf : list Z) (p n : Z) : list Z :=
  map (fun i => get buf (wrap (Z.of_nat (length buf)) (p + Z.of_nat i))) (seq 0 (Z.to_nat n)).

(** The buffer stores the bytes [q], oldest first. *)
Definition rb_holds (rb : rt_ringbuffer) (q : list Z) : Prop :=
  rb_inv rb (Z.of_nat (length q)) /\ ring_slice (buffer_ptr rb) (read_index rb) (Z.of_nat (length q)) = q.

(** The last [n] bytes. *)
Definition last_bytes (n : Z) (l : list Z) : list Z := drop (length l - Z.to_nat n) l.

Inductive rb_op :=
  | Put (data : list Z) | PutForce (data : list Z) | PutChar (ch : Z) | PutCharForce (ch : Z)
  | Get (n : nat) | GetChar | Peek | Reset.

(** What an operation returns: a count or bytes. *)
Inductive rb_result := Count (n : Z) | Bytes (l : list Z).

Definition rb_step (rb : rt_ringbuffer) (op : rb_op) : rb_result * rt_ringbuffer :=
  match op with
  | Put data => let '(n, rb) := rt_ringbuffer_put rb data (Z.of_nat (length data)) in (Count n, rb)
  | PutForce data => let '(n, rb) := rt_ringbuffer_put_force rb data (Z.of_nat (length data)) in (Count n, rb)
  | PutChar ch => let '(n, rb) := rt_ringbuffer_putchar rb ch in (Count n, rb)
  | PutCharForce ch => let '(n, rb) := rt_ringbuffer_putchar_force rb ch in (Count n, rb)
  | Get n => let '(l, rb) := rt_ringbuffer_get rb (Z.of_nat n) in (Bytes l, rb)
  | GetChar => let '(c, rb) := rt_ringbuffer_getchar rb in (Bytes (match c with Some c => [c] | None => [] end), rb)
  | Peek => let '(l, rb) := rt_ringbuffer_peek rb in (Bytes l, rb)
  | Reset => (Count 0, rt_ringbuffer_reset rb)
  end.

(** The queue of capacity [cap]: a put keeps what fits, a forced put the newest
    bytes; a peek takes some of the bytes, at least one if there are any. *)
Inductive fifo_step (cap : nat) (q : list Z) : rb_op -> rb_result -> list Z -> Prop :=
  | q_put data : let n := (length data `min` (cap - length q))%nat in
      fifo_step cap q (Put data) (Count (Z.of_nat n)) (q ++ take n data)
  | q_put_force data :
      fifo_step cap q (PutForce data) (Count (Z.of_nat (length data `min` cap))) (last_bytes (Z.of_nat cap) (q ++ data))
  | q_putchar ch : (length q < cap)%nat -> fifo_step cap q (PutChar ch) (Count 1) (q ++ [ch])
  | q_putchar_full ch : length q = cap -> fifo_step cap q (PutChar ch) (Count 0) q
  | q_putchar_force ch : fifo_step cap q (PutCharForce ch) (Count 1) (last_bytes (Z.of_nat cap) (q ++ [ch]))
  | q_get n : fifo_step cap q (Get n) (Bytes (take n q)) (drop n q)
  | q_getchar : fifo_step cap q GetChar (Bytes (take 1 q)) (drop 1 q)
  | q_peek a b : q = a ++ b -> (q <> [] -> a <> []) -> fifo_step cap q Peek (Bytes a) b
  | q_reset : fifo_step cap q Reset (Count 0) [].

(** A sequence of operations with their results. *)
Fixpoint rb_run (rb : rt_ringbuffer) (ops : list rb_op) : list rb_result * rt_ringbuffer :=
  match ops with
  | [] => ([], rb)
  | op :: ops => let '(r, rb) := rb_step rb op in let '(rs, rb) := rb_run rb ops in (r :: rs, rb)
  end.

Inductive fifo_run (cap : nat) : list Z -> list rb_op -> list rb_result -> list Z -> Prop :=
  | qr_nil q : fifo_run cap q [] [] q
  | qr_cons q op r q' ops rs q'' : fifo_step cap q op r q' -> fifo_run cap q' ops rs q'' -> fifo_run cap q (op :: ops) (r :: rs) q''.

(** ** Lemmas *)

Lemma length_ring_slice buf p n : length (ring_slice buf p n) = Z.to_nat n.
Proof. unfold ring_slice. by rewrite length_map, length_seq. Qed.

Lemma get_ring_slice buf p n i : 0 <= i < n -> get (ring_slice buf p n) i = get buf (wrap (Z.of_nat (length buf)) (p + i)).
Proof.
  intros Hi. unfold get at 1, ring_slice. rewrite (nth_indep _ 0 (get buf (wrap (Z.of_nat (length buf)) (p + Z.of_nat 0))))
    by (rewrite length_map, length_seq; lia).
  rewrite (map_nth (fun i => get buf (wrap (Z.of_nat (length buf)) (p + Z.of_nat i)))), seq_nth by lia. do 2 f_equal. lia.
Qed.

(** Case split on every wrapped position. *)
Ltac wrapped :=
  unfold wrap in *;
  repeat match goal with
  | |- context [if ?b then _ else _] => destruct b eqn:?
  | H : context [if ?b then _ else _] |- _ => destruct b eqn:?
  end; bool_hyps; try lia.

Lemma rb_inv_len rb n : rb_inv rb n -> rt_ringbuffer_data_len rb = n.
Proof.
  intros (Hl & Hr & Hn & Hw & Hm). unfold rt_ringbuffer_data_len, rt_ringbuffer_status. rewrite Hw.
  assert (Bool.eqb (read_mirror rb) (write_mirror rb) = negb (buffer_size rb <=? read_index rb + n)) as ->
    by (rewrite <- Hm; by destruct (read_mirror rb), (write_mirror rb)).
  wrapped.
Qed.

Lemma rb_holds_eq rb q : rb_inv rb (Z.of_nat (length q)) ->
  (forall i, 0 <= i < Z.of_nat (length q) -> get (buffer_ptr rb) (wrap (buffer_size rb) (read_index rb + i)) = get q i) ->
  rb_holds rb q.
Proof.
  intros Hi H. split; [exact Hi |]. apply list_eq_get; [by rewrite length_ring_slice, Nat2Z.id |]. destruct Hi as (Hl & _).
  intros i Hr. rewrite length_ring_slice in Hr. rewrite get_ring_slice, Hl by lia. apply H. lia.
Qed.

Lemma rb_holds_get rb q i : rb_holds rb q -> 0 <= i < Z.of_nat (length q) ->
  get (buffer_ptr rb) (wrap (buffer_size rb) (read_index rb + i)) = get q i.
Proof.
  intros [(Hl & _) H] Hi. transitivity (get (ring_slice (buffer_ptr rb) (read_index rb) (Z.of_nat (length q))) i); [| by rewrite H].
  by rewrite get_ring_slice, Hl by lia.
Qed.

(** The buffer after [m] bytes have been written at position [p]. *)
Definition ring_written (size p m : Z) (d buf buf' : list Z) : Prop :=
  length buf' = length buf /\
  forall i, 0 <= i < size -> get buf' i = let o := if p <=? i then i - p else i - p + size in if o <? m then get d o else get buf i.

Lemma memcpy_written size p m d buf : Z.of_nat (length buf) = size -> 0 <= p < size -> 0 <= m < size - p -> m <= Z.of_nat (length d) ->
  ring_written size p m d buf (rt_memcpy p 0 m d buf).
Proof.
  intros Hl Hp Hm Hd. unfold rt_memcpy. change (Z.to_nat 0) with 0%nat. assert (length (slice 0 (Z.to_nat m) d) = Z.to_nat m) as Hs by (apply length_slice; lia).
  split; [apply length_blit; rewrite Hs; lia |]. intros i Hi. rewrite get_blit by (rewrite ?Hs; lia). rewrite Hs. cbv zeta.
  destruct ((Z.of_nat (Z.to_nat p) <=? i) && (i <? Z.of_nat (Z.to_nat p + Z.to_nat m))) eqn:E.
  - bool_hyps. rewrite get_slice by lia. wrapped. f_equal. lia.
  - apply andb_false_iff in E. rewrite Z.leb_gt, Z.ltb_ge in E. wrapped.
Qed.

Lemma memcpy2_written size p m d buf : Z.of_nat (length buf) = size -> 0 <= p < size -> size - p <= m <= size -> m <= Z.of_nat (length d) ->
  ring_written size p m d buf (rt_memcpy 0 (size - p) (m - (size - p)) d (rt_memcpy p 0 (size - p) d buf)).
Proof.
  intros Hl Hp Hm Hd. unfold rt_memcpy. change (Z.to_nat 0) with 0%nat.
  assert (length (slice 0 (Z.to_nat (size - p)) d) = Z.to_nat (size - p)) as Hs1 by (apply length_slice; lia).
  assert (length (slice (Z.to_nat (size - p)) (Z.to_nat (m - (size - p))) d) = Z.to_nat (m - (size - p))) as Hs2 by (apply length_slice; lia).
  assert (length (blit (Z.to_nat p) (slice 0 (Z.to_nat (size - p)) d) buf) = length buf) as Hb
    by (apply length_blit; rewrite Hs1; lia).
  split; [rewrite length_blit; rewrite ?Hs2, ?Hb; lia |]. intros i Hi. rewrite !get_blit by (rewrite ?Hs1, ?Hs2, ?Hb; lia). rewrite Hs1, Hs2. cbv zeta.
  destruct ((Z.of_nat 0 <=? i) && _) eqn:E1; bool_hyps.
  - rewrite get_slice by lia. wrapped. f_equal. lia.
  - destruct ((Z.of_nat (Z.to_nat p) <=? i) && _) eqn:E2; bool_hyps; [rewrite get_slice by lia; wrapped; f_equal; lia |].
    apply andb_false_iff in E1, E2. rewrite !Z.leb_gt, !Z.ltb_ge in E1, E2. wrapped.
Qed.

(** ** The effect of moving the positions *)

(** Writing [m] bytes behind the stored ones overwrites the oldest bytes that
    do not fit; the read position moves past them. *)
Lemma write_effect rb q m d k rb' : rb_holds rb q -> 0 <= m <= buffer_size rb -> m <= Z.of_nat (length d) ->
  k = Z.max 0 (Z.of_nat (length q) + m - buffer_size rb) ->
  ring_written (buffer_size rb) (write_index rb) m d (buffer_ptr rb) (buffer_ptr rb') -> buffer_size rb' = buffer_size rb ->
  read_index rb' = wrap (buffer_size rb) (read_index rb + k) -> write_index rb' = wrap (buffer_size rb) (write_index rb + m) ->
  xorb (read_mirror rb') (write_mirror rb') = (buffer_size rb <=? read_index rb' + (Z.of_nat (length q) + m - k)) ->
  rb_holds rb' (drop (Z.to_nat k) q ++ take (Z.to_nat m) d).
Proof.
  intros Hq Hm Hd Hk [Hl Hb] Hs Hr Hw Hx. pose proof Hq as [(Hl0 & Hr0 & Hn0 & Hw0 & _) _].
  assert (Z.of_nat (length (drop (Z.to_nat k) q ++ take (Z.to_nat m) d)) = Z.of_nat (length q) + m - k) as Hn
    by (rewrite length_app, length_drop, length_take; lia).
  apply rb_holds_eq; rewrite Hn.
  - split_and!; rewrite ?Hl, ?Hs; try done; rewrite ?Hr, ?Hw, ?Hw0; clear Hb Hx; wrapped.
  - intros i Hi. rewrite get_app, length_drop by lia.
    replace (Z.of_nat (length q - Z.to_nat k)) with (Z.of_nat (length q) - k) by lia.
    rewrite Hs, Hr, Hb by (clear Hb Hx; wrapped). cbv zeta. destruct (Z.ltb_spec i (Z.of_nat (length q) - k)).
    + rewrite get_drop by lia. rewrite <- (rb_holds_get rb q) by (done || lia).
      rewrite Hw0. clear Hb Hx. wrapped; f_equal; lia.
    + rewrite get_take by lia. rewrite Hw0. clear Hb Hx. wrapped; f_equal; lia.
Qed.

(** Taking [k] bytes moves the read position past them. *)
Lemma read_effect rb q k rb' : rb_holds rb q -> 0 <= k <= Z.of_nat (length q) -> buffer_ptr rb' = buffer_ptr rb ->
  buffer_size rb' = buffer_size rb -> write_index rb' = write_index rb -> read_index rb' = wrap (buffer_size rb) (read_index rb + k) ->
  xorb (read_mirror rb') (write_mirror rb') = (buffer_size rb <=? read_index rb' + (Z.of_nat (length q) - k)) ->
  rb_holds rb' (drop (Z.to_nat k) q).
Proof.
  intros Hq Hk Hb Hs Hw Hr Hx. pose proof Hq as [(Hl0 & Hr0 & Hn0 & Hw0 & _) _].
  assert (Z.of_nat (length (drop (Z.to_nat k) q)) = Z.of_nat (length q) - k) as Hn by (rewrite length_drop; lia).
  apply rb_holds_eq; rewrite Hn.
  - split_and!; rewrite ?Hb, ?Hs; try done; rewrite ?Hr, ?Hw, ?Hw0; clear Hx; wrapped.
  - intros i Hi. rewrite get_drop, Hb, Hs, Hr by lia. rewrite <- (rb_holds_get rb q) by (done || lia).
    f_equal. clear Hx. wrapped.
Qed.

(** The two blocks of a read are the oldest bytes. *)
Lemma read_block rb q k : rb_holds rb q -> 0 <= k <= Z.of_nat (length q) -> k <= buffer_size rb - read_index rb ->
  slice (Z.to_nat (read_index rb)) (Z.to_nat k) (buffer_ptr rb) = take (Z.to_nat k) q.
Proof.
  intros Hq Hk Hn. pose proof Hq as [(Hl0 & Hr0 & Hn0 & Hw0 & _) _].
  assert (length (slice (Z.to_nat (read_index rb)) (Z.to_nat k) (buffer_ptr rb)) = Z.to_nat k) as Hs by (apply length_slice; lia).
  apply list_eq_get; [rewrite Hs, length_take; lia |]. rewrite Hs. intros i Hi.
  rewrite get_slice, get_take by lia. rewrite <- (rb_holds_get rb q) by (done || lia). f_equal. wrapped.
Qed.

Lemma read_blocks rb q k : rb_holds rb q -> buffer_size rb - read_index rb <= k <= Z.of_nat (length q) ->
  let n := buffer_size rb - read_index rb in
  slice (Z.to_nat (read_index rb)) (Z.to_nat n) (buffer_ptr rb) ++ slice 0 (Z.to_nat (k - n)) (buffer_ptr rb) = take (Z.to_nat k) q.
Proof.
  intros Hq Hk. cbv zeta. pose proof Hq as [(Hl0 & Hr0 & Hn0 & Hw0 & _) _]. rewrite (read_block _ q) by (done || lia).
  assert (length (slice 0 (Z.to_nat (k - (buffer_size rb - read_index rb))) (buffer_ptr rb)) =
    Z.to_nat (k - (buffer_size rb - read_index rb))) as Hs by (apply length_slice; lia).
  apply list_eq_get; rewrite length_app, !length_take, Hs by lia; [lia |]. intros i Hi.
  rewrite get_app, length_take by lia. destruct (Z.ltb_spec i (Z.of_nat (Z.to_nat (buffer_size rb - read_index rb) `min` length q))).
  - rewrite !get_take by lia. done.
  - rewrite get_slice, get_take by lia. rewrite <- (rb_holds_get rb q) by (done || lia). f_equal. wrapped.
Qed.

(** ** The operations on the stored bytes *)

Lemma rb_holds_len rb q : rb_holds rb q -> rt_ringbuffer_data_len rb = Z.of_nat (length q).
Proof. intros [H _]. by apply rb_inv_len. Qed.

Lemma rb_holds_space rb q : rb_holds rb q -> rt_ringbuffer_space_len rb = buffer_size rb - Z.of_nat (length q).
Proof. intros H. unfold rt_ringbuffer_space_len. by rewrite (rb_holds_len rb q H). Qed.

Lemma rb_holds_full rb q : rb_holds rb q ->
  (match rt_ringbuffer_status rb with RT_RINGBUFFER_FULL => true | _ => false end) = (Z.of_nat (length q) =? buffer_size rb).
Proof.
  intros [(Hl & Hr & Hn & Hw & Hm) _]. unfold rt_ringbuffer_status. rewrite Hw.
  assert (Bool.eqb (read_mirror rb) (write_mirror rb) = negb (buffer_size rb <=? read_index rb + Z.of_nat (length q))) as ->
    by (rewrite <- Hm; by destruct (read_mirror rb), (write_mirror rb)).
  destruct (Z.eqb_spec (Z.of_nat (length q)) (buffer_size rb)); wrapped.
Qed.

(** Compare the mirror bits with the positions, given how they were before. *)
Ltac mirror_bits H :=
  cbn; rewrite <- ?negb_xorb_r, <- ?negb_xorb_l, ?negb_involutive, H;
  repeat match goal with |- context [?a <=? ?b] => destruct (Z.leb_spec a b) end; cbn; try done; exfalso; wrapped.

Ltac positions := cbn; try done; wrapped.

(** [rb] holds [q]; its fields, invariant and the facts on them are named. *)
Ltac open_ring H :=
  pose proof H as [(Hl0 & Hr0 & Hn0 & Hw0 & Hx0) _].

Lemma put_holds rb q d m : rb_holds rb q -> 0 <= m <= Z.of_nat (length d) ->
  let n := Z.min m (buffer_size rb - Z.of_nat (length q)) in
  exists rb', rt_ringbuffer_put rb d m = (n, rb') /\ buffer_size rb' = buffer_size rb /\ rb_holds rb' (q ++ take (Z.to_nat n) d).
Proof.
  intros Hq Hm. cbv zeta. open_ring Hq. unfold rt_ringbuffer_put. rewrite (rb_holds_space rb q Hq).
  destruct (Z.eqb_spec (buffer_size rb - Z.of_nat (length q)) 0) as [E | E].
  { eexists. rewrite E, Z.min_r by lia. split_and!; [done | done |]. by rewrite app_nil_r. }
  cbv zeta. replace (if _ <? m then _ else _) with (Z.min m (buffer_size rb - Z.of_nat (length q))) by wrapped.
  set (n := Z.min m _). assert (0 <= n <= m /\ n <= buffer_size rb - Z.of_nat (length q)) as Hn by lia. clearbody n.
  destruct (Z.ltb_spec n (buffer_size rb - write_index rb)).
  all: eexists; split; [reflexivity |]; split; [done |]; change (q ++ take (Z.to_nat n) d) with (drop (Z.to_nat 0) q ++ take (Z.to_nat n) d).
  all: apply (write_effect rb); [done | lia | lia | lia | | done | positions | positions | mirror_bits Hx0].
  - apply memcpy_written; [done | wrapped | lia | lia].
  - apply memcpy2_written; [done | wrapped | lia | lia].
Qed.

Lemma get_holds rb q m : rb_holds rb q -> 0 <= m ->
  exists rb', rt_ringbuffer_get rb m = (take (Z.to_nat m) q, rb') /\ buffer_size rb' = buffer_size rb /\ rb_holds rb' (drop (Z.to_nat m) q).
Proof.
  intros Hq Hm. open_ring Hq. unfold rt_ringbuffer_get. rewrite (rb_holds_len rb q Hq).
  destruct (Z.eqb_spec (Z.of_nat (length q)) 0) as [E | E].
  { assert (q = []) as -> by (destruct q; [done | cbn in E; lia]). eexists. by rewrite take_nil, drop_nil. }
  cbv zeta. replace (if _ <? m then _ else _) with (Z.min m (Z.of_nat (length q))) by wrapped.
  set (n := Z.min m _). assert (0 <= n <= m /\ n <= Z.of_nat (length q)) as Hn by lia.
  assert (take (Z.to_nat m) q = take (Z.to_nat n) q /\ drop (Z.to_nat m) q = drop (Z.to_nat n) q) as [-> ->].
  { destruct (decide (n = m)) as [-> | Hne]; [done |]. rewrite !take_ge, !drop_ge by lia. done. }
  clearbody n. destruct (Z.ltb_spec n (buffer_size rb - read_index rb)).
  - rewrite (read_block rb q) by (done || lia). eexists; split; [reflexivity |]; split; [done |].
    apply (read_effect rb); [done | lia | done | done | done | positions | mirror_bits Hx0].
  - rewrite (read_blocks rb q n) by (done || lia). eexists; split; [reflexivity |]; split; [done |].
    apply (read_effect rb); [done | lia | done | done | done | positions | mirror_bits Hx0].
Qed.

Lemma put_written size p ch buf : Z.of_nat (length buf) = size -> 0 <= p < size -> ring_written size p 1 [ch] buf (put buf p ch).
Proof.
  intros Hl Hp. split; [apply length_put |]. intros i Hi. cbv zeta. destruct (decide (i = p)) as [-> | Hne].
  - rewrite get_put_eq by lia. rewrite Z.leb_refl, Z.sub_diag. done.
  - rewrite get_put_ne by lia. wrapped.
Qed.

Lemma last_bytes_app q d size : Z.of_nat (length q) <= size -> Z.of_nat (length d) <= size ->
  last_bytes size (q ++ d) = drop (Z.to_nat (Z.max 0 (Z.of_nat (length q) + Z.of_nat (length d) - size))) q ++ d.
Proof.
  intros Hq Hd. unfold last_bytes. rewrite length_app, drop_app_le by lia. do 2 f_equal. lia.
Qed.

(** A block at least as long as the buffer replaces everything. *)
Lemma last_bytes_long q d size : 0 <= size <= Z.of_nat (length d) -> last_bytes size (q ++ d) = last_bytes size d.
Proof. intros H. unfold last_bytes. rewrite length_app, drop_app_ge by lia. f_equal. lia. Qed.

Lemma put_force_fits rb q d : rb_holds rb q -> Z.of_nat (length d) <= buffer_size rb ->
  exists rb', rt_ringbuffer_put_force rb d (Z.of_nat (length d)) = (Z.of_nat (length d), rb') /\ buffer_size rb' = buffer_size rb /\
    rb_holds rb' (last_bytes (buffer_size rb) (q ++ d)).
Proof.
  intros Hq Hd. open_ring Hq. unfold rt_ringbuffer_put_force. rewrite (rb_holds_space rb q Hq). cbv zeta.
  rewrite (proj2 (Z.ltb_ge (buffer_size rb) _)) by done. rewrite last_bytes_app by lia. set (m := Z.of_nat (length d)) in *.
  assert (forall x, x ++ d = x ++ take (Z.to_nat m) d) as -> by (intros x; rewrite take_ge by lia; done).
  destruct (Z.ltb_spec m (buffer_size rb - write_index rb)) as [Hw | Hw].
  - eexists; split; [reflexivity |]. split; [by destruct (_ <? m) |]. apply (write_effect rb); [done | lia | lia | done | | | | |].
    + destruct (_ <? m); cbn; apply memcpy_written; done || lia || wrapped.
    + by destruct (_ <? m).
    + destruct (Z.ltb_spec (buffer_size rb - Z.of_nat (length q)) m); positions.
    + destruct (_ <? m); positions.
    + destruct (Z.ltb_spec (buffer_size rb - Z.of_nat (length q)) m); mirror_bits Hx0.
  - eexists; split; [reflexivity |]. cbn [write_index read_index update_with].
    destruct (Z.ltb_spec (buffer_size rb - Z.of_nat (length q)) m); [destruct (Z.leb_spec (m - (buffer_size rb - write_index rb)) (read_index rb)) |].
    all: split; [done |]; apply (write_effect rb); [done | lia | lia | done | | done | positions | positions | mirror_bits Hx0].
    all: apply memcpy2_written; done || lia || wrapped.
Qed.

(** Only the end of a block longer than the buffer is used. *)
Lemma put_force_long rb d : buffer_size rb < Z.of_nat (length d) -> 0 <= buffer_size rb ->
  rt_ringbuffer_put_force rb d (Z.of_nat (length d)) = rt_ringbuffer_put_force rb (last_bytes (buffer_size rb) d) (buffer_size rb).
Proof.
  intros Hd Hs. unfold rt_ringbuffer_put_force, last_bytes. rewrite (proj2 (Z.ltb_lt _ _) Hd), Z.ltb_irrefl.
  replace (Z.to_nat (Z.of_nat (length d) - buffer_size rb)) with (length d - Z.to_nat (buffer_size rb))%nat by lia. done.
Qed.

Lemma put_force_holds rb q d : rb_holds rb q ->
  exists rb', rt_ringbuffer_put_force rb d (Z.of_nat (length d)) = (Z.min (Z.of_nat (length d)) (buffer_size rb), rb') /\
    buffer_size rb' = buffer_size rb /\ rb_holds rb' (last_bytes (buffer_size rb) (q ++ d)).
Proof.
  intros Hq. open_ring Hq. destruct (Z.le_gt_cases (Z.of_nat (length d)) (buffer_size rb)) as [Hd | Hd].
  - rewrite Z.min_l by done. by apply put_force_fits.
  - assert (Z.of_nat (length (last_bytes (buffer_size rb) d)) = buffer_size rb) as Hl by (unfold last_bytes; rewrite length_drop; lia).
    destruct (put_force_fits rb q (last_bytes (buffer_size rb) d) Hq ltac:(lia)) as (rb' & Hp & Hs & Hh).
    rewrite put_force_long, Z.min_r by lia. rewrite Hl in Hp. exists rb'. split_and!; [done | done |].
    rewrite last_bytes_long in Hh |- * by lia. unfold last_bytes at 1 in Hh.
    replace (length (last_bytes _ d) - _)%nat with 0%nat in Hh by lia. exact Hh.
Qed.

Lemma putchar_holds rb q ch : rb_holds rb q ->
  exists rb', rt_ringbuffer_putchar rb ch = (if Z.of_nat (length q) <? buffer_size rb then 1 else 0, rb') /\
    buffer_size rb' = buffer_size rb /\ rb_holds rb' (if Z.of_nat (length q) <? buffer_size rb then q ++ [ch] else q).
Proof.
  intros Hq. open_ring Hq. unfold rt_ringbuffer_putchar. rewrite (rb_holds_space rb q Hq).
  destruct (Z.eqb_spec (buffer_size rb - Z.of_nat (length q)) 0), (Z.ltb_spec (Z.of_nat (length q)) (buffer_size rb)); try lia.
  { by eexists. }
  change (q ++ [ch]) with (drop (Z.to_nat 0) q ++ take (Z.to_nat 1) [ch]). eexists; split; [reflexivity |].
  cbn [write_index buffer_size update_with].
  destruct (Z.eqb_spec (write_index rb) (buffer_size rb - 1)).
  all: split; [done |]; apply (write_effect rb); [done | lia | cbn; lia | lia | | done | positions | positions | mirror_bits Hx0].
  all: apply put_written; done || wrapped.
Qed.

Lemma putchar_force_holds rb q ch : rb_holds rb q ->
  exists rb', rt_ringbuffer_putchar_force rb ch = (1, rb') /\
    buffer_size rb' = buffer_size rb /\ rb_holds rb' (last_bytes (buffer_size rb) (q ++ [ch])).
Proof.
  intros Hq. open_ring Hq. unfold rt_ringbuffer_putchar_force. rewrite (rb_holds_full rb q Hq), last_bytes_app by (cbn; lia).
  change (?x ++ [ch]) with (x ++ take (Z.to_nat 1) [ch]). eexists; split; [reflexivity |].
  cbn [write_index buffer_size update_with].
  destruct (Z.eqb_spec (write_index rb) (buffer_size rb - 1)), (Z.eqb_spec (Z.of_nat (length q)) (buffer_size rb)).
  all: split; [done |]; apply (write_effect rb); [done | lia | cbn; lia | done | | done | positions | positions | mirror_bits Hx0].
  all: apply put_written; done || wrapped.
Qed.

Lemma getchar_holds rb q : rb_holds rb q ->
  exists rb', rt_ringbuffer_getchar rb = (head q, rb') /\ buffer_size rb' = buffer_size rb /\ rb_holds rb' (drop 1 q).
Proof.
  intros Hq. open_ring Hq. unfold rt_ringbuffer_getchar. rewrite (rb_holds_len rb q Hq).
  destruct q as [| c q]; [by eexists |]. cbn [length]. rewrite (proj2 (Z.eqb_neq _ _)) by lia.
  pose proof (rb_holds_get rb (c :: q) 0 Hq ltac:(cbn; lia)) as Hc. rewrite Z.add_0_r in Hc.
  replace (wrap _ _) with (read_index rb) in Hc by wrapped. rewrite Hc. eexists; split; [reflexivity |].
  change (drop 1 (c :: q)) with (drop (Z.to_nat 1) (c :: q)). destruct (Z.eqb_spec (read_index rb) (buffer_size rb - 1)).
  all: split; [done |]; apply (read_effect rb); [done | cbn; lia | done | done | done | positions | cbn [length] in *; mirror_bits Hx0].
Qed.

Lemma peek_holds rb q : rb_holds rb q ->
  exists rb' n, rt_ringbuffer_peek rb = (take n q, rb') /\ buffer_size rb' = buffer_size rb /\ rb_holds rb' (drop n q) /\ (0 < n)%nat.
Proof.
  intros Hq. open_ring Hq. unfold rt_ringbuffer_peek. rewrite (rb_holds_len rb q Hq). cbv zeta.
  destruct (Z.eqb_spec (Z.of_nat (length q)) 0) as [E | E].
  { assert (q = []) as -> by (destruct q; [done | cbn in E; lia]). exists rb, 1%nat. split_and!; done || lia. }
  destruct (Z.ltb_spec (Z.of_nat (length q)) (buffer_size rb - read_index rb)).
  all: rewrite (read_block rb q) by (done || lia); eexists _, _; split; [reflexivity |]; split; [done |]; split; [| lia].
  all: apply (read_effect rb); [done | lia | done | done | done | positions | mirror_bits Hx0].
Qed.

Lemma empty_holds rb : Z.of_nat (length (buffer_ptr rb)) = buffer_size rb -> 0 < buffer_size rb ->
  read_index rb = 0 -> write_index rb = 0 -> read_mirror rb = write_mirror rb -> rb_holds rb [].
Proof.
  intros Hl Hs Hr Hw Hm. split; [| done]. split_and!; rewrite ?Hr, ?Hw, ?Hm, ?xorb_nilpotent; cbn; try lia; [wrapped |].
  symmetry. by apply Z.leb_gt.
Qed.

(** ** Refinement *)

Lemma rb_step_refines rb q op : rb_holds rb q ->
  exists r rb' q', rb_step rb op = (r, rb') /\ fifo_step (Z.to_nat (buffer_size rb)) q op r q' /\
    buffer_size rb' = buffer_size rb /\ rb_holds rb' q'.
Proof.
  intros Hq. open_ring Hq. destruct op as [d | d | ch | ch | n | | |]; cbn [rb_step].
  - destruct (put_holds rb q d (Z.of_nat (length d)) Hq ltac:(lia)) as (rb' & -> & Hs & Hh). do 3 eexists. split; [reflexivity |].
    split; [| by split]. replace (Z.min _ _) with (Z.of_nat (length d `min` (Z.to_nat (buffer_size rb) - length q))) by lia.
    rewrite Nat2Z.id. constructor.
  - destruct (put_force_holds rb q d Hq) as (rb' & -> & Hs & Hh). do 3 eexists. split; [reflexivity |]. split; [| by split].
    replace (Z.min _ _) with (Z.of_nat (length d `min` Z.to_nat (buffer_size rb))) by lia.
    rewrite <- (Z2Nat.id (buffer_size rb)) at 3 by lia. constructor.
  - destruct (putchar_holds rb q ch Hq) as (rb' & -> & Hs & Hh). do 3 eexists. split; [reflexivity |]. split; [| by split].
    destruct (Z.ltb_spec (Z.of_nat (length q)) (buffer_size rb)); constructor; lia.
  - destruct (putchar_force_holds rb q ch Hq) as (rb' & -> & Hs & Hh). do 3 eexists. split; [reflexivity |]. split; [| by split].
    rewrite <- (Z2Nat.id (buffer_size rb)) at 2 by lia. constructor.
  - destruct (get_holds rb q (Z.of_nat n) Hq ltac:(lia)) as (rb' & -> & Hs & Hh). rewrite Nat2Z.id in *.
    do 3 eexists. split; [reflexivity |]. split; [constructor | by split].
  - destruct (getchar_holds rb q Hq) as (rb' & -> & Hs & Hh). do 3 eexists. split; [reflexivity |]. split; [| by split].
    assert (match head q with Some c => [c] | None => [] end = take 1 q) as -> by (by destruct q). constructor.
  - destruct (peek_holds rb q Hq) as (rb' & n & -> & Hs & Hh & Hn). do 3 eexists. split; [reflexivity |]. split; [| by split].
    constructor; [by rewrite take_drop |]. intros Hne. destruct q, n; cbn; congruence || lia.
  - do 3 eexists. split; [reflexivity |]. split; [constructor |]. split; [done |]. apply empty_holds; cbn; done || lia.
Qed.

Lemma rb_run_refines ops rb q : rb_holds rb q ->
  let '(rs, rb') := rb_run rb ops in exists q', fifo_run (Z.to_nat (buffer_size rb)) q ops rs q' /\ rb_holds rb' q'.
Proof.
  revert rb q. induction ops as [| op ops IH]; intros rb q Hq; cbn [rb_run]; [by exists q; split; [constructor |] |].
  destruct (rb_step_refines rb q op Hq) as (r & rb1 & q1 & -> & Hstep & Hs & Hh). specialize (IH rb1 q1 Hh). rewrite Hs in IH.
  destruct (rb_run rb1 ops) as [rs rb']. destruct IH as (q' & Hr & Hh'). exists q'. split; [| done]. by econstructor.
Qed.

Lemma init_holds pool size : 0 < size -> RT_ALIGN_DOWN size RT_ALIGN_SIZE = size -> Z.of_nat (length pool) = size ->
  rb_holds (rt_ringbuffer_init pool size) [].
Proof. intros Hs Ha Hl. apply empty_holds; cbn [buffer_ptr buffer_size rt_ringbuffer_init]; rewrite ?Ha; done || lia. Qed.

(** C15: from initialisation on, every sequence of puts, forced puts, gets,
    peeks and resets gives the results of a queue of at most [size] bytes: a
    put keeps what fits and reports how much, a forced put drops the oldest
    bytes, a get returns the oldest bytes, and the buffer holds the queue's
    bytes in order at the end, however often the indices have wrapped. *)
Theorem ringbuffer_refines_queue pool size ops :
  0 < size -> RT_ALIGN_DOWN size RT_ALIGN_SIZE = size -> Z.of_nat (length pool) = size ->
  let '(rs, rb) := rb_run (rt_ringbuffer_init pool size) ops in
  exists q, fifo_run (Z.to_nat size) [] ops rs q /\ rb_holds rb q.
Proof.
  intros Hs Ha Hl. pose proof (rb_run_refines ops _ _ (init_holds pool size Hs Ha Hl)) as H.
  cbn [buffer_size rt_ringbuffer_init] in H. by rewrite Ha in H.
Qed.

Lemma ringbuffer_refines_queue_witness :
  exists q, fifo_run 8 [] [Put [1; 2; 3; 4; 5; 6]; Get 4; Put [7; 8; 9; 10; 11; 12; 13]; PutForce [14; 15]; Get 8]
    [Count 6; Bytes [1; 2; 3; 4]; Count 6; Count 2; Bytes [7; 8; 9; 10; 11; 12; 14; 15]] q.
Proof.
  pose proof (ringbuffer_refines_queue (repeat 0 8) 8 [Put [1; 2; 3; 4; 5; 6]; Get 4; Put [7; 8; 9; 10; 11; 12; 13]; PutForce [14; 15]; Get 8]
    eq_refl eq_refl eq_refl) as H.
  set (r := rb_run _ _) in H. assert (fst r = [Count 6; Bytes [1; 2; 3; 4]; Count 6; Count 2; Bytes [7; 8; 9; 10; 11; 12; 14; 15]]) as E
    by (vm_compute; reflexivity).
  clearbody r. destruct r as [rs rb]. cbn in E. subst rs. destruct H as (q & Hr & _). exists q. exact Hr.
Defined.
