(* ===== verification/Platform.v ===== *)
(** * Platform services used by the application

    The few functions of the HPM SDK and of the RT-Thread kernel whose values
    the application computes with: reading and driving GPIO pins
    ([hpm_gpio_drv.h]) and the tick conversions ([clock.c]).  The tick counter
    itself is an input of every operation that reads it. *)

From S2P Require Import Prelude.

Definition RT_TICK_PER_SECOND : Z := 1000.

(** Return codes of [rtdef.h] (negated by the callers). *)
Definition RT_EOK : Z := 0.
Definition RT_ERROR : Z := 1.
Definition RT_ENOMEM : Z := 5.
Definition RT_ENOSYS : Z := 6.
Definition RT_EINVAL : Z := 10.

(** GPIO port indices of [hpm_gpio_regs.h]. *)
Definition GPIOA : Z := 0.
Definition GPIOB : Z := 1.
Definition GPIOC : Z := 2.

(** The input registers [DI[port].VALUE] and output latches [DO[port]]. *)
Definition gpio_regs := Z -> Z.

Definition gpio_read_pin (di : gpio_regs) (port pin : Z) : Z :=
  u8 (Z.shiftr (Z.land (di port) (Z.shiftl 1 pin)) pin).

Definition gpio_write_pin (latch : gpio_regs) (port pin high : Z) : gpio_regs :=
  fun p =>
    if p =? port then
      if high =? 0 then Z.ldiff (latch p) (Z.shiftl 1 pin)
      else Z.lor (latch p) (Z.shiftl 1 pin)
    else latch p.

(** The level an output pin drives. *)
Definition pin_level (latch : gpio_regs) (port pin : Z) : bool :=
  Z.testbit (latch port) pin.

(** [rt_tick_from_millisecond] for the non-negative arguments of the code. *)
Definition rt_tick_from_millisecond (ms : Z) : Z :=
  if ms <? 0 then u32 (-1)
  else u32 (u32 (RT_TICK_PER_SECOND * (ms ÷ 1000)) +
            (RT_TICK_PER_SECOND * (Z.rem ms 1000) + 999) ÷ 1000).

(** [rt_tick_get_millisecond], as a function of the tick counter. *)
Definition rt_tick_get_millisecond (tick : Z) : Z := u32 (tick * (1000 / RT_TICK_PER_SECOND)).

(** ** Facts *)

Lemma gpio_read_pin_testbit di port pin :
  0 <= pin -> gpio_read_pin di port pin = b2u (Z.testbit (di port) pin).
Proof.
  intros Hp. unfold gpio_read_pin.
  rewrite Z.shiftr_land, Z.shiftr_shiftl_r by lia. rewrite Z.sub_diag, Z.shiftr_0_r.
  change 1 with (Z.ones 1) at 1. rewrite Z.land_ones by lia.
  change (2 ^ 1) with 2. rewrite <- Z.bit0_mod, Z.shiftr_spec by lia.
  by destruct (Z.testbit (di port) (0 + pin)) eqn:E; rewrite Z.add_0_l in E; rewrite E.
Qed.

Lemma pin_level_write latch port pin high port' pin' :
  0 <= pin -> 0 <= pin' ->
  pin_level (gpio_write_pin latch port pin high) port' pin' =
  if (port' =? port) && (pin' =? pin) then negb (high =? 0)
  else pin_level latch port' pin'.
Proof.
  intros. unfold pin_level, gpio_write_pin.
  destruct (port' =? port) eqn:E; simpl; [| done].
  destruct (high =? 0); rewrite ?Z.ldiff_spec, ?Z.lor_spec, Z.shiftl_spec by lia;
    destruct (Z.eqb_spec pin' pin) as [-> |]; rewrite ?Z.sub_diag; simpl.
  all: try (by rewrite ?andb_false_r, ?orb_true_r).
  all: assert (Z.testbit 1 (pin' - pin) = false) as ->
         by (destruct (Z_lt_le_dec (pin' - pin) 0);
             [by apply Z.testbit_neg_r | apply Z.bits_above_log2; simpl; lia]).
  all: by rewrite ?andb_true_r, ?orb_false_r.
Qed.

Lemma rt_tick_from_millisecond_1k ms :
  0 <= ms < 2 ^ 31 -> rt_tick_from_millisecond ms = ms.
Proof.
  intros. unfold rt_tick_from_millisecond, RT_TICK_PER_SECOND.
  destruct (Z.ltb_spec ms 0); [lia |].
  rewrite Z.rem_mod_nonneg, !Z.quot_div_nonneg by lia. wraps.
Qed.

Lemma rt_tick_get_millisecond_1k tick :
  is_u32 tick -> rt_tick_get_millisecond tick = tick.
Proof.
  intros. unfold rt_tick_get_millisecond, RT_TICK_PER_SECOND.
  change (1000 / 1000) with 1. rewrite Z.mul_1_r. by apply u32_id.
Qed.
