(* ===== verification/AppTypes.v ===== *)
(** * Shared data types and configuration constants

    [app_types.h] (the two snapshots exchanged between the services) and the
    constants of [app_config.h] that the models use. *)

From S2P Require Import Prelude.

(** ** ADC snapshot: written by [svc_adc], read by the power and LCD services *)
Record app_adc_snapshot_t := mk_adc_snapshot {
  raw_bat24 : Z; raw_li_bat : Z; raw_super_c : Z; raw_key : Z;
  est_bat24_mv : Z; est_li_bat_mv : Z; est_super_c_mv : Z;
  mv_bat24 : Z; mv_li_bat : Z; mv_super_c : Z; mv_key : Z
}.

#[export] Instance eta_adc_snapshot : Eta app_adc_snapshot_t := fun r =>
  mk_adc_snapshot (raw_bat24 r) (raw_li_bat r) (raw_super_c r) (raw_key r)
    (est_bat24_mv r) (est_li_bat_mv r) (est_super_c_mv r)
    (mv_bat24 r) (mv_li_bat r) (mv_super_c r) (mv_key r).

(** ** Vehicle input snapshot: written by [svc_vehicle_io] *)
Record app_vehicle_io_state_t := mk_vehicle_io_state {
  wk_acc : Z; wk_on : Z;
  sw_kl1 : Z; sw_kl2 : Z; sw_kl3 : Z; sw_kl4 : Z; sw_kl5 : Z;
  sw_kl6 : Z; sw_kl7 : Z; sw_kl8 : Z; sw_kl9 : Z; sw_kl10 : Z;
  li_bat_stdby : Z; li_bat_chrg : Z; li_bat_raw : Z; li_bat_est_mv : Z
}.

#[export] Instance eta_vehicle_io_state : Eta app_vehicle_io_state_t := fun r =>
  mk_vehicle_io_state (wk_acc r) (wk_on r)
    (sw_kl1 r) (sw_kl2 r) (sw_kl3 r) (sw_kl4 r) (sw_kl5 r)
    (sw_kl6 r) (sw_kl7 r) (sw_kl8 r) (sw_kl9 r) (sw_kl10 r)
    (li_bat_stdby r) (li_bat_chrg r) (li_bat_raw r) (li_bat_est_mv r).

(** ** ADC configuration *)
Definition APP_ADC_CH_BAT_24V : Z := 2.
Definition APP_ADC_CH_LI_BAT_4V2 : Z := 3.
Definition APP_ADC_CH_SUPER_C_5V : Z := 4.
Definition APP_ADC_CH_KEY : Z := 11.
Definition APP_ADC_FULL_SCALE : Z := 65535.
Definition APP_ADC_VREF_MV : Z := 3300.
Definition APP_ADC_BAT24_DIV_UP_KOHM : Z := 1000.
Definition APP_ADC_BAT24_DIV_DOWN_KOHM : Z := 91.
Definition APP_ADC_LI_BAT_DIV_UP_KOHM : Z := 91.
Definition APP_ADC_LI_BAT_DIV_DOWN_KOHM : Z := 91.

(** ** Power management thresholds (mV) and times (ms) *)
Definition APP_PWR_MAIN_PRESENT_THRESHOLD_MV : Z := 18000.
Definition APP_PWR_SUPERCAP_READY_THRESHOLD_MV : Z := 2100.
Definition APP_PWR_SUPERCAP_HOLD_THRESHOLD_MV : Z := 2100.
Definition APP_PWR_SUPERCAP_SHUTDOWN_THRESHOLD_MV : Z := 1800.
Definition APP_PWR_MAIN_PRESENT_CONFIRM_MS : Z := 1000.
Definition APP_PWR_MAIN_LOSS_CONFIRM_MS : Z := 1000.
Definition APP_PWR_SUPERCAP_READY_CONFIRM_MS : Z := 3000.
Definition APP_PWR_SUPERCAP_LOW_CONFIRM_MS : Z := 2000.
Definition APP_PWR_HOLD_PREPARE_TIMEOUT_MS : Z := 10000.
Definition APP_PWR_SHUTDOWN_IN_PROGRESS_MS : Z := 3000.
Definition APP_PWR_RECOVERY_RESET_DELAY_MS : Z := 50.
Definition APP_PWR_SUPERCAP_MGMT_ENABLE : bool := false.
Definition APP_PWR_FINAL_SOC_CUT_DELAY_MS : Z := 1000.
Definition APP_PWR_FINAL_HOLD_CUT_DELAY_MS : Z := 1500.
Definition APP_CAM_12V_ENABLE_DELAY_MS : Z := 5000.
Definition APP_POWER_TASK_PERIOD_MS : Z := 100.

(** [APP_ADMIN_REGION_CODE] of the periodic status frame. *)
Definition APP_ADMIN_REGION_CODE : Z := 429006.
