(* ===== verification/Adc.v ===== *)
(** * ADC sampling service ([svc_adc.c])

    Conversion of raw samples to millivolts, decoding of the key voltage,
    key debouncing with one-shot events, and the sampling step of the ADC
    thread. *)

From S2P Require Import Prelude Platform AppTypes.

(** ** Data *)

Inductive adc_key_t := ADC_KEY_NONE | ADC_KEY_S1 | ADC_KEY_S2 | ADC_KEY_S3 | ADC_KEY_S4.

#[export] Instance adc_key_eq_dec : EqDecision adc_key_t.
Proof. solve_decision. Defined.

(** The static variables of the file. *)
Record adc_state := mk_adc_state {
  g_adc_snapshot : app_adc_snapshot_t;
  g_adc_key_last : adc_key_t;
  g_adc_key_candidate : adc_key_t;
  g_adc_key_confirm : Z;
  g_adc_s1_event : bool; g_adc_s2_event : bool;
  g_adc_s3_event : bool; g_adc_s4_event : bool
}.

#[export] Instance eta_adc_state : Eta adc_state := fun r =>
  mk_adc_state (g_adc_snapshot r) (g_adc_key_last r) (g_adc_key_candidate r)
    (g_adc_key_confirm r) (g_adc_s1_event r) (g_adc_s2_event r)
    (g_adc_s3_event r) (g_adc_s4_event r).

(** The converter, as seen in one sampling round: the raw count and the
    driver's own millivolt value of each channel. *)
Record adc_device := mk_adc_device {
  rt_adc_read : Z -> Z;
  rt_adc_voltage : Z -> Z
}.

(** ** Operations *)

Definition svc_adc_raw_to_pin_mv (raw : Z) : Z :=
  let pin_mv := u64 (raw * APP_ADC_VREF_MV) in
  let pin_mv := pin_mv / APP_ADC_FULL_SCALE in
  u32 pin_mv.

Definition svc_adc_estimate_input_mv (raw divider_up_kohm divider_down_kohm : Z) : Z :=
  let pin_mv := svc_adc_raw_to_pin_mv raw in
  let input_mv := u64 (pin_mv * u32 (divider_up_kohm + divider_down_kohm)) in
  let input_mv := input_mv / divider_down_kohm in
  u32 input_mv.

Definition svc_adc_decode_key (st : adc_state) : adc_key_t :=
  let raw := raw_key (g_adc_snapshot st) in
  if raw <=? 200 then ADC_KEY_S1
  else if (17000 <=? raw) && (raw <=? 20000) then ADC_KEY_S2
  else if (28000 <=? raw) && (raw <=? 31000) then ADC_KEY_S3
  else if (46000 <=? raw) && (raw <=? 50000) then ADC_KEY_S4
  else ADC_KEY_NONE.

Definition svc_adc_update_key_events (st : adc_state) : adc_state :=
  let key_now := svc_adc_decode_key st in
  if decide (key_now = g_adc_key_candidate st) then
    let st := if g_adc_key_confirm st <? 2
              then st <| g_adc_key_confirm := u8 (g_adc_key_confirm st + 1) |> else st in
    if (1 <=? g_adc_key_confirm st) && negb (bool_decide (key_now = g_adc_key_last st)) then
      let st := st <| g_adc_key_last := key_now |> in
      match key_now with
      | ADC_KEY_S1 => st <| g_adc_s1_event := true |>
      | ADC_KEY_S2 => st <| g_adc_s2_event := true |>
      | ADC_KEY_S3 => st <| g_adc_s3_event := true |>
      | ADC_KEY_S4 => st <| g_adc_s4_event := true |>
      | ADC_KEY_NONE => st
      end
    else st
  else st <| g_adc_key_candidate := key_now |> <| g_adc_key_confirm := 0 |>.

Definition svc_adc_sample_update (adc_dev : adc_device) (st : adc_state) : adc_state :=
  let snap := g_adc_snapshot st in
  let snap := snap <| raw_bat24 := rt_adc_read adc_dev APP_ADC_CH_BAT_24V |> in
  let snap := snap <| raw_li_bat := rt_adc_read adc_dev APP_ADC_CH_LI_BAT_4V2 |> in
  let snap := snap <| raw_super_c := rt_adc_read adc_dev APP_ADC_CH_SUPER_C_5V |> in
  let snap := snap <| raw_key := rt_adc_read adc_dev APP_ADC_CH_KEY |> in
  let snap := snap <| est_bat24_mv := svc_adc_estimate_input_mv (raw_bat24 snap)
                        APP_ADC_BAT24_DIV_UP_KOHM APP_ADC_BAT24_DIV_DOWN_KOHM |> in
  let snap := snap <| est_li_bat_mv := svc_adc_estimate_input_mv (raw_li_bat snap)
                        APP_ADC_LI_BAT_DIV_UP_KOHM APP_ADC_LI_BAT_DIV_DOWN_KOHM |> in
  let snap := snap <| est_super_c_mv := svc_adc_raw_to_pin_mv (raw_super_c snap) |> in
  let snap := snap <| mv_bat24 := i16 (rt_adc_voltage adc_dev APP_ADC_CH_BAT_24V) |> in
  let snap := snap <| mv_li_bat := i16 (rt_adc_voltage adc_dev APP_ADC_CH_LI_BAT_4V2) |> in
  let snap := snap <| mv_super_c := i16 (rt_adc_voltage adc_dev APP_ADC_CH_SUPER_C_5V) |> in
  let snap := snap <| mv_key := i16 (rt_adc_voltage adc_dev APP_ADC_CH_KEY) |> in
  svc_adc_update_key_events (st <| g_adc_snapshot := snap |>).

(** [svc_adc_channel_enable]: [rt_adc_enable] of a channel returns its code. *)
Definition svc_adc_channel_enable (rt_adc_enable : Z -> Z) : Z :=
  if negb (rt_adc_enable APP_ADC_CH_BAT_24V =? RT_EOK) then - RT_ERROR
  else if negb (rt_adc_enable APP_ADC_CH_LI_BAT_4V2 =? RT_EOK) then - RT_ERROR
  else if negb (rt_adc_enable APP_ADC_CH_SUPER_C_5V =? RT_EOK) then - RT_ERROR
  else if negb (rt_adc_enable APP_ADC_CH_KEY =? RT_EOK) then - RT_ERROR
  else RT_EOK.

(** [svc_adc_thread_entry] as the thread runs for a finite number of rounds:
    [None] when the device is missing or a channel cannot be enabled (the
    thread returns), otherwise the state after the given rounds. *)
Definition svc_adc_thread_entry (found : bool) (rt_adc_enable : Z -> Z)
    (rounds : list adc_device) (st : adc_state) : option adc_state :=
  if negb found then None
  else if negb (svc_adc_channel_enable rt_adc_enable =? RT_EOK) then None
  else Some (foldl (fun st d => svc_adc_sample_update d st) st rounds).

Definition zero_snapshot : app_adc_snapshot_t := mk_adc_snapshot 0 0 0 0 0 0 0 0 0 0 0.

Definition svc_adc_init : adc_state :=
  mk_adc_state zero_snapshot ADC_KEY_NONE ADC_KEY_NONE 0 false false false false.

Definition svc_adc_get_snapshot (st : adc_state) : app_adc_snapshot_t := g_adc_snapshot st.

Definition svc_adc_is_any_key_pressed (st : adc_state) : bool :=
  negb (bool_decide (g_adc_key_last st = ADC_KEY_NONE)).

Definition svc_adc_consume_s1_event (st : adc_state) : bool * adc_state :=
  (g_adc_s1_event st, st <| g_adc_s1_event := false |>).
Definition svc_adc_consume_s2_event (st : adc_state) : bool * adc_state :=
  (g_adc_s2_event st, st <| g_adc_s2_event := false |>).
Definition svc_adc_consume_s3_event (st : adc_state) : bool * adc_state :=
  (g_adc_s3_event st, st <| g_adc_s3_event := false |>).
Definition svc_adc_consume_s4_event (st : adc_state) : bool * adc_state :=
  (g_adc_s4_event st, st <| g_adc_s4_event := false |>).

(** ** Specification of the key path

    The key confirmed by a sequence of decoded samples is the key of the
    latest pair of equal consecutive samples; an event is the change of the
    confirmed key. *)

Definition key_of_raw (raw : Z) : adc_key_t :=
  if raw <=? 200 then ADC_KEY_S1
  else if (17000 <=? raw) && (raw <=? 20000) then ADC_KEY_S2
  else if (28000 <=? raw) && (raw <=? 31000) then ADC_KEY_S3
  else if (46000 <=? raw) && (raw <=? 50000) then ADC_KEY_S4
  else ADC_KEY_NONE.

Definition sampled_key (d : adc_device) : adc_key_t :=
  key_of_raw (rt_adc_read d APP_ADC_CH_KEY).

Fixpoint debounced (confirmed prev : adc_key_t) (ks : list adc_key_t) : adc_key_t :=
  match ks with
  | [] => confirmed
  | k :: ks => debounced (if decide (k = prev) then k else confirmed) k ks
  end.

Fixpoint key_edges (confirmed prev : adc_key_t) (ks : list adc_key_t) : list adc_key_t :=
  match ks with
  | [] => []
  | k :: ks =>
      if decide (k = prev) then
        (if decide (k = confirmed) then [] else [k]) ++ key_edges k k ks
      else key_edges confirmed k ks
  end.

(** The event flag of a key. *)
Definition key_event (k : adc_key_t) (st : adc_state) : bool :=
  match k with
  | ADC_KEY_NONE => false
  | ADC_KEY_S1 => g_adc_s1_event st
  | ADC_KEY_S2 => g_adc_s2_event st
  | ADC_KEY_S3 => g_adc_s3_event st
  | ADC_KEY_S4 => g_adc_s4_event st
  end.

Definition adc_inv (st : adc_state) : Prop := 0 <= g_adc_key_confirm st <= 2.

(** ** Lemmas *)

Lemma raw_to_pin_mv_exact raw :
  0 <= raw <= APP_ADC_FULL_SCALE ->
  svc_adc_raw_to_pin_mv raw = raw * 3300 / 65535 /\ 0 <= raw * 3300 / 65535 <= 3300.
Proof.
  unfold svc_adc_raw_to_pin_mv, APP_ADC_FULL_SCALE, APP_ADC_VREF_MV. intros.
  rewrite u64_id by lia. rewrite u32_id by wraps. lia.
Qed.

Lemma estimate_input_mv_exact raw up down :
  0 <= raw <= APP_ADC_FULL_SCALE -> 0 < down <= up -> up <= 1000 ->
  svc_adc_estimate_input_mv raw up down = raw * 3300 / 65535 * (up + down) / down.
Proof.
  intros Hr Hd Hu. unfold svc_adc_estimate_input_mv.
  destruct (raw_to_pin_mv_exact raw Hr) as [-> Hp].
  set (p := raw * 3300 / 65535) in *.
  rewrite (u32_id (up + down)) by wraps.
  rewrite u64_id by nia. apply u32_id. split; [apply Z.div_pos; nia |].
  apply Z.div_lt_upper_bound; nia.
Qed.

Lemma decode_key_of_raw st : svc_adc_decode_key st = key_of_raw (raw_key (g_adc_snapshot st)).
Proof. done. Qed.

(** One debouncing step, in terms of the specification. *)
Lemma update_key_events_spec st :
  adc_inv st ->
  let k := svc_adc_decode_key st in
  let st' := svc_adc_update_key_events st in
  adc_inv st' /\
  g_adc_key_candidate st' = k /\
  g_adc_key_last st' =
    (if decide (k = g_adc_key_candidate st) then k else g_adc_key_last st) /\
  forall j, key_event j st' =
    (key_event j st ||
     (bool_decide (k = g_adc_key_candidate st) && negb (bool_decide (k = g_adc_key_last st))
      && bool_decide (j = k) && negb (bool_decide (j = ADC_KEY_NONE))))%bool.
Proof.
  intros Hinv k st'. subst st'. unfold adc_inv in *. unfold svc_adc_update_key_events.
  fold k. destruct (decide (k = g_adc_key_candidate st)) as [Hc|Hc].
  - rewrite (bool_decide_true _ Hc).
    set (st1 := if g_adc_key_confirm st <? 2 then _ else st).
    assert (1 <= g_adc_key_confirm st1 <= 2 /\ g_adc_key_last st1 = g_adc_key_last st /\
            g_adc_key_candidate st1 = g_adc_key_candidate st /\
            forall j, key_event j st1 = key_event j st) as (Hcf & Hl & Hcd & He).
    { subst st1. destruct (Z.ltb_spec (g_adc_key_confirm st) 2); simpl;
        split_and!; try done; try lia; try wraps; by intros []. }
    rewrite Hl. destruct (Z.leb_spec 1 (g_adc_key_confirm st1)); [simpl | lia].
    destruct (decide (k = g_adc_key_last st)) as [Hkl|Hkl].
    + rewrite (bool_decide_true _ Hkl). simpl. split_and!; try lia; try congruence.
      intros j. by rewrite He, orb_false_r.
    + rewrite (bool_decide_false _ Hkl). simpl.
      destruct k eqn:Ek; simpl; split_and!; try done; try lia; try congruence.
      all: intros j; rewrite <- He; destruct j; simpl;
        rewrite ?orb_false_r, ?orb_true_r; done.
  - rewrite (bool_decide_false _ Hc). simpl. split_and!; try lia; try done.
    intros []; simpl; by rewrite ?orb_false_r.
Qed.

Lemma sample_update_key d st :
  adc_inv st ->
  let k := sampled_key d in
  let st' := svc_adc_sample_update d st in
  adc_inv st' /\ g_adc_key_candidate st' = k /\
  g_adc_key_last st' =
    (if decide (k = g_adc_key_candidate st) then k else g_adc_key_last st) /\
  forall j, key_event j st' =
    (key_event j st ||
     (bool_decide (k = g_adc_key_candidate st) && negb (bool_decide (k = g_adc_key_last st))
      && bool_decide (j = k) && negb (bool_decide (j = ADC_KEY_NONE))))%bool.
Proof.
  intros Hinv k st'. subst k st'. unfold svc_adc_sample_update.
  match goal with |- context [svc_adc_update_key_events ?s] => set (s0 := s) end.
  destruct (update_key_events_spec s0) as (H1 & H2 & H3 & H4); [done |].
  change (svc_adc_decode_key s0) with (sampled_key d) in *.
  change (g_adc_key_candidate s0) with (g_adc_key_candidate st) in *.
  change (g_adc_key_last s0) with (g_adc_key_last st) in *.
  by split_and!.
Qed.

Lemma sample_rounds_spec rounds st :
  adc_inv st ->
  let ks := map sampled_key rounds in
  let st' := foldl (fun st d => svc_adc_sample_update d st) st rounds in
  g_adc_key_last st' = debounced (g_adc_key_last st) (g_adc_key_candidate st) ks /\
  forall j, key_event j st' = true <->
    key_event j st = true \/
    (j <> ADC_KEY_NONE /\ j ∈ key_edges (g_adc_key_last st) (g_adc_key_candidate st) ks).
Proof.
  revert st. induction rounds as [|d rounds IH]; intros st Hinv; simpl.
  - split; [done |]. intros j. set_solver.
  - destruct (sample_update_key d st Hinv) as (H1 & H2 & H3 & H4).
    destruct (IH _ H1) as [IHl IHe]. rewrite H2, H3 in IHl, IHe.
    split; [done |]. intros j. rewrite IHe, H4, orb_true_iff, !andb_true_iff.
    rewrite !negb_true_iff, !bool_decide_eq_true, !bool_decide_eq_false.
    repeat case_decide; set_solver.
Qed.

(** ** Properties *)

(** For every 16-bit sample of the 24 V channel the estimate is computed
    without overflow, never exceeds the exact divider value
    [raw * 3300 * 1091 / (65535 * 91)] mV, and is less than 13 mV below it. *)
Theorem bat24_estimate_accuracy raw :
  0 <= raw <= APP_ADC_FULL_SCALE ->
  let est := svc_adc_estimate_input_mv raw APP_ADC_BAT24_DIV_UP_KOHM APP_ADC_BAT24_DIV_DOWN_KOHM in
  est * (65535 * 91) <= raw * 3300 * 1091 < (est + 13) * (65535 * 91).
Proof.
  intros Hr. cbv zeta. rewrite estimate_input_mv_exact by (unfold APP_ADC_BAT24_DIV_UP_KOHM,
    APP_ADC_BAT24_DIV_DOWN_KOHM; lia).
  unfold APP_ADC_BAT24_DIV_UP_KOHM, APP_ADC_BAT24_DIV_DOWN_KOHM, APP_ADC_FULL_SCALE in *.
  change (1000 + 91) with 1091. lia.
Qed.

Lemma bat24_estimate_accuracy_witness :
  0 <= 43000 <= APP_ADC_FULL_SCALE /\
  (let est := svc_adc_estimate_input_mv 43000 APP_ADC_BAT24_DIV_UP_KOHM APP_ADC_BAT24_DIV_DOWN_KOHM in
   est * (65535 * 91) <= 43000 * 3300 * 1091 < (est + 13) * (65535 * 91)).
Proof.
  assert (0 <= 43000 <= APP_ADC_FULL_SCALE) as H by (unfold APP_ADC_FULL_SCALE; lia).
  split; [exact H | exact (bat24_estimate_accuracy 43000 H)].
Defined.

(** C23: from initialisation, after any sequence of sampling rounds the
    confirmed key is the key of the latest two equal consecutive samples, and
    the event flag of a key is set exactly when the confirmed key has changed
    to that key at some round (so an isolated sample never raises an event). *)
Theorem key_debounce_refines rounds :
  let ks := map sampled_key rounds in
  let st := foldl (fun st d => svc_adc_sample_update d st) svc_adc_init rounds in
  g_adc_key_last st = debounced ADC_KEY_NONE ADC_KEY_NONE ks /\
  forall k, key_event k st = true <->
    k <> ADC_KEY_NONE /\ k ∈ key_edges ADC_KEY_NONE ADC_KEY_NONE ks.
Proof.
  destruct (sample_rounds_spec rounds svc_adc_init) as [Hl He]; [by vm_compute |].
  split; [done |]. intros k. rewrite He. by destruct k; naive_solver.
Qed.
