(* ===== verification/VehicleIo.v ===== *)
(** * Vehicle input service ([svc_vehicle_io.c])

    Translation of GPIO levels into the vehicle snapshot, packing of the ten
    switch inputs into a bit field, and the change-triggered log of the input
    thread. *)

From S2P Require Import Prelude Platform AppTypes.

(** ** Data *)

Definition WK_ACC_PIN : Z := 19.
Definition WK_ON_PIN : Z := 20.
Definition LI_BAT_STDBY_PIN : Z := 22.
Definition LI_BAT_CHRG_PIN : Z := 23.
Definition SW_KL1_PIN : Z := 0.
Definition SW_KL2_PIN : Z := 1.
Definition SW_KL3_PIN : Z := 11.
Definition SW_KL4_PIN : Z := 12.
Definition SW_KL5_PIN : Z := 13.
Definition SW_KL6_PIN : Z := 14.
Definition SW_KL7_PIN : Z := 15.
Definition SW_KL8_PIN : Z := 16.
Definition SW_KL9_PIN : Z := 17.
Definition SW_KL10_PIN : Z := 18.

(** The static variables of the file, and the log lines it has printed
    (the switch values of each line). *)
Record vehicle_io := mk_vehicle_io {
  g_vehicle_io_state : app_vehicle_io_state_t;
  g_sw_kl_last_bits : Z;
  io_log : list (list Z)
}.

#[export] Instance eta_vehicle_io : Eta vehicle_io := fun r =>
  mk_vehicle_io (g_vehicle_io_state r) (g_sw_kl_last_bits r) (io_log r).

(** ** Operations *)

Definition svc_vehicle_io_apply_level (raw_level active_low : Z) : Z :=
  if negb (active_low =? 0) then b2u (raw_level =? 0)
  else b2u (negb (raw_level =? 0)).

Definition SW_KL1_ACTIVE_LOW : Z := 1.
Definition SW_KL2_ACTIVE_LOW : Z := 1.
Definition SW_KL3_ACTIVE_LOW : Z := 1.
Definition SW_KL4_ACTIVE_LOW : Z := 1.
Definition SW_KL5_ACTIVE_LOW : Z := 1.
Definition SW_KL6_ACTIVE_LOW : Z := 1.
Definition SW_KL7_ACTIVE_LOW : Z := 1.
Definition SW_KL8_ACTIVE_LOW : Z := 1.
Definition SW_KL9_ACTIVE_LOW : Z := 0.
Definition SW_KL10_ACTIVE_LOW : Z := 0.

Definition svc_vehicle_io_update_state (di : gpio_regs) (adc_snapshot : app_adc_snapshot_t)
    (io : vehicle_io) : vehicle_io :=
  let wk_acc_raw := gpio_read_pin di GPIOC WK_ACC_PIN in
  let wk_on_raw := gpio_read_pin di GPIOC WK_ON_PIN in
  let kl pin active_low := svc_vehicle_io_apply_level (gpio_read_pin di GPIOB pin) active_low in
  let s := g_vehicle_io_state io in
  let s := s <| wk_acc := b2u (wk_acc_raw =? 0) |> in
  let s := s <| wk_on := b2u (wk_on_raw =? 0) |> in
  let s := s <| sw_kl1 := kl SW_KL1_PIN SW_KL1_ACTIVE_LOW |> in
  let s := s <| sw_kl2 := kl SW_KL2_PIN SW_KL2_ACTIVE_LOW |> in
  let s := s <| sw_kl3 := kl SW_KL3_PIN SW_KL3_ACTIVE_LOW |> in
  let s := s <| sw_kl4 := kl SW_KL4_PIN SW_KL4_ACTIVE_LOW |> in
  let s := s <| sw_kl5 := kl SW_KL5_PIN SW_KL5_ACTIVE_LOW |> in
  let s := s <| sw_kl6 := kl SW_KL6_PIN SW_KL6_ACTIVE_LOW |> in
  let s := s <| sw_kl7 := kl SW_KL7_PIN SW_KL7_ACTIVE_LOW |> in
  let s := s <| sw_kl8 := kl SW_KL8_PIN SW_KL8_ACTIVE_LOW |> in
  let s := s <| sw_kl9 := kl SW_KL9_PIN SW_KL9_ACTIVE_LOW |> in
  let s := s <| sw_kl10 := kl SW_KL10_PIN SW_KL10_ACTIVE_LOW |> in
  let s := s <| li_bat_stdby := gpio_read_pin di GPIOB LI_BAT_STDBY_PIN |> in
  let s := s <| li_bat_chrg := gpio_read_pin di GPIOB LI_BAT_CHRG_PIN |> in
  let s := s <| li_bat_raw := raw_li_bat adc_snapshot |> in
  let s := s <| li_bat_est_mv := est_li_bat_mv adc_snapshot |> in
  io <| g_vehicle_io_state := s |>.

(** [x ? (1U << i) : 0U] *)
Definition flag_bit (x i : Z) : Z := if negb (x =? 0) then Z.shiftl 1 i else 0.

Definition svc_vehicle_io_pack_sw_kl_bits (state : app_vehicle_io_state_t) : Z :=
  let bits := 0 in
  let bits := u16 (Z.lor bits (flag_bit (sw_kl1 state) 0)) in
  let bits := u16 (Z.lor bits (flag_bit (sw_kl2 state) 1)) in
  let bits := u16 (Z.lor bits (flag_bit (sw_kl3 state) 2)) in
  let bits := u16 (Z.lor bits (flag_bit (sw_kl4 state) 3)) in
  let bits := u16 (Z.lor bits (flag_bit (sw_kl5 state) 4)) in
  let bits := u16 (Z.lor bits (flag_bit (sw_kl6 state) 5)) in
  let bits := u16 (Z.lor bits (flag_bit (sw_kl7 state) 6)) in
  let bits := u16 (Z.lor bits (flag_bit (sw_kl8 state) 7)) in
  let bits := u16 (Z.lor bits (flag_bit (sw_kl9 state) 8)) in
  let bits := u16 (Z.lor bits (flag_bit (sw_kl10 state) 9)) in
  bits.

(** The ten switch values, in order. *)
Definition sw_kl_values (s : app_vehicle_io_state_t) : list Z :=
  [sw_kl1 s; sw_kl2 s; sw_kl3 s; sw_kl4 s; sw_kl5 s;
   sw_kl6 s; sw_kl7 s; sw_kl8 s; sw_kl9 s; sw_kl10 s].

Definition svc_vehicle_io_debug_print_sw_kl (io : vehicle_io) : vehicle_io :=
  let bits := svc_vehicle_io_pack_sw_kl_bits (g_vehicle_io_state io) in
  if negb (bits =? g_sw_kl_last_bits io) then
    io <| io_log := io_log io ++ [sw_kl_values (g_vehicle_io_state io)] |>
       <| g_sw_kl_last_bits := bits |>
  else io.

(** One round of the input thread. *)
Definition svc_vehicle_io_thread_round (io : vehicle_io) (inp : gpio_regs * app_adc_snapshot_t)
    : vehicle_io :=
  svc_vehicle_io_debug_print_sw_kl (svc_vehicle_io_update_state (fst inp) (snd inp) io).

Definition zero_vehicle_io_state : app_vehicle_io_state_t :=
  mk_vehicle_io_state 0 0 0 0 0 0 0 0 0 0 0 0 0 0 0 0.

(** [svc_vehicle_io_init] after the pin configuration of the board layer. *)
Definition svc_vehicle_io_init : vehicle_io :=
  mk_vehicle_io zero_vehicle_io_state 65535 [].

Definition svc_vehicle_io_get_state (io : vehicle_io) : app_vehicle_io_state_t :=
  g_vehicle_io_state io.

(** ** Specification *)

(** Where switch [i] (0 for KL1) is wired, and its polarity. *)
Definition sw_kl_pin (i : nat) : Z := nth i [0; 1; 11; 12; 13; 14; 15; 16; 17; 18] 0.
Definition sw_kl_active_low (i : nat) : bool := (i <? 8)%nat.

(** The runs of a sequence with equal neighbours merged. *)
Fixpoint changes (prev : Z) (l : list Z) : list Z :=
  match l with
  | [] => []
  | x :: l => if x =? prev then changes prev l else x :: changes x l
  end.

(** The switch word a round samples from the pins. *)
Definition sampled_bits (inp : gpio_regs * app_adc_snapshot_t) : Z :=
  svc_vehicle_io_pack_sw_kl_bits
    (g_vehicle_io_state (svc_vehicle_io_update_state (fst inp) (snd inp) svc_vehicle_io_init)).

(** ** Lemmas *)

(** The word as a sum of weighted flags, the form [lia] computes with. *)
Definition kl_word (l : list Z) : Z :=
  foldr (fun x acc => b2u (negb (x =? 0)) + 2 * acc) 0 l.

Lemma or_flag_bit b x i :
  0 <= i < 16 -> 0 <= b < 2 ^ i ->
  u16 (Z.lor b (flag_bit x i)) = b + 2 ^ i * b2u (negb (x =? 0)).
Proof.
  intros Hi Hb. unfold flag_bit. assert (2 ^ (i + 1) <= 2 ^ 16) by (apply Z.pow_le_mono_r; lia).
  rewrite Z.pow_add_r in * by lia. destruct (x =? 0); cbn [negb b2u].
  - rewrite Z.lor_0_r. wraps.
  - rewrite lor_shiftl by lia. wraps.
Qed.

Lemma pack_sw_kl_word s : svc_vehicle_io_pack_sw_kl_bits s = kl_word (sw_kl_values s).
Proof.
  unfold svc_vehicle_io_pack_sw_kl_bits, kl_word, sw_kl_values. cbn [foldr].
  repeat match goal with |- context [Z.lor ?b (flag_bit ?x ?i)] =>
    lazymatch b with context [flag_bit] => fail | _ => idtac end;
    rewrite (or_flag_bit b x i);
      [generalize (b2u_bit (negb (x =? 0))); generalize (b2u (negb (x =? 0))); intros
      | lia | lia]
  end.
  lia.
Qed.

Lemma kl_word_testbit l i :
  Z.testbit (kl_word l) (Z.of_nat i) = match l !! i with
                                       | Some x => negb (x =? 0)
                                       | None => false
                                       end.
Proof.
  revert i. induction l as [|x l IH]; intros [|i]; cbn [kl_word foldr lookup list_lookup].
  - done.
  - by rewrite Z.testbit_0_l.
  - fold (kl_word l). rewrite Z.add_comm. change (Z.of_nat 0) with 0.
    destruct (x =? 0); simpl b2u; [by rewrite Z.add_0_r, Z.testbit_even_0 |
                                   by rewrite Z.testbit_odd_0].
  - fold (kl_word l). rewrite Nat2Z.inj_succ, Z.add_comm.
    destruct (x =? 0); simpl b2u; rewrite ?Z.add_0_r;
      [rewrite Z.testbit_even_succ by lia | rewrite Z.testbit_odd_succ by lia]; apply IH.
Qed.

Lemma kl_word_bound l : 0 <= kl_word l < 2 ^ Z.of_nat (length l).
Proof.
  induction l as [|x l IH]; [done |]. cbn [length kl_word foldr]. fold (kl_word l).
  rewrite Nat2Z.inj_succ, Z.pow_succ_r by lia. destruct (x =? 0); simpl b2u; lia.
Qed.

Lemma pack_bound s : 0 <= svc_vehicle_io_pack_sw_kl_bits s < 1024.
Proof. rewrite pack_sw_kl_word. exact (kl_word_bound (sw_kl_values s)). Qed.

Lemma update_state_frame di adc io :
  io_log (svc_vehicle_io_update_state di adc io) = io_log io /\
  g_sw_kl_last_bits (svc_vehicle_io_update_state di adc io) = g_sw_kl_last_bits io.
Proof. done. Qed.

(** The switch values depend on the pins only. *)
Lemma update_state_values di adc io :
  sw_kl_values (g_vehicle_io_state (svc_vehicle_io_update_state di adc io)) =
  map (fun i => svc_vehicle_io_apply_level (gpio_read_pin di GPIOB (sw_kl_pin i))
                  (b2u (sw_kl_active_low i))) (seq 0 10).
Proof. unfold svc_vehicle_io_update_state, sw_kl_values. simpl. reflexivity. Qed.

#[local] Opaque svc_vehicle_io_update_state.

Lemma round_bits io inp :
  svc_vehicle_io_pack_sw_kl_bits
    (g_vehicle_io_state (svc_vehicle_io_update_state (fst inp) (snd inp) io)) = sampled_bits inp.
Proof. unfold sampled_bits. by rewrite !pack_sw_kl_word, !update_state_values. Qed.

Lemma sampled_bits_bound inp : 0 <= sampled_bits inp < 1024.
Proof. unfold sampled_bits. apply pack_bound. Qed.

#[local] Opaque sampled_bits.

(** A round prints one line carrying the sampled word when that word differs
    from the last printed one, and prints nothing otherwise. *)
Lemma round_log io inp :
  let io' := svc_vehicle_io_thread_round io inp in
  map kl_word (io_log io') =
    map kl_word (io_log io) ++
      (if sampled_bits inp =? g_sw_kl_last_bits io then [] else [sampled_bits inp]) /\
  g_sw_kl_last_bits io' = sampled_bits inp.
Proof.
  unfold svc_vehicle_io_thread_round, svc_vehicle_io_debug_print_sw_kl. cbv zeta.
  rewrite round_bits. destruct (update_state_frame (fst inp) (snd inp) io) as [Hl Hb].
  rewrite Hb. destruct (Z.eqb_spec (sampled_bits inp) (g_sw_kl_last_bits io)) as [E|E];
    cbn [negb update_with io_log g_sw_kl_last_bits].
  - by rewrite app_nil_r, Hl, Hb.
  - by rewrite map_app, Hl; cbn [map]; rewrite <- pack_sw_kl_word, round_bits.
Qed.

Lemma rounds_log rounds io :
  map kl_word (io_log (foldl svc_vehicle_io_thread_round io rounds)) =
  map kl_word (io_log io) ++ changes (g_sw_kl_last_bits io) (map sampled_bits rounds).
Proof.
  revert io. induction rounds as [|inp rounds IH]; intros io; simpl; [by rewrite app_nil_r |].
  destruct (round_log io inp) as [Hl Hb]. rewrite IH, Hl, Hb.
  destruct (Z.eqb_spec (sampled_bits inp) (g_sw_kl_last_bits io)) as [E|E];
    rewrite <- app_assoc; simpl; [by rewrite E | done].
Qed.

(** ** Properties *)

(** Bit [i] of the packed switch word is 1 exactly when switch KL[i+1] is
    active at its pin: low level for KL1..KL8, high level for KL9 and KL10;
    the other bits of the 16-bit word are 0. *)
Theorem pack_sw_kl_bits_correct di adc io (i : nat) :
  let s := g_vehicle_io_state (svc_vehicle_io_update_state di adc io) in
  Z.testbit (svc_vehicle_io_pack_sw_kl_bits s) (Z.of_nat i) =
  ((i <? 10)%nat && xorb (sw_kl_active_low i) (Z.testbit (di GPIOB) (sw_kl_pin i)))%bool.
Proof.
  cbv zeta. rewrite pack_sw_kl_word, kl_word_testbit, update_state_values, list_lookup_fmap.
  destruct (Nat.ltb_spec i 10) as [Hi|Hi].
  - rewrite lookup_seq_lt by done. simpl.
    assert (0 <= sw_kl_pin i) by (do 10 (destruct i as [|i]; [done |]); lia).
    rewrite gpio_read_pin_testbit by done. unfold svc_vehicle_io_apply_level.
    by destruct (sw_kl_active_low i), (Z.testbit (di GPIOB) (sw_kl_pin i)).
  - by rewrite lookup_seq_ge by done.
Qed.

(** From initialisation the input thread logs the switch word of the first
    round and then exactly the words that differ from the one before. *)
Theorem sw_kl_log_is_changes inp rounds :
  map kl_word (io_log (foldl svc_vehicle_io_thread_round svc_vehicle_io_init (inp :: rounds))) =
  sampled_bits inp :: changes (sampled_bits inp) (map sampled_bits rounds).
Proof.
  rewrite rounds_log. cbn [map changes app io_log g_sw_kl_last_bits svc_vehicle_io_init].
  pose proof (sampled_bits_bound inp).
  by destruct (Z.eqb_spec (sampled_bits inp) 65535); [lia |].
Qed.
