(* ===== verification/Power.v ===== *)
(** * Power management service ([svc_power.c])

    The power state machine: debouncing of the 24 V supply, evaluation of the
    stage, the actions of a stage change, the final power cut and the delayed
    camera supply, as one round of the power thread.  Time is the real time in
    milliseconds (a [Z]); the code sees the 32-bit tick counter, which wraps. *)

From S2P Require Import Prelude Platform AppTypes.

(** ** Data *)

Inductive svc_power_stage_t :=
| SVC_POWER_STAGE_UNKNOWN
| SVC_POWER_STAGE_MAIN_OFF
| SVC_POWER_STAGE_STANDBY
| SVC_POWER_STAGE_ACC_ACTIVE
| SVC_POWER_STAGE_ON_ACTIVE
| SVC_POWER_STAGE_SUPERCAP_HOLD
| SVC_POWER_STAGE_SHUTDOWN_PENDING
| SVC_POWER_STAGE_SHUTDOWN_IN_PROGRESS.

(** The integer value of the enumerator, on which C compares. *)
Definition stage_value (s : svc_power_stage_t) : Z :=
  match s with
  | SVC_POWER_STAGE_UNKNOWN => 0
  | SVC_POWER_STAGE_MAIN_OFF => 1
  | SVC_POWER_STAGE_STANDBY => 2
  | SVC_POWER_STAGE_ACC_ACTIVE => 3
  | SVC_POWER_STAGE_ON_ACTIVE => 4
  | SVC_POWER_STAGE_SUPERCAP_HOLD => 5
  | SVC_POWER_STAGE_SHUTDOWN_PENDING => 6
  | SVC_POWER_STAGE_SHUTDOWN_IN_PROGRESS => 7
  end.

Definition stage_eqb (a b : svc_power_stage_t) : bool := stage_value a =? stage_value b.

Notation "a =s? b" := (stage_eqb a b) (at level 70, no associativity) : dvr_scope.

Definition SVC_POWER_CTRL_PWREN_24V_PIN : Z := 11.
Definition SVC_POWER_CTRL_PWREN_SOC_PIN : Z := 12.
Definition SVC_POWER_CTRL_SUPERCAP_CHRG_PIN : Z := 13.
Definition SVC_POWER_CTRL_PWR_HOLD_PIN : Z := 14.
Definition SVC_POWER_CTRL_CAM_12V_EN_PIN : Z := 23.

(** The static variables of the file, the GPIO output latches it drives and
    the LCD backlight it switches off. *)
Record power := mk_power {
  g_power_stage : svc_power_stage_t;
  g_supercap_hold_enter_tick : Z;
  g_shutdown_pending_enter_tick : Z;
  g_power_loss_latched : bool;
  g_shutdown_prepare_done : bool;
  g_supercap_ready : bool;
  g_prev_main_present : bool;
  g_main_present_confirm_count : Z;
  g_main_loss_confirm_count : Z;
  g_supercap_ready_confirm_count : Z;
  g_supercap_low_confirm_count : Z;
  g_final_soc_cut_done : bool;
  g_final_hold_cut_done : bool;
  g_cam_12v_enable_start_tick : Z;
  g_cam_12v_enabled : bool;
  gpio_latch : gpio_regs;
  backlight_on : bool
}.

#[export] Instance eta_power : Eta power := fun r =>
  mk_power (g_power_stage r) (g_supercap_hold_enter_tick r)
    (g_shutdown_pending_enter_tick r) (g_power_loss_latched r)
    (g_shutdown_prepare_done r) (g_supercap_ready r) (g_prev_main_present r)
    (g_main_present_confirm_count r) (g_main_loss_confirm_count r)
    (g_supercap_ready_confirm_count r) (g_supercap_low_confirm_count r)
    (g_final_soc_cut_done r) (g_final_hold_cut_done r)
    (g_cam_12v_enable_start_tick r) (g_cam_12v_enabled r) (gpio_latch r) (backlight_on r).

(** ** Operations *)

Definition svc_power_ms_to_confirm_count (time_ms : Z) : Z :=
  let count := u32 (u32 (time_ms + APP_POWER_TASK_PERIOD_MS) - 1) / APP_POWER_TASK_PERIOD_MS in
  let count := if count =? 0 then 1 else count in
  let count := if 255 <? count then 255 else count in
  u8 count.

Definition svc_power_update_confirm_counter (condition : bool) (counter : Z) : Z :=
  if condition then (if counter <? 255 then u8 (counter + 1) else counter) else 0.

Definition svc_power_init_ctrl_pins (latch : gpio_regs) : gpio_regs :=
  let latch := gpio_write_pin latch GPIOC SVC_POWER_CTRL_PWREN_24V_PIN 1 in
  let latch := gpio_write_pin latch GPIOC SVC_POWER_CTRL_PWREN_SOC_PIN 1 in
  let latch := gpio_write_pin latch GPIOC SVC_POWER_CTRL_SUPERCAP_CHRG_PIN 0 in
  let latch := gpio_write_pin latch GPIOC SVC_POWER_CTRL_PWR_HOLD_PIN 1 in
  gpio_write_pin latch GPIOA SVC_POWER_CTRL_CAM_12V_EN_PIN 0.

Definition svc_power_cut_soc_outputs (latch : gpio_regs) : gpio_regs :=
  let latch := gpio_write_pin latch GPIOC SVC_POWER_CTRL_PWREN_SOC_PIN 0 in
  let latch := gpio_write_pin latch GPIOC SVC_POWER_CTRL_PWREN_24V_PIN 0 in
  if APP_PWR_SUPERCAP_MGMT_ENABLE
  then gpio_write_pin latch GPIOC SVC_POWER_CTRL_SUPERCAP_CHRG_PIN 0 else latch.

Definition svc_power_release_mcu_hold (latch : gpio_regs) : gpio_regs :=
  gpio_write_pin latch GPIOC SVC_POWER_CTRL_PWR_HOLD_PIN 0.

Definition svc_power_is_main_present_raw (a : app_adc_snapshot_t) : bool :=
  APP_PWR_MAIN_PRESENT_THRESHOLD_MV <=? est_bat24_mv a.
Definition svc_power_is_supercap_ready_raw (a : app_adc_snapshot_t) : bool :=
  APP_PWR_SUPERCAP_READY_THRESHOLD_MV <=? est_super_c_mv a.
Definition svc_power_is_supercap_available_raw (a : app_adc_snapshot_t) : bool :=
  APP_PWR_SUPERCAP_HOLD_THRESHOLD_MV <=? est_super_c_mv a.
Definition svc_power_is_supercap_low_raw (a : app_adc_snapshot_t) : bool :=
  est_super_c_mv a <? APP_PWR_SUPERCAP_SHUTDOWN_THRESHOLD_MV.

Definition svc_power_is_shutdown_flow_stage (stage : svc_power_stage_t) : bool :=
  (stage =s? SVC_POWER_STAGE_SUPERCAP_HOLD)
  || (stage =s? SVC_POWER_STAGE_SHUTDOWN_PENDING)
  || (stage =s? SVC_POWER_STAGE_SHUTDOWN_IN_PROGRESS).

(** [now_tick] is the value [rt_tick_get] returns at the call. *)
Definition svc_power_ticks_to_ms (now_tick start_tick : Z) : Z :=
  if start_tick =? 0 then 0
  else
    let delta_tick := u32 (now_tick - start_tick) in
    u32 (u64 (delta_tick * 1000) / RT_TICK_PER_SECOND).

Definition svc_power_get_hold_elapsed_ms (now_tick : Z) (p : power) : Z :=
  svc_power_ticks_to_ms now_tick (g_supercap_hold_enter_tick p).

Definition svc_power_get_shutdown_pending_elapsed_ms (now_tick : Z) (p : power) : Z :=
  svc_power_ticks_to_ms now_tick (g_shutdown_pending_enter_tick p).

Definition svc_power_eval_normal_stage (v : app_vehicle_io_state_t) : svc_power_stage_t :=
  if negb (wk_on v =? 0) then SVC_POWER_STAGE_ON_ACTIVE
  else if negb (wk_acc v =? 0) then SVC_POWER_STAGE_ACC_ACTIVE
  else SVC_POWER_STAGE_SHUTDOWN_PENDING.

(** The debouncing prologue of [svc_power_eval_stage]. *)
Definition svc_power_eval_counters (a : app_adc_snapshot_t) (p : power) : power :=
  let main_present_raw := svc_power_is_main_present_raw a in
  let p := p <| g_main_present_confirm_count :=
                  svc_power_update_confirm_counter main_present_raw
                    (g_main_present_confirm_count p) |> in
  let p := p <| g_main_loss_confirm_count :=
                  svc_power_update_confirm_counter (negb main_present_raw)
                    (g_main_loss_confirm_count p) |> in
  if APP_PWR_SUPERCAP_MGMT_ENABLE then
    let p := p <| g_supercap_ready_confirm_count :=
                    svc_power_update_confirm_counter (svc_power_is_supercap_ready_raw a)
                      (g_supercap_ready_confirm_count p) |> in
    p <| g_supercap_low_confirm_count :=
           svc_power_update_confirm_counter (svc_power_is_supercap_low_raw a)
             (g_supercap_low_confirm_count p) |>
  else
    p <| g_supercap_ready_confirm_count := 0 |> <| g_supercap_low_confirm_count := 0 |>
      <| g_supercap_ready := false |>.

(** [None] is the software reset of the recovery path ([rt_hw_cpu_reset]). *)
Definition svc_power_eval_stage (now_tick : Z) (a : app_adc_snapshot_t)
    (v : app_vehicle_io_state_t) (p : power) : option (svc_power_stage_t * power) :=
  let main_present_confirm_target :=
    svc_power_ms_to_confirm_count APP_PWR_MAIN_PRESENT_CONFIRM_MS in
  let main_loss_confirm_target :=
    svc_power_ms_to_confirm_count APP_PWR_MAIN_LOSS_CONFIRM_MS in
  let supercap_ready_confirm_target :=
    svc_power_ms_to_confirm_count APP_PWR_SUPERCAP_READY_CONFIRM_MS in
  let supercap_low_confirm_target :=
    svc_power_ms_to_confirm_count APP_PWR_SUPERCAP_LOW_CONFIRM_MS in
  let p := svc_power_eval_counters a p in
  let main_present := main_present_confirm_target <=? g_main_present_confirm_count p in
  let main_falling_edge :=
    g_prev_main_present p && (main_loss_confirm_target <=? g_main_loss_confirm_count p) in
  let main_rising_edge := negb (g_prev_main_present p) && main_present in
  let supercap_available :=
    if APP_PWR_SUPERCAP_MGMT_ENABLE then svc_power_is_supercap_available_raw a else false in
  if main_present then
    if main_rising_edge && svc_power_is_shutdown_flow_stage (g_power_stage p) then None
    else
      let p := p <| g_power_loss_latched := false |> in
      let p := if APP_PWR_SUPERCAP_MGMT_ENABLE then
                 if supercap_ready_confirm_target <=? g_supercap_ready_confirm_count p
                 then p <| g_supercap_ready := true |> else p
               else p <| g_supercap_ready := false |> in
      let p := p <| g_prev_main_present := true |> in
      let normal_stage := svc_power_eval_normal_stage v in
      if (normal_stage =s? SVC_POWER_STAGE_SHUTDOWN_PENDING)
         && (g_power_stage p =s? SVC_POWER_STAGE_SHUTDOWN_PENDING)
         && (APP_PWR_SHUTDOWN_IN_PROGRESS_MS
             <=? svc_power_get_shutdown_pending_elapsed_ms now_tick p)
      then Some (SVC_POWER_STAGE_SHUTDOWN_IN_PROGRESS, p)
      else Some (normal_stage, p)
  else
    let p := if main_loss_confirm_target <=? g_main_loss_confirm_count p
             then p <| g_prev_main_present := false |> else p in
    if main_falling_edge && negb (g_power_loss_latched p) then
      let p := p <| g_power_loss_latched := true |> in
      if APP_PWR_SUPERCAP_MGMT_ENABLE && g_supercap_ready p && supercap_available
      then Some (SVC_POWER_STAGE_SUPERCAP_HOLD, p)
      else Some (SVC_POWER_STAGE_SHUTDOWN_PENDING, p)
    else if g_power_loss_latched p then
      if (g_power_stage p =s? SVC_POWER_STAGE_SHUTDOWN_PENDING)
         || (g_power_stage p =s? SVC_POWER_STAGE_SHUTDOWN_IN_PROGRESS) then
        if APP_PWR_SHUTDOWN_IN_PROGRESS_MS
           <=? svc_power_get_shutdown_pending_elapsed_ms now_tick p
        then Some (SVC_POWER_STAGE_SHUTDOWN_IN_PROGRESS, p)
        else Some (SVC_POWER_STAGE_SHUTDOWN_PENDING, p)
      else if (supercap_low_confirm_target <=? g_supercap_low_confirm_count p)
              || (APP_PWR_HOLD_PREPARE_TIMEOUT_MS
                  <=? svc_power_get_hold_elapsed_ms now_tick p)
      then Some (SVC_POWER_STAGE_SHUTDOWN_PENDING, p)
      else if APP_PWR_SUPERCAP_MGMT_ENABLE then Some (SVC_POWER_STAGE_SUPERCAP_HOLD, p)
      else Some (SVC_POWER_STAGE_SHUTDOWN_PENDING, p)
    else Some (SVC_POWER_STAGE_MAIN_OFF, p).

Definition svc_power_handle_final_power_cut (now_tick : Z) (p : power) : power :=
  if negb ((g_power_stage p =s? SVC_POWER_STAGE_SHUTDOWN_IN_PROGRESS)) then p
  else
    let pending_ms := svc_power_get_shutdown_pending_elapsed_ms now_tick p in
    let p := if negb (g_final_soc_cut_done p) && (APP_PWR_FINAL_SOC_CUT_DELAY_MS <=? pending_ms)
             then p <| g_final_soc_cut_done := true |>
                    <| gpio_latch := svc_power_cut_soc_outputs (gpio_latch p) |>
             else p in
    if negb (g_final_hold_cut_done p) && (APP_PWR_FINAL_HOLD_CUT_DELAY_MS <=? pending_ms)
    then p <| g_final_hold_cut_done := true |>
           <| gpio_latch := svc_power_release_mcu_hold (gpio_latch p) |>
    else p.

Definition svc_power_handle_stage_transition (now_tick : Z) (new_stage : svc_power_stage_t)
    (p : power) : power :=
  if new_stage =s? g_power_stage p then p
  else
    let p :=
      if (new_stage =s? SVC_POWER_STAGE_SUPERCAP_HOLD) then
        p <| g_supercap_hold_enter_tick := now_tick |>
          <| g_shutdown_pending_enter_tick := 0 |>
          <| g_shutdown_prepare_done := false |>
          <| g_final_soc_cut_done := false |> <| g_final_hold_cut_done := false |>
          <| backlight_on := false |>
      else if (new_stage =s? SVC_POWER_STAGE_SHUTDOWN_PENDING)
              && negb (g_shutdown_prepare_done p) then
        let p := if g_supercap_hold_enter_tick p =? 0
                 then p <| g_supercap_hold_enter_tick := now_tick |> else p in
        p <| g_shutdown_pending_enter_tick := now_tick |>
          <| g_shutdown_prepare_done := true |>
          <| g_final_soc_cut_done := false |> <| g_final_hold_cut_done := false |>
          <| backlight_on := false |>
      else if (new_stage =s? SVC_POWER_STAGE_SHUTDOWN_IN_PROGRESS)
              && negb ((g_power_stage p =s? SVC_POWER_STAGE_SHUTDOWN_IN_PROGRESS)) then p
      else if (new_stage =s? SVC_POWER_STAGE_STANDBY)
              || (new_stage =s? SVC_POWER_STAGE_ACC_ACTIVE)
              || (new_stage =s? SVC_POWER_STAGE_ON_ACTIVE)
              || (new_stage =s? SVC_POWER_STAGE_MAIN_OFF) then
        p <| g_supercap_hold_enter_tick := 0 |>
          <| g_shutdown_pending_enter_tick := 0 |>
          <| g_shutdown_prepare_done := false |>
          <| g_final_soc_cut_done := false |> <| g_final_hold_cut_done := false |>
      else p in
    p <| g_power_stage := new_stage |>.

Definition svc_power_handle_cam_12v_enable (now_tick : Z) (p : power) : power :=
  if g_cam_12v_enabled p then p
  else if APP_CAM_12V_ENABLE_DELAY_MS
          <=? svc_power_ticks_to_ms now_tick (g_cam_12v_enable_start_tick p)
  then p <| gpio_latch := gpio_write_pin (gpio_latch p) GPIOA SVC_POWER_CTRL_CAM_12V_EN_PIN 1 |>
         <| g_cam_12v_enabled := true |>
  else p.

(** What one round of the thread reads: the two snapshots, and the real time
    at which each of its four handlers runs. *)
Record round := mk_round {
  adc_snapshot : app_adc_snapshot_t;
  vehicle_state : app_vehicle_io_state_t;
  t_eval : Z; t_trans : Z; t_cut : Z; t_cam : Z
}.

Definition svc_power_thread_round (r : round) (p : power) : option power :=
  match svc_power_eval_stage (u32 (t_eval r)) (adc_snapshot r) (vehicle_state r) p with
  | None => None
  | Some (power_stage, p) =>
      let p := svc_power_handle_stage_transition (u32 (t_trans r)) power_stage p in
      let p := svc_power_handle_final_power_cut (u32 (t_cut r)) p in
      Some (svc_power_handle_cam_12v_enable (u32 (t_cam r)) p)
  end.

(** The power thread over a list of rounds; [None] once a round resets. *)
Fixpoint svc_power_thread_entry (rs : list round) (p : power) : option power :=
  match rs with
  | [] => Some p
  | r :: rs => match svc_power_thread_round r p with
               | None => None
               | Some p => svc_power_thread_entry rs p
               end
  end.

Definition svc_power_init (now : Z) (latch : gpio_regs) (backlight : bool) : power :=
  mk_power SVC_POWER_STAGE_UNKNOWN 0 0 false false false false 0 0 0 0 false false
    (u32 now) false (svc_power_init_ctrl_pins latch) backlight.

(** ** Specification *)

Definition in_shutdown (s : svc_power_stage_t) : bool :=
  match s with
  | SVC_POWER_STAGE_SHUTDOWN_PENDING | SVC_POWER_STAGE_SHUTDOWN_IN_PROGRESS => true
  | _ => false
  end.

(** The stages of normal operation and of start-up. *)
Definition in_service (s : svc_power_stage_t) : bool :=
  match s with
  | SVC_POWER_STAGE_UNKNOWN | SVC_POWER_STAGE_MAIN_OFF
  | SVC_POWER_STAGE_ACC_ACTIVE | SVC_POWER_STAGE_ON_ACTIVE => true
  | _ => false
  end.

Definition main_ok (r : round) : bool := svc_power_is_main_present_raw (adc_snapshot r).

Definition ignition_off (r : round) : bool :=
  (wk_on (vehicle_state r) =? 0) && (wk_acc (vehicle_state r) =? 0).

(** Length of the run of [true] at the end of a sequence of samples. *)
Definition trailing (bs : list bool) : nat :=
  foldl (fun n b => if b : bool then S n else O) O bs.

Definition soc_on (p : power) : bool := pin_level (gpio_latch p) GPIOC SVC_POWER_CTRL_PWREN_SOC_PIN.
Definition main24_on (p : power) : bool := pin_level (gpio_latch p) GPIOC SVC_POWER_CTRL_PWREN_24V_PIN.
Definition hold_on (p : power) : bool := pin_level (gpio_latch p) GPIOC SVC_POWER_CTRL_PWR_HOLD_PIN.
Definition cam_on (p : power) : bool := pin_level (gpio_latch p) GPIOA SVC_POWER_CTRL_CAM_12V_EN_PIN.

(** The handlers of a round run in order, not before [t]. *)
Definition timed (t : Z) (r : round) : Prop :=
  t <= t_eval r /\ t_eval r <= t_trans r /\ t_trans r <= t_cut r /\ t_cut r <= t_cam r.

(** The time since which the stage has been in the shutdown stages without a
    break, if it is in one of them. *)
Definition since_step (p' : power) (now : Z) (since : option Z) : option Z :=
  if in_shutdown (g_power_stage p') then Some (default now since) else None.

(** The states the power thread reaches from [svc_power_init] at time [t0]
    without a reset, with the time of the latest round. *)
Inductive reach (t0 : Z) : power -> option Z -> Z -> Prop :=
| reach_init latch bl : reach t0 (svc_power_init t0 latch bl) None t0
| reach_round p since t r p' :
    reach t0 p since t -> timed t r -> svc_power_thread_round r p = Some p' ->
    reach t0 p' (since_step p' (t_trans r) since) (t_cam r).

(** ** Lemmas *)

Lemma stage_eqb_spec a b : reflect (a = b) (a =s? b).
Proof. by destruct a, b; constructor. Qed.

Lemma confirm_targets :
  svc_power_ms_to_confirm_count APP_PWR_MAIN_PRESENT_CONFIRM_MS = 10 /\
  svc_power_ms_to_confirm_count APP_PWR_MAIN_LOSS_CONFIRM_MS = 10.
Proof. done. Qed.

Lemma ticks_to_ms_exact now start :
  svc_power_ticks_to_ms now start = if start =? 0 then 0 else u32 (now - start).
Proof.
  unfold svc_power_ticks_to_ms, RT_TICK_PER_SECOND. case_match; [done |].
  pose proof (u32_range (now - start)). rewrite u64_id by lia.
  rewrite Z.div_mul by lia. apply u32_id. wraps.
Qed.

(** The measured time never exceeds the real time, and is the real time as
    long as that fits the counter. *)
Lemma elapsed_le now start :
  start <= now -> svc_power_ticks_to_ms (u32 now) (u32 start) <= now - start.
Proof. intros. rewrite ticks_to_ms_exact. case_match; wraps. Qed.

Lemma elapsed_exact now start :
  start <= now < start + 2 ^ 32 -> u32 start <> 0 ->
  svc_power_ticks_to_ms (u32 now) (u32 start) = now - start.
Proof. intros. rewrite ticks_to_ms_exact. case_match; bool_hyps; wraps. Qed.

(** The debounced view of a round. *)
Definition present_count' (r : round) (p : power) : Z :=
  svc_power_update_confirm_counter (main_ok r) (g_main_present_confirm_count p).
Definition loss_count' (r : round) (p : power) : Z :=
  svc_power_update_confirm_counter (negb (main_ok r)) (g_main_loss_confirm_count p).
Definition latched' (r : round) (p : power) : bool :=
  if 10 <=? present_count' r p then false
  else g_power_loss_latched p || (g_prev_main_present p && (10 <=? loss_count' r p)).

Definition pending_ms (now : Z) (p : power) : Z :=
  svc_power_ticks_to_ms (u32 now) (g_shutdown_pending_enter_tick p).

(** The stage evaluation in closed form. *)
Definition next_stage (r : round) (p : power) : svc_power_stage_t :=
  if 10 <=? present_count' r p then
    let s := svc_power_eval_normal_stage (vehicle_state r) in
    if (s =s? SVC_POWER_STAGE_SHUTDOWN_PENDING)
       && (g_power_stage p =s? SVC_POWER_STAGE_SHUTDOWN_PENDING)
       && (3000 <=? pending_ms (t_eval r) p)
    then SVC_POWER_STAGE_SHUTDOWN_IN_PROGRESS else s
  else if latched' r p then
    if g_power_loss_latched p && in_shutdown (g_power_stage p) && (3000 <=? pending_ms (t_eval r) p)
    then SVC_POWER_STAGE_SHUTDOWN_IN_PROGRESS else SVC_POWER_STAGE_SHUTDOWN_PENDING
  else SVC_POWER_STAGE_MAIN_OFF.

(** The part of the state that evaluation leaves alone. *)
Definition eval_frame (p : power) :=
  (g_power_stage p, g_shutdown_pending_enter_tick p, g_shutdown_prepare_done p,
   (g_final_soc_cut_done p, g_final_hold_cut_done p),
   (g_cam_12v_enable_start_tick p, g_cam_12v_enabled p, gpio_latch p)).

Definition eval_post (r : round) (p p' : power) : Prop :=
  eval_frame p' = eval_frame p /\
  g_main_present_confirm_count p' = present_count' r p /\
  g_main_loss_confirm_count p' = loss_count' r p /\
  g_power_loss_latched p' = latched' r p /\
  g_prev_main_present p' =
    (if 10 <=? present_count' r p then true
     else g_prev_main_present p && negb (10 <=? loss_count' r p))%bool.

Lemma eval_stage_spec r p :
  match svc_power_eval_stage (u32 (t_eval r)) (adc_snapshot r) (vehicle_state r) p with
  | None => 10 <= present_count' r p /\ g_prev_main_present p = false /\
            svc_power_is_shutdown_flow_stage (g_power_stage p) = true
  | Some (s, p') => s = next_stage r p /\ eval_post r p p'
  end.
Proof.
  destruct p as [stg hold_t pend_t lat prep rdy prev pc lc rc lowc soc hold cs ce latch bl].
  unfold svc_power_eval_stage, next_stage, latched', eval_post, eval_frame. cbn zeta.
  destruct confirm_targets as [-> ->].
  unfold svc_power_eval_counters, present_count', loss_count'.
  unfold APP_PWR_SUPERCAP_MGMT_ENABLE. cbn.
  fold (main_ok r).
  set (pc' := svc_power_update_confirm_counter (main_ok r) pc).
  set (lc' := svc_power_update_confirm_counter (negb (main_ok r)) lc).
  unfold pending_ms, in_shutdown, svc_power_get_shutdown_pending_elapsed_ms,
    APP_PWR_SHUTDOWN_IN_PROGRESS_MS, latched', present_count', loss_count'.
  cbn [g_shutdown_pending_enter_tick g_main_present_confirm_count g_main_loss_confirm_count
       g_power_loss_latched g_prev_main_present].
  fold pc' lc'. cbn. generalize (svc_power_eval_normal_stage (vehicle_state r)) as ns.
  destruct (Z.leb_spec 10 pc').
  - destruct prev; cbn; [| destruct (svc_power_is_shutdown_flow_stage stg); [done |]];
      intros ns; destruct ((_ =s? _) && (_ =s? _) && _); by split_and!.
  - intros ns. destruct (10 <=? lc'), prev, lat; cbn; try (by split_and!).
    all: destruct stg; cbn;
      match goal with |- context [if ?b then _ else _] => destruct b end; by split_and!.
Qed.

#[local] Opaque svc_power_eval_stage.

Lemma round_split r p p' :
  svc_power_thread_round r p = Some p' ->
  exists p1, eval_post r p p1 /\
    p' = svc_power_handle_cam_12v_enable (u32 (t_cam r))
           (svc_power_handle_final_power_cut (u32 (t_cut r))
              (svc_power_handle_stage_transition (u32 (t_trans r)) (next_stage r p) p1)).
Proof.
  unfold svc_power_thread_round. pose proof (eval_stage_spec r p) as H.
  destruct (svc_power_eval_stage _ _ _ p) as [[s p1]|]; [| done].
  destruct H as [-> H]. intros [= <-]. by exists p1.
Qed.

(** Shutdown bookkeeping. *)
Definition phase_ok (p : power) (since : option Z) (t : Z) : Prop :=
  match since with
  | Some t0 => t0 <= t /\ g_shutdown_pending_enter_tick p = u32 t0 /\
               g_shutdown_prepare_done p = true /\ in_shutdown (g_power_stage p) = true /\
               (g_power_stage p = SVC_POWER_STAGE_SHUTDOWN_IN_PROGRESS ->
                t0 + 3000 <= t /\ u32 t0 <> 0)
  | None => g_shutdown_prepare_done p = false /\
            in_service (g_power_stage p) = true
  end.

(** Order of the final cut: the lock is never released with the SOC powered. *)
Definition pins_ok (p : power) : Prop :=
  (g_final_soc_cut_done p = true -> soc_on p = false /\ main24_on p = false) /\
  (hold_on p = false -> soc_on p = false /\ main24_on p = false).

Definition power_inv (p : power) (since : option Z) (t : Z) : Prop :=
  phase_ok p since t /\ pins_ok p.

(** The stages a round can select. *)
Definition selectable (s : svc_power_stage_t) : bool :=
  match s with
  | SVC_POWER_STAGE_MAIN_OFF | SVC_POWER_STAGE_ACC_ACTIVE | SVC_POWER_STAGE_ON_ACTIVE
  | SVC_POWER_STAGE_SHUTDOWN_PENDING => true
  | _ => false
  end.

Lemma eval_normal_selectable v : selectable (svc_power_eval_normal_stage v) = true.
Proof. unfold svc_power_eval_normal_stage. by repeat case_match. Qed.

Lemma next_stage_cases r p :
  selectable (next_stage r p) = true \/
  next_stage r p = SVC_POWER_STAGE_SHUTDOWN_IN_PROGRESS /\
    in_shutdown (g_power_stage p) = true /\ 3000 <= pending_ms (t_eval r) p.
Proof.
  unfold next_stage. pose proof (eval_normal_selectable (vehicle_state r)).
  destruct (Z.leb_spec 3000 (pending_ms (t_eval r) p)).
  - case_match.
    + destruct (_ =s? _); [| by left]. destruct (g_power_stage p); cbn; auto.
    + case_match; [| by left]. destruct (g_power_loss_latched p), (in_shutdown (g_power_stage p));
        cbn; auto.
  - rewrite !andb_false_r. left. by repeat case_match.
Qed.

Lemma in_shutdown_cases s :
  in_shutdown s = true ->
  s = SVC_POWER_STAGE_SHUTDOWN_PENDING \/ s = SVC_POWER_STAGE_SHUTDOWN_IN_PROGRESS.
Proof. destruct s; naive_solver. Qed.

Lemma eval_keeps_inv r p p1 since t :
  power_inv p since t -> t <= t_eval r -> eval_post r p p1 -> power_inv p1 since (t_eval r).
Proof.
  unfold power_inv, phase_ok, pins_ok, soc_on, main24_on, hold_on.
  intros [Hph Hpin] Ht [[= Hs He Hd Hc1 Hc2 _ _ Hl] _]. rewrite Hs, He, Hd, Hc1, Hl.
  split; [| done].
  destruct since; naive_solver lia.
Qed.

(** A stage change keeps the invariant; [IN_PROGRESS] is entered only late. *)
Lemma transition_keeps_inv p s since t now :
  power_inv p since t -> t <= now ->
  selectable s = true \/
  s = SVC_POWER_STAGE_SHUTDOWN_IN_PROGRESS /\ (exists t0, since = Some t0 /\ t0 + 3000 <= t /\ u32 t0 <> 0) ->
  let p' := svc_power_handle_stage_transition (u32 now) s p in
  g_power_stage p' = s /\ gpio_latch p' = gpio_latch p /\
  power_inv p' (since_step p' now since) now.
Proof.
  intros [Hph Hpin] Ht Hs p'. subst p'.
  unfold svc_power_handle_stage_transition, since_step, power_inv.
  destruct (stage_eqb_spec s (g_power_stage p)) as [->|Hne].
  - split_and!; try done. destruct since as [t0|]; simpl in *.
    + destruct Hph as (?&?&?&Hsd&?). rewrite Hsd. simpl. split_and!; naive_solver lia.
    + assert (in_shutdown (g_power_stage p) = false) as ->; [| done].
      destruct Hph as [_ Hsv]. by destruct (g_power_stage p).
  - destruct Hpin as [Hp1 Hp2]. destruct Hs as [Hs | [-> (t0 & -> & ? & ?)]].
    + destruct s; try done; cbn; try (by split_and!).
      destruct since as [t0|]; cbn in *.
      * destruct Hph as (?&?&Hprep&?&?). rewrite Hprep; cbn. split_and!; done || lia.
      * destruct Hph as [Hprep ?]. rewrite Hprep; cbn.
        destruct (g_supercap_hold_enter_tick p =? 0); cbn; split_and!; done || lia.
    + cbn. destruct (stage_eqb_spec (g_power_stage p) SVC_POWER_STAGE_SHUTDOWN_IN_PROGRESS); [congruence |]. cbn.
      destruct Hph as (?&?&Hprep&?&?). split_and!; done || lia.
Qed.

(** The pins of the two cut steps. *)
Lemma cut_soc_pins latch :
  let l := svc_power_cut_soc_outputs latch in
  pin_level l GPIOC SVC_POWER_CTRL_PWREN_SOC_PIN = false /\
  pin_level l GPIOC SVC_POWER_CTRL_PWREN_24V_PIN = false /\
  pin_level l GPIOC SVC_POWER_CTRL_PWR_HOLD_PIN =
    pin_level latch GPIOC SVC_POWER_CTRL_PWR_HOLD_PIN /\
  pin_level l GPIOA SVC_POWER_CTRL_CAM_12V_EN_PIN =
    pin_level latch GPIOA SVC_POWER_CTRL_CAM_12V_EN_PIN.
Proof.
  cbv zeta. unfold svc_power_cut_soc_outputs, APP_PWR_SUPERCAP_MGMT_ENABLE.
  rewrite !pin_level_write by done. by split_and!.
Qed.

Lemma release_hold_pins latch :
  let l := svc_power_release_mcu_hold latch in
  pin_level l GPIOC SVC_POWER_CTRL_PWREN_SOC_PIN =
    pin_level latch GPIOC SVC_POWER_CTRL_PWREN_SOC_PIN /\
  pin_level l GPIOC SVC_POWER_CTRL_PWREN_24V_PIN =
    pin_level latch GPIOC SVC_POWER_CTRL_PWREN_24V_PIN /\
  pin_level l GPIOC SVC_POWER_CTRL_PWR_HOLD_PIN = false /\
  pin_level l GPIOA SVC_POWER_CTRL_CAM_12V_EN_PIN =
    pin_level latch GPIOA SVC_POWER_CTRL_CAM_12V_EN_PIN.
Proof.
  cbv zeta. unfold svc_power_release_mcu_hold.
  rewrite !pin_level_write by done. by split_and!.
Qed.

#[local] Opaque pin_level svc_power_cut_soc_outputs svc_power_release_mcu_hold.

(** What the final cut does to a state, in terms of the pins. *)
Lemma final_cut_spec now p :
  let p' := svc_power_handle_final_power_cut (u32 now) p in
  let active := g_power_stage p =s? SVC_POWER_STAGE_SHUTDOWN_IN_PROGRESS in
  let ms := pending_ms now p in
  let soc := active && negb (g_final_soc_cut_done p) && (1000 <=? ms) in
  let hold := active && negb (g_final_hold_cut_done p) && (1500 <=? ms) in
  g_power_stage p' = g_power_stage p /\
  g_shutdown_pending_enter_tick p' = g_shutdown_pending_enter_tick p /\
  g_shutdown_prepare_done p' = g_shutdown_prepare_done p /\
  g_final_soc_cut_done p' = (g_final_soc_cut_done p || soc) /\
  g_final_hold_cut_done p' = (g_final_hold_cut_done p || hold) /\
  soc_on p' = (soc_on p && negb soc) /\ main24_on p' = (main24_on p && negb soc) /\
  hold_on p' = (hold_on p && negb hold) /\ cam_on p' = cam_on p.
Proof.
  cbv zeta. unfold svc_power_handle_final_power_cut, pending_ms, soc_on, main24_on, hold_on, cam_on,
    svc_power_get_shutdown_pending_elapsed_ms, APP_PWR_FINAL_SOC_CUT_DELAY_MS, APP_PWR_FINAL_HOLD_CUT_DELAY_MS.
  destruct (_ =s? _); cbn; [| by rewrite !orb_false_r, !andb_true_r].
  set (ms := svc_power_ticks_to_ms _ _).
  destruct (cut_soc_pins (gpio_latch p)) as (S1 & S2 & S3 & S4).
  destruct (release_hold_pins (gpio_latch p)) as (R1 & R2 & R3 & R4).
  destruct (release_hold_pins (svc_power_cut_soc_outputs (gpio_latch p))) as (Q1 & Q2 & Q3 & Q4).
  destruct (g_final_soc_cut_done p) eqn:E1, (1000 <=? ms); cbn;
    destruct (g_final_hold_cut_done p) eqn:E2, (1500 <=? ms); cbn;
    rewrite ?E1, ?E2, ?Q1, ?Q2, ?Q3, ?Q4, ?S1, ?S2, ?S3, ?S4, ?R1, ?R2, ?R3, ?R4,
      ?andb_true_r, ?andb_false_r; by split_and!.
Qed.

Lemma cam_spec now p :
  let p' := svc_power_handle_cam_12v_enable (u32 now) p in
  let due := negb (g_cam_12v_enabled p) &&
    (5000 <=? svc_power_ticks_to_ms (u32 now) (g_cam_12v_enable_start_tick p)) in
  g_power_stage p' = g_power_stage p /\
  g_shutdown_pending_enter_tick p' = g_shutdown_pending_enter_tick p /\
  g_shutdown_prepare_done p' = g_shutdown_prepare_done p /\
  g_final_soc_cut_done p' = g_final_soc_cut_done p /\
  g_final_hold_cut_done p' = g_final_hold_cut_done p /\
  soc_on p' = soc_on p /\ main24_on p' = main24_on p /\ hold_on p' = hold_on p /\
  cam_on p' = (cam_on p || due) /\ g_cam_12v_enabled p' = (g_cam_12v_enabled p || due).
Proof.
  cbv zeta. unfold svc_power_handle_cam_12v_enable, soc_on, main24_on, hold_on, cam_on,
    APP_CAM_12V_ENABLE_DELAY_MS.
  destruct (g_cam_12v_enabled p) eqn:E; cbn; [rewrite orb_false_r; by split_and! |].
  destruct (5000 <=? _); cbn; rewrite ?pin_level_write by done; cbn;
    rewrite ?orb_true_r, ?orb_false_r; by split_and!.
Qed.

(** The debounced supply, which only the evaluation changes. *)
Definition supply (p : power) :=
  (g_main_present_confirm_count p, g_main_loss_confirm_count p, g_power_loss_latched p,
   g_prev_main_present p, g_cam_12v_enable_start_tick p).

Lemma transition_frame now s p :
  let p' := svc_power_handle_stage_transition now s p in
  supply p' = supply p /\ gpio_latch p' = gpio_latch p /\
  g_cam_12v_enabled p' = g_cam_12v_enabled p /\
  (g_final_hold_cut_done p' = true -> g_final_hold_cut_done p = true).
Proof.
  cbv zeta. unfold svc_power_handle_stage_transition, supply.
  case_match; [done |]. case_match; [by split_and! |].
  case_match; [case_match; by split_and! |]. case_match; [by split_and! |].
  case_match; by split_and!.
Qed.

Lemma cut_frame now p :
  supply (svc_power_handle_final_power_cut now p) = supply p /\
  g_cam_12v_enabled (svc_power_handle_final_power_cut now p) = g_cam_12v_enabled p.
Proof.
  unfold svc_power_handle_final_power_cut, supply. case_match; [done |]. cbv zeta.
  by repeat case_match.
Qed.

Lemma cam_frame now p : supply (svc_power_handle_cam_12v_enable now p) = supply p.
Proof. unfold svc_power_handle_cam_12v_enable, supply. by repeat case_match. Qed.

#[local] Opaque svc_power_handle_cam_12v_enable svc_power_handle_final_power_cut
  svc_power_handle_stage_transition.

Lemma cut_keeps_inv p since t now :
  power_inv p since t -> t <= now ->
  power_inv (svc_power_handle_final_power_cut (u32 now) p) since now.
Proof.
  intros [Hph [Hp1 Hp2]] Ht. unfold power_inv, phase_ok, pins_ok in *.
  destruct (final_cut_spec now p) as (-> & -> & -> & -> & _ & -> & -> & -> & _).
  split; [destruct since; naive_solver lia |].
  destruct (g_final_soc_cut_done p), (g_final_hold_cut_done p), (_ =s? _); cbn in *;
    destruct (Z.leb_spec 1000 (pending_ms now p)), (Z.leb_spec 1500 (pending_ms now p)); try lia;
    cbn in *; rewrite ?andb_true_r, ?andb_false_r; try naive_solver.
Qed.

Lemma cam_keeps_inv p since t now :
  power_inv p since t -> t <= now ->
  power_inv (svc_power_handle_cam_12v_enable (u32 now) p) since now.
Proof.
  intros [Hph [Hp1 Hp2]] Ht. unfold power_inv, phase_ok, pins_ok in *.
  destruct (cam_spec now p) as (-> & -> & -> & -> & _ & -> & -> & -> & _).
  split; [destruct since; naive_solver lia | done].
Qed.

(** *** A whole round *)

Definition cut_ok (p : power) (since : option Z) (t : Z) : Prop :=
  (g_final_hold_cut_done p = true -> hold_on p = false) /\
  (g_power_stage p = SVC_POWER_STAGE_SHUTDOWN_IN_PROGRESS ->
   forall ts, since = Some ts -> hold_on p = false \/ ts + 2 ^ 32 <= t).

Definition supply_ok (p : power) : Prop :=
  10 <= g_main_present_confirm_count p -> g_prev_main_present p = true.

Definition round_inv (p : power) (since : option Z) (t : Z) : Prop :=
  power_inv p since t /\ cut_ok p since t /\ supply_ok p.

Lemma selected_late r p since t :
  power_inv p since t -> timed t r ->
  next_stage r p = SVC_POWER_STAGE_SHUTDOWN_IN_PROGRESS ->
  exists ts, since = Some ts /\ ts + 3000 <= t_eval r /\ u32 ts <> 0.
Proof.
  intros [Hph _] (Ht & _) Hn. destruct (next_stage_cases r p) as [H|(_ & Hsd & Hms)].
  { by rewrite Hn in H. }
  unfold phase_ok, pending_ms in *. destruct since as [ts|].
  - destruct Hph as (? & Hpe & _). rewrite Hpe in Hms. exists ts.
    pose proof (elapsed_le (t_eval r) ts). split_and!; [done | lia |].
    intros E. rewrite ticks_to_ms_exact, E in Hms. simpl in Hms. lia.
  - destruct Hph as [_ Hsv]. by destruct (g_power_stage p).
Qed.

Lemma cut_makes_ok p since t now :
  power_inv p since t -> t <= now -> (g_final_hold_cut_done p = true -> hold_on p = false) ->
  cut_ok (svc_power_handle_final_power_cut (u32 now) p) since now.
Proof.
  intros [Hph _] Ht Hd. unfold cut_ok.
  destruct (final_cut_spec now p) as (-> & _ & _ & _ & -> & _ & _ & -> & _).
  split.
  - destruct (g_final_hold_cut_done p); [intros _; by rewrite Hd by done |].
    cbn. intros ->. by rewrite andb_false_r.
  - intros Hst ts ->. rewrite Hst. destruct Hph as (_ & Hpe & _ & _ & Hlate).
    destruct (Hlate Hst) as [Hl Hz]. destruct (Z_lt_le_dec now (ts + 2 ^ 32)); [left | by right].
    assert (1500 <=? pending_ms now p = true) as ->.
    { apply Z.leb_le. unfold pending_ms. rewrite Hpe, elapsed_exact by (done || lia). lia. }
    destruct (g_final_hold_cut_done p); [by rewrite Hd | by rewrite andb_false_r].
Qed.

(** The round in terms of the invariant: the selected stage, the supply, and
    the two lock pins. *)
Lemma round_spec r p p' since t :
  round_inv p since t -> timed t r -> svc_power_thread_round r p = Some p' ->
  round_inv p' (since_step p' (t_trans r) since) (t_cam r) /\
  g_power_stage p' = next_stage r p /\
  supply p' = (present_count' r p, loss_count' r p, latched' r p,
    (if 10 <=? present_count' r p then true
     else g_prev_main_present p && negb (10 <=? loss_count' r p))%bool,
    g_cam_12v_enable_start_tick p) /\
  (hold_on p = false -> hold_on p' = false) /\
  (hold_on p = true -> hold_on p' = false -> next_stage r p = SVC_POWER_STAGE_SHUTDOWN_IN_PROGRESS) /\
  (soc_on p = false -> soc_on p' = false).
Proof.
  intros (Hinv & [Hc1 Hc2] & Hsup) Ht Hr.
  destruct (round_split _ _ _ Hr) as (p1 & He & ->). pose proof Ht as (Ht1 & Ht2 & Ht3 & Ht4).
  pose proof (eval_keeps_inv _ _ _ _ _ Hinv Ht1 He) as Hinv1.
  destruct He as ([= Es Epe Epr Esc Ehc Ecs Ece El] & Epc & Elc & Elat & Eprev).
  set (s := next_stage r p) in *.
  destruct (transition_keeps_inv p1 s since (t_eval r) (t_trans r)) as (Hs & Hl & Hinv2);
    [done | done | |].
  { destruct (next_stage_cases r p) as [?|(Hi & ?)]; [by left | right; split; [done |]].
    destruct (selected_late r p since t) as (ts & ? & ? & ?); eauto. }
  destruct (transition_frame (u32 (t_trans r)) s p1) as (Hf1 & _ & _ & Hh).
  set (p2 := svc_power_handle_stage_transition (u32 (t_trans r)) s p1) in *.
  pose proof (cut_keeps_inv p2 _ _ (t_cut r) Hinv2 Ht3) as Hinv3.
  destruct (final_cut_spec (t_cut r) p2) as (Cs & _ & _ & _ & Ch & Csoc & _ & Chold & _).
  destruct (cut_frame (u32 (t_cut r)) p2) as [Hf2 _].
  set (p3 := svc_power_handle_final_power_cut (u32 (t_cut r)) p2) in *.
  pose proof (cam_keeps_inv p3 _ _ (t_cam r) Hinv3 Ht4) as Hinv4.
  destruct (cam_spec (t_cam r) p3) as (As & _ & _ & _ & Ah & Asoc & _ & Ahold & _).
  pose proof (cam_frame (u32 (t_cam r)) p3) as Hf3.
  set (p4 := svc_power_handle_cam_12v_enable (u32 (t_cam r)) p3) in *.
  assert (hold_on p2 = hold_on p /\ soc_on p2 = soc_on p) as [Hh2 Hs2]
    by (unfold hold_on, soc_on; by rewrite Hl, El).
  assert (since_step p4 (t_trans r) since = since_step p2 (t_trans r) since) as ->
    by (unfold since_step; by rewrite As, Cs).
  assert (supply p4 = supply p1) as Hsup4 by congruence.
  assert (supply_ok p4) as Hsup4'.
  { unfold supply_ok. injection Hsup4 as -> _ _ -> _. rewrite Epc, Eprev. intros ?.
    by destruct (Z.leb_spec 10 (present_count' r p)); [| lia]. }
  destruct (cut_makes_ok p2 _ _ (t_cut r) Hinv2 Ht3) as [Hk1 Hk2]; [rewrite Hh2; naive_solver |].
  split_and!; [split_and!; [done | | done] | congruence | | | |].
  - unfold cut_ok. rewrite Ah, Ahold, As. split; [done |]. intros ? ts ?.
    destruct (Hk2 H ts); [done | by left | right; lia].
  - rewrite Hsup4. unfold supply. congruence.
  - rewrite Ahold, Chold, Hh2. by intros ->.
  - rewrite Ahold, Chold, Hh2, Hs. intros ->. by destruct (stage_eqb_spec s SVC_POWER_STAGE_SHUTDOWN_IN_PROGRESS).
  - rewrite Asoc, Csoc, Hs2. by intros ->.
Qed.

#[local] Opaque svc_power_thread_round.

Lemma init_inv t0 latch bl : round_inv (svc_power_init t0 latch bl) None t0.
Proof.
  unfold round_inv, power_inv, pins_ok, cut_ok, supply_ok, hold_on. cbn.
  unfold svc_power_init_ctrl_pins. rewrite !pin_level_write by done. cbn.
  split_and!; done || lia.
Qed.

Lemma reach_round_inv t0 p since t : reach t0 p since t -> round_inv p since t.
Proof.
  induction 1 as [latch bl | p since t r p' _ IH Ht Hr]; [apply init_inv |].
  by destruct (round_spec _ _ _ _ _ IH Ht Hr).
Qed.

(** A round resets exactly on the recovery path. *)
Lemma round_total r p :
  svc_power_thread_round r p = None ->
  10 <= present_count' r p /\ g_prev_main_present p = false.
Proof.
  #[local] Transparent svc_power_thread_round.
  unfold svc_power_thread_round. pose proof (eval_stage_spec r p) as H.
  destruct (svc_power_eval_stage _ _ _ p) as [[s p1]|]; [done |]. naive_solver.
Qed.

#[local] Opaque svc_power_thread_round.

(** *** Liveness of the shutdown *)

Fixpoint timeline (t : Z) (rs : list round) : Prop :=
  match rs with
  | [] => True
  | r :: rs => timed t r /\ timeline (t_cam r) rs
  end.

(** A steady shutdown condition: the supply confirmed with the ignition off,
    or the supply lost. *)
Definition steady (rs : list round) (p : power) : Prop :=
  Forall (fun r => main_ok r = true /\ ignition_off r = true) rs /\
    10 <= g_main_present_confirm_count p <= 255 \/
  Forall (fun r => main_ok r = false) rs /\ g_power_loss_latched p = true.

(** What a steady condition means for the next round. *)
Lemma steady_cons r rs p :
  steady (r :: rs) p ->
  (10 <= present_count' r p <= 255 /\ 10 <= g_main_present_confirm_count p /\
   svc_power_eval_normal_stage (vehicle_state r) = SVC_POWER_STAGE_SHUTDOWN_PENDING /\
   Forall (fun r => main_ok r = true /\ ignition_off r = true) rs) \/
  (present_count' r p = 0 /\ g_power_loss_latched p = true /\
   Forall (fun r => main_ok r = false) rs).
Proof.
  unfold present_count', svc_power_update_confirm_counter, svc_power_eval_normal_stage, ignition_off.
  intros [[Hf Hc]|[Hf Hl]]; apply Forall_cons in Hf as [Hr Hf]; [left | right].
  - destruct Hr as [-> Hi]. apply andb_true_iff in Hi as [-> ->].
    split_and!; try done; try lia; case_match; bool_hyps; wraps.
  - by rewrite Hr.
Qed.

Lemma steady_stage r rs p :
  steady (r :: rs) p ->
  in_shutdown (next_stage r p) = true /\
  (g_power_stage p = SVC_POWER_STAGE_SHUTDOWN_PENDING -> 3000 <= pending_ms (t_eval r) p ->
   next_stage r p = SVC_POWER_STAGE_SHUTDOWN_IN_PROGRESS).
Proof.
  unfold next_stage, latched'. intros [([Hn _] & _ & -> & _)|(-> & -> & _)]%steady_cons.
  - destruct (Z.leb_spec 10 (present_count' r p)); [| lia].
    split; [by case_match | intros -> Hms; apply Z.leb_le in Hms; by rewrite Hms].
  - split; [by repeat case_match | intros -> Hms; apply Z.leb_le in Hms; by rewrite Hms].
Qed.

Lemma steady_round r rs p ts t :
  round_inv p (Some ts) t -> timed t r -> steady (r :: rs) p ->
  exists p', svc_power_thread_round r p = Some p' /\
    round_inv p' (Some ts) (t_cam r) /\ steady rs p' /\
    (hold_on p = false -> hold_on p' = false) /\ g_power_stage p' = next_stage r p.
Proof.
  intros Hinv Ht Hst. pose proof Hinv as ((Hph & _) & _ & Hsup).
  destruct (svc_power_thread_round r p) as [p'|] eqn:E.
  2:{ destruct (round_total _ _ E) as [? Hprev]. exfalso.
      destruct (steady_cons _ _ _ Hst) as [(_ & Hc & _)|(? & _)]; [by rewrite Hsup in Hprev | lia]. }
  exists p'. split; [done |].
  destruct (round_spec _ _ _ _ _ Hinv Ht E) as (Hinv' & Hs & [= Hpc Hlc Hla _ _] & Hh & _).
  destruct (steady_stage _ _ _ Hst) as [Hsd _]. rewrite <- Hs in Hsd.
  unfold since_step in Hinv'. rewrite Hsd in Hinv'. split_and!; try done.
  unfold steady. rewrite Hpc, Hla. unfold latched'.
  destruct (steady_cons _ _ _ Hst) as [(? & _ & _ & ?)|(-> & -> & ?)]; [by left | by right].
Qed.

(** The time after a sequence of rounds. *)
Fixpoint end_time (t : Z) (rs : list round) : Z :=
  match rs with [] => t | r :: rs => end_time (t_cam r) rs end.

Lemma timeline_app t rs rs' :
  timeline t (rs ++ rs') <-> timeline t rs /\ timeline (end_time t rs) rs'.
Proof. revert t. induction rs as [|r rs IH]; intros t; simpl; [tauto |]. rewrite IH. tauto. Qed.

Lemma steady_rounds rs rs' p ts t :
  round_inv p (Some ts) t -> timeline t rs -> steady (rs ++ rs') p ->
  exists p', svc_power_thread_entry rs p = Some p' /\
    round_inv p' (Some ts) (end_time t rs) /\ steady rs' p'.
Proof.
  revert p t. induction rs as [|r rs IH]; intros p t Hinv Ht Hst; [by exists p |].
  destruct Ht as [Ht Hts].
  destruct (steady_round r (rs ++ rs') p ts t) as (p' & E & Hi & Hs & _); try done.
  destruct (IH p' (t_cam r)) as (p'' & E' & Hi' & Hs'); try done.
  exists p''. simpl. by rewrite E.
Qed.

Lemma steady_app rs rs' p : steady (rs ++ rs') p -> steady rs p.
Proof. intros [[H ?]|[H ?]]; apply Forall_app in H as [? _]; [by left | by right]. Qed.

(** *** Supply and camera over a run *)

Lemma update_counter_trailing b bs n :
  n = Z.min 255 (Z.of_nat (trailing bs)) ->
  svc_power_update_confirm_counter b n = Z.min 255 (Z.of_nat (trailing (bs ++ [b]))).
Proof.
  intros ->. unfold trailing, svc_power_update_confirm_counter. rewrite foldl_app. simpl.
  destruct b; [| done]. case_match; bool_hyps; wraps.
Qed.

Lemma transition_stage now s p : g_power_stage (svc_power_handle_stage_transition now s p) = s.
Proof.
  #[local] Transparent svc_power_handle_stage_transition.
  unfold svc_power_handle_stage_transition.
  by destruct (stage_eqb_spec s (g_power_stage p)) as [->|].
Qed.

#[local] Opaque svc_power_handle_stage_transition.

(** Without any assumption on the state: stage and supply after a round. *)
Lemma round_stage_supply r p p' :
  svc_power_thread_round r p = Some p' ->
  g_power_stage p' = next_stage r p /\
  g_main_present_confirm_count p' = present_count' r p /\
  g_cam_12v_enable_start_tick p' = g_cam_12v_enable_start_tick p /\
  let due := negb (g_cam_12v_enabled p) &&
    (5000 <=? svc_power_ticks_to_ms (u32 (t_cam r)) (g_cam_12v_enable_start_tick p)) in
  cam_on p' = (cam_on p || due) /\ g_cam_12v_enabled p' = (g_cam_12v_enabled p || due).
Proof.
  intros Hr. destruct (round_split _ _ _ Hr) as (p1 & He & ->).
  destruct He as ([= _ _ _ _ _ Ecs Ece El] & Epc & _).
  set (p2 := svc_power_handle_stage_transition _ _ p1).
  destruct (transition_frame (u32 (t_trans r)) (next_stage r p) p1) as (Hf1 & Hl1 & He1 & _).
  pose proof (transition_stage (u32 (t_trans r)) (next_stage r p) p1) as Hs. fold p2 in Hf1, Hl1, He1, Hs.
  destruct (cut_frame (u32 (t_cut r)) p2) as [Hf2 He2].
  destruct (final_cut_spec (t_cut r) p2) as (Cs & _ & _ & _ & _ & _ & _ & _ & Cc).
  set (p3 := svc_power_handle_final_power_cut _ p2) in *.
  destruct (cam_spec (t_cam r) p3) as (As & _ & _ & _ & _ & _ & _ & _ & Ac & Ae).
  pose proof (cam_frame (u32 (t_cam r)) p3) as Hf3. rewrite Hf2, Hf1 in Hf3.
  injection Hf3 as H1 _ _ _ H5. rewrite Hf1 in Hf2. injection Hf2 as _ _ _ _ H5'.
  assert (cam_on p2 = cam_on p) as Hc2 by (unfold cam_on; by rewrite Hl1, El).
  cbv zeta. split_and!; congruence.
Qed.

Lemma run_present_count rs bs p p' :
  g_main_present_confirm_count p = Z.min 255 (Z.of_nat (trailing bs)) ->
  svc_power_thread_entry rs p = Some p' ->
  g_main_present_confirm_count p' = Z.min 255 (Z.of_nat (trailing (bs ++ map main_ok rs))).
Proof.
  revert p bs. induction rs as [|r rs IH]; intros p bs Hp; simpl.
  - intros [= <-]. by rewrite app_nil_r.
  - destruct (svc_power_thread_round r p) as [p1|] eqn:E; [| done].
    destruct (round_stage_supply _ _ _ E) as (_ & Hc & _). intros Hr.
    rewrite (IH p1 (bs ++ [main_ok r])); [by rewrite <- app_assoc | | done].
    rewrite Hc. by apply update_counter_trailing.
Qed.

Lemma thread_entry_snoc rs r p :
  svc_power_thread_entry (rs ++ [r]) p =
  match svc_power_thread_entry rs p with
  | Some q => svc_power_thread_round r q
  | None => None
  end.
Proof.
  revert p. induction rs as [|r' rs IH]; intros p; simpl.
  - by destruct (svc_power_thread_round r p).
  - by destruct (svc_power_thread_round r' p).
Qed.

Lemma reach_cam t0 p since t :
  reach t0 p since t ->
  t0 <= t /\ g_cam_12v_enable_start_tick p = u32 t0 /\ cam_on p = g_cam_12v_enabled p /\
  (u32 t0 <> 0 -> t < t0 + 2 ^ 32 -> cam_on p = true <-> t0 + 5000 <= t).
Proof.
  induction 1 as [latch bl | p since t r p' _ IH Ht Hr].
  - unfold cam_on; cbn. unfold svc_power_init_ctrl_pins. rewrite !pin_level_write by done. cbn.
    split_and!; try done; intros; lia.
  - destruct IH as (Hle & Hst & Hon & Hiff). destruct Ht as (? & ? & ? & ?).
    destruct (round_stage_supply _ _ _ Hr) as (_ & _ & Hst' & Hon' & Hen').
    rewrite Hst in *. split_and!; [lia | done | by rewrite Hon', Hen', Hon |].
    intros Hz Hlt. rewrite Hon', <- Hon, elapsed_exact by (done || lia).
    specialize (Hiff Hz). destruct (cam_on p); cbn.
    + split; [| done]. intros _. assert (t0 + 5000 <= t) by (apply Hiff; [lia | done]). lia.
    + rewrite Z.leb_le. lia.
Qed.

(** Supplies once off stay off. *)
Lemma off_stays t0 rs p since t p' :
  reach t0 p since t -> timeline t rs -> svc_power_thread_entry rs p = Some p' ->
  (soc_on p = false -> soc_on p' = false) /\ (hold_on p = false -> hold_on p' = false).
Proof.
  revert p since t. induction rs as [|r rs IH]; intros p since t Hre Hts Hr; cbn [svc_power_thread_entry] in Hr; [by injection Hr as <- |].
  destruct Hts as [Ht Hts]. destruct (svc_power_thread_round r p) as [p1|] eqn:E; [| done].
  destruct (round_spec _ _ _ _ _ (reach_round_inv _ _ _ _ Hre) Ht E) as (_ & _ & _ & Hh & _ & Hs).
  destruct (IH p1 _ _ (reach_round t0 p since t r p1 Hre Ht E) Hts Hr). auto.
Qed.

(** ** A concrete run

    Initialisation at 1 s, then rounds every 100 ms with the supply present
    and the ignition off: SHUTDOWN_PENDING is entered at 2 s. *)

Definition sample_round (mv acc on t : Z) : round :=
  mk_round (mk_adc_snapshot 0 0 0 0 mv 0 0 0 0 0 0)
    (mk_vehicle_io_state acc on 0 0 0 0 0 0 0 0 0 0 0 0 0 0) t t t t.

Definition sample_init : power := svc_power_init 1000 (fun _ => 0) true.

Definition sample_rounds : list round :=
  map (fun i => sample_round 24000 0 0 (1000 + 100 * Z.of_nat i)) (seq 1 10).

Definition run_from (rs : list round) (p : power) : power :=
  default p (svc_power_thread_entry rs p).

(** The run with its shutdown clock. *)
Fixpoint clock_run (rs : list round) (p : power) (since : option Z) : option (power * option Z) :=
  match rs with
  | [] => Some (p, since)
  | r :: rs => match svc_power_thread_round r p with
               | None => None
               | Some p' => clock_run rs p' (since_step p' (t_trans r) since)
               end
  end.

Lemma run_from_entry rs p :
  bool_decide (is_Some (svc_power_thread_entry rs p)) = true ->
  svc_power_thread_entry rs p = Some (run_from rs p).
Proof. intros [q Hq]%bool_decide_eq_true. unfold run_from. by rewrite Hq. Qed.

Lemma run_from_round r p :
  bool_decide (is_Some (svc_power_thread_round r p)) = true ->
  svc_power_thread_round r p = Some (run_from [r] p).
Proof.
  intros [q Hq]%bool_decide_eq_true. unfold run_from. simpl. by rewrite Hq.
Qed.

Lemma reach_run t0 rs p since t q since' :
  reach t0 p since t -> timeline t rs -> clock_run rs p since = Some (q, since') ->
  reach t0 q since' (end_time t rs).
Proof.
  revert p since t. induction rs as [|r rs IH]; intros p since t Hre; simpl.
  - by intros _ [= <- <-].
  - intros [Ht Hts]. destruct (svc_power_thread_round r p) as [p'|] eqn:E; [| done].
    apply IH; [by eapply reach_round | done].
Qed.

Lemma clock_run_from rs p since :
  clock_run rs p since =
  match clock_run rs p since with Some (_, s) => Some (run_from rs p, s) | None => None end.
Proof.
  unfold run_from. destruct (clock_run rs p since) as [[q s]|] eqn:E; [| done].
  assert (svc_power_thread_entry rs p = Some q) as ->; [| done].
  revert p since E. induction rs as [|r rs IH]; intros p since; simpl; [by intros [= -> _] |].
  destruct (svc_power_thread_round r p) as [p'|]; [apply IH | done].
Qed.

Definition sample_state : power := run_from sample_rounds sample_init.
Definition sample_last : round := sample_round 24000 0 0 5000.

#[local] Transparent svc_power_eval_stage svc_power_thread_round pin_level
  svc_power_handle_cam_12v_enable svc_power_handle_final_power_cut
  svc_power_handle_stage_transition svc_power_cut_soc_outputs svc_power_release_mcu_hold.

Lemma sample_clock : clock_run sample_rounds sample_init None = Some (sample_state, Some 2000).
Proof.
  rewrite clock_run_from.
  assert (match clock_run sample_rounds sample_init None with
          | Some (_, s) => bool_decide (s = Some 2000) | None => false end = true) as H by (by vm_compute).
  destruct (clock_run sample_rounds sample_init None) as [[q s]|]; [| done].
  apply bool_decide_eq_true in H. rewrite H. unfold sample_state. reflexivity.
Qed.

Lemma sample_reach : reach 1000 sample_state (Some 2000) 2000.
Proof.
  change 2000 with (end_time 1000 sample_rounds) at 2.
  refine (reach_run _ _ _ _ _ _ _ (reach_init _ _ _) _ sample_clock).
  vm_compute. by repeat split.
Qed.

(** Supplies are cut only in the last stage. *)
Lemma round_no_cut r p p' :
  svc_power_thread_round r p = Some p' -> next_stage r p <> SVC_POWER_STAGE_SHUTDOWN_IN_PROGRESS ->
  soc_on p' = soc_on p /\ main24_on p' = main24_on p /\ hold_on p' = hold_on p.
Proof.
  intros Hr Hn. destruct (round_split _ _ _ Hr) as (p1 & ([= _ _ _ _ _ _ _ El] & _) & ->).
  set (s := next_stage r p) in *. clearbody s. destruct (transition_frame (u32 (t_trans r)) s p1) as (_ & Hl & _).
  assert (g_power_stage (svc_power_handle_stage_transition (u32 (t_trans r)) s p1) = s) as Es.
  { unfold svc_power_handle_stage_transition. destruct (stage_eqb_spec s (g_power_stage p1)); [done |]. reflexivity. }
  set (p2 := svc_power_handle_stage_transition _ s p1) in *. clearbody p2.
  unfold svc_power_handle_final_power_cut. rewrite Es. destruct (stage_eqb_spec s SVC_POWER_STAGE_SHUTDOWN_IN_PROGRESS); [done |].
  cbn [negb]. rewrite El in Hl. unfold svc_power_handle_cam_12v_enable, soc_on, main24_on, hold_on. rewrite <- Hl.
  destruct (g_cam_12v_enabled p2); [done |]. destruct (_ <=? _); [| done].
  cbn [gpio_latch update_with]. by rewrite !pin_level_write by done.
Qed.

(** When PWR_HOLD is released. *)
Lemma hold_release t0 p since t r p' :
  reach t0 p since t -> timed t r -> svc_power_thread_round r p = Some p' ->
  hold_on p = true -> hold_on p' = false ->
  (exists ts, since = Some ts /\ ts + 3000 <= t_cut r) /\
  g_power_stage p' = SVC_POWER_STAGE_SHUTDOWN_IN_PROGRESS /\
  soc_on p' = false /\ main24_on p' = false.
Proof.
  intros Hre Ht Hr Hh Hh'. pose proof (reach_round_inv _ _ _ _ Hre) as Hinv.
  destruct (round_spec _ _ _ _ _ Hinv Ht Hr) as (((_ & _ & Hp) & _) & Hs & _ & _ & Hcut & _).
  pose proof (Hcut Hh Hh') as Hn.
  destruct (selected_late _ _ _ _ (proj1 Hinv) Ht Hn) as (ts & -> & ? & _).
  destruct Ht as (_ & ? & ? & _). destruct (Hp Hh').
  split_and!; [exists ts; split; [done | lia] | congruence | done | done].
Qed.

(** Nothing is cut before the 3 s are over. *)
Lemma no_early_cut rs p ts t q :
  round_inv p (Some ts) t -> timeline t rs -> Forall (fun r => t_eval r < ts + 3000) rs ->
  steady rs p -> svc_power_thread_entry rs p = Some q ->
  soc_on q = soc_on p /\ main24_on q = main24_on p /\ hold_on q = hold_on p.
Proof.
  intros Hinv Hts Hearly. revert p t Hinv Hts. induction Hearly as [|r rs Hr _ IH]; intros p t Hinv Hts Hst E; [by injection E as <- |].
  destruct Hts as [Ht Hts]. destruct (steady_round r rs p ts t Hinv Ht Hst) as (p' & E' & Hi & Hs & _).
  simpl in E. rewrite E' in E. destruct (IH p' (t_cam r) Hi Hts Hs E) as (-> & -> & ->).
  apply (round_no_cut _ _ _ E'). intros Hn.
  destruct (selected_late _ _ _ _ (proj1 Hinv) Ht Hn) as (ts' & [= <-] & ? & _). lia.
Qed.

(** ** Properties *)

(** C39: nothing but a restart brings the supplies back.  Once the SOC supply
    has been cut, or PWR_HOLD released, no sequence of rounds switches it on
    again, whatever supply voltage and ignition do; in particular not when the
    ignition comes back while the supply is still there, although the stage is
    then a driving stage. *)
Theorem cut_is_final t0 rs p since t p' :
  reach t0 p since t -> timeline t rs -> svc_power_thread_entry rs p = Some p' ->
  (soc_on p = false -> soc_on p' = false) /\ (hold_on p = false -> hold_on p' = false).
Proof. apply off_stays. Qed.

(** Ignition off for 3 s, cut, and ignition on again. *)
Definition sample_cut : power := run_from [sample_last] sample_state.
Definition sample_return : list round := map (fun i => sample_round 24000 0 1 (5000 + 100 * Z.of_nat i)) (seq 1 30).

Lemma cut_is_final_witness :
  let p' := run_from sample_return sample_cut in
  g_power_stage p' = SVC_POWER_STAGE_ON_ACTIVE /\ soc_on p' = false /\ hold_on p' = false.
Proof.
  split; [by vm_compute |].
  assert (reach 1000 sample_cut (since_step sample_cut 5000 (Some 2000)) 5000) as Hre.
  { refine (reach_round 1000 sample_state (Some 2000) 2000 sample_last sample_cut sample_reach _ _);
      [vm_compute; by repeat split | apply run_from_round; by vm_compute]. }
  destruct (cut_is_final 1000 sample_return sample_cut _ 5000 (run_from sample_return sample_cut) Hre) as [H1 H2].
  - vm_compute. by repeat split.
  - apply run_from_entry. by vm_compute.
  - split; [apply H1 | apply H2]; by vm_compute.
Defined.

(** C18: once the stage is a shutdown stage (since [ts], at a non-zero tick) and
    the condition persists (supply confirmed with the ignition off, or supply
    lost), the first round evaluated at least 3 s after [ts] (within the range
    of the tick counter) leaves PWR_HOLD released and the SOC and 24 V supplies
    off; no round of the sequence resets.  The rounds evaluated before the 3 s
    are over cut nothing: if all rounds but the last are of that kind, the SOC
    supply and PWR_HOLD go in the same round, not, as the comment says, SOC
    after 1 s and PWR_HOLD later. *)
Theorem shutdown_completes t0 p ts t rs r :
  reach t0 p (Some ts) t -> timeline t (rs ++ [r]) -> steady (rs ++ [r]) p ->
  u32 ts <> 0 -> ts + 3000 <= t_eval r -> t_cam r < ts + 2 ^ 32 ->
  exists q p', svc_power_thread_entry rs p = Some q /\ svc_power_thread_round r q = Some p' /\
    (hold_on p' = false /\ soc_on p' = false /\ main24_on p' = false) /\
    (Forall (fun r => t_eval r < ts + 3000) rs ->
     soc_on q = soc_on p /\ main24_on q = main24_on p /\ hold_on q = hold_on p).
Proof.
  intros Hre%reach_round_inv Hts Hst Hz Hlate Hlt.
  apply timeline_app in Hts as [Hts [Ht _]].
  destruct (steady_rounds rs [r] p ts t) as (q & Eq & Hq & Hstq); [done | done | done |].
  destruct (steady_round r [] q ts (end_time t rs)) as (p' & Ep & Hp' & _ & Hh & Hs); [done.. |].
  exists q, p'. split; [done |]. split; [done |].
  split; [| intros He; apply (no_early_cut rs p ts t q); try done; by eapply steady_app].
  destruct Hp' as ((_ & _ & Hpins) & [_ Hcut] & _).
  assert (hold_on p' = false) as Hoff; [| split; [done | by apply Hpins]].
  destruct Hq as (((_ & Hpe & _ & Hsd & _) & _) & [_ Hqcut] & _), Ht as (? & ? & ? & ?).
  destruct (steady_stage _ _ _ Hstq) as [_ Hlate'].
  destruct (in_shutdown_cases _ Hsd) as [Hst'|Hst'].
  - destruct (Hcut ltac:(rewrite Hs; apply Hlate'; [done |]; unfold pending_ms;
      rewrite Hpe, elapsed_exact by (done || lia); lia) ts eq_refl); [done | lia].
  - destruct (Hqcut Hst' ts eq_refl); [by apply Hh | lia].
Qed.

(** Ignition off since 2 s; at 3 s everything is on, at 5 s everything is cut. *)
Lemma shutdown_completes_witness :
  exists q p', svc_power_thread_entry [sample_round 24000 0 0 3000] sample_state = Some q /\
    svc_power_thread_round sample_last q = Some p' /\
    (hold_on p' = false /\ soc_on p' = false /\ main24_on p' = false) /\
    (soc_on q = true /\ main24_on q = true /\ hold_on q = true).
Proof.
  destruct (shutdown_completes 1000 sample_state 2000 2000 [sample_round 24000 0 0 3000] sample_last sample_reach)
    as (q & p' & Eq & Ep & Hoff & Hon).
  - vm_compute. by repeat split.
  - left. split; [by repeat constructor | by vm_compute].
  - by vm_compute.
  - by vm_compute.
  - by vm_compute.
  - exists q, p'. do 3 (split; [assumption |]). clear Hoff Ep Eq.
    assert (Forall (fun r => t_eval r < 2000 + 3000) [sample_round 24000 0 0 3000]) as Hearly by (constructor; [done | constructor]).
    destruct (Hon Hearly) as (H1 & H2 & H3).
    assert (soc_on sample_state = true /\ main24_on sample_state = true /\ hold_on sample_state = true) as (E1 & E2 & E3)
      by (vm_compute; repeat split).
    exact (conj (eq_trans H1 E1) (conj (eq_trans H2 E2) (eq_trans H3 E3))).
Defined.

(** C31: what debouncing there is.  From initialisation, after a run that does
    not reset, the stage is ON_ACTIVE (ACC_ACTIVE) exactly when the supply has
    been present in at least the last ten samples (1 s of rounds) and the ON
    input is active in the last sample (respectively only the ACC input is);
    one sample with a low supply ends both stages.  So only the arrival of the
    supply is debounced: the inputs act with their last sample and the loss of
    the supply with its first, where the comments promise a debounce of the
    inputs and of the loss. *)
Theorem drive_stage_by_last_sample t0 latch bl rs r p' :
  svc_power_thread_entry (rs ++ [r]) (svc_power_init t0 latch bl) = Some p' ->
  let confirmed := (10 <= trailing (map main_ok (rs ++ [r])))%nat in
  (g_power_stage p' = SVC_POWER_STAGE_ON_ACTIVE <->
     confirmed /\ wk_on (vehicle_state r) <> 0) /\
  (g_power_stage p' = SVC_POWER_STAGE_ACC_ACTIVE <->
     confirmed /\ wk_on (vehicle_state r) = 0 /\ wk_acc (vehicle_state r) <> 0) /\
  (main_ok r = false -> g_power_stage p' <> SVC_POWER_STAGE_ON_ACTIVE /\ g_power_stage p' <> SVC_POWER_STAGE_ACC_ACTIVE).
Proof.
  intros Hr confirmed. subst confirmed.
  pose proof (run_present_count (rs ++ [r]) [] (svc_power_init t0 latch bl) p' eq_refl Hr) as Hc. rewrite app_nil_l in Hc.
  rewrite thread_entry_snoc in Hr.
  destruct (svc_power_thread_entry rs _) as [q|]; [| done].
  destruct (round_stage_supply _ _ _ Hr) as (-> & Hq & _). rewrite Hq in Hc.
  set (n := trailing _) in *.
  assert (main_ok r = false -> n = 0%nat) as Hlow by (intros Hm; subst n; unfold trailing; by rewrite map_app, foldl_app; cbn; rewrite Hm).
  enough (forall s, s = next_stage r q ->
    (s = SVC_POWER_STAGE_ON_ACTIVE <-> (10 <= n)%nat /\ wk_on (vehicle_state r) <> 0) /\
    (s = SVC_POWER_STAGE_ACC_ACTIVE <-> (10 <= n)%nat /\ wk_on (vehicle_state r) = 0 /\ wk_acc (vehicle_state r) <> 0)) as H.
  { destruct (H _ eq_refl) as [H1 H2]. split; [exact H1 |]. split; [exact H2 |]. intros Hm%Hlow. rewrite H1, H2. lia. }
  intros s ->. unfold next_stage. rewrite Hc.
  destruct (Z.leb_spec 10 (Z.min 255 (Z.of_nat n))).
  - unfold svc_power_eval_normal_stage.
    destruct (Z.eqb_spec (wk_on (vehicle_state r)) 0), (Z.eqb_spec (wk_acc (vehicle_state r)) 0);
      cbn; repeat case_match; split; split; intros; split_and?; try done; try lia; naive_solver.
  - repeat case_match; split; split; intros; try done; lia.
Qed.

(** Ten samples with the supply, then one with a low supply although ON is active. *)
Lemma drive_stage_by_last_sample_witness :
  let r := sample_round 24000 0 1 2000 in
  let rs := take 9 sample_rounds in
  let low := sample_round 5000 0 1 2100 in
  g_power_stage (run_from (rs ++ [r]) sample_init) = SVC_POWER_STAGE_ON_ACTIVE /\
  g_power_stage (run_from ((rs ++ [r]) ++ [low]) sample_init) <> SVC_POWER_STAGE_ON_ACTIVE.
Proof.
  intros r rs low. split.
  - refine (proj2 (proj1 (drive_stage_by_last_sample 1000 (fun _ => 0) true rs r (run_from (rs ++ [r]) sample_init) _)) _).
    + apply (run_from_entry (rs ++ [r])). by vm_compute.
    + split; [apply Nat.leb_le; by vm_compute | by vm_compute].
  - refine (proj1 (proj2 (proj2 (drive_stage_by_last_sample 1000 (fun _ => 0) true (rs ++ [r]) low
      (run_from ((rs ++ [r]) ++ [low]) sample_init) _)) _)); [apply (run_from_entry ((rs ++ [r]) ++ [low])) |]; by vm_compute.
Defined.

(** Within the range of the tick counter, the camera 12 V output is on
    exactly from the first round at least 5 s after initialisation (at a
    non-zero tick), and is never switched off again. *)
Theorem cam_12v_timing t0 p since t :
  reach t0 p since t -> u32 t0 <> 0 -> t < t0 + 2 ^ 32 ->
  cam_on p = true <-> t0 + 5000 <= t.
Proof. intros (_ & _ & _ & H)%reach_cam. exact H. Qed.

Lemma cam_12v_timing_witness : cam_on sample_state = true <-> 1000 + 5000 <= 2000.
Proof. refine (cam_12v_timing 1000 sample_state (Some 2000) 2000 sample_reach _ _); by vm_compute. Defined.

(** The stage changes of the configured build. *)
Definition stage_edge (s s' : svc_power_stage_t) : bool :=
  match s, s' with
  | SVC_POWER_STAGE_UNKNOWN, SVC_POWER_STAGE_MAIN_OFF => true
  | SVC_POWER_STAGE_UNKNOWN, _ => false
  | _, SVC_POWER_STAGE_SHUTDOWN_IN_PROGRESS => in_shutdown s
  | _, s' => selectable s'
  end.

(** Every round of a reachable state takes one of the stage changes of
    [stage_edge]: UNKNOWN is left for MAIN_OFF at once and never re-entered,
    IN_PROGRESS is entered only from the shutdown stages, and STANDBY and
    SUPERCAP_HOLD are never entered. *)
Theorem stage_changes t0 p since t r p' :
  reach t0 p since t -> svc_power_thread_round r p = Some p' ->
  stage_edge (g_power_stage p) (g_power_stage p') = true.
Proof.
  intros Hre Hr. destruct (round_stage_supply _ _ _ Hr) as (-> & _).
  assert (g_power_stage p = SVC_POWER_STAGE_UNKNOWN -> next_stage r p = SVC_POWER_STAGE_MAIN_OFF) as Hu.
  { destruct Hre as [latch bl | p0 since t r0 p1 Hre Ht Hr0].
    - intros _. unfold next_stage, latched', present_count', svc_power_update_confirm_counter.
      by destruct (main_ok r).
    - destruct (round_stage_supply _ _ _ Hr0) as (-> & _). intros E.
      destruct (next_stage_cases r0 p0) as [Hs|[Hs _]]; by rewrite E in Hs. }
  destruct (next_stage_cases r p) as [Hs|(-> & Hs & _)]; [| by destruct (g_power_stage p)].
  destruct (g_power_stage p); try (by rewrite Hu); by destruct (next_stage r p).
Qed.

Lemma stage_changes_witness :
  stage_edge (g_power_stage sample_state) (g_power_stage (run_from [sample_last] sample_state)) = true.
Proof.
  refine (stage_changes 1000 sample_state (Some 2000) 2000 sample_last _ sample_reach _).
  apply run_from_round. by vm_compute.
Defined.
