(* ===== verification/Can.v ===== *)
(** * CAN nodes ([app_can.c], [svc_can.c])

    The three CAN nodes, their configuration and start-up as calls into the
    device layer, reception of life frames, the life monitor and frame
    transmission.  The device layer and the kernel are an oracle [k]: the
    answer to a call may depend on every call made before. *)

From stdpp Require Import strings.
From S2P Require Import Prelude Platform.

(** ** Data *)

Definition APP_CAN_STD_LIFE_ID : Z := 0x605.
Definition APP_CAN_EXT_LIFE_ID : Z := 0x16FF0018.
Definition APP_CAN_LIFE_TIMEOUT_MS : Z := 5000.
Definition APP_CAN_BAUDRATE : Z := 250000.

Definition CAN_NODE1 : Z := 0.
Definition CAN_NODE2 : Z := 1.
Definition CAN_NODE3 : Z := 2.
Definition CAN_NODE_ALL : Z := 3.

(** A handle is the value of the pointer; 0 is [RT_NULL]. *)
Notation handle := Z (only parsing).

Record app_can_node_t := mk_can_node {
  dev_name : pointer string;
  sem_name : pointer string;
  dev : handle;
  rx_sem : handle;
  rx_thread : handle;
  last_rx_ms : Z;
  life : Z;
  online : bool
}.

#[export] Instance eta_can_node : Eta app_can_node_t := fun r =>
  mk_can_node (dev_name r) (sem_name r) (dev r) (rx_sem r) (rx_thread r)
    (last_rx_ms r) (life r) (online r).

(** [struct rt_can_msg]: the identifier is a 29-bit field, the data area has
    64 bytes (CAN FD is configured). *)
Record rt_can_msg := mk_can_msg {
  msg_id : Z; msg_ide : Z; msg_rtr : Z; msg_len : Z; msg_hdr_index : Z; msg_data : list Z
}.

Definition RT_CAN_STDID : Z := 0.
Definition RT_CAN_EXTID : Z := 1.
Definition RT_CAN_DTR : Z := 0.

Inductive can_control := SET_BAUD (baud : Z) | SET_MODE_NORMAL | SET_FILTER_ALL.
Inductive can_thread := RX_THREAD (node_index : Z) | MONITOR_THREAD.

(** Calls into the device layer and the kernel. *)
Inductive kcall :=
| rt_device_find (name : string)
| rt_sem_create (name : string)
| rt_device_open (d : handle)
| rt_device_control (d : handle) (c : can_control)
| rt_device_set_rx_indicate (d : handle) (node_index : Z)
| rt_thread_create (t : can_thread)
| rt_thread_startup (th : handle)
| rt_sem_release (s : handle)
| rt_device_write (d : handle) (m : rt_can_msg).

Record can := mk_can {
  g_can_nodes : list app_can_node_t;
  g_can_monitor_thread : handle;
  g_can_started : bool;
  can_calls : list kcall
}.

#[export] Instance eta_can : Eta can := fun r =>
  mk_can (g_can_nodes r) (g_can_monitor_thread r) (g_can_started r) (can_calls r).

Definition node0 : app_can_node_t := mk_can_node None None 0 0 0 0 0 false.

Definition nd (c : can) (i : Z) : app_can_node_t := nth (Z.to_nat i) (g_can_nodes c) node0.
Definition set_nd (i : Z) (n : app_can_node_t) (c : can) : can :=
  c <| g_can_nodes := <[Z.to_nat i := n]> (g_can_nodes c) |>.

(** The static initialisers. *)
Definition can_boot : can :=
  mk_can [mk_can_node (Some "can0"%string) (Some "can0_sem"%string) 0 0 0 0 0 false;
          mk_can_node (Some "can2"%string) (Some "can2_sem"%string) 0 0 0 0 0 false;
          mk_can_node None None 0 0 0 0 0 false] 0 false [].

(** ** Reception and the life monitor *)

(** [tick] is what [rt_tick_get] returns at the call. *)
Definition app_can_handle_rx (node_index : Z) (msg : pointer rt_can_msg) (tick : Z) (c : can) : can :=
  match msg with
  | None => c
  | Some msg =>
      if CAN_NODE_ALL <=? node_index then c
      else
        let node := nd c node_index in
        if (msg_id msg =? APP_CAN_STD_LIFE_ID) || (msg_id msg =? APP_CAN_EXT_LIFE_ID) then
          let node := node <| life := u8 (get (msg_data msg) 0) |> in
          let node := node <| last_rx_ms := rt_tick_get_millisecond tick |> in
          let node := node <| online := true |> in
          set_nd node_index node c
        else c
  end.

Section Kernel.
(** The answer to a call, given the calls made before it. *)
Context (k : list kcall -> kcall -> Z).

Definition call (x : kcall) (c : can) : Z * can :=
  (k (can_calls c) x, c <| can_calls := can_calls c ++ [x] |>).

Definition app_can_rx_indicate (node : Z) (c : can) : can :=
  if negb (rx_sem (nd c node) =? 0) then snd (call (rt_sem_release (rx_sem (nd c node))) c) else c.
Definition app_can_rx_indicate_0 := app_can_rx_indicate CAN_NODE1.
Definition app_can_rx_indicate_2 := app_can_rx_indicate CAN_NODE2.
Definition app_can_rx_indicate_3 := app_can_rx_indicate CAN_NODE3.

(** The inner loop of [app_can_rx_thread]: the messages successive reads of
    the device return before one returns nothing, each with the tick of its
    handling. *)
Fixpoint app_can_rx_drain (node_index : Z) (fifo : list (rt_can_msg * Z)) (c : can) : can :=
  match fifo with
  | [] => c
  | (msg, tick) :: fifo =>
      if 8 <? msg_len msg then app_can_rx_drain node_index fifo c
      else app_can_rx_drain node_index fifo (app_can_handle_rx node_index (Some msg) tick c)
  end.

(** The test of one node in the monitor's loop. *)
Definition app_can_monitor_node (now : Z) (c : can) (i : Z) : can :=
  let n := nd c i in
  if online n && (APP_CAN_LIFE_TIMEOUT_MS <=? u32 (now - last_rx_ms n)) then
    set_nd i (n <| online := false |> <| life := 0 |>) c
  else c.

(** One pass of [app_can_monitor_thread]. *)
Definition app_can_monitor_pass (tick : Z) (c : can) : can :=
  let now := rt_tick_get_millisecond tick in
  foldl (app_can_monitor_node now) c [CAN_NODE1; CAN_NODE2; CAN_NODE3].

(** ** Configuration and start-up *)

Definition app_can_config_node (node_index : Z) (c : can) : Z * can :=
  if CAN_NODE_ALL <=? node_index then (- RT_EINVAL, c)
  else match dev_name (nd c node_index), sem_name (nd c node_index) with
  | Some dname, Some sname =>
      let '(d, c) := call (rt_device_find dname) c in
      let c := set_nd node_index (nd c node_index <| dev := d |>) c in
      if d =? 0 then (- RT_ENOSYS, c) else
      let '(s, c) := call (rt_sem_create sname) c in
      let c := set_nd node_index (nd c node_index <| rx_sem := s |>) c in
      if s =? 0 then (- RT_ENOMEM, c) else
      let '(result, c) := call (rt_device_open d) c in
      if negb (result =? RT_EOK) then (result, c) else
      let '(result, c) := call (rt_device_control d (SET_BAUD APP_CAN_BAUDRATE)) c in
      if negb (result =? RT_EOK) then (result, c) else
      let '(result, c) := call (rt_device_control d SET_MODE_NORMAL) c in
      if negb (result =? RT_EOK) then (result, c) else
      let '(result, c) := call (rt_device_control d SET_FILTER_ALL) c in
      if negb (result =? RT_EOK) then (result, c) else
      let '(result, c) := call (rt_device_set_rx_indicate d node_index) c in
      if negb (result =? RT_EOK) then (result, c) else (RT_EOK, c)
  | _, _ => (RT_EOK, c)
  end.

Definition app_can_init (c : can) : Z * can :=
  let reset n := n <| dev := 0 |> <| rx_sem := 0 |> <| rx_thread := 0 |>
                   <| last_rx_ms := 0 |> <| life := 0 |> <| online := false |> in
  let c := c <| g_can_nodes := map reset (g_can_nodes c) |> in
  let c := c <| g_can_monitor_thread := 0 |> in
  (RT_EOK, c <| g_can_started := false |>).

(** The loop of [app_can_start] over the remaining node indices; [None] when
    it runs to its end. *)
Fixpoint app_can_start_nodes (ixs : list Z) (c : can) : option Z * can :=
  match ixs with
  | [] => (None, c)
  | i :: ixs =>
      let '(result, c) := app_can_config_node i c in
      if negb (result =? RT_EOK) then (Some result, c)
      else if dev (nd c i) =? 0 then app_can_start_nodes ixs c
      else
        let '(th, c) := call (rt_thread_create (RX_THREAD i)) c in
        let c := set_nd i (nd c i <| rx_thread := th |>) c in
        if th =? 0 then (Some (- RT_ENOMEM), c)
        else
          let '(_, c) := call (rt_thread_startup th) c in
          app_can_start_nodes ixs c
  end.

Definition app_can_start (c : can) : Z * can :=
  if g_can_started c then (RT_EOK, c)
  else
    match app_can_start_nodes [CAN_NODE1; CAN_NODE2; CAN_NODE3] c with
    | (Some result, c) => (result, c)
    | (None, c) =>
        let '(th, c) := call (rt_thread_create MONITOR_THREAD) c in
        let c := c <| g_can_monitor_thread := th |> in
        if th =? 0 then (- RT_ENOMEM, c)
        else
          let '(_, c) := call (rt_thread_startup th) c in
          (RT_EOK, c <| g_can_started := true |>)
    end.

(** ** Transmission *)

Definition app_can_send_ex (node_index id : Z) (data : pointer (list Z)) (len : Z) (c : can) : Z * can :=
  if CAN_NODE_ALL <=? node_index then (- RT_EINVAL, c)
  else if dev (nd c node_index) =? 0 then (- RT_ENOSYS, c)
  else if 8 <? len then (- RT_EINVAL, c)
  else
    let payload := match data with
                   | Some d => if 0 <? len then blit 0 (take (Z.to_nat len) d) (zeros 64) else zeros 64
                   | None => zeros 64
                   end in
    let msg := mk_can_msg (id mod 2 ^ 29) (if 0x7FF <? id then RT_CAN_EXTID else RT_CAN_STDID)
                 RT_CAN_DTR len 0 payload in
    let '(n, c) := call (rt_device_write (dev (nd c node_index)) msg) c in
    if n <=? 0 then (- RT_ERROR, c) else (RT_EOK, c).

Definition app_can_send (id : Z) (data : pointer (list Z)) (len : Z) (c : can) : Z * can :=
  app_can_send_ex CAN_NODE1 id data len c.

Definition svc_can_init := app_can_init.
Definition svc_can_task_start := app_can_start.
Definition svc_can_send := app_can_send.
Definition svc_can_send_ex := app_can_send_ex.
End Kernel.

Definition app_can_get_life (node_index : Z) (c : can) : Z :=
  if CAN_NODE_ALL <=? node_index then 0 else life (nd c node_index).

Definition app_can_is_online (node_index : Z) (c : can) : bool :=
  if CAN_NODE_ALL <=? node_index then false else online (nd c node_index).

(** ** Specification of the life monitor *)

Inductive can_event :=
| EvRx (node_index : Z) (msg : rt_can_msg) (t : Z)   (* read and handled at real time [t] *)
| EvMonitor (t : Z).                                 (* a monitor pass at real time [t] *)

Definition can_step (c : can) (e : can_event) : can :=
  match e with
  | EvRx i msg t => app_can_rx_drain i [(msg, u32 t)] c
  | EvMonitor t => app_can_monitor_pass (u32 t) c
  end.

Definition is_life_frame (msg : rt_can_msg) : bool :=
  (msg_len msg <=? 8) &&
  ((msg_id msg =? APP_CAN_STD_LIFE_ID) || (msg_id msg =? APP_CAN_EXT_LIFE_ID)).

(** Node [i] as the monitor should see it: the latest life value and the real
    time of its frame, until a pass finds the frame at least 5 s old. *)
Definition life_step (i : Z) (a : option (Z * Z)) (e : can_event) : option (Z * Z) :=
  match e with
  | EvRx j msg t => if (j =? i) && is_life_frame msg then Some (u8 (get (msg_data msg) 0), t) else a
  | EvMonitor t => match a with
                   | Some (v, tl) => if 5000 <=? t - tl then None else a
                   | None => None
                   end
  end.

(** Events in time order, with the monitor running at least every 2^31 ms. *)
Fixpoint paced (tm t : Z) (es : list can_event) : Prop :=
  match es with
  | [] => True
  | EvRx i _ t' :: es => 0 <= i /\ t <= t' /\ paced tm t' es
  | EvMonitor t' :: es => t <= t' /\ t' - tm <= 2 ^ 31 /\ paced t' t' es
  end.

(** ** Lemmas *)

Definition three (c : can) : Prop := length (g_can_nodes c) = 3%nat.

Lemma three_set_nd i n c : three c -> three (set_nd i n c).
Proof. unfold three, set_nd. cbn. by rewrite length_insert. Qed.

Lemma nd_set_nd i j n c :
  three c -> 0 <= i < 3 -> 0 <= j < 3 -> nd (set_nd i n c) j = if i =? j then n else nd c j.
Proof.
  intros H3 Hi Hj. unfold nd, set_nd, three in *. cbn. rewrite !nth_lookup.
  destruct (Z.eqb_spec i j) as [->|].
  - rewrite list_lookup_insert_eq by lia. done.
  - rewrite list_lookup_insert_ne by lia. done.
Qed.

Lemma handle_rx_spec i j msg tick c :
  three c -> 0 <= i -> 0 <= j < 3 ->
  let c' := app_can_handle_rx i (Some msg) tick c in
  three c' /\
  nd c' j = if (i =? j) && ((msg_id msg =? APP_CAN_STD_LIFE_ID) || (msg_id msg =? APP_CAN_EXT_LIFE_ID))
            then nd c j <| life := u8 (get (msg_data msg) 0) |>
                        <| last_rx_ms := rt_tick_get_millisecond tick |> <| online := true |>
            else nd c j.
Proof.
  intros H3 Hi Hj. cbv zeta. unfold app_can_handle_rx, CAN_NODE_ALL.
  destruct (Z.leb_spec 3 i).
  { split; [done |]. by destruct (Z.eqb_spec i j); [lia |]. }
  destruct (_ || _); [| by rewrite andb_false_r].
  split; [by apply three_set_nd |]. rewrite nd_set_nd by done.
  destruct (Z.eqb_spec i j) as [->|]; done.
Qed.

Lemma drain_one_spec i j msg tick c :
  three c -> 0 <= i -> 0 <= j < 3 ->
  let c' := app_can_rx_drain i [(msg, tick)] c in
  three c' /\
  nd c' j = if (i =? j) && is_life_frame msg
            then nd c j <| life := u8 (get (msg_data msg) 0) |>
                        <| last_rx_ms := rt_tick_get_millisecond tick |> <| online := true |>
            else nd c j.
Proof.
  intros H3 Hi Hj. cbn [app_can_rx_drain]. unfold is_life_frame.
  rewrite Z.leb_antisym. destruct (8 <? msg_len msg); cbn [negb andb].
  - by rewrite andb_false_r.
  - by apply handle_rx_spec.
Qed.

Definition checked (now : Z) (n : app_can_node_t) : app_can_node_t :=
  if online n && (5000 <=? u32 (now - last_rx_ms n)) then n <| online := false |> <| life := 0 |> else n.

Lemma monitor_node_spec now c i j :
  three c -> 0 <= i < 3 -> 0 <= j < 3 ->
  three (app_can_monitor_node now c i) /\
  nd (app_can_monitor_node now c i) j = if i =? j then checked now (nd c j) else nd c j.
Proof.
  intros H3 Hi Hj. unfold app_can_monitor_node, checked, APP_CAN_LIFE_TIMEOUT_MS.
  destruct (Z.eqb_spec i j) as [->|Hne].
  - destruct (_ && _); [| done]. split; [by apply three_set_nd |].
    by rewrite nd_set_nd, Z.eqb_refl by done.
  - destruct (_ && _); [| done]. split; [by apply three_set_nd |].
    rewrite nd_set_nd by done. by destruct (Z.eqb_spec i j).
Qed.

Lemma monitor_pass_spec tick c j :
  three c -> 0 <= j < 3 ->
  three (app_can_monitor_pass tick c) /\
  nd (app_can_monitor_pass tick c) j = checked (rt_tick_get_millisecond tick) (nd c j).
Proof.
  intros H3 Hj. unfold app_can_monitor_pass. cbv zeta. cbn [foldl].
  set (now := rt_tick_get_millisecond tick).
  destruct (monitor_node_spec now c CAN_NODE1 j) as [T1 E1]; [done.. |].
  destruct (monitor_node_spec now _ CAN_NODE2 j T1) as [T2 E2]; [done.. |].
  destruct (monitor_node_spec now _ CAN_NODE3 j T2) as [T3 E3]; [done.. |].
  split; [done |]. rewrite E3, E2, E1. unfold CAN_NODE1, CAN_NODE2, CAN_NODE3.
  assert (j = 0 \/ j = 1 \/ j = 2) as [->|[->| ->]] by lia; done.
Qed.

(** The concrete node [n] represents the abstract one. *)
Definition life_rel (n : app_can_node_t) (a : option (Z * Z)) (tm t : Z) : Prop :=
  match a with
  | Some (v, tl) => online n = true /\ life n = v /\ last_rx_ms n = u32 tl /\ tl <= t /\ tm < tl + 5000
  | None => online n = false /\ life n = 0
  end.

Lemma checked_spec n a tm t t' :
  life_rel n a tm t -> t <= t' -> t' - tm <= 2 ^ 31 ->
  life_rel (checked (rt_tick_get_millisecond (u32 t')) n)
    (match a with Some (v, tl) => if 5000 <=? t' - tl then None else a | None => None end) t' t'.
Proof.
  intros Hr Ht Hm. unfold checked. rewrite rt_tick_get_millisecond_1k by (apply u32_range).
  destruct a as [[v tl]|]; simpl in Hr.
  - destruct Hr as (Hon & Hv & Hl & ? & ?). rewrite Hon, Hl. cbn [andb].
    assert (u32 (u32 t' - u32 tl) = t' - tl) as -> by wraps.
    destruct (Z.leb_spec 5000 (t' - tl)); [done |].
    simpl. split_and!; done || lia.
  - destruct Hr as [Hon ?]. by rewrite Hon.
Qed.

Lemma can_steps_refine es c i a tm t :
  three c -> 0 <= i < 3 -> life_rel (nd c i) a tm t -> tm <= t -> paced tm t es ->
  exists tm' t', life_rel (nd (foldl can_step c es) i) (foldl (life_step i) a es) tm' t'.
Proof.
  intros H3 Hi. revert c a tm t H3. induction es as [|[j msg t'|t'] es IH]; intros c a tm t H3 Hr Htm;
    simpl; [eauto | |].
  - intros (Hj & Ht & Hp). destruct (drain_one_spec j i msg (u32 t') c H3 Hj Hi) as [H3' E].
    apply (IH _ _ tm t'); [done | | lia | done].
    change (life_rel (nd (app_can_rx_drain j [(msg, u32 t')] c) i)
              (if (j =? i) && is_life_frame msg then Some (u8 (get (msg_data msg) 0), t') else a) tm t').
    rewrite E. destruct (_ && _).
    + simpl. rewrite rt_tick_get_millisecond_1k by (apply u32_range). split_and!; done || lia.
    + destruct a as [[v tl]|]; [| done]. simpl in *. naive_solver lia.
  - intros (Ht & Hm & Hp). destruct (monitor_pass_spec (u32 t') c i H3 Hi) as [H3' E].
    apply (IH _ _ t' t'); [done | | lia | done]. rewrite E. by eapply checked_spec.
Qed.

(** [c'] is [c] after the calls [l], with at most node [i] changed. *)
Definition extends (i : Z) (c c' : can) (l : list kcall) : Prop :=
  three c' /\ g_can_started c' = g_can_started c /\ can_calls c' = can_calls c ++ l /\
  forall j, 0 <= j < 3 -> j <> i -> nd c' j = nd c j.

Lemma extends_refl i c : three c -> extends i c c [].
Proof. intros. split_and!; try done. by rewrite app_nil_r. Qed.

Lemma extends_call k i c c' l x d c'' :
  extends i c c' l -> call k x c' = (d, c'') ->
  extends i c c'' (l ++ [x]) /\ forall j, nd c'' j = nd c' j.
Proof.
  intros (H3 & Hs & Hc & Hn) [= _ <-]. split; [| done]. split_and!; try done.
  cbn. by rewrite Hc, app_assoc.
Qed.

Lemma extends_set i c c' l n :
  0 <= i < 3 -> extends i c c' l ->
  exists c'', set_nd i n c' = c'' /\ extends i c c'' l /\ nd c'' i = n.
Proof.
  intros Hi (H3 & Hs & Hc & Hn). exists (set_nd i n c'). split; [done |].
  rewrite nd_set_nd, Z.eqb_refl by done. split; [| done].
  split_and!; try done; [by apply three_set_nd |].
  intros j Hj Hne. rewrite nd_set_nd by done. destruct (Z.eqb_spec i j); [lia | by apply Hn].
Qed.

(** One call of a configuration sequence: take it and keep the record. *)
Ltac can_call H :=
  match goal with
  | |- context [call ?k ?x ?c] =>
      let d := fresh "d" in let c' := fresh "c" in let E := fresh "E" in
      let Hn := fresh "Hn" in
      destruct (call k x c) as [d c'] eqn:E;
      apply (extends_call _ _ _ _ _ _ _ _ H) in E; clear H; destruct E as [H Hn]
  end.

Ltac can_set H Hi :=
  match goal with
  | |- context [set_nd ?i ?n ?c] =>
      let c' := fresh "c" in let E := fresh "E" in let Hn := fresh "Hn" in
      destruct (extends_set i _ c _ n Hi H) as (c' & E & ? & Hn); rewrite E; clear H E;
      rename select (extends _ _ c' _) into H
  end.

(** A configuration step that fails. *)
Ltac can_fail H := intros [= <- <-]; eexists; split; [exact H | by intros].

Lemma config_node_spec k i c dn sn r c' :
  three c -> 0 <= i < 3 -> dev_name (nd c i) = Some dn -> sem_name (nd c i) = Some sn ->
  app_can_config_node k i c = (r, c') ->
  exists l, extends i c c' l /\
  (r = RT_EOK -> exists d s, d <> 0 /\ s <> 0 /\ dev (nd c' i) = d /\
    l = [rt_device_find dn; rt_sem_create sn; rt_device_open d;
         rt_device_control d (SET_BAUD 250000); rt_device_control d SET_MODE_NORMAL;
         rt_device_control d SET_FILTER_ALL; rt_device_set_rx_indicate d i]).
Proof.
  intros H3 Hi Hd Hs. unfold app_can_config_node, CAN_NODE_ALL.
  destruct (Z.leb_spec 3 i); [lia |]. rewrite Hd, Hs.
  pose proof (extends_refl i c H3) as He. can_call He. can_set He Hi.
  destruct (Z.eqb_spec d 0); [can_fail He |].
  can_call He. can_set He Hi. destruct (Z.eqb_spec d0 0); [can_fail He |].
  do 5 (can_call He;
        match goal with |- context [negb (?r =? RT_EOK)] =>
          destruct (Z.eqb_spec r RT_EOK); cbn [negb]; [| can_fail He] end).
  intros [= <- <-]. eexists. split; [done |]. intros _. exists d, d0.
  split_and!; try done.
  rewrite Hn7, Hn6, Hn5, Hn4, Hn3, Hn2. cbn. by rewrite Hn1, Hn0.
Qed.

(** The calls that bring up one node. *)
Definition node_calls (name sem : string) (i d s th : Z) : list kcall :=
  [rt_device_find name; rt_sem_create sem; rt_device_open d;
   rt_device_control d (SET_BAUD 250000); rt_device_control d SET_MODE_NORMAL;
   rt_device_control d SET_FILTER_ALL; rt_device_set_rx_indicate d i;
   rt_thread_create (RX_THREAD i); rt_thread_startup th].

Lemma start_node_spec k i ixs c dn sn r c' :
  three c -> 0 <= i < 3 -> dev_name (nd c i) = Some dn -> sem_name (nd c i) = Some sn ->
  app_can_start_nodes k (i :: ixs) c = (r, c') ->
  (exists e, r = Some e /\ e <> RT_EOK /\ g_can_started c' = g_can_started c) \/
  exists c1 d s th, Forall (fun h => h <> 0) [d; s; th] /\
    extends i c c1 (node_calls dn sn i d s th) /\ app_can_start_nodes k ixs c1 = (r, c').
Proof.
  intros H3 Hi Hd Hs. cbn [app_can_start_nodes].
  destruct (app_can_config_node k i c) as [res c0] eqn:E.
  destruct (config_node_spec _ _ _ _ _ _ _ H3 Hi Hd Hs E) as (l & He & Hok). clear E.
  destruct (Z.eqb_spec res RT_EOK) as [Hr|Hr]; cbn [negb].
  2:{ intros [= <- <-]. left. exists res. split_and!; try done. apply He. }
  destruct (Hok Hr) as (d & s & ? & ? & Hdev & ->). rewrite Hdev.
  destruct (Z.eqb_spec d 0); [done |]. can_call He. can_set He Hi.
  destruct (Z.eqb_spec d0 0).
  { intros [= <- <-]. left. exists (- RT_ENOMEM). split_and!; try done. apply He. }
  can_call He. intros Hnext. right. exists c3, d, s, d0. split_and!; [by repeat constructor | | done].
  exact He.
Qed.

Lemma start_node_disabled k i ixs c :
  0 <= i < 3 -> dev_name (nd c i) = None -> dev (nd c i) = 0 ->
  app_can_start_nodes k (i :: ixs) c = app_can_start_nodes k ixs c.
Proof.
  intros Hi Hn Hd. cbn [app_can_start_nodes]. unfold app_can_config_node, CAN_NODE_ALL.
  destruct (Z.leb_spec 3 i); [lia |]. rewrite Hn. cbn. by rewrite Hd.
Qed.

Definition can_ready : can := snd (app_can_init can_boot).

(** ** Properties *)

(** C25: Over any sequence of received frames and monitor passes in time order
    (passes at most 2^31 ms apart, across wrap-around of the tick counter), a
    node is reported online exactly when its latest life frame is one no pass
    has yet found 5 s old, and its life value is that frame's first byte. *)
Theorem can_life_refines es i t0 :
  0 <= i < 3 -> paced t0 t0 es ->
  let c := foldl can_step can_ready es in
  match foldl (life_step i) None es with
  | Some (v, _) => app_can_is_online i c = true /\ app_can_get_life i c = v
  | None => app_can_is_online i c = false /\ app_can_get_life i c = 0
  end.
Proof.
  intros Hi Hp c. subst c. unfold app_can_is_online, app_can_get_life, CAN_NODE_ALL.
  destruct (Z.leb_spec 3 i); [lia |].
  destruct (can_steps_refine es can_ready i None t0 t0) as (tm & t & Hr); [done | done | | lia | done |].
  { assert (i = 0 \/ i = 1 \/ i = 2) as [->|[->| ->]] by lia; done. }
  destruct (foldl (life_step i) None es) as [[v tl]|]; simpl in Hr; naive_solver.
Qed.

Definition sample_life (v : Z) : rt_can_msg := mk_can_msg 0x605 0 0 8 0 (v :: zeros 63).

Lemma can_life_refines_witness :
  let es := [EvRx 0 (sample_life 7) (2 ^ 32 - 100); EvMonitor (2 ^ 32 + 4000); EvRx 1 (sample_life 9) (2 ^ 32 + 4500);
             EvMonitor (2 ^ 32 + 5000)] in
  paced (2 ^ 32 - 200) (2 ^ 32 - 200) es /\
  app_can_is_online 1 (foldl can_step can_ready es) = true /\
  app_can_get_life 1 (foldl can_step can_ready es) = 9.
Proof.
  intros es. assert (paced (2 ^ 32 - 200) (2 ^ 32 - 200) es) as Hp by (vm_compute; by repeat split).
  split; [exact Hp | exact (can_life_refines es 1 (2 ^ 32 - 200) ltac:(lia) Hp)].
Defined.

(** A life frame handled between the monitor's reading of the clock and
    its test of the node, at a later millisecond than that reading, is marked
    offline by that test (the unsigned difference wraps). *)
Theorem monitor_race_marks_offline c i msg now t :
  three c -> 0 <= i < 3 -> is_life_frame msg = true -> now < t <= now + 2 ^ 32 - 5000 ->
  let c' := app_can_rx_drain i [(msg, u32 t)] c in
  app_can_is_online i c' = true /\
  app_can_is_online i (app_can_monitor_node (rt_tick_get_millisecond (u32 now)) c' i) = false.
Proof.
  intros H3 Hi Hl Ht c'. destruct (drain_one_spec i i msg (u32 t) c H3) as [H3' E]; [lia | done |].
  fold c' in E, H3'. rewrite Hl, Z.eqb_refl in E. cbn [andb] in E.
  unfold app_can_is_online, CAN_NODE_ALL. destruct (Z.leb_spec 3 i); [lia |].
  destruct (monitor_node_spec (rt_tick_get_millisecond (u32 now)) c' i i) as [_ ->]; [done.. |].
  rewrite Z.eqb_refl, E. unfold checked. cbn [online last_rx_ms update_with andb].
  rewrite !rt_tick_get_millisecond_1k by (apply u32_range).
  destruct (Z.leb_spec 5000 (u32 (u32 now - u32 t))); [done | wraps].
Qed.

Lemma monitor_race_marks_offline_witness :
  let c' := app_can_rx_drain 0 [(sample_life 7, u32 1001)] can_ready in
  app_can_is_online 0 c' = true /\
  app_can_is_online 0 (app_can_monitor_node (rt_tick_get_millisecond (u32 1000)) c' 0) = false.
Proof.
  refine (monitor_race_marks_offline can_ready 0 (sample_life 7) 1000 1001 _ _ _ _); done || lia.
Defined.

(** [app_can_start] after [app_can_init] either reports an error and
    leaves the module not started, or has made exactly the expected calls in
    order: both enabled nodes found, opened, configured and given a receive
    thread, then the monitor thread; a further start makes no call. *)
Theorem can_start_outcome k :
  let '(result, c) := app_can_start k can_ready in
  if result =? RT_EOK then
    (exists d1 s1 th1 d2 s2 th2 m,
      Forall (fun h => h <> 0) [d1; s1; th1; d2; s2; th2; m] /\
      can_calls c = node_calls "can0" "can0_sem" 0 d1 s1 th1 ++
                    node_calls "can2" "can2_sem" 1 d2 s2 th2 ++
                    [rt_thread_create MONITOR_THREAD; rt_thread_startup m]) /\
    g_can_started c = true /\ app_can_start k c = (RT_EOK, c)
  else g_can_started c = false.
Proof.
  destruct (app_can_start k can_ready) as [result c] eqn:Hst.
  unfold app_can_start in Hst. change (g_can_started can_ready) with false in Hst. cbn [negb] in Hst.
  destruct (app_can_start_nodes k _ can_ready) as [r c0] eqn:E0.
  destruct (start_node_spec k CAN_NODE1 [CAN_NODE2; CAN_NODE3] can_ready "can0" "can0_sem" _ _ ltac:(done) ltac:(done) eq_refl eq_refl E0)
    as [(e & -> & He & Hs)|(c1 & d1 & s1 & th1 & Hf1 & (T1 & S1 & L1 & N1) & E1)].
  { injection Hst as <- <-. by destruct (Z.eqb_spec e RT_EOK). }
  destruct (start_node_spec k CAN_NODE2 [CAN_NODE3] c1 "can2" "can2_sem" _ _ T1 ltac:(done)
              ltac:(by rewrite N1) ltac:(by rewrite N1) E1)
    as [(e & -> & He & Hs)|(c2 & d2 & s2 & th2 & Hf2 & (T2 & S2 & L2 & N2) & E2)].
  { injection Hst as <- <-. destruct (Z.eqb_spec e RT_EOK); [done |]. by rewrite Hs, S1. }
  rewrite start_node_disabled in E2 by (rewrite ?N2, ?N1 by done; done).
  injection E2 as <- <-. cbn in Hst.
  destruct (Z.eqb_spec (k (can_calls c2) (rt_thread_create MONITOR_THREAD)) 0) as [Hz|Hz];
    injection Hst as <- <-; cbn.
  { by rewrite S2, S1. }
  split_and!; [| done | done].
  exists d1, s1, th1, d2, s2, th2, (k (can_calls c2) (rt_thread_create MONITOR_THREAD)).
  split; [| by rewrite L2, L1, <- !app_assoc].
  rewrite !Forall_cons in *. naive_solver.
Qed.

(** A successful transmission of [len] bytes hands the node's device one
    frame carrying the identifier, the frame type, the length and the payload
    padded with zeros; when the identifier is a life identifier, any node
    that receives the frame is online with the payload's first byte as its
    life value. *)
Theorem can_send_receive k c i id d len c' :
  0 <= i -> 0 <= id < 2 ^ 29 -> 0 < len -> len <= Z.of_nat (length d) -> is_u8 (get d 0) ->
  app_can_send_ex k i id (Some d) len c = (RT_EOK, c') ->
  exists m,
    can_calls c' = can_calls c ++ [rt_device_write (dev (nd c i)) m] /\
    msg_id m = id /\ msg_ide m = b2u (0x7FF <? id) /\ msg_len m = len /\ len <= 8 /\
    msg_data m = take (Z.to_nat len) d ++ zeros (64 - Z.to_nat len) /\
    (id = APP_CAN_STD_LIFE_ID \/ id = APP_CAN_EXT_LIFE_ID ->
     forall j c2 tick, 0 <= j < 3 -> three c2 ->
       let c3 := app_can_rx_drain j [(m, tick)] c2 in
       app_can_is_online j c3 = true /\ app_can_get_life j c3 = get d 0).
Proof.
  intros Hi Hid Hlen Hd Hb. unfold app_can_send_ex, CAN_NODE_ALL.
  destruct (Z.leb_spec 3 i); [done |]. case_match; [done |].
  destruct (Z.ltb_spec 8 len); [done |]. destruct (Z.ltb_spec 0 len); [| lia]. cbv zeta.
  match goal with |- context [call k (rt_device_write _ ?m) c] => set (msg := m) end.
  cbn [call fst snd]. case_match; [done |]. intros [= <-]. exists msg.
  assert (msg_data msg = take (Z.to_nat len) d ++ zeros (64 - Z.to_nat len)) as Hdata.
  { subst msg. cbn [msg_data]. unfold blit. rewrite length_take, Nat.min_l by lia. unfold zeros.
    rewrite drop_replicate. done. }
  assert (get (msg_data msg) 0 = get d 0) as Hget.
  { rewrite Hdata. unfold get. destruct d as [|x d]; [simpl in *; lia |].
    destruct (Z.to_nat len) eqn:E; [lia | done]. }
  assert (msg_id msg = id) as Hmid by (subst msg; cbn; wraps).
  split_and!; [done | done | | done | lia | done |].
  { subst msg. cbn. by destruct (0x7FF <? id). }
  intros Hl j c2 tick Hj Hth. destruct (drain_one_spec j j msg tick c2 Hth) as [_ E]; [lia | done |].
  unfold app_can_is_online, app_can_get_life, CAN_NODE_ALL. destruct (Z.leb_spec 3 j); [lia |].
  assert (is_life_frame msg = true) as Hlf.
  { unfold is_life_frame. rewrite Hmid. change (msg_len msg) with len.
    destruct (Z.leb_spec len 8); [| lia]. by destruct Hl as [-> | ->]. }
  cbv zeta. rewrite E, Hlf, Z.eqb_refl. cbn [andb online life update_with]. by rewrite Hget, u8_id.
Qed.

(** A device layer that knows every device and accepts every call. *)
Definition sample_kernel (past : list kcall) (x : kcall) : Z :=
  match x with
  | rt_device_find _ | rt_sem_create _ | rt_thread_create _ => 1 + Z.of_nat (length past)
  | rt_device_write _ _ => 84
  | _ => 0
  end.

Lemma can_send_receive_witness :
  let c := snd (app_can_start sample_kernel can_ready) in
  exists m, can_calls (snd (app_can_send_ex sample_kernel 1 0x605 (Some [42; 1; 2]) 3 c)) =
            can_calls c ++ [rt_device_write (dev (nd c 1)) m] /\ msg_id m = 0x605.
Proof.
  intros c.
  destruct (can_send_receive sample_kernel c 1 0x605 [42; 1; 2] 3
              (snd (app_can_send_ex sample_kernel 1 0x605 (Some [42; 1; 2]) 3 c))) as (m & H1 & H2 & _).
  - lia.
  - lia.
  - lia.
  - by vm_compute.
  - by vm_compute.
  - by vm_compute.
  - exists m. exact (conj H1 H2).
Defined.
