(* ===== verification/Eeprom.v ===== *)
(** * EEPROM access over I2C ([svc_storage.c], first part)

    Page writes, writes of any length split at page boundaries, and reads.
    The I2C bus and the EEPROM behind it are a parameter: the operations
    [rt_i2c_transfer] and [rt_thread_mdelay] on a device state, with the
    datasheet behaviour the code relies on as the laws of [EepromLaws]
    (what a successful transfer does) and [EepromReady] (when transfers
    succeed).  A chip simulator satisfies both. *)

From S2P Require Import Prelude.

(** ** The bus interface *)

Inductive i2c_flags := RT_I2C_WR | RT_I2C_RD.

Record rt_i2c_msg := mk_i2c_msg {
  i2c_addr : Z; i2c_flag : i2c_flags; i2c_buf : list Z; i2c_len : Z
}.

Class I2cBus (D : Type) := {
  (** transferred message count, buffer after the transfer, device after *)
  rt_i2c_transfer : rt_i2c_msg -> D -> Z * list Z * D;
  rt_thread_mdelay : Z -> D -> D
}.

Definition SVC_EEPROM_I2C_ADDR_7BIT : Z := 0x50.
Definition SVC_EEPROM_PAGE_SIZE : Z := 32.
Definition SVC_EEPROM_WRITE_DELAY_MS : Z := 5.

(** ** Operations *)

Section Ops.
Context {D : Type} `{I2cBus D}.

(** [bus] tells whether [g_eeprom_i2c_bus] is non-null. *)
Definition svc_eeprom_write_page (bus : bool) (mem_addr : Z) (data : pointer (list Z)) (len : Z)
    (d : D) : bool * D :=
  match data with
  | None => (false, d)
  | Some data =>
      if negb bus || (len =? 0) || (SVC_EEPROM_PAGE_SIZE <? len) then (false, d)
      else
        let buf := u8 (Z.shiftr mem_addr 8) :: u8 (Z.land mem_addr 0xFF) :: take (Z.to_nat len) data in
        let msg := mk_i2c_msg SVC_EEPROM_I2C_ADDR_7BIT RT_I2C_WR buf (u16 (len + 2)) in
        let '(n, _, d) := rt_i2c_transfer msg d in
        if negb (n =? 1) then (false, d)
        else (true, rt_thread_mdelay SVC_EEPROM_WRITE_DELAY_MS d)
  end.

(** The loop of [svc_eeprom_write]; [None] when the fuel runs out. *)
Fixpoint svc_eeprom_write_loop (fuel : nat) (bus : bool) (mem_addr : Z) (data : list Z) (len offset : Z)
    (d : D) : option (bool * D) :=
  match fuel with
  | O => None
  | S fuel =>
      if offset <? len then
        let page_remain := u16 (SVC_EEPROM_PAGE_SIZE - (mem_addr + offset) mod SVC_EEPROM_PAGE_SIZE) in
        let write_len := u16 (len - offset) in
        let write_len := if page_remain <? write_len then page_remain else write_len in
        let '(ok, d) := svc_eeprom_write_page bus (u16 (mem_addr + offset))
                          (Some (drop (Z.to_nat offset) data)) write_len d in
        if negb ok then Some (false, d)
        else svc_eeprom_write_loop fuel bus mem_addr data len (u16 (offset + write_len)) d
      else Some (true, d)
  end.

(** Every iteration writes at least one byte: [len + 1] rounds are enough. *)
Definition svc_eeprom_write (bus : bool) (mem_addr : Z) (data : pointer (list Z)) (len : Z)
    (d : D) : option (bool * D) :=
  match data with
  | None => Some (false, d)
  | Some data =>
      if len =? 0 then Some (false, d)
      else svc_eeprom_write_loop (S (Z.to_nat len)) bus mem_addr data len 0 d
  end.

(** Result, contents of [data] after, device after. *)
Definition svc_eeprom_read (bus : bool) (mem_addr : Z) (data : pointer (list Z)) (len : Z)
    (d : D) : bool * pointer (list Z) * D :=
  match data with
  | None => (false, None, d)
  | Some data =>
      if negb bus || (len =? 0) then (false, Some data, d)
      else
        let addr_buf := [u8 (Z.shiftr mem_addr 8); u8 (Z.land mem_addr 0xFF)] in
        let msg := mk_i2c_msg SVC_EEPROM_I2C_ADDR_7BIT RT_I2C_WR addr_buf 2 in
        let '(n, _, d) := rt_i2c_transfer msg d in
        if negb (n =? 1) then (false, Some data, d)
        else
          let msg := mk_i2c_msg SVC_EEPROM_I2C_ADDR_7BIT RT_I2C_RD data len in
          let '(n, data, d) := rt_i2c_transfer msg d in
          (n =? 1, Some data, d)
  end.
End Ops.

(** ** What the code relies on *)

(** The two address bytes of a transfer. *)
Definition addr_bytes (a : Z) : list Z := [u8 (Z.shiftr a 8); u8 (Z.land a 0xFF)].

Definition wr (buf : list Z) : rt_i2c_msg :=
  mk_i2c_msg SVC_EEPROM_I2C_ADDR_7BIT RT_I2C_WR buf (Z.of_nat (length buf)).
Definition rd (buf : list Z) (len : Z) : rt_i2c_msg :=
  mk_i2c_msg SVC_EEPROM_I2C_ADDR_7BIT RT_I2C_RD buf len.

(** Memory [m] with the bytes [l] from address [a]. *)
Definition overlay (a : Z) (l : list Z) (m : Z -> Z) : Z -> Z :=
  fun x => if (a <=? x) && (x <? a + Z.of_nat (length l)) then get l (x - a) else m x.

Definition window (m : Z -> Z) (a : Z) (n : nat) : list Z :=
  map (fun i => m (a + Z.of_nat i)) (seq 0 n).

Class EepromLaws (D : Type) `{I2cBus D} := {
  cells : D -> Z -> Z;
  word_address : D -> Z;
  (** A write of bytes that stay in one page stores them; a failed one stores
      nothing outside their range. *)
  transfer_page : forall a l d n buf d',
    0 <= a < 2 ^ 16 -> l <> [] -> a mod 32 + Z.of_nat (length l) <= 32 -> Forall is_u8 l ->
    rt_i2c_transfer (wr (addr_bytes a ++ l)) d = (n, buf, d') ->
    if n =? 1 then forall x, cells d' x = overlay a l (cells d) x
    else forall x, x < a \/ a + Z.of_nat (length l) <= x -> cells d' x = cells d x;
  (** The address alone sets the word address. *)
  transfer_address : forall a d n buf d',
    0 <= a < 2 ^ 16 -> rt_i2c_transfer (wr (addr_bytes a)) d = (n, buf, d') ->
    (forall x, cells d' x = cells d x) /\ (n = 1 -> word_address d' = a);
  (** A read returns the bytes from the word address. *)
  transfer_read : forall buf len d n buf' d',
    0 < len < 2 ^ 16 -> rt_i2c_transfer (rd buf len) d = (n, buf', d') ->
    (forall x, cells d' x = cells d x) /\
    (n = 1 -> buf' = window (cells d) (word_address d) (Z.to_nat len));
  delay_cells : forall ms d x, cells (rt_thread_mdelay ms d) x = cells d x;
  cells_byte : forall d x, is_u8 (cells d x)
}.

(** When the chip answers: it is ready again [SVC_EEPROM_WRITE_DELAY_MS] after
    a write. *)
Class EepromReady (D : Type) `{EepromLaws D} := {
  ready : D -> Prop;
  ready_page : forall a l d, ready d -> l <> [] -> Z.of_nat (length l) <= 32 ->
    exists buf d', rt_i2c_transfer (wr (addr_bytes a ++ l)) d = (1, buf, d') /\
      ready (rt_thread_mdelay SVC_EEPROM_WRITE_DELAY_MS d');
  ready_address : forall a d, ready d ->
    exists buf d', rt_i2c_transfer (wr (addr_bytes a)) d = (1, buf, d') /\ ready d';
  ready_read : forall buf len d, ready d -> 0 < len ->
    exists buf' d', rt_i2c_transfer (rd buf len) d = (1, buf', d') /\ ready d'
}.

(** ** Lemmas *)

Lemma overlay_ext a l m m' x : m x = m' x -> overlay a l m x = overlay a l m' x.
Proof. intros E. unfold overlay. by rewrite E. Qed.

Lemma overlay_app a l1 l2 m x :
  overlay (a + Z.of_nat (length l1)) l2 (overlay a l1 m) x = overlay a (l1 ++ l2) m x.
Proof.
  unfold overlay, get. rewrite length_app.
  destruct (Z.leb_spec a x), (Z.ltb_spec x (a + Z.of_nat (length l1))),
    (Z.leb_spec (a + Z.of_nat (length l1)) x),
    (Z.ltb_spec x (a + Z.of_nat (length l1) + Z.of_nat (length l2))),
    (Z.ltb_spec x (a + Z.of_nat (length l1 + length l2)%nat)); simpl; try lia; try done.
  - by rewrite app_nth1 by lia.
  - rewrite app_nth2 by lia. f_equal. lia.
Qed.

Lemma overlay_outside a l m x :
  x < a \/ a + Z.of_nat (length l) <= x -> overlay a l m x = m x.
Proof.
  intros. unfold overlay.
  destruct (Z.leb_spec a x), (Z.ltb_spec x (a + Z.of_nat (length l))); simpl; done || lia.
Qed.

Lemma overlay_nil a m x : overlay a [] m x = m x.
Proof. apply overlay_outside. simpl. lia. Qed.

Lemma length_window m a n : length (window m a n) = n.
Proof. unfold window. by rewrite length_map, length_seq. Qed.

Lemma window_ext m m' a n :
  (forall x, a <= x < a + Z.of_nat n -> m x = m' x) -> window m a n = window m' a n.
Proof.
  intros Hm. unfold window. apply map_ext_in. intros i [_ Hi]%in_seq. apply Hm. lia.
Qed.

Lemma window_overlay a l m : window (overlay a l m) a (length l) = l.
Proof.
  apply list_eq. intros i. unfold window. rewrite list_lookup_fmap.
  destruct (decide (i < length l)%nat) as [Hi|Hi].
  - rewrite lookup_seq_lt by done. simpl. unfold overlay, get.
    destruct (Z.leb_spec a (a + Z.of_nat i)), (Z.ltb_spec (a + Z.of_nat i) (a + Z.of_nat (length l)));
      simpl; try lia.
    replace (Z.to_nat (a + Z.of_nat i - a)) with i by lia.
    destruct (lookup_lt_is_Some_2 l i Hi) as [x Hx]. by rewrite Hx, (nth_lookup_Some l i 0 x Hx).
  - rewrite lookup_seq_ge, lookup_ge_None_2 by lia. done.
Qed.

Lemma window_overlay_disjoint a l m b n :
  b + Z.of_nat n <= a \/ a + Z.of_nat (length l) <= b ->
  window (overlay a l m) b n = window m b n.
Proof. intros. apply window_ext. intros x Hx. apply overlay_outside. lia. Qed.

Section Laws.
Context {D : Type} `{EepromLaws D}.

(** What a write request does: all of it, or nothing outside its range. *)
Definition written (ok : bool) (a : Z) (l : list Z) (d d' : D) : Prop :=
  if ok then forall x, cells d' x = overlay a l (cells d) x
  else forall x, x < a \/ a + Z.of_nat (length l) <= x -> cells d' x = cells d x.

Lemma write_page_spec a l len d :
  0 <= a < 2 ^ 16 -> 0 < len -> a mod 32 + len <= 32 -> len <= Z.of_nat (length l) -> Forall is_u8 l ->
  let '(ok, d') := svc_eeprom_write_page true a (Some l) len d in
  written ok a (take (Z.to_nat len) l) d d'.
Proof.
  intros Ha Hlen Hpage Hl Hb. unfold svc_eeprom_write_page, SVC_EEPROM_PAGE_SIZE.
  destruct (Z.eqb_spec len 0); [lia |]. destruct (Z.ltb_spec 32 len); [lia |]. simpl orb. cbv iota.
  set (chunk := take (Z.to_nat len) l).
  assert (Z.of_nat (length chunk) = len) as Hc by (unfold chunk; rewrite length_take; lia).
  replace (mk_i2c_msg SVC_EEPROM_I2C_ADDR_7BIT RT_I2C_WR _ (u16 (len + 2)))
    with (wr (addr_bytes a ++ chunk)).
  2:{ unfold wr. f_equal. simpl. rewrite u16_id by wraps. lia. }
  destruct (rt_i2c_transfer (wr (addr_bytes a ++ chunk)) d) as [[cnt buf] d'] eqn:E.
  apply transfer_page in E; [| done | by destruct chunk | lia | by apply Forall_take].
  destruct (cnt =? 1); simpl; intros x.
  - by rewrite delay_cells.
  - apply E.
Qed.

Lemma write_loop_spec fuel addr data offset d :
  0 <= addr -> addr + Z.of_nat (length data) <= 2 ^ 16 -> Z.of_nat (length data) < 2 ^ 16 ->
  Forall is_u8 data -> 0 <= offset <= Z.of_nat (length data) ->
  (Z.to_nat (Z.of_nat (length data) - offset) < fuel)%nat ->
  exists ok d', svc_eeprom_write_loop fuel true addr data (Z.of_nat (length data)) offset d = Some (ok, d') /\
    written ok (addr + offset) (drop (Z.to_nat offset) data) d d'.
Proof.
  intros Ha Hal Hlen Hb. revert offset d. induction fuel as [|fuel IH]; intros offset d Ho Hf; [lia |].
  cbn [svc_eeprom_write_loop]. set (len := Z.of_nat (length data)) in *.
  destruct (Z.ltb_spec offset len) as [Hlt|Hge].
  2:{ exists true, d. split; [done |]. rewrite drop_ge by lia. intros x. by rewrite overlay_nil. }
  unfold SVC_EEPROM_PAGE_SIZE. cbv zeta. rewrite (u16_id (addr + offset)) by wraps.
  rewrite (u16_id (32 - _)), (u16_id (len - offset)) by wraps.
  set (wl := if _ <? _ then _ else _).
  assert (0 < wl <= len - offset /\ (addr + offset) mod 32 + wl <= 32) as [Hwl Hp]
    by (unfold wl; case_match; bool_hyps; lia).
  rewrite (u16_id (offset + wl)) by wraps.
  set (rest := drop (Z.to_nat offset) data).
  assert (Z.of_nat (length rest) = len - offset) as Hrest by (unfold rest; rewrite length_drop; lia).
  pose proof (write_page_spec (addr + offset) rest wl d ltac:(lia) ltac:(lia) Hp ltac:(lia)
                (Forall_drop _ _ _ Hb)) as Hw.
  destruct (svc_eeprom_write_page _ _ _ _ d) as [ok d1].
  assert (Z.of_nat (length (take (Z.to_nat wl) rest)) = wl) as Htk by (rewrite length_take; lia).
  destruct ok; cbn [negb] in *.
  2:{ exists false, d1. split; [done |]. intros x Hx. apply Hw. lia. }
  destruct (IH (offset + wl) d1) as (ok & d' & E & Hr); [lia | lia |].
  exists ok, d'. split; [done |].
  assert (drop (Z.to_nat (offset + wl)) data = drop (Z.to_nat wl) rest) as Hd
    by (unfold rest; rewrite drop_drop; f_equal; lia).
  rewrite Hd in Hr. destruct ok; cbn [written] in *; intros x.
  - rewrite Hr. rewrite <- (take_drop (Z.to_nat wl) rest) at 2. rewrite <- overlay_app, Htk.
    rewrite Z.add_assoc. by apply overlay_ext.
  - intros Hx. rewrite Hr by (rewrite length_drop; lia). rewrite Hw. apply overlay_outside. lia.
Qed.

Lemma eeprom_write_spec a l d :
  0 <= a -> a + Z.of_nat (length l) <= 2 ^ 16 -> Z.of_nat (length l) < 2 ^ 16 -> l <> [] -> Forall is_u8 l ->
  exists ok d', svc_eeprom_write true a (Some l) (Z.of_nat (length l)) d = Some (ok, d') /\
    written ok a l d d'.
Proof.
  intros Ha Hal Hl Hne Hb. unfold svc_eeprom_write.
  destruct (Z.eqb_spec (Z.of_nat (length l)) 0); [destruct l; [done | simpl in *; lia] |].
  destruct (write_loop_spec (S (Z.to_nat (Z.of_nat (length l)))) a l 0 d) as (ok & d' & E & Hw);
    [done.. | lia | lia |].
  exists ok, d'. by rewrite Z.add_0_r, drop_0 in Hw.
Qed.

Lemma eeprom_read_spec a buf len d :
  0 <= a < 2 ^ 16 -> 0 < len < 2 ^ 16 ->
  let '(ok, buf', d') := svc_eeprom_read true a (Some buf) len d in
  (forall x, cells d' x = cells d x) /\
  (ok = true -> buf' = Some (window (cells d) a (Z.to_nat len))).
Proof.
  intros Ha Hlen. unfold svc_eeprom_read. destruct (Z.eqb_spec len 0); [lia |]. simpl orb. cbv iota.
  change (mk_i2c_msg SVC_EEPROM_I2C_ADDR_7BIT RT_I2C_WR _ 2) with (wr (addr_bytes a)).
  destruct (rt_i2c_transfer (wr (addr_bytes a)) d) as [[n1 b1] d1] eqn:E1.
  apply transfer_address in E1 as [Hc1 Hp1]; [| done].
  destruct (Z.eqb_spec n1 1); simpl; [| done].
  change (mk_i2c_msg SVC_EEPROM_I2C_ADDR_7BIT RT_I2C_RD buf len) with (rd buf len).
  destruct (rt_i2c_transfer (rd buf len) d1) as [[n2 b2] d2] eqn:E2.
  apply transfer_read in E2 as [Hc2 Hr2]; [| done].
  split; [intros x; by rewrite Hc2 |]. intros Hok%Z.eqb_eq. rewrite Hr2, Hp1 by done.
  f_equal. apply window_ext. auto.
Qed.
End Laws.

Section Ready.
Context {D : Type} `{EepromReady D}.

Lemma write_page_ready a l len d :
  ready d -> 0 < len <= 32 -> len <= Z.of_nat (length l) ->
  let '(ok, d') := svc_eeprom_write_page true a (Some l) len d in ok = true /\ ready d'.
Proof.
  intros Hr Hlen Hl. unfold svc_eeprom_write_page, SVC_EEPROM_PAGE_SIZE.
  destruct (Z.eqb_spec len 0); [lia |]. destruct (Z.ltb_spec 32 len); [lia |]. simpl orb. cbv iota.
  set (chunk := take (Z.to_nat len) l).
  assert (Z.of_nat (length chunk) = len) as Hc by (unfold chunk; rewrite length_take; lia).
  replace (mk_i2c_msg SVC_EEPROM_I2C_ADDR_7BIT RT_I2C_WR _ (u16 (len + 2)))
    with (wr (addr_bytes a ++ chunk)).
  2:{ unfold wr. f_equal. simpl. rewrite u16_id by wraps. lia. }
  destruct (ready_page a chunk d Hr) as (buf & d' & -> & Hr');
    [intros ->; simpl in Hc; lia | lia | done].
Qed.

Lemma write_loop_ready fuel addr data offset d ok d' :
  ready d -> 0 <= addr -> addr + Z.of_nat (length data) <= 2 ^ 16 -> Z.of_nat (length data) < 2 ^ 16 ->
  0 <= offset <= Z.of_nat (length data) ->
  svc_eeprom_write_loop fuel true addr data (Z.of_nat (length data)) offset d = Some (ok, d') ->
  ok = true /\ ready d'.
Proof.
  intros Hr Ha Hal Hlen. revert offset d Hr. induction fuel as [|fuel IH]; intros offset d Hr Ho; [done |].
  cbn [svc_eeprom_write_loop]. set (len := Z.of_nat (length data)) in *.
  destruct (Z.ltb_spec offset len) as [Hlt|Hge]; [| by intros [= <- <-]].
  unfold SVC_EEPROM_PAGE_SIZE. cbv zeta.
  rewrite (u16_id (32 - _)), (u16_id (len - offset)) by wraps.
  set (wl := if _ <? _ then _ else _).
  assert (0 < wl <= len - offset /\ wl <= 32) as [Hwl Hp] by (unfold wl; case_match; bool_hyps; lia).
  rewrite (u16_id (offset + wl)) by wraps.
  pose proof (write_page_ready (u16 (addr + offset)) (drop (Z.to_nat offset) data) wl d Hr ltac:(lia)
                ltac:(rewrite length_drop; lia)) as Hw.
  destruct (svc_eeprom_write_page _ _ _ _ d) as [ok1 d1]. destruct Hw as [-> Hr1]. cbn [negb].
  apply IH; [done | lia].
Qed.

Lemma eeprom_write_ready a l d ok d' :
  ready d -> 0 <= a -> a + Z.of_nat (length l) <= 2 ^ 16 -> Z.of_nat (length l) < 2 ^ 16 -> l <> [] ->
  svc_eeprom_write true a (Some l) (Z.of_nat (length l)) d = Some (ok, d') -> ok = true /\ ready d'.
Proof.
  intros Hr Ha Hal Hl Hne. unfold svc_eeprom_write.
  destruct (Z.eqb_spec (Z.of_nat (length l)) 0); [destruct l; [done | simpl in *; lia] |].
  apply write_loop_ready; done || lia.
Qed.

Lemma eeprom_read_ready a buf len d :
  ready d -> 0 < len ->
  let '(ok, _, d') := svc_eeprom_read true a (Some buf) len d in ok = true /\ ready d'.
Proof.
  intros Hr Hlen. unfold svc_eeprom_read. destruct (Z.eqb_spec len 0); [lia |]. simpl orb. cbv iota.
  change (mk_i2c_msg SVC_EEPROM_I2C_ADDR_7BIT RT_I2C_WR _ 2) with (wr (addr_bytes a)).
  destruct (ready_address a d Hr) as (b1 & d1 & -> & Hr1). simpl.
  change (mk_i2c_msg SVC_EEPROM_I2C_ADDR_7BIT RT_I2C_RD buf len) with (rd buf len).
  by destruct (ready_read buf len d1 Hr1 Hlen) as (b2 & d2 & -> & Hr2).
Qed.
End Ready.

(** ** A chip

    A 64 KiB serial EEPROM with 32-byte pages: a page write wraps inside its
    page and keeps the chip busy for 5 ms, during which it does not answer. *)
Module Chip.
Record chip := mk_chip { mem : Z -> Z; ptr : Z; busy : Z }.

(** Address of byte [i] of a page write from [a]. *)
Definition page_addr (a : Z) (i : nat) : Z := a / 32 * 32 + (a + Z.of_nat i) mod 32.

Fixpoint store (a : Z) (i : nat) (l : list Z) (m : Z -> Z) : Z -> Z :=
  match l with
  | [] => m
  | b :: l => store a (S i) l (fun x => if x =? page_addr a i then b else m x)
  end.

Definition transfer (msg : rt_i2c_msg) (d : chip) : Z * list Z * chip :=
  if negb (i2c_addr msg =? SVC_EEPROM_I2C_ADDR_7BIT) || (0 <? busy d) then (-1, i2c_buf msg, d)
  else match i2c_flag msg, i2c_buf msg with
  | RT_I2C_WR, [hi; lo] => (1, i2c_buf msg, mk_chip (mem d) (256 * hi + lo) 0)
  | RT_I2C_WR, hi :: lo :: l =>
      (1, i2c_buf msg, mk_chip (store (256 * hi + lo) 0 l (mem d)) (256 * hi + lo) 5)
  | RT_I2C_WR, _ => (-1, i2c_buf msg, d)
  | RT_I2C_RD, _ =>
      (1, window (fun x => u8 (mem d x)) (ptr d) (Z.to_nat (i2c_len msg)), mk_chip (mem d) (ptr d + i2c_len msg) 0)
  end.

#[global] Instance chip_bus : I2cBus chip := {
  rt_i2c_transfer := transfer;
  rt_thread_mdelay ms d := mk_chip (mem d) (ptr d) (Z.max 0 (busy d - ms))
}.

Lemma addr_value a : 0 <= a < 2 ^ 16 -> 256 * u8 (Z.shiftr a 8) + u8 (Z.land a 255) = a.
Proof.
  intros Ha. rewrite Z.shiftr_div_pow2 by lia. change 255 with (Z.ones 8).
  rewrite Z.land_ones by lia. wraps.
Qed.

Lemma page_addr_in a i : a mod 32 + Z.of_nat i < 32 -> page_addr a i = a + Z.of_nat i.
Proof. unfold page_addr. lia. Qed.

Lemma store_overlay a i l m x :
  a mod 32 + Z.of_nat i + Z.of_nat (length l) <= 32 ->
  store a i l m x = overlay (a + Z.of_nat i) l m x.
Proof.
  revert i m. induction l as [|b l IH]; intros i m Hl; simpl length in *; simpl store.
  - by rewrite overlay_nil.
  - rewrite IH by lia. change (b :: l) with ([b] ++ l). rewrite <- overlay_app. simpl length.
    replace (a + Z.of_nat (S i)) with (a + Z.of_nat i + Z.of_nat 1) by lia.
    apply overlay_ext. rewrite page_addr_in by lia. unfold overlay, get. simpl length.
    destruct (Z.eqb_spec x (a + Z.of_nat i)) as [Hx|],
      (Z.leb_spec (a + Z.of_nat i) x), (Z.ltb_spec x (a + Z.of_nat i + Z.of_nat 1)); simpl; try lia; try done.
    by replace (Z.to_nat (x - (a + Z.of_nat i))) with 0%nat by lia.
Qed.

Lemma u8_overlay a l m x :
  Forall is_u8 l -> u8 (overlay a l m x) = overlay a l (fun x => u8 (m x)) x.
Proof.
  intros Hl. unfold overlay. case_match; [| done]. bool_hyps. apply u8_id. unfold get.
  destruct (lookup_lt_is_Some_2 l (Z.to_nat (x - a))) as [b Hb]; [lia |].
  rewrite (nth_lookup_Some _ _ _ _ Hb). by eapply Forall_lookup_1.
Qed.

#[global] Instance chip_laws : EepromLaws chip.
Proof.
  refine {| cells := fun d x => u8 (mem d x); word_address := ptr |}.
  - intros a l d n buf d' Ha Hne Hp Hb. cbn. unfold transfer. cbn [i2c_addr i2c_flag i2c_buf wr addr_bytes app].
    destruct (_ || _); [intros [= <- <- <-]; done |].
    destruct l as [|b l]; [done |]. intros [= <- <- <-]. cbn [Z.eqb mem]. intros x.
    rewrite addr_value by done.
    pose proof (store_overlay a 0 (b :: l) (mem d) x ltac:(cbn [length] in *; lia)) as Hst.
    rewrite Z.add_0_r in Hst. change (u8 (store a 0 (b :: l) (mem d) x) = overlay a (b :: l) (fun x => u8 (mem d x)) x).
    rewrite Hst. by apply u8_overlay.
  - intros a d n buf d' Ha. cbn. unfold transfer. cbn [i2c_addr i2c_flag i2c_buf wr addr_bytes app].
    destruct (_ || _); intros [= <- <- <-]; [done |]. split; [done |]. intros _. by apply addr_value.
  - intros buf len d n buf' d' Hlen. cbn. unfold transfer. cbn [i2c_addr i2c_flag i2c_buf rd i2c_len].
    destruct (_ || _); intros [= <- <- <-]; done.
  - done.
  - intros d x. apply u8_range.
Defined.

#[global] Instance chip_ready : EepromReady chip.
Proof.
  refine {| ready := fun d => busy d = 0 |}.
  - intros a l d Hr Hne Hl. cbn. unfold transfer. cbn [i2c_addr i2c_flag i2c_buf wr addr_bytes app].
    rewrite Hr. simpl. destruct l as [|b l]; [done |]. by eexists _, _.
  - intros a d Hr. cbn. unfold transfer. cbn [i2c_addr i2c_flag i2c_buf wr addr_bytes app].
    rewrite Hr. simpl. by eexists _, _.
  - intros buf len d Hr Hlen. cbn. unfold transfer. cbn [i2c_addr i2c_flag i2c_buf rd i2c_len].
    rewrite Hr. simpl. by eexists _, _.
Defined.

(** Erased. *)
Definition blank : chip := mk_chip (fun _ => 255) 0 0.
End Chip.

(** ** Properties *)

(** C19: A write request of any length that fits the address space finishes,
    and on a chip with 32-byte pages has the effect of one flat write of its
    bytes: complete when it reports success, and nothing outside its range
    when it reports failure; on a chip that is ready it succeeds and leaves
    the chip ready. *)
Theorem eeprom_write_is_flat {D} `{EepromReady D} a l (d : D) :
  0 <= a -> a + Z.of_nat (length l) <= 2 ^ 16 -> Z.of_nat (length l) < 2 ^ 16 -> l <> [] -> Forall is_u8 l ->
  exists ok d', svc_eeprom_write true a (Some l) (Z.of_nat (length l)) d = Some (ok, d') /\
    written ok a l d d' /\ (ready d -> ok = true /\ ready d').
Proof.
  intros. destruct (eeprom_write_spec a l d) as (ok & d' & E & Hw); [done.. |].
  exists ok, d'. split_and!; [done | done |]. intros Hr. by eapply eeprom_write_ready.
Qed.

Lemma eeprom_write_is_flat_witness :
  exists ok d', svc_eeprom_write true 0x40 (Some (map Z.of_nat (seq 1 36))) 36 Chip.blank = Some (ok, d') /\
    written ok 0x40 (map Z.of_nat (seq 1 36)) Chip.blank d' /\ (ready Chip.blank -> ok = true /\ ready d').
Proof.
  refine (eeprom_write_is_flat 0x40 (map Z.of_nat (seq 1 36)) Chip.blank _ _ _ _ _).
  - done.
  - by vm_compute.
  - by vm_compute.
  - done.
  - repeat constructor; by vm_compute.
Defined.
