(* ===== verification/Storage.v ===== *)
(** * Persistent records ([svc_storage.c], second part)

    The five records kept in the EEPROM (mileage, configuration, VIN, province
    and city code): their byte layout, checksum, validity checks, and the load
    and save operations, including the single-field operations that read,
    modify and write the configuration record. *)

From S2P Require Import Prelude Platform Eeprom.

(** ** Data *)

Record svc_storage_mileage_t := mk_mileage { odo_km : Z; odo_rem_m : Z; m_reserved : Z }.

Record svc_storage_plate_number_t := mk_plate {
  plate_valid : Z; province_index : Z; letter : Z; plate_digits : list Z
}.

Record svc_storage_vin_t := mk_vin { vin_valid : Z; vin_chars : list Z }.
Record svc_storage_province_id_t := mk_province_id { province_valid : Z; province_chars : list Z }.
Record svc_storage_city_id_t := mk_city_id { city_valid : Z; city_chars : list Z }.

Record svc_storage_config_t := mk_config {
  local_phone : list Z; plate_class : Z; plate_color : Z; plate_number : svc_storage_plate_number_t
}.

#[export] Instance eta_config : Eta svc_storage_config_t := fun r =>
  mk_config (local_phone r) (plate_class r) (plate_color r) (plate_number r).

Definition SVC_STORAGE_PLATE_PROVINCE_COUNT : Z := 31.
Definition SVC_STORAGE_VIN_LEN : Z := 17.
Definition SVC_STORAGE_PROVINCE_ID_LEN : Z := 2.
Definition SVC_STORAGE_CITY_ID_LEN : Z := 4.

Definition SVC_STORAGE_MILEAGE_ADDR : Z := 0x0000.
Definition SVC_STORAGE_MAGIC : Z := 0x4D494C45.
Definition SVC_STORAGE_VERSION : Z := 1.
Definition SVC_STORAGE_CONFIG_ADDR : Z := 0x0040.
Definition SVC_STORAGE_CONFIG_MAGIC : Z := 0x434F4E46.
Definition SVC_STORAGE_CONFIG_VERSION : Z := 2.
Definition SVC_STORAGE_VIN_ADDR : Z := 0x0100.
Definition SVC_STORAGE_VIN_MAGIC : Z := 0x56494E31.
Definition SVC_STORAGE_VIN_VERSION : Z := 1.
Definition SVC_STORAGE_PROVINCE_ID_ADDR : Z := 0x0140.
Definition SVC_STORAGE_PROVINCE_ID_MAGIC : Z := 0x50524944.
Definition SVC_STORAGE_PROVINCE_ID_VERSION : Z := 1.
Definition SVC_STORAGE_CITY_ID_ADDR : Z := 0x0180.
Definition SVC_STORAGE_CITY_ID_MAGIC : Z := 0x43495459.
Definition SVC_STORAGE_CITY_ID_VERSION : Z := 1.

(** A record is a header, the payload, reserved and padding bytes, and a
    checksum; the payload type fixes the layout.  [pay_size] and [pad_size]
    follow the RV32 ABI (the checksum is 4-byte aligned). *)
Class Payload (P : Type) := {
  pay_size : nat;
  pad_size : nat;
  enc : P -> list Z;
  dec : list Z -> P
}.

Record record (P : Type) := mk_record {
  magic : Z; version : Z; rec_length : Z; payload : P; padding : list Z; checksum : Z
}.
Arguments mk_record {P}. Arguments magic {P}. Arguments version {P}.
Arguments rec_length {P}. Arguments payload {P}. Arguments padding {P}. Arguments checksum {P}.

#[export] Instance mileage_payload : Payload svc_storage_mileage_t := {
  pay_size := 8; pad_size := 0;
  enc m := to_le 4 (odo_km m) ++ to_le 2 (odo_rem_m m) ++ to_le 2 (m_reserved m);
  dec l := mk_mileage (of_le (slice 0 4 l)) (of_le (slice 4 2 l)) (of_le (slice 6 2 l))
}.

Definition enc_plate (p : svc_storage_plate_number_t) : list Z :=
  [plate_valid p; province_index p; letter p] ++ plate_digits p.
Definition dec_plate (l : list Z) : svc_storage_plate_number_t :=
  mk_plate (get l 0) (get l 1) (get l 2) (slice 3 6 l).

(** [reserved[2]] and three bytes of padding before the checksum. *)
#[export] Instance config_payload : Payload svc_storage_config_t := {
  pay_size := 23; pad_size := 5;
  enc c := local_phone c ++ [plate_class c; plate_color c] ++ enc_plate (plate_number c);
  dec l := mk_config (slice 0 12 l) (get l 12) (get l 13) (dec_plate (slice 14 9 l))
}.

#[export] Instance vin_payload : Payload svc_storage_vin_t := {
  pay_size := 19; pad_size := 1;
  enc v := vin_valid v :: vin_chars v;
  dec l := mk_vin (get l 0) (slice 1 18 l)
}.

#[export] Instance province_payload : Payload svc_storage_province_id_t := {
  pay_size := 4; pad_size := 0;
  enc v := province_valid v :: province_chars v;
  dec l := mk_province_id (get l 0) (slice 1 3 l)
}.

#[export] Instance city_payload : Payload svc_storage_city_id_t := {
  pay_size := 6; pad_size := 2;
  enc v := city_valid v :: city_chars v;
  dec l := mk_city_id (get l 0) (slice 1 5 l)
}.

Definition svc_storage_mileage_record_t := record svc_storage_mileage_t.
Definition svc_storage_config_record_t := record svc_storage_config_t.
Definition svc_storage_vin_record_t := record svc_storage_vin_t.
Definition svc_storage_province_id_record_t := record svc_storage_province_id_t.
Definition svc_storage_city_id_record_t := record svc_storage_city_id_t.

(** The bytes of a record in memory, and the record in given bytes. *)
Definition sizeof (P : Type) `{Payload P} : nat := 8 + pay_size + pad_size + 4.

Definition to_bytes {P} `{Payload P} (r : record P) : list Z :=
  to_le 4 (magic r) ++ to_le 2 (version r) ++ to_le 2 (rec_length r) ++ enc (payload r) ++
  padding r ++ to_le 4 (checksum r).

Definition of_bytes {P} `{Payload P} (l : list Z) : record P :=
  mk_record (of_le (slice 0 4 l)) (of_le (slice 4 2 l)) (of_le (slice 6 2 l))
    (dec (slice 8 pay_size l)) (slice (8 + pay_size) pad_size l)
    (of_le (slice (8 + pay_size + pad_size) 4 l)).

(** ** Checksum and validity *)

Definition svc_storage_checksum (data : pointer (list Z)) (len : Z) : Z :=
  match data with
  | None => 0
  | Some data =>
      foldl (fun sum b => u32 (u32 (u32 (Z.shiftl sum 5) - sum) + b)) 0 (take (Z.to_nat len) data)
  end.

(** The checksum of a record: everything before the checksum field. *)
Definition checksum_of {P} `{Payload P} (r : record P) : Z :=
  svc_storage_checksum (Some (to_bytes r)) (Z.of_nat (sizeof P) - 4).

Definition header_ok {P} `{Payload P} (m v : Z) (r : record P) : bool :=
  (magic r =? m) && (version r =? v) && (rec_length r =? Z.of_nat (sizeof P)).

Definition is_digit (ch : Z) : bool := (48 <=? ch) && (ch <=? 57).
Definition is_upper (ch : Z) : bool := (65 <=? ch) && (ch <=? 90).

Definition svc_storage_record_is_valid (r : svc_storage_mileage_record_t) : bool :=
  header_ok SVC_STORAGE_MAGIC SVC_STORAGE_VERSION r && (checksum_of r =? checksum r).

(** The loops over a character array: all of its first [n] elements. *)
Definition chars_ok (p : Z -> bool) (n : Z) (l : list Z) : bool :=
  forallb (fun i => p (get l (Z.of_nat i))) (seq 0 (Z.to_nat n)).

Definition svc_storage_phone_digits_valid (digits : list Z) : bool :=
  chars_ok is_digit 11 digits && (get digits 11 =? 0).

Definition svc_storage_plate_class_valid (c : Z) : bool := (1 <=? c) && (c <=? 5).
Definition svc_storage_plate_color_valid (c : Z) : bool := (1 <=? c) && (c <=? 5).

Definition svc_storage_plate_number_valid (p : pointer svc_storage_plate_number_t) : bool :=
  match p with
  | None => false
  | Some p =>
      if 1 <? plate_valid p then false
      else if SVC_STORAGE_PLATE_PROVINCE_COUNT <=? province_index p then false
      else if (letter p <? 65) || (90 <? letter p) then false
      else if negb (chars_ok (fun ch => is_digit ch || is_upper ch) 5 (plate_digits p)) then false
      else get (plate_digits p) 5 =? 0
  end.

Definition svc_storage_vin_valid (v : pointer svc_storage_vin_t) : bool :=
  match v with
  | None => false
  | Some v =>
      if 1 <? vin_valid v then false
      else if negb (get (vin_chars v) SVC_STORAGE_VIN_LEN =? 0) then false
      else if vin_valid v =? 0 then true
      else chars_ok (fun ch => is_digit ch || is_upper ch) SVC_STORAGE_VIN_LEN (vin_chars v)
  end.

Definition svc_storage_province_id_valid (v : pointer svc_storage_province_id_t) : bool :=
  match v with
  | None => false
  | Some v =>
      if 1 <? province_valid v then false
      else if negb (get (province_chars v) SVC_STORAGE_PROVINCE_ID_LEN =? 0) then false
      else if province_valid v =? 0 then true
      else chars_ok is_digit SVC_STORAGE_PROVINCE_ID_LEN (province_chars v)
  end.

Definition svc_storage_city_id_valid (v : pointer svc_storage_city_id_t) : bool :=
  match v with
  | None => false
  | Some v =>
      if 1 <? city_valid v then false
      else if negb (get (city_chars v) SVC_STORAGE_CITY_ID_LEN =? 0) then false
      else if city_valid v =? 0 then true
      else chars_ok is_digit SVC_STORAGE_CITY_ID_LEN (city_chars v)
  end.

Definition svc_storage_vin_record_is_valid (r : svc_storage_vin_record_t) : bool :=
  if negb (header_ok SVC_STORAGE_VIN_MAGIC SVC_STORAGE_VIN_VERSION r) then false
  else if negb (svc_storage_vin_valid (Some (payload r))) then false
  else checksum_of r =? checksum r.

Definition svc_storage_province_id_record_is_valid (r : svc_storage_province_id_record_t) : bool :=
  if negb (header_ok SVC_STORAGE_PROVINCE_ID_MAGIC SVC_STORAGE_PROVINCE_ID_VERSION r) then false
  else if negb (svc_storage_province_id_valid (Some (payload r))) then false
  else checksum_of r =? checksum r.

Definition svc_storage_city_id_record_is_valid (r : svc_storage_city_id_record_t) : bool :=
  if negb (header_ok SVC_STORAGE_CITY_ID_MAGIC SVC_STORAGE_CITY_ID_VERSION r) then false
  else if negb (svc_storage_city_id_valid (Some (payload r))) then false
  else checksum_of r =? checksum r.

Definition svc_storage_config_record_is_valid (r : svc_storage_config_record_t) : bool :=
  if negb (header_ok SVC_STORAGE_CONFIG_MAGIC SVC_STORAGE_CONFIG_VERSION r) then false
  else if negb (svc_storage_phone_digits_valid (local_phone (payload r))) then false
  else if negb (svc_storage_plate_class_valid (plate_class (payload r))) then false
  else if negb (svc_storage_plate_color_valid (plate_color (payload r))) then false
  else if negb (svc_storage_plate_number_valid (Some (plate_number (payload r)))) then false
  else checksum_of r =? checksum r.

(** The record of a save: zeroed, header, payload, checksum. *)
Definition fresh_record {P} `{Payload P} (m v : Z) (p : P) : record P :=
  let r := mk_record m v (Z.of_nat (sizeof P)) p (zeros pad_size) 0 in
  mk_record m v (Z.of_nat (sizeof P)) p (zeros pad_size) (checksum_of r).

Definition g_default_config : svc_storage_config_t :=
  mk_config (replicate 11 48 ++ [0]) 1 1 (mk_plate 0 0 65 (replicate 5 48 ++ [0])).

(** ** Operations *)

Record storage (D : Type) := mk_storage {
  g_eeprom_i2c_bus : bool;
  g_storage_mileage_shadow : svc_storage_mileage_t;
  eeprom : D
}.
Arguments mk_storage {D}. Arguments g_eeprom_i2c_bus {D}.
Arguments g_storage_mileage_shadow {D}. Arguments eeprom {D}.

#[export] Instance eta_storage D : Eta (storage D) := fun r =>
  mk_storage (g_eeprom_i2c_bus r) (g_storage_mileage_shadow r) (eeprom r).

Section Ops.
Context {D : Type} `{I2cBus D}.

(** [svc_storage_init]: [found] tells whether the I2C device exists. *)
Definition svc_storage_init (found : bool) (st : storage D) : Z * storage D :=
  let st := st <| g_eeprom_i2c_bus := found |> in
  if negb found then (- RT_ERROR, st) else (RT_EOK, st).

(** The record written at an address, and the record read from it. *)
Definition write_record {P} `{Payload P} (addr : Z) (r : record P) (st : storage D) : bool * storage D :=
  match svc_eeprom_write (g_eeprom_i2c_bus st) addr (Some (to_bytes r)) (Z.of_nat (sizeof P)) (eeprom st) with
  | Some (ok, d) => (ok, st <| eeprom := d |>)
  | None => (false, st)
  end.

Definition read_record {P} `{Payload P} (addr : Z) (st : storage D) : bool * record P * storage D :=
  let '(ok, buf, d) := svc_eeprom_read (g_eeprom_i2c_bus st) addr (Some (zeros (sizeof P)))
                         (Z.of_nat (sizeof P)) (eeprom st) in
  (ok, of_bytes (default [] buf), st <| eeprom := d |>).

(** Load of a record with its validity check, as the condition
    [bus == NULL || read != TRUE || !valid] of the loaders evaluates it. *)
Definition fetch {P} `{Payload P} (addr : Z) (valid : record P -> bool) (st : storage D)
    : pointer (record P) * storage D :=
  if negb (g_eeprom_i2c_bus st) then (None, st)
  else
    let '(ok, r, st) := read_record addr st in
    if negb ok then (None, st) else if negb (valid r) then (None, st) else (Some r, st).

(** Write, read back and check, as every saver ends. *)
Definition commit {P} `{Payload P} (addr : Z) (valid : record P -> bool) (r : record P) (st : storage D)
    : bool * storage D :=
  let '(ok, st) := write_record addr r st in
  if negb ok then (false, st)
  else
    let '(ok, verify, st) := read_record addr st in
    if negb ok then (false, st) else (valid verify, st).

Definition svc_storage_load_mileage (mileage : pointer svc_storage_mileage_t) (st : storage D)
    : bool * pointer svc_storage_mileage_t * storage D :=
  match mileage with
  | None => (false, None, st)
  | Some _ =>
      let '(r, st) := fetch SVC_STORAGE_MILEAGE_ADDR svc_storage_record_is_valid st in
      let m := match r with
               | None => mk_mileage 0 0 0
               | Some r => payload r
               end in
      (true, Some m, st <| g_storage_mileage_shadow := m |>)
  end.

Definition svc_storage_save_mileage (mileage : pointer svc_storage_mileage_t) (st : storage D)
    : bool * storage D :=
  match mileage with
  | None => (false, st)
  | Some m =>
      let st := st <| g_storage_mileage_shadow := m |> in
      if negb (g_eeprom_i2c_bus st) then (false, st)
      else commit SVC_STORAGE_MILEAGE_ADDR svc_storage_record_is_valid
             (fresh_record SVC_STORAGE_MAGIC SVC_STORAGE_VERSION m) st
  end.

Definition svc_storage_config_set_default (config : pointer svc_storage_config_t)
    : pointer svc_storage_config_t :=
  match config with
  | None => None
  | Some _ => Some g_default_config
  end.

Definition svc_storage_load_config (config : pointer svc_storage_config_t) (st : storage D)
    : bool * pointer svc_storage_config_t * storage D :=
  match config with
  | None => (false, None, st)
  | Some _ =>
      match fetch SVC_STORAGE_CONFIG_ADDR svc_storage_config_record_is_valid st with
      | (None, st) => (false, svc_storage_config_set_default config, st)
      | (Some r, st) => (true, Some (payload r), st)
      end
  end.

Definition config_valid (c : svc_storage_config_t) : bool :=
  svc_storage_phone_digits_valid (local_phone c) && svc_storage_plate_class_valid (plate_class c)
  && svc_storage_plate_color_valid (plate_color c) && svc_storage_plate_number_valid (Some (plate_number c)).

Definition svc_storage_save_config (config : pointer svc_storage_config_t) (st : storage D)
    : bool * storage D :=
  match config with
  | None => (false, st)
  | Some c =>
      if negb (config_valid c) then (false, st)
      else if negb (g_eeprom_i2c_bus st) then (false, st)
      else commit SVC_STORAGE_CONFIG_ADDR svc_storage_config_record_is_valid
             (fresh_record SVC_STORAGE_CONFIG_MAGIC SVC_STORAGE_CONFIG_VERSION c) st
  end.

(** The configuration a local [svc_storage_config_t] holds after
    [(void)svc_storage_load_config(&config)]. *)
Definition loaded_config (st : storage D) : bool * svc_storage_config_t * storage D :=
  let '(ok, c, st) := svc_storage_load_config (Some g_default_config) st in
  (ok, default g_default_config c, st).

Definition svc_storage_load_local_phone (phone : pointer (list Z)) (st : storage D)
    : bool * pointer (list Z) * storage D :=
  match phone with
  | None => (false, None, st)
  | Some _ => let '(result, c, st) := loaded_config st in (result, Some (local_phone c), st)
  end.

Definition svc_storage_save_local_phone (phone : pointer (list Z)) (st : storage D) : bool * storage D :=
  match phone with
  | None => (false, st)
  | Some digits =>
      if negb (svc_storage_phone_digits_valid digits) then (false, st)
      else let '(_, c, st) := loaded_config st in
           svc_storage_save_config (Some (c <| local_phone := digits |>)) st
  end.

Definition svc_storage_load_plate_class (p : pointer Z) (st : storage D) : bool * pointer Z * storage D :=
  match p with
  | None => (false, None, st)
  | Some _ => let '(result, c, st) := loaded_config st in (result, Some (plate_class c), st)
  end.

Definition svc_storage_save_plate_class (p : pointer Z) (st : storage D) : bool * storage D :=
  match p with
  | None => (false, st)
  | Some v =>
      if negb (svc_storage_plate_class_valid v) then (false, st)
      else let '(_, c, st) := loaded_config st in
           svc_storage_save_config (Some (c <| plate_class := v |>)) st
  end.

Definition svc_storage_load_plate_color (p : pointer Z) (st : storage D) : bool * pointer Z * storage D :=
  match p with
  | None => (false, None, st)
  | Some _ => let '(result, c, st) := loaded_config st in (result, Some (plate_color c), st)
  end.

Definition svc_storage_save_plate_color (p : pointer Z) (st : storage D) : bool * storage D :=
  match p with
  | None => (false, st)
  | Some v =>
      if negb (svc_storage_plate_color_valid v) then (false, st)
      else let '(_, c, st) := loaded_config st in
           svc_storage_save_config (Some (c <| plate_color := v |>)) st
  end.

Definition svc_storage_load_plate_number (p : pointer svc_storage_plate_number_t) (st : storage D)
    : bool * pointer svc_storage_plate_number_t * storage D :=
  match p with
  | None => (false, None, st)
  | Some _ => let '(result, c, st) := loaded_config st in (result, Some (plate_number c), st)
  end.

Definition svc_storage_save_plate_number (p : pointer svc_storage_plate_number_t) (st : storage D)
    : bool * storage D :=
  if negb (svc_storage_plate_number_valid p) then (false, st)
  else match p with
  | None => (false, st)
  | Some v => let '(_, c, st) := loaded_config st in
              svc_storage_save_config (Some (c <| plate_number := v |>)) st
  end.

Definition svc_storage_load_vin (vin : pointer svc_storage_vin_t) (st : storage D)
    : bool * pointer svc_storage_vin_t * storage D :=
  match vin with
  | None => (false, None, st)
  | Some _ => match fetch SVC_STORAGE_VIN_ADDR svc_storage_vin_record_is_valid st with
              | (None, st) => (false, Some (mk_vin 0 (zeros 18)), st)
              | (Some r, st) => (true, Some (payload r), st)
              end
  end.

Definition svc_storage_save_vin (vin : pointer svc_storage_vin_t) (st : storage D) : bool * storage D :=
  if negb (svc_storage_vin_valid vin) then (false, st)
  else match vin with
  | None => (false, st)
  | Some v =>
      if negb (g_eeprom_i2c_bus st) then (false, st)
      else commit SVC_STORAGE_VIN_ADDR svc_storage_vin_record_is_valid
             (fresh_record SVC_STORAGE_VIN_MAGIC SVC_STORAGE_VIN_VERSION v) st
  end.

Definition svc_storage_load_province_id (p : pointer svc_storage_province_id_t) (st : storage D)
    : bool * pointer svc_storage_province_id_t * storage D :=
  match p with
  | None => (false, None, st)
  | Some _ => match fetch SVC_STORAGE_PROVINCE_ID_ADDR svc_storage_province_id_record_is_valid st with
              | (None, st) => (false, Some (mk_province_id 0 (zeros 3)), st)
              | (Some r, st) => (true, Some (payload r), st)
              end
  end.

Definition svc_storage_save_province_id (p : pointer svc_storage_province_id_t) (st : storage D)
    : bool * storage D :=
  if negb (svc_storage_province_id_valid p) then (false, st)
  else match p with
  | None => (false, st)
  | Some v =>
      if negb (g_eeprom_i2c_bus st) then (false, st)
      else commit SVC_STORAGE_PROVINCE_ID_ADDR svc_storage_province_id_record_is_valid
             (fresh_record SVC_STORAGE_PROVINCE_ID_MAGIC SVC_STORAGE_PROVINCE_ID_VERSION v) st
  end.

Definition svc_storage_load_city_id (p : pointer svc_storage_city_id_t) (st : storage D)
    : bool * pointer svc_storage_city_id_t * storage D :=
  match p with
  | None => (false, None, st)
  | Some _ => match fetch SVC_STORAGE_CITY_ID_ADDR svc_storage_city_id_record_is_valid st with
              | (None, st) => (false, Some (mk_city_id 0 (zeros 5)), st)
              | (Some r, st) => (true, Some (payload r), st)
              end
  end.

Definition svc_storage_save_city_id (p : pointer svc_storage_city_id_t) (st : storage D)
    : bool * storage D :=
  if negb (svc_storage_city_id_valid p) then (false, st)
  else match p with
  | None => (false, st)
  | Some v =>
      if negb (g_eeprom_i2c_bus st) then (false, st)
      else commit SVC_STORAGE_CITY_ID_ADDR svc_storage_city_id_record_is_valid
             (fresh_record SVC_STORAGE_CITY_ID_MAGIC SVC_STORAGE_CITY_ID_VERSION v) st
  end.
End Ops.
