(* ===== verification/StorageSpec.v ===== *)
(** * Specification of the persistent records

    The abstract store is one optional value per record; every save operation
    of [Storage] refines its step on the abstract store, and every load reads
    it.  Includes the layout round trips and the error detection of the
    checksum. *)

From S2P Require Import Prelude Platform Eeprom Storage.

(** ** Layout *)

Lemma slice_skip off n a b k :
  length a = k -> (k <= off)%nat -> slice off n (a ++ b) = slice (off - k) n b.
Proof. intros <- ?. by apply slice_app_r. Qed.

Lemma slice_here n a b : length a = n -> slice 0 n (a ++ b) = a.
Proof. intros <-. rewrite slice_app_l by lia. apply slice_all. Qed.

Lemma slice_end n a : length a = n -> slice 0 n a = a.
Proof. intros <-. apply slice_all. Qed.

Class PayloadLaws (P : Type) `{Payload P} := {
  wf : P -> Prop;
  length_enc : forall p, wf p -> length (enc p) = pay_size;
  bytes_enc : forall p, wf p -> Forall is_u8 (enc p);
  dec_enc : forall p, wf p -> dec (enc p) = p;
  wf_dec : forall l, length l = pay_size -> Forall is_u8 l -> wf (dec l);
  enc_dec : forall l, length l = pay_size -> Forall is_u8 l -> enc (dec l) = l
}.

Lemma slice_join off n m l : slice off n l ++ slice (off + n) m l = slice off (n + m) l.
Proof.
  unfold slice. rewrite <- (take_drop n (take (n + m) (drop off l))).
  rewrite take_take, Nat.min_l by lia. f_equal.
  rewrite <- drop_drop. by rewrite skipn_firstn_comm, Nat.add_sub_swap, Nat.sub_diag by lia.
Qed.

Lemma slice_cons i n l : (i < length l)%nat -> get l (Z.of_nat i) :: slice (S i) n l = slice i (S n) l.
Proof.
  intros Hi. unfold slice, get. rewrite Nat2Z.id. destruct (lookup_lt_is_Some_2 l i Hi) as [x Hx].
  rewrite (nth_lookup_Some _ _ _ _ Hx). by rewrite (drop_S l x i Hx).
Qed.

Lemma slice_0 n l : length l = n -> slice 0 n l = l.
Proof. intros <-. apply slice_all. Qed.

Lemma of_le_4 x : is_u32 x -> of_le (to_le 4 x) = x.
Proof. intros. apply of_le_to_le. exact H. Qed.
Lemma of_le_2 x : is_u16 x -> of_le (to_le 2 x) = x.
Proof. intros. apply of_le_to_le. exact H. Qed.

Lemma slice_bytes off n l : Forall is_u8 l -> Forall is_u8 (slice off n l).
Proof. intros. by apply Forall_take, Forall_drop. Qed.

Lemma get_byte l i : Forall is_u8 l -> is_u8 (get l i).
Proof.
  intros Hl. unfold get. rewrite nth_lookup. destruct (l !! Z.to_nat i) eqn:E; [| done].
  by eapply Forall_lookup_1.
Qed.

Lemma of_le_slice_4 off l : Forall is_u8 l -> (off + 4 <= length l)%nat -> is_u32 (of_le (slice off 4 l)).
Proof.
  intros Hl Hn. pose proof (of_le_bounds _ (slice_bytes off 4 l Hl)) as H.
  rewrite length_slice in H by done. exact H.
Qed.
Lemma of_le_slice_2 off l : Forall is_u8 l -> (off + 2 <= length l)%nat -> is_u16 (of_le (slice off 2 l)).
Proof.
  intros Hl Hn. pose proof (of_le_bounds _ (slice_bytes off 2 l Hl)) as H.
  rewrite length_slice in H by done. exact H.
Qed.

#[export] Hint Resolve slice_bytes get_byte of_le_slice_4 of_le_slice_2 to_le_bytes : dvr.
#[export] Hint Resolve Forall_cons_2 Forall_nil_2 Forall_app_2 : dvr.

#[export] Instance mileage_laws : PayloadLaws svc_storage_mileage_t.
Proof.
  refine {| wf m := is_u32 (odo_km m) /\ is_u16 (odo_rem_m m) /\ is_u16 (m_reserved m) |}.
  - intros p _. cbn [enc mileage_payload]. by autorewrite with dvr_rw.
  - intros p _. cbn [enc mileage_payload]. auto with dvr.
  - intros [a b c] (Ha & Hb & Hc). cbn [enc dec mileage_payload odo_km odo_rem_m m_reserved].
    rewrite slice_here by done. rewrite (slice_skip 4 2 (to_le 4 a) _ 4) by (done || lia).
    rewrite slice_here by done. rewrite (slice_skip 6 2 (to_le 4 a) _ 4) by (done || lia).
    rewrite (slice_skip 2 2 (to_le 2 b) _ 2) by (done || lia). rewrite slice_end by done.
    cbn [odo_km odo_rem_m m_reserved] in *. by rewrite of_le_4, !of_le_2.
  - intros l Hl Hb. simpl in *. split_and!; auto with dvr lia.
  - intros l Hl Hb. cbn [enc dec mileage_payload odo_km odo_rem_m m_reserved] in *.
    change (@pay_size _ mileage_payload) with 8%nat in Hl.
    rewrite !to_le_of_le by (rewrite ?length_slice by lia; auto with dvr).
    rewrite (slice_join 4 2 2), (slice_join 0 4 4). by apply slice_0.
Defined.

Definition wf_plate (p : svc_storage_plate_number_t) : Prop :=
  is_u8 (plate_valid p) /\ is_u8 (province_index p) /\ is_u8 (letter p) /\
  length (plate_digits p) = 6%nat /\ Forall is_u8 (plate_digits p).

Lemma dec_enc_plate p : wf_plate p -> dec_plate (enc_plate p) = p.
Proof.
  destruct p as [a b c l]. intros (_ & _ & _ & Hl & _). simpl in *.
  unfold dec_plate, enc_plate. cbn [plate_valid province_index letter plate_digits]. by rewrite (slice_skip 3 6 [a; b; c] l 3), slice_end by (done || (simpl; lia)).
Qed.

Lemma enc_dec_plate l : length l = 9%nat -> enc_plate (dec_plate l) = l.
Proof.
  intros Hl. unfold enc_plate, dec_plate. cbn [plate_valid province_index letter plate_digits app].
  rewrite (slice_cons 2 6), (slice_cons 1 7), (slice_cons 0 8) by lia. by apply slice_0.
Qed.

Lemma wf_dec_plate l : length l = 9%nat -> Forall is_u8 l -> wf_plate (dec_plate l).
Proof.
  intros Hl Hb. unfold wf_plate, dec_plate. simpl. split_and!; auto with dvr.
  rewrite length_slice; lia.
Qed.

#[export] Instance config_laws : PayloadLaws svc_storage_config_t.
Proof.
  refine {| wf c := length (local_phone c) = 12%nat /\ Forall is_u8 (local_phone c) /\
                    is_u8 (plate_class c) /\ is_u8 (plate_color c) /\ wf_plate (plate_number c) |}.
  - intros c (H1 & _ & _ & _ & _ & _ & _ & H2 & _). simpl. rewrite !length_app. simpl. lia.
  - intros c (? & ? & ? & ? & ? & ? & ? & ? & ?). simpl. unfold enc_plate. simpl. auto 10 with dvr.
  - intros [ph cl co pn] (H1 & _ & _ & _ & H2). simpl enc. simpl dec. simpl in H1, H2.
    rewrite slice_here by done. f_equal.
    + unfold get. by rewrite app_nth2 by (simpl; lia); rewrite H1.
    + unfold get. by rewrite app_nth2 by (simpl; lia); rewrite H1.
    + rewrite (slice_skip 14 9 ph _ 12) by (done || lia).
      change (cl :: co :: enc_plate pn) with ([cl; co] ++ enc_plate pn).
      rewrite (slice_skip 2 9 [cl; co] _ 2) by (done || lia).
      rewrite slice_end; [by apply dec_enc_plate |].
      destruct H2 as (_ & _ & _ & H2 & _). unfold enc_plate. simpl. by rewrite H2.
  - intros l Hl Hb. simpl in *. split_and!; auto with dvr.
    + rewrite length_slice; lia.
    + apply wf_dec_plate; [rewrite length_slice; lia | auto with dvr].
  - intros l Hl Hb. cbn [enc dec config_payload local_phone plate_class plate_color plate_number] in *.
    change (@pay_size _ config_payload) with 23%nat in Hl.
    rewrite enc_dec_plate by (rewrite length_slice; lia).
    cbn [app]. rewrite (slice_cons 13 9), (slice_cons 12 10) by lia.
    rewrite (slice_join 0 12 11). by apply slice_0.
Defined.

(** The three code records share a shape: a flag and a character array. *)
Lemma flag_chars_dec v l n : length l = n -> get (v :: l) 0 = v /\ slice 1 n (v :: l) = l.
Proof. intros. split; [done |]. change (v :: l) with ([v] ++ l). by rewrite (slice_skip 1 n [v] l 1), slice_end by (done || lia). Qed.

Ltac flag_chars_laws :=
  first [ by intros [? ?] (? & ? & ?); simpl in *; auto with dvr
        | intros [v l] (? & Hl & ?); simpl in *; by destruct (flag_chars_dec v l _ Hl) as [-> ->]
        | intros l Hl Hb; simpl in *; split_and!; auto with dvr; rewrite length_slice; lia
        | intros l Hl _; cbn [enc dec vin_payload province_payload city_payload vin_valid vin_chars
            province_valid province_chars city_valid city_chars];
          rewrite (slice_cons 0) by (simpl in Hl; lia); by apply slice_0 ].

#[export] Instance vin_laws : PayloadLaws svc_storage_vin_t.
Proof.
  refine {| wf v := is_u8 (vin_valid v) /\ length (vin_chars v) = 18%nat /\ Forall is_u8 (vin_chars v) |};
    flag_chars_laws.
Defined.

#[export] Instance province_laws : PayloadLaws svc_storage_province_id_t.
Proof.
  refine {| wf v := is_u8 (province_valid v) /\ length (province_chars v) = 3%nat /\ Forall is_u8 (province_chars v) |};
    flag_chars_laws.
Defined.

#[export] Instance city_laws : PayloadLaws svc_storage_city_id_t.
Proof.
  refine {| wf v := is_u8 (city_valid v) /\ length (city_chars v) = 5%nat /\ Forall is_u8 (city_chars v) |};
    flag_chars_laws.
Defined.

Section Records.
Context {P : Type} `{PayloadLaws P}.

Definition wf_record (r : record P) : Prop :=
  is_u32 (magic r) /\ is_u16 (version r) /\ is_u16 (rec_length r) /\ wf (payload r) /\
  length (padding r) = pad_size /\ Forall is_u8 (padding r) /\ is_u32 (checksum r).

(** The part of the record the checksum covers. *)
Definition body (r : record P) : list Z :=
  to_le 4 (magic r) ++ to_le 2 (version r) ++ to_le 2 (rec_length r) ++ enc (payload r) ++ padding r.

Lemma to_bytes_body r : to_bytes r = body r ++ to_le 4 (checksum r).
Proof. unfold to_bytes, body. by rewrite <- !app_assoc. Qed.

Lemma length_body r :
  wf (payload r) -> length (padding r) = pad_size -> length (body r) = (8 + pay_size + pad_size)%nat.
Proof.
  intros Hp Hd. unfold body. autorewrite with dvr_rw. rewrite length_enc by done. lia.
Qed.

Lemma length_to_bytes r : wf (payload r) -> length (padding r) = pad_size -> length (to_bytes r) = sizeof P.
Proof.
  intros Hp Hd. rewrite to_bytes_body, length_app, length_body, length_to_le by done.
  unfold sizeof. lia.
Qed.

Lemma bytes_to_bytes r : wf (payload r) -> Forall is_u8 (padding r) -> Forall is_u8 (to_bytes r).
Proof. intros. unfold to_bytes. pose proof (bytes_enc _ H1). auto 10 with dvr. Qed.

Lemma checksum_of_body r :
  wf (payload r) -> length (padding r) = pad_size ->
  checksum_of r = svc_storage_checksum (Some (body r)) (Z.of_nat (length (body r))).
Proof.
  intros Hp Hd. unfold checksum_of, svc_storage_checksum.
  replace (Z.of_nat (sizeof P) - 4) with (Z.of_nat (length (body r)))
    by (rewrite length_body by done; unfold sizeof; lia).
  rewrite Nat2Z.id, to_bytes_body, take_app_length. by rewrite take_ge by lia.
Qed.

Lemma checksum_range l len : 0 <= svc_storage_checksum (Some l) len < 2 ^ 32.
Proof.
  unfold svc_storage_checksum. set (k := take _ _). clearbody k.
  assert (forall s, 0 <= s < 2 ^ 32 ->
    0 <= foldl (fun sum b => u32 (u32 (u32 (Z.shiftl sum 5) - sum) + b)) s k < 2 ^ 32) as Hk.
  { induction k as [|b k IH]; intros s Hs; [done |]. apply IH, u32_range. }
  by apply Hk.
Qed.

Lemma of_bytes_to_bytes r : wf_record r -> of_bytes (to_bytes r) = r.
Proof.
  destruct r as [m v n p pd cs]. intros (Hm & Hv & Hn & Hp & Hpl & _ & Hcs). simpl in *.
  pose proof (length_enc p Hp) as Hle.
  unfold of_bytes, to_bytes. cbn [magic version rec_length payload padding checksum].
  rewrite slice_here by done.
  rewrite !(slice_skip _ _ (to_le 4 m) _ 4) by (rewrite ?length_to_le; lia).
  replace (6 - 4)%nat with 2%nat by lia. replace (4 - 4)%nat with 0%nat by lia.
  rewrite slice_here by done.
  rewrite !(slice_skip _ _ (to_le 2 v) _ 2) by (rewrite ?length_to_le; lia).
  replace (2 - 2)%nat with 0%nat by lia. rewrite slice_here by done.
  rewrite !(slice_skip _ _ (to_le 2 n) _ 2) by (rewrite ?length_to_le; lia).
  replace (8 - 4 - 2 - 2)%nat with 0%nat by lia. rewrite slice_here by done.
  rewrite !(slice_skip _ _ (enc p) _ pay_size) by (done || lia).
  replace (8 + pay_size - 4 - 2 - 2 - pay_size)%nat with 0%nat by lia. rewrite slice_here by done.
  rewrite (slice_skip _ _ pd _ pad_size) by (done || lia).
  replace (8 + pay_size + pad_size - 4 - 2 - 2 - pay_size - pad_size)%nat with 0%nat by lia.
  rewrite slice_end by done.
  by rewrite !of_le_4, !of_le_2, dec_enc.
Qed.

Lemma wf_of_bytes l : length l = sizeof P -> Forall is_u8 l -> wf_record (of_bytes l).
Proof.
  unfold sizeof, wf_record, of_bytes. intros Hl Hb. simpl. split_and!; auto with dvr lia.
  - apply wf_dec; [apply length_slice; lia | auto with dvr].
  - apply length_slice. lia.
Qed.

Lemma to_bytes_of_bytes l : length l = sizeof P -> Forall is_u8 l -> to_bytes (of_bytes l) = l.
Proof.
  unfold sizeof. intros Hl Hb. unfold to_bytes, of_bytes.
  cbn [magic version rec_length payload padding checksum].
  rewrite !to_le_of_le by (rewrite ?length_slice by lia; auto with dvr).
  rewrite enc_dec by (rewrite ?length_slice by lia; auto with dvr).
  rewrite (slice_join (8 + pay_size) pad_size 4), (slice_join 8 pay_size), (slice_join 6 2), (slice_join 4 2),
    (slice_join 0 4).
  apply slice_0. lia.
Qed.

Lemma fresh_record_wf m v p : is_u32 m -> is_u16 v -> Z.of_nat (sizeof P) < 2 ^ 16 -> wf p ->
  wf_record (fresh_record m v p).
Proof.
  intros Hm Hv Hs Hp. unfold wf_record, fresh_record.
  cbn [magic version rec_length payload padding checksum]. split_and?; try done.
  - apply length_replicate.
  - by apply Forall_replicate.
  - apply checksum_range.
Qed.

(** The checksum and header of a record built by a save are right. *)
Lemma fresh_record_ok m v p :
  wf p -> header_ok m v (fresh_record m v p) = true /\
  (checksum_of (fresh_record m v p) =? checksum (fresh_record m v p)) = true.
Proof.
  intros Hp. unfold header_ok, fresh_record. cbn [magic version rec_length checksum]. rewrite !Z.eqb_refl. split; [done |].
  apply Z.eqb_eq.
  rewrite !checksum_of_body by (done || apply length_replicate). done.
Qed.
End Records.

(** ** Access to one record *)

Section Access.
Context {D : Type} `{EepromReady D}.
Context {P : Type} `{PayloadLaws P}.

(** What the EEPROM holds at the address of a record. *)
Definition slot (addr : Z) (valid : record P -> bool) (d : D) : option P :=
  let r := of_bytes (window (cells d) addr (sizeof P)) in
  if valid r then Some (payload r) else None.

Context (addr : Z) (valid : record P -> bool).
Context (Haddr : 0 <= addr) (Hfit : addr + Z.of_nat (sizeof P) <= 2 ^ 16) (Hsize : Z.of_nat (sizeof P) < 2 ^ 16).

Lemma read_record_spec st :
  g_eeprom_i2c_bus st = true ->
  let '(ok, r, st') := read_record addr st in
  g_eeprom_i2c_bus st' = true /\ g_storage_mileage_shadow st' = g_storage_mileage_shadow st /\
  (forall x, cells (eeprom st') x = cells (eeprom st) x) /\
  (ok = true -> r = of_bytes (window (cells (eeprom st)) addr (sizeof P))) /\
  (ready (eeprom st) -> ok = true /\ ready (eeprom st')).
Proof.
  intros Hb. unfold read_record. rewrite Hb.
  assert (0 < Z.of_nat (sizeof P)) as Hpos by (unfold sizeof; lia).
  pose proof (eeprom_read_spec addr (zeros (sizeof P)) (Z.of_nat (sizeof P)) (eeprom st)
                ltac:(split; [exact Haddr | lia]) (conj Hpos Hsize)) as Hr.
  pose proof (eeprom_read_ready addr (zeros (sizeof P)) (Z.of_nat (sizeof P)) (eeprom st)) as Hrd.
  destruct (svc_eeprom_read _ _ _ _ _) as [[ok buf] d']. destruct Hr as [Hc Hr].
  simpl. split_and?; try done.
  - intros Hok. rewrite Hr by done. by rewrite Nat2Z.id.
  - intros Hry. by apply Hrd.
Qed.

Lemma fetch_spec st :
  g_eeprom_i2c_bus st = true ->
  let '(r, st') := fetch addr valid st in
  g_eeprom_i2c_bus st' = true /\ g_storage_mileage_shadow st' = g_storage_mileage_shadow st /\
  (forall x, cells (eeprom st') x = cells (eeprom st) x) /\
  (forall r', r = Some r' -> slot addr valid (eeprom st) = Some (payload r')) /\
  (ready (eeprom st) -> (payload <$> r) = slot addr valid (eeprom st) /\ ready (eeprom st')).
Proof.
  intros Hb. unfold fetch. rewrite Hb. cbn [negb].
  pose proof (read_record_spec st Hb) as Hr.
  destruct (read_record addr st) as [[ok r] st']. destruct Hr as (H4 & H5 & H6 & H7 & H8).
  unfold slot. cbv zeta. destruct ok; cbn [negb].
  - rewrite H7 by done. destruct (valid _) eqn:Ev; cbn [negb]; split_and?; try done; try naive_solver.
  - split_and?; try done. intros Hry. by destruct (H8 Hry).
Qed.

Lemma commit_spec r st :
  g_eeprom_i2c_bus st = true -> wf_record r ->
  let '(ok, st') := commit addr valid r st in
  g_eeprom_i2c_bus st' = true /\ g_storage_mileage_shadow st' = g_storage_mileage_shadow st /\
  (forall x, x < addr \/ addr + Z.of_nat (sizeof P) <= x -> cells (eeprom st') x = cells (eeprom st) x) /\
  (ok = true -> valid r = true /\
     forall x, cells (eeprom st') x = overlay addr (to_bytes r) (cells (eeprom st)) x) /\
  (ready (eeprom st) -> ok = valid r /\ ready (eeprom st')).
Proof.
  intros Hb Hwf. pose proof Hwf as (_ & _ & _ & Hp & Hpl & Hpb & _).
  pose proof (length_to_bytes r Hp Hpl) as Hlen.
  unfold commit, write_record. rewrite Hb, <- Hlen.
  assert (to_bytes r <> []) as Hne by (intros E; rewrite E in Hlen; unfold sizeof in Hlen; simpl in Hlen; lia).
  destruct (eeprom_write_spec addr (to_bytes r) (eeprom st)) as (ok & d & E & Hw);
    [done | by rewrite Hlen | by rewrite Hlen | done | by apply bytes_to_bytes |].
  rewrite E. pose proof (fun Hry => eeprom_write_ready addr (to_bytes r) (eeprom st) ok d Hry Haddr
    ltac:(by rewrite Hlen) ltac:(by rewrite Hlen) Hne E) as Hrd. clear E.
  unfold written in Hw. destruct ok; cbn [negb].
  2:{ split_and?; try done. intros Hry. by destruct (Hrd Hry). }
  pose proof (read_record_spec (st <| eeprom := d |>) Hb) as Hr.
  destruct (read_record addr _) as [[ok vf] st']. destruct Hr as (H4 & H5 & H6 & H7 & H8).
  cbn [eeprom g_storage_mileage_shadow update_with] in *.
  assert (forall x, cells (eeprom st') x = overlay addr (to_bytes r) (cells (eeprom st)) x) as Hcells
    by (intros x; rewrite H6; apply Hw).
  assert (ok = true -> vf = r) as Hvf.
  { intros Hok. rewrite H7 by done. rewrite <- Hlen.
    rewrite (window_ext _ (overlay addr (to_bytes r) (cells (eeprom st)))) by auto.
    by rewrite window_overlay, of_bytes_to_bytes. }
  replace (if negb ok then (false, st') else (valid vf, st')) with (ok && valid vf, st') by (by destruct ok).
  split_and?; try done.
  - intros x Hx. rewrite Hcells. apply overlay_outside. lia.
  - intros [Hok Hv]%andb_true_iff. by rewrite Hvf in Hv.
  - intros Hry. destruct (H8 (proj2 (Hrd Hry))) as [-> Hry']. by rewrite Hvf.
Qed.

(** After a successful commit the slot holds the payload. *)
Lemma slot_overlay r d d' :
  wf_record r -> valid r = true ->
  (forall x, cells d' x = overlay addr (to_bytes r) (cells d) x) -> slot addr valid d' = Some (payload r).
Proof.
  intros Hwf Hv Hc. pose proof Hwf as (_ & _ & _ & Hp & Hpl & _).
  unfold slot. rewrite (window_ext _ (overlay addr (to_bytes r) (cells d))) by auto.
  rewrite <- (length_to_bytes r Hp Hpl), window_overlay, of_bytes_to_bytes by done. by rewrite Hv.
Qed.

(** A change outside the record leaves the slot alone. *)
Lemma slot_frame d d' :
  (forall x, addr <= x < addr + Z.of_nat (sizeof P) -> cells d' x = cells d x) ->
  slot addr valid d' = slot addr valid d.
Proof. intros Hc. unfold slot. by rewrite (window_ext _ (cells d)). Qed.
End Access.

(** ** The abstract store *)

Record store_view := mk_view {
  v_mileage : option svc_storage_mileage_t;
  v_config : option svc_storage_config_t;
  v_vin : option svc_storage_vin_t;
  v_province : option svc_storage_province_id_t;
  v_city : option svc_storage_city_id_t
}.

#[export] Instance eta_view : Eta store_view := fun r =>
  mk_view (v_mileage r) (v_config r) (v_vin r) (v_province r) (v_city r).

Definition view {D} `{EepromLaws D} (d : D) : store_view :=
  mk_view (slot SVC_STORAGE_MILEAGE_ADDR svc_storage_record_is_valid d)
    (slot SVC_STORAGE_CONFIG_ADDR svc_storage_config_record_is_valid d)
    (slot SVC_STORAGE_VIN_ADDR svc_storage_vin_record_is_valid d)
    (slot SVC_STORAGE_PROVINCE_ID_ADDR svc_storage_province_id_record_is_valid d)
    (slot SVC_STORAGE_CITY_ID_ADDR svc_storage_city_id_record_is_valid d).

Inductive save_op :=
| SaveMileage (m : svc_storage_mileage_t)
| SaveConfig (c : svc_storage_config_t)
| SavePhone (digits : list Z)
| SaveClass (v : Z)
| SaveColor (v : Z)
| SavePlate (p : svc_storage_plate_number_t)
| SaveVin (v : svc_storage_vin_t)
| SaveProvince (p : svc_storage_province_id_t)
| SaveCity (c : svc_storage_city_id_t).

Definition exec {D} `{I2cBus D} (op : save_op) (st : storage D) : bool * storage D :=
  match op with
  | SaveMileage m => svc_storage_save_mileage (Some m) st
  | SaveConfig c => svc_storage_save_config (Some c) st
  | SavePhone l => svc_storage_save_local_phone (Some l) st
  | SaveClass v => svc_storage_save_plate_class (Some v) st
  | SaveColor v => svc_storage_save_plate_color (Some v) st
  | SavePlate p => svc_storage_save_plate_number (Some p) st
  | SaveVin v => svc_storage_save_vin (Some v) st
  | SaveProvince p => svc_storage_save_province_id (Some p) st
  | SaveCity c => svc_storage_save_city_id (Some c) st
  end.

(** Saving a valid value replaces its slot; saving one field replaces that
    field of the stored configuration (the default one if none is stored);
    an invalid value is rejected and changes nothing. *)
Definition spec_step (op : save_op) (v : store_view) : bool * store_view :=
  let cfg := default g_default_config (v_config v) in
  let set_cfg ok c := if ok : bool then (true, v <| v_config := Some c |>) else (false, v) in
  match op with
  | SaveMileage m => (true, v <| v_mileage := Some m |>)
  | SaveConfig c => set_cfg (config_valid c) c
  | SavePhone l => set_cfg (svc_storage_phone_digits_valid l) (cfg <| local_phone := l |>)
  | SaveClass x => set_cfg (svc_storage_plate_class_valid x) (cfg <| plate_class := x |>)
  | SaveColor x => set_cfg (svc_storage_plate_color_valid x) (cfg <| plate_color := x |>)
  | SavePlate p => set_cfg (svc_storage_plate_number_valid (Some p)) (cfg <| plate_number := p |>)
  | SaveVin x => if svc_storage_vin_valid (Some x) then (true, v <| v_vin := Some x |>) else (false, v)
  | SaveProvince x => if svc_storage_province_id_valid (Some x)
                      then (true, v <| v_province := Some x |>) else (false, v)
  | SaveCity x => if svc_storage_city_id_valid (Some x) then (true, v <| v_city := Some x |>) else (false, v)
  end.

(** The values are C objects: byte arrays of their size, integers in range. *)
Definition wf_op (op : save_op) : Prop :=
  match op with
  | SaveMileage m => wf m
  | SaveConfig c => wf c
  | SavePhone l => length l = 12%nat /\ Forall is_u8 l
  | SaveClass x | SaveColor x => is_u8 x
  | SavePlate p => wf_plate p
  | SaveVin x => wf x
  | SaveProvince x => wf x
  | SaveCity x => wf x
  end.

(** The record a save builds is valid when its payload is. *)
Lemma fresh_mileage_valid m :
  wf m -> svc_storage_record_is_valid (fresh_record SVC_STORAGE_MAGIC SVC_STORAGE_VERSION m) = true.
Proof.
  intros Hm. unfold svc_storage_record_is_valid.
  by destruct (fresh_record_ok SVC_STORAGE_MAGIC SVC_STORAGE_VERSION m Hm) as [-> ->].
Qed.

Lemma fresh_config_valid c :
  wf c -> svc_storage_config_record_is_valid
            (fresh_record SVC_STORAGE_CONFIG_MAGIC SVC_STORAGE_CONFIG_VERSION c) = config_valid c.
Proof.
  intros Hc. unfold svc_storage_config_record_is_valid, config_valid.
  destruct (fresh_record_ok SVC_STORAGE_CONFIG_MAGIC SVC_STORAGE_CONFIG_VERSION c Hc) as [-> ->].
  cbn [payload fresh_record negb].
  by destruct (svc_storage_phone_digits_valid _), (svc_storage_plate_class_valid _),
    (svc_storage_plate_color_valid _), (svc_storage_plate_number_valid _).
Qed.

Lemma fresh_vin_valid v :
  wf v -> svc_storage_vin_record_is_valid
            (fresh_record SVC_STORAGE_VIN_MAGIC SVC_STORAGE_VIN_VERSION v) = svc_storage_vin_valid (Some v).
Proof.
  intros Hv. unfold svc_storage_vin_record_is_valid.
  destruct (fresh_record_ok SVC_STORAGE_VIN_MAGIC SVC_STORAGE_VIN_VERSION v Hv) as [-> ->].
  cbn [payload fresh_record negb]. by destruct (svc_storage_vin_valid _).
Qed.

Lemma fresh_province_valid v :
  wf v -> svc_storage_province_id_record_is_valid
            (fresh_record SVC_STORAGE_PROVINCE_ID_MAGIC SVC_STORAGE_PROVINCE_ID_VERSION v) =
          svc_storage_province_id_valid (Some v).
Proof.
  intros Hv. unfold svc_storage_province_id_record_is_valid.
  destruct (fresh_record_ok SVC_STORAGE_PROVINCE_ID_MAGIC SVC_STORAGE_PROVINCE_ID_VERSION v Hv) as [-> ->].
  cbn [payload fresh_record negb]. by destruct (svc_storage_province_id_valid _).
Qed.

Lemma fresh_city_valid v :
  wf v -> svc_storage_city_id_record_is_valid
            (fresh_record SVC_STORAGE_CITY_ID_MAGIC SVC_STORAGE_CITY_ID_VERSION v) =
          svc_storage_city_id_valid (Some v).
Proof.
  intros Hv. unfold svc_storage_city_id_record_is_valid.
  destruct (fresh_record_ok SVC_STORAGE_CITY_ID_MAGIC SVC_STORAGE_CITY_ID_VERSION v Hv) as [-> ->].
  cbn [payload fresh_record negb]. by destruct (svc_storage_city_id_valid _).
Qed.

Section Refinement.
Context {D : Type} `{EepromReady D}.

(** A service whose bus was found and whose chip answers. *)
Definition good (st : storage D) : Prop := g_eeprom_i2c_bus st = true /\ ready (eeprom st).

(** A record lies between these bounds in the address space. *)
Definition placed (P : Type) `{Payload P} (addr : Z) : Prop :=
  0 <= addr /\ addr + Z.of_nat (sizeof P) <= 2 ^ 16 /\ Z.of_nat (sizeof P) < 2 ^ 16.

Lemma commit_good {P} `{PayloadLaws P} addr (valid : record P -> bool) m v p st :
  placed P addr -> is_u32 m -> is_u16 v -> wf p -> valid (fresh_record m v p) = true -> good st ->
  exists st', commit addr valid (fresh_record m v p) st = (true, st') /\ good st' /\
    slot addr valid (eeprom st') = Some p /\
    forall x, x < addr \/ addr + Z.of_nat (sizeof P) <= x -> cells (eeprom st') x = cells (eeprom st) x.
Proof.
  intros (Ha & Hf & Hs) Hm Hv Hp Hval [Hb Hry].
  pose proof (fresh_record_wf m v p Hm Hv Hs Hp) as Hwf.
  pose proof (commit_spec addr valid Ha Hf Hs _ _ Hb Hwf) as Hc.
  destruct (commit addr valid _ st) as [ok st']. destruct Hc as (Hb' & _ & Hout & Hin & Hrd).
  destruct (Hrd Hry) as [Hok Hry']. rewrite Hval in Hok. subst ok.
  destruct (Hin eq_refl) as [_ Hcells]. exists st'. split_and?; try done.
  by rewrite (slot_overlay addr valid _ (eeprom st) (eeprom st') Hwf Hval Hcells).
Qed.

Lemma fetch_good {P} `{PayloadLaws P} addr (valid : record P -> bool) st :
  placed P addr -> good st ->
  exists r st', fetch addr valid st = (r, st') /\ good st' /\
    (payload <$> r) = slot addr valid (eeprom st) /\
    forall x, cells (eeprom st') x = cells (eeprom st) x.
Proof.
  intros (Ha & Hf & Hs) [Hb Hry].
  pose proof (fetch_spec addr valid Ha Hf Hs st Hb) as Hc.
  destruct (fetch addr valid st) as [r st']. destruct Hc as (Hb' & _ & Hcells & _ & Hrd).
  destruct (Hrd Hry) as [Hslot Hry']. by exists r, st'.
Qed.

Lemma view_same (d d' : D) : (forall x, cells d' x = cells d x) -> view d' = view d.
Proof. intros Hc. unfold view. f_equal; apply slot_frame; auto. Qed.
End Refinement.

(** Every record has its place, and the places are disjoint. *)
Ltac placed := unfold placed, sizeof; vm_compute; split_and!; done.

(** The view after a change inside one record: that slot, the others framed. *)
Ltac view_update Hslot Hout :=
  unfold view; cbn [update_with v_mileage v_config v_vin v_province v_city];
  f_equal;
  first [ exact Hslot
        | apply slot_frame; intros x Hx; apply Hout;
          unfold sizeof in *;
          unfold SVC_STORAGE_MILEAGE_ADDR, SVC_STORAGE_CONFIG_ADDR, SVC_STORAGE_VIN_ADDR,
            SVC_STORAGE_PROVINCE_ID_ADDR, SVC_STORAGE_CITY_ID_ADDR in *; cbn in *; lia ].

Section Refinement2.
Context {D : Type} `{EepromReady D}.

(** One typed save refines one slot update. *)
Definition refines (res : bool * storage D) (spec : bool * store_view) : Prop :=
  fst res = fst spec /\ view (eeprom (snd res)) = snd spec /\ good (snd res).

Lemma save_mileage_refines m st :
  wf m -> good st ->
  refines (svc_storage_save_mileage (Some m) st) (true, view (eeprom st) <| v_mileage := Some m |>).
Proof.
  intros Hm Hg. unfold svc_storage_save_mileage. cbv zeta.
  change (g_eeprom_i2c_bus (st <| g_storage_mileage_shadow := m |>)) with (g_eeprom_i2c_bus st).
  pose proof Hg as [Hb _]. rewrite Hb. cbn [negb].
  destruct (commit_good SVC_STORAGE_MILEAGE_ADDR svc_storage_record_is_valid SVC_STORAGE_MAGIC
    SVC_STORAGE_VERSION m (st <| g_storage_mileage_shadow := m |>)) as (st' & -> & Hg' & Hslot & Hout);
    [placed | done | done | done | by apply fresh_mileage_valid | done |].
  unfold refines. cbn [fst snd]. split_and?; [done | | done]. view_update Hslot Hout.
Qed.

Lemma save_config_refines c st :
  wf c -> good st ->
  refines (svc_storage_save_config (Some c) st)
    (if config_valid c then (true, view (eeprom st) <| v_config := Some c |>) else (false, view (eeprom st))).
Proof.
  intros Hc Hg. unfold svc_storage_save_config. destruct (config_valid c) eqn:Hv; cbn [negb]; [| done].
  pose proof Hg as [Hb _]. rewrite Hb. cbn [negb].
  destruct (commit_good SVC_STORAGE_CONFIG_ADDR svc_storage_config_record_is_valid SVC_STORAGE_CONFIG_MAGIC
    SVC_STORAGE_CONFIG_VERSION c st) as (st' & -> & Hg' & Hslot & Hout);
    [placed | done | done | done | by rewrite fresh_config_valid | done |].
  unfold refines. cbn [fst snd]. split_and?; [done | | done]. view_update Hslot Hout.
Qed.

Lemma save_vin_refines v st :
  wf v -> good st ->
  refines (svc_storage_save_vin (Some v) st)
    (if svc_storage_vin_valid (Some v) then (true, view (eeprom st) <| v_vin := Some v |>)
     else (false, view (eeprom st))).
Proof.
  intros Hc Hg. unfold svc_storage_save_vin.
  destruct (svc_storage_vin_valid (Some v)) eqn:Hv; cbn [negb]; [| done].
  pose proof Hg as [Hb _]. rewrite Hb. cbn [negb].
  destruct (commit_good SVC_STORAGE_VIN_ADDR svc_storage_vin_record_is_valid SVC_STORAGE_VIN_MAGIC
    SVC_STORAGE_VIN_VERSION v st) as (st' & -> & Hg' & Hslot & Hout);
    [placed | done | done | done | by rewrite fresh_vin_valid | done |].
  unfold refines. cbn [fst snd]. split_and?; [done | | done]. view_update Hslot Hout.
Qed.

Lemma save_province_refines v st :
  wf v -> good st ->
  refines (svc_storage_save_province_id (Some v) st)
    (if svc_storage_province_id_valid (Some v) then (true, view (eeprom st) <| v_province := Some v |>)
     else (false, view (eeprom st))).
Proof.
  intros Hc Hg. unfold svc_storage_save_province_id.
  destruct (svc_storage_province_id_valid (Some v)) eqn:Hv; cbn [negb]; [| done].
  pose proof Hg as [Hb _]. rewrite Hb. cbn [negb].
  destruct (commit_good SVC_STORAGE_PROVINCE_ID_ADDR svc_storage_province_id_record_is_valid
    SVC_STORAGE_PROVINCE_ID_MAGIC SVC_STORAGE_PROVINCE_ID_VERSION v st) as (st' & -> & Hg' & Hslot & Hout);
    [placed | done | done | done | by rewrite fresh_province_valid | done |].
  unfold refines. cbn [fst snd]. split_and?; [done | | done]. view_update Hslot Hout.
Qed.

Lemma save_city_refines v st :
  wf v -> good st ->
  refines (svc_storage_save_city_id (Some v) st)
    (if svc_storage_city_id_valid (Some v) then (true, view (eeprom st) <| v_city := Some v |>)
     else (false, view (eeprom st))).
Proof.
  intros Hc Hg. unfold svc_storage_save_city_id.
  destruct (svc_storage_city_id_valid (Some v)) eqn:Hv; cbn [negb]; [| done].
  pose proof Hg as [Hb _]. rewrite Hb. cbn [negb].
  destruct (commit_good SVC_STORAGE_CITY_ID_ADDR svc_storage_city_id_record_is_valid
    SVC_STORAGE_CITY_ID_MAGIC SVC_STORAGE_CITY_ID_VERSION v st) as (st' & -> & Hg' & Hslot & Hout);
    [placed | done | done | done | by rewrite fresh_city_valid | done |].
  unfold refines. cbn [fst snd]. split_and?; [done | | done]. view_update Hslot Hout.
Qed.
End Refinement2.

Section Refinement3.
Context {D : Type} `{EepromReady D}.

Lemma window_bytes (d : D) a n : Forall is_u8 (window (cells d) a n).
Proof.
  unfold window. apply Forall_forall. intros x Hx. apply list_elem_of_In, in_map_iff in Hx as (i & <- & _).
  apply cells_byte.
Qed.

Lemma slot_wf {P} `{PayloadLaws P} addr (valid : record P -> bool) (d : D) p :
  slot addr valid d = Some p -> wf p.
Proof.
  unfold slot. cbv zeta. case_match; [| done]. intros [= <-].
  destruct (wf_of_bytes (window (cells d) addr (sizeof P))) as (_ & _ & _ & Hp & _);
    [apply length_window | apply window_bytes | done].
Qed.

Lemma config_record_valid r : svc_storage_config_record_is_valid r = true -> config_valid (payload r) = true.
Proof.
  unfold svc_storage_config_record_is_valid, config_valid.
  by destruct (header_ok _ _ r), (svc_storage_phone_digits_valid _), (svc_storage_plate_class_valid _),
    (svc_storage_plate_color_valid _), (svc_storage_plate_number_valid _).
Qed.

Lemma slot_config_valid (d : D) c :
  slot SVC_STORAGE_CONFIG_ADDR svc_storage_config_record_is_valid d = Some c -> config_valid c = true.
Proof.
  unfold slot. cbv zeta. destruct (svc_storage_config_record_is_valid _) eqn:E; [| done].
  intros [= <-]. exact (config_record_valid _ E).
Qed.

Lemma default_config_ok : config_valid g_default_config = true /\ wf g_default_config.
Proof. split; [by vm_compute |]. vm_compute. split_and!; try done; repeat constructor; done. Qed.

(** The configuration the field operations start from. *)
Lemma loaded_config_spec st :
  good st ->
  exists ok c st', loaded_config st = (ok, c, st') /\ good st' /\ view (eeprom st') = view (eeprom st) /\
    c = default g_default_config (v_config (view (eeprom st))) /\
    ok = bool_decide (is_Some (v_config (view (eeprom st)))) /\ config_valid c = true /\ wf c.
Proof.
  intros Hg. unfold loaded_config, svc_storage_load_config.
  destruct (fetch_good SVC_STORAGE_CONFIG_ADDR svc_storage_config_record_is_valid st)
    as (r & st' & -> & Hg' & Hslot & Hc); [placed | done |].
  cbn [v_config view]. rewrite <- Hslot.
  destruct r as [r|]; cbn [fmap option_fmap option_map default svc_storage_config_set_default] in *.
  - exists true, (payload r), st'. do 2 (split; [done |]). split; [| do 2 (split; [done |]); split].
    + by apply view_same.
    + eapply slot_config_valid. by rewrite <- Hslot.
    + eapply slot_wf. by rewrite <- Hslot.
  - exists false, g_default_config, st'. do 2 (split; [done |]).
    split; [by apply view_same |]. do 2 (split; [done |]). apply default_config_ok.
Qed.

(** Saving one field of the configuration. *)
Lemma save_field_refines st (upd : svc_storage_config_t -> svc_storage_config_t) :
  good st ->
  (forall c, config_valid c = true -> wf c -> config_valid (upd c) = true /\ wf (upd c)) ->
  refines (let '(_, c, st) := loaded_config st in svc_storage_save_config (Some (upd c)) st)
    (true, view (eeprom st) <| v_config := Some (upd (default g_default_config (v_config (view (eeprom st))))) |>).
Proof.
  intros Hg Hupd. destruct (loaded_config_spec st Hg) as (ok & c & st' & -> & Hg' & Hv & -> & _ & Hcv & Hwf).
  destruct (Hupd _ Hcv Hwf) as [Hcv' Hwf'].
  pose proof (save_config_refines _ _ Hwf' Hg') as Hr. rewrite Hcv', Hv in Hr. exact Hr.
Qed.
End Refinement3.

Lemma config_valid_split c :
  config_valid c = true <->
  svc_storage_phone_digits_valid (local_phone c) = true /\ svc_storage_plate_class_valid (plate_class c) = true /\
  svc_storage_plate_color_valid (plate_color c) = true /\ svc_storage_plate_number_valid (Some (plate_number c)) = true.
Proof. unfold config_valid. rewrite !andb_true_iff. tauto. Qed.

(** Every save operation refines its abstract step. *)
Lemma exec_refines {D} `{EepromReady D} op (st : storage D) :
  wf_op op -> good st -> refines (exec op st) (spec_step op (view (eeprom st))).
Proof.
  intros Hwf Hg. destruct op; cbn [exec spec_step wf_op] in *.
  - by apply save_mileage_refines.
  - by apply save_config_refines.
  - unfold svc_storage_save_local_phone.
    destruct (svc_storage_phone_digits_valid digits) eqn:E; cbn [negb]; [| done].
    apply (save_field_refines st (fun c => c <| local_phone := digits |>) Hg).
    intros c Hc Hw. rewrite config_valid_split in *. cbn in *. naive_solver.
  - unfold svc_storage_save_plate_class. destruct (svc_storage_plate_class_valid v) eqn:E; cbn [negb]; [| done].
    apply (save_field_refines st (fun c => c <| plate_class := v |>) Hg).
    intros c Hc Hw. rewrite config_valid_split in *. cbn in *. naive_solver.
  - unfold svc_storage_save_plate_color. destruct (svc_storage_plate_color_valid v) eqn:E; cbn [negb]; [| done].
    apply (save_field_refines st (fun c => c <| plate_color := v |>) Hg).
    intros c Hc Hw. rewrite config_valid_split in *. cbn in *. naive_solver.
  - unfold svc_storage_save_plate_number.
    destruct (svc_storage_plate_number_valid (Some p)) eqn:E; cbn [negb]; [| done].
    apply (save_field_refines st (fun c => c <| plate_number := p |>) Hg).
    intros c Hc Hw. rewrite config_valid_split in *. cbn in *. naive_solver.
  - by apply save_vin_refines.
  - by apply save_province_refines.
  - by apply save_city_refines.
Qed.

(** ** Checksum *)

(** The checksum as a polynomial in 31, modulo 2^32. *)
Definition poly31 (s : Z) (l : list Z) : Z := foldl (fun s b => 31 * s + b) s l.

Lemma checksum_poly l :
  svc_storage_checksum (Some l) (Z.of_nat (length l)) = poly31 0 l mod 2 ^ 32.
Proof.
  unfold svc_storage_checksum. rewrite Nat2Z.id, take_ge by lia.
  assert (forall s s', s mod 2 ^ 32 = s' mod 2 ^ 32 -> s = s mod 2 ^ 32 ->
    foldl (fun sum b => u32 (u32 (u32 (Z.shiftl sum 5) - sum) + b)) s l = poly31 s' l mod 2 ^ 32) as Hl.
  { induction l as [|b l IH]; intros s s' Hs Hr; simpl; [congruence |].
    apply IH; [| wraps]. rewrite Z.shiftl_mul_pow2 by lia. change (2 ^ 5) with 32.
    unfold u32. Z.div_mod_to_equations. lia. }
  by apply Hl.
Qed.

Lemma poly31_app s l l' : poly31 s (l ++ l') = poly31 (poly31 s l) l'.
Proof. apply foldl_app. Qed.

Lemma poly31_diff l s s' : poly31 s l - poly31 s' l = 31 ^ Z.of_nat (length l) * (s - s').
Proof.
  revert s s'. induction l as [|b l IH]; intros s s'; cbn [poly31 foldl length].
  { change (31 ^ Z.of_nat 0) with 1. ring. }
  change (foldl (fun s b => 31 * s + b) ?x l) with (poly31 x l).
  rewrite IH, Nat2Z.inj_succ, Z.pow_succ_r by lia. ring.
Qed.

Lemma coprime_31 k : Znumtheory.rel_prime (2 ^ 32) (31 ^ Z.of_nat k).
Proof.
  induction k as [|k IH]; [by apply Znumtheory.Zgcd_1_rel_prime |].
  rewrite Nat2Z.inj_succ, Z.pow_succ_r by lia. apply Znumtheory.rel_prime_mult; [| done].
  apply Znumtheory.Zgcd_1_rel_prime. done.
Qed.

Lemma checksum_byte_change l1 b b' l2 :
  is_u8 b -> is_u8 b' -> b <> b' ->
  svc_storage_checksum (Some (l1 ++ b :: l2)) (Z.of_nat (length (l1 ++ b :: l2))) <>
  svc_storage_checksum (Some (l1 ++ b' :: l2)) (Z.of_nat (length (l1 ++ b' :: l2))).
Proof.
  intros Hb Hb' Hne. rewrite !checksum_poly, !poly31_app. cbn [poly31 foldl].
  change (foldl (fun s b => 31 * s + b) ?x l2) with (poly31 x l2).
  intros E. set (s := poly31 0 l1) in *.
  pose proof (poly31_diff l2 (31 * s + b) (31 * s + b')) as Hd.
  assert ((2 ^ 32 | 31 ^ Z.of_nat (length l2) * (b - b'))) as Hdiv.
  { apply Z.mod_divide; [lia |]. rewrite <- (Z.add_simpl_l (31 * s + b') (b - b')), Z.mul_sub_distr_l.
    replace (31 ^ Z.of_nat (length l2) * (31 * s + b' + (b - b')) - 31 ^ Z.of_nat (length l2) * (31 * s + b'))
      with (poly31 (31 * s + b) l2 - poly31 (31 * s + b') l2) by (rewrite Hd; ring).
    rewrite Zminus_mod, E, Z.sub_diag. done. }
  apply Znumtheory.Gauss in Hdiv as [q Hq]; [| apply coprime_31].
  unfold is_u8 in *. lia.
Qed.

(** ** Properties *)

(** Results and final state of a sequence of saves, concretely and abstractly. *)
Fixpoint exec_all {D} `{I2cBus D} (ops : list save_op) (st : storage D) : list bool * storage D :=
  match ops with
  | [] => ([], st)
  | op :: ops => let '(b, st) := exec op st in
                 let '(bs, st) := exec_all ops st in (b :: bs, st)
  end.

Fixpoint spec_all (ops : list save_op) (v : store_view) : list bool * store_view :=
  match ops with
  | [] => ([], v)
  | op :: ops => let '(b, v) := spec_step op v in
                 let '(bs, v) := spec_all ops v in (b :: bs, v)
  end.

Lemma exec_all_refines {D} `{EepromReady D} ops (st : storage D) :
  Forall wf_op ops -> good st ->
  fst (exec_all ops st) = fst (spec_all ops (view (eeprom st))) /\
  view (eeprom (snd (exec_all ops st))) = snd (spec_all ops (view (eeprom st))) /\
  good (snd (exec_all ops st)).
Proof.
  intros Hops. revert st. induction Hops as [|op ops Hop _ IH]; intros st Hg; [done |].
  cbn [exec_all spec_all]. destruct (exec_refines op st Hop Hg) as (H2 & H3 & H4).
  destruct (exec op st) as [b st1], (spec_step op _) as [b' v1]. cbn [fst snd] in *. subst.
  destruct (IH st1 H4) as (H5 & H6 & H7).
  destruct (exec_all ops st1) as [bs st2], (spec_all ops _) as [bs' v2]. cbn [fst snd] in *.
  by subst.
Qed.

(** C2: On a chip that answers, any sequence of save operations returns the
    results of the abstract store and leaves the five records with exactly its
    contents: each save replaces its own record or field and no other, and an
    invalid value is rejected without effect. *)
Theorem storage_refines_store {D} `{EepromReady D} ops (st : storage D) :
  Forall wf_op ops -> good st ->
  fst (exec_all ops st) = fst (spec_all ops (view (eeprom st))) /\
  view (eeprom (snd (exec_all ops st))) = snd (spec_all ops (view (eeprom st))) /\
  good (snd (exec_all ops st)).
Proof. apply exec_all_refines. Qed.

Definition sample_storage : storage Chip.chip := mk_storage true (mk_mileage 0 0 0) Chip.blank.
Definition sample_ops : list save_op :=
  [SaveMileage (mk_mileage 123456 789 0); SaveClass 3; SaveColor 9;
   SavePlate (mk_plate 1 17 66 [49; 50; 51; 52; 53; 0]); SaveProvince (mk_province_id 1 [52; 50; 0])].

Lemma storage_refines_store_witness :
  fst (exec_all sample_ops sample_storage) = [true; true; false; true; true] /\
  fst (exec_all sample_ops sample_storage) = fst (spec_all sample_ops (view (eeprom sample_storage))).
Proof.
  split; [by vm_compute |].
  refine (proj1 (storage_refines_store sample_ops sample_storage _ _)).
  - unfold sample_ops. repeat (apply Forall_cons_2; [by vm_compute; split_and!; try done; repeat constructor |]).
    apply Forall_nil_2.
  - by vm_compute.
Defined.

(** A load that reports [ok], delivers [a] and changes nothing. *)
Definition reads {D A} `{EepromReady D} (res : bool * pointer A * storage D) (ok : bool) (a : A) (st : storage D) : Prop :=
  fst (fst res) = ok /\ snd (fst res) = Some a /\ view (eeprom (snd res)) = view (eeprom st) /\ good (snd res).

Lemma fetch_reads {D} `{EepromReady D} {P} `{PayloadLaws P} addr (valid : record P -> bool) (st : storage D) p0 :
  placed P addr -> good st ->
  reads (match fetch addr valid st with
         | (None, st) => (false, Some p0, st)
         | (Some r, st) => (true, Some (payload r), st)
         end)
    (bool_decide (is_Some (slot addr valid (eeprom st)))) (default p0 (slot addr valid (eeprom st))) st.
Proof.
  intros Hp Hg. destruct (fetch_good addr valid st Hp Hg) as (r & st' & -> & Hg' & <- & Hc).
  pose proof (view_same _ _ Hc). by destruct r.
Qed.

Lemma loaded_reads {D A} `{EepromReady D} (f : svc_storage_config_t -> A) (st : storage D) :
  good st ->
  reads (let '(result, c, st) := loaded_config st in (result, Some (f c), st))
    (bool_decide (is_Some (v_config (view (eeprom st)))))
    (f (default g_default_config (v_config (view (eeprom st))))) st.
Proof.
  intros Hg. destruct (loaded_config_spec st Hg) as (ok & c & st' & -> & Hg' & Hv & -> & -> & _). done.
Qed.

Lemma load_mileage_reads {D} `{EepromReady D} m0 (st : storage D) :
  good st ->
  reads (svc_storage_load_mileage (Some m0) st) true
    (default (mk_mileage 0 0 0) (v_mileage (view (eeprom st)))) st.
Proof.
  intros Hg. unfold svc_storage_load_mileage.
  destruct (fetch_good SVC_STORAGE_MILEAGE_ADDR svc_storage_record_is_valid st)
    as (r & st' & -> & Hg' & Hslot & Hc); [placed | done |].
  cbn [v_mileage view]. rewrite <- Hslot. pose proof (view_same _ _ Hc). by destruct r.
Qed.

(** On a chip that answers, every load operation delivers the contents of
    the abstract store (defaults where a record is absent), reports whether the
    record was present (the mileage load always reports success), and changes
    no record. *)
Theorem loads_read_store {D} `{EepromReady D} (st : storage D) m0 c0 ph0 k0 l0 p0 v0 r0 t0 :
  good st ->
  let v := view (eeprom st) in
  let cfg := default g_default_config (v_config v) in
  let has_cfg := bool_decide (is_Some (v_config v)) in
  reads (svc_storage_load_mileage (Some m0) st) true (default (mk_mileage 0 0 0) (v_mileage v)) st /\
  reads (svc_storage_load_config (Some c0) st) has_cfg cfg st /\
  reads (svc_storage_load_local_phone (Some ph0) st) has_cfg (local_phone cfg) st /\
  reads (svc_storage_load_plate_class (Some k0) st) has_cfg (plate_class cfg) st /\
  reads (svc_storage_load_plate_color (Some l0) st) has_cfg (plate_color cfg) st /\
  reads (svc_storage_load_plate_number (Some p0) st) has_cfg (plate_number cfg) st /\
  reads (svc_storage_load_vin (Some v0) st) (bool_decide (is_Some (v_vin v)))
    (default (mk_vin 0 (zeros 18)) (v_vin v)) st /\
  reads (svc_storage_load_province_id (Some r0) st) (bool_decide (is_Some (v_province v)))
    (default (mk_province_id 0 (zeros 3)) (v_province v)) st /\
  reads (svc_storage_load_city_id (Some t0) st) (bool_decide (is_Some (v_city v)))
    (default (mk_city_id 0 (zeros 5)) (v_city v)) st.
Proof.
  intros Hg v cfg has_cfg. subst v cfg has_cfg. split_and?.
  - by apply load_mileage_reads.
  - apply fetch_reads; [placed | done].
  - apply (loaded_reads local_phone st Hg).
  - apply (loaded_reads plate_class st Hg).
  - apply (loaded_reads plate_color st Hg).
  - apply (loaded_reads plate_number st Hg).
  - apply fetch_reads; [placed | done].
  - apply fetch_reads; [placed | done].
  - apply fetch_reads; [placed | done].
Qed.

Lemma loads_read_store_witness :
  let st := snd (exec_all sample_ops sample_storage) in
  good st /\ reads (svc_storage_load_plate_class (Some 0) st) true 3 st.
Proof.
  assert (good (snd (exec_all sample_ops sample_storage))) as Hg by (by vm_compute).
  split; [exact Hg |].
  pose proof (loads_read_store (snd (exec_all sample_ops sample_storage)) (mk_mileage 0 0 0) g_default_config [] 0 0
    (mk_plate 0 0 0 []) (mk_vin 0 []) (mk_province_id 0 []) (mk_city_id 0 []) Hg) as (_ & _ & _ & Hc & _).
  assert (v_config (view (eeprom (snd (exec_all sample_ops sample_storage)))) =
          Some (mk_config (replicate 11 48 ++ [0]) 3 1 (mk_plate 1 17 66 [49; 50; 51; 52; 53; 0]))) as E
    by (by vm_compute).
  rewrite E in Hc. exact Hc.
Defined.

(** Whatever the chip and the storage hold, a configuration load delivers
    a configuration that passes every validity check of a save. *)
Theorem load_config_always_valid {D} `{I2cBus D} c0 (st : storage D) :
  exists ok c st', svc_storage_load_config (Some c0) st = (ok, Some c, st') /\ config_valid c = true.
Proof.
  unfold svc_storage_load_config, fetch. destruct (g_eeprom_i2c_bus st); cbn [negb].
  2:{ by exists false, g_default_config, st. }
  destruct (read_record SVC_STORAGE_CONFIG_ADDR st) as [[ok r] st'].
  destruct ok; cbn [negb]; [| by exists false, g_default_config, st'].
  destruct (svc_storage_config_record_is_valid r) eqn:E; cbn [negb]; [| by exists false, g_default_config, st'].
  exists true, (payload r), st'. split; [done |]. exact (config_record_valid r E).
Qed.

Lemma corrupt_checksum {P} `{PayloadLaws P} l i b :
  length l = sizeof P -> Forall is_u8 l -> is_u8 b -> (i < sizeof P - 4)%nat -> l !! i <> Some b ->
  checksum_of (of_bytes l : record P) = checksum (of_bytes l : record P) ->
  checksum_of (of_bytes (<[i := b]> l) : record P) <> checksum (of_bytes (<[i := b]> l) : record P).
Proof.
  intros Hl Hb Hbb Hi Hne Hok Hbad. set (l' := <[i := b]> l) in *.
  assert (length l' = sizeof P) as Hl' by (unfold l'; by rewrite length_insert).
  assert (Forall is_u8 l') as Hb' by (by apply Forall_insert).
  assert (slice (8 + pay_size + pad_size) 4 l' = slice (8 + pay_size + pad_size) 4 l) as Hsl.
  { unfold slice, l'. by rewrite drop_insert_lt by (unfold sizeof in Hi; lia). }
  cbn [checksum of_bytes] in Hok, Hbad. rewrite Hsl, <- Hok in Hbad. clear Hok.
  unfold checksum_of in Hbad. rewrite !to_bytes_of_bytes in Hbad by done.
  assert (i < length l)%nat as Hil by lia. destruct (lookup_lt_is_Some_2 l i Hil) as [x Hx].
  set (n := (sizeof P - 4)%nat) in *.
  assert (take n l = take i l ++ x :: drop (S i) (take n l)) as E1.
  { rewrite <- (take_drop_middle (take n l) i x) at 1; [| by rewrite lookup_take_lt].
    by rewrite take_take, Nat.min_l by lia. }
  assert (take n l' = take i l ++ b :: drop (S i) (take n l)) as E2.
  { unfold l'. rewrite take_insert_lt by done. rewrite insert_take_drop by (rewrite length_take; lia).
    by rewrite take_take, Nat.min_l by lia. }
  revert Hbad. unfold svc_storage_checksum.
  replace (Z.to_nat (Z.of_nat (sizeof P) - 4)) with n by (unfold n; lia).
  pose proof (checksum_byte_change (take i l) b x (drop (S i) (take n l)) Hbb) as Hch.
  unfold svc_storage_checksum in Hch. rewrite !Nat2Z.id, !(take_ge (_ ++ _)) in Hch by done.
  rewrite E1, E2. intros Hbad. apply Hch; [| congruence | done].
  by eapply (Forall_lookup_1 is_u8 l i).
Qed.

(** A change of the checksum field itself. *)
Lemma corrupt_field {P} `{PayloadLaws P} l i b :
  length l = sizeof P -> Forall is_u8 l -> is_u8 b -> (sizeof P - 4 <= i < sizeof P)%nat -> l !! i <> Some b ->
  checksum_of (of_bytes l : record P) = checksum (of_bytes l : record P) ->
  checksum_of (of_bytes (<[i := b]> l) : record P) <> checksum (of_bytes (<[i := b]> l) : record P).
Proof.
  intros Hl Hb Hbb Hi Hne Hok Hbad. set (l' := <[i := b]> l) in *. set (off := (8 + pay_size + pad_size)%nat).
  assert (sizeof P = off + 4)%nat as Hsz by (unfold sizeof, off; lia).
  assert (length l' = sizeof P) as Hl' by (unfold l'; by rewrite length_insert).
  assert (Forall is_u8 l') as Hb' by (by apply Forall_insert).
  assert (checksum_of (of_bytes l' : record P) = checksum_of (of_bytes l : record P)) as Hsame.
  { unfold checksum_of, svc_storage_checksum. rewrite !to_bytes_of_bytes by done. unfold l'. by rewrite take_insert_ge by lia. }
  rewrite Hsame, Hok in Hbad. cbn [checksum of_bytes] in Hbad. fold off in Hbad.
  assert (forall k, length k = sizeof P -> slice off 4 k = drop off k) as Hs
    by (intros k Hk; unfold slice; rewrite take_ge by (rewrite length_drop; lia); done).
  rewrite !Hs in Hbad by done. apply (f_equal (to_le 4)) in Hbad.
  rewrite !to_le_of_le in Hbad by (try apply Forall_drop; rewrite ?length_drop; done || lia).
  apply Hne. replace i with (off + (i - off))%nat by lia. rewrite <- lookup_drop, Hbad, lookup_drop.
  replace (off + (i - off))%nat with i by lia. unfold l'. rewrite list_lookup_insert_eq by lia. done.
Qed.

Lemma corrupt_invalid {P} `{PayloadLaws P} (valid : record P -> bool) l i b :
  Forall is_u8 l -> is_u8 b -> l !! i <> Some b -> length l = sizeof P -> (i < sizeof P)%nat ->
  (forall r, valid r = true -> checksum_of r = checksum r) ->
  valid (of_bytes l) = true -> valid (of_bytes (<[i := b]> l)) = false.
Proof.
  intros Hb Hbb Hne Hl Hi Hv Hok. apply not_true_is_false. intros Hbad.
  destruct (decide (i < sizeof P - 4)%nat).
  - by apply (corrupt_checksum l i b Hl Hb Hbb ltac:(done) Hne (Hv _ Hok)), Hv.
  - by apply (corrupt_field l i b Hl Hb Hbb ltac:(lia) Hne (Hv _ Hok)), Hv.
Qed.

(** C27: changing any one byte of a valid stored record, whatever the byte and
    whether it belongs to the header, the data, the padding or the checksum
    itself, makes the record invalid: each of the five records rejects it. *)
Theorem corruption_detected l i b :
  Forall is_u8 l -> is_u8 b -> l !! i <> Some b ->
  let l' := <[i := b]> l in
  ((i < 20)%nat -> length l = 20%nat -> svc_storage_record_is_valid (of_bytes l) = true ->
     svc_storage_record_is_valid (of_bytes l') = false) /\
  ((i < 40)%nat -> length l = 40%nat -> svc_storage_config_record_is_valid (of_bytes l) = true ->
     svc_storage_config_record_is_valid (of_bytes l') = false) /\
  ((i < 32)%nat -> length l = 32%nat -> svc_storage_vin_record_is_valid (of_bytes l) = true ->
     svc_storage_vin_record_is_valid (of_bytes l') = false) /\
  ((i < 16)%nat -> length l = 16%nat -> svc_storage_province_id_record_is_valid (of_bytes l) = true ->
     svc_storage_province_id_record_is_valid (of_bytes l') = false) /\
  ((i < 20)%nat -> length l = 20%nat -> svc_storage_city_id_record_is_valid (of_bytes l) = true ->
     svc_storage_city_id_record_is_valid (of_bytes l') = false).
Proof.
  intros Hb Hbb Hne l'.
  split_and?; intros Hi Hl; apply corrupt_invalid; try done; intros r.
  - unfold svc_storage_record_is_valid. intros [_ Hv]%andb_true_iff. by apply Z.eqb_eq.
  - unfold svc_storage_config_record_is_valid. repeat case_match; try done. apply Z.eqb_eq.
  - unfold svc_storage_vin_record_is_valid. repeat case_match; try done. apply Z.eqb_eq.
  - unfold svc_storage_province_id_record_is_valid. repeat case_match; try done. apply Z.eqb_eq.
  - unfold svc_storage_city_id_record_is_valid. repeat case_match; try done. apply Z.eqb_eq.
Qed.

Lemma corruption_detected_witness :
  let l := to_bytes (fresh_record SVC_STORAGE_MAGIC SVC_STORAGE_VERSION (mk_mileage 123 456 0)) in
  svc_storage_record_is_valid (of_bytes l) = true /\
  svc_storage_record_is_valid (of_bytes (<[19%nat := 7]> l)) = false.
Proof.
  intros l. split; [by vm_compute |].
  refine (proj1 (corruption_detected l 19 7 _ _ _) _ _ _).
  - repeat constructor; by vm_compute.
  - done.
  - vm_compute. discriminate.
  - lia.
  - vm_compute. reflexivity.
  - by vm_compute.
Defined.

(** The bytes of the record a save operation writes. *)
Definition region (op : save_op) : Z * Z :=
  match op with
  | SaveMileage _ => (SVC_STORAGE_MILEAGE_ADDR, 20)
  | SaveVin _ => (SVC_STORAGE_VIN_ADDR, 32)
  | SaveProvince _ => (SVC_STORAGE_PROVINCE_ID_ADDR, 16)
  | SaveCity _ => (SVC_STORAGE_CITY_ID_ADDR, 20)
  | _ => (SVC_STORAGE_CONFIG_ADDR, 40)
  end.

(** A service state that differs only inside a region. *)
Definition only_inside {D} `{EepromLaws D} (reg : Z * Z) (st st' : storage D) : Prop :=
  forall x, x < fst reg \/ fst reg + snd reg <= x -> cells (eeprom st') x = cells (eeprom st) x.

Lemma commit_inside {D} `{EepromReady D} {P} `{PayloadLaws P} addr (valid : record P -> bool) m v p (st : storage D) :
  placed P addr -> is_u32 m -> is_u16 v -> wf p -> g_eeprom_i2c_bus st = true ->
  only_inside (addr, Z.of_nat (sizeof P)) st (snd (commit addr valid (fresh_record m v p) st)).
Proof.
  intros (Ha & Hf & Hs) Hm Hv Hp Hb.
  pose proof (commit_spec addr valid Ha Hf Hs _ _ Hb (fresh_record_wf m v p Hm Hv Hs Hp)) as Hc.
  destruct (commit addr valid _ st) as [ok st']. by destruct Hc as (_ & _ & Hout & _).
Qed.

Lemma save_config_inside {D} `{EepromReady D} c (st st0 : storage D) :
  wf c -> g_eeprom_i2c_bus st = true -> (forall x, cells (eeprom st) x = cells (eeprom st0) x) ->
  only_inside (SVC_STORAGE_CONFIG_ADDR, 40) st0 (snd (svc_storage_save_config (Some c) st)).
Proof.
  intros Hc Hb Hsame. unfold svc_storage_save_config.
  destruct (config_valid c); cbn [negb]; [| intros x _; apply Hsame].
  rewrite Hb. cbn [negb]. intros x Hx. rewrite <- Hsame.
  refine (commit_inside SVC_STORAGE_CONFIG_ADDR _ _ _ c st _ _ _ Hc Hb x Hx); [placed | done | done].
Qed.

(** A field save, whatever the load of the old configuration reports. *)
Lemma save_field_inside {D} `{EepromReady D} (st : storage D) (upd : svc_storage_config_t -> svc_storage_config_t) :
  g_eeprom_i2c_bus st = true -> (forall c, wf c -> wf (upd c)) ->
  only_inside (SVC_STORAGE_CONFIG_ADDR, 40) st
    (snd (let '(_, c, st) := loaded_config st in svc_storage_save_config (Some (upd c)) st)).
Proof.
  intros Hb Hupd. unfold loaded_config, svc_storage_load_config, fetch. rewrite Hb. cbn [negb].
  assert (placed svc_storage_config_t SVC_STORAGE_CONFIG_ADDR) as (Ha & Hf & Hs) by placed.
  pose proof (read_record_spec SVC_STORAGE_CONFIG_ADDR Ha Hf Hs st Hb) as Hr.
  destruct (read_record SVC_STORAGE_CONFIG_ADDR st) as [[ok r] st']. destruct Hr as (Hb' & _ & Hc & Hr & _).
  destruct ok; cbn [negb].
  2:{ apply save_config_inside; [apply Hupd, default_config_ok | done | done]. }
  destruct (svc_storage_config_record_is_valid r); cbn [negb default svc_storage_config_set_default];
    apply save_config_inside; try done; apply Hupd; [| apply default_config_ok].
  rewrite Hr by done.
  destruct (wf_of_bytes (P := svc_storage_config_t)
    (window (cells (eeprom st)) SVC_STORAGE_CONFIG_ADDR (sizeof svc_storage_config_t)))
    as (_ & _ & _ & Hw & _); [apply length_window | apply window_bytes | done].
Qed.

(** C26: Whether or not the chip answers, and at whatever point a transfer
    fails, a save changes no byte outside its own record. *)
Theorem save_isolated {D} `{EepromReady D} op (st : storage D) :
  wf_op op -> g_eeprom_i2c_bus st = true -> only_inside (region op) st (snd (exec op st)).
Proof.
  intros Hwf Hb. destruct op; cbn [exec wf_op region] in *.
  - unfold svc_storage_save_mileage. cbv zeta.
    change (g_eeprom_i2c_bus (st <| g_storage_mileage_shadow := m |>)) with (g_eeprom_i2c_bus st).
    rewrite Hb. cbn [negb]. intros x Hx.
    refine (commit_inside SVC_STORAGE_MILEAGE_ADDR _ _ _ m _ _ _ _ Hwf _ x Hx); [placed | done | done | done].
  - by apply save_config_inside.
  - unfold svc_storage_save_local_phone. case_match; [done |].
    apply (save_field_inside st (fun c => c <| local_phone := digits |>) Hb). cbn. naive_solver.
  - unfold svc_storage_save_plate_class. case_match; [done |].
    apply (save_field_inside st (fun c => c <| plate_class := v |>) Hb). cbn. naive_solver.
  - unfold svc_storage_save_plate_color. case_match; [done |].
    apply (save_field_inside st (fun c => c <| plate_color := v |>) Hb). cbn. naive_solver.
  - unfold svc_storage_save_plate_number. case_match; [done |].
    apply (save_field_inside st (fun c => c <| plate_number := p |>) Hb). cbn. naive_solver.
  - unfold svc_storage_save_vin. case_match; [done |]. rewrite Hb. cbn [negb].
    intros x Hx. refine (commit_inside SVC_STORAGE_VIN_ADDR _ _ _ v _ _ _ _ Hwf Hb x Hx); [placed | done | done].
  - unfold svc_storage_save_province_id. case_match; [done |]. rewrite Hb. cbn [negb].
    intros x Hx. refine (commit_inside SVC_STORAGE_PROVINCE_ID_ADDR _ _ _ p _ _ _ _ Hwf Hb x Hx); [placed | done | done].
  - unfold svc_storage_save_city_id. case_match; [done |]. rewrite Hb. cbn [negb].
    intros x Hx. refine (commit_inside SVC_STORAGE_CITY_ID_ADDR _ _ _ c _ _ _ _ Hwf Hb x Hx); [placed | done | done].
Qed.

(** A chip still busy with a write does not answer. *)
Definition busy_storage : storage Chip.chip := mk_storage true (mk_mileage 0 0 0) (Chip.mk_chip (fun _ => 255) 0 3).

Lemma save_isolated_witness :
  fst (exec (SaveClass 3) busy_storage) = false /\
  only_inside (region (SaveClass 3)) busy_storage (snd (exec (SaveClass 3) busy_storage)).
Proof.
  split; [by vm_compute |].
  refine (save_isolated (SaveClass 3) busy_storage _ _); done.
Defined.
