(* ===== verification/UartRing.v ===== *)
(** * UART receive ring ([app_usart_cmd.c])

    The byte ring between the receive interrupt and the command thread, as an
    implementation of a bounded first-in first-out queue, and the effect of an
    interrupt inside the unprotected update of its counter. *)

From S2P Require Import Prelude.

Definition APP_UART_CMD_RX_BUF_SIZE : Z := 4096.

Record app_uart_cmd_ring_t := mk_ring {
  ring_buf : list Z; ring_head : Z; ring_tail : Z; ring_count : Z
}.

#[export] Instance eta_ring : Eta app_uart_cmd_ring_t := fun r =>
  mk_ring (ring_buf r) (ring_head r) (ring_tail r) (ring_count r).

(** ** Operations *)

Definition app_uart_cmd_ring_push (ring : app_uart_cmd_ring_t) (byte : Z) : bool * app_uart_cmd_ring_t :=
  if APP_UART_CMD_RX_BUF_SIZE <=? ring_count ring then (false, ring)
  else
    let ring := ring <| ring_buf := put (ring_buf ring) (ring_head ring) byte |> in
    let ring := ring <| ring_head := u16 ((ring_head ring + 1) mod APP_UART_CMD_RX_BUF_SIZE) |> in
    let ring := ring <| ring_count := u16 (ring_count ring + 1) |> in
    (true, ring).

Definition app_uart_cmd_ring_pop (ring : app_uart_cmd_ring_t) : pointer Z * app_uart_cmd_ring_t :=
  if ring_count ring =? 0 then (None, ring)
  else
    let byte := get (ring_buf ring) (ring_tail ring) in
    let ring := ring <| ring_tail := u16 ((ring_tail ring + 1) mod APP_UART_CMD_RX_BUF_SIZE) |> in
    let ring := ring <| ring_count := u16 (ring_count ring - 1) |> in
    (Some byte, ring).

(** [rt_memset] of the ring in [app_usart_cmd_init]. *)
Definition ring_zero : app_uart_cmd_ring_t := mk_ring (zeros (Z.to_nat APP_UART_CMD_RX_BUF_SIZE)) 0 0 0.

Definition app_usart_cmd_push_byte (ring : app_uart_cmd_ring_t) (byte : Z) : app_uart_cmd_ring_t :=
  snd (app_uart_cmd_ring_push ring byte).

Definition app_usart_cmd_push_bytes (ring : app_uart_cmd_ring_t) (data : pointer (list Z)) (len : Z)
    : app_uart_cmd_ring_t :=
  match data with
  | None => ring
  | Some data => if len =? 0 then ring else foldl app_usart_cmd_push_byte ring (take (Z.to_nat len) data)
  end.

(** [app_uart_cmd_rx_indicate]: [reads] are the blocks successive calls of
    [rt_device_read] return (each at most 128 bytes); the second component
    tells whether the semaphore is released. *)
Fixpoint app_uart_cmd_rx_loop (reads : list (list Z)) (size : Z) (ring : app_uart_cmd_ring_t) (has_data : bool)
    : app_uart_cmd_ring_t * bool :=
  match reads with
  | [] => (ring, has_data)
  | block :: reads =>
      if size <=? 0 then (ring, has_data)
      else
        let read_len := Z.of_nat (length block) in
        if read_len =? 0 then (ring, has_data)
        else
          let ring := app_usart_cmd_push_bytes ring (Some block) (u16 read_len) in
          let size := if read_len <=? size then size - read_len else 0 in
          app_uart_cmd_rx_loop reads size ring true
  end.

Definition app_uart_cmd_rx_indicate (reads : list (list Z)) (size : Z) (ring : app_uart_cmd_ring_t)
    : app_uart_cmd_ring_t * bool :=
  app_uart_cmd_rx_loop reads size ring false.

(** ** Specification: a queue of at most 4096 bytes *)

Definition queue_push (q : list Z) (b : Z) : bool * list Z :=
  if (4096 <=? Z.of_nat (length q)) then (false, q) else (true, q ++ [b]).

Definition queue_pop (q : list Z) : option Z * list Z :=
  match q with
  | [] => (None, [])
  | b :: q => (Some b, q)
  end.

Definition capacity : nat := Z.to_nat 4096.

Definition ring_inv (r : app_uart_cmd_ring_t) : Prop :=
  length (ring_buf r) = capacity /\ 0 <= ring_head r < 4096 /\ 0 <= ring_tail r < 4096 /\
  0 <= ring_count r <= 4096 /\ ring_head r = (ring_tail r + ring_count r) mod 4096.

(** The bytes in the ring, oldest first. *)
Definition contents (r : app_uart_cmd_ring_t) : list Z :=
  map (fun i => get (ring_buf r) ((ring_tail r + Z.of_nat i) mod 4096)) (seq 0 (Z.to_nat (ring_count r))).

(** ** Lemmas *)

Lemma capacity_Z : Z.of_nat capacity = 4096.
Proof. unfold capacity. lia. Qed.

#[local] Opaque capacity.

Ltac cap := pose proof capacity_Z; wraps.

Lemma length_contents r : length (contents r) = Z.to_nat (ring_count r).
Proof. unfold contents. by rewrite length_map, length_seq. Qed.

Lemma ring_zero_inv : ring_inv ring_zero /\ contents ring_zero = [].
Proof.
  split; [| done]. unfold ring_inv, ring_zero, APP_UART_CMD_RX_BUF_SIZE.
  cbn [ring_buf ring_head ring_tail ring_count].
  split_and?; try cap. apply length_replicate.
Qed.

Lemma push_spec r b :
  ring_inv r ->
  let '(ok, r') := app_uart_cmd_ring_push r b in
  ring_inv r' /\ (ok, contents r') = queue_push (contents r) b.
Proof.
  intros (Hl & Hh & Ht & Hc & Hw). unfold app_uart_cmd_ring_push, queue_push, APP_UART_CMD_RX_BUF_SIZE.
  rewrite length_contents. replace (Z.of_nat (Z.to_nat (ring_count r))) with (ring_count r) by cap.
  destruct (Z.leb_spec 4096 (ring_count r)) as [Hf|Hf]; [done |].
  cbn [ring_buf ring_head ring_tail ring_count update_with].
  split.
  - unfold ring_inv. cbn [ring_buf ring_head ring_tail ring_count]. rewrite length_put.
    split_and?; try done; cap.
  - f_equal. unfold contents at 1. cbn [ring_buf ring_head ring_tail ring_count].
    replace (Z.to_nat (u16 (ring_count r + 1))) with (Z.to_nat (ring_count r) + 1)%nat by cap.
    rewrite seq_app, map_app. simpl map at 2. f_equal.
    + unfold contents. apply map_ext_in. intros i [_ Hi]%in_seq. apply get_put_ne; cap.
    + f_equal. replace (ring_tail r + Z.of_nat (Z.to_nat (ring_count r))) with (ring_tail r + ring_count r) by cap.
      rewrite <- Hw. apply get_put_eq. cap.
Qed.

Lemma pop_spec r :
  ring_inv r ->
  let '(b, r') := app_uart_cmd_ring_pop r in
  ring_inv r' /\ (b, contents r') = queue_pop (contents r).
Proof.
  intros (Hl & Hh & Ht & Hc & Hw). unfold app_uart_cmd_ring_pop, APP_UART_CMD_RX_BUF_SIZE.
  destruct (Z.eqb_spec (ring_count r) 0) as [Hz|Hz].
  { split; [done |]. unfold contents. by rewrite Hz. }
  cbn [ring_buf ring_head ring_tail ring_count update_with]. split.
  - unfold ring_inv. cbn [ring_buf ring_head ring_tail ring_count]. split_and?; try done; cap.
  - unfold contents at 2. replace (Z.to_nat (ring_count r)) with (S (Z.to_nat (ring_count r - 1))) by cap.
    cbn [seq map queue_pop]. f_equal; [f_equal; f_equal; cap |].
    unfold contents. cbn [ring_buf ring_head ring_tail ring_count].
    rewrite <- seq_shift, map_map. replace (u16 (ring_count r - 1)) with (ring_count r - 1) by cap.
    apply map_ext_in. intros i [_ Hi]%in_seq. f_equal. unfold u16. cap.
Qed.

#[export] Hint Resolve push_spec pop_spec : dvr.

Lemma push_byte_spec r b :
  ring_inv r -> ring_inv (app_usart_cmd_push_byte r b) /\
  contents (app_usart_cmd_push_byte r b) = take capacity (contents r ++ [b]).
Proof.
  intros Hr. unfold app_usart_cmd_push_byte. pose proof (push_spec r b Hr) as Hp.
  destruct (app_uart_cmd_ring_push r b) as [ok r']. destruct Hp as [Hi E]. cbn [snd].
  split; [done |]. unfold queue_push in E.
  destruct (Z.leb_spec 4096 (Z.of_nat (length (contents r)))); injection E as -> ->.
  - rewrite take_app_le by cap. by rewrite take_ge; [| destruct Hr as (_ & _ & _ & ? & _); rewrite length_contents; cap].
  - rewrite take_ge; [done |]. rewrite length_app. simpl. cap.
Qed.

Lemma push_bytes_spec r l :
  ring_inv r ->
  ring_inv (foldl app_usart_cmd_push_byte r l) /\
  contents (foldl app_usart_cmd_push_byte r l) = take capacity (contents r ++ l).
Proof.
  revert r. induction l as [|b l IH]; intros r Hr; simpl.
  - split; [done |]. rewrite app_nil_r, take_ge; [done |].
    destruct Hr as (_ & _ & _ & ? & _). rewrite length_contents. cap.
  - destruct (push_byte_spec r b Hr) as [Hr' E]. destruct (IH _ Hr') as [Hi ->]. split; [done |].
    rewrite E. replace (contents r ++ b :: l) with ((contents r ++ [b]) ++ l) by (by rewrite <- app_assoc).
    generalize (contents r ++ [b]) as q. intros q.
    destruct (decide (length q <= capacity)%nat); [by rewrite (take_ge q) |].
    rewrite !take_app_le by (rewrite ?length_take; cap). by rewrite take_take, Nat.min_id.
Qed.

(** *** Sequences of operations *)

Inductive ring_op := Push (b : Z) | Pop.

(** The result of an operation: what [ring_push] returned or [ring_pop] delivered. *)
Inductive ring_res := Pushed (ok : bool) | Popped (b : option Z).

Definition ring_step (r : app_uart_cmd_ring_t) (op : ring_op) : ring_res * app_uart_cmd_ring_t :=
  match op with
  | Push b => let '(ok, r) := app_uart_cmd_ring_push r b in (Pushed ok, r)
  | Pop => let '(b, r) := app_uart_cmd_ring_pop r in (Popped b, r)
  end.

Definition queue_step (q : list Z) (op : ring_op) : ring_res * list Z :=
  match op with
  | Push b => let '(ok, q) := queue_push q b in (Pushed ok, q)
  | Pop => let '(b, q) := queue_pop q in (Popped b, q)
  end.

Fixpoint run_ops {S} (step : S -> ring_op -> ring_res * S) (ops : list ring_op) (s : S) : list ring_res * S :=
  match ops with
  | [] => ([], s)
  | op :: ops => let '(x, s) := step s op in let '(xs, s) := run_ops step ops s in (x :: xs, s)
  end.

Lemma step_spec r op :
  ring_inv r ->
  ring_inv (snd (ring_step r op)) /\
  (fst (ring_step r op), contents (snd (ring_step r op))) = queue_step (contents r) op.
Proof.
  intros Hr. destruct op as [b|]; simpl.
  - pose proof (push_spec r b Hr) as Hp. destruct (app_uart_cmd_ring_push r b) as [ok r'].
    destruct Hp as [Hi <-]. done.
  - pose proof (pop_spec r Hr) as Hp. destruct (app_uart_cmd_ring_pop r) as [b r'].
    destruct Hp as [Hi <-]. done.
Qed.

Lemma rx_loop_spec reads size r hd :
  ring_inv r -> Forall (fun b => 0 < Z.of_nat (length b) <= 128) reads -> 0 <= size ->
  exists blocks rest, reads = blocks ++ rest /\
    let '(r', hd') := app_uart_cmd_rx_loop reads size r hd in
    ring_inv r' /\ contents r' = take capacity (contents r ++ concat blocks) /\
    hd' = (hd || negb (bool_decide (blocks = []))) /\
    (rest <> [] -> size <= Z.of_nat (length (concat blocks))).
Proof.
  intros Hr Hb. revert size r hd Hr. induction Hb as [|b reads Hb _ IH]; intros size r hd Hr Hs; simpl.
  - exists [], []. split; [done |]. simpl. rewrite app_nil_r, orb_false_r.
    split_and?; try done. rewrite take_ge; [done |]. destruct Hr as (_ & _ & _ & ? & _). rewrite length_contents. cap.
  - destruct (Z.leb_spec size 0).
    { exists [], (b :: reads). split; [done |]. simpl. rewrite app_nil_r, orb_false_r.
      split_and?; try done; try lia. rewrite take_ge; [done |].
      destruct Hr as (_ & _ & _ & ? & _). rewrite length_contents. cap. }
    destruct (Z.eqb_spec (Z.of_nat (length b)) 0); [lia |].
    replace (u16 (Z.of_nat (length b))) with (Z.of_nat (length b)) by wraps.
    unfold app_usart_cmd_push_bytes. destruct (Z.eqb_spec (Z.of_nat (length b)) 0); [done |].
    rewrite Nat2Z.id, firstn_all. destruct (push_bytes_spec r b Hr) as [Hr1 Hc1].
    destruct (IH (if Z.of_nat (length b) <=? size then size - Z.of_nat (length b) else 0)
                 (foldl app_usart_cmd_push_byte r b) true Hr1) as (blocks & rest & -> & Hx);
      [case_match; bool_hyps; lia |].
    exists (b :: blocks), rest. split; [done |].
    destruct (app_uart_cmd_rx_loop _ _ _ true) as [r' hd']. destruct Hx as (Hi & Hc & -> & Hsz).
    simpl. rewrite orb_true_r, length_app. split_and?; [done | | done |].
    + rewrite Hc, Hc1. replace (contents r ++ b ++ concat blocks) with ((contents r ++ b) ++ concat blocks)
        by (by rewrite <- app_assoc). generalize (contents r ++ b) as q. intros q.
      destruct (decide (length q <= capacity)%nat); [by rewrite (take_ge q) |].
      rewrite !take_app_le by (rewrite ?length_take; lia). by rewrite take_take, Nat.min_id.
    + intros Hne. specialize (Hsz Hne). case_match; bool_hyps; lia.
Qed.

(** *** The accesses of a pop

    [app_uart_cmd_ring_pop] as its accesses to the ring in program order, each
    of which the compiled code makes in one instruction, between which the
    receive interrupt can come.  [p_reg] is the register of a read-modify-write. *)
Record pop_state := mk_pop { p_ring : app_uart_cmd_ring_t; p_returned : bool; p_byte : option Z; p_reg : Z }.

#[export] Instance eta_pop : Eta pop_state := fun s => mk_pop (p_ring s) (p_returned s) (p_byte s) (p_reg s).

Definition pop_program : list (pop_state -> pop_state) :=
  [ (* if (ring->count == 0U) return RT_FALSE; *)
    fun s => s <| p_returned := ring_count (p_ring s) =? 0 |>;
    (* *byte = ring->buf[ring->tail]; *)
    fun s => s <| p_byte := Some (get (ring_buf (p_ring s)) (ring_tail (p_ring s))) |>;
    (* ring->tail = (uint16_t)((ring->tail + 1U) % APP_UART_CMD_RX_BUF_SIZE); *)
    fun s => s <| p_reg := ring_tail (p_ring s) |>;
    fun s => s <| p_ring := p_ring s <| ring_tail := u16 ((p_reg s + 1) mod APP_UART_CMD_RX_BUF_SIZE) |> |>;
    (* ring->count--; *)
    fun s => s <| p_reg := ring_count (p_ring s) |>;
    fun s => s <| p_ring := p_ring s <| ring_count := u16 (p_reg s - 1) |> |> ].

(** What happens in the course of a pop: an access, unless it has returned, or
    an interrupt that pushes a byte. *)
Inductive pop_event := Access (step : pop_state -> pop_state) | Interrupt (b : Z).

Definition pop_step (s : pop_state) (ev : pop_event) : pop_state :=
  match ev with
  | Access step => if p_returned s then s else step s
  | Interrupt b => s <| p_ring := app_usart_cmd_push_byte (p_ring s) b |>
  end.

Definition pop_run (evs : list pop_event) (r : app_uart_cmd_ring_t) : pointer Z * app_uart_cmd_ring_t :=
  let s := foldl pop_step (mk_pop r false None 0) evs in (p_byte s, p_ring s).

(** The pop with the interrupt pushing [b] after its first [k] accesses. *)
Definition ring_pop_interrupted (k : nat) (r : app_uart_cmd_ring_t) (b : Z) : pointer Z * app_uart_cmd_ring_t :=
  pop_run (map Access (take k pop_program) ++ Interrupt b :: map Access (drop k pop_program)) r.

(** Without an interrupt the accesses are the pop. *)
Lemma pop_program_run r : pop_run (map Access pop_program) r = app_uart_cmd_ring_pop r.
Proof. unfold app_uart_cmd_ring_pop, pop_run. cbn. by destruct (ring_count r =? 0). Qed.

(** The ring after a push and a pop, with [c] in its counter. *)
Definition pushed_popped (c : Z) (r : app_uart_cmd_ring_t) (b : Z) : app_uart_cmd_ring_t :=
  mk_ring (put (ring_buf r) (ring_head r) b) (u16 ((ring_head r + 1) mod APP_UART_CMD_RX_BUF_SIZE))
    (u16 ((ring_tail r + 1) mod APP_UART_CMD_RX_BUF_SIZE)) c.

Lemma push_room buf h t c b : c < 4096 ->
  app_usart_cmd_push_byte (mk_ring buf h t c) b = mk_ring (put buf h b) (u16 ((h + 1) mod APP_UART_CMD_RX_BUF_SIZE)) t (u16 (c + 1)).
Proof.
  intros Hc. unfold app_usart_cmd_push_byte, app_uart_cmd_ring_push, APP_UART_CMD_RX_BUF_SIZE. cbn [ring_count].
  by rewrite (proj2 (Z.leb_gt 4096 c) Hc).
Qed.

(** Evaluate a pop event by event. *)
Ltac run_events E0 E1 :=
  repeat (cbn [foldl pop_step]; cbn [p_ring p_returned p_byte p_reg update_with ring_buf ring_head ring_tail ring_count];
          rewrite ?E0, ?E1; try rewrite push_room by wraps; cbv iota).

Lemma interrupted_result k r b : (k <= 6)%nat -> 0 < ring_count r < 4096 ->
  ring_pop_interrupted k r b =
  (Some (get (if (k <=? 1)%nat then put (ring_buf r) (ring_head r) b else ring_buf r) (ring_tail r)),
   pushed_popped (if (k <=? 4)%nat then u16 (u16 (ring_count r + 1) - 1) else if (k =? 5)%nat then u16 (ring_count r - 1)
                  else u16 (u16 (ring_count r - 1) + 1)) r b).
Proof.
  intros Hk Hc. destruct r as [buf h t c]. cbn [ring_count] in Hc. unfold pushed_popped.
  assert (c =? 0 = false) as E0 by (apply Z.eqb_neq; lia).
  assert (u16 (c + 1) =? 0 = false) as E1 by (apply Z.eqb_neq; wraps).
  unfold ring_pop_interrupted, pop_run. do 7 (destruct k as [| k]; [cbn [take drop map app pop_program]; run_events E0 E1; reflexivity |]). lia.
Qed.

Lemma contents_head r : ring_inv r -> 0 < ring_count r -> head (contents r) = Some (get (ring_buf r) (ring_tail r)).
Proof.
  intros (_ & _ & Ht & _) Hc. unfold contents. destruct (Z.to_nat (ring_count r)) as [| n] eqn:E; [lia |]. cbn. do 2 f_equal. lia.
Qed.

(** ** Properties *)

(** From initialisation, any sequence of pushes and pops returns what a
    first-in first-out queue of capacity 4096 returns (a push into a full ring
    is refused), and the ring holds the queue's bytes in order. *)
Theorem ring_refines_queue ops :
  let '(rs, r) := run_ops ring_step ops ring_zero in
  let '(qs, q) := run_ops queue_step ops [] in
  rs = qs /\ contents r = q.
Proof.
  destruct ring_zero_inv as [Hi Hc]. rewrite <- Hc. clear Hc. revert Hi. generalize ring_zero as r.
  induction ops as [|op ops IH]; intros r Hi; [done |]. cbn [run_ops].
  destruct (step_spec r op Hi) as [Hi' E]. destruct (ring_step r op) as [x r1], (queue_step (contents r) op) as [y q1].
  cbn [fst snd] in *. injection E as -> <-. specialize (IH r1 Hi').
  destruct (run_ops ring_step ops r1), (run_ops queue_step ops (contents r1)). by destruct IH as [-> ->].
Qed.

(** A receive notification moves the blocks the device delivers into the
    ring in order, keeping the oldest 4096 bytes, stops early only when the
    announced size is covered, and signals the command thread exactly when
    something was received. *)
Theorem rx_indicate_fills_ring reads size r :
  ring_inv r -> Forall (fun b => 0 < Z.of_nat (length b) <= 128) reads -> 0 <= size ->
  exists blocks rest, reads = blocks ++ rest /\
    let '(r', signalled) := app_uart_cmd_rx_indicate reads size r in
    contents r' = take capacity (contents r ++ concat blocks) /\
    signalled = negb (bool_decide (blocks = [])) /\
    (rest <> [] -> size <= Z.of_nat (length (concat blocks))).
Proof.
  intros Hr Hb Hs. destruct (rx_loop_spec reads size r false Hr Hb Hs) as (blocks & rest & -> & Hx).
  exists blocks, rest. split; [done |]. unfold app_uart_cmd_rx_indicate.
  destruct (app_uart_cmd_rx_loop _ _ _ _) as [r' hd]. by destruct Hx as (_ & ? & -> & ?).
Qed.

Lemma rx_indicate_fills_ring_witness :
  exists blocks rest, [[1; 2; 3]; [4; 5]; [6]] = blocks ++ rest /\
    let '(r', signalled) := app_uart_cmd_rx_indicate [[1; 2; 3]; [4; 5]; [6]] 5 ring_zero in
    contents r' = take capacity (contents ring_zero ++ concat blocks) /\
    signalled = negb (bool_decide (blocks = [])) /\
    (rest <> [] -> 5 <= Z.of_nat (length (concat blocks))).
Proof.
  refine (rx_indicate_fills_ring [[1; 2; 3]; [4; 5]; [6]] 5 ring_zero (proj1 ring_zero_inv) _ _).
  - repeat constructor; simpl; lia.
  - lia.
Defined.

(** C40: the receive interrupt inside a pop, at every point.  The accesses the
    code makes are those of [app_uart_cmd_ring_pop]; when an interrupt pushes a
    byte between two of them, the pop delivers the oldest byte, and the ring
    then holds the others and the new one, except between the load and the store of
    [ring->count--]: there the new byte is lost and the ring is left
    inconsistent, its head no longer following its contents. *)
Theorem pop_interrupted_anywhere r b k :
  ring_inv r -> 0 < ring_count r < 4096 -> (k <= length pop_program)%nat ->
  pop_run (map Access pop_program) r = app_uart_cmd_ring_pop r /\
  let '(byte, r') := ring_pop_interrupted k r b in
  byte = head (contents r) /\
  if (k =? 5)%nat then length (contents r') = (length (contents r) - 1)%nat /\ ~ ring_inv r'
  else ring_inv r' /\ contents r' = drop 1 (contents r ++ [b]).
Proof.
  intros Hr Hc Hk. split; [apply pop_program_run |]. cbn [length pop_program] in Hk.
  rewrite interrupted_result by done. rewrite (contents_head r Hr) by lia.
  pose proof Hr as (Hl & Hh & Ht & _ & Hw). pose proof capacity_Z as Hcap.
  split.
  - f_equal. case_match; [| done]. apply get_put_ne; [lia.. |]. clear -Hw Hc Ht Hh. lia.
  - destruct (Nat.eqb_spec k 5) as [-> | Hne].
    + cbn [Nat.leb]. rewrite !length_contents. unfold pushed_popped. cbn [ring_count]. split; [wraps |].
      unfold ring_inv, APP_UART_CMD_RX_BUF_SIZE. cbn [ring_buf ring_head ring_tail ring_count]. intros (_ & _ & _ & _ & E).
      revert E. rewrite Hw. wraps.
    + assert (pushed_popped (if (k <=? 4)%nat then u16 (u16 (ring_count r + 1) - 1) else u16 (u16 (ring_count r - 1) + 1)) r b =
              snd (app_uart_cmd_ring_pop (app_usart_cmd_push_byte r b))) as ->.
      { destruct r as [buf h t c]. cbn [ring_count] in *. rewrite push_room by lia. unfold app_uart_cmd_ring_pop. cbn [ring_count].
        rewrite (proj2 (Z.eqb_neq (u16 (c + 1)) 0)) by wraps. unfold pushed_popped. cbn. f_equal. destruct (k <=? 4)%nat; wraps. }
      destruct (push_byte_spec r b Hr) as [Hi Hcp]. pose proof (pop_spec _ Hi) as Hp.
      destruct (app_uart_cmd_ring_pop (app_usart_cmd_push_byte r b)) as [x r']. destruct Hp as [Hi' Hq]. cbn [snd]. split; [done |].
      rewrite Hcp, take_ge in Hq by (rewrite length_app, length_contents; cbn; lia).
      destruct (contents r ++ [b]); injection Hq as _ ->; done.
Qed.

Lemma pop_interrupted_anywhere_witness :
  let r := app_usart_cmd_push_byte ring_zero 7 in
  contents (snd (ring_pop_interrupted 4 r 8)) = [8] /\ contents (snd (ring_pop_interrupted 5 r 8)) = [] /\
  ~ ring_inv (snd (ring_pop_interrupted 5 r 8)).
Proof.
  set (r := app_usart_cmd_push_byte ring_zero 7).
  assert (ring_inv r) as Hr by exact (proj1 (push_byte_spec ring_zero 7 (proj1 ring_zero_inv))).
  assert (0 < ring_count r < 4096) as Hc by (by vm_compute).
  split; [vm_compute; reflexivity |]. split; [vm_compute; reflexivity |].
  destruct (pop_interrupted_anywhere r 8 5 Hr Hc ltac:(cbn; lia)) as [_ H].
  destruct (ring_pop_interrupted 5 r 8) as [x r']. exact (proj2 (proj2 H)).
Defined.
