(* ===== verification/Serial.v ===== *)
(** * The serial driver of the host line ([serial_v2.c], [drv_uart_v2.c], [device.c])

    From the wire to the receive ring of the application: a transfer into the
    driver's 1024-byte block, on its end or on an idle line the driver's
    buffer, and the notification that moves the bytes into the application's
    ring.  And from a frame of the application to the wire.

    The functions are those compiled for this board (serial framework 2, line
    idle detection, receive transfers without blocking).  [None] is a halt on
    an assertion or a wait. *)

From S2P Require Import Prelude Ringbuffer UartRing.

(** ** Flags and data *)

Definition RT_DEVICE_FLAG_RDWR : Z := 0x003.
Definition RT_DEVICE_FLAG_STANDALONE : Z := 0x008.
Definition RT_DEVICE_FLAG_ACTIVATED : Z := 0x010.
Definition RT_DEVICE_FLAG_STREAM : Z := 0x040.
Definition RT_DEVICE_FLAG_DMA_RX : Z := 0x200.
Definition RT_DEVICE_OFLAG_OPEN : Z := 0x008.
Definition RT_DEVICE_OFLAG_MASK : Z := 0xf0f.
Definition RT_SERIAL_RX_BLOCKING : Z := 0x1000.
Definition RT_SERIAL_RX_NON_BLOCKING : Z := 0x2000.
Definition RT_SERIAL_TX_BLOCKING : Z := 0x4000.
Definition RT_SERIAL_TX_NON_BLOCKING : Z := 0x8000.
Definition RT_SERIAL_RX_MINBUFSZ : Z := 64.
Definition RT_SERIAL_EVENT_RX_DMADONE : Z := 0x03.
Definition BSP_UART3_RX_BUFSIZE : Z := 4096.
Definition BSP_UART3_TX_BUFSIZE : Z := 0.
(** [sizeof(uart->rx_idle_tmp_buffer)] *)
Definition rx_idle_tmp_buffer_size : Z := 1024.

(** [x & m] as a condition. *)
Definition flag (x m : Z) : bool := negb (Z.land x m =? 0).

(** What [dev->read] and [dev->write] point to. *)
Inductive reader := serial_fifo_rx | serial_poll_rx.
Inductive writer := serial_poll_tx.

(** The serial device with its driver's part: the transfer block, the bytes
    the transfer channel still takes (0: not enabled), the bytes in the
    hardware's receive queue, and whether the application's notification is
    set. *)
Record serial_device := mk_serial {
  dev_flag : Z;
  open_flag : Z;
  ref_count : Z;
  rx_bufsz : Z;
  tx_bufsz : Z;
  serial_rx : pointer rt_ringbuffer;
  rx_cpt_index : Z;
  dev_read : pointer reader;
  dev_write : pointer writer;
  rx_indicate : bool;
  rx_idle_tmp_buffer : list Z;
  dma_remaining : Z;
  rx_hardware : list Z
}.

#[export] Instance eta_serial : Eta serial_device := fun d =>
  mk_serial (dev_flag d) (open_flag d) (ref_count d) (rx_bufsz d) (tx_bufsz d) (serial_rx d) (rx_cpt_index d)
    (dev_read d) (dev_write d) (rx_indicate d) (rx_idle_tmp_buffer d) (dma_remaining d) (rx_hardware d).

(** ** Opening *)

(** What the surroundings answer while the device is opened: the result of the
    hardware configuration, the memory allocated, whether it starts at a cache
    line, the memory allocated otherwise (with the bytes at [rx_cpt_index] in
    it), and the set-up of the channel. *)
Record environment := mk_env {
  configured : bool; pool : list Z; aligned : bool; aligned_pool : list Z; stale_index : Z; channel : bool
}.

(** [hpm_uart_dma_config], reception *)
Definition hpm_uart_dma_config (env : environment) (dev : serial_device) : serial_device :=
  if channel env then dev <| dma_remaining := rx_idle_tmp_buffer_size |> else dev.

(** [hpm_uart_control(RT_DEVICE_CTRL_CONFIG)], reception *)
Definition hpm_uart_control_config (env : environment) (dev : serial_device) : serial_device :=
  let dev :=
    match serial_rx dev with
    | Some _ =>
        if aligned env then dev
        else dev <| serial_rx := Some (rt_ringbuffer_reset (rt_ringbuffer_init (aligned_pool env) (rx_bufsz dev))) |>
                 <| rx_cpt_index := stale_index env |>
    | None => dev
    end in
  hpm_uart_dma_config env dev.

Definition rt_serial_rx_enable (env : environment) (rx_oflag : Z) (dev : serial_device) : bool * serial_device :=
  if rx_bufsz dev =? 0 then
    if rx_oflag =? RT_SERIAL_RX_NON_BLOCKING then (false, dev)
    else (true, dev <| dev_read := Some serial_poll_rx |> <| open_flag := Z.lor (open_flag dev) RT_SERIAL_RX_BLOCKING |>)
  else
    let dev := if rx_bufsz dev <? RT_SERIAL_RX_MINBUFSZ then dev <| rx_bufsz := RT_SERIAL_RX_MINBUFSZ |> else dev in
    let dev := dev <| serial_rx := Some (rt_ringbuffer_init (pool env) (rx_bufsz dev)) |> in
    let dev := dev <| dev_read := Some serial_fifo_rx |> in
    if rx_oflag =? RT_SERIAL_RX_NON_BLOCKING then
      (true, hpm_uart_control_config env (dev <| open_flag := Z.lor (open_flag dev) RT_SERIAL_RX_NON_BLOCKING |>))
    else
      let dev := dev <| rx_cpt_index := 0 |> in
      (true, hpm_uart_control_config env (dev <| open_flag := Z.lor (open_flag dev) RT_SERIAL_RX_BLOCKING |>)).

(** [rt_serial_tx_enable] of a device without transmit buffer *)
Definition rt_serial_tx_enable (tx_oflag : Z) (dev : serial_device) : bool * serial_device :=
  if tx_oflag =? RT_SERIAL_TX_NON_BLOCKING then (false, dev)
  else (true, dev <| dev_write := Some serial_poll_tx |> <| open_flag := Z.lor (open_flag dev) RT_SERIAL_TX_BLOCKING |>).

Definition rt_serial_open (env : environment) (oflag : Z) (dev : serial_device) : serial_device :=
  if flag (open_flag dev) (Z.shiftl 15 12) then dev
  else
    let dev := dev <| open_flag := Z.lor (open_flag dev)
      (if Z.land oflag RT_SERIAL_RX_BLOCKING =? RT_SERIAL_RX_BLOCKING then RT_SERIAL_RX_BLOCKING else RT_SERIAL_RX_NON_BLOCKING) |> in
    let dev := dev <| open_flag := Z.lor (open_flag dev)
      (if Z.land oflag RT_SERIAL_TX_NON_BLOCKING =? RT_SERIAL_TX_NON_BLOCKING then RT_SERIAL_TX_NON_BLOCKING else RT_SERIAL_TX_BLOCKING) |> in
    let dev := if flag oflag RT_DEVICE_FLAG_STREAM || flag (open_flag dev) RT_DEVICE_FLAG_STREAM
               then dev <| open_flag := Z.lor (open_flag dev) RT_DEVICE_FLAG_STREAM |> else dev in
    let dev := match serial_rx dev with
               | None => snd (rt_serial_rx_enable env (Z.land (open_flag dev) (Z.lor RT_SERIAL_RX_BLOCKING RT_SERIAL_RX_NON_BLOCKING)) dev)
               | Some _ => dev
               end in
    snd (rt_serial_tx_enable (Z.land (open_flag dev) (Z.lor RT_SERIAL_TX_BLOCKING RT_SERIAL_TX_NON_BLOCKING)) dev).

Definition rt_serial_init (env : environment) (dev : serial_device) : bool * serial_device :=
  (configured env, dev <| serial_rx := None |>).

(** The first component is false when an error is returned. *)
Definition rt_device_open (env : environment) (oflag : Z) (dev : serial_device) : bool * serial_device :=
  let '(ok, dev) :=
    if flag (dev_flag dev) RT_DEVICE_FLAG_ACTIVATED then (true, dev)
    else
      let '(ok, dev) := rt_serial_init env dev in
      (ok, if ok : bool then dev <| dev_flag := Z.lor (dev_flag dev) RT_DEVICE_FLAG_ACTIVATED |> else dev) in
  if negb ok then (false, dev)
  else if flag (dev_flag dev) RT_DEVICE_FLAG_STANDALONE && flag (open_flag dev) RT_DEVICE_OFLAG_OPEN then (false, dev)
  else
    let dev :=
      if negb (flag (open_flag dev) RT_DEVICE_OFLAG_OPEN) ||
         negb (Z.land (open_flag dev) RT_DEVICE_OFLAG_MASK =? Z.land oflag RT_DEVICE_OFLAG_MASK)
      then rt_serial_open env oflag dev else dev in
    (true, dev <| open_flag := Z.lor (open_flag dev) RT_DEVICE_OFLAG_OPEN |> <| ref_count := u8 (ref_count dev + 1) |>).

Definition rt_device_set_rx_indicate (dev : serial_device) : serial_device := dev <| rx_indicate := true |>.

(** The device as [rt_hw_uart_init] registers it; the block's bytes are those
    of static memory. *)
Definition uart3_registered : serial_device :=
  mk_serial RT_DEVICE_FLAG_RDWR 0 0 BSP_UART3_RX_BUFSIZE BSP_UART3_TX_BUFSIZE None 0 None None false
    (zeros (Z.to_nat rx_idle_tmp_buffer_size)) 0 [].

(** ** Receiving *)

(** Reading from the driver's buffer; a blocking device waits for the bytes it
    has not got. *)
Definition _serial_fifo_rx (dev : serial_device) (size : Z) : option (list Z * serial_device) :=
  if size =? 0 then Some ([], dev)
  else
    match serial_rx dev with
    | None => None
    | Some rb =>
        if flag (open_flag dev) RT_SERIAL_RX_BLOCKING && (rx_bufsz dev <? size) then Some ([], dev)
        else if flag (open_flag dev) RT_SERIAL_RX_BLOCKING && (rt_ringbuffer_data_len rb <? size) then None
        else let '(l, rb) := rt_ringbuffer_get rb size in Some (l, dev <| serial_rx := Some rb |>)
    end.

(** A byte from the hardware: [result] is [-1] and its low byte is overwritten. *)
Definition hpm_uart_getc (hardware : list Z) : Z * list Z :=
  match hardware with
  | [] => (-1, [])
  | b :: hardware => (b - 256, hardware)
  end.

Fixpoint _serial_poll_rx (stream : bool) (size : nat) (hardware : list Z) : list Z * list Z :=
  match size with
  | O => ([], hardware)
  | S size =>
      let '(getc_element, hardware) := hpm_uart_getc hardware in
      if getc_element =? -1 then ([], hardware)
      else if stream && (getc_element =? 10) then ([u8 getc_element], hardware)
      else let '(l, hardware) := _serial_poll_rx stream size hardware in (u8 getc_element :: l, hardware)
  end.

Definition rt_device_read (dev : serial_device) (size : Z) : option (list Z * serial_device) :=
  if ref_count dev =? 0 then Some ([], dev)
  else
    match dev_read dev with
    | Some serial_fifo_rx => _serial_fifo_rx dev size
    | Some serial_poll_rx =>
        let '(l, hardware) := _serial_poll_rx (flag (open_flag dev) RT_DEVICE_FLAG_STREAM) (Z.to_nat size) (rx_hardware dev) in
        Some (l, dev <| rx_hardware := hardware |>)
    | None => Some ([], dev)
    end.

(** The blocks the successive [rt_device_read] calls of
    [app_uart_cmd_rx_indicate] return. *)
Fixpoint rx_blocks (fuel : nat) (size : Z) (dev : serial_device) : option (list (list Z) * serial_device) :=
  match fuel with
  | O => Some ([], dev)
  | S fuel =>
      if size <=? 0 then Some ([], dev)
      else
        let read_len := if 128 <? size then 128 else size in
        '(block, dev) ← rt_device_read dev read_len;
        let read_len := Z.of_nat (length block) in
        if read_len =? 0 then Some ([], dev)
        else
          '(blocks, dev) ← rx_blocks fuel (if read_len <=? size then size - read_len else 0) dev;
          Some (block :: blocks, dev)
  end.

(** The device, the ring of the application, and how often its semaphore was
    released. *)
Record line := mk_line { l_dev : serial_device; l_ring : app_uart_cmd_ring_t; l_signals : Z }.

#[export] Instance eta_line : Eta line := fun l => mk_line (l_dev l) (l_ring l) (l_signals l).

(** [app_uart_cmd_rx_indicate] on this device. *)
Definition notify_application (size : Z) (l : line) : option line :=
  '(blocks, dev) ← rx_blocks (Z.to_nat size) size (l_dev l);
  let '(ring, released) := app_uart_cmd_rx_indicate blocks size (l_ring l) in
  Some (mk_line dev ring (l_signals l + b2u released)).

Definition rt_serial_update_write_index (rb : rt_ringbuffer) (write_size : Z) : Z * rt_ringbuffer :=
  let size := u16 (rt_ringbuffer_space_len rb) in
  let write_size := if size <? write_size then size else write_size in
  if write_size <? buffer_size rb - write_index rb then (write_size, rb <| write_index := write_index rb + write_size |>)
  else (write_size, rb <| write_mirror := negb (write_mirror rb) |>
                       <| write_index := write_size - (buffer_size rb - write_index rb) |>).

(** [rt_hw_serial_isr], reception *)
Definition rt_hw_serial_isr (event : Z) (l : line) : option line :=
  match serial_rx (l_dev l) with
  | None => None
  | Some rb =>
      let rx_length := Z.shiftr (Z.land event (Z.lnot 0xff)) 8 in
      let rb := if rx_length =? 0 then rb else snd (rt_serial_update_write_index rb (u16 rx_length)) in
      let dev := l_dev l <| serial_rx := Some rb |> in
      let rx_length := rt_ringbuffer_data_len rb in
      if rx_length =? 0 then Some (l <| l_dev := dev |>)
      else
        let dev := if flag (open_flag dev) RT_SERIAL_RX_BLOCKING && negb (rx_cpt_index dev =? 0) && (rx_cpt_index dev <=? rx_length)
                   then dev <| rx_cpt_index := 0 |> else dev in
        let l := l <| l_dev := dev |> in
        if rx_indicate dev then notify_application rx_length l else Some l
  end.

Definition hpm_uart_receive_dma_next (l : line) : line :=
  l <| l_dev := l_dev l <| dma_remaining := rx_idle_tmp_buffer_size |> |>.

Definition uart_rx_done (l : line) : option line :=
  let dev := l_dev l in
  let uart_recv_data_count := rx_idle_tmp_buffer_size - dma_remaining dev in
  match serial_rx dev with
  | None => Some l
  | Some rb =>
      let '(_, rb) := rt_ringbuffer_put rb (rx_idle_tmp_buffer dev) uart_recv_data_count in
      l ← rt_hw_serial_isr RT_SERIAL_EVENT_RX_DMADONE (l <| l_dev := dev <| serial_rx := Some rb |> |>);
      Some (hpm_uart_receive_dma_next l)
  end.

(** The interrupt on an idle line, [hpm_uart_isr]. *)
Definition uart_idle_isr (l : line) : option line :=
  if 0 <? dma_remaining (l_dev l) then uart_rx_done l else Some l.

(** ** What happens on the line *)

(** A byte arrives, the line is idle, or the command thread takes a byte. *)
Inductive line_event := Arrives (b : Z) | Idle | Taken.

#[export] Instance line_event_eq_dec : EqDecision line_event.
Proof. solve_decision. Defined.

(** The transfer channel stores a byte; its last byte ends the transfer
    ([uart_dma_tc_callback]). *)
Definition dma_byte (b : Z) (l : line) : option line :=
  let dev := l_dev l in
  if dma_remaining dev =? 0 then Some l
  else
    let dev := dev <| rx_idle_tmp_buffer := put (rx_idle_tmp_buffer dev) (rx_idle_tmp_buffer_size - dma_remaining dev) b |>
                   <| dma_remaining := dma_remaining dev - 1 |> in
    let l := l <| l_dev := dev |> in
    if dma_remaining dev =? 0 then uart_rx_done l else Some l.

Definition line_step (l : line) (ev : line_event) : option line :=
  match ev with
  | Arrives b => dma_byte b l
  | Idle => uart_idle_isr l
  | Taken => Some (l <| l_ring := snd (app_uart_cmd_ring_pop (l_ring l)) |>)
  end.

Fixpoint line_run (l : line) (evs : list line_event) : option line :=
  match evs with
  | [] => Some l
  | ev :: evs => l ← line_step l ev; line_run l evs
  end.

(** [app_usart_cmd_init]: the device is opened and the notification set. *)
Definition open_line (env : environment) : line :=
  let '(_, dev) := rt_device_open env (Z.lor RT_DEVICE_FLAG_DMA_RX RT_DEVICE_FLAG_RDWR) uart3_registered in
  mk_line (rt_device_set_rx_indicate dev) ring_zero 0.

(** ** Transmitting *)

(** The bytes put on the wire. *)
Fixpoint _serial_poll_tx (stream : bool) (buffer : list Z) : list Z :=
  match buffer with
  | [] => []
  | c :: buffer => (if stream && (c =? 10) then [13] else []) ++ [c] ++ _serial_poll_tx stream buffer
  end.

(** The number of bytes accepted and the bytes put on the wire. *)
Definition rt_device_write (dev : serial_device) (buffer : list Z) : Z * list Z :=
  if ref_count dev =? 0 then (0, [])
  else
    match dev_write dev with
    | None => (0, [])
    | Some serial_poll_tx => (Z.of_nat (length buffer), _serial_poll_tx (flag (open_flag dev) RT_DEVICE_FLAG_STREAM) buffer)
    end.

(** ** Specification *)

(** The application sees the line as a queue of 4096 bytes that is extended in
    whole transfers: by 1024 bytes, or by what has come when the line is idle. *)
Record abstract_line := mk_abstract { a_queue : list Z; a_staged : list Z; a_signals : Z }.

Definition deliver (a : abstract_line) : abstract_line :=
  mk_abstract (take capacity (a_queue a ++ a_staged a)) []
    (a_signals a + b2u (negb (bool_decide (a_staged a = [])))).

Definition abstract_step (a : abstract_line) (ev : line_event) : abstract_line :=
  match ev with
  | Arrives b =>
      let a := mk_abstract (a_queue a) (a_staged a ++ [b]) (a_signals a) in
      if Z.of_nat (length (a_staged a)) =? 1024 then deliver a else a
  | Idle => deliver a
  | Taken => mk_abstract (snd (queue_pop (a_queue a))) (a_staged a) (a_signals a)
  end.

(** The device is open for receiving and its buffer is empty; the transfer
    block holds the staged bytes. *)
Definition device_ready (dev : serial_device) : Prop :=
  ref_count dev <> 0 /\ dev_read dev = Some serial_fifo_rx /\ flag (open_flag dev) RT_SERIAL_RX_BLOCKING = false /\
  rx_indicate dev = true.

Definition device_holds (dev : serial_device) (q : list Z) : Prop :=
  exists rb, serial_rx dev = Some rb /\ buffer_size rb = 4096 /\ rb_holds rb q.

Definition staged (dev : serial_device) (l : list Z) : Prop :=
  length (rx_idle_tmp_buffer dev) = 1024%nat /\ 0 < dma_remaining dev /\
  Z.of_nat (length l) = 1024 - dma_remaining dev /\ take (length l) (rx_idle_tmp_buffer dev) = l.

Definition line_matches (l : line) (a : abstract_line) : Prop :=
  device_ready (l_dev l) /\ device_holds (l_dev l) [] /\ staged (l_dev l) (a_staged a) /\
  ring_inv (l_ring l) /\ contents (l_ring l) = a_queue a /\ l_signals l = a_signals a.

(** ** Lemmas *)

Lemma ready_rx dev rx : device_ready dev -> device_ready (dev <| serial_rx := rx |>).
Proof. done. Qed.

Lemma fifo_read dev rb q n : device_ready dev -> serial_rx dev = Some rb -> rb_holds rb q -> 0 < n ->
  exists rb', rt_device_read dev n = Some (take (Z.to_nat n) q, dev <| serial_rx := Some rb' |>) /\
    buffer_size rb' = buffer_size rb /\ rb_holds rb' (drop (Z.to_nat n) q).
Proof.
  intros (Hc & Hd & Hf & _) Hrb Hq Hn. unfold rt_device_read, _serial_fifo_rx.
  rewrite (proj2 (Z.eqb_neq _ _) Hc), Hd, Hrb, Hf, (proj2 (Z.eqb_neq n 0)) by lia. cbn [andb].
  destruct (get_holds rb q n Hq ltac:(lia)) as (rb' & -> & Hs & Hh). by exists rb'.
Qed.

Lemma rx_blocks_all fuel dev rb q : device_ready dev -> serial_rx dev = Some rb -> rb_holds rb q -> (length q <= fuel)%nat ->
  exists blocks rb', rx_blocks fuel (Z.of_nat (length q)) dev = Some (blocks, dev <| serial_rx := Some rb' |>) /\
    concat blocks = q /\ Forall (fun b => 0 < Z.of_nat (length b) <= 128) blocks /\ buffer_size rb' = buffer_size rb /\ rb_holds rb' [].
Proof.
  revert dev rb q. induction fuel as [| fuel IH]; intros dev rb q Hd Hrb Hq Hf.
  - destruct q; [| cbn in Hf; lia]. exists [], rb. split_and!; try done. cbn. f_equal. f_equal. destruct dev. cbn in *. by subst.
  - cbn [rx_blocks]. destruct (Z.leb_spec (Z.of_nat (length q)) 0).
    { destruct q; [| cbn in *; lia]. exists [], rb. split_and!; try done. f_equal. f_equal. destruct dev. cbn in *. by subst. }
    set (n := if 128 <? Z.of_nat (length q) then 128 else Z.of_nat (length q)).
    assert (0 < n <= 128 /\ n <= Z.of_nat (length q)) as Hn by (subst n; case_match; bool_hyps; lia).
    destruct (fifo_read dev rb q n Hd Hrb Hq ltac:(lia)) as (rb1 & -> & Hs1 & Hh1). cbn [mbind option_bind].
    assert (Z.of_nat (length (take (Z.to_nat n) q)) = n) as Hl by (rewrite length_take; lia). rewrite Hl.
    rewrite (proj2 (Z.eqb_neq n 0)), (proj2 (Z.leb_le n _)) by lia.
    destruct (IH (dev <| serial_rx := Some rb1 |>) rb1 (drop (Z.to_nat n) q)) as (blocks & rb' & Hx & Hc & Hb & Hs & Hh);
      [done | done | done | rewrite length_drop; lia |].
    replace (Z.of_nat (length (drop (Z.to_nat n) q))) with (Z.of_nat (length q) - n) in Hx by (rewrite length_drop; lia).
    rewrite Hx. cbn [mbind option_bind]. exists (take (Z.to_nat n) q :: blocks), rb'. split_and!; [done | | | by rewrite Hs | done].
    + cbn [concat]. by rewrite Hc, take_drop.
    + constructor; [rewrite Hl; lia | done].
Qed.

(** Nothing is left behind when the blocks cover the announced size. *)
Lemma indicate_all blocks r : ring_inv r -> Forall (fun b => 0 < Z.of_nat (length b) <= 128) blocks ->
  let '(r', released) := app_uart_cmd_rx_indicate blocks (Z.of_nat (length (concat blocks))) r in
  ring_inv r' /\ contents r' = take capacity (contents r ++ concat blocks) /\ released = negb (bool_decide (concat blocks = [])).
Proof.
  intros Hr Hb. destruct (rx_loop_spec blocks (Z.of_nat (length (concat blocks))) r false Hr Hb ltac:(lia)) as (used & rest & E & Hx).
  unfold app_uart_cmd_rx_indicate. destruct (app_uart_cmd_rx_loop _ _ _ false) as [r' hd]. destruct Hx as (Hi & Hc & -> & Hrest).
  assert (rest = []) as ->.
  { destruct rest as [| b rest]; [done |]. specialize (Hrest ltac:(done)). rewrite E, concat_app, !length_app in Hrest. cbn in Hrest.
    rewrite E in Hb. apply Forall_app in Hb as [_ Hb]. apply Forall_cons in Hb as [Hb _]. rewrite length_app in Hrest. lia. }
  rewrite app_nil_r in E. subst used. split_and!; [done | done |]. cbn [orb]. f_equal. apply bool_decide_ext.
  destruct Hb as [| b blocks Hb _]; [done |]. cbn. split; [done |]. intros [-> _]%app_eq_nil. cbn in Hb. lia.
Qed.

Lemma isr_notifies l rb q : device_ready (l_dev l) -> serial_rx (l_dev l) = Some rb -> rb_holds rb q ->
  rt_hw_serial_isr RT_SERIAL_EVENT_RX_DMADONE l = if Z.of_nat (length q) =? 0 then Some l else notify_application (Z.of_nat (length q)) l.
Proof.
  destruct l as [[] ring sig]. intros (_ & _ & Hf & Hi) Hrb Hq. cbn in Hf, Hi, Hrb. subst. unfold rt_hw_serial_isr.
  cbn [l_dev serial_rx update_with open_flag rx_indicate].
  change (Z.shiftr (Z.land RT_SERIAL_EVENT_RX_DMADONE (Z.lnot 0xff)) 8 =? 0) with true. cbv iota. rewrite Hf. by rewrite (rb_holds_len rb q Hq).
Qed.

(** The notification empties the driver's buffer into the ring. *)
Lemma notify_drains l rb q : device_ready (l_dev l) -> serial_rx (l_dev l) = Some rb -> rb_holds rb q -> ring_inv (l_ring l) ->
  exists rb' r', notify_application (Z.of_nat (length q)) l =
      Some (mk_line (l_dev l <| serial_rx := Some rb' |>) r' (l_signals l + b2u (negb (bool_decide (q = []))))) /\
    buffer_size rb' = buffer_size rb /\ rb_holds rb' [] /\ ring_inv r' /\ contents r' = take capacity (contents (l_ring l) ++ q).
Proof.
  intros Hd Hrb Hq Hr. unfold notify_application. rewrite Nat2Z.id.
  destruct (rx_blocks_all (length q) (l_dev l) rb q Hd Hrb Hq ltac:(lia)) as (blocks & rb' & -> & Hcat & Hb & Hs & Hh).
  cbn [mbind option_bind]. rewrite <- Hcat. pose proof (indicate_all blocks (l_ring l) Hr Hb) as Hx.
  destruct (app_uart_cmd_rx_indicate _ _ _) as [ring released]. destruct Hx as (Hri & Hrc & ->). by exists rb', ring.
Qed.

(** A finished transfer: the staged bytes go through the driver's buffer into
    the ring, and the channel starts at the beginning of the block again. *)
Lemma rx_done_delivers l a tmp n : device_ready (l_dev l) -> device_holds (l_dev l) [] -> ring_inv (l_ring l) ->
  contents (l_ring l) = a_queue a -> l_signals l = a_signals a ->
  rx_idle_tmp_buffer (l_dev l) = tmp -> length tmp = 1024%nat -> 0 <= n <= 1024 -> dma_remaining (l_dev l) = 1024 - n ->
  take (Z.to_nat n) tmp = a_staged a -> exists l', uart_rx_done l = Some l' /\ line_matches l' (deliver a).
Proof.
  intros Hd (rb & Hrb & Hs & Hq) Hr Hc Hsig Ht Hl Hn Hrem Hst. unfold uart_rx_done. rewrite Hrb, Ht, Hrem.
  unfold rx_idle_tmp_buffer_size. replace (1024 - (1024 - n)) with n by lia.
  destruct (put_holds rb [] tmp n Hq ltac:(lia)) as (rb1 & -> & Hs1 & Hh1).
  rewrite Z.min_l in Hh1 by (cbn; lia). rewrite Hst in Hh1. cbn [app] in Hh1. rewrite Hs in Hs1.
  set (l1 := l <| l_dev := _ |>). assert (device_ready (l_dev l1)) as Hd1 by done.
  assert (length (contents (l_ring l)) <= capacity)%nat as Hcap
    by (destruct Hr as (_ & _ & _ & ? & _); rewrite length_contents; pose proof capacity_Z; lia).
  rewrite (isr_notifies l1 rb1 (a_staged a)) by done. destruct (Z.eqb_spec (Z.of_nat (length (a_staged a))) 0) as [E | E].
  - assert (a_staged a = []) as Ea by (destruct (a_staged a); [done | cbn in E; lia]). rewrite Ea in Hh1.
    eexists. split; [reflexivity |]. unfold deliver. rewrite Ea, app_nil_r.
    split_and!; cbn; rewrite ?Ht; try done; try lia; [by exists rb1 |]. by rewrite take_ge, Hc by (by rewrite <- Hc).
  - destruct (notify_drains l1 rb1 (a_staged a) Hd1 eq_refl Hh1 Hr) as (rb2 & r2 & -> & Hs2 & Hh2 & Hr2 & Hc2).
    eexists. split; [reflexivity |]. split_and!; cbn; rewrite ?Ht; try done; try lia.
    + exists rb2. split_and!; [done | congruence | done].
    + by rewrite Hc2, <- Hc.
Qed.

Lemma step_matches l a ev : line_matches l a -> exists l', line_step l ev = Some l' /\ line_matches l' (abstract_step a ev).
Proof.
  intros (Hd & Hh & (Htl & Hrem & Hsl & Hst) & Hr & Hc & Hsig). destruct ev as [b | |]; cbn [line_step abstract_step].
  - unfold dma_byte, rx_idle_tmp_buffer_size. rewrite (proj2 (Z.eqb_neq (dma_remaining _) 0)) by lia.
    cbn [dma_remaining update_with a_staged a_queue a_signals]. rewrite length_app. cbn [length].
    set (tmp := put (rx_idle_tmp_buffer (l_dev l)) (1024 - dma_remaining (l_dev l)) b).
    assert (take (length (a_staged a) + 1) tmp = a_staged a ++ [b]) as Hst'.
    { unfold tmp, put. replace (Z.to_nat (1024 - dma_remaining (l_dev l))) with (length (a_staged a)) by lia.
      rewrite Nat.add_1_r, (take_S_r _ _ b) by (rewrite list_lookup_insert_eq by lia; done). rewrite take_insert_ge by lia. by rewrite Hst. }
    assert (length tmp = 1024%nat) as Htl' by (unfold tmp; by rewrite length_put).
    destruct (Z.eqb_spec (dma_remaining (l_dev l) - 1) 0), (Z.eqb_spec (Z.of_nat (length (a_staged a) + 1)) 1024); try lia.
    + eapply (rx_done_delivers _ _ tmp 1024); try done; cbn; try lia. rewrite <- Hst'. f_equal. lia.
    + eexists; split; [reflexivity |]. split_and!; try done. unfold staged. cbn. rewrite length_app. cbn. split_and!; done || lia.
  - unfold uart_idle_isr. rewrite (proj2 (Z.ltb_lt _ _) Hrem). rewrite <- (Nat2Z.id (length (a_staged a))) in Hst.
    by eapply (rx_done_delivers _ _ _ (Z.of_nat (length (a_staged a)))); done || lia.
  - pose proof (pop_spec _ Hr) as Hp. destruct (app_uart_cmd_ring_pop (l_ring l)) as [x r'].
    destruct Hp as [Hi Hq]. rewrite Hc in Hq. eexists; split; [reflexivity |]. split_and!; try done. cbn. by rewrite <- Hq.
Qed.

Lemma run_matches evs l a : line_matches l a -> exists l', line_run l evs = Some l' /\ line_matches l' (foldl abstract_step a evs).
Proof.
  revert l a. induction evs as [| ev evs IH]; intros l a H; [by exists l |].
  destruct (step_matches l a ev H) as (l1 & E & H1). cbn [line_run foldl]. rewrite E. by apply IH.
Qed.

(** The surroundings let the device be opened. *)
Definition opens (env : environment) : Prop :=
  configured env = true /\ channel env = true /\ Z.of_nat (length (pool env)) = 4096 /\ Z.of_nat (length (aligned_pool env)) = 4096.

Lemma open_matches env : opens env -> line_matches (open_line env) (mk_abstract [] [] 0).
Proof.
  intros (Hc & Hch & Hp & Ha). destruct env as [cfg pool al apool st ch]. cbn in Hc, Hch, Hp, Ha. subst.
  destruct ring_zero_inv as [Hr Hq]. assert (forall p, Z.of_nat (length p) = 4096 -> rb_holds (rt_ringbuffer_init p 4096) []) as Hi
    by (intros p Hp'; by apply init_holds).
  assert (staged (l_dev (open_line (mk_env true pool al apool st true))) []) as Hst.
  { destruct al; (split; [apply length_replicate | by split_and!]). }
  assert (exists p, serial_rx (l_dev (open_line (mk_env true pool al apool st true))) = Some (rt_ringbuffer_init p 4096) /\ Z.of_nat (length p) = 4096)
    as (p & Hp1 & Hp2) by (destruct al; [by exists pool | by exists apool]).
  split_and!; [by destruct al.. | | done | by destruct al | by destruct al | by destruct al].
  eexists. split_and!; [exact Hp1 | done | by apply Hi].
Qed.

(** The bytes that arrive in a sequence of events. *)
Definition arrived (evs : list line_event) : list Z :=
  omap (fun ev => match ev with Arrives b => Some b | _ => None end) evs.

Lemma deliver_all a : (length (a_queue a ++ a_staged a) <= capacity)%nat ->
  a_queue (deliver a) ++ a_staged (deliver a) = a_queue a ++ a_staged a.
Proof. intros H. unfold deliver. cbn [a_queue a_staged]. by rewrite app_nil_r, take_ge. Qed.

Lemma deliver_signals a : 0 <= a_signals a -> (a_queue a <> [] -> 0 < a_signals a) ->
  0 <= a_signals (deliver a) /\ (a_queue (deliver a) <> [] -> 0 < a_signals (deliver a)).
Proof.
  intros Hs Hq. unfold deliver. cbn [a_signals a_queue]. destruct (decide (a_staged a = [])) as [E | E].
  - rewrite bool_decide_true, E, app_nil_r by done. cbn. split; [lia |]. intros Hne. rewrite Z.add_0_r. apply Hq. intros Ez. by rewrite Ez, take_nil in Hne.
  - rewrite bool_decide_false by done. cbn. lia.
Qed.

(** While the thread takes nothing and the bytes fit into the ring, every byte
    is in the ring or in the transfer, in order. *)
Lemma abstract_keeps evs a : Taken ∉ evs -> (length (a_queue a ++ a_staged a ++ arrived evs) <= capacity)%nat ->
  0 <= a_signals a -> (a_queue a <> [] -> 0 < a_signals a) ->
  let a' := foldl abstract_step a evs in
  a_queue a' ++ a_staged a' = a_queue a ++ a_staged a ++ arrived evs /\ 0 <= a_signals a' /\ (a_queue a' <> [] -> 0 < a_signals a').
Proof.
  revert a. induction evs as [| ev evs IH]; intros a Ht Hl Hs Hq; cbn [foldl]; [by rewrite app_nil_r |].
  apply not_elem_of_cons in Ht as [Hev Ht].
  destruct ev as [b | |]; [| | done]; cbn [abstract_step arrived omap list_omap] in *; fold (arrived evs) in *.
  - set (a1 := mk_abstract (a_queue a) (a_staged a ++ [b]) (a_signals a)).
    assert (a_queue a ++ a_staged a ++ b :: arrived evs = (a_queue a1 ++ a_staged a1) ++ arrived evs) as E
      by (cbn; by rewrite <- !app_assoc).
    rewrite E in *. case_match.
    + rewrite <- (deliver_all a1) in * by (rewrite length_app in Hl; lia). rewrite <- app_assoc in *. apply IH; [done | done | by apply deliver_signals..].
    + rewrite <- app_assoc in *. by apply IH.
  - rewrite app_assoc in *. rewrite <- (deliver_all a) in * by (rewrite length_app in Hl; lia). rewrite <- app_assoc in *.
    apply IH; [done | done | by apply deliver_signals..].
Qed.

(** ** Properties *)

(** C14: whatever arrives on the line, however the idle gaps cut it and whenever
    the command thread takes bytes, the driver neither halts nor waits; its
    buffer is empty after every interrupt, and the application's ring holds
    what a queue of 4096 bytes holds that is extended by whole transfers, with
    one release of the semaphore per transfer that carried data. *)
Theorem line_refines_queue env evs : opens env ->
  exists l, line_run (open_line env) evs = Some l /\ device_holds (l_dev l) [] /\
    let a := foldl abstract_step (mk_abstract [] [] 0) evs in
    contents (l_ring l) = a_queue a /\ l_signals l = a_signals a.
Proof.
  intros He. destruct (run_matches evs _ _ (open_matches env He)) as (l & Hr & _ & Hh & _ & _ & Hc & Hs). by exists l.
Qed.

Definition sample_env : environment := mk_env true (zeros 4096) false (zeros 4096) 17 true.

Lemma line_refines_queue_witness :
  exists l, line_run (open_line sample_env) [Arrives 1; Arrives 2; Idle; Arrives 3; Taken; Arrives 4; Idle; Idle; Arrives 5] = Some l /\
    device_holds (l_dev l) [] /\ contents (l_ring l) = [2; 3; 4] /\ l_signals l = 2.
Proof.
  destruct (line_refines_queue sample_env [Arrives 1; Arrives 2; Idle; Arrives 3; Taken; Arrives 4; Idle; Idle; Arrives 5])
    as (l & Hr & Hh & Hc & Hs); [by vm_compute |]. exists l. split; [exact Hr | split; [exact Hh | split]].
  - rewrite Hc. vm_compute. reflexivity.
  - rewrite Hs. vm_compute. reflexivity.
Defined.

(** What the application sends goes on the wire unchanged: the line is not
    opened as a stream, in which a carriage return would be inserted. *)
Theorem sent_verbatim env buffer : opens env ->
  rt_device_write (l_dev (open_line env)) buffer = (Z.of_nat (length buffer), buffer).
Proof.
  intros (Hc & Hch & _). destruct env as [cfg pool al apool st ch]. cbn in Hc, Hch. subst.
  transitivity (Z.of_nat (length buffer), _serial_poll_tx false buffer); [by destruct al |].
  f_equal. induction buffer as [| c buffer IH]; [done |]. cbn. by rewrite IH.
Qed.

(** A polling read takes a byte 255 for the end of the data and loses it. *)
Theorem poll_rx_loses_255 stream n hardware : _serial_poll_rx stream (S n) (255 :: hardware) = ([], hardware).
Proof. done. Qed.
