(* ===== verification/Wakeup.v ===== *)
(** * The semaphore of the command task ([ipc.c], [app_usart_cmd.c])

    The semaphore that the receive notification releases and the command thread
    waits for, with the thread's loop and the serial driver: no received byte is
    left in the ring while the thread sleeps.

    The kernel changes a semaphore with interrupts off, so that its operations
    are steps.  The thread takes bytes out of the ring one at a time, and an
    interrupt may come between any two of its steps.  (An interrupt inside the
    removal of a byte is treated in [UartRing].) *)

From S2P Require Import Prelude Ringbuffer UartRing Serial.

(** ** Semaphores *)

Record rt_thread := mk_thread { thread_name : nat; current_priority : Z }.

Inductive ipc_flag := RT_IPC_FLAG_FIFO | RT_IPC_FLAG_PRIO.

Record rt_semaphore := mk_sem { sem_value : Z; sem_flag : ipc_flag; suspend_thread : list rt_thread }.

#[export] Instance eta_sem : Eta rt_semaphore := fun s => mk_sem (sem_value s) (sem_flag s) (suspend_thread s).

Definition RT_SEM_VALUE_MAX : Z := 65535.

Definition rt_sem_init (value : Z) (flag : ipc_flag) : rt_semaphore := mk_sem (u16 value) flag [].

(** A waiting thread is put at the end of the list, or before the first one
    that is less urgent. *)
Definition _ipc_list_suspend (flag : ipc_flag) (thread : rt_thread) (l : list rt_thread) : list rt_thread :=
  match flag with
  | RT_IPC_FLAG_FIFO => l ++ [thread]
  | RT_IPC_FLAG_PRIO =>
      (fix find l :=
         match l with
         | [] => [thread]
         | sthread :: l => if current_priority thread <? current_priority sthread then thread :: sthread :: l else sthread :: find l
         end) l
  end.

(** A thread that has to wait is put on the list; what [rt_sem_take] returns to
    it is decided when it is resumed.  (The timer of a limited wait is not part
    of the model.) *)
Inductive take_result := TakeOk | TakeTimeout | Suspended.

Definition _rt_sem_take (timeout : Z) (thread : rt_thread) (sem : rt_semaphore) : take_result * rt_semaphore :=
  if 0 <? sem_value sem then (TakeOk, sem <| sem_value := sem_value sem - 1 |>)
  else if timeout =? 0 then (TakeTimeout, sem)
  else (Suspended, sem <| suspend_thread := _ipc_list_suspend (sem_flag sem) thread (suspend_thread sem) |>).

Inductive release_result := Resumed (t : rt_thread) | Counted | Full.

Definition rt_sem_release (sem : rt_semaphore) : release_result * rt_semaphore :=
  match suspend_thread sem with
  | thread :: l => (Resumed thread, sem <| suspend_thread := l |>)
  | [] => if sem_value sem <? RT_SEM_VALUE_MAX then (Counted, sem <| sem_value := sem_value sem + 1 |>) else (Full, sem)
  end.

(** ** The command thread *)

(** Where the thread is in [app_usart_cmd_thread_entry]: before the take,
    suspended in it, or in the poll. *)
Inductive phase := Taking | Waiting | Polling.

Definition command_thread : rt_thread := mk_thread 0 10.
Definition RT_WAITING_FOREVER : Z := -1.

Record task := mk_task { t_line : line; t_sem : rt_semaphore; t_phase : phase }.

#[export] Instance eta_task : Eta task := fun t => mk_task (t_line t) (t_sem t) (t_phase t).

(** The next step of the thread: the take, or one byte of the poll, which ends
    when the ring is empty. *)
Definition thread_step (t : task) : task :=
  match t_phase t with
  | Taking =>
      let '(r, sem) := _rt_sem_take RT_WAITING_FOREVER command_thread (t_sem t) in
      t <| t_sem := sem |> <| t_phase := match r with TakeOk => Polling | Suspended => Waiting | TakeTimeout => Taking end |>
  | Waiting => t
  | Polling =>
      match app_uart_cmd_ring_pop (l_ring (t_line t)) with
      | (None, _) => t <| t_phase := Taking |>
      | (Some _, ring) => t <| t_line := t_line t <| l_ring := ring |> |>
      end
  end.

(** A resumed thread goes on behind its take. *)
Definition release (t : task) : task :=
  let '(r, sem) := rt_sem_release (t_sem t) in
  t <| t_sem := sem |> <| t_phase := match r with Resumed _ => Polling | _ => t_phase t end |>.

(** An interrupt of the serial driver; the semaphore is released as often as
    the notification does it. *)
Definition interrupt (ev : line_event) (t : task) : option task :=
  l ← line_step (t_line t) ev;
  Some (Nat.iter (Z.to_nat (l_signals l - l_signals (t_line t))) release (t <| t_line := l |>)).

Inductive task_step : task -> task -> Prop :=
  | by_thread t : task_step t (thread_step t)
  | by_interrupt t ev t' : ev <> Taken -> interrupt ev t = Some t' -> task_step t t'.

(** [rt_sem_init(&g_uart_cmd_rx_sem, "uart_cmd", 0, RT_IPC_FLAG_FIFO)] and the
    opened line. *)
Definition task_start (env : environment) : task := mk_task (open_line env) (rt_sem_init 0 RT_IPC_FLAG_FIFO) Taking.

(** ** Invariant *)

Definition phase_eqb (a b : phase) : bool :=
  match a, b with Taking, Taking | Waiting, Waiting | Polling, Polling => true | _, _ => false end.

(** The line is in order, the semaphore counts within its range, its list holds
    the thread when this waits, and bytes in the ring are announced: the thread
    is in its poll or will pass its take. *)
Definition task_inv (t : task) : Prop :=
  (exists a, line_matches (t_line t) a) /\ 0 <= sem_value (t_sem t) <= RT_SEM_VALUE_MAX /\ sem_flag (t_sem t) = RT_IPC_FLAG_FIFO /\
  suspend_thread (t_sem t) = (if phase_eqb (t_phase t) Waiting then [command_thread] else []) /\
  (t_phase t = Waiting -> sem_value (t_sem t) = 0) /\
  (contents (l_ring (t_line t)) <> [] -> t_phase t = Polling \/ 0 < sem_value (t_sem t)).

(** ** Lemmas *)

(** A step of the driver only extends the ring by what it signals. *)
Lemma step_signals l a ev l' : line_matches l a -> ev <> Taken -> line_step l ev = Some l' ->
  (exists a', line_matches l' a') /\
  (l_signals l' = l_signals l /\ contents (l_ring l') = contents (l_ring l) \/ l_signals l' = l_signals l + 1).
Proof.
  intros Hm Hev E. destruct (step_matches l a ev Hm) as (l1 & E1 & Hm1). rewrite E in E1. injection E1 as <-. split; [by eexists |].
  pose proof Hm as (_ & _ & _ & Hi & Hc & Hs). destruct Hm1 as (_ & _ & _ & _ & Hc1 & Hs1). rewrite Hc1, Hs1, Hc, Hs.
  assert (length (a_queue a) <= capacity)%nat as Hcap
    by (destruct Hi as (_ & _ & _ & ? & _); rewrite <- Hc, length_contents; pose proof capacity_Z; lia).
  assert (forall b, a_queue b = a_queue a -> a_signals b = a_signals a ->
    a_signals (deliver b) = a_signals a /\ a_queue (deliver b) = a_queue a \/ a_signals (deliver b) = a_signals a + 1) as Hd.
  { intros b Hqb Hsb. unfold deliver. cbn [a_signals a_queue]. rewrite Hqb, Hsb. destruct (decide (a_staged b = [])) as [Eb | Eb].
    - left. rewrite bool_decide_true, Eb, app_nil_r, take_ge by done. cbn. split; [lia | done].
    - right. by rewrite bool_decide_false. }
  destruct ev as [b | |]; [| | done]; cbn [abstract_step]; [case_match; [by apply Hd | by left] | by apply Hd].
Qed.

(** A release makes sure that the thread polls once more. *)
Lemma release_wakes t : (exists a, line_matches (t_line t) a) -> 0 <= sem_value (t_sem t) <= RT_SEM_VALUE_MAX ->
  sem_flag (t_sem t) = RT_IPC_FLAG_FIFO -> suspend_thread (t_sem t) = (if phase_eqb (t_phase t) Waiting then [command_thread] else []) ->
  (t_phase t = Waiting -> sem_value (t_sem t) = 0) -> task_inv (release t).
Proof.
  intros Hl Hv Hf Hs Hw. unfold release, rt_sem_release. rewrite Hs. destruct (t_phase t) eqn:E; cbn [phase_eqb].
  2: { unfold task_inv, RT_SEM_VALUE_MAX in *. cbn. split_and!; try done; try lia; auto. }
  all: destruct (Z.ltb_spec (sem_value (t_sem t)) RT_SEM_VALUE_MAX); unfold task_inv, RT_SEM_VALUE_MAX in *; cbn;
    split_and!; try done; try lia; auto.
  all: intros _; right; lia.
Qed.

Lemma thread_keeps t : task_inv t -> task_inv (thread_step t).
Proof.
  intros Ht. pose proof Ht as ((a & Ha) & Hv & Hf & Hs & Hw & Hc). unfold thread_step. destruct (t_phase t) eqn:E; [| done |].
  - unfold _rt_sem_take. cbn in Hs. rewrite Hf, Hs. destruct (Z.ltb_spec 0 (sem_value (t_sem t))).
    + unfold task_inv, RT_SEM_VALUE_MAX in *. cbn. split_and!; try done; try lia; [by exists a | auto].
    + unfold task_inv, RT_SEM_VALUE_MAX in *. cbn. split_and!; try done; try lia; [by exists a |]. intros Hne. destruct (Hc Hne); [done | lia].
  - pose proof Ha as (_ & _ & _ & Hi & _). pose proof (pop_spec _ Hi) as Hp. destruct (step_matches _ _ Taken Ha) as (l1 & E1 & Hm1).
    cbn [line_step] in E1. injection E1 as <-. destruct (app_uart_cmd_ring_pop (l_ring (t_line t))) as [[b |] ring].
    + unfold task_inv. cbn. rewrite E. split_and!; try done; try lia; [by eexists | auto].
    + destruct Hp as [_ Hp]. unfold task_inv. cbn. split_and!; try done; try lia; [by exists a |]. intros Hne.
      by destruct (contents (l_ring (t_line t))).
Qed.

Lemma interrupt_keeps ev t t' : ev <> Taken -> task_inv t -> interrupt ev t = Some t' -> task_inv t'.
Proof.
  intros Hev Ht. pose proof Ht as ((a & Ha) & Hv & Hf & Hs & Hw & Hc). unfold interrupt.
  destruct (line_step (t_line t) ev) as [l |] eqn:E; [| done]. cbn [mbind option_bind]. intros [= <-].
  destruct (step_signals _ _ _ _ Ha Hev E) as [Hm [[-> Hq] | ->]].
  - rewrite Z.sub_diag. change (Nat.iter (Z.to_nat 0) release ?x) with x. unfold task_inv. cbn. rewrite Hq. by split_and!; try lia.
  - replace (_ + 1 - _) with 1 by lia. apply release_wakes; done.
Qed.

Lemma start_inv env : opens env -> task_inv (task_start env).
Proof.
  intros He. pose proof (open_matches env He) as Hm. pose proof Hm as (_ & _ & _ & _ & Hc & _).
  unfold task_inv, task_start, RT_SEM_VALUE_MAX. cbn [t_line t_sem t_phase]. rewrite Hc. split_and!; try done; by exists (mk_abstract [] [] 0).
Qed.

Lemma task_reachable_inv env t : opens env -> rtc task_step (task_start env) t -> task_inv t.
Proof.
  intros He Hr. refine (rtc_ind_r task_inv _ (start_inv env He) _ t Hr). clear Hr. intros x y _ [x0 | x0 ev y0 Hev E] Hx;
  [by apply thread_keeps | by eapply interrupt_keeps].
Qed.

(** What the thread has still to do when nothing more arrives. *)
Definition work (t : task) : nat :=
  3 * Z.to_nat (sem_value (t_sem t)) + length (contents (l_ring (t_line t))) +
  match t_phase t with Waiting => 0 | Taking => 1 | Polling => 2 end.

Lemma thread_works t : task_inv t -> t_phase t <> Waiting -> (work (thread_step t) < work t)%nat.
Proof.
  intros ((a & Ha) & Hv & Hf & Hs & _) Hp. unfold work, thread_step. destruct (t_phase t) eqn:E; [| done |].
  - unfold _rt_sem_take. destruct (Z.ltb_spec 0 (sem_value (t_sem t))); cbn; lia.
  - pose proof Ha as (_ & _ & _ & Hi & _). pose proof (pop_spec _ Hi) as Hq.
    destruct (app_uart_cmd_ring_pop (l_ring (t_line t))) as [[b |] ring]; destruct Hq as [_ Hq]; [| cbn; lia].
    cbn [t_sem t_line t_phase l_ring update_with sem_value]. rewrite E. destruct (contents (l_ring (t_line t))) as [| c q]; [done |].
    injection Hq as _ ->. cbn [length]. lia.
Qed.

Lemma thread_finishes n t : task_inv t -> (work t <= n)%nat ->
  task_inv (Nat.iter n thread_step t) /\ t_phase (Nat.iter n thread_step t) = Waiting.
Proof.
  revert t. induction n as [| n IH]; intros t Ht Hn.
  - split; [done |]. unfold work in Hn. cbn. destruct (t_phase t); [lia | done | lia].
  - rewrite Nat.iter_succ_r. destruct (t_phase t) eqn:E.
    2: { assert (thread_step t = t) as -> by (unfold thread_step; by rewrite E). apply IH; [done |]. unfold work in *. rewrite E in *.
         destruct Ht as (_ & _ & _ & _ & Hw & Hc). rewrite (Hw E). destruct (contents (l_ring (t_line t))) as [| c q]; [cbn; lia |].
         destruct Hc as [Hc | Hc]; [done | congruence | rewrite (Hw E) in Hc; lia]. }
    all: apply IH; [by apply thread_keeps |]; pose proof (thread_works t Ht ltac:(by rewrite E)); lia.
Qed.

(** ** Properties *)

(** C8: wherever interrupts fall between the steps of the command thread, the
    thread never sleeps while received bytes are in the ring; and when nothing
    more arrives, it empties the ring within a bounded number of its own steps
    and goes to sleep. *)
Theorem no_lost_wakeup env t : opens env -> rtc task_step (task_start env) t ->
  (t_phase t = Waiting -> contents (l_ring (t_line t)) = []) /\
  let t' := Nat.iter (work t) thread_step t in t_phase t' = Waiting /\ contents (l_ring (t_line t')) = [].
Proof.
  intros He Hr. pose proof (task_reachable_inv env t He Hr) as Ht.
  assert (forall s, task_inv s -> t_phase s = Waiting -> contents (l_ring (t_line s)) = []) as Hsleep.
  { intros s (_ & _ & _ & _ & Hw & Hc) E. destruct (contents (l_ring (t_line s))) as [| c q]; [done |].
    destruct Hc as [Hc | Hc]; [done | congruence | rewrite (Hw E) in Hc; lia]. }
  split; [by apply Hsleep |]. destruct (thread_finishes (work t) t Ht ltac:(lia)) as [Hi Hp]. split; [exact Hp | by apply Hsleep].
Qed.

(** The thread sleeps, a byte arrives and the line is idle. *)
Definition sample_sleeping : task := thread_step (task_start sample_env).
Definition sample_received : task := default sample_sleeping (interrupt (Arrives 7) sample_sleeping).
Definition sample_woken : task := default sample_received (interrupt Idle sample_received).

Lemma no_lost_wakeup_witness :
  contents (l_ring (t_line sample_woken)) = [7] /\ t_phase sample_woken = Polling /\
  (t_phase sample_woken = Waiting -> contents (l_ring (t_line sample_woken)) = []) /\
  let t' := Nat.iter (work sample_woken) thread_step sample_woken in t_phase t' = Waiting /\ contents (l_ring (t_line t')) = [].
Proof.
  split; [vm_compute; reflexivity |]. split; [vm_compute; reflexivity |].
  apply (no_lost_wakeup sample_env); [by vm_compute |].
  apply (rtc_l _ _ sample_sleeping); [exact (by_thread (task_start sample_env)) |].
  apply (rtc_l _ _ sample_received); [apply (by_interrupt _ (Arrives 7)); [done | vm_compute; reflexivity] |].
  apply rtc_once. apply (by_interrupt _ Idle); [done | vm_compute; reflexivity].
Defined.
