(* ===== verification/UartCrc.v ===== *)
(** * Frame check sequence ([app_uart_cmd_crc16])

    The nibble-table CRC-16 of the serial protocol, its equality with the
    polynomial division it implements, and the errors it detects. *)

From S2P Require Import Prelude.

(** ** Source *)

Definition crc16_half_byte : list Z :=
  [ 0x0000; 0x1021; 0x2042; 0x3063;
    0x4084; 0x50A5; 0x60C6; 0x70E7;
    0x8108; 0x9129; 0xA14A; 0xB16B;
    0xC18C; 0xD1AD; 0xE1CE; 0xF1EF ].

(** One half of the loop body: [nib] is [data[i] >> 4] or [data[i] & 0x0F]. *)
Definition crc16_half_step (crc nib : Z) : Z :=
  let da := u8 (Z.shiftr (Z.shiftr crc 8) 4) in
  let crc := u16 (Z.shiftl crc 4) in
  Z.lxor crc (get crc16_half_byte (Z.lxor da nib)).

Definition crc16_step (crc byte : Z) : Z :=
  let crc := crc16_half_step crc (Z.shiftr byte 4) in
  crc16_half_step crc (Z.land byte 0x0F).

Definition app_uart_cmd_crc16 (data : pointer (list Z)) (len : Z) : Z :=
  match data with
  | None => 0
  | Some data => foldl crc16_step 0 (take (Z.to_nat len) data)
  end.

(** ** Specification

    Division of the message, most significant bit first, by
    [x^16 + x^12 + x^5 + 1]: [crc_shift] multiplies the remainder by [x], and a
    message bit enters at the top. *)

Definition crc_shift (s : Z) : Z :=
  Z.lxor (Z.shiftl (s mod 2 ^ 15) 1) (if Z.testbit s 15 then 0x1021 else 0).

Definition crc_bit (s : Z) (b : bool) : Z := crc_shift (Z.lxor s (if b then 2 ^ 15 else 0)).

Definition crc_bits (s : Z) (bs : list bool) : Z := foldl crc_bit s bs.

Definition bits_of_nibble (n : Z) : list bool := map (Z.testbit n) [3; 2; 1; 0].

Definition bits_of_byte (x : Z) : list bool := map (Z.testbit x) [7; 6; 5; 4; 3; 2; 1; 0].

Definition bits_of (l : list Z) : list bool := concat (map bits_of_byte l).

(** The [k] leading bits of a 16-bit word. *)
Fixpoint align (bs : list bool) : Z :=
  match bs with
  | [] => 0
  | b :: bs => Z.lxor (if b then 2 ^ 15 else 0) (Z.shiftr (align bs) 1)
  end.

(** [all_words k p base] checks [p] at the [2^k] words with prefix [base]. *)
Fixpoint all_words (k : nat) (p : Z -> bool) (base : Z) : bool :=
  match k with
  | O => p base
  | S k => all_words k p (2 * base) && all_words k p (2 * base + 1)
  end.

(** ** Lemmas *)

Lemma all_words_spec k p base i :
  all_words k p base = true -> 2 ^ Z.of_nat k * base <= i < 2 ^ Z.of_nat k * (base + 1) -> p i = true.
Proof.
  revert base. induction k as [|k IH]; intros base H Hi.
  - change (2 ^ Z.of_nat 0) with 1 in Hi. replace i with base by lia. done.
  - rewrite Nat2Z.inj_succ, Z.pow_succ_r in Hi by lia. simpl in H. apply andb_true_iff in H as [H0 H1].
    destruct (Z_lt_le_dec i (2 ^ Z.of_nat k * (2 * base + 1))); [apply (IH _ H0) | apply (IH _ H1)]; nia.
Qed.

Lemma all_words_0 k p i : all_words k p 0 = true -> 0 <= i < 2 ^ Z.of_nat k -> p i = true.
Proof. intros H Hi. apply (all_words_spec k p 0 i H). lia. Qed.

Lemma testbit_high s i n : 0 <= s < 2 ^ n -> n <= i -> Z.testbit s i = false.
Proof.
  intros Hs Hi. destruct (Z_lt_le_dec n 0); [rewrite Z.pow_neg_r in Hs by lia; lia |].
  rewrite <- (Z.mod_small s (2 ^ n)) by lia. apply Z.mod_pow2_bits_high. lia.
Qed.

(** Two words below [2^n] with the same low bits are equal. *)
Lemma bits_eq_below n a b :
  0 <= a < 2 ^ n -> 0 <= b < 2 ^ n ->
  (forall i, 0 <= i < n -> Z.testbit a i = Z.testbit b i) -> a = b.
Proof.
  intros Ha Hb H. apply Z.bits_inj'. intros i Hi. destruct (Z_lt_le_dec i n); [auto |].
  by rewrite !(testbit_high _ i n).
Qed.

Lemma lxor_below n a b : 0 <= n -> 0 <= a < 2 ^ n -> 0 <= b < 2 ^ n -> 0 <= Z.lxor a b < 2 ^ n.
Proof.
  intros Hn Ha Hb. assert (0 <= Z.lxor a b) as H0 by (apply Z.lxor_nonneg; lia). split; [done |].
  destruct (decide (Z.lxor a b = 0)) as [->|]; [lia |]. apply Z.log2_lt_pow2; [lia |].
  pose proof (Z.log2_lxor a b ltac:(lia) ltac:(lia)).
  assert (forall x, 0 <= x < 2 ^ n -> Z.log2 x < n \/ x = 0) as Hx.
  { intros x Hx. destruct (decide (x = 0)); [by right | left; apply Z.log2_lt_pow2; lia]. }
  destruct (Hx a Ha), (Hx b Hb); subst; rewrite ?Z.lxor_0_l, ?Z.lxor_0_r in *; try lia.
Qed.

Lemma lxor_mod2 a b n : 0 <= n -> Z.lxor a b mod 2 ^ n = Z.lxor (a mod 2 ^ n) (b mod 2 ^ n).
Proof.
  intros Hn. apply Z.bits_inj'. intros i Hi. rewrite Z.lxor_spec.
  destruct (Z_lt_le_dec i n).
  - rewrite !Z.mod_pow2_bits_low by lia. apply Z.lxor_spec.
  - by rewrite !Z.mod_pow2_bits_high by lia.
Qed.

Lemma crc_shift_lxor a b : crc_shift (Z.lxor a b) = Z.lxor (crc_shift a) (crc_shift b).
Proof.
  unfold crc_shift. rewrite lxor_mod2, Z.shiftl_lxor, Z.lxor_spec by lia.
  set (x := Z.shiftl (a mod _) 1). set (y := Z.shiftl (b mod _) 1).
  assert (Z.lxor (if xorb (Z.testbit a 15) (Z.testbit b 15) then 0x1021 else 0) 0 =
          Z.lxor (if Z.testbit a 15 then 0x1021 else 0) (if Z.testbit b 15 then 0x1021 else 0)) as E
    by (destruct (Z.testbit a 15), (Z.testbit b 15); reflexivity).
  rewrite Z.lxor_0_r in E. rewrite E.
  rewrite !Z.lxor_assoc. f_equal. rewrite <- !Z.lxor_assoc. f_equal. apply Z.lxor_comm.
Qed.

Lemma crc_shift_0 : crc_shift 0 = 0.
Proof. done. Qed.

Lemma crc_shift_range s : is_u16 (crc_shift s).
Proof.
  unfold crc_shift. apply (lxor_below 16); [lia | | destruct (Z.testbit s 15); lia].
  rewrite Z.shiftl_mul_pow2 by lia. lia.
Qed.

(** Multiplying by [x] loses nothing. *)
Lemma crc_shift_nonzero s : is_u16 s -> s <> 0 -> crc_shift s <> 0.
Proof.
  intros Hs Hne E.
  pose proof (all_words_0 16 (fun s => (s =? 0) || negb (crc_shift s =? 0)) s ltac:(vm_compute; reflexivity) Hs) as H.
  cbv beta in H. rewrite E in H. by destruct (Z.eqb_spec s 0).
Qed.

#[local] Opaque crc_shift.

Fixpoint crc_shifts (k : nat) (s : Z) : Z :=
  match k with
  | O => s
  | S k => crc_shifts k (crc_shift s)
  end.

Lemma crc_shifts_nonzero k s : is_u16 s -> s <> 0 -> crc_shifts k s <> 0.
Proof.
  revert s. induction k as [|k IH]; intros s Hs Hne; [done |].
  apply IH; [apply crc_shift_range | by apply crc_shift_nonzero].
Qed.

Lemma top_bit_u16 (b : bool) : is_u16 (if b then 2 ^ 15 else 0).
Proof. destruct b; unfold is_u16; lia. Qed.

Lemma align_range bs : is_u16 (align bs).
Proof.
  induction bs as [|b bs IH]; [unfold is_u16; simpl; lia |]. simpl.
  apply lxor_below; [lia | apply top_bit_u16 |]. rewrite Z.shiftr_div_pow2 by lia. wraps.
Qed.

Lemma align_low bs i : (length bs <= 16)%nat -> 0 <= i < 16 - Z.of_nat (length bs) -> Z.testbit (align bs) i = false.
Proof.
  revert i. induction bs as [|b bs IH]; intros i Hl Hi; [apply Z.bits_0 |].
  simpl length in *. simpl. rewrite Z.lxor_spec, Z.shiftr_spec, IH by lia.
  destruct b; [| by rewrite Z.bits_0]. rewrite Z.pow2_bits_false by lia. done.
Qed.

(** Below sixteen bits, the message can be added before shifting. *)
Lemma crc_shift_align bs : (length bs < 16)%nat -> crc_shift (Z.shiftr (align bs) 1) = align bs.
Proof.
  intros Hl. pose proof (align_range bs) as Ha. unfold is_u16 in Ha.
  assert (align bs mod 2 = 0) as Hev.
  { by rewrite <- Z.bit0_mod, (align_low bs 0) by lia. }
  rewrite Z.shiftr_div_pow2 by lia. change (2 ^ 1) with 2.
  pose proof (all_words_0 15 (fun h => crc_shift h =? h * 2) (align bs / 2) ltac:(vm_compute; reflexivity)
                ltac:(change (Z.of_nat 15) with 15; lia)) as H.
  apply Z.eqb_eq in H. rewrite H. lia.
Qed.

Lemma crc_bits_align s bs :
  (length bs <= 16)%nat -> crc_bits s bs = crc_shifts (length bs) (Z.lxor s (align bs)).
Proof.
  revert s. induction bs as [|b bs IH]; intros s Hl; simpl in *; [by rewrite Z.lxor_0_r |].
  change (crc_bits (crc_bit s b) bs = crc_shifts (length bs) (crc_shift (Z.lxor s (Z.lxor (if b then 2 ^ 15 else 0) (Z.shiftr (align bs) 1))))).
  rewrite IH by lia. f_equal. unfold crc_bit.
  by rewrite <- Z.lxor_assoc, (crc_shift_lxor _ (Z.shiftr (align bs) 1)), crc_shift_align by lia.
Qed.

(** *** The table is four steps of the division *)

Lemma crc_table t :
  is_u16 t -> crc_shifts 4 t = Z.lxor (u16 (Z.shiftl t 4)) (get crc16_half_byte (Z.shiftr t 12)).
Proof.
  intros Ht. apply Z.eqb_eq.
  exact (all_words_0 16 (fun t => crc_shifts 4 t =? Z.lxor (u16 (Z.shiftl t 4)) (get crc16_half_byte (Z.shiftr t 12)))
           t ltac:(vm_compute; reflexivity) Ht).
Qed.

Lemma align_nibble n : 0 <= n < 16 -> align (bits_of_nibble n) = Z.shiftl n 12.
Proof.
  intros Hn. apply Z.eqb_eq.
  exact (all_words_0 4 (fun n => align (bits_of_nibble n) =? Z.shiftl n 12) n ltac:(vm_compute; reflexivity) Hn).
Qed.

Lemma crc16_half_step_bits crc nib :
  is_u16 crc -> 0 <= nib < 16 -> crc16_half_step crc nib = crc_bits crc (bits_of_nibble nib).
Proof.
  intros Hc Hn. rewrite crc_bits_align, align_nibble by (simpl; lia).
  assert (0 <= Z.shiftl nib 12 < 2 ^ 16) as Hs by (rewrite Z.shiftl_mul_pow2 by lia; lia).
  change (length (bits_of_nibble nib)) with 4%nat. rewrite crc_table by (by apply lxor_below).
  unfold crc16_half_step. f_equal.
  - rewrite Z.shiftl_lxor. unfold u16. rewrite lxor_mod2 by lia.
    replace (Z.shiftl (Z.shiftl nib 12) 4 mod 2 ^ 16) with 0; [by rewrite Z.lxor_0_r |].
    rewrite Z.shiftl_shiftl, Z.shiftl_mul_pow2 by lia. lia.
  - f_equal. rewrite Z.shiftr_lxor, Z.shiftr_shiftl_l, !Z.shiftr_shiftr by lia.
    simpl (12 - 12). simpl (8 + 4). rewrite Z.shiftl_0_r. f_equal. apply u8_id.
    rewrite Z.shiftr_div_pow2 by lia. wraps.
Qed.

Lemma crc_bit_range s b : is_u16 (crc_bit s b).
Proof. apply crc_shift_range. Qed.

Lemma crc_bits_range s bs : is_u16 s -> is_u16 (crc_bits s bs).
Proof. revert s. induction bs as [|b bs IH]; intros s Hs; [done | apply IH, crc_bit_range]. Qed.

Lemma crc_bits_app s a b : crc_bits s (a ++ b) = crc_bits (crc_bits s a) b.
Proof. apply foldl_app. Qed.

Lemma bits_of_byte_nibbles x : 0 <= x -> bits_of_byte x = bits_of_nibble (Z.shiftr x 4) ++ bits_of_nibble (Z.land x 15).
Proof.
  intros Hx. unfold bits_of_byte, bits_of_nibble. cbn [map app].
  rewrite !Z.land_spec, !Z.shiftr_spec by lia. by rewrite !andb_true_r.
Qed.

Lemma crc16_step_bits crc x : is_u16 crc -> is_u8 x -> crc16_step crc x = crc_bits crc (bits_of_byte x).
Proof.
  intros Hc Hx. unfold crc16_step, is_u8 in *. rewrite bits_of_byte_nibbles, crc_bits_app by lia.
  assert (0 <= Z.shiftr x 4 < 16) by (rewrite Z.shiftr_div_pow2; lia).
  assert (0 <= Z.land x 15 < 16) by (change 15 with (Z.ones 4) at 1 2; rewrite Z.land_ones; lia).
  rewrite (crc16_half_step_bits crc), crc16_half_step_bits by (try apply crc_bits_range; done). done.
Qed.

Lemma crc16_fold_bits crc l :
  is_u16 crc -> Forall is_u8 l -> foldl crc16_step crc l = crc_bits crc (bits_of l).
Proof.
  intros Hc Hl. revert crc Hc. induction Hl as [|x l Hx _ IH]; intros crc Hc; [done |].
  simpl foldl. change (bits_of (x :: l)) with (bits_of_byte x ++ bits_of l).
  rewrite crc_bits_app, crc16_step_bits, IH; auto using crc_bits_range.
Qed.

Lemma crc16_bits l :
  Forall is_u8 l -> app_uart_cmd_crc16 (Some l) (Z.of_nat (length l)) = crc_bits 0 (bits_of l).
Proof.
  intros Hl. unfold app_uart_cmd_crc16. rewrite Nat2Z.id, firstn_all.
  apply crc16_fold_bits; [unfold is_u16; lia | done].
Qed.

Lemma crc16_range data len : Forall is_u8 data -> is_u16 (app_uart_cmd_crc16 (Some data) len).
Proof.
  intros H. unfold app_uart_cmd_crc16. rewrite crc16_fold_bits; [| unfold is_u16; lia | by apply Forall_take].
  apply crc_bits_range. unfold is_u16. lia.
Qed.

(** *** Linearity and bursts *)

Definition xor_bits (a b : list bool) : list bool := zip_with xorb a b.

Lemma crc_bit_lxor s t a b : crc_bit (Z.lxor s t) (xorb a b) = Z.lxor (crc_bit s a) (crc_bit t b).
Proof.
  unfold crc_bit. rewrite <- crc_shift_lxor. f_equal.
  rewrite !Z.lxor_assoc. f_equal. rewrite <- (Z.lxor_assoc _ t), (Z.lxor_comm _ t), Z.lxor_assoc. f_equal.
  by destruct a, b.
Qed.

Lemma crc_bits_lxor s t a b :
  length a = length b -> crc_bits (Z.lxor s t) (xor_bits a b) = Z.lxor (crc_bits s a) (crc_bits t b).
Proof.
  revert s t b. induction a as [|x a IH]; intros s t [|y b] Hl; try done.
  simpl. rewrite crc_bit_lxor. apply IH. simpl in Hl. lia.
Qed.

Lemma crc_bits_zeros s k : crc_bits s (replicate k false) = crc_shifts k s.
Proof.
  revert s. induction k as [|k IH]; intros s; [done |]. simpl. unfold crc_bit at 1. rewrite Z.lxor_0_r. apply IH.
Qed.

Lemma crc_shifts_0 k : crc_shifts k 0 = 0.
Proof. induction k as [|k IH]; [done |]. simpl. by rewrite crc_shift_0. Qed.

Lemma align_nonzero bs : (length bs <= 16)%nat -> true ∈ bs -> align bs <> 0.
Proof.
  revert bs. enough (forall bs, (length bs <= 16)%nat -> true ∈ bs ->
    exists i, 16 - Z.of_nat (length bs) <= i < 16 /\ Z.testbit (align bs) i = true) as H.
  { intros bs Hl Hin E. destruct (H bs Hl Hin) as (i & _ & Hi). by rewrite E, Z.bits_0 in Hi. }
  induction bs as [|b bs IH]; intros Hl Hin; [by apply elem_of_nil in Hin |]. simpl length in *.
  destruct b.
  - exists 15. split; [lia |]. simpl align. rewrite Z.lxor_spec, Z.shiftr_spec by lia.
    rewrite (testbit_high (align bs) (15 + 1) 16); [done | apply align_range | lia].
  - apply elem_of_cons in Hin as [|Hin]; [done |]. destruct (IH ltac:(lia) Hin) as (i & Hi & Hb).
    exists (i - 1). split; [lia |]. simpl align. rewrite Z.lxor_0_l, Z.shiftr_spec by lia.
    by replace (i - 1 + 1) with i by lia.
Qed.

(** The bit patterns of two messages that differ in one burst: their sum is
    zero outside a window of at most 16 bits and not zero inside it. *)
Definition burst (l l' : list Z) : Prop :=
  length l = length l' /\
  exists a bs c, xor_bits (bits_of l) (bits_of l') = replicate a false ++ bs ++ replicate c false /\
    (length bs <= 16)%nat /\ true ∈ bs.

Lemma length_bits_of l : length (bits_of l) = (8 * length l)%nat.
Proof. induction l as [|x l IH]; [done |]. change (bits_of (x :: l)) with (bits_of_byte x ++ bits_of l). rewrite length_app, IH. simpl. lia. Qed.

Lemma burst_crc_differs l l' : burst l l' -> crc_bits 0 (bits_of l) <> crc_bits 0 (bits_of l').
Proof.
  intros (Hl & a & bs & c & E & Hlen & Hin) Hc.
  assert (crc_bits (Z.lxor 0 0) (xor_bits (bits_of l) (bits_of l')) = 0) as H0.
  { rewrite crc_bits_lxor by (rewrite !length_bits_of; lia). by rewrite Hc, Z.lxor_nilpotent. }
  revert H0. rewrite E, !crc_bits_app, Z.lxor_0_r, (crc_bits_zeros 0 a), crc_shifts_0, crc_bits_zeros, crc_bits_align by done.
  rewrite Z.lxor_0_l.
  apply crc_shifts_nonzero.
  - generalize (length bs) as k. assert (is_u16 (align bs)) as Ha by apply align_range. revert Ha.
    generalize (align bs) as s. intros s Hs k. revert s Hs. induction k; intros s Hs; [done |]. simpl. apply IHk, crc_shift_range.
  - apply crc_shifts_nonzero; [apply align_range | by apply align_nonzero].
Qed.

(** ** Properties *)

(** C30: On any byte string, the table-driven checksum is the remainder of the
    division of the message, bit by bit from the most significant, by
    [x^16 + x^12 + x^5 + 1] with initial remainder 0. *)
Theorem crc16_is_division l :
  Forall is_u8 l -> app_uart_cmd_crc16 (Some l) (Z.of_nat (length l)) = crc_bits 0 (bits_of l).
Proof. apply crc16_bits. Qed.

Lemma crc16_is_division_witness :
  app_uart_cmd_crc16 (Some [0x31; 0x32; 0x33; 0x34; 0x35; 0x36; 0x37; 0x38; 0x39]) 9 = 0x31C3 /\
  crc_bits 0 (bits_of [0x31; 0x32; 0x33; 0x34; 0x35; 0x36; 0x37; 0x38; 0x39]) = 0x31C3.
Proof.
  split; [by vm_compute |].
  rewrite <- (crc16_is_division [0x31; 0x32; 0x33; 0x34; 0x35; 0x36; 0x37; 0x38; 0x39]); [by vm_compute |].
  solve_bytes.
Defined.

(** C24: Two messages of the same length that differ only within sixteen
    consecutive bits have different checksums. *)
Theorem crc16_detects_bursts l l' :
  Forall is_u8 l -> Forall is_u8 l' -> burst l l' ->
  app_uart_cmd_crc16 (Some l) (Z.of_nat (length l)) <> app_uart_cmd_crc16 (Some l') (Z.of_nat (length l')).
Proof. intros Hl Hl' Hb. rewrite !crc16_bits by done. by apply burst_crc_differs. Qed.

Lemma crc16_detects_bursts_witness :
  app_uart_cmd_crc16 (Some [1; 2; 0x80; 0xFF]) 4 <> app_uart_cmd_crc16 (Some [1; 3; 0x7F; 0xFF]) 4.
Proof.
  refine (crc16_detects_bursts [1; 2; 0x80; 0xFF] [1; 3; 0x7F; 0xFF] _ _ _).
  - solve_bytes.
  - solve_bytes.
  - split; [done |]. exists 15%nat, (replicate 9 true), 8%nat. split; [done |]. simpl.
    split; [lia |]. apply elem_of_cons. by left.
Defined.
