(* ===== verification/UartText.v ===== *)
(** * Text messages over the serial link ([app_usart_cmd.c])

    A dispatch text arrives in several frames that are appended to one buffer;
    the frame that carries the end mark hands the text to the display. *)

From S2P Require Import Prelude.

Definition APP_UART_CMD_FRAME_HEAD : Z := 0xAA.
Definition APP_UART_CMD_FRAME_TAIL : Z := 0x55.
Definition APP_UART_CMD_FRAME_MAX_SIZE : Z := 512.
Definition APP_UART_CMD_TEXT_MAX_SIZE : Z := 4096.
Definition APP_UART_CMD_TEXT_BUF_SIZE : Z := APP_UART_CMD_TEXT_MAX_SIZE + 1.
Definition APP_UART_CMD_TEXT_FRAME_TYPE : Z := 0x02.
Definition APP_UART_CMD_TYPE_SOC_STATUS : Z := 0x01.
Definition APP_UART_CMD_TYPE_MCU_VERSION : Z := 0x11.

(** ** Data *)

Record app_uart_cmd_frame_t := mk_frame { frame_data : list Z; frame_length : Z }.

Record app_uart_cmd_text_msg_t := mk_text_msg {
  text_valid : Z; text_flag : Z; text_type : Z; text_len : Z; text : list Z
}.

#[export] Instance eta_text_msg : Eta app_uart_cmd_text_msg_t := fun m =>
  mk_text_msg (text_valid m) (text_flag m) (text_type m) (text_len m) (text m).

(** [g_uart_cmd_text_msg] and [g_uart_cmd_text_assem_len]. *)
Record text_state := mk_text_state { text_msg : app_uart_cmd_text_msg_t; text_assem_len : Z }.

#[export] Instance eta_text_state : Eta text_state := fun s => mk_text_state (text_msg s) (text_assem_len s).

(** Their value after [app_usart_cmd_init]. *)
Definition text_zero : text_state :=
  mk_text_state (mk_text_msg 0 0 0 0 (zeros (Z.to_nat APP_UART_CMD_TEXT_BUF_SIZE))) 0.

(** The calls of the command thread into the display service, in order. *)
Inductive lcd_call :=
  | svc_lcd_update_text_message (flag text_type : Z) (text : list Z) (len : Z)
  | svc_lcd_update_total_mileage (km rem_m : Z)
  | svc_lcd_update_home_time (hour minute second : Z)
  | svc_lcd_update_top_status (used_satellite : Z)
  | svc_lcd_update_home_speed (speed_x10 : Z)
  | svc_lcd_update_drive_time (hour minute second : Z)
  | svc_lcd_update_card_id (str : list Z)
  | svc_lcd_update_home_location (latitude longitude lat_dir lon_dir timestamp : Z).

(** ** Operations *)

Definition show_text (m : app_uart_cmd_text_msg_t) : lcd_call :=
  svc_lcd_update_text_message (text_flag m) (text_type m) (text m) (text_len m).

Definition app_uart_cmd_force_finish_text_frame (s : text_state) : text_state * list lcd_call :=
  if text_assem_len s =? 0 then (s, [])
  else
    let m := text_msg s <| text_valid := 1 |> <| text_len := text_assem_len s |> in
    (s <| text_msg := m |> <| text_assem_len := 0 |>, [show_text m]).

(** The copy of a chunk and its terminator, bounded by the room left. *)
Definition text_append (s : text_state) (data : list Z) (text_offset chunk_len : Z) : text_state :=
  if text_assem_len s <? APP_UART_CMD_TEXT_MAX_SIZE then
    let remain_len := u16 (APP_UART_CMD_TEXT_MAX_SIZE - text_assem_len s) in
    let copy_len := if remain_len <? chunk_len then remain_len else chunk_len in
    if 0 <? copy_len then
      let t := blit (Z.to_nat (text_assem_len s)) (slice (Z.to_nat text_offset) (Z.to_nat copy_len) data)
                 (text (text_msg s)) in
      let s := s <| text_msg := text_msg s <| text := t |> |> in
      let s := s <| text_assem_len := u16 (text_assem_len s + copy_len) |> in
      s <| text_msg := text_msg s <| text := put (text (text_msg s)) (text_assem_len s) 0 |> |>
    else s
  else s.

(** The part after the header was decoded: append, then finish on the end mark. *)
Definition text_take (s : text_state) (data : list Z) (transfer_state flag type text_offset chunk_len : Z)
    : bool * text_state * list lcd_call :=
  let s := text_append s data text_offset chunk_len in
  if transfer_state =? 1 then
    let m := text_msg s <| text_valid := 1 |> <| text_flag := flag |> <| text_type := type |>
               <| text_len := text_assem_len s |> in
    (true, s <| text_msg := m |> <| text_assem_len := 0 |>, [show_text m])
  else (true, s, []).

Definition app_uart_cmd_parse_text_frame (frame : pointer app_uart_cmd_frame_t) (s : text_state)
    : bool * text_state * list lcd_call :=
  match frame with
  | None => (false, s, [])
  | Some frame =>
      let data := frame_data frame in
      if (frame_length frame <? 7) || negb (get data 0 =? APP_UART_CMD_FRAME_HEAD) ||
         negb (get data 2 =? APP_UART_CMD_TEXT_FRAME_TYPE) then (false, s, [])
      else
        let payload_len := u8 (frame_length frame - 6) in
        if payload_len <? 2 then (false, s, [])
        else
          let transfer_state := get data 3 in
          if text_assem_len s =? 0 then
            if payload_len <? 3 then (false, s, [])
            else
              let flag := get data 4 in
              let type := get data 5 in
              if negb (type =? 1) && negb (type =? 2) then
                (false, s <| text_assem_len := 0 |> <| text_msg := text_msg s <| text_valid := 0 |> |>, [])
              else
                let s := s <| text_msg := text_msg s <| text_flag := flag |> <| text_type := type |> |> in
                text_take s data transfer_state flag type 6 (u16 (payload_len - 3))
          else
            text_take s data transfer_state (text_flag (text_msg s)) (text_type (text_msg s)) 4 (u16 (payload_len - 1))
  end.

Definition app_usart_cmd_get_text_msg (s : text_state) : option app_uart_cmd_text_msg_t :=
  if text_valid (text_msg s) =? 0 then None else Some (text_msg s).

(** ** Specification: a text is the concatenation of its chunks, cut at 4096 bytes *)

Definition text_max : nat := Z.to_nat 4096.

(** The frames of a message, without their checks: the first carries the flag
    and the type, every frame its part of the text. *)
Definition raw_frame (payload : list Z) : app_uart_cmd_frame_t :=
  let len := Z.of_nat (length payload) + 6 in
  mk_frame ([APP_UART_CMD_FRAME_HEAD; len; APP_UART_CMD_TEXT_FRAME_TYPE] ++ payload ++ [0; 0; APP_UART_CMD_FRAME_TAIL]) len.

Definition first_frame (state flag type : Z) (chunk : list Z) : app_uart_cmd_frame_t :=
  raw_frame (state :: flag :: type :: chunk).

Definition next_frame (state : Z) (chunk : list Z) : app_uart_cmd_frame_t := raw_frame (state :: chunk).

Definition text_inv (s : text_state) : Prop :=
  length (text (text_msg s)) = S text_max /\ 0 <= text_assem_len s <= 4096 /\
  (0 < text_assem_len s -> get (text (text_msg s)) (text_assem_len s) = 0).

(** What the display may rely on in a text it is handed. *)
Definition call_ok (c : lcd_call) : Prop :=
  match c with
  | svc_lcd_update_text_message _ type t n =>
      length t = S text_max /\ 0 <= n <= 4096 /\ (0 < n -> get t n = 0)
  | _ => True
  end.

(** A frame as the frame parser delivers it: its length fits in a byte and
    its data are there. *)
Definition frame_fits (f : app_uart_cmd_frame_t) : Prop :=
  0 <= frame_length f < 256 /\ frame_length f <= Z.of_nat (length (frame_data f)).

(** The text assembled so far. *)
Definition assembled (s : text_state) : list Z := take (Z.to_nat (text_assem_len s)) (text (text_msg s)).

(** A run of [app_uart_cmd_parse_text_frame] over frames, with the calls made. *)
Fixpoint parse_text_frames (frames : list app_uart_cmd_frame_t) (s : text_state) : text_state * list lcd_call :=
  match frames with
  | [] => (s, [])
  | f :: frames =>
      let '(_, s, c) := app_uart_cmd_parse_text_frame (Some f) s in
      let '(s, cs) := parse_text_frames frames s in
      (s, c ++ cs)
  end.

(** ** Lemmas *)

Lemma text_max_Z : Z.of_nat text_max = 4096.
Proof. unfold text_max. lia. Qed.

#[local] Opaque text_max.

Lemma text_zero_inv : text_inv text_zero.
Proof.
  unfold text_inv, text_zero. cbn [text_msg text text_assem_len]. split_and!; try lia.
  unfold zeros. rewrite length_replicate. unfold APP_UART_CMD_TEXT_BUF_SIZE, APP_UART_CMD_TEXT_MAX_SIZE.
  pose proof text_max_Z. lia.
Qed.

Lemma take_blit n d l : (n + length d <= length l)%nat -> take (n + length d) (blit n d l) = take n l ++ d.
Proof.
  intros H. unfold blit. rewrite take_app_ge; rewrite length_take; [| lia].
  replace (n + length d - n `min` length l)%nat with (length d) by lia.
  by rewrite take_app_length.
Qed.

Lemma take_put n l i v : Z.of_nat n <= i -> take n (put l i v) = take n l.
Proof. intros. unfold put. apply take_insert_ge. lia. Qed.

(** Appending keeps the invariant and adds the chunk, as far as there is room. *)
Lemma text_append_spec s data off chunk_len :
  text_inv s -> 0 <= off -> 0 <= chunk_len < 256 -> off + chunk_len <= Z.of_nat (length data) ->
  let s' := text_append s data off chunk_len in
  let chunk := slice (Z.to_nat off) (Z.to_nat chunk_len) data in
  text_inv s' /\ assembled s' = take text_max (assembled s ++ chunk) /\
  text_assem_len s' = Z.min 4096 (text_assem_len s + chunk_len) /\
  text_flag (text_msg s') = text_flag (text_msg s) /\ text_type (text_msg s') = text_type (text_msg s).
Proof.
  intros (Hlen & Ha & Hz0) Ho Hc Hd. pose proof text_max_Z as Hm. unfold text_append, APP_UART_CMD_TEXT_MAX_SIZE.
  assert (length (assembled s) = Z.to_nat (text_assem_len s)) as Hal by (unfold assembled; rewrite length_take; lia).
  destruct (Z.ltb_spec (text_assem_len s) 4096) as [Hlt|Hge].
  2: { simpl. split_and!; try done; try lia. rewrite take_app_le by lia. by rewrite take_ge by lia. }
  replace (u16 (4096 - text_assem_len s)) with (4096 - text_assem_len s) by wraps.
  set (copy := if 4096 - text_assem_len s <? chunk_len then _ else _).
  assert (copy = Z.min (4096 - text_assem_len s) chunk_len) as -> by (subst copy; split_ifs; lia).
  destruct (Z.ltb_spec 0 (Z.min (4096 - text_assem_len s) chunk_len)) as [Hp|Hz].
  2: { assert (chunk_len = 0) as -> by lia. simpl. unfold slice. rewrite take_0, app_nil_r.
       split_and!; try done; try lia. by rewrite take_ge by lia. }
  set (c := Z.min _ _) in *. set (d := slice (Z.to_nat off) (Z.to_nat c) data).
  assert (length d = Z.to_nat c) as Hdl by (apply length_slice; lia).
  cbn [text_msg text_assem_len text_flag text_type text update_with].
  replace (u16 (text_assem_len s + c)) with (text_assem_len s + c) by wraps.
  unfold text_inv, assembled. cbn [text_msg text_assem_len text_flag text_type text update_with].
  rewrite length_put, length_blit by lia.
  split_and!; try done; try lia.
  { intros _. apply get_put_eq. rewrite length_blit; lia. }
  rewrite take_put by lia.
  replace (Z.to_nat (text_assem_len s + c)) with (Z.to_nat (text_assem_len s) + length d)%nat by lia.
  rewrite take_blit by lia. fold (assembled s).
  destruct (Z.le_ge_cases chunk_len (4096 - text_assem_len s)).
  - rewrite take_ge; [do 2 f_equal; lia |]. rewrite length_app, length_slice by lia. lia.
  - rewrite take_app_ge by lia. f_equal. unfold d, slice. rewrite take_take. f_equal. lia.
Qed.

Lemma text_append_inv s data off chunk_len :
  text_inv s -> 0 <= off -> 0 <= chunk_len < 256 -> off + chunk_len <= Z.of_nat (length data) ->
  text_inv (text_append s data off chunk_len).
Proof. intros. by apply text_append_spec. Qed.

#[local] Opaque text_append.

Lemma force_finish_spec s :
  text_inv s ->
  let '(s', cs) := app_uart_cmd_force_finish_text_frame s in text_inv s' /\ Forall call_ok cs.
Proof.
  intros (? & ? & ?). unfold app_uart_cmd_force_finish_text_frame.
  destruct (_ =? 0); [by split; [| constructor] |].
  cbn [update_with text_msg]. split; [| apply Forall_singleton]; unfold text_inv, call_ok, show_text;
    cbn [text_msg text text_len text_assem_len update_with]; split_and!; done || lia.
Qed.

Lemma text_take_spec s data st flag type off chunk_len :
  text_inv s -> 0 <= off -> 0 <= chunk_len < 256 -> off + chunk_len <= Z.of_nat (length data) ->
  let '(_, s', cs) := text_take s data st flag type off chunk_len in text_inv s' /\ Forall call_ok cs.
Proof.
  intros Hs Ho Hc Hd. pose proof (text_append_inv s data off chunk_len Hs Ho Hc Hd) as Hi.
  unfold text_take. destruct (st =? 1); [| by split; [| constructor]]. destruct Hi as (Hl & Ha & Hz).
  split; [| apply Forall_singleton]; unfold text_inv, call_ok, show_text;
    cbn [text_msg text text_len text_assem_len update_with]; split_and!; done || lia.
Qed.

(** *** Messages *)

Fixpoint next_frames (chunks : list (list Z)) : list app_uart_cmd_frame_t :=
  match chunks with
  | [] => []
  | [c] => [next_frame 1 c]
  | c :: cs => next_frame 0 c :: next_frames cs
  end.

(** The frames that carry a text cut into [c0 :: cs]. *)
Definition message_frames (flag type : Z) (c0 : list Z) (cs : list (list Z)) : list app_uart_cmd_frame_t :=
  match cs with
  | [] => [first_frame 1 flag type c0]
  | _ => first_frame 0 flag type c0 :: next_frames cs
  end.

Definition chunk_ok (max : nat) (c : list Z) : Prop := (1 <= length c <= max)%nat.

Lemma parse_first st flag type c s :
  (type = 1 \/ type = 2) -> chunk_ok 246 c -> text_assem_len s = 0 ->
  app_uart_cmd_parse_text_frame (Some (first_frame st flag type c)) s =
  text_take (s <| text_msg := text_msg s <| text_flag := flag |> <| text_type := type |> |>)
    (frame_data (first_frame st flag type c)) st flag type 6 (Z.of_nat (length c)).
Proof.
  intros Ht Hc Hs. unfold chunk_ok in Hc. unfold app_uart_cmd_parse_text_frame, first_frame, raw_frame.
  cbn [frame_data frame_length length]. rewrite Hs.
  destruct (Z.ltb_spec (Z.of_nat (S (S (S (length c)))) + 6) 7); [lia |]. cbn [orb negb].
  change (get (_ :: _) 0 =? _) with true. change (get (_ :: _) 2 =? _) with true. cbn [negb].
  replace (u8 _) with (Z.of_nat (length c) + 3) by wraps.
  destruct (Z.ltb_spec (Z.of_nat (length c) + 3) 2), (Z.ltb_spec (Z.of_nat (length c) + 3) 3); try lia.
  change (0 =? 0) with true. cbv iota.
  replace (negb (_ =? 1) && _) with false.
  - by replace (u16 _) with (Z.of_nat (length c)) by wraps.
  - symmetry. change (get _ 5) with type. by destruct Ht as [-> | ->].
Qed.

Lemma parse_next st c s :
  chunk_ok 248 c -> 0 < text_assem_len s ->
  app_uart_cmd_parse_text_frame (Some (next_frame st c)) s =
  text_take s (frame_data (next_frame st c)) st (text_flag (text_msg s)) (text_type (text_msg s))
    4 (Z.of_nat (length c)).
Proof.
  intros Hc Hs. unfold chunk_ok in Hc. unfold app_uart_cmd_parse_text_frame, next_frame, raw_frame.
  cbn [frame_data frame_length length].
  destruct (Z.ltb_spec (Z.of_nat (S (length c)) + 6) 7); [lia |]. cbn [orb negb].
  change (get (_ :: _) 0 =? _) with true. change (get (_ :: _) 2 =? _) with true. cbn [negb].
  replace (u8 _) with (Z.of_nat (length c) + 1) by wraps.
  destruct (Z.ltb_spec (Z.of_nat (length c) + 1) 2); [lia |].
  destruct (Z.eqb_spec (text_assem_len s) 0); [lia |].
  by replace (u16 _) with (Z.of_nat (length c)) by wraps.
Qed.

Lemma slice_chunk hd c tl n : n = length hd -> slice n (length c) (hd ++ c ++ tl) = c.
Proof. intros ->. unfold slice. by rewrite drop_app_length, take_app_length. Qed.

(** The state while a message with header [flag], [type] has text [t]. *)
Definition assembling (s : text_state) (flag type : Z) (t : list Z) : Prop :=
  text_inv s /\ assembled s = t /\ text_flag (text_msg s) = flag /\ text_type (text_msg s) = type.

(** The end of a message: one call, with the text so far. *)
Definition finished (r : text_state * list lcd_call) (flag type : Z) (t : list Z) : Prop :=
  exists buf, snd r = [svc_lcd_update_text_message flag type buf (Z.of_nat (length t))] /\
    take (length t) buf = t /\ text_assem_len (fst r) = 0 /\ text_inv (fst r) /\
    app_usart_cmd_get_text_msg (fst r) = Some (mk_text_msg 1 flag type (Z.of_nat (length t)) buf).

Lemma text_take_message s data st flag type off c t :
  assembling s flag type t -> 0 <= off -> (length c < 256)%nat ->
  slice (Z.to_nat off) (length c) data = c -> off + Z.of_nat (length c) <= Z.of_nat (length data) ->
  let '(_, s', cs) := text_take s data st flag type off (Z.of_nat (length c)) in
  if st =? 1 then finished (s', cs) flag type (take text_max (t ++ c))
  else cs = [] /\ assembling s' flag type (take text_max (t ++ c)).
Proof.
  intros (Hi & Ht & Hf & Hy) Ho Hc Hs Hd.
  destruct (text_append_spec s data off (Z.of_nat (length c)) Hi Ho ltac:(lia) Hd) as (Hi' & Ha & Hl & Hf' & Hy').
  rewrite Nat2Z.id, Hs, Ht in Ha. unfold text_take. set (s' := text_append _ _ _ _) in *.
  destruct (st =? 1); [| split; [done |]; unfold assembling; by rewrite Hf', Hy'].
  assert (length (assembled s') = Z.to_nat (text_assem_len s')) as Hal.
  { destruct Hi' as (Hl1 & Hl2 & _). unfold assembled. pose proof text_max_Z. rewrite length_take. lia. }
  pose proof Hi' as (Hb & Hr & _).
  exists (text (text_msg s')). rewrite <- Ha, Hal, Z2Nat.id by lia.
  split_and!; done.
Qed.

Lemma take_text_app (a b : list Z) : take text_max (take text_max a ++ b) = take text_max (a ++ b).
Proof.
  destruct (decide (length a <= text_max)%nat); [by rewrite (take_ge a) |].
  rewrite !take_app_le by (rewrite ?length_take; lia). by rewrite take_take, Nat.min_id.
Qed.

Lemma next_frames_spec s flag type t cs :
  assembling s flag type t -> t <> [] -> Forall (chunk_ok 248) cs -> cs <> [] ->
  finished (parse_text_frames (next_frames cs) s) flag type (take text_max (t ++ concat cs)).
Proof.
  intros Hs Ht Hcs. revert s t Hs Ht. induction Hcs as [|c cs Hc Hcs IH]; intros s t Hs Ht Hne; [done |].
  assert (0 < text_assem_len s) as Hp.
  { destruct Hs as (_ & <- & _). unfold assembled in Ht. destruct (Z_lt_le_dec 0 (text_assem_len s)); [done |].
    by rewrite Z2Nat.nonpos, take_0 in Ht by lia. }
  pose proof (fun st => parse_next st c s Hc Hp) as Hn. unfold chunk_ok in Hc.
  pose proof (fun st => text_take_message s (frame_data (next_frame st c)) st flag type 4 c t Hs ltac:(lia) ltac:(lia)
    (slice_chunk [_; _; _; _] c _ 4 eq_refl)
    ltac:(unfold next_frame, raw_frame; cbn [frame_data]; simpl length; rewrite length_app; simpl; lia)) as Hm.
  destruct Hs as (_ & _ & Hf & Hy). rewrite Hf, Hy in Hn.
  destruct cs as [|c1 cs].
  - cbn [next_frames parse_text_frames]. rewrite Hn. specialize (Hm 1).
    destruct (text_take _ _ _ _ _ _ _) as [[ok s'] calls]. simpl concat. by rewrite !app_nil_r.
  - change (next_frames (c :: c1 :: cs)) with (next_frame 0 c :: next_frames (c1 :: cs)).
    cbn [parse_text_frames]. rewrite Hn. specialize (Hm 0).
    destruct (text_take _ _ _ _ _ _ _) as [[ok s'] calls]. destruct Hm as [-> Hs'].
    specialize (IH s' _ Hs').
    destruct (parse_text_frames (next_frames (c1 :: cs)) s') as [s2 calls]. cbn [app].
    rewrite take_text_app, <- app_assoc in IH. apply IH; [| done].
    intros E. apply (f_equal length) in E. pose proof text_max_Z. rewrite length_take, length_app in E. simpl in E. lia.
Qed.

Lemma message_frames_spec s flag type c0 cs :
  text_inv s -> text_assem_len s = 0 -> (type = 1 \/ type = 2) -> chunk_ok 246 c0 -> Forall (chunk_ok 248) cs ->
  finished (parse_text_frames (message_frames flag type c0 cs) s) flag type (take text_max (c0 ++ concat cs)).
Proof.
  intros Hi Hz Ht Hc Hcs. pose proof (fun st => parse_first st flag type c0 s Ht Hc Hz) as Hn.
  set (s0 := s <| text_msg := _ |>) in Hn. unfold chunk_ok in Hc.
  assert (assembling s0 flag type []) as Hs0.
  { split; [exact Hi |]. unfold assembled. subst s0. cbn [text_msg text_assem_len text_flag text_type text update_with].
    by rewrite Hz. }
  pose proof (fun st => text_take_message s0 (frame_data (first_frame st flag type c0)) st flag type 6 c0 [] Hs0
    ltac:(lia) ltac:(lia) (slice_chunk [_; _; _; _; _; _] c0 _ 6 eq_refl)
    ltac:(unfold first_frame, raw_frame; cbn [frame_data]; simpl length; rewrite length_app; simpl; lia)) as Hm.
  cbn [app] in Hm. destruct cs as [|c1 cs].
  - cbn [message_frames parse_text_frames]. rewrite Hn. specialize (Hm 1).
    destruct (text_take _ _ _ _ _ _ _) as [[ok s'] calls]. simpl concat. by rewrite !app_nil_r.
  - unfold message_frames. cbn [parse_text_frames]. rewrite Hn. specialize (Hm 0).
    destruct (text_take _ _ _ _ _ _ _) as [[ok s'] calls]. destruct Hm as [-> Hs'].
    pose proof (next_frames_spec s' flag type _ (c1 :: cs) Hs') as IH.
    destruct (parse_text_frames (next_frames (c1 :: cs)) s') as [s2 calls]. cbn [app].
    rewrite take_text_app in IH. apply IH; try done.
    intros E. apply (f_equal length) in E. pose proof text_max_Z. rewrite length_take in E. simpl in E. lia.
Qed.

Lemma parse_text_frame_spec f s :
  text_inv s -> frame_fits f ->
  let '(_, s', cs) := app_uart_cmd_parse_text_frame (Some f) s in text_inv s' /\ Forall call_ok cs.
Proof.
  intros Hs [Hl Hd]. unfold app_uart_cmd_parse_text_frame.
  destruct (Z.ltb_spec (frame_length f) 7); [by split; [| constructor] |]. cbn [orb].
  destruct (_ || _); [by split; [| constructor] |].
  replace (u8 (frame_length f - 6)) with (frame_length f - 6) by wraps.
  destruct (Z.ltb_spec (frame_length f - 6) 2); [by split; [| constructor] |].
  destruct (Z.eqb_spec (text_assem_len s) 0) as [Hz|Hz].
  - destruct (Z.ltb_spec (frame_length f - 6) 3); [by split; [| constructor] |].
    destruct (negb _ && _).
    + destruct Hs as (? & ? & ?). split; [| constructor]. unfold text_inv.
      cbn [text_msg text_assem_len text update_with]. split_and!; done || lia.
    + replace (u16 _) with (frame_length f - 6 - 3) by wraps.
      apply text_take_spec; [| lia..]. destruct Hs as (? & ? & ?). unfold text_inv.
      by cbn [text_msg text_assem_len text update_with].
  - replace (u16 _) with (frame_length f - 6 - 1) by wraps. apply text_take_spec; [done | lia..].
Qed.

Lemma text_frames_safe_one f :
  frame_fits f -> text_inv (fst (parse_text_frames [f] text_zero)).
Proof.
  intros Hf. pose proof (parse_text_frame_spec f text_zero text_zero_inv Hf) as H. cbn [parse_text_frames].
  destruct (app_uart_cmd_parse_text_frame (Some f) text_zero) as [[ok s1] cs1]. apply H.
Qed.

(** ** Properties *)

(** Whatever frames arrive (in any order, lost, repeated or with any
    payload), the assembly never writes outside the 4097-byte text buffer, and
    every text handed to the display is at most 4096 bytes long and, when not
    empty, terminated. *)
Theorem text_frames_safe frames :
  Forall frame_fits frames ->
  let '(s, calls) := parse_text_frames frames text_zero in text_inv s /\ Forall call_ok calls.
Proof.
  intros Hf. generalize text_zero_inv. generalize text_zero as s.
  induction Hf as [|f frames Hf _ IH]; intros s Hs; cbn [parse_text_frames]; [by split; [| constructor] |].
  pose proof (parse_text_frame_spec f s Hs Hf) as H.
  destruct (app_uart_cmd_parse_text_frame (Some f) s) as [[ok s1] cs1]. destruct H as [Hs1 Hc1].
  specialize (IH s1 Hs1). destruct (parse_text_frames frames s1) as [s2 cs2]. destruct IH as [? ?].
  split; [done | by apply Forall_app].
Qed.

Lemma text_frames_safe_witness :
  let '(s, calls) := parse_text_frames [first_frame 0 9 1 [72; 105]; next_frame 1 [33]] text_zero in
  text_inv s /\ Forall call_ok calls.
Proof.
  refine (text_frames_safe [first_frame 0 9 1 [72; 105]; next_frame 1 [33]] _).
  repeat (apply Forall_cons; split; [split; simpl; lia |]). by apply Forall_nil.
Defined.

(** C21: A text sent as any sequence of chunks reaches the display in exactly
    one call, with its flag and type and the first 4096 bytes of the
    concatenated chunks; [app_usart_cmd_get_text_msg] then returns it, and the
    assembly is ready for the next message. *)
Theorem text_message_delivered s flag type c0 cs :
  text_inv s -> text_assem_len s = 0 -> (type = 1 \/ type = 2) ->
  chunk_ok 246 c0 -> Forall (chunk_ok 248) cs ->
  finished (parse_text_frames (message_frames flag type c0 cs) s) flag type (take text_max (c0 ++ concat cs)).
Proof. apply message_frames_spec. Qed.

Lemma text_message_delivered_witness :
  finished (parse_text_frames (message_frames 4 2 [72; 105] [[32]; [33; 34]]) text_zero) 4 2
    (take text_max [72; 105; 32; 33; 34]).
Proof.
  refine (text_message_delivered text_zero 4 2 [72; 105] [[32]; [33; 34]] text_zero_inv _ _ _ _).
  - done.
  - by right.
  - unfold chunk_ok. simpl. lia.
  - repeat (apply Forall_cons; split; [unfold chunk_ok; simpl; lia |]). by apply Forall_nil.
Defined.

(** Nothing marks where a message starts: when the closing frame of a
    message is lost, the whole next message, header included, is appended to
    the unfinished text and shown under the old flag and type. *)
Theorem lost_end_merges_messages s flag type t flag' type' c :
  assembling s flag type t -> t <> [] -> chunk_ok 246 c ->
  finished (parse_text_frames (message_frames flag' type' c []) s) flag type
    (take text_max (t ++ flag' :: type' :: c)).
Proof.
  intros Hs Ht Hc. change (message_frames flag' type' c []) with (next_frames [flag' :: type' :: c]).
  replace (flag' :: type' :: c) with (concat [flag' :: type' :: c]) at 2 by (simpl; by rewrite app_nil_r).
  apply next_frames_spec; try done. apply Forall_singleton. unfold chunk_ok in *. simpl. lia.
Qed.

Lemma lost_end_merges_messages_witness :
  let s := fst (parse_text_frames [first_frame 0 9 1 [72; 105]] text_zero) in
  finished (parse_text_frames (message_frames 4 2 [33] []) s) 9 1 (take text_max [72; 105; 4; 2; 33]).
Proof.
  refine (lost_end_merges_messages _ 9 1 [72; 105] 4 2 [33] _ _ _).
  - unfold assembling. split; [| by vm_compute].
    apply (text_frames_safe_one (first_frame 0 9 1 [72; 105])). split; simpl; lia.
  - done.
  - unfold chunk_ok. simpl. lia.
Defined.
