(* ===== verification/UartFrame.v ===== *)
(** * Frame synchronisation ([app_usart_cmd.c])

    The byte-driven parser that finds frames in the receive ring, as an
    implementation of a parser over lists of pending bytes. *)

From S2P Require Import Prelude UartRing UartCrc UartText.

(** ** Operations *)

(** The statics of [app_uart_cmd_try_parse_frame]. *)
Record parser := mk_parser { temp : list Z; index : Z; expect_len : Z }.

#[export] Instance eta_parser : Eta parser := fun p => mk_parser (temp p) (index p) (expect_len p).

Definition parser_zero : parser := mk_parser (zeros (Z.to_nat APP_UART_CMD_FRAME_MAX_SIZE)) 0 0.

Definition app_uart_cmd_check_crc (buf : pointer (list Z)) (len : Z) : bool :=
  match buf with
  | None => false
  | Some buf =>
      if len <? 6 then false
      else
        let data_len := u8 (len - 6) in
        let calc_crc := app_uart_cmd_crc16 (Some (drop 3 buf)) data_len in
        let recv_crc := Z.lor (get buf (len - 3)) (u16 (Z.shiftl (get buf (len - 2)) 8)) in
        calc_crc =? recv_crc
  end.

(** The search [for (i = 1; i < index; i++)]: the first head at or after [i]
    among the [n] bytes from [i], or 0. *)
Fixpoint next_head (n : nat) (temp : list Z) (i : Z) : Z :=
  match n with
  | O => 0
  | S n => if get temp i =? APP_UART_CMD_FRAME_HEAD then i else next_head n temp (i + 1)
  end.

(** The loop [temp[i] = temp[next_head + i]] for [n] values from [i]. *)
Fixpoint move_down (n : nat) (temp : list Z) (nh i : Z) : list Z :=
  match n with
  | O => temp
  | S n => move_down n (put temp i (get temp (nh + i))) nh (i + 1)
  end.

(** The end of the loop body: restart at the next head of the rejected bytes. *)
Definition resync (p : parser) : parser :=
  let nh := next_head (Z.to_nat (index p - 1)) (temp p) 1 in
  if nh =? 0 then p <| index := 0 |> <| expect_len := 0 |>
  else
    let remain_len := u8 (index p - nh) in
    let p := p <| temp := move_down (Z.to_nat remain_len) (temp p) nh 0 |> in
    let p := p <| index := remain_len |> <| expect_len := 0 |> in
    if 2 <=? index p then
      let p := p <| expect_len := get (temp p) 1 |> in
      if (expect_len p <? 6) || (APP_UART_CMD_FRAME_MAX_SIZE <? expect_len p)
      then p <| index := 0 |> <| expect_len := 0 |>
      else p
    else p.

(** The body of the loop for the popped [byte].  [Some frame] is the return
    with [RT_TRUE]; [None] goes on with the next byte. *)
Definition parse_byte (p : parser) (t : text_state) (frame : app_uart_cmd_frame_t) (byte : Z)
    : option app_uart_cmd_frame_t * parser * text_state * list lcd_call :=
  if index p =? 0 then
    if negb (byte =? APP_UART_CMD_FRAME_HEAD) then (None, p, t, [])
    else (None, p <| temp := put (temp p) 0 byte |> <| index := 1 |> <| expect_len := 0 |>, t, [])
  else
    let p := p <| temp := put (temp p) (index p) byte |> <| index := u8 (index p + 1) |> in
    if index p =? 2 then
      let p := p <| expect_len := get (temp p) 1 |> in
      if (expect_len p <? 6) || (APP_UART_CMD_FRAME_MAX_SIZE <? expect_len p) then
        let p := p <| index := 0 |> <| expect_len := 0 |> in
        if byte =? APP_UART_CMD_FRAME_HEAD
        then (None, p <| temp := put (temp p) 0 byte |> <| index := 1 |>, t, [])
        else (None, p, t, [])
      else (None, p, t, [])
    else if (index p =? 3) && negb (get (temp p) 2 =? APP_UART_CMD_TYPE_SOC_STATUS) &&
            negb (get (temp p) 2 =? APP_UART_CMD_TEXT_FRAME_TYPE)
    then (None, p <| index := 0 |> <| expect_len := 0 |>, t, [])
    else if index p <? expect_len p then (None, p, t, [])
    else if (get (temp p) (expect_len p - 1) =? APP_UART_CMD_FRAME_TAIL) &&
            app_uart_cmd_check_crc (Some (temp p)) (expect_len p)
    then
      let len := Z.to_nat (expect_len p) in
      (Some (mk_frame (blit 0 (take len (temp p)) (frame_data frame)) (expect_len p)),
       p <| index := 0 |> <| expect_len := 0 |>, t, [])
    else
      let '(t, calls) :=
        if (7 <=? expect_len p) && (get (temp p) 2 =? APP_UART_CMD_TEXT_FRAME_TYPE) && (get (temp p) 3 =? 1)
        then app_uart_cmd_force_finish_text_frame t else (t, []) in
      (None, resync p, t, calls).

(** [while (ring_pop(&byte))]: [fuel] bounds the number of bytes popped. *)
Fixpoint try_parse_loop (fuel : nat) (r : app_uart_cmd_ring_t) (p : parser) (t : text_state) (frame : app_uart_cmd_frame_t)
    : option app_uart_cmd_frame_t * app_uart_cmd_ring_t * parser * text_state * list lcd_call :=
  match fuel with
  | O => (None, r, p, t, [])
  | S fuel =>
      match app_uart_cmd_ring_pop r with
      | (None, r) => (None, r, p, t, [])
      | (Some byte, r) =>
          match parse_byte p t frame byte with
          | (Some f, p, t, calls) => (Some f, r, p, t, calls)
          | (None, p, t, calls) =>
              let '(f, r, p, t, calls') := try_parse_loop fuel r p t frame in
              (f, r, p, t, calls ++ calls')
          end
      end
  end.

Definition app_uart_cmd_try_parse_frame (r : app_uart_cmd_ring_t) (p : parser) (t : text_state) (frame : app_uart_cmd_frame_t)
    : option app_uart_cmd_frame_t * app_uart_cmd_ring_t * parser * text_state * list lcd_call :=
  try_parse_loop (S (Z.to_nat (ring_count r))) r p t frame.

(** The buffer after [app_uart_cmd_build_ack]; [None] when it returns 0. *)
Definition app_uart_cmd_build_ack (type ret : Z) (buf : pointer (list Z)) (buf_size : Z) : option (list Z) :=
  match buf with
  | None => None
  | Some buf =>
      if buf_size <? 8 then None
      else
        let buf := put buf 0 APP_UART_CMD_FRAME_HEAD in
        let buf := put buf 1 8 in
        let buf := put buf 2 type in
        let buf := put buf 3 ret in
        let buf := put buf 4 0 in
        let crc := app_uart_cmd_crc16 (Some (drop 3 buf)) 2 in
        let buf := put buf 5 (u8 (Z.land crc 0xFF)) in
        let buf := put buf 6 (u8 (Z.shiftr crc 8)) in
        Some (put buf 7 APP_UART_CMD_FRAME_TAIL)
  end.

(** ** Specification: frames in a list of bytes *)

(** A frame of the protocol: head, total length, type, data, checksum of the
    data (low byte first), tail. *)
Definition frame_ok (f : list Z) : bool :=
  let len := Z.of_nat (length f) in
  (6 <=? len) && (get f 0 =? 0xAA) && (get f 1 =? len) && (get f (len - 1) =? 0x55) &&
  (app_uart_cmd_crc16 (Some (drop 3 f)) (len - 6) =? get f (len - 3) + 256 * get f (len - 2)).

(** The rest of the bytes from the next head on, unless its length is impossible. *)
Fixpoint from_head (l : list Z) : list Z :=
  match l with
  | [] => []
  | b :: l' => if b =? 0xAA then (match l' with b' :: _ => if b' <? 6 then [] else l | [] => l end) else from_head l'
  end.

(** One byte: the pending bytes, whether a frame is delivered, and whether a
    rejected frame was the end of a text. *)
Definition spec_step (q : list Z) (b : Z) : option (list Z) * list Z * bool :=
  match q with
  | [] => (None, if b =? 0xAA then [b] else [], false)
  | [_] => (None, if b <? 6 then [] else q ++ [b], false)
  | _ =>
      let q := q ++ [b] in
      let len := get q 1 in
      let f := take (Z.to_nat len) q in
      if (Z.of_nat (length q) =? 3) && negb (b =? 1) && negb (b =? 2) then (None, [], false)
      else if Z.of_nat (length q) <? len then (None, q, false)
      else if frame_ok f then (Some f, [], false)
      else (None, from_head (tail q), (7 <=? len) && (get q 2 =? 2) && (get q 3 =? 1))
  end.

(** Bytes until a frame is delivered or they run out: the frame, the bytes
    left, the pending bytes and the number of rejected text ends. *)
Fixpoint spec_parse (q bs : list Z) : option (list Z) * list Z * list Z * nat :=
  match bs with
  | [] => (None, [], q, O)
  | b :: bs =>
      match spec_step q b with
      | (Some f, q, forced) => (Some f, bs, q, Nat.b2n forced)
      | (None, q, forced) =>
          let '(f, rest, q, n) := spec_parse q bs in (f, rest, q, (Nat.b2n forced + n)%nat)
      end
  end.

(** Finishing the text [n] times. *)
Fixpoint force_finishes (n : nat) (t : text_state) : text_state * list lcd_call :=
  match n with
  | O => (t, [])
  | S n =>
      let '(t, c) := app_uart_cmd_force_finish_text_frame t in
      let '(t, cs) := force_finishes n t in (t, c ++ cs)
  end.

(** What holds of the pending bytes between two bytes. *)
Definition pending_ok (q : list Z) : Prop :=
  Forall is_u8 q /\ (length q <= 254)%nat /\
  match q with
  | [] => True
  | h :: q' => h = 0xAA /\ match q' with [] => True | l :: _ => 6 <= l end
  end.

(** The parser state holds the pending bytes [q]. *)
Definition holds (p : parser) (q : list Z) : Prop :=
  pending_ok q /\ length (temp p) = Z.to_nat 512 /\ index p = Z.of_nat (length q) /\
  take (length q) (temp p) = q /\ (2 <= index p -> expect_len p = get q 1).

(** ** Lemmas *)

Lemma get_app_l a b i : 0 <= i < Z.of_nat (length a) -> get (a ++ b) i = get a i.
Proof. intros. unfold get. rewrite !nth_lookup, lookup_app_l by lia. done. Qed.

Lemma get_app_here (a b : list Z) x : get (a ++ x :: b) (Z.of_nat (length a)) = x.
Proof. unfold get. rewrite Nat2Z.id. by rewrite nth_middle. Qed.

Lemma get_u8 l i : Forall is_u8 l -> is_u8 (get l i).
Proof.
  intros H. unfold get. rewrite nth_lookup. destruct (l !! Z.to_nat i) eqn:E; simpl.
  - by eapply Forall_lookup_1.
  - unfold is_u8. lia.
Qed.

Lemma take_put_snoc l n b : (n < length l)%nat -> take (S n) (put l (Z.of_nat n) b) = take n l ++ [b].
Proof.
  intros. unfold put. rewrite Nat2Z.id. erewrite take_S_r by (by apply list_lookup_insert_eq).
  by rewrite take_insert_ge by lia.
Qed.

Lemma take_S_get l n : (n < length l)%nat -> take (S n) l = take n l ++ [get l (Z.of_nat n)].
Proof.
  intros H. destruct (lookup_lt_is_Some_2 l n H) as [x E]. rewrite (take_S_r l n x E).
  unfold get. by rewrite Nat2Z.id, nth_lookup, E.
Qed.

Lemma slice_S i n l : (i < length l)%nat -> slice i (S n) l = get l (Z.of_nat i) :: slice (S i) n l.
Proof.
  intros H. destruct (lookup_lt_is_Some_2 l i H) as [x E]. unfold slice. erewrite drop_S by done.
  unfold get. rewrite Nat2Z.id, nth_lookup, E. done.
Qed.

Lemma slice_put l i n j v : (j < i)%nat -> slice i n (put l (Z.of_nat j) v) = slice i n l.
Proof. intros. unfold slice, put. by rewrite Nat2Z.id, drop_insert_lt by lia. Qed.

Lemma forall_second (a b : Z) l : Forall is_u8 (a :: b :: l) -> is_u8 b.
Proof. rewrite !Forall_cons. tauto. Qed.

(** *** The resynchronisation loops *)

Fixpoint skip (l : list Z) : list Z :=
  match l with
  | [] => []
  | b :: l' => if b =? 0xAA then l else skip l'
  end.

Lemma from_head_skip l :
  from_head l = match skip l with _ :: b :: _ => if b <? 6 then [] else skip l | q => q end.
Proof. induction l as [|b l IH]; [done |]. simpl. destruct (b =? 0xAA); [by destruct l as [|b' l]; [| simpl; destruct (b' <? 6)] | done]. Qed.

Lemma skip_suffix l : exists k, skip l = drop k l /\ (k <= length l)%nat.
Proof.
  induction l as [|b l [k [IH Hk]]]; [by exists O |]. simpl. destruct (b =? 0xAA); [by exists O; split; [| lia] |].
  exists (S k). split; [done | lia].
Qed.

Lemma skip_head l h q : skip l = h :: q -> h = 0xAA.
Proof.
  induction l as [|b l IH]; [done |]. simpl. destruct (Z.eqb_spec b 0xAA); [by intros [= -> _] | done].
Qed.

Lemma next_head_skip n t i :
  (1 <= i)%nat -> (i + n <= length t)%nat ->
  (next_head n t (Z.of_nat i) = 0 /\ skip (slice i n t) = []) \/
  (exists k, (k < n)%nat /\ next_head n t (Z.of_nat i) = Z.of_nat (i + k) /\ skip (slice i n t) = slice (i + k) (n - k) t).
Proof.
  revert i. induction n as [|n IH]; intros i Hi Hl; [by left |].
  rewrite slice_S by lia. cbn [next_head skip]. unfold APP_UART_CMD_FRAME_HEAD.
  destruct (Z.eqb_spec (get t (Z.of_nat i)) 0xAA).
  - right. exists O. split_and!; [lia | lia |]. rewrite Nat.add_0_r, Nat.sub_0_r. by rewrite slice_S by lia.
  - replace (Z.of_nat i + 1) with (Z.of_nat (S i)) by lia.
    destruct (IH (S i) ltac:(lia) ltac:(lia)) as [H|(k & Hk & H1 & H2)]; [by left |].
    right. exists (S k). split_and!; [lia | rewrite H1; lia |]. rewrite H2. f_equal; lia.
Qed.

Lemma move_down_spec n t nh i :
  (1 <= nh)%nat -> (nh + i + n <= length t)%nat ->
  length (move_down n t (Z.of_nat nh) (Z.of_nat i)) = length t /\
  take (i + n) (move_down n t (Z.of_nat nh) (Z.of_nat i)) = take i t ++ slice (nh + i) n t.
Proof.
  revert t i. induction n as [|n IH]; intros t i Hn Hl.
  - simpl. unfold slice. rewrite take_0, app_nil_r. by rewrite Nat.add_0_r.
  - cbn [move_down]. replace (Z.of_nat i + 1) with (Z.of_nat (S i)) by lia.
    destruct (IH (put t (Z.of_nat i) (get t (Z.of_nat nh + Z.of_nat i))) (S i)) as [H1 H2];
      [done | rewrite length_put; lia |].
    split; [by rewrite H1, length_put |]. replace (i + S n)%nat with (S i + n)%nat by lia.
    rewrite H2, take_put_snoc, slice_put, slice_S by lia. rewrite <- app_assoc. simpl.
    by replace (nh + S i)%nat with (S (nh + i)) by lia; rewrite Nat2Z.inj_add.
Qed.

(** *** Refinement of one byte *)

(** The buffer holds the bytes [q], with nothing known of their form. *)
Definition buffered (p : parser) (q : list Z) : Prop :=
  length (temp p) = Z.to_nat 512 /\ index p = Z.of_nat (length q) /\ take (length q) (temp p) = q.

Lemma buffered_get p q i : buffered p q -> 0 <= i < Z.of_nat (length q) -> get (temp p) i = get q i.
Proof. intros (_ & _ & H) Hi. rewrite <- (get_take (temp p) (length q)) by lia. by rewrite H. Qed.

Lemma buffered_snoc p q b :
  buffered p q -> (length q <= 254)%nat ->
  buffered (p <| temp := put (temp p) (index p) b |> <| index := u8 (index p + 1) |>) (q ++ [b]).
Proof.
  intros (Hl & Hi & Ht) Hq. unfold buffered. cbn [temp index update_with].
  rewrite length_put, length_app, Hi. simpl length. split_and!; [done | wraps |].
  rewrite Nat.add_1_r, take_put_snoc by lia. by rewrite Ht.
Qed.

Lemma length_skip l : (length (skip l) <= length l)%nat.
Proof. destruct (skip_suffix l) as (k & -> & _). rewrite length_drop. lia. Qed.

Lemma skip_bytes l : Forall is_u8 l -> Forall is_u8 (skip l).
Proof. destruct (skip_suffix l) as (k & -> & _). apply Forall_drop. Qed.

Lemma holds_nil p : length (temp p) = Z.to_nat 512 -> index p = 0 -> holds p [].
Proof. intros H1 H2. split; [split_and!; [by constructor | simpl; lia | done] |]. split_and!; done || lia. Qed.

Lemma holds_intro p q :
  pending_ok q -> buffered p q -> (2 <= index p -> expect_len p = get q 1) -> holds p q.
Proof. intros Hp (? & ? & ?) He. by split_and!. Qed.

Lemma holds_buffered p q : holds p q -> buffered p q.
Proof. by intros (_ & ? & ? & ? & _). Qed.

Lemma resync_holds p q :
  buffered p q -> Forall is_u8 q -> (1 <= length q <= 255)%nat -> holds (resync p) (from_head (tail q)).
Proof.
  intros Hb Hq Hlen. pose proof Hb as (Hl & Hi & Ht). unfold resync. rewrite Hi.
  replace (Z.to_nat (Z.of_nat (length q) - 1)) with (length q - 1)%nat by lia.
  assert (tail q = slice 1 (length q - 1) (temp p)) as Htl.
  { rewrite <- Ht at 1. unfold slice. destruct (temp p) as [|x l], q as [|y q]; simpl in *; try done; try lia.
    f_equal. lia. }
  rewrite from_head_skip, Htl. cbv zeta.
  pose proof (next_head_skip (length q - 1) (temp p) 1 ltac:(lia) ltac:(lia)) as Hnh.
  change (Z.of_nat 1) with 1 in Hnh. generalize dependent (next_head (length q - 1) (temp p) 1).
  intros nh [[-> ->]|(k & Hk & -> & Hs)].
  - by apply holds_nil.
  - destruct (Z.eqb_spec (Z.of_nat (1 + k)) 0); [lia |].
    set (m := (length q - 1 - k)%nat) in *.
    replace (u8 (Z.of_nat (length q) - Z.of_nat (1 + k))) with (Z.of_nat m) by wraps. rewrite Nat2Z.id.
    destruct (move_down_spec m (temp p) (1 + k) 0 ltac:(lia) ltac:(lia)) as [Hm1 Hm2].
    change (Z.of_nat 0) with 0 in *. rewrite Nat.add_0_l, Nat.add_0_r in Hm2. rewrite take_0 in Hm2. cbn [app] in Hm2.
    rewrite Hs. set (q' := slice (1 + k) m (temp p)) in *.
    assert (length q' = m) as Hql by (apply length_slice; lia).
    assert (buffered (p <| temp := move_down m (temp p) (Z.of_nat (1 + k)) 0 |> <| index := Z.of_nat m |> <| expect_len := 0 |>) q') as Hb'.
    { unfold buffered. cbn [temp index update_with]. rewrite Hql. by split_and!; rewrite ?Hm1. }
    set (p' := p <| temp := _ |> <| index := _ |> <| expect_len := 0 |>) in *.
    assert (Forall is_u8 q') as Hq' by (rewrite <- Hs, <- Htl; by apply skip_bytes, Forall_tail).
    clearbody q'. destruct q' as [|h q']; [simpl in Hql; lia |].
    assert (h = 0xAA) as -> by (by eapply skip_head).
    change (index p') with (Z.of_nat m). destruct q' as [|l q'].
    { simpl in Hql. rewrite <- Hql. change (2 <=? Z.of_nat 1) with false. cbv iota. apply holds_intro; [| exact Hb' |].
      - split_and!; [done | simpl; lia | done..].
      - change (index p') with (Z.of_nat m). lia. }
    destruct (Z.leb_spec 2 (Z.of_nat m)); [| simpl in Hql; lia].
    rewrite (buffered_get p' _ 1 Hb') by (simpl; lia). change (get (_ :: l :: q') 1) with l.
    cbn [expect_len update_with]. assert (is_u8 l) as Hlb by (by eapply forall_second).
    unfold APP_UART_CMD_FRAME_MAX_SIZE. destruct (Z.ltb_spec 512 l); [wraps |]. rewrite orb_false_r.
    destruct (Z.ltb_spec l 6); [apply holds_nil; [apply Hb' | done] |].
    apply holds_intro; [split_and!; [done | lia | done..] | done | done].
Qed.

Lemma check_crc_frame t f :
  Forall is_u8 f -> 6 <= Z.of_nat (length f) <= 255 -> take (length f) t = f ->
  app_uart_cmd_check_crc (Some t) (Z.of_nat (length f)) =
  (app_uart_cmd_crc16 (Some (drop 3 f)) (Z.of_nat (length f) - 6) =?
   get f (Z.of_nat (length f) - 3) + 256 * get f (Z.of_nat (length f) - 2)).
Proof.
  intros Hf Hl Ht. unfold app_uart_cmd_check_crc. destruct (Z.ltb_spec (Z.of_nat (length f)) 6); [lia |].
  replace (u8 _) with (Z.of_nat (length f) - 6) by wraps.
  assert (forall i, 0 <= i < Z.of_nat (length f) -> get t i = get f i) as Hg.
  { intros i Hi. rewrite <- (get_take t (length f)) by lia. by rewrite Ht. }
  rewrite !Hg by lia. pose proof (get_u8 f (Z.of_nat (length f) - 3) Hf). pose proof (get_u8 f (Z.of_nat (length f) - 2) Hf).
  replace (u16 (Z.shiftl _ 8)) with (Z.shiftl (get f (Z.of_nat (length f) - 2)) 8)
    by (rewrite Z.shiftl_mul_pow2 by lia; wraps).
  rewrite lor_shiftl by wraps. change (2 ^ 8) with 256. f_equal. unfold app_uart_cmd_crc16. f_equal.
  rewrite <- Ht at 3. rewrite skipn_firstn_comm, take_take. f_equal. lia.
Qed.

(** What [parse_byte] computes, given the outcome of [spec_step]. *)
Definition step_refines (p : parser) (t : text_state) (frame : app_uart_cmd_frame_t) (b : Z)
    (out : option (list Z) * list Z * bool) : Prop :=
  let '(f, q', forced) := out in
  exists p', holds p' q' /\
    parse_byte p t frame b =
      (option_map (fun f => mk_frame (blit 0 f (frame_data frame)) (Z.of_nat (length f))) f, p',
       fst (force_finishes (Nat.b2n forced) t), snd (force_finishes (Nat.b2n forced) t)) /\
    match f with Some f => frame_ok f = true /\ Forall is_u8 f /\ q' = [] /\ forced = false | None => True end.

Lemma parse_byte_idle p t frame b : holds p [] -> is_u8 b -> step_refines p t frame b (spec_step [] b).
Proof.
  intros Hh Hbyte. pose proof Hh as (_ & Hl & Hi & Ht & He). unfold step_refines, parse_byte. rewrite Hi.
  change (Z.of_nat (length []) =? 0) with true. cbn [spec_step]. unfold APP_UART_CMD_FRAME_HEAD.
  destruct (Z.eqb_spec b 0xAA) as [->|]; cbn [negb]; [| by exists p].
  eexists. split; [| split; [reflexivity | done]].
  apply holds_intro; [split_and!; [solve_bytes | simpl; lia | done..] | | cbn [index update_with]; lia].
  unfold buffered. cbn [temp index update_with]. rewrite length_put. split_and!; [done..|].
  exact (take_put_snoc (temp p) 0 0xAA ltac:(lia)).
Qed.

Lemma parse_byte_length p t frame b : holds p [0xAA] -> is_u8 b -> step_refines p t frame b (spec_step [0xAA] b).
Proof.
  intros Hh Hbyte. pose proof Hh as ((Hq & Hlen & _) & Hl & Hi & Ht & He). unfold step_refines, parse_byte. rewrite Hi.
  change (Z.of_nat (length [0xAA]) =? 0) with false. cbn [spec_step].
  pose proof (buffered_snoc p _ b (holds_buffered _ _ Hh) Hlen) as Hb. rewrite Hi in Hb.
  set (p1 := p <| temp := _ |> <| index := _ |>) in *. change (index p1 =? 2) with true. cbv iota.
  rewrite (buffered_get p1 _ 1 Hb) by (simpl; lia). change (get ([0xAA] ++ [b]) 1) with b.
  cbn [expect_len update_with]. unfold APP_UART_CMD_FRAME_MAX_SIZE, APP_UART_CMD_FRAME_HEAD.
  destruct (Z.ltb_spec 512 b); [wraps |]. rewrite orb_false_r.
  destruct (Z.ltb_spec b 6).
  - destruct (Z.eqb_spec b 0xAA); [lia |]. eexists. split; [| split; [reflexivity | done]].
    apply holds_nil; [apply Hb | done].
  - eexists. split; [| split; [reflexivity | done]].
    apply holds_intro; [| exact Hb | done].
    split_and!; [apply Forall_app_2; [done | by apply Forall_singleton] | simpl; lia | done..].
Qed.

(** The acceptance test on the buffer is [frame_ok] on the frame it holds. *)
Lemma frame_ok_temp p q l :
  buffered p q -> Forall is_u8 q -> get q 0 = 0xAA -> get q 1 = l -> 6 <= l <= Z.of_nat (length q) ->
  let f := take (Z.to_nat l) q in
  take (Z.to_nat l) (temp p) = f /\ l = Z.of_nat (length f) /\
  frame_ok f = (get (temp p) (l - 1) =? 0x55) && app_uart_cmd_check_crc (Some (temp p)) l.
Proof.
  intros (_ & _ & Hb) Hq Hh Hl1 Hr f.
  assert (l = Z.of_nat (length f)) as Hlf by (unfold f; rewrite length_take; lia).
  assert (is_u8 l) by (rewrite <- Hl1; by apply get_u8).
  assert (take (length f) (temp p) = f) as Htf.
  { unfold f at 2. rewrite <- Hb, take_take. f_equal. lia. }
  split_and!; [by rewrite Hlf, Nat2Z.id | done |].
  rewrite Hlf, check_crc_frame; [| by apply Forall_take | wraps | done].
  rewrite <- (get_take (temp p) (length f)), Htf by lia.
  unfold frame_ok. destruct (Z.leb_spec 6 (Z.of_nat (length f))); [| lia].
  replace (get f 0) with 0xAA by (unfold f; by rewrite get_take by lia).
  replace (get f 1) with l by (unfold f; by rewrite get_take by lia).
  by rewrite (proj2 (Z.eqb_eq l (Z.of_nat (length f)))) by done.
Qed.

Lemma parse_byte_body p t frame l q b :
  holds p (0xAA :: l :: q) -> is_u8 b -> step_refines p t frame b (spec_step (0xAA :: l :: q) b).
Proof.
  intros Hh Hbyte. pose proof Hh as ((Hq & Hlen & _ & Hl6) & Hl & Hi & Ht & He).
  unfold step_refines, parse_byte. rewrite Hi. cbn [spec_step].
  pose proof (buffered_snoc p _ b (holds_buffered _ _ Hh) Hlen) as Hb. rewrite Hi in Hb.
  destruct (Z.eqb_spec (Z.of_nat (length (0xAA :: l :: q))) 0); [simpl in *; lia |].
  set (p1 := p <| temp := _ |> <| index := _ |>) in *.
  assert (expect_len p1 = l) as -> by (transitivity (expect_len p); [done | apply He; simpl in *; lia]).
  change (get ((_ :: l :: q) ++ [b]) 1) with l.
  assert (Forall is_u8 ((0xAA :: l :: q) ++ [b])) as Hq1 by (apply Forall_app_2; [done | by apply Forall_singleton]).
  set (q1 := (_ :: l :: q) ++ [b]) in *.
  assert (length q1 = (3 + length q)%nat) as Hq1l by (unfold q1; rewrite length_app; simpl; lia).
  assert (index p1 = Z.of_nat (length q1)) as -> by apply Hb.
  destruct (Z.eqb_spec (Z.of_nat (length q1)) 2); [lia |].
  rewrite !(buffered_get p1 q1 2 Hb) by lia.
  unfold APP_UART_CMD_TYPE_SOC_STATUS, APP_UART_CMD_TEXT_FRAME_TYPE, APP_UART_CMD_FRAME_TAIL.
  replace ((Z.of_nat (length q1) =? 3) && negb (get q1 2 =? 1) && negb (get q1 2 =? 2))
    with ((Z.of_nat (length q1) =? 3) && negb (b =? 1) && negb (b =? 2)).
  2: { destruct (Z.eqb_spec (Z.of_nat (length q1)) 3); [| done]. destruct q; [done | simpl in *; lia]. }
  destruct (_ && _ && negb (b =? 2)).
  { eexists. split; [| split; [reflexivity | done]]. apply holds_nil; [apply Hb | done]. }
  destruct (Z.ltb_spec (Z.of_nat (length q1)) l) as [Hlt|Hge].
  { eexists. split; [| split; [reflexivity | done]]. assert (is_u8 l) by (by eapply forall_second).
    apply holds_intro; [| exact Hb | intros _; exact (He ltac:(simpl in *; lia))].
    split_and!; [done | wraps | done..]. }
  destruct (frame_ok_temp p1 q1 l Hb Hq1 eq_refl eq_refl ltac:(lia)) as (Htf & Hlf & <-).
  destruct (frame_ok (take (Z.to_nat l) q1)) eqn:Hok.
  { exists (p1 <| index := 0 |> <| expect_len := 0 |>). split; [| split].
    - apply holds_nil; [apply Hb | done].
    - cbn [option_map Nat.b2n force_finishes fst snd]. by rewrite Htf, <- Hlf.
    - split_and!; try done. by apply Forall_take. }
  exists (resync p1). split; [apply resync_holds; [done | done | simpl in *; lia] |]. split; [| done].
  rewrite (buffered_get p1 q1 3 Hb) by lia.
  destruct (_ && _); cbn [Nat.b2n force_finishes option_map fst snd]; [| done].
  destruct (app_uart_cmd_force_finish_text_frame t) as [t' cs]. cbn [fst snd]. by rewrite app_nil_r.
Qed.

(** [parse_byte] does what [spec_step] says. *)
Lemma parse_byte_refines p t frame q b : holds p q -> is_u8 b -> step_refines p t frame b (spec_step q b).
Proof.
  intros Hh Hb. pose proof Hh as ((_ & _ & Hform) & _).
  destruct q as [|h [|l q]]; [by apply parse_byte_idle | |]; destruct Hform as [-> _].
  - by apply parse_byte_length.
  - by apply parse_byte_body.
Qed.

(** *** The loop *)

Lemma force_finishes_app m n t :
  force_finishes (m + n) t =
  (fst (force_finishes n (fst (force_finishes m t))),
   snd (force_finishes m t) ++ snd (force_finishes n (fst (force_finishes m t)))).
Proof.
  revert t. induction m as [|m IH]; intros t; simpl; [by destruct (force_finishes n t) |].
  destruct (app_uart_cmd_force_finish_text_frame t) as [t1 c1]. rewrite (IH t1).
  destruct (force_finishes m t1) as [t2 c2]. cbn [fst snd]. by rewrite app_assoc.
Qed.

(** What [app_uart_cmd_try_parse_frame] returns, given the outcome of [spec_parse]. *)
Definition loop_refines (t : text_state) (frame : app_uart_cmd_frame_t)
    (out : option (list Z) * list Z * list Z * nat)
    (res : option app_uart_cmd_frame_t * app_uart_cmd_ring_t * parser * text_state * list lcd_call) : Prop :=
  let '(f, rest, q', n) := out in
  exists r' p',
    res = (option_map (fun f => mk_frame (blit 0 f (frame_data frame)) (Z.of_nat (length f))) f, r', p',
           fst (force_finishes n t), snd (force_finishes n t)) /\
    ring_inv r' /\ contents r' = rest /\ holds p' q'.

Lemma try_parse_loop_refines fuel r p t frame q :
  ring_inv r -> Forall is_u8 (contents r) -> holds p q -> (length (contents r) < fuel)%nat ->
  loop_refines t frame (spec_parse q (contents r)) (try_parse_loop fuel r p t frame).
Proof.
  revert r p t q. induction fuel as [|fuel IH]; intros r p t q Hr Hb Hh Hf; [lia |]. cbn [try_parse_loop].
  pose proof (pop_spec r Hr) as Hp. destruct (app_uart_cmd_ring_pop r) as [[b|] r1]; destruct Hp as [Hr1 Hq].
  - destruct (contents r) as [|b' bs]; [done |]. injection Hq as <- Hc. apply Forall_cons in Hb as [Hb Hbs].
    cbn [spec_parse]. pose proof (parse_byte_refines p t frame q b Hh Hb) as Hs. unfold step_refines in Hs.
    destruct (spec_step q b) as [[[f|] q1] forced]; destruct Hs as (p1 & Hh1 & E & Hx); rewrite E; cbn [option_map].
    + exists r1, p1. done.
    + rewrite <- Hc in *. simpl in Hf.
      specialize (IH r1 p1 (fst (force_finishes (Nat.b2n forced) t)) q1 Hr1 Hbs Hh1 ltac:(lia)).
      destruct (spec_parse q1 (contents r1)) as [[[f rest] q2] n]. destruct IH as (r2 & p2 & -> & ? & ? & ?).
      exists r2, p2. rewrite force_finishes_app. done.
  - destruct (contents r) as [|b' bs]; [| done]. exists r1, p. cbn. split_and!; try done. injection Hq as <-. done.
Qed.

Lemma try_parse_refines_spec r p t frame q :
  ring_inv r -> Forall is_u8 (contents r) -> holds p q ->
  loop_refines t frame (spec_parse q (contents r)) (app_uart_cmd_try_parse_frame r p t frame).
Proof. intros. apply try_parse_loop_refines; try done. rewrite length_contents. lia. Qed.

(** *** The specification *)

Lemma from_head_suffix l : exists d, l = d ++ from_head l.
Proof.
  rewrite from_head_skip. destruct (skip_suffix l) as (k & E & _).
  destruct (skip l) as [|a [|b q]] eqn:Es.
  - exists l. by rewrite app_nil_r.
  - exists (take k l). by rewrite E, take_drop.
  - destruct (b <? 6); [exists l; by rewrite app_nil_r | exists (take k l); by rewrite E, take_drop].
Qed.

Lemma spec_step_none_suffix q b q' forced : spec_step q b = (None, q', forced) -> exists d, q ++ [b] = d ++ q'.
Proof.
  assert (exists d, q ++ [b] = d ++ []) as Hn by (exists (q ++ [b]); by rewrite app_nil_r).
  assert (exists d, q ++ [b] = d ++ (q ++ [b])) as Ha by (by exists []).
  destruct q as [|h [|l q]]; unfold spec_step; intros E.
  - destruct (b =? 0xAA); by injection E as <- <-.
  - destruct (b <? 6); by injection E as <- <-.
  - destruct (_ && _ && _); [by injection E as <- <- |]. destruct (_ <? _); [by injection E as <- <- |].
    destruct (frame_ok _); [done |]. injection E as <- <-. simpl app at 1. cbn [tail].
    destruct (from_head_suffix (l :: q ++ [b])) as [d Hd]. exists (h :: d). simpl. by f_equal.
Qed.

Lemma spec_step_some q b f q' forced :
  spec_step q b = (Some f, q', forced) -> frame_ok f = true /\ q' = [] /\ forced = false /\ exists post, q ++ [b] = f ++ post.
Proof.
  destruct q as [|h [|l q]]; unfold spec_step; try done.
  destruct (_ && _ && _); [done |]. destruct (_ <? _); [done |]. destruct (frame_ok _) eqn:E; [| done].
  intros [= <- <- <-]. split_and!; try done. eexists. symmetry. apply take_drop.
Qed.

(** A delivered frame is a contiguous part of what was received. *)
Lemma spec_parse_sound q bs f rest q' n :
  spec_parse q bs = (Some f, rest, q', n) ->
  frame_ok f = true /\ q' = [] /\
  exists consumed pre post, bs = consumed ++ rest /\ q ++ consumed = pre ++ f ++ post.
Proof.
  revert q n. induction bs as [|b bs IH]; intros q n; [done |]. cbn [spec_parse].
  destruct (spec_step q b) as [[[f1|] q1] forced] eqn:Es.
  - intros [= -> -> -> _]. apply spec_step_some in Es as (Hok & -> & _ & post & Hp). split_and!; try done.
    exists [b], [], post. done.
  - destruct (spec_parse q1 bs) as [[[f1 rest1] q2] m] eqn:Ep. intros [= -> -> -> _].
    destruct (IH _ _ Ep) as (Hok & -> & consumed & pre & post & -> & Hp). split_and!; try done.
    apply spec_step_none_suffix in Es as [d Hd]. exists (b :: consumed), (d ++ pre), post. split; [done |].
    replace (q ++ b :: consumed) with ((q ++ [b]) ++ consumed) by (by rewrite <- app_assoc).
    by rewrite Hd, <- !app_assoc, Hp.
Qed.

Lemma spec_parse_none q bs rest q' n : spec_parse q bs = (None, rest, q', n) -> rest = [].
Proof.
  revert q n. induction bs as [|b bs IH]; intros q n; [by intros [= <- _ _] |]. cbn [spec_parse].
  destruct (spec_step q b) as [[[f1|] q1] forced]; [done |].
  destruct (spec_parse q1 bs) as [[[f1 rest1] q2] m] eqn:Ep. intros [= -> -> -> _]. by eapply IH.
Qed.

Lemma spec_parse_junk junk bs : 0xAA ∉ junk -> spec_parse [] (junk ++ bs) = spec_parse [] bs.
Proof.
  induction junk as [|b junk IH]; intros Hj; [done |]. apply not_elem_of_cons in Hj as [Hb Hj].
  cbn [app spec_parse spec_step]. destruct (Z.eqb_spec b 0xAA); [done |]. rewrite IH by done.
  by destruct (spec_parse [] bs) as [[[? ?] ?] ?].
Qed.

Lemma frame_ok_facts f :
  frame_ok f = true -> 6 <= Z.of_nat (length f) /\ get f 0 = 0xAA /\ get f 1 = Z.of_nat (length f).
Proof. unfold frame_ok. intros H. by bool_hyps. Qed.

(** A frame that started is completed by its remaining bytes. *)
Lemma spec_parse_frame f q s rest :
  frame_ok f = true -> (get f 2 = 1 \/ get f 2 = 2) -> q ++ s = f -> q <> [] -> s <> [] ->
  spec_parse q (s ++ rest) = (Some f, rest, [], O).
Proof.
  intros Hok Hty. pose proof (frame_ok_facts f Hok) as (H6 & H0 & H1).
  revert q. induction s as [|b s IH]; intros q Hf Hq Hs; [done |]. cbn [app spec_parse].
  assert (length f = (length q + S (length s))%nat) as Hlen by (rewrite <- Hf, length_app; done).
  destruct q as [|h [|l q]]; [done | |]; unfold spec_step; cbv beta iota.
  - assert (b = Z.of_nat (length f)) as -> by (by rewrite <- H1, <- Hf).
    destruct (Z.ltb_spec (Z.of_nat (length f)) 6); [lia |].
    rewrite IH; [done | by rewrite <- app_assoc | done | by destruct s; simpl in *; [lia |]].
  - set (q1 := (h :: l :: q) ++ [b]). assert (q1 ++ s = f) as Hq1 by (unfold q1; by rewrite <- app_assoc).
    assert (length q1 = (3 + length q)%nat) as Hl1 by (unfold q1; rewrite length_app; simpl; lia).
    replace (get q1 1) with (Z.of_nat (length f)) by (rewrite <- H1, <- Hq1; apply get_app_l; lia).
    replace ((Z.of_nat (length q1) =? 3) && negb (b =? 1) && negb (b =? 2)) with false.
    2: { destruct q; [| by replace (Z.of_nat (length q1) =? 3) with false by (symmetry; apply Z.eqb_neq; simpl in *; lia)].
         replace (get f 2) with b in Hty by (by rewrite <- Hf). by destruct Hty as [-> | ->]. }
    rewrite Nat2Z.id. simpl in Hlen. destruct s as [|c s].
    + simpl in Hlen. destruct (Z.ltb_spec (Z.of_nat (length q1)) (Z.of_nat (length f))); [lia |].
      rewrite app_nil_r in Hq1. rewrite Hq1, firstn_all, Hok. done.
    + simpl in Hlen. destruct (Z.ltb_spec (Z.of_nat (length q1)) (Z.of_nat (length f))); [| lia].
      rewrite IH; [done..|]. by destruct s.
Qed.

Lemma spec_parse_clean junk f rest :
  0xAA ∉ junk -> frame_ok f = true -> (get f 2 = 1 \/ get f 2 = 2) ->
  spec_parse [] (junk ++ f ++ rest) = (Some f, rest, [], O).
Proof.
  intros Hj Hok Hty. rewrite spec_parse_junk by done. pose proof (frame_ok_facts f Hok) as (H6 & H0 & H1).
  destruct f as [|h f]; [simpl in H6; lia |]. change (get (h :: f) 0) with h in H0. subst h.
  cbn [app spec_parse]. change (spec_step [] 0xAA) with (@None (list Z), [0xAA], false). cbv beta iota.
  rewrite (spec_parse_frame (0xAA :: f) [0xAA] f rest); try done. by destruct f; simpl in *; [lia |].
Qed.

(** *** Building frames *)

(** The frame of a type with its data, as the code expects it: the check sum is
    over the data alone ([app_uart_cmd_check_crc]).  The protocol description in
    [app_usart_cmd.h] has it from the length byte on; a frame built that way is
    refused unless the two sums happen to agree. *)
Definition frame_of (type : Z) (data : list Z) : list Z :=
  let crc := app_uart_cmd_crc16 (Some data) (Z.of_nat (length data)) in
  [0xAA; Z.of_nat (length data) + 6; type] ++ data ++ [crc mod 256; crc / 256; 0x55].

Lemma length_frame_of type data : length (frame_of type data) = (length data + 6)%nat.
Proof. unfold frame_of. rewrite !length_app. simpl. lia. Qed.

(** The last bytes of a list [hd ++ data ++ tl] with [hd] of length 3. *)
Lemma get_trailer (a b c : Z) data tl i :
  0 <= i -> get ([a; b; c] ++ data ++ tl) (Z.of_nat (length data) + 3 + i) = get tl i.
Proof.
  intros Hi. unfold get. replace (Z.to_nat (Z.of_nat (length data) + 3 + i)) with (3 + (length data + Z.to_nat i))%nat by lia.
  rewrite app_nth2 by (simpl; lia). rewrite app_nth2 by (simpl; lia). f_equal. simpl. lia.
Qed.

Lemma crc16_app_take data tl : app_uart_cmd_crc16 (Some (data ++ tl)) (Z.of_nat (length data)) =
  app_uart_cmd_crc16 (Some data) (Z.of_nat (length data)).
Proof. unfold app_uart_cmd_crc16. by rewrite !Nat2Z.id, take_app_length, firstn_all. Qed.

(** A frame laid out around [data] is accepted when the checksum bytes match. *)
Lemma frame_ok_layout type data lo hi :
  frame_ok ([0xAA; Z.of_nat (length data) + 6; type] ++ data ++ [lo; hi; 0x55]) =
  (app_uart_cmd_crc16 (Some data) (Z.of_nat (length data)) =? lo + 256 * hi).
Proof.
  unfold frame_ok. set (f := _ ++ _).
  assert (Z.of_nat (length f) = Z.of_nat (length data) + 6) as -> by (unfold f; rewrite !length_app; simpl; lia).
  destruct (Z.leb_spec 6 (Z.of_nat (length data) + 6)); [| lia].
  change (get f 0) with 0xAA. change (get f 1) with (Z.of_nat (length data) + 6). rewrite !Z.eqb_refl.
  change (drop 3 f) with (data ++ [lo; hi; 0x55]).
  replace (Z.of_nat (length data) + 6 - 6) with (Z.of_nat (length data)) by lia. rewrite crc16_app_take.
  replace (Z.of_nat (length data) + 6 - 1) with (Z.of_nat (length data) + 3 + 2) by lia.
  replace (Z.of_nat (length data) + 6 - 2) with (Z.of_nat (length data) + 3 + 1) by lia.
  replace (Z.of_nat (length data) + 6 - 3) with (Z.of_nat (length data) + 3 + 0) by lia.
  unfold f. rewrite !get_trailer by lia. done.
Qed.

Lemma frame_of_ok type data : frame_ok (frame_of type data) = true.
Proof. unfold frame_of. rewrite frame_ok_layout. apply Z.eqb_eq. lia. Qed.

Lemma frame_of_bytes type data :
  is_u8 type -> Forall is_u8 data -> (length data <= 249)%nat -> Forall is_u8 (frame_of type data).
Proof.
  intros Ht Hd Hl. pose proof (crc16_range data (Z.of_nat (length data)) Hd). unfold frame_of.
  repeat apply Forall_app_2; try done; repeat (apply Forall_cons; split; [wraps |]); by apply Forall_nil.
Qed.

(** Pending bytes are kept while the announced length is not reached. *)
Lemma spec_accumulate a l c q s bs :
  Z.of_nat (3 + length q + length s) < l ->
  spec_parse (a :: l :: c :: q) (s ++ bs) = spec_parse (a :: l :: c :: q ++ s) bs.
Proof.
  revert q. induction s as [|b s IH]; intros q Hl; [by rewrite app_nil_r |].
  cbn [app spec_parse spec_step]. set (q1 := a :: l :: c :: q ++ [b]).
  assert (length q1 = (4 + length q)%nat) as Hl1 by (unfold q1; simpl; rewrite length_app; simpl; lia).
  change (get q1 1) with l. simpl length in Hl.
  destruct (Z.eqb_spec (Z.of_nat (length q1)) 3); [lia |]. cbn [andb].
  destruct (Z.ltb_spec (Z.of_nat (length q1)) l); [| lia].
  unfold q1. cbn [app]. rewrite IH by (rewrite length_app; simpl; lia). rewrite <- app_assoc. simpl.
  by destruct (spec_parse _ bs) as [[[? ?] ?] ?].
Qed.

(** A false header followed by complete frames: the first is found, what had
    been collected behind it is gone. *)
Lemma spec_parse_false_header l f x y b rest :
  l = Z.of_nat (3 + length f + length x + 1) -> 6 <= l < 256 -> l <> 0xAA ->
  frame_ok f = true -> frame_ok ([0xAA; l; 1] ++ f ++ x ++ [y]) = false ->
  exists n, spec_parse [] ([0xAA; l; 1] ++ f ++ x ++ [y; b] ++ rest) = (Some f, rest, [], n).
Proof.
  intros Hl Hr Hne Hok Hbad. pose proof (frame_ok_facts f Hok) as (H6 & H0 & H1).
  assert (spec_parse [] ([0xAA; l; 1] ++ f ++ x ++ [y; b] ++ rest) =
          spec_parse [0xAA; l; 1] ((f ++ x) ++ [y; b] ++ rest)) as ->.
  { rewrite <- app_assoc. cbn [app spec_parse]. change (spec_step [] 0xAA) with (@None (list Z), [0xAA], false).
    cbv beta iota. assert (spec_step [0xAA] l = (None, [0xAA; l], false)) as ->
      by (cbn [spec_step]; by destruct (Z.ltb_spec l 6); [lia |]).
    assert (spec_step [0xAA; l] 1 = (None, [0xAA; l; 1], false)) as ->
      by (unfold spec_step; change (get ([0xAA; l] ++ [1]) 1) with l; change (Z.of_nat (length ([0xAA; l] ++ [1]))) with 3;
          change (_ && negb (1 =? 2)) with false; by destruct (Z.ltb_spec 3 l); [| lia]).
    by destruct (spec_parse _ _) as [[[? ?] ?] ?]. }
  rewrite spec_accumulate by (rewrite length_app; simpl; lia).
  cbn [app spec_parse]. unfold spec_step at 1.
  replace ((0xAA :: l :: 1 :: f ++ x) ++ [y]) with ([0xAA; l; 1] ++ f ++ x ++ [y]) by (simpl; by rewrite <- app_assoc).
  set (q1 := [0xAA; l; 1] ++ f ++ x ++ [y]) in *.
  assert (Z.of_nat (length q1) = l) as Hq1 by (unfold q1; rewrite !length_app; simpl; lia).
  change (get q1 1) with l. rewrite take_ge by lia. rewrite Hbad, Hq1.
  destruct (Z.eqb_spec l 3); [lia |]. cbn [andb]. destruct (Z.ltb_spec l l); [lia |].
  assert (from_head (tail q1) = f ++ x ++ [y]) as ->.
  { destruct f as [|h [|k f]]; simpl in H6; [lia | lia |]. change (get (h :: k :: f) 0) with h in H0. subst h.
    change (get (0xAA :: k :: f) 1) with k in H1. unfold q1. cbn [app tail from_head].
    destruct (Z.eqb_spec l 0xAA); [done |]. change (1 =? 0xAA) with false. change (0xAA =? 0xAA) with true. cbv iota.
    destruct (Z.ltb_spec k 6); [simpl in H1; lia | done]. }
  destruct f as [|h [|k f]]; simpl in H6; [lia | lia |]. set (g := h :: k :: f) in *.
  assert (spec_step (g ++ x ++ [y]) b = (Some g, [], false)) as ->.
  { unfold spec_step. unfold g at 1. cbn [app].
    change (h :: k :: f ++ x ++ [y]) with (g ++ x ++ [y]). change (get _ 1) with (get g 1). rewrite H1.
    set (q2 := (g ++ x ++ [y]) ++ [b]).
    assert (length q2 = (length g + length x + 2)%nat) as Hq2 by (unfold q2; rewrite !length_app; simpl; lia).
    destruct (Z.eqb_spec (Z.of_nat (length q2)) 3); [lia |]. cbn [andb].
    destruct (Z.ltb_spec (Z.of_nat (length q2)) (Z.of_nat (length g))); [lia |].
    unfold q2. rewrite <- app_assoc, Nat2Z.id, take_app_length. by rewrite Hok. }
  by eexists.
Qed.

Lemma build_ack_frame type ret buf :
  is_u8 ret -> length buf = 8%nat ->
  app_uart_cmd_build_ack type ret (Some buf) 8 = Some (frame_of type [ret; 0]).
Proof.
  intros Hr Hb.
  do 8 (destruct buf as [|? buf]; [done |]). destruct buf; [| done].
  unfold app_uart_cmd_build_ack, frame_of. change (8 <? 8) with false. cbv iota.
  unfold put. cbn [Z.to_nat Pos.to_nat Pos.iter_op Nat.add insert list_insert drop length app].
  change (app_uart_cmd_crc16 (Some [ret; 0; _; _; _]) 2) with (app_uart_cmd_crc16 (Some [ret; 0]) 2).
  pose proof (crc16_range [ret; 0] 2 ltac:(repeat (apply Forall_cons; split; [wraps |]); by apply Forall_nil)) as Hc.
  change (Z.of_nat 2) with 2. set (crc := app_uart_cmd_crc16 _ _) in *.
  replace (u8 (Z.land crc 255)) with (crc mod 256) by (change 255 with (Z.ones 8); rewrite Z.land_ones by lia; wraps).
  replace (u8 (Z.shiftr crc 8)) with (crc / 256) by (rewrite Z.shiftr_div_pow2 by lia; wraps).
  done.
Qed.

(** A ring that received [l] after initialisation. *)
Definition ring_with (l : list Z) : app_uart_cmd_ring_t := foldl app_usart_cmd_push_byte ring_zero l.

Lemma ring_with_inv l : ring_inv (ring_with l).
Proof. apply (push_bytes_spec ring_zero l), ring_zero_inv. Qed.

Lemma parser_zero_holds : holds parser_zero [].
Proof. apply holds_nil; [apply length_replicate | done]. Qed.

Definition frame_zero : app_uart_cmd_frame_t := mk_frame (zeros (Z.to_nat APP_UART_CMD_FRAME_MAX_SIZE)) 0.

(** ** Properties *)

(** C28: On a consistent ring and parser, the parser consumes the ring exactly
    as [spec_parse] consumes the list of its bytes: the same frame or none, the
    same bytes left, the same bytes pending, the text finished once for every
    rejected text end; the index stays below 255 throughout. *)
Theorem try_parse_refines r p t frame q :
  ring_inv r -> Forall is_u8 (contents r) -> holds p q ->
  loop_refines t frame (spec_parse q (contents r)) (app_uart_cmd_try_parse_frame r p t frame).
Proof. apply try_parse_refines_spec. Qed.

Lemma try_parse_refines_witness :
  let r := ring_with ([7; 0xAA; 3] ++ frame_of 1 [9]) in
  loop_refines text_zero frame_zero (spec_parse [] (contents r))
    (app_uart_cmd_try_parse_frame r parser_zero text_zero frame_zero).
Proof.
  refine (try_parse_refines (ring_with ([7; 0xAA; 3] ++ frame_of 1 [9])) parser_zero text_zero frame_zero []
            (ring_with_inv _) _ parser_zero_holds).
  vm_compute contents. solve_bytes.
Defined.

(** C4: A frame is delivered only when it is well formed (head, announced
    length, tail, checksum) and stands as a contiguous block in the received
    bytes; no frame is delivered only when every received byte was consumed. *)
Theorem parsed_frame_sound r p t frame q :
  ring_inv r -> Forall is_u8 (contents r) -> holds p q ->
  let '(g, r', p', _, _) := app_uart_cmd_try_parse_frame r p t frame in
  match g with
  | None => contents r' = []
  | Some g =>
      let f := take (Z.to_nat (frame_length g)) (frame_data g) in
      frame_ok f = true /\ frame_length g = Z.of_nat (length f) /\ holds p' [] /\
      exists consumed pre post, contents r = consumed ++ contents r' /\ q ++ consumed = pre ++ f ++ post
  end.
Proof.
  intros Hr Hb Hh. pose proof (try_parse_refines_spec r p t frame q Hr Hb Hh) as H.
  destruct (spec_parse q (contents r)) as [[[f rest] q'] n] eqn:Ep. destruct H as (r' & p' & -> & _ & <- & Hh').
  destruct f as [f|]; cbn [option_map]; [| by eapply spec_parse_none].
  cbn [frame_length frame_data]. rewrite Nat2Z.id.
  change (blit 0 f (frame_data frame)) with (f ++ drop (length f) (frame_data frame)). rewrite take_app_length.
  destruct (spec_parse_sound _ _ _ _ _ _ Ep) as (Hok & -> & Hx). done.
Qed.

Lemma parsed_frame_sound_witness :
  let r := ring_with (frame_of 2 [1; 4; 1; 65]) in
  match app_uart_cmd_try_parse_frame r parser_zero text_zero frame_zero with
  | (Some g, r', p', _, _) =>
      let f := take (Z.to_nat (frame_length g)) (frame_data g) in
      frame_ok f = true /\ frame_length g = Z.of_nat (length f) /\ holds p' [] /\
      exists consumed pre post, contents r = consumed ++ contents r' /\ [] ++ consumed = pre ++ f ++ post
  | _ => False
  end.
Proof.
  pose proof (parsed_frame_sound (ring_with (frame_of 2 [1; 4; 1; 65])) parser_zero text_zero frame_zero []
                (ring_with_inv _) ltac:(vm_compute contents; solve_bytes) parser_zero_holds) as H.
  cbv zeta. destruct (app_uart_cmd_try_parse_frame _ _ _ _) as [[[[g r'] p'] t'] calls] eqn:E.
  destruct g as [g|]; [exact H |]. exfalso. revert E. by vm_compute.
Defined.

(** C17: A frame of type 1 or 2 carrying any data of at most 249 bytes, with the
    check sum over its data as the code computes it, sent after bytes that
    contain no head, is delivered to an idle parser with its data intact; what
    follows stays in the ring and the text state is untouched. *)
Theorem frame_roundtrip r p t frame junk type data rest :
  ring_inv r -> Forall is_u8 (contents r) -> holds p [] ->
  contents r = junk ++ frame_of type data ++ rest -> 0xAA ∉ junk -> (type = 1 \/ type = 2) ->
  exists g r' p', app_uart_cmd_try_parse_frame r p t frame = (Some g, r', p', t, []) /\
    contents r' = rest /\ ring_inv r' /\ holds p' [] /\
    get (frame_data g) 2 = type /\ slice 3 (Z.to_nat (frame_length g) - 6) (frame_data g) = data.
Proof.
  intros Hr Hb Hh Hc Hj Ht. pose proof (try_parse_refines_spec r p t frame [] Hr Hb Hh) as H.
  rewrite Hc, (spec_parse_clean junk (frame_of type data) rest Hj (frame_of_ok _ _) Ht) in H.
  destruct H as (r' & p' & -> & ? & ? & ?). eexists _, r', p'. split; [reflexivity |].
  split_and!; try done. cbn [frame_length frame_data]. rewrite Nat2Z.id, length_frame_of.
  replace (length data + 6 - 6)%nat with (length data) by lia. unfold blit, frame_of.
  rewrite take_0. cbn [app]. rewrite <- app_assoc. exact (slice_chunk [_; _; _] data _ 3 eq_refl).
Qed.

Lemma frame_roundtrip_witness :
  let r := ring_with ([1; 2] ++ frame_of 2 [1; 4; 1; 65; 66] ++ [0xAA; 9]) in
  exists g r' p', app_uart_cmd_try_parse_frame r parser_zero text_zero frame_zero = (Some g, r', p', text_zero, []) /\
    contents r' = [0xAA; 9] /\ ring_inv r' /\ holds p' [] /\
    get (frame_data g) 2 = 2 /\ slice 3 (Z.to_nat (frame_length g) - 6) (frame_data g) = [1; 4; 1; 65; 66].
Proof.
  refine (frame_roundtrip (ring_with ([1; 2] ++ frame_of 2 [1; 4; 1; 65; 66] ++ [0xAA; 9])) parser_zero text_zero frame_zero
            [1; 2] 2 [1; 4; 1; 65; 66] [0xAA; 9] (ring_with_inv _) _ parser_zero_holds _ _ _).
  - vm_compute contents. solve_bytes.
  - by vm_compute.
  - by apply (bool_decide_unpack _).
  - by right.
Defined.

(** A frame whose data were hit by an error burst of at most sixteen bits
    does not pass the check. *)
Theorem burst_frame_rejected type data data' :
  Forall is_u8 data -> Forall is_u8 data' -> is_u8 type -> (length data <= 249)%nat -> burst data data' ->
  let crc := app_uart_cmd_crc16 (Some data) (Z.of_nat (length data)) in
  let received := [0xAA; Z.of_nat (length data') + 6; type] ++ data' ++ [crc mod 256; crc / 256; 0x55] in
  app_uart_cmd_check_crc (Some received) (Z.of_nat (length received)) = false.
Proof.
  intros Hd Hd' Ht Hl Hb crc received. pose proof (proj1 Hb) as Hlen.
  assert (is_u16 crc) as Hc by (by apply crc16_range).
  assert (length received = (length data' + 6)%nat) as Hrl by (unfold received; rewrite !length_app; simpl; lia).
  rewrite check_crc_frame; [| | lia | apply firstn_all].
  - pose proof (proj2 (Z.eqb_neq _ _) (not_eq_sym (fun E => burst_crc_differs _ _ Hb
      ltac:(rewrite <- !crc16_bits by done; exact E)))) as Hne. fold crc in Hne.
    rewrite Hrl. replace (Z.of_nat (length data' + 6) - 6) with (Z.of_nat (length data')) by lia.
    change (drop 3 received) with (data' ++ [crc mod 256; crc / 256; 0x55]). rewrite crc16_app_take.
    replace (Z.of_nat (length data' + 6) - 2) with (Z.of_nat (length data') + 3 + 1) by lia.
    replace (Z.of_nat (length data' + 6) - 3) with (Z.of_nat (length data') + 3 + 0) by lia.
    unfold received. rewrite !get_trailer by lia. change (get [_; _; 0x55] 0) with (crc mod 256).
    change (get [_; _; 0x55] 1) with (crc / 256). by replace (crc mod 256 + 256 * (crc / 256)) with crc by lia.
  - unfold received. repeat apply Forall_app_2; try done; repeat (apply Forall_cons; split; [wraps |]); by apply Forall_nil.
Qed.

Lemma burst_frame_rejected_witness :
  let crc := app_uart_cmd_crc16 (Some [1; 2; 0x80; 0xFF]) 4 in
  app_uart_cmd_check_crc (Some ([0xAA; 10; 1] ++ [1; 3; 0x7F; 0xFF] ++ [crc mod 256; crc / 256; 0x55])) 10 = false.
Proof.
  refine (burst_frame_rejected 1 [1; 2; 0x80; 0xFF] [1; 3; 0x7F; 0xFF] _ _ _ _ _).
  - solve_bytes.
  - solve_bytes.
  - by vm_compute.
  - simpl. lia.
  - split; [done |]. exists 15%nat, (replicate 9 true), 8%nat. split; [done |]. simpl.
    split; [lia |]. apply elem_of_cons. by left.
Defined.

(** Frames can be lost while resynchronising: when a damaged header
    announces a length that covers a good frame and any bytes after it, the
    good frame is delivered but the bytes collected behind it, and the byte
    that triggered the delivery, are discarded even if they are good frames. *)
Theorem false_header_discards_frames r p t frame l f x y b rest :
  ring_inv r -> Forall is_u8 (contents r) -> holds p [] ->
  contents r = [0xAA; l; 1] ++ f ++ x ++ [y; b] ++ rest ->
  l = Z.of_nat (3 + length f + length x + 1) -> 6 <= l < 256 -> l <> 0xAA ->
  frame_ok f = true -> frame_ok ([0xAA; l; 1] ++ f ++ x ++ [y]) = false ->
  let '(g, r', p', _, _) := app_uart_cmd_try_parse_frame r p t frame in
  contents r' = rest /\ holds p' [] /\
  exists g', g = Some g' /\ take (Z.to_nat (frame_length g')) (frame_data g') = f.
Proof.
  intros Hr Hb Hh Hc Hl Hl2 Hne Hok Hbad. pose proof (try_parse_refines_spec r p t frame [] Hr Hb Hh) as H.
  destruct (spec_parse_false_header l f x y b rest Hl Hl2 Hne Hok Hbad) as [n E]. rewrite Hc, E in H.
  destruct H as (r' & p' & -> & ? & ? & ?). split_and!; try done. eexists. split; [reflexivity |].
  cbn [frame_length frame_data]. rewrite Nat2Z.id.
  change (blit 0 f (frame_data frame)) with (f ++ drop (length f) (frame_data frame)). apply take_app_length.
Qed.

(** The stream of the witness: a damaged header, then three good frames. *)
Definition three_frames : list Z :=
  [0xAA; 21; 1] ++ frame_of 2 [1; 7] ++ frame_of 2 [1; 8] ++ frame_of 2 [1; 9].

Lemma false_header_discards_frames_witness :
  let '(g, r', p', _, _) := app_uart_cmd_try_parse_frame (ring_with three_frames) parser_zero text_zero frame_zero in
  contents r' = drop 3 (frame_of 2 [1; 9]) /\ holds p' [] /\
  exists g', g = Some g' /\ take (Z.to_nat (frame_length g')) (frame_data g') = frame_of 2 [1; 7].
Proof.
  refine (false_header_discards_frames (ring_with three_frames) parser_zero text_zero frame_zero
            21 (frame_of 2 [1; 7]) (frame_of 2 [1; 8] ++ [0xAA]) 8 2 (drop 3 (frame_of 2 [1; 9]))
            (ring_with_inv _) _ parser_zero_holds _ _ _ _ _ _).
  - vm_compute contents. solve_bytes.
  - by vm_compute.
  - done.
  - lia.
  - lia.
  - by vm_compute.
  - by vm_compute.
Defined.

(** The acknowledge built for a frame is the well-formed frame of its
    type whose data are the result code and a zero byte. *)
Theorem build_ack_is_frame type ret buf :
  is_u8 ret -> length buf = 8%nat ->
  app_uart_cmd_build_ack type ret (Some buf) 8 = Some (frame_of type [ret; 0]) /\
  frame_ok (frame_of type [ret; 0]) = true.
Proof. intros. split; [by apply build_ack_frame | apply frame_of_ok]. Qed.

Lemma build_ack_is_frame_witness :
  app_uart_cmd_build_ack 1 1 (Some (zeros 8)) 8 = Some (frame_of 1 [1; 0]) /\ frame_ok (frame_of 1 [1; 0]) = true.
Proof. refine (build_ack_is_frame 1 1 (zeros 8) _ _); by vm_compute. Defined.
