(* ===== verification/Odometer.v ===== *)
(** * Total mileage ([app_uart_cmd_update_total_mileage])

    Distance is integrated from the speed samples of the status frames, kept
    as kilometres, metres and a remainder in 1/36 m, and written to the
    EEPROM at every new kilometre. *)

From S2P Require Import Prelude Eeprom Storage StorageSpec UartText.

(** The statics of [app_uart_cmd_update_total_mileage]. *)
Record odometer := mk_odometer {
  has_last_sample : bool; storage_loaded : bool; last_timestamp : Z;
  total_km : Z; total_rem_m : Z; meter_num_acc : Z; last_saved_odo_km : Z
}.

#[export] Instance eta_odometer : Eta odometer := fun o =>
  mk_odometer (has_last_sample o) (storage_loaded o) (last_timestamp o)
    (total_km o) (total_rem_m o) (meter_num_acc o) (last_saved_odo_km o).

Definition odometer_zero : odometer := mk_odometer false false 0 0 0 0 0.

(** ** Operations *)

Section Ops.
Context {D : Type} `{I2cBus D}.

(** [if (storage_loaded == RT_FALSE)]: the block before the sample is used. *)
Definition load_odometer (o : odometer) (st : storage D) : odometer * storage D * list lcd_call :=
  if storage_loaded o then (o, st, [])
  else
    let '(ok, m, st) := svc_storage_load_mileage (Some (mk_mileage 0 0 0)) st in
    let o :=
      match ok, m with
      | true, Some m =>
          o <| total_km := odo_km m |> <| total_rem_m := odo_rem_m m |> <| last_saved_odo_km := odo_km m |>
      | _, _ => o <| total_km := 0 |> <| total_rem_m := 0 |> <| last_saved_odo_km := 0 |>
      end in
    let o := o <| storage_loaded := true |> in
    (o, st, [svc_lcd_update_total_mileage (total_km o) (total_rem_m o)]).

(** The accumulation: [speed * delta] units of 1/36 m. *)
Definition accumulate (speed_kmh_x10 delta_sec : Z) (o : odometer) : odometer :=
  let o := o <| meter_num_acc := u32 (meter_num_acc o + u32 (speed_kmh_x10 * delta_sec)) |> in
  let add_m := meter_num_acc o / 36 in
  let o := o <| meter_num_acc := meter_num_acc o mod 36 |> in
  let total_m := u32 (total_rem_m o + add_m) in
  let o := o <| total_km := u32 (total_km o + total_m / 1000) |> in
  o <| total_rem_m := u16 (total_m mod 1000) |>.

(** The write at a new kilometre. *)
Definition save_odometer (o : odometer) (st : storage D) : odometer * storage D :=
  if 1 <=? u32 (total_km o - last_saved_odo_km o) then
    let '(ok, st) := svc_storage_save_mileage (Some (mk_mileage (total_km o) (total_rem_m o) 0)) st in
    (if ok then o <| last_saved_odo_km := total_km o |> else o, st)
  else (o, st).

Definition app_uart_cmd_update_total_mileage (speed_kmh_x10 timestamp : Z) (o : odometer) (st : storage D)
    : odometer * storage D * list lcd_call :=
  let '(o, st, calls) := load_odometer o st in
  if negb (has_last_sample o) then
    (o <| has_last_sample := true |> <| last_timestamp := timestamp |>, st, calls)
  else if timestamp <=? last_timestamp o then (o <| last_timestamp := timestamp |>, st, calls)
  else
    let delta_sec := u32 (timestamp - last_timestamp o) in
    let o := o <| last_timestamp := timestamp |> in
    if 5 <? delta_sec then (o, st, calls)
    else
      let o := accumulate speed_kmh_x10 delta_sec o in
      let calls := calls ++ [svc_lcd_update_total_mileage (total_km o) (total_rem_m o)] in
      let '(o, st) := save_odometer o st in
      (o, st, calls).

(** A sequence of samples [(speed, timestamp)]. *)
Fixpoint run_samples (samples : list (Z * Z)) (o : odometer) (st : storage D) : odometer * storage D :=
  match samples with
  | [] => (o, st)
  | (speed, ts) :: samples =>
      let '(o, st, _) := app_uart_cmd_update_total_mileage speed ts o st in run_samples samples o st
  end.
End Ops.

(** ** Specification *)

(** The distance in units of 1/36 m: 0.1 km/h for one second is one unit. *)
Definition units (o : odometer) : Z := 36 * (1000 * total_km o + total_rem_m o) + meter_num_acc o.

(** What a sample adds: nothing when time does not advance or jumps by more
    than five seconds. *)
Definition counted (last speed ts : Z) : Z :=
  if (last <? ts) && (ts - last <=? 5) then speed * (ts - last) else 0.

Fixpoint travelled (last : Z) (samples : list (Z * Z)) : Z :=
  match samples with
  | [] => 0
  | (speed, ts) :: samples => counted last speed ts + travelled ts samples
  end.

Definition sample_ok (s : Z * Z) : Prop := is_u16 (fst s) /\ is_u32 (snd s).

Definition odo_inv (o : odometer) : Prop :=
  is_u32 (total_km o) /\ 0 <= total_rem_m o < 1000 /\ 0 <= meter_num_acc o < 36 /\ is_u32 (last_timestamp o).

(** The counter holds 2^32 km. *)
Definition odo_max : Z := 36 * 1000 * 2 ^ 32.

(** ** Lemmas *)

Lemma accumulate_spec speed delta o :
  odo_inv o -> is_u16 speed -> 1 <= delta <= 5 -> units o + speed * delta < odo_max ->
  let o' := accumulate speed delta o in
  odo_inv o' /\ units o' = units o + speed * delta /\
  has_last_sample o' = has_last_sample o /\ storage_loaded o' = storage_loaded o /\
  last_timestamp o' = last_timestamp o /\ last_saved_odo_km o' = last_saved_odo_km o.
Proof.
  intros (Hk & Hr & Ha & Ht) Hs Hd Hm. unfold accumulate, odo_inv, units, odo_max in *.
  cbn [total_km total_rem_m meter_num_acc last_timestamp has_last_sample storage_loaded last_saved_odo_km update_with].
  assert (0 <= speed * delta <= 65535 * 5) as Hp by (unfold is_u16 in Hs; nia).
  generalize dependent (speed * delta). intros d Hm Hd'.
  rewrite (u32_id d) by wraps. rewrite (u32_id (meter_num_acc o + d)) by wraps.
  set (add := (meter_num_acc o + d) / 36). assert (0 <= add <= 10000) by (unfold add; lia).
  assert (meter_num_acc o + d = 36 * add + (meter_num_acc o + d) mod 36) by (unfold add; lia).
  rewrite (u32_id (total_rem_m o + add)) by wraps. rewrite u16_id by wraps.
  assert (total_rem_m o + add = 1000 * ((total_rem_m o + add) / 1000) + (total_rem_m o + add) mod 1000) by lia.
  rewrite u32_id by (unfold is_u32 in *; lia).
  split_and!; try done; unfold is_u32 in *; lia.
Qed.

#[local] Opaque accumulate.

Lemma travelled_nonneg l ss : Forall sample_ok ss -> 0 <= travelled l ss.
Proof.
  intros Hss. revert l. induction Hss as [|[s t] ss [Hs Ht] _ IH]; intros l; cbn [travelled]; [lia |].
  specialize (IH t). unfold counted. cbn [fst] in Hs. destruct (_ && _) eqn:E; bool_hyps; [unfold is_u16 in Hs; nia | lia].
Qed.

Section Steps.
Context {D : Type} `{I2cBus D}.

Lemma save_odometer_frame o (st : storage D) :
  let '(o', _) := save_odometer o st in
  units o' = units o /\ has_last_sample o' = has_last_sample o /\ storage_loaded o' = storage_loaded o /\
  last_timestamp o' = last_timestamp o /\ (odo_inv o -> odo_inv o').
Proof.
  unfold save_odometer. destruct (1 <=? _); [| done].
  destruct (svc_storage_save_mileage _ st) as [[|] st']; done.
Qed.

Lemma update_running speed ts o (st : storage D) :
  storage_loaded o = true -> has_last_sample o = true -> is_u32 ts -> is_u32 (last_timestamp o) ->
  app_uart_cmd_update_total_mileage speed ts o st =
  let o1 := o <| last_timestamp := ts |> in
  if (last_timestamp o <? ts) && (ts - last_timestamp o <=? 5) then
    let o2 := accumulate speed (ts - last_timestamp o) o1 in
    let '(o3, st) := save_odometer o2 st in
    (o3, st, [svc_lcd_update_total_mileage (total_km o2) (total_rem_m o2)])
  else (o1, st, []).
Proof.
  intros Hl Hh Hts Hlt. unfold app_uart_cmd_update_total_mileage, load_odometer. rewrite Hl, Hh. cbn [negb].
  destruct (Z.leb_spec ts (last_timestamp o)), (Z.ltb_spec (last_timestamp o) ts); try lia; cbn [andb]; [done |].
  rewrite u32_id by wraps.
  destruct (Z.ltb_spec 5 (ts - last_timestamp o)), (Z.leb_spec (ts - last_timestamp o) 5); try lia; done.
Qed.

(** One sample of a running odometer. *)
Lemma update_spec speed ts o (st : storage D) :
  storage_loaded o = true -> has_last_sample o = true -> odo_inv o -> sample_ok (speed, ts) ->
  units o + counted (last_timestamp o) speed ts < odo_max ->
  let '(o', _, _) := app_uart_cmd_update_total_mileage speed ts o st in
  odo_inv o' /\ storage_loaded o' = true /\ has_last_sample o' = true /\ last_timestamp o' = ts /\
  units o' = units o + counted (last_timestamp o) speed ts.
Proof.
  intros Hl Hh Hi [Hs Hts] Hm. cbn [fst snd] in *. pose proof Hi as (Hi1 & Hi2 & Hi3 & Hlt).
  rewrite update_running by done. unfold counted in *. cbv zeta.
  destruct ((last_timestamp o <? ts) && (ts - last_timestamp o <=? 5)) eqn:Ec.
  - bool_hyps. set (o1 := o <| last_timestamp := ts |>).
    destruct (accumulate_spec speed (ts - last_timestamp o) o1) as (Hi' & Hu & Hh' & Hl' & Ht' & _);
      [exact (conj Hi1 (conj Hi2 (conj Hi3 Hts))) | done | lia | exact Hm |].
    pose proof (save_odometer_frame (accumulate speed (ts - last_timestamp o) o1) st) as Hs'.
    destruct (save_odometer _ st) as [o3 st3]. destruct Hs' as (-> & -> & -> & -> & Hinv).
    rewrite Hh', Hl', Ht', Hu. split; [by apply Hinv | done].
  - split; [exact (conj Hi1 (conj Hi2 (conj Hi3 Hts))) |]. rewrite Z.add_0_r. done.
Qed.

Lemma run_samples_spec samples o (st : storage D) :
  storage_loaded o = true -> has_last_sample o = true -> odo_inv o -> Forall sample_ok samples ->
  units o + travelled (last_timestamp o) samples < odo_max ->
  let '(o', _) := run_samples samples o st in
  odo_inv o' /\ units o' = units o + travelled (last_timestamp o) samples.
Proof.
  intros Hl Hh Hi Hs. revert o st Hl Hh Hi. induction Hs as [|[speed ts] samples Hs Hss IH];
    intros o st Hl Hh Hi Hm; cbn [run_samples travelled] in *; [split; [done | lia] |].
  pose proof (travelled_nonneg ts samples Hss).
  pose proof (update_spec speed ts o st Hl Hh Hi Hs ltac:(lia)) as Hu.
  destruct (app_uart_cmd_update_total_mileage speed ts o st) as [[o1 st1] c1].
  destruct Hu as (Hi1 & Hl1 & Hh1 & Ht1 & Hu1).
  specialize (IH o1 st1 Hl1 Hh1 Hi1). rewrite Ht1, Hu1 in IH. specialize (IH ltac:(lia)).
  destruct (run_samples samples o1 st1) as [o2 st2]. destruct IH as [? ->]. split; [done | lia].
Qed.
End Steps.

Section Persistence.
Context {D : Type} `{EepromReady D}.

Definition stored (st : storage D) : svc_storage_mileage_t :=
  default (mk_mileage 0 0 0) (v_mileage (view (eeprom st))).

Definition stored_ok (st : storage D) : Prop :=
  good st /\ is_u32 (odo_km (stored st)) /\ 0 <= odo_rem_m (stored st) < 1000.

(** The EEPROM holds the current kilometre, at its first saved metre. *)
Definition synced (o : odometer) (st : storage D) : Prop :=
  good st /\ odo_inv o /\ storage_loaded o = true /\ has_last_sample o = true /\
  last_saved_odo_km o = total_km o /\ odo_km (stored st) = total_km o /\ 0 <= odo_rem_m (stored st) <= total_rem_m o.

(** The first call after a reset, as [app_usart_cmd_task_start] makes it. *)
Lemma boot_reads ts (st : storage D) :
  good st -> exists o st' calls, app_uart_cmd_update_total_mileage 0 ts odometer_zero st = (o, st', calls) /\
    total_km o = odo_km (stored st) /\ total_rem_m o = odo_rem_m (stored st).
Proof.
  intros Hg. unfold app_uart_cmd_update_total_mileage, load_odometer.
  destruct (load_mileage_reads (mk_mileage 0 0 0) st Hg) as (Hok & Hm & _ & _).
  destruct (svc_storage_load_mileage (Some (mk_mileage 0 0 0)) st) as [[ok m] st'].
  cbn [fst snd storage_loaded odometer_zero] in *. subst ok m. fold (stored st). by eexists _, st', _.
Qed.

Lemma boot_spec ts (st : storage D) :
  stored_ok st -> is_u32 ts ->
  exists o st' calls, app_uart_cmd_update_total_mileage 0 ts odometer_zero st = (o, st', calls) /\
    synced o st' /\ last_timestamp o = ts /\ stored st' = stored st /\
    o = mk_odometer true true ts (odo_km (stored st)) (odo_rem_m (stored st)) 0 (odo_km (stored st)).
Proof.
  intros (Hg & Hk & Hr) Hts. unfold app_uart_cmd_update_total_mileage, load_odometer.
  destruct (load_mileage_reads (mk_mileage 0 0 0) st Hg) as (Hok & Hm & Hv & Hg').
  destruct (svc_storage_load_mileage (Some (mk_mileage 0 0 0)) st) as [[ok m] st'].
  cbn [fst snd storage_loaded odometer_zero] in *. subst ok m. fold (stored st).
  eexists _, st', _. split; [reflexivity |].
  assert (stored st' = stored st) as Hs by (unfold stored; by rewrite Hv).
  unfold synced. rewrite Hs.
  cbn [last_timestamp total_km total_rem_m storage_loaded has_last_sample last_saved_odo_km meter_num_acc update_with].
  split; [| done]. split; [done |]. split; [| split_and!; done || lia].
  unfold odo_inv. cbn [last_timestamp total_km total_rem_m meter_num_acc update_with]. split_and!; done || lia.
Qed.

Lemma save_odometer_synced o (st : storage D) :
  good st -> odo_inv o -> storage_loaded o = true -> has_last_sample o = true -> is_u32 (last_saved_odo_km o) ->
  (last_saved_odo_km o = total_km o -> odo_km (stored st) = total_km o /\ 0 <= odo_rem_m (stored st) <= total_rem_m o) ->
  let '(o', st') := save_odometer o st in synced o' st'.
Proof.
  intros Hg Hi Hl Hh Hls Hst. unfold save_odometer. pose proof Hi as (Hk & Hr & _ & _).
  destruct (Z.leb_spec 1 (u32 (total_km o - last_saved_odo_km o))) as [Hge|Hlt].
  - destruct (save_mileage_refines (mk_mileage (total_km o) (total_rem_m o) 0) st) as (Hok & Hv & Hg'); [| done |].
    { cbn. unfold is_u16. split_and!; done || lia. }
    destruct (svc_storage_save_mileage _ st) as [ok st']. cbn [fst snd] in *. subst ok.
    unfold synced, stored. rewrite Hv. cbn [v_mileage update_with default odo_km odo_rem_m].
    split_and!; try done; apply Hr.
  - assert (last_saved_odo_km o = total_km o) as E by wraps. destruct (Hst E) as [? [? ?]]. by split_and!.
Qed.

Lemma update_synced speed ts o (st : storage D) :
  synced o st -> sample_ok (speed, ts) -> units o + counted (last_timestamp o) speed ts < odo_max ->
  let '(o', st', _) := app_uart_cmd_update_total_mileage speed ts o st in synced o' st'.
Proof.
  intros (Hg & Hi & Hl & Hh & Hls & Hk & Hr) [Hs Hts] Hm. cbn [fst snd] in *. pose proof Hi as (Hi1 & Hi2 & Hi3 & Hlt).
  rewrite update_running by done. cbv zeta. unfold counted in Hm.
  assert (odo_inv (o <| last_timestamp := ts |>)) as Hi' by exact (conj Hi1 (conj Hi2 (conj Hi3 Hts))).
  destruct ((last_timestamp o <? ts) && (ts - last_timestamp o <=? 5)) eqn:Ec; [| done].
  bool_hyps. set (o1 := o <| last_timestamp := ts |>) in *.
  destruct (accumulate_spec speed (ts - last_timestamp o) o1 Hi' Hs ltac:(lia) Hm) as (Hi2' & Hu & Hh' & Hl' & Ht' & Hls').
  set (o2 := accumulate _ _ o1) in *.
  pose proof (save_odometer_synced o2 st Hg Hi2' ltac:(by rewrite Hl') ltac:(by rewrite Hh')
                ltac:(rewrite Hls'; change (is_u32 (last_saved_odo_km o)); by rewrite Hls)) as Hsv.
  destruct (save_odometer o2 st) as [o3 st3]. apply Hsv. intros E.
  rewrite Hls' in E. change (last_saved_odo_km o1) with (last_saved_odo_km o) in E.
  rewrite <- E, Hls. split; [done |].
  assert (0 <= speed * (ts - last_timestamp o)) by (unfold is_u16 in Hs; nia).
  destruct Hi2' as (_ & ? & ? & _). unfold units in Hu.
  change (total_km o1) with (total_km o) in Hu. change (total_rem_m o1) with (total_rem_m o) in Hu.
  change (meter_num_acc o1) with (meter_num_acc o) in Hu. lia.
Qed.

Lemma run_samples_synced samples o (st : storage D) :
  synced o st -> Forall sample_ok samples -> units o + travelled (last_timestamp o) samples < odo_max ->
  let '(o', st') := run_samples samples o st in synced o' st'.
Proof.
  intros Hs Hss. revert o st Hs. induction Hss as [|[speed ts] samples Hs1 Hss IH]; intros o st Hs Hm; [done |].
  cbn [run_samples travelled] in *. pose proof (travelled_nonneg ts samples Hss).
  pose proof (update_synced speed ts o st Hs Hs1 ltac:(lia)) as Hs'.
  destruct Hs as (_ & Hi & Hl & Hh & _).
  pose proof (update_spec speed ts o st Hl Hh Hi Hs1 ltac:(lia)) as Hu.
  destruct (app_uart_cmd_update_total_mileage speed ts o st) as [[o1 st1] c1].
  destruct Hu as (_ & _ & _ & Ht1 & Hu1). apply IH; [done |]. rewrite Ht1, Hu1. lia.
Qed.
End Persistence.

(** ** Properties *)

(** C22: Whatever the EEPROM does, the odometer counts exactly: after any
    sequence of samples its kilometres, metres and remainder add up to what it
    held plus the sum of speed times elapsed time over the intervals of one to
    five seconds, with no rounding loss; metres stay below 1000. *)
Theorem mileage_conserved {D} `{I2cBus D} samples o (st : storage D) :
  storage_loaded o = true -> has_last_sample o = true -> odo_inv o -> Forall sample_ok samples ->
  units o + travelled (last_timestamp o) samples < odo_max ->
  let '(o', _) := run_samples samples o st in
  odo_inv o' /\ units o' = units o + travelled (last_timestamp o) samples.
Proof. apply run_samples_spec. Qed.

Definition sample_odometer : odometer := mk_odometer true true 1000 12 990 0 12.

Definition sample_drive : list (Z * Z) := [(725, 1001); (725, 1004); (600, 1004); (600, 1060); (611, 1061)].

Lemma mileage_conserved_witness :
  travelled 1000 sample_drive = 3511 /\
  let '(o', _) := run_samples sample_drive sample_odometer sample_storage in
  odo_inv o' /\ units o' = units sample_odometer + travelled (last_timestamp sample_odometer) sample_drive.
Proof.
  split; [by vm_compute |].
  apply (mileage_conserved sample_drive sample_odometer sample_storage).
  - done.
  - done.
  - unfold odo_inv, is_u32. simpl. lia.
  - repeat (apply Forall_cons; split; [unfold sample_ok, is_u16, is_u32; simpl; lia |]). by apply Forall_nil.
  - by vm_compute.
Defined.

(** C5: a power cut that leaves the mileage record intact, as one outside a
    save does, loses less than one kilometre: after a boot and any samples, a
    boot from the EEPROM resumes in the same kilometre, at most the metres of
    that kilometre behind and never ahead.  A cut inside the save of a
    kilometre may leave a damaged record, of which there is no second copy:
    then the odometer starts at zero. *)
Theorem mileage_after_power_cut {D} `{EepromReady D} samples (st st2 : storage D) :
  stored_ok st -> Forall sample_ok samples ->
  36 * (1000 * odo_km (stored st) + odo_rem_m (stored st)) + travelled 1 samples < odo_max -> good st2 ->
  let '(o, st1) := run_samples ((0, 1) :: samples) odometer_zero st in
  let '(o2, _) := run_samples [(0, 1)] odometer_zero st2 in
  (v_mileage (view (eeprom st2)) = v_mileage (view (eeprom st1)) ->
     total_km o2 = total_km o /\ total_rem_m o2 <= total_rem_m o < 1000) /\
  (v_mileage (view (eeprom st2)) = None -> total_km o2 = 0 /\ total_rem_m o2 = 0).
Proof.
  intros Hst Hss Hm Hg2. assert (is_u32 1) as Hone by (unfold is_u32; lia).
  destruct (boot_spec 1 st Hst Hone) as (o0 & st0 & c0 & E0 & Hs0 & Ht0 & _ & Ho0).
  cbn [run_samples]. rewrite E0.
  assert (units o0 = 36 * (1000 * odo_km (stored st) + odo_rem_m (stored st))) as Hu0
    by (rewrite Ho0; unfold units; cbn [total_km total_rem_m meter_num_acc]; lia).
  pose proof (run_samples_synced samples o0 st0 Hs0 Hss ltac:(rewrite Ht0, Hu0; lia)) as Hs1.
  destruct (run_samples samples o0 st0) as [o st1]. destruct Hs1 as (Hg & (Hi1 & Hi2 & _) & _ & _ & _ & Hk & Hr).
  destruct (boot_reads 1 st2 Hg2) as (o2 & st' & c2 & -> & -> & ->). split.
  - intros Hv. unfold stored in *. rewrite Hv, Hk. lia.
  - intros Hv. unfold stored. by rewrite Hv.
Qed.

Definition sample_boot_drive : list (Z * Z) := [(0, 1000); (36000, 1001); (36000, 1002); (18000, 1003)].

Definition driven (samples : list (Z * Z)) : storage Chip.chip := snd (run_samples ((0, 1) :: samples) odometer_zero sample_storage).

(** The power fails in the write of a further kilometre: ten bytes of the new
    record are stored, the rest is that of the record before. *)
Definition torn_storage : storage Chip.chip :=
  let before := eeprom (driven sample_boot_drive) in
  let after := eeprom (driven (sample_boot_drive ++ [(36000, 1004)])) in
  driven sample_boot_drive
    <| eeprom := Chip.mk_chip (fun x => if x <? SVC_STORAGE_MILEAGE_ADDR + 10 then Chip.mem after x else Chip.mem before x) 0 0 |>.

Lemma mileage_after_power_cut_witness :
  (let '(o, st1) := run_samples ((0, 1) :: sample_boot_drive) odometer_zero sample_storage in
   let '(o2, _) := run_samples [(0, 1)] odometer_zero st1 in
   1 < total_km o /\ total_km o2 = total_km o /\ total_rem_m o2 <= total_rem_m o < 1000) /\
  (let '(o2, _) := run_samples [(0, 1)] odometer_zero torn_storage in total_km o2 = 0 /\ total_rem_m o2 = 0).
Proof.
  assert (stored_ok sample_storage) as H1 by (split; by vm_compute).
  assert (Forall sample_ok sample_boot_drive) as H2
    by (repeat (apply Forall_cons; split; [unfold sample_ok, is_u16, is_u32; simpl; lia |]); by apply Forall_nil).
  pose proof (fun st2 => mileage_after_power_cut sample_boot_drive sample_storage st2 H1 H2 ltac:(by vm_compute)) as H.
  split.
  - assert (good (driven sample_boot_drive)) as Hg by (split; vm_compute; reflexivity).
    specialize (H (driven sample_boot_drive) Hg). unfold driven in H.
    assert (1 < total_km (fst (run_samples ((0, 1) :: sample_boot_drive) odometer_zero sample_storage))) as Hk by (by vm_compute).
    destruct (run_samples ((0, 1) :: sample_boot_drive) odometer_zero sample_storage) as [o st1]. cbn [fst snd] in H, Hk.
    destruct (run_samples [(0, 1)] odometer_zero st1) as [o2 st']. split; [exact Hk | by apply H].
  - assert (good torn_storage) as Hg by (split; vm_compute; reflexivity). specialize (H torn_storage Hg).
    destruct (run_samples ((0, 1) :: sample_boot_drive) odometer_zero sample_storage) as [o st1].
    assert (v_mileage (view (eeprom torn_storage)) = None) as Hv by (by vm_compute).
    destruct (run_samples [(0, 1)] odometer_zero torn_storage) as [o2 st']. by apply H.
Defined.
