(* ===== verification/SocStatus.v ===== *)
(** * Status messages of the host processor ([app_usart_cmd.c])

    Decoding of the SOC status frame into [app_soc_status_msg_t], and the
    conversions of its fields for the display. *)

From S2P Require Import Prelude UartCrc UartText UartFrame.

(** ** Data *)

Record app_soc_status_msg_t := mk_soc {
  camera1_status : Z; camera2_status : Z; camera3_status : Z; camera4_status : Z;
  record_status : Z; location_status : Z; ic_card_status : Z; udisk_status : Z;
  ip1_connected : Z; ip2_connected : Z; gsm_connected : Z; protect_storage : Z;
  sdcard_status : Z; sim_status : Z; latitude_direction : Z; longitude_direction : Z;
  driver_number : list Z; total_capacity : Z; free_capacity : Z; driver_time : Z;
  sim_signal : Z; phone_number : list Z; used_satellite : Z;
  latitude : Z; longitude : Z; timestamp : Z; driver_speed : Z;
  terminal_id : list Z; ip1 : Z; ip2 : Z
}.

(** ** Operations *)

Definition app_uart_cmd_read_le16 (buf : pointer (list Z)) : Z :=
  match buf with
  | None => 0
  | Some buf => Z.lor (get buf 0) (u16 (Z.shiftl (get buf 1) 8))
  end.

Definition app_uart_cmd_read_le32 (buf : pointer (list Z)) : Z :=
  match buf with
  | None => 0
  | Some buf =>
      Z.lor (Z.lor (Z.lor (get buf 0) (u32 (Z.shiftl (get buf 1) 8))) (u32 (Z.shiftl (get buf 2) 16)))
        (u32 (Z.shiftl (get buf 3) 24))
  end.

(** [(bits >> i) & 0x01] *)
Definition status_bit (bits i : Z) : Z := Z.land (Z.shiftr bits i) 1.

(** [Some msg] is the return with [RT_TRUE]. *)
Definition app_uart_cmd_parse_soc_status (frame : pointer app_uart_cmd_frame_t) : option app_soc_status_msg_t :=
  match frame with
  | None => None
  | Some frame =>
      let data := frame_data frame in
      if frame_length frame <? 93 then None
      else if negb (get data 0 =? APP_UART_CMD_FRAME_HEAD) || negb (get data 2 =? APP_UART_CMD_TYPE_SOC_STATUS) then None
      else
        let status_bits_1 := get data 3 in
        let status_bits_2 := get data 4 in
        Some {|
          camera1_status := status_bit status_bits_1 0;
          camera2_status := status_bit status_bits_1 1;
          camera3_status := status_bit status_bits_1 2;
          camera4_status := status_bit status_bits_1 3;
          record_status := status_bit status_bits_1 4;
          location_status := status_bit status_bits_1 5;
          ic_card_status := status_bit status_bits_1 6;
          udisk_status := status_bit status_bits_1 7;
          ip1_connected := status_bit status_bits_2 0;
          ip2_connected := status_bit status_bits_2 1;
          gsm_connected := status_bit status_bits_2 2;
          protect_storage := status_bit status_bits_2 3;
          sdcard_status := status_bit status_bits_2 4;
          sim_status := status_bit status_bits_2 5;
          latitude_direction := status_bit status_bits_2 6;
          longitude_direction := status_bit status_bits_2 7;
          driver_number := slice 5 9 data;
          total_capacity := app_uart_cmd_read_le32 (Some (drop 14 data));
          free_capacity := app_uart_cmd_read_le32 (Some (drop 18 data));
          driver_time := app_uart_cmd_read_le32 (Some (drop 22 data));
          sim_signal := get data 26;
          phone_number := slice 27 10 data;
          used_satellite := get data 37;
          latitude := app_uart_cmd_read_le32 (Some (drop 38 data));
          longitude := app_uart_cmd_read_le32 (Some (drop 42 data));
          timestamp := app_uart_cmd_read_le32 (Some (drop 46 data));
          driver_speed := app_uart_cmd_read_le16 (Some (drop 50 data));
          terminal_id := slice 52 30 data;
          ip1 := app_uart_cmd_read_le32 (Some (drop 82 data));
          ip2 := app_uart_cmd_read_le32 (Some (drop 86 data))
        |}
  end.

Definition hms_of_day (seconds_of_day : Z) : Z * Z * Z :=
  (u8 (seconds_of_day / 3600), u8 ((seconds_of_day mod 3600) / 60), u8 (seconds_of_day mod 60)).

(** UTC to local time (UTC+8), time of day. *)
Definition app_uart_cmd_time_to_hms (timestamp : Z) : Z * Z * Z :=
  let local_seconds := u32 (timestamp + 8 * 3600) in
  hms_of_day (local_seconds mod 86400).

Definition app_uart_cmd_seconds_to_hms (total_seconds : Z) : Z * Z * Z :=
  hms_of_day (total_seconds mod 86400).

(** The loop over [raw[i]]: two characters per byte, then the terminator. *)
Definition app_uart_cmd_bcd_to_str18 (raw : list Z) : list Z :=
  concat (map (fun i =>
    let b := get raw (Z.of_nat i) in
    [u8 (48 + Z.land (Z.shiftr b 4) 0x0F); u8 (48 + Z.land b 0x0F)]) (seq 0 9)) ++ [0].

(** ** Specification: the layout of the message *)

Definition pack8 (l : list Z) : Z := foldr (fun b acc => b + 2 * acc) 0 l.

Definition encode_soc (m : app_soc_status_msg_t) : list Z :=
  [pack8 [camera1_status m; camera2_status m; camera3_status m; camera4_status m;
          record_status m; location_status m; ic_card_status m; udisk_status m];
   pack8 [ip1_connected m; ip2_connected m; gsm_connected m; protect_storage m;
          sdcard_status m; sim_status m; latitude_direction m; longitude_direction m]]
  ++ driver_number m ++ to_le 4 (total_capacity m) ++ to_le 4 (free_capacity m) ++ to_le 4 (driver_time m)
  ++ [sim_signal m] ++ phone_number m ++ [used_satellite m]
  ++ to_le 4 (latitude m) ++ to_le 4 (longitude m) ++ to_le 4 (timestamp m) ++ to_le 2 (driver_speed m)
  ++ terminal_id m ++ to_le 4 (ip1 m) ++ to_le 4 (ip2 m).

Definition is_bit (x : Z) : Prop := x = 0 \/ x = 1.

(** The values of the C type. *)
Definition soc_ok (m : app_soc_status_msg_t) : Prop :=
  Forall is_bit [camera1_status m; camera2_status m; camera3_status m; camera4_status m;
                 record_status m; location_status m; ic_card_status m; udisk_status m;
                 ip1_connected m; ip2_connected m; gsm_connected m; protect_storage m;
                 sdcard_status m; sim_status m; latitude_direction m; longitude_direction m] /\
  Forall is_u32 [total_capacity m; free_capacity m; driver_time m; latitude m; longitude m; timestamp m; ip1 m; ip2 m] /\
  is_u16 (driver_speed m) /\ Forall is_u8 [sim_signal m; used_satellite m] /\
  length (driver_number m) = 9%nat /\ Forall is_u8 (driver_number m) /\
  length (phone_number m) = 10%nat /\ Forall is_u8 (phone_number m) /\
  length (terminal_id m) = 30%nat /\ Forall is_u8 (terminal_id m).

(** ** Lemmas *)

Lemma read_le16_spec x tl : is_u16 x -> app_uart_cmd_read_le16 (Some (to_le 2 x ++ tl)) = x.
Proof.
  intros Hx. unfold is_u16 in Hx. unfold app_uart_cmd_read_le16. cbn [to_le app].
  change (get (?a :: ?b :: tl) 0) with a. change (get (?a :: ?b :: tl) 1) with b.
  rewrite u16_id by (rewrite Z.shiftl_mul_pow2 by lia; wraps). rewrite lor_shiftl by lia. lia.
Qed.

Lemma read_le32_spec x tl : is_u32 x -> app_uart_cmd_read_le32 (Some (to_le 4 x ++ tl)) = x.
Proof.
  intros Hx. unfold is_u32 in Hx. unfold app_uart_cmd_read_le32. cbn [to_le app].
  set (b0 := x mod 256). set (b1 := x / 256 mod 256). set (b2 := x / 256 / 256 mod 256).
  set (b3 := x / 256 / 256 / 256 mod 256).
  change (get _ 0) with b0. change (get _ 1) with b1. change (get _ 2) with b2. change (get _ 3) with b3.
  assert (0 <= b0 < 256 /\ 0 <= b1 < 256 /\ 0 <= b2 < 256 /\ 0 <= b3 < 256) as (H0 & H1 & H2 & H3)
    by (unfold b0, b1, b2, b3; lia).
  assert (x = b0 + 256 * b1 + 65536 * b2 + 16777216 * b3) as Hsum by (unfold b0, b1, b2, b3; lia).
  clearbody b0 b1 b2 b3.
  rewrite !u32_id by (rewrite Z.shiftl_mul_pow2 by lia; wraps).
  rewrite (lor_shiftl b0) by lia. rewrite (lor_shiftl (b0 + 2 ^ 8 * b1)) by lia. rewrite lor_shiftl by lia. lia.
Qed.

Lemma status_bit_pack b0 b1 b2 b3 b4 b5 b6 b7 :
  Forall is_bit [b0; b1; b2; b3; b4; b5; b6; b7] ->
  let x := pack8 [b0; b1; b2; b3; b4; b5; b6; b7] in
  map (status_bit x) [0; 1; 2; 3; 4; 5; 6; 7] = [b0; b1; b2; b3; b4; b5; b6; b7] /\ is_u8 x.
Proof.
  rewrite !Forall_cons. intros ([-> | ->] & [-> | ->] & [-> | ->] & [-> | ->] & [-> | ->] & [-> | ->] & [-> | ->] & [-> | ->] & _);
    by vm_compute.
Qed.

(** A field of a concatenation, by its offset. *)
Lemma slice_field (a b c : list Z) n m : length a = n -> length b = m -> slice n m (a ++ b ++ c) = b.
Proof. intros <- <-. unfold slice. by rewrite drop_app_length, take_app_length. Qed.

Lemma hms_range s : 0 <= s < 86400 ->
  let '(h, m, sec) := hms_of_day s in 0 <= h < 24 /\ 0 <= m < 60 /\ 0 <= sec < 60 /\ 3600 * h + 60 * m + sec = s.
Proof. intros Hs. unfold hms_of_day. rewrite !u8_id by wraps. lia. Qed.

Lemma length_encode_soc m : soc_ok m -> length (encode_soc m) = 87%nat.
Proof.
  intros (_ & _ & _ & _ & H1 & _ & H2 & _ & H3 & _). unfold encode_soc.
  rewrite !length_app, !length_to_le, H1, H2, H3. done.
Qed.

Lemma encode_soc_bytes m : soc_ok m -> Forall is_u8 (encode_soc m).
Proof.
  intros (Hb & _ & _ & H8 & _ & H1 & _ & H2 & _ & H3). unfold encode_soc.
  assert (Forall is_bit (take 8 [camera1_status m; camera2_status m; camera3_status m; camera4_status m;
                 record_status m; location_status m; ic_card_status m; udisk_status m;
                 ip1_connected m; ip2_connected m; gsm_connected m; protect_storage m;
                 sdcard_status m; sim_status m; latitude_direction m; longitude_direction m])) as Ha by (by apply Forall_take).
  apply (Forall_drop _ 8) in Hb. cbn [take drop] in *. rewrite !Forall_cons in H8. destruct H8 as (H8 & H9 & _).
  apply status_bit_pack in Ha as [_ Ha]. apply status_bit_pack in Hb as [_ Hb].
  repeat apply Forall_app_2; auto using to_le_bytes, Forall_nil_2, Forall_cons_2.
Qed.

(** Decoding a message laid out from byte 3 on. *)
Lemma parse_soc_layout m len tl :
  soc_ok m -> 93 <= len ->
  app_uart_cmd_parse_soc_status (Some (mk_frame ([0xAA; len; 1] ++ encode_soc m ++ tl) len)) = Some m.
Proof.
  intros (Hb & H32 & Hsp & H8 & Hdn & _ & Hph & _ & Hid & _) Hlen.
  assert (Forall is_bit (take 8 [camera1_status m; camera2_status m; camera3_status m; camera4_status m;
                 record_status m; location_status m; ic_card_status m; udisk_status m;
                 ip1_connected m; ip2_connected m; gsm_connected m; protect_storage m;
                 sdcard_status m; sim_status m; latitude_direction m; longitude_direction m])) as Ha by (by apply Forall_take).
  apply (Forall_drop _ 8) in Hb. cbn [take drop] in *.
  apply status_bit_pack in Ha as [Ha _]. apply status_bit_pack in Hb as [Hb _].
  rewrite !Forall_cons in H32. destruct H32 as (K1 & K2 & K3 & K4 & K5 & K6 & K7 & K8 & _).
  unfold app_uart_cmd_parse_soc_status. cbn [frame_length frame_data].
  destruct (Z.ltb_spec len 93); [lia |]. change (_ || _) with false. cbv iota zeta. f_equal.
  destruct m as [m1 m2 m3 m4 m5 m6 m7 m8 n1 n2 n3 n4 n5 n6 n7 n8 dn tc fc dt ss ph us la lo ts sp id i1 i2].
  cbn [driver_number phone_number terminal_id total_capacity free_capacity driver_time latitude longitude timestamp
       driver_speed ip1 ip2 camera1_status camera2_status camera3_status camera4_status record_status location_status
       ic_card_status udisk_status ip1_connected ip2_connected gsm_connected protect_storage sdcard_status sim_status
       latitude_direction longitude_direction] in *.
  do 9 (destruct dn as [|? dn]; [done |]). destruct dn; [| done].
  do 10 (destruct ph as [|? ph]; [done |]). destruct ph; [| done].
  do 30 (destruct id as [|? id]; [done |]). destruct id; [| done].
  cbn [map] in Ha, Hb. injection Ha as A1 A2 A3 A4 A5 A6 A7 A8. injection Hb as B1 B2 B3 B4 B5 B6 B7 B8.
  f_equal; first [exact A1 | exact A2 | exact A3 | exact A4 | exact A5 | exact A6 | exact A7 | exact A8
    | exact B1 | exact B2 | exact B3 | exact B4 | exact B5 | exact B6 | exact B7 | exact B8 | reflexivity | by refine (read_le32_spec _ _ _) | by refine (read_le16_spec _ _ _)].
Qed.

(** The packed form of a list of decimal digits. *)
Fixpoint to_bcd (ds : list Z) : list Z :=
  match ds with
  | hi :: lo :: ds => 16 * hi + lo :: to_bcd ds
  | _ => []
  end.

Lemma bcd_chars hi lo :
  0 <= hi < 10 -> 0 <= lo < 10 ->
  u8 (48 + Z.land (Z.shiftr (16 * hi + lo) 4) 0x0F) = 48 + hi /\ u8 (48 + Z.land (16 * hi + lo) 0x0F) = 48 + lo.
Proof.
  intros Hh Hl. change 0x0F with (Z.ones 4). rewrite !Z.land_ones, Z.shiftr_div_pow2 by lia. wraps.
Qed.

(** ** Properties *)

(** C29: A status message sent in the layout of the protocol is decoded to
    the same message, every bit field, integer and array of it, whatever bytes
    of the frame buffer follow. *)
Theorem soc_status_roundtrip m tl :
  soc_ok m ->
  app_uart_cmd_parse_soc_status (Some (mk_frame (frame_of 1 (encode_soc m) ++ tl) 93)) = Some m.
Proof.
  intros Hm. unfold frame_of. rewrite (length_encode_soc m Hm). rewrite <- !app_assoc.
  by apply parse_soc_layout.
Qed.

Definition sample_soc : app_soc_status_msg_t :=
  mk_soc 1 0 1 0 1 0 1 0 0 1 0 1 0 1 0 1 [0x12; 0x34; 0x56; 0x78; 0x90; 0x12; 0x34; 0x56; 0x78]
    32000 1024 7265 17 (replicate 10 0x11) 9 30123456 114123456 1700000000 725 (replicate 30 65) 167772161 167772162.

Lemma sample_soc_ok : soc_ok sample_soc.
Proof.
  unfold soc_ok, is_bit, is_u32, is_u16, is_u8. simpl.
  split_and!; try done; try lia; repeat (apply Forall_cons; split; [lia |]); by apply Forall_nil.
Qed.

Lemma soc_status_roundtrip_witness :
  app_uart_cmd_parse_soc_status (Some (mk_frame (frame_of 1 (encode_soc sample_soc) ++ [1; 2]) 93)) = Some sample_soc.
Proof. exact (soc_status_roundtrip sample_soc [1; 2] sample_soc_ok). Defined.

(** The clock shown is the time of day in UTC+8: a valid hour, minute
    and second that add up to the seconds since local midnight; the driving
    time is split the same way. *)
Theorem hms_correct ts :
  is_u32 ts -> ts + 28800 < 2 ^ 32 ->
  (let '(h, m, s) := app_uart_cmd_time_to_hms ts in
   0 <= h < 24 /\ 0 <= m < 60 /\ 0 <= s < 60 /\ 3600 * h + 60 * m + s = (ts + 28800) mod 86400) /\
  (let '(h, m, s) := app_uart_cmd_seconds_to_hms ts in
   0 <= h < 24 /\ 0 <= m < 60 /\ 0 <= s < 60 /\ 3600 * h + 60 * m + s = ts mod 86400).
Proof.
  intros Hts Hlt. unfold app_uart_cmd_time_to_hms, app_uart_cmd_seconds_to_hms.
  rewrite u32_id by wraps. split; apply hms_range; lia.
Qed.

Lemma hms_correct_witness :
  app_uart_cmd_time_to_hms 1700000000 = (6, 13, 20) /\
  (let '(h, m, s) := app_uart_cmd_time_to_hms 1700000000 in
   0 <= h < 24 /\ 0 <= m < 60 /\ 0 <= s < 60 /\ 3600 * h + 60 * m + s = (1700000000 + 28800) mod 86400).
Proof. split; [done |]. refine (proj1 (hms_correct 1700000000 _ _)); by vm_compute. Defined.

(** A licence number of 18 digits in BCD is shown as its 18 digits. *)
Theorem bcd_shows_digits ds :
  length ds = 18%nat -> Forall (fun d => 0 <= d < 10) ds ->
  app_uart_cmd_bcd_to_str18 (to_bcd ds) = map (fun d => 48 + d) ds ++ [0].
Proof.
  intros Hl Hd. do 18 (destruct ds as [|? ds]; [done |]). destruct ds; [| done].
  rewrite !Forall_cons in Hd. destruct_and! Hd.
  unfold app_uart_cmd_bcd_to_str18. cbn [seq map concat to_bcd app].
  repeat match goal with
  | |- context [get ?l ?i] => let x := eval cbv [get nth Z.to_nat Z.of_nat Pos.to_nat Pos.iter_op Pos.of_succ_nat Pos.succ Nat.add] in (get l i) in change (get l i) with x
  end.
  repeat match goal with
  | |- context [Z.land (Z.shiftr (16 * ?h + ?l) 4) 15] =>
      let E1 := fresh in let E2 := fresh in
      destruct (bcd_chars h l) as [E1 E2]; [lia | lia |]; rewrite E1, E2; clear E1 E2
  end.
  reflexivity.
Qed.

Lemma bcd_shows_digits_witness :
  app_uart_cmd_bcd_to_str18 (to_bcd [4; 2; 0; 1; 0; 6; 1; 9; 9; 0; 0; 1; 0; 1; 1; 2; 3; 4]) =
  map (fun d => 48 + d) [4; 2; 0; 1; 0; 6; 1; 9; 9; 0; 0; 1; 0; 1; 1; 2; 3; 4] ++ [0].
Proof.
  apply (bcd_shows_digits [4; 2; 0; 1; 0; 6; 1; 9; 9; 0; 0; 1; 0; 1; 1; 2; 3; 4]); [done |].
  repeat (apply Forall_cons; split; [lia |]). by apply Forall_nil.
Defined.
