(* ===== verification/McuStatus.v ===== *)
(** * The periodic status frame of the MCU ([app_usart_cmd.c])

    Version string, configuration cache read from the EEPROM, and the frame
    built from them and from the vehicle inputs. *)

From S2P Require Import Prelude AppTypes Eeprom Storage StorageSpec UartCrc UartText UartFrame SocStatus.

(** ** Version *)

(** [APP_SOFTWARE_VERSION], "1.0.0". *)
Definition APP_SOFTWARE_VERSION : list Z := [49; 46; 48; 46; 48].

(** The loop of [app_uart_cmd_parse_version]; the end of the list is the
    terminator. *)
Fixpoint version_loop (p : list Z) (index value : Z) (has_digit : bool) (values : list Z)
    : Z * Z * bool * list Z :=
  match p with
  | [] => (index, value, has_digit, values)
  | ch :: p =>
      if negb (index <? 3) then (index, value, has_digit, values)
      else if (48 <=? ch) && (ch <=? 57) then
        version_loop p index (u16 (value * 10 + u16 (ch - 48))) true values
      else if ch =? 46 then
        if has_digit then
          version_loop p (u8 (index + 1)) 0 false (put values index (if 255 <? value then 255 else u8 value))
        else version_loop p index value has_digit values
      else (index, value, has_digit, values)
  end.

(** (major, minor, patch) *)
Definition app_uart_cmd_parse_version (p : pointer (list Z)) : Z * Z * Z :=
  match p with
  | None => (0, 0, 0)
  | Some p =>
      let p := match p with ch :: p' => if (ch =? 86) || (ch =? 118) then p' else p | [] => p end in
      let '(index, value, has_digit, values) := version_loop p 0 0 false [0; 0; 0] in
      let values :=
        if (index <? 3) && has_digit then put values index (if 255 <? value then 255 else u8 value) else values in
      (get values 0, get values 1, get values 2)
  end.

(** ** Configuration cache *)

Definition APP_MCU_STATUS_CFG_VALID_PHONE : Z := Z.shiftl 1 0.
Definition APP_MCU_STATUS_CFG_VALID_PLATE : Z := Z.shiftl 1 1.
Definition APP_MCU_STATUS_CFG_VALID_VIN : Z := Z.shiftl 1 2.
Definition APP_MCU_STATUS_CFG_VALID_PROVINCE_ID : Z := Z.shiftl 1 3.
Definition APP_MCU_STATUS_CFG_VALID_CITY_ID : Z := Z.shiftl 1 4.

Record app_mcu_config_status_t := mk_cfg_status {
  valid_flags : Z; c_local_phone : list Z; c_plate_class : Z; c_plate_color : Z;
  plate_province_utf8 : list Z; plate_letter : Z; plate_tail : list Z;
  c_vin : list Z; c_province_id : list Z; c_city_id : list Z
}.

#[export] Instance eta_cfg_status : Eta app_mcu_config_status_t := fun c =>
  mk_cfg_status (valid_flags c) (c_local_phone c) (c_plate_class c) (c_plate_color c)
    (plate_province_utf8 c) (plate_letter c) (plate_tail c) (c_vin c) (c_province_id c) (c_city_id c).

(** The packed structure in memory. *)
Definition cfg_status_bytes (c : app_mcu_config_status_t) : list Z :=
  [valid_flags c] ++ c_local_phone c ++ [c_plate_class c; c_plate_color c] ++ plate_province_utf8 c
  ++ [plate_letter c] ++ plate_tail c ++ c_vin c ++ c_province_id c ++ c_city_id c.

Definition cfg_status_zero : app_mcu_config_status_t :=
  mk_cfg_status 0 (zeros 11) 0 0 (zeros 3) 0 (zeros 5) (zeros 17) (zeros 2) (zeros 4).

Definition g_mcu_plate_province_utf8 : list (list Z) :=
  [ [0xE4; 0xBA; 0xAC]; [0xE6; 0xB4; 0xA5]; [0xE6; 0xB2; 0xAA]; [0xE6; 0xB8; 0x9D];
    [0xE5; 0x86; 0x80]; [0xE8; 0xB1; 0xAB]; [0xE4; 0xBA; 0x91]; [0xE8; 0xBE; 0xBD];
    [0xE9; 0xBB; 0x91]; [0xE6; 0xB9; 0x98]; [0xE7; 0x9A; 0x96]; [0xE9; 0xB2; 0x81];
    [0xE6; 0x96; 0xB0]; [0xE8; 0x8B; 0x8F]; [0xE6; 0xB5; 0x99]; [0xE8; 0xB5; 0xA3];
    [0xE9; 0x84; 0x82]; [0xE6; 0xA1; 0x82]; [0xE7; 0x94; 0x98]; [0xE6; 0x99; 0x8B];
    [0xE8; 0x92; 0x99]; [0xE9; 0x99; 0x95]; [0xE5; 0x90; 0x89]; [0xE9; 0x97; 0xBD];
    [0xE8; 0xB4; 0xB5]; [0xE7; 0xB2; 0xA4]; [0xE9; 0x9D; 0x92]; [0xE8; 0x97; 0x8F];
    [0xE5; 0xB7; 0x9D]; [0xE5; 0xAE; 0x81]; [0xE7; 0x90; 0xBC] ].

(** [memcmp(a, b, n) != 0] *)
Definition memcmp_ne (a b : list Z) (n : nat) : bool := negb (bool_decide (take n a = take n b)).

(** The cache computed from the loaded records. *)
Definition config_cache (config : svc_storage_config_t) (vin : svc_storage_vin_t)
    (province_id : svc_storage_province_id_t) (city_id : svc_storage_city_id_t) : app_mcu_config_status_t :=
  let cache := cfg_status_zero in
  let cache := cache <| c_local_phone := take 11 (local_phone config) |> in
  let cache := cache <| c_plate_class := plate_class config |> in
  let cache := cache <| c_plate_color := plate_color config |> in
  let pn := plate_number config in
  let cache :=
    if province_index pn <? SVC_STORAGE_PLATE_PROVINCE_COUNT then
      cache <| plate_province_utf8 := nth (Z.to_nat (province_index pn)) g_mcu_plate_province_utf8 [] |>
    else cache in
  let cache := cache <| plate_letter := letter pn |> in
  let cache := cache <| plate_tail := take 5 (plate_digits pn) |> in
  let cache := cache <| c_vin := take 17 (vin_chars vin) |> in
  let cache := cache <| c_province_id := take 2 (province_chars province_id) |> in
  let cache := cache <| c_city_id := take 4 (city_chars city_id) |> in
  let flag (b : bool) (v : Z) (c : app_mcu_config_status_t) :=
    if b then c <| valid_flags := Z.lor (valid_flags c) v |> else c in
  let cache := flag (memcmp_ne (local_phone config) (replicate 11 48) 11) APP_MCU_STATUS_CFG_VALID_PHONE cache in
  let cache := flag (plate_valid pn =? 1) APP_MCU_STATUS_CFG_VALID_PLATE cache in
  let cache := flag (vin_valid vin =? 1) APP_MCU_STATUS_CFG_VALID_VIN cache in
  let cache := flag (province_valid province_id =? 1) APP_MCU_STATUS_CFG_VALID_PROVINCE_ID cache in
  flag (city_valid city_id =? 1) APP_MCU_STATUS_CFG_VALID_CITY_ID cache.

Section Cache.
Context {D : Type} `{I2cBus D}.

(** [app_usart_cmd_refresh_status_config]: the value written to
    [g_mcu_config_cache]. *)
Definition app_usart_cmd_refresh_status_config (st : storage D) : app_mcu_config_status_t * storage D :=
  let '(_, config, st) := svc_storage_load_config (Some g_default_config) st in
  let '(_, vin, st) := svc_storage_load_vin (Some (mk_vin 0 (zeros 18))) st in
  let '(_, province_id, st) := svc_storage_load_province_id (Some (mk_province_id 0 (zeros 3))) st in
  let '(_, city_id, st) := svc_storage_load_city_id (Some (mk_city_id 0 (zeros 5))) st in
  (config_cache (default g_default_config config) (default (mk_vin 0 (zeros 18)) vin)
     (default (mk_province_id 0 (zeros 3)) province_id) (default (mk_city_id 0 (zeros 5)) city_id), st).
End Cache.

(** ** The frame *)

Record app_mcu_status_t := mk_mcu_status {
  major : Z; minor : Z; patch : Z;
  s_wk_acc : Z; s_wk_on : Z; s_sw_kl1 : Z; s_sw_kl2 : Z; s_sw_kl3 : Z; s_sw_kl4 : Z; s_sw_kl5 : Z; s_sw_kl6 : Z;
  s_sw_kl7 : Z; s_sw_kl8 : Z; s_sw_kl9 : Z; s_sw_kl10 : Z; s_key : Z; s_reserved : Z;
  admin_region_code : Z; config : app_mcu_config_status_t
}.

#[export] Instance eta_mcu_status : Eta app_mcu_status_t := fun s =>
  mk_mcu_status (major s) (minor s) (patch s) (s_wk_acc s) (s_wk_on s) (s_sw_kl1 s) (s_sw_kl2 s) (s_sw_kl3 s)
    (s_sw_kl4 s) (s_sw_kl5 s) (s_sw_kl6 s) (s_sw_kl7 s) (s_sw_kl8 s) (s_sw_kl9 s) (s_sw_kl10 s) (s_key s)
    (s_reserved s) (admin_region_code s) (config s).

(** Bit fields are allocated from the least significant bit. *)
Definition mcu_status_bytes (s : app_mcu_status_t) : list Z :=
  [major s; minor s; patch s;
   pack8 [s_wk_acc s; s_wk_on s; s_sw_kl1 s; s_sw_kl2 s; s_sw_kl3 s; s_sw_kl4 s; s_sw_kl5 s; s_sw_kl6 s];
   pack8 [s_sw_kl7 s; s_sw_kl8 s; s_sw_kl9 s; s_sw_kl10 s; s_key s; s_reserved s]]
  ++ to_le 4 (admin_region_code s) ++ cfg_status_bytes (config s).

Definition mcu_status_zero : app_mcu_status_t :=
  mk_mcu_status 0 0 0 0 0 0 0 0 0 0 0 0 0 0 0 0 0 0 cfg_status_zero.

(** [x ? 1U : 0U] *)
Definition flag01 (x : Z) : Z := if x =? 0 then 0 else 1.

Definition mcu_status (io_state : pointer app_vehicle_io_state_t) (key_pressed : bool) (cache : app_mcu_config_status_t)
    : app_mcu_status_t :=
  let s := mcu_status_zero in
  let '(ma, mi, pa) := app_uart_cmd_parse_version (Some APP_SOFTWARE_VERSION) in
  let s := s <| major := ma |> <| minor := mi |> <| patch := pa |> in
  let s :=
    match io_state with
    | None => s
    | Some io =>
        s <| s_wk_acc := flag01 (wk_acc io) |> <| s_wk_on := flag01 (wk_on io) |>
          <| s_sw_kl1 := flag01 (sw_kl1 io) |> <| s_sw_kl2 := flag01 (sw_kl2 io) |> <| s_sw_kl3 := flag01 (sw_kl3 io) |>
          <| s_sw_kl4 := flag01 (sw_kl4 io) |> <| s_sw_kl5 := flag01 (sw_kl5 io) |> <| s_sw_kl6 := flag01 (sw_kl6 io) |>
          <| s_sw_kl7 := flag01 (sw_kl7 io) |> <| s_sw_kl8 := flag01 (sw_kl8 io) |> <| s_sw_kl9 := flag01 (sw_kl9 io) |>
          <| s_sw_kl10 := flag01 (sw_kl10 io) |>
    end in
  let s := s <| s_key := b2u key_pressed |> <| s_reserved := 0 |> <| admin_region_code := u32 APP_ADMIN_REGION_CODE |> in
  s <| config := cache |>.

(** [app_mcu_status_frame_t] in memory. *)
Definition sizeof_mcu_status_frame : Z := 61.

Definition mcu_frame_bytes (length type : Z) (s : app_mcu_status_t) (crc : Z) : list Z :=
  [APP_UART_CMD_FRAME_HEAD; length; type] ++ mcu_status_bytes s ++
  [u8 (Z.land crc 0xFF); u8 (Z.shiftr crc 8); APP_UART_CMD_FRAME_TAIL].

(** The buffer after [app_uart_cmd_build_mcu_version]; [None] when it returns 0. *)
Definition app_uart_cmd_build_mcu_version (io_state : pointer app_vehicle_io_state_t) (key_pressed : bool)
    (cache : app_mcu_config_status_t) (buf : pointer (list Z)) (buf_size : Z) : option (list Z) :=
  match buf with
  | None => None
  | Some buf =>
      if buf_size <? sizeof_mcu_status_frame then None
      else
        let s := mcu_status io_state key_pressed cache in
        let crc := app_uart_cmd_crc16 (Some (mcu_status_bytes s)) 55 in
        Some (blit 0 (mcu_frame_bytes (u8 sizeof_mcu_status_frame) APP_UART_CMD_TYPE_MCU_VERSION s crc) buf)
  end.

(** ** Lemmas *)

(** Decimal notation of a number below 1000. *)
Definition dec (n : Z) : list Z :=
  if n <? 10 then [48 + n]
  else if n <? 100 then [48 + n / 10; 48 + n mod 10]
  else [48 + n / 100; 48 + n / 10 mod 10; 48 + n mod 10].

Lemma version_digit d p index value has values :
  0 <= d < 10 -> 0 <= index < 3 -> 0 <= value < 1000 ->
  version_loop (48 + d :: p) index value has values = version_loop p index (value * 10 + d) true values.
Proof.
  intros Hd Hi Hv. cbn [version_loop]. destruct (Z.ltb_spec index 3); [| lia]. cbn [negb].
  destruct (Z.leb_spec 48 (48 + d)), (Z.leb_spec (48 + d) 57); try lia. cbn [andb].
  f_equal. wraps.
Qed.

Lemma version_number n p index has values :
  0 <= n < 256 -> 0 <= index < 3 ->
  version_loop (dec n ++ p) index 0 has values = version_loop p index n true values.
Proof.
  intros Hn Hi. unfold dec.
  destruct (Z.ltb_spec n 10); [| destruct (Z.ltb_spec n 100)]; cbn [app].
  - by rewrite version_digit by lia.
  - rewrite !version_digit by lia. f_equal. lia.
  - rewrite !version_digit by lia. f_equal. lia.
Qed.

Lemma version_dot p index value values :
  0 <= index < 3 -> 0 <= value < 256 ->
  version_loop (46 :: p) index value true values = version_loop p (index + 1) 0 false (put values index value).
Proof.
  intros Hi Hv. cbn [version_loop]. destruct (Z.ltb_spec index 3); [| lia]. cbn [negb].
  change ((48 <=? 46) && (46 <=? 57)) with false. change (46 =? 46) with true. cbv iota.
  destruct (Z.ltb_spec 255 value); [lia |]. by rewrite !u8_id by wraps.
Qed.

(** The structure has its size and holds bytes. *)
Definition cache_ok (c : app_mcu_config_status_t) : Prop :=
  length (cfg_status_bytes c) = 46%nat /\ Forall is_u8 (cfg_status_bytes c).

Lemma flag01_bit x : is_bit (flag01 x).
Proof. unfold flag01, is_bit. destruct (x =? 0); auto. Qed.

Lemma b2u_is_bit b : is_bit (b2u b).
Proof. destruct b; unfold is_bit; auto. Qed.

Lemma zero_bit : is_bit 0.
Proof. by left. Qed.

#[export] Hint Resolve flag01_bit b2u_is_bit zero_bit : dvr.

Lemma pack8_range l : Forall is_bit l -> (length l <= 8)%nat -> is_u8 (pack8 l).
Proof.
  intros Hl. enough (0 <= pack8 l < 2 ^ Z.of_nat (length l)) as H.
  { intros Hlen. unfold is_u8. split; [lia |]. eapply Z.lt_le_trans; [apply H |]. apply Z.pow_le_mono_r; lia. }
  induction Hl as [|b l Hb _ IH]; cbn [pack8 foldr length]; [lia |]. fold (pack8 l).
  rewrite Nat2Z.inj_succ, Z.pow_succ_r by lia. destruct Hb as [-> | ->]; lia.
Qed.

Lemma mcu_status_bytes_ok io key cache :
  cache_ok cache ->
  length (mcu_status_bytes (mcu_status (Some io) key cache)) = 55%nat /\
  Forall is_u8 (mcu_status_bytes (mcu_status (Some io) key cache)).
Proof.
  intros [Hl Hb]. unfold mcu_status. change (app_uart_cmd_parse_version (Some APP_SOFTWARE_VERSION)) with (1, 0, 0).
  unfold mcu_status_bytes.
  cbn [major minor patch s_wk_acc s_wk_on s_sw_kl1 s_sw_kl2 s_sw_kl3 s_sw_kl4 s_sw_kl5 s_sw_kl6 s_sw_kl7 s_sw_kl8
       s_sw_kl9 s_sw_kl10 s_key s_reserved admin_region_code config update_with mcu_status_zero].
  split; [rewrite !length_app, length_to_le, Hl; done |].
  apply Forall_app_2; [| apply Forall_app_2; [apply to_le_bytes | done]].
  do 3 (apply Forall_cons_2; [by vm_compute |]).
  do 2 (apply Forall_cons_2;
    [apply pack8_range; [repeat (apply Forall_cons_2; [auto with dvr |]); apply Forall_nil_2 | simpl; lia] |]).
  apply Forall_nil_2.
Qed.

Lemma build_frame io key cache buf :
  cache_ok cache -> length buf = 61%nat ->
  app_uart_cmd_build_mcu_version (Some io) key cache (Some buf) 61 =
  Some (frame_of 0x11 (mcu_status_bytes (mcu_status (Some io) key cache))).
Proof.
  intros Hc Hb. destruct (mcu_status_bytes_ok io key cache Hc) as [Hl Hu].
  unfold app_uart_cmd_build_mcu_version. change (61 <? sizeof_mcu_status_frame) with false. cbv iota zeta. f_equal.
  set (l := mcu_status_bytes _) in *. unfold frame_of. rewrite Hl. change (Z.of_nat 55) with 55.
  unfold mcu_frame_bytes. fold l. pose proof (crc16_range l 55 Hu) as Hr. set (crc := app_uart_cmd_crc16 _ _) in *.
  replace (u8 (Z.land crc 0xFF)) with (crc mod 256) by (change 0xFF with (Z.ones 8); rewrite Z.land_ones by lia; wraps).
  replace (u8 (Z.shiftr crc 8)) with (crc / 256) by (rewrite Z.shiftr_div_pow2 by lia; wraps).
  unfold blit. rewrite take_0, drop_ge; [by rewrite app_nil_r |].
  rewrite Hb, !length_app, Hl. simpl. lia.
Qed.

Section CacheLemmas.
Context {D : Type} `{EepromReady D}.

Lemma refresh_reads (st : storage D) :
  good st ->
  let v := view (eeprom st) in
  fst (app_usart_cmd_refresh_status_config st) =
    config_cache (default g_default_config (v_config v)) (default (mk_vin 0 (zeros 18)) (v_vin v))
      (default (mk_province_id 0 (zeros 3)) (v_province v)) (default (mk_city_id 0 (zeros 5)) (v_city v)) /\
  view (eeprom (snd (app_usart_cmd_refresh_status_config st))) = v /\
  good (snd (app_usart_cmd_refresh_status_config st)).
Proof.
  intros Hg v. unfold app_usart_cmd_refresh_status_config.
  assert (reads (svc_storage_load_config (Some g_default_config) st) _ _ st) as (_ & Hc & Hv1 & Hg1)
    by (apply fetch_reads; [placed | done]).
  destruct (svc_storage_load_config (Some g_default_config) st) as [[? ?] st1]. cbn [fst snd] in *. subst.
  assert (reads (svc_storage_load_vin (Some (mk_vin 0 (zeros 18))) st1) _ _ st1) as (_ & Hc & Hv2 & Hg2)
    by (apply fetch_reads; [placed | done]).
  destruct (svc_storage_load_vin _ st1) as [[? ?] st2]. cbn [fst snd] in *. subst.
  assert (reads (svc_storage_load_province_id (Some (mk_province_id 0 (zeros 3))) st2) _ _ st2) as (_ & Hc & Hv3 & Hg3)
    by (apply fetch_reads; [placed | done]).
  destruct (svc_storage_load_province_id _ st2) as [[? ?] st3]. cbn [fst snd] in *. subst.
  assert (reads (svc_storage_load_city_id (Some (mk_city_id 0 (zeros 5))) st3) _ _ st3) as (_ & Hc & Hv4 & Hg4)
    by (apply fetch_reads; [placed | done]).
  destruct (svc_storage_load_city_id _ st3) as [[? ?] st4]. cbn [fst snd] in *. subst. cbn [default].
  change (slot SVC_STORAGE_CONFIG_ADDR svc_storage_config_record_is_valid (eeprom st)) with (v_config (view (eeprom st))).
  change (slot SVC_STORAGE_VIN_ADDR svc_storage_vin_record_is_valid (eeprom st1)) with (v_vin (view (eeprom st1))).
  change (slot SVC_STORAGE_PROVINCE_ID_ADDR svc_storage_province_id_record_is_valid (eeprom st2)) with (v_province (view (eeprom st2))).
  change (slot SVC_STORAGE_CITY_ID_ADDR svc_storage_city_id_record_is_valid (eeprom st3)) with (v_city (view (eeprom st3))).
  split_and!; [by rewrite Hv3, Hv2, Hv1 | by rewrite Hv4, Hv3, Hv2, Hv1 | done].
Qed.
End CacheLemmas.

(** ** Properties *)

(** A version string of three numbers below 256, with or without a
    leading V, is reported as these three numbers. *)
Theorem version_roundtrip a b c :
  0 <= a < 256 -> 0 <= b < 256 -> 0 <= c < 256 ->
  let s := dec a ++ [46] ++ dec b ++ [46] ++ dec c in
  app_uart_cmd_parse_version (Some s) = (a, b, c) /\ app_uart_cmd_parse_version (Some (86 :: s)) = (a, b, c).
Proof.
  intros Ha Hb Hc s.
  assert (forall p, p = s -> (let '(index, value, has_digit, values) := version_loop p 0 0 false [0; 0; 0] in
    let values := if (index <? 3) && has_digit then put values index (if 255 <? value then 255 else u8 value) else values in
    (get values 0, get values 1, get values 2)) = (a, b, c)) as H.
  { intros p ->. unfold s. cbn [app]. rewrite version_number, version_dot, version_number, version_dot by lia.
    replace (dec c) with (dec c ++ []) by apply app_nil_r. rewrite version_number by lia. cbn [version_loop].
    destruct (Z.ltb_spec 255 c); [lia |]. by rewrite u8_id by wraps. }
  split; [| exact (H s eq_refl)]. unfold app_uart_cmd_parse_version.
  assert (exists d tl, s = 48 + d :: tl /\ 0 <= d < 10) as (d & tl & E & Hd).
  { unfold s, dec. destruct (Z.ltb_spec a 10); [| destruct (Z.ltb_spec a 100)]; cbn [app]; eexists _, _;
      (split; [reflexivity | lia]). }
  rewrite E. destruct (Z.eqb_spec (48 + d) 86), (Z.eqb_spec (48 + d) 118); try lia. cbn [orb]. by apply H.
Qed.

Lemma version_roundtrip_witness :
  let s := dec 2 ++ [46] ++ dec 17 ++ [46] ++ dec 205 in
  app_uart_cmd_parse_version (Some s) = (2, 17, 205) /\ app_uart_cmd_parse_version (Some (86 :: s)) = (2, 17, 205).
Proof. apply (version_roundtrip 2 17 205); lia. Defined.

(** The periodic status is a well-formed frame of 61 bytes and type 0x11
    whose data are the structure; in it the inputs are the bits 0 to 7 and 0 to
    4 of bytes 3 and 4, and the configuration cache is copied unchanged. *)
Theorem mcu_frame_well_formed io key cache buf :
  cache_ok cache -> length buf = 61%nat ->
  exists f, app_uart_cmd_build_mcu_version (Some io) key cache (Some buf) 61 = Some f /\
    frame_ok f = true /\ length f = 61%nat /\ get f 2 = 0x11 /\
    map (status_bit (get f 6)) [0; 1; 2; 3; 4; 5; 6; 7] =
      map flag01 [wk_acc io; wk_on io; sw_kl1 io; sw_kl2 io; sw_kl3 io; sw_kl4 io; sw_kl5 io; sw_kl6 io] /\
    map (status_bit (get f 7)) [0; 1; 2; 3; 4; 5; 6; 7] =
      map flag01 [sw_kl7 io; sw_kl8 io; sw_kl9 io; sw_kl10 io] ++ [b2u key; 0; 0; 0] /\
    slice 12 46 f = cfg_status_bytes cache.
Proof.
  intros Hc Hb. eexists. split; [by apply build_frame |]. destruct (mcu_status_bytes_ok io key cache Hc) as [Hl _].
  split; [apply frame_of_ok |]. split; [by rewrite length_frame_of, Hl |]. split; [done |]. split_and!.
  - apply (status_bit_pack (flag01 (wk_acc io)) (flag01 (wk_on io)) (flag01 (sw_kl1 io)) (flag01 (sw_kl2 io))
             (flag01 (sw_kl3 io)) (flag01 (sw_kl4 io)) (flag01 (sw_kl5 io)) (flag01 (sw_kl6 io))).
    repeat (apply Forall_cons_2; [auto with dvr |]). apply Forall_nil_2.
  - apply (status_bit_pack (flag01 (sw_kl7 io)) (flag01 (sw_kl8 io)) (flag01 (sw_kl9 io)) (flag01 (sw_kl10 io))
             (b2u key) 0 0 0).
    repeat (apply Forall_cons_2; [auto with dvr |]). apply Forall_nil_2.
  - destruct Hc as [Hc _]. rewrite <- Hc.
    exact (slice_chunk [_; _; _; _; _; _; _; _; _; _; _; _] (cfg_status_bytes cache) _ 12 eq_refl).
Qed.

Lemma mcu_frame_well_formed_witness :
  let io := mk_vehicle_io_state 1 0 1 0 0 1 0 0 0 1 0 1 0 0 0 0 in
  exists f, app_uart_cmd_build_mcu_version (Some io) true cfg_status_zero (Some (zeros 61)) 61 = Some f /\
    frame_ok f = true /\ length f = 61%nat /\ get f 2 = 0x11 /\
    map (status_bit (get f 6)) [0; 1; 2; 3; 4; 5; 6; 7] = [1; 0; 1; 0; 0; 1; 0; 0] /\
    map (status_bit (get f 7)) [0; 1; 2; 3; 4; 5; 6; 7] = [0; 1; 0; 1; 1; 0; 0; 0] /\
    slice 12 46 f = cfg_status_bytes cfg_status_zero.
Proof.
  apply (mcu_frame_well_formed (mk_vehicle_io_state 1 0 1 0 0 1 0 0 0 1 0 1 0 0 0 0) true cfg_status_zero (zeros 61)).
  - split; [done |]. vm_compute cfg_status_bytes. solve_bytes.
  - done.
Defined.

(** After any sequence of saves, the configuration reported in the
    status frame is computed from exactly what the abstract store holds:
    default configuration and empty codes for records never saved, and the
    last valid value saved otherwise. *)
Theorem status_reports_saved_config {D} `{EepromReady D} ops (st : storage D) :
  Forall wf_op ops -> good st ->
  let v := snd (spec_all ops (view (eeprom st))) in
  fst (app_usart_cmd_refresh_status_config (snd (exec_all ops st))) =
    config_cache (default g_default_config (v_config v)) (default (mk_vin 0 (zeros 18)) (v_vin v))
      (default (mk_province_id 0 (zeros 3)) (v_province v)) (default (mk_city_id 0 (zeros 5)) (v_city v)).
Proof.
  intros Ho Hg v. destruct (exec_all_refines ops st Ho Hg) as (_ & Hv & Hg').
  destruct (refresh_reads _ Hg') as (-> & _ & _). by rewrite Hv.
Qed.

Lemma status_reports_saved_config_witness :
  let v := snd (spec_all sample_ops (view (eeprom sample_storage))) in
  fst (app_usart_cmd_refresh_status_config (snd (exec_all sample_ops sample_storage))) =
    config_cache (default g_default_config (v_config v)) (default (mk_vin 0 (zeros 18)) (v_vin v))
      (default (mk_province_id 0 (zeros 3)) (v_province v)) (default (mk_city_id 0 (zeros 5)) (v_city v)).
Proof.
  apply (status_reports_saved_config sample_ops sample_storage).
  - unfold sample_ops. repeat (apply Forall_cons_2; [by vm_compute; split_and!; try done; repeat constructor |]).
    apply Forall_nil_2.
  - by vm_compute.
Defined.

(** Bit by bit, the validity flags of the status frame say whether the
    phone number differs from the default and whether the plate, the VIN, the
    province code and the city code are marked as entered. *)
Theorem config_flags_correct cfg vin province city :
  let f := valid_flags (config_cache cfg vin province city) in
  is_u8 f /\
  map (Z.testbit f) [0; 1; 2; 3; 4; 5; 6; 7] =
    [negb (bool_decide (take 11 (local_phone cfg) = replicate 11 48)); plate_valid (plate_number cfg) =? 1;
     vin_valid vin =? 1; province_valid province =? 1; city_valid city =? 1; false; false; false].
Proof.
  intros f. subst f. unfold config_cache, memcmp_ne. change (take 11 (replicate 11 48)) with (replicate 11 48).
  destruct (province_index _ <? _), (bool_decide _), (plate_valid _ =? 1), (vin_valid vin =? 1),
    (province_valid province =? 1), (city_valid city =? 1); by vm_compute.
Qed.
