(* ===== verification/UartCmd.v ===== *)
(** * The serial command task ([app_usart_cmd.c])

    Initialisation, the poll loop that dispatches received frames, and the
    transmissions, over the state of the module and the EEPROM service. *)

From S2P Require Import Prelude Platform AppTypes Eeprom Storage StorageSpec UartRing UartCrc UartText UartFrame Odometer SocStatus McuStatus.

(** A transmit callback: the writes it makes to the device. *)
Definition tx_fn := list Z -> Z -> list (list Z).

Record uart_cmd (D : Type) := mk_uart_cmd {
  g_uart_cmd_rx_ring : app_uart_cmd_ring_t;
  g_uart_cmd_last_frame : app_uart_cmd_frame_t;
  g_uart_cmd_tx_cb : pointer tx_fn;
  g_uart_cmd_dev : bool;
  g_text : text_state;
  g_mcu_config_cache : app_mcu_config_status_t;
  g_parser : parser;
  g_odometer : odometer;
  g_storage : storage D
}.
Arguments mk_uart_cmd {D}. Arguments g_uart_cmd_rx_ring {D}. Arguments g_uart_cmd_last_frame {D}.
Arguments g_uart_cmd_tx_cb {D}. Arguments g_uart_cmd_dev {D}. Arguments g_text {D}. Arguments g_mcu_config_cache {D}.
Arguments g_parser {D}. Arguments g_odometer {D}. Arguments g_storage {D}.

#[export] Instance eta_uart_cmd D : Eta (uart_cmd D) := fun u =>
  mk_uart_cmd (g_uart_cmd_rx_ring u) (g_uart_cmd_last_frame u) (g_uart_cmd_tx_cb u) (g_uart_cmd_dev u) (g_text u)
    (g_mcu_config_cache u) (g_parser u) (g_odometer u) (g_storage u).

(** ** Transmission *)

(** [found] tells whether [g_uart_cmd_dev] is set when it runs. *)
Definition app_uart_cmd_uart_tx (found : bool) : tx_fn := fun data len =>
  if negb found || (len =? 0) then [] else [take (Z.to_nat len) data].

Definition app_usart_cmd_set_tx_callback {D} (tx_cb : pointer tx_fn) (u : uart_cmd D) : uart_cmd D :=
  u <| g_uart_cmd_tx_cb := tx_cb |>.

Definition app_usart_cmd_send_ack {D} (type ret : Z) (u : uart_cmd D) : bool * list (list Z) :=
  match g_uart_cmd_tx_cb u with
  | None => (false, [])
  | Some tx =>
      match app_uart_cmd_build_ack type ret (Some (zeros 8)) 8 with
      | None => (false, [])
      | Some ack_buf => (true, tx ack_buf 8)
      end
  end.

Definition app_usart_cmd_send_mcu_version {D} (io_state : pointer app_vehicle_io_state_t) (key_pressed : bool) (u : uart_cmd D)
    : bool * list (list Z) :=
  match g_uart_cmd_tx_cb u with
  | None => (false, [])
  | Some tx =>
      match app_uart_cmd_build_mcu_version io_state key_pressed (g_mcu_config_cache u)
              (Some (zeros (Z.to_nat sizeof_mcu_status_frame))) sizeof_mcu_status_frame with
      | None => (false, [])
      | Some tx_buf => (true, tx tx_buf sizeof_mcu_status_frame)
      end
  end.

Section Ops.
Context {D : Type} `{I2cBus D}.

(** ** Reception *)

(** The body of the loop of [app_usart_cmd_poll] for one frame. *)
Definition dispatch (frame : app_uart_cmd_frame_t) (u : uart_cmd D) : uart_cmd D * list lcd_call :=
  let u := u <| g_uart_cmd_last_frame := frame |> in
  if get (frame_data frame) 2 =? APP_UART_CMD_TEXT_FRAME_TYPE then
    let '(_, t, calls) := app_uart_cmd_parse_text_frame (Some frame) (g_text u) in
    (u <| g_text := t |>, calls)
  else
    match app_uart_cmd_parse_soc_status (Some frame) with
    | None => (u, [])
    | Some msg =>
        let '(hour, minute, second) := app_uart_cmd_time_to_hms (timestamp msg) in
        let '(drive_hour, drive_minute, drive_second) := app_uart_cmd_seconds_to_hms (driver_time msg) in
        let driver_number_str := app_uart_cmd_bcd_to_str18 (driver_number msg) in
        let '(o, st, calls) :=
          app_uart_cmd_update_total_mileage (driver_speed msg) (timestamp msg) (g_odometer u) (g_storage u) in
        (u <| g_odometer := o |> <| g_storage := st |>,
         calls ++
         [svc_lcd_update_home_time hour minute second;
          svc_lcd_update_top_status (used_satellite msg);
          svc_lcd_update_home_speed (driver_speed msg);
          svc_lcd_update_drive_time drive_hour drive_minute drive_second;
          svc_lcd_update_card_id driver_number_str;
          svc_lcd_update_home_location (latitude msg) (longitude msg) (latitude_direction msg)
            (longitude_direction msg) (timestamp msg)])
    end.

(** [while (try_parse_frame(&frame))]: [frame] is the local of the caller,
    [fuel] bounds the number of frames. *)
Fixpoint poll_loop (fuel : nat) (frame : app_uart_cmd_frame_t) (u : uart_cmd D) : uart_cmd D * list lcd_call :=
  match fuel with
  | O => (u, [])
  | S fuel =>
      let '(f, r, p, t, calls) :=
        app_uart_cmd_try_parse_frame (g_uart_cmd_rx_ring u) (g_parser u) (g_text u) frame in
      let u := u <| g_uart_cmd_rx_ring := r |> <| g_parser := p |> <| g_text := t |> in
      match f with
      | None => (u, calls)
      | Some f =>
          let '(u, calls1) := dispatch f u in
          let '(u, calls2) := poll_loop fuel f u in
          (u, calls ++ calls1 ++ calls2)
      end
  end.

Definition app_usart_cmd_poll (u : uart_cmd D) : uart_cmd D * list lcd_call :=
  poll_loop (S (Z.to_nat (ring_count (g_uart_cmd_rx_ring u)))) frame_zero u.

(** ** Start *)

(** [app_usart_cmd_init]: the results of the kernel calls are inputs. *)
Definition app_usart_cmd_init (sem_init : Z) (found : bool) (open set_rx : Z) (u : uart_cmd D) : Z * uart_cmd D :=
  let u := u <| g_uart_cmd_rx_ring := ring_zero |> in
  let u := u <| g_uart_cmd_last_frame := frame_zero |> in
  let u := u <| g_uart_cmd_tx_cb := None |> in
  let u := u <| g_text := text_zero |> in
  let u := u <| g_mcu_config_cache := cfg_status_zero |> in
  let '(cache, st) := app_usart_cmd_refresh_status_config (g_storage u) in
  let u := u <| g_mcu_config_cache := cache |> <| g_storage := st |> in
  if negb (sem_init =? RT_EOK) then (sem_init, u)
  else
    let u := u <| g_uart_cmd_dev := found |> in
    if negb found then (- RT_ERROR, u)
    else if negb (open =? RT_EOK) then (open, u)
    else if negb (set_rx =? RT_EOK) then (set_rx, u)
    else (RT_EOK, app_usart_cmd_set_tx_callback (Some (app_uart_cmd_uart_tx found)) u).

(** [app_usart_cmd_task_start]: [rx_thread] and [tx_thread] tell whether the
    two threads were created; the calls are those of the odometer. *)
Definition app_usart_cmd_task_start (rx_thread tx_thread : bool) (u : uart_cmd D) : Z * uart_cmd D * list lcd_call :=
  if negb rx_thread then (- RT_ERROR, u, [])
  else
    let '(o, st, calls) := app_uart_cmd_update_total_mileage 0 1 (g_odometer u) (g_storage u) in
    let u := u <| g_odometer := o |> <| g_storage := st |> in
    if negb tx_thread then (- RT_ERROR, u, calls) else (RT_EOK, u, calls).

(** ** Invariant *)

(** The module between two polls: the parser holds [q], the text buffer is
    consistent and the ring holds [bytes]. *)
Definition uart_inv (u : uart_cmd D) (q bytes : list Z) : Prop :=
  ring_inv (g_uart_cmd_rx_ring u) /\ contents (g_uart_cmd_rx_ring u) = bytes /\ Forall is_u8 bytes /\
  holds (g_parser u) q /\ text_inv (g_text u).

(** ** Lemmas *)

Lemma force_finishes_spec n t :
  text_inv t -> text_inv (fst (force_finishes n t)) /\ Forall call_ok (snd (force_finishes n t)).
Proof.
  revert t. induction n as [|n IH]; intros t Ht; cbn [force_finishes fst snd]; [by split; [| constructor] |].
  pose proof (force_finish_spec t Ht) as Hf. destruct (app_uart_cmd_force_finish_text_frame t) as [t1 c1].
  destruct Hf as [Ht1 Hc1]. destruct (IH t1 Ht1) as [Ht2 Hc2]. destruct (force_finishes n t1) as [t2 c2].
  cbn [fst snd] in *. split; [done | by apply Forall_app_2].
Qed.

(** The odometer only reports the mileage. *)
Definition mileage_call (c : lcd_call) : Prop := exists km rem_m, c = svc_lcd_update_total_mileage km rem_m.

Lemma update_calls_mileage speed ts o (st : storage D) :
  Forall mileage_call (snd (app_uart_cmd_update_total_mileage speed ts o st)).
Proof.
  unfold app_uart_cmd_update_total_mileage.
  assert (forall km rem_m, Forall mileage_call [svc_lcd_update_total_mileage km rem_m]) as H1
    by (intros; apply Forall_singleton; by eexists _, _).
  assert (Forall mileage_call (snd (load_odometer o st))) as Hl.
  { unfold load_odometer. destruct (storage_loaded o); [constructor |].
    destruct (svc_storage_load_mileage _ st) as [[? ?] ?]. apply H1. }
  destruct (load_odometer o st) as [[o1 st1] c1]. cbn [snd] in Hl.
  destruct (has_last_sample o1); cbn [negb]; [| done]. destruct (_ <=? _); [done |]. destruct (5 <? _); [done |].
  destruct (save_odometer _ st1) as [o3 st3]. cbn [snd]. apply Forall_app_2; [done | apply H1].
Qed.

Lemma update_calls_ok speed ts o (st : storage D) :
  Forall call_ok (snd (app_uart_cmd_update_total_mileage speed ts o st)).
Proof. apply (Forall_impl _ _ _ (update_calls_mileage speed ts o st)). by intros c (km & rem_m & ->). Qed.

(** A frame changes neither the ring nor the parser, keeps the text buffer
    consistent and hands over only consistent texts. *)
Lemma dispatch_spec frame u :
  frame_fits frame -> text_inv (g_text u) ->
  let '(u', calls) := dispatch frame u in
  g_uart_cmd_rx_ring u' = g_uart_cmd_rx_ring u /\ g_parser u' = g_parser u /\ text_inv (g_text u') /\
  g_uart_cmd_last_frame u' = frame /\ Forall call_ok calls.
Proof.
  intros Hf Ht. unfold dispatch. destruct (_ =? APP_UART_CMD_TEXT_FRAME_TYPE).
  - pose proof (parse_text_frame_spec frame (g_text u) Ht Hf) as Hp.
    change (g_text (u <| g_uart_cmd_last_frame := frame |>)) with (g_text u).
    destruct (app_uart_cmd_parse_text_frame _ _) as [[ok t] calls]. by destruct Hp.
  - destruct (app_uart_cmd_parse_soc_status _) as [m|]; [| by split_and!].
    pose proof (update_calls_ok (driver_speed m) (timestamp m) (g_odometer u) (g_storage u)) as Hc.
    destruct (app_uart_cmd_time_to_hms _) as [[? ?] ?], (app_uart_cmd_seconds_to_hms _) as [[? ?] ?].
    change (g_odometer (u <| g_uart_cmd_last_frame := frame |>)) with (g_odometer u).
    change (g_storage (u <| g_uart_cmd_last_frame := frame |>)) with (g_storage u).
    destruct (app_uart_cmd_update_total_mileage _ _ _ _) as [[o st] calls]. cbn [snd] in Hc.
    split_and!; try done. apply Forall_app_2; [done |]. repeat (apply Forall_cons_2; [done |]). apply Forall_nil_2.
Qed.
End Ops.

Lemma spec_parse_shorter q bs f rest q' n :
  spec_parse q bs = (Some f, rest, q', n) -> (length rest < length bs)%nat.
Proof.
  revert q n. induction bs as [|b bs IH]; intros q n; [done |]. cbn [spec_parse length].
  destruct (spec_step q b) as [[[f1|] q1] forced]; [intros [= -> -> -> _]; lia |].
  destruct (spec_parse q1 bs) as [[[f1 rest1] q2] m] eqn:Ep. intros [= -> -> -> _]. specialize (IH _ _ Ep). lia.
Qed.

(** A delivered frame fits the buffers of its consumers. *)
Lemma parsed_frame_fits q bs f rest q' n frame :
  spec_parse q bs = (Some f, rest, q', n) -> Forall is_u8 q -> Forall is_u8 bs ->
  frame_fits (mk_frame (blit 0 f (frame_data frame)) (Z.of_nat (length f))) /\ Forall is_u8 rest.
Proof.
  intros Ep Hq Hb. destruct (spec_parse_sound _ _ _ _ _ _ Ep) as (Hok & _ & consumed & pre & post & -> & Hp).
  apply Forall_app in Hb as [Hc Hr]. split; [| done].
  assert (Forall is_u8 (pre ++ f ++ post)) as Hall by (rewrite <- Hp; by apply Forall_app_2).
  rewrite !Forall_app in Hall. destruct Hall as (_ & Hf & _).
  pose proof (frame_ok_facts f Hok) as (_ & _ & H1). pose proof (get_u8 f 1 Hf) as Hl. rewrite H1 in Hl.
  unfold frame_fits. cbn [frame_length frame_data]. split; [done |].
  unfold blit. rewrite take_0, !length_app. lia.
Qed.

Section Poll.
Context {D : Type} `{I2cBus D}.

Lemma poll_loop_spec fuel frame (u : uart_cmd D) q bytes :
  uart_inv u q bytes -> (length bytes < fuel)%nat ->
  let '(u', calls) := poll_loop fuel frame u in (exists q', uart_inv u' q' []) /\ Forall call_ok calls.
Proof.
  revert frame u q bytes. induction fuel as [|fuel IH]; intros frame u q bytes (Hr & Hc & Hb & Hh & Ht) Hf; [lia |].
  cbn [poll_loop]. rewrite <- Hc in *.
  pose proof (try_parse_refines_spec _ _ (g_text u) frame q Hr Hb Hh) as Hl.
  destruct (spec_parse q (contents (g_uart_cmd_rx_ring u))) as [[[f rest] q'] n] eqn:Ep.
  destruct Hl as (r' & p' & -> & Hr' & Hc' & Hh'). destruct (force_finishes_spec n (g_text u) Ht) as [Ht' Hcalls].
  set (t' := fst (force_finishes n (g_text u))) in *. set (cs := snd (force_finishes n (g_text u))) in *.
  destruct f as [f|]; cbn [option_map].
  2: { split; [| done]. exists q'. pose proof (spec_parse_none _ _ _ _ _ Ep) as Er. rewrite Er in Hc'. split; [done |]. by split_and!. }
  destruct (parsed_frame_fits _ _ _ _ _ _ frame Ep (proj1 (proj1 Hh)) Hb) as [Hfit Hrest].
  pose proof (spec_parse_shorter _ _ _ _ _ _ Ep) as Hlt.
  set (g := mk_frame _ _) in *. set (u1 := u <| g_uart_cmd_rx_ring := _ |> <| g_parser := _ |> <| g_text := _ |>).
  pose proof (dispatch_spec g u1 Hfit Ht') as Hd. destruct (dispatch g u1) as [u2 calls1].
  destruct Hd as (Hr2 & Hp2 & Ht2 & _ & Hcalls1).
  assert (uart_inv u2 q' rest) as Hu2.
  { unfold uart_inv. rewrite Hr2, Hp2. split_and!; try done; apply Ht2. }
  specialize (IH g u2 q' rest Hu2 ltac:(lia)). destruct (poll_loop fuel g u2) as [u3 calls2].
  destruct IH as [? Hcalls2]. split; [done |]. by repeat apply Forall_app_2.
Qed.

Lemma poll_spec (u : uart_cmd D) q bytes :
  uart_inv u q bytes ->
  let '(u', calls) := app_usart_cmd_poll u in (exists q', uart_inv u' q' []) /\ Forall call_ok calls.
Proof.
  intros Hu. apply (poll_loop_spec _ frame_zero u q bytes Hu). destruct Hu as (_ & <- & _). rewrite length_contents. lia.
Qed.

(** *** Clean streams *)

(** The frames of a poll, dispatched in order; each is copied over the
    buffer of the previous one. *)
Fixpoint dispatch_all (fs : list (list Z)) (frame : app_uart_cmd_frame_t) (u : uart_cmd D) : uart_cmd D * list lcd_call :=
  match fs with
  | [] => (u, [])
  | f :: fs =>
      let g := mk_frame (blit 0 f (frame_data frame)) (Z.of_nat (length f)) in
      let '(u, c) := dispatch g u in
      let '(u, cs) := dispatch_all fs g u in
      (u, c ++ cs)
  end.

(** A frame with the noise before it. *)
Record transmission := mk_transmission { noise : list Z; tx_type : Z; tx_data : list Z }.

Definition wire (x : transmission) : list Z := noise x ++ frame_of (tx_type x) (tx_data x).

Definition clean (x : transmission) : Prop := 0xAA ∉ noise x /\ (tx_type x = 1 \/ tx_type x = 2).

Definition with_io (u : uart_cmd D) (r : app_uart_cmd_ring_t) (p : parser) : uart_cmd D :=
  u <| g_uart_cmd_rx_ring := r |> <| g_parser := p |>.

Lemma dispatch_with_io g u r p :
  dispatch g (with_io u r p) = (with_io (fst (dispatch g u)) r p, snd (dispatch g u)).
Proof.
  unfold dispatch. destruct (_ =? APP_UART_CMD_TEXT_FRAME_TYPE).
  - change (g_text (with_io u r p <| g_uart_cmd_last_frame := g |>)) with (g_text (u <| g_uart_cmd_last_frame := g |>)).
    by destruct (app_uart_cmd_parse_text_frame _ _) as [[? ?] ?].
  - destruct (app_uart_cmd_parse_soc_status _) as [m|]; [| done].
    destruct (app_uart_cmd_time_to_hms _) as [[? ?] ?], (app_uart_cmd_seconds_to_hms _) as [[? ?] ?].
    change (g_odometer (with_io u r p <| g_uart_cmd_last_frame := g |>)) with (g_odometer (u <| g_uart_cmd_last_frame := g |>)).
    change (g_storage (with_io u r p <| g_uart_cmd_last_frame := g |>)) with (g_storage (u <| g_uart_cmd_last_frame := g |>)).
    by destruct (app_uart_cmd_update_total_mileage _ _ _ _) as [[? ?] ?].
Qed.

Lemma dispatch_all_with_io fs frame u r p :
  dispatch_all fs frame (with_io u r p) =
  (with_io (fst (dispatch_all fs frame u)) r p, snd (dispatch_all fs frame u)).
Proof.
  revert frame u. induction fs as [|f fs IH]; intros frame u; cbn [dispatch_all]; [done |]. rewrite dispatch_with_io.
  destruct (dispatch _ u) as [u1 c1]. cbn [fst snd]. rewrite IH. by destruct (dispatch_all fs _ u1).
Qed.

Lemma with_io_twice u r p r' p' : with_io (with_io u r p) r' p' = with_io u r' p'.
Proof. done. Qed.

Lemma spec_parse_all_noise bs : 0xAA ∉ bs -> spec_parse [] bs = (None, [], [], O).
Proof. intros Hb. rewrite <- (app_nil_r bs). by rewrite spec_parse_junk. Qed.

Lemma poll_clean fuel frame (u : uart_cmd D) xs tail :
  uart_inv u [] (concat (map wire xs) ++ tail) -> Forall clean xs -> 0xAA ∉ tail -> (length xs < fuel)%nat ->
  exists r p, contents r = [] /\ holds p [] /\
    poll_loop fuel frame u =
      (with_io (fst (dispatch_all (map (fun x => frame_of (tx_type x) (tx_data x)) xs) frame u)) r p,
       snd (dispatch_all (map (fun x => frame_of (tx_type x) (tx_data x)) xs) frame u)).
Proof.
  intros Hu Hxs Htl. revert fuel frame u Hu. induction Hxs as [|x xs [Hn Hty] _ IH]; intros fuel frame u Hu Hf;
    (destruct fuel as [|fuel]; [simpl in Hf; lia |]); destruct Hu as (Hr & Hc & Hb & Hh & Ht);
    cbn [poll_loop map concat app dispatch_all]; pose proof (try_parse_refines_spec _ _ (g_text u) frame [] Hr
      ltac:(by rewrite Hc) Hh) as Hl; rewrite Hc in Hl.
  - cbn [map concat app] in Hl. rewrite (spec_parse_all_noise tail Htl) in Hl. destruct Hl as (r' & p' & -> & _ & Hc' & Hh').
    exists r', p'. split_and!; [done | apply Hh'..|]. by destruct u.
  - cbn [map concat] in Hl, Hb. unfold wire at 1 in Hl. rewrite <- !app_assoc in Hl.
    rewrite (spec_parse_clean _ _ _ Hn (frame_of_ok _ _) Hty) in Hl. destruct Hl as (r' & p' & -> & Hr' & Hc' & Hh').
    cbn [option_map force_finishes fst snd].
    set (g := mk_frame _ _). replace (u <| g_uart_cmd_rx_ring := r' |> <| g_parser := p' |> <| g_text := g_text u |>)
      with (with_io u r' p') by (by destruct u).
    rewrite <- app_assoc in Hb. apply Forall_app in Hb as [Hbw Hb].
    assert (frame_fits g) as Hfit.
    { pose proof (frame_of_ok (tx_type x) (tx_data x)) as Hok.
      pose proof (frame_ok_facts _ Hok) as (_ & _ & H1). unfold wire in Hbw. apply Forall_app in Hbw as [_ Hbw].
      pose proof (get_u8 _ 1 Hbw) as Hl. rewrite H1 in Hl. unfold frame_fits, g. cbn [frame_length frame_data].
      split; [done |]. unfold blit. rewrite take_0, !length_app. lia. }
    rewrite dispatch_with_io. pose proof (dispatch_spec g u Hfit Ht) as Hd.
    destruct (dispatch g u) as [u1 c1]. destruct Hd as (Hr1 & Hp1 & Ht1 & _ & _). cbn [fst snd].
    destruct (IH fuel g (with_io u1 r' p')) as (r2 & p2 & Hc2 & Hh2 & ->).
    { split_and!; try done; apply Hh' || apply Ht1. }
    { simpl in Hf. lia. }
    exists r2, p2. split_and!; [done | apply Hh2.. |].
    rewrite dispatch_all_with_io. destruct (dispatch_all _ g u1) as [u2 c2]. cbn [fst snd]. by rewrite with_io_twice.
Qed.

(** Frames sent one after the other, with any noise free of heads before and
    after them, are all dispatched by one poll, once each and in order: it has
    fuel for every frame in the ring. *)
Lemma poll_frames (u : uart_cmd D) xs tail :
  uart_inv u [] (concat (map wire xs) ++ tail) -> Forall clean xs -> 0xAA ∉ tail ->
  let fs := map (fun x => frame_of (tx_type x) (tx_data x)) xs in
  exists r p, contents r = [] /\ holds p [] /\
    app_usart_cmd_poll u =
      (with_io (fst (dispatch_all fs frame_zero u)) r p, snd (dispatch_all fs frame_zero u)).
Proof.
  intros Hu Hxs Htl. apply (poll_clean _ frame_zero u xs tail Hu Hxs Htl).
  destruct Hu as (_ & Hc & _). rewrite <- length_contents, Hc, length_app.
  enough (length xs <= length (concat (map wire xs)))%nat by lia.
  clear. induction xs as [|x xs IH]; [done |]. cbn [map concat length]. rewrite length_app.
  unfold wire at 1. rewrite length_app, length_frame_of. lia.
Qed.
End Poll.

(** A module that just received [l]. *)
Definition uart_with (l : list Z) : uart_cmd Chip.chip :=
  mk_uart_cmd (ring_with l) frame_zero (Some (app_uart_cmd_uart_tx true)) true text_zero cfg_status_zero parser_zero
    (mk_odometer true true 1000 12 990 0 12) sample_storage.

Lemma uart_with_inv l :
  Forall is_u8 (contents (ring_with l)) -> uart_inv (uart_with l) [] (contents (ring_with l)).
Proof.
  intros Hl. split; [apply ring_with_inv |]. split; [done |]. split; [done |].
  split; [apply parser_zero_holds | apply text_zero_inv].
Qed.

(** The calls a status frame leads to. *)
Lemma status_frame_calls {D} `{I2cBus D} (u : uart_cmd D) m :
  soc_ok m -> uart_inv u [] (frame_of 1 (encode_soc m)) ->
  let '(o, st, mileage_calls) := app_uart_cmd_update_total_mileage (driver_speed m) (timestamp m) (g_odometer u) (g_storage u) in
  let '(h, mi, s) := app_uart_cmd_time_to_hms (timestamp m) in
  let '(dh, dm, ds) := app_uart_cmd_seconds_to_hms (driver_time m) in
  let '(u', calls) := app_usart_cmd_poll u in
  g_odometer u' = o /\ g_storage u' = st /\ g_text u' = g_text u /\
  calls = mileage_calls ++
    [svc_lcd_update_home_time h mi s; svc_lcd_update_top_status (used_satellite m);
     svc_lcd_update_home_speed (driver_speed m); svc_lcd_update_drive_time dh dm ds;
     svc_lcd_update_card_id (app_uart_cmd_bcd_to_str18 (driver_number m));
     svc_lcd_update_home_location (latitude m) (longitude m) (latitude_direction m) (longitude_direction m) (timestamp m)].
Proof.
  intros Hm Hu.
  destruct (poll_clean (S (Z.to_nat (ring_count (g_uart_cmd_rx_ring u)))) frame_zero u
    [mk_transmission [] 1 (encode_soc m)] []) as (r & p & _ & _ & E).
  { cbn [map wire noise tx_type tx_data concat app]. by rewrite !app_nil_r. }
  { apply Forall_singleton. split; [set_solver | by left]. }
  { set_solver. }
  { destruct Hu as (_ & Hc & _). rewrite <- length_contents, Hc, length_frame_of. simpl. lia. }
  unfold app_usart_cmd_poll. rewrite E. clear E.
  cbn [map tx_type tx_data dispatch_all]. unfold dispatch. cbn [frame_data].
  change (get _ 2 =? _) with false. cbv iota.
  change (blit 0 ?f ?d) with (f ++ drop (length f) d). rewrite length_frame_of, (length_encode_soc m Hm).
  change (Z.of_nat (87 + 6)) with 93.
  assert (app_uart_cmd_parse_soc_status (Some (mk_frame (frame_of 1 (encode_soc m) ++ drop (87 + 6) (frame_data frame_zero)) 93)) = Some m) as ->.
  { unfold frame_of. rewrite (length_encode_soc m Hm). rewrite <- !app_assoc. by apply parse_soc_layout. }
  change (g_odometer (u <| g_uart_cmd_last_frame := _ |>)) with (g_odometer u).
  change (g_storage (u <| g_uart_cmd_last_frame := _ |>)) with (g_storage u).
  destruct (app_uart_cmd_update_total_mileage _ _ _ _) as [[o st] c].
  destruct (app_uart_cmd_time_to_hms _) as [[? ?] ?], (app_uart_cmd_seconds_to_hms _) as [[? ?] ?].
  cbn [fst snd]. rewrite app_nil_r. done.
Qed.

(** ** Properties *)

(** C20: A poll consumes every received byte, whatever the bytes are: it
    ends with an empty ring and the ring, the parser and the text buffer
    consistent, and every text it hands to the display is within bounds. *)
Theorem poll_drains {D} `{I2cBus D} (u : uart_cmd D) q bytes :
  uart_inv u q bytes ->
  let '(u', calls) := app_usart_cmd_poll u in (exists q', uart_inv u' q' []) /\ Forall call_ok calls.
Proof. apply poll_spec. Qed.

Lemma poll_drains_witness :
  let '(u', calls) := app_usart_cmd_poll (uart_with [1; 0xAA; 0xAA; 9; 2; 0xAA; 7; 2; 55; 1; 2; 3]) in
  (exists q', uart_inv u' q' []) /\ Forall call_ok calls.
Proof.
  eapply (poll_drains (uart_with [1; 0xAA; 0xAA; 9; 2; 0xAA; 7; 2; 55; 1; 2; 3]) []).
  apply uart_with_inv. vm_compute contents. solve_bytes.
Defined.

(** Three frames with noise before two of them. *)
Definition sample_stream : list transmission :=
  [mk_transmission [1; 2] 2 [0; 4; 1; 65]; mk_transmission [] 1 [7]; mk_transmission [9] 2 [1; 66; 67]].

(** A status frame on the wire updates the display with the values of
    the message it carries: local time, satellites, speed, driving time, card
    number and position, after the odometer has taken the sample. *)
Theorem status_frame_shown {D} `{I2cBus D} (u : uart_cmd D) m :
  soc_ok m -> uart_inv u [] (frame_of 1 (encode_soc m)) ->
  let '(o, st, mileage_calls) := app_uart_cmd_update_total_mileage (driver_speed m) (timestamp m) (g_odometer u) (g_storage u) in
  let '(h, mi, s) := app_uart_cmd_time_to_hms (timestamp m) in
  let '(dh, dm, ds) := app_uart_cmd_seconds_to_hms (driver_time m) in
  let '(u', calls) := app_usart_cmd_poll u in
  g_odometer u' = o /\ g_storage u' = st /\ g_text u' = g_text u /\
  calls = mileage_calls ++
    [svc_lcd_update_home_time h mi s; svc_lcd_update_top_status (used_satellite m);
     svc_lcd_update_home_speed (driver_speed m); svc_lcd_update_drive_time dh dm ds;
     svc_lcd_update_card_id (app_uart_cmd_bcd_to_str18 (driver_number m));
     svc_lcd_update_home_location (latitude m) (longitude m) (latitude_direction m) (longitude_direction m) (timestamp m)].
Proof. apply status_frame_calls. Qed.

Lemma status_frame_shown_witness :
  let u := uart_with (frame_of 1 (encode_soc sample_soc)) in
  let '(o, st, mileage_calls) := app_uart_cmd_update_total_mileage (driver_speed sample_soc) (timestamp sample_soc) (g_odometer u) (g_storage u) in
  let '(h, mi, s) := app_uart_cmd_time_to_hms (timestamp sample_soc) in
  let '(dh, dm, ds) := app_uart_cmd_seconds_to_hms (driver_time sample_soc) in
  let '(u', calls) := app_usart_cmd_poll u in
  g_odometer u' = o /\ g_storage u' = st /\ g_text u' = g_text u /\
  calls = mileage_calls ++
    [svc_lcd_update_home_time h mi s; svc_lcd_update_top_status (used_satellite sample_soc);
     svc_lcd_update_home_speed (driver_speed sample_soc); svc_lcd_update_drive_time dh dm ds;
     svc_lcd_update_card_id (app_uart_cmd_bcd_to_str18 (driver_number sample_soc));
     svc_lcd_update_home_location (latitude sample_soc) (longitude sample_soc) (latitude_direction sample_soc)
       (longitude_direction sample_soc) (timestamp sample_soc)].
Proof.
  apply (status_frame_shown (uart_with (frame_of 1 (encode_soc sample_soc))) sample_soc sample_soc_ok).
  assert (contents (ring_with (frame_of 1 (encode_soc sample_soc))) = frame_of 1 (encode_soc sample_soc)) as <- by (by vm_compute).
  apply uart_with_inv. vm_compute contents. solve_bytes.
Defined.

(** The module is initialised in one of five ways: it reports the first
    kernel call that failed, and only then has no transmit function (so that
    every send fails and writes nothing); on success the ring is empty, the
    text buffer cleared, the cache filled from the EEPROM, and an acknowledge
    writes exactly its frame to the device. *)
Theorem init_outcome {D} `{I2cBus D} sem found open set_rx (u : uart_cmd D) type ret :
  is_u8 ret ->
  let '(result, u') := app_usart_cmd_init sem found open set_rx u in
  result = (if negb (sem =? 0) then sem else if negb found then -1 else if negb (open =? 0) then open else set_rx) /\
  app_usart_cmd_send_ack type ret u' =
    (if result =? 0 then (true, [frame_of type [ret; 0]]) else (false, [])) /\
  contents (g_uart_cmd_rx_ring u') = [] /\ ring_inv (g_uart_cmd_rx_ring u') /\ g_text u' = text_zero /\
  (g_mcu_config_cache u', g_storage u') = app_usart_cmd_refresh_status_config (g_storage u).
Proof.
  intros Hret. unfold app_usart_cmd_init.
  change (g_storage (_ <| g_mcu_config_cache := cfg_status_zero |>)) with (g_storage u).
  destruct (app_usart_cmd_refresh_status_config (g_storage u)) as [cache st].
  pose proof ring_zero_inv as [Hri Hrc]. unfold RT_EOK, RT_ERROR.
  destruct (Z.eqb_spec sem 0); cbn [negb]; [| by split_and!; try apply Hri; rewrite ?(proj2 (Z.eqb_neq sem 0))].
  destruct found; cbn [negb]; [| by split_and!; try apply Hri].
  destruct (Z.eqb_spec open 0); cbn [negb]; [| by split_and!; try apply Hri; rewrite ?(proj2 (Z.eqb_neq open 0))].
  destruct (Z.eqb_spec set_rx 0); cbn [negb]; [| by split_and!; try apply Hri; rewrite ?(proj2 (Z.eqb_neq set_rx 0))].
  subst. split_and!; try done; try apply Hri.
  unfold app_usart_cmd_send_ack. cbn [g_uart_cmd_tx_cb app_usart_cmd_set_tx_callback update_with].
  rewrite build_ack_frame by (done || apply length_replicate). done.
Qed.

Lemma init_outcome_witness :
  let '(result, u') := app_usart_cmd_init 0 true 0 0 (uart_with []) in
  result = 0 /\
  app_usart_cmd_send_ack 2 1 u' = (if result =? 0 then (true, [frame_of 2 [1; 0]]) else (false, [])) /\
  contents (g_uart_cmd_rx_ring u') = [] /\ ring_inv (g_uart_cmd_rx_ring u') /\ g_text u' = text_zero /\
  (g_mcu_config_cache u', g_storage u') = app_usart_cmd_refresh_status_config (g_storage (uart_with [])).
Proof. apply (init_outcome 0 true 0 0 (uart_with []) 2 1). by vm_compute. Defined.
