(* ===== verification/HostLine.v ===== *)
(** * The host line from the wire to the command task

    The serial driver ([Serial]) with the command task ([UartCmd]): frames that
    arrive on the line are dispatched, however the transfers cut them. *)

From S2P Require Import Prelude Eeprom UartRing Serial UartFrame UartCmd.

(** The command task sees the ring the driver fills. *)
Definition on_line {D} (u : uart_cmd D) (l : line) : uart_cmd D := u <| g_uart_cmd_rx_ring := l_ring l |>.

(** An idle line has delivered everything that arrived. *)
Lemma idle_line_holds evs : Taken ∉ evs -> (length (arrived evs) <= capacity)%nat ->
  let a := foldl abstract_step (mk_abstract [] [] 0) (evs ++ [Idle]) in
  a_queue a = arrived evs /\ (arrived evs <> [] -> 0 < a_signals a).
Proof.
  intros Ht Hl. assert (Taken ∉ evs ++ [Idle]) as Ht' by (rewrite elem_of_app, list_elem_of_singleton; naive_solver).
  assert (arrived (evs ++ [Idle]) = arrived evs) as Ha by (unfold arrived; rewrite omap_app; cbn; apply app_nil_r).
  destruct (abstract_keeps (evs ++ [Idle]) (mk_abstract [] [] 0) Ht') as (Hq & _ & Hs); [by rewrite Ha | done | done |].
  rewrite Ha in Hq. cbv zeta in *. rewrite foldl_app in *. cbn [foldl abstract_step a_queue a_staged app] in *.
  unfold deliver at 1 2 in Hq. cbn [a_queue a_staged] in Hq. rewrite app_nil_r in Hq. split; [exact Hq |]. intros Hne. apply Hs.
  unfold deliver. cbn [a_queue]. by rewrite Hq.
Qed.

(** C7: bytes that arrive on the wire in any number of transfers, with idle
    gaps anywhere, at most 4096 of them, and consist of frames of type 1 or 2
    with noise between them that contains no head byte 0xAA, wake the command
    task when the line is idle at last, and its poll dispatches these frames,
    once each and in order. *)
Theorem wire_to_dispatch {D} `{I2cBus D} env (u : uart_cmd D) evs xs tail :
  opens env -> uart_inv u [] [] -> Taken ∉ evs -> arrived evs = concat (map wire xs) ++ tail -> xs <> [] ->
  Forall is_u8 (arrived evs) -> (length (arrived evs) <= capacity)%nat -> Forall clean xs -> 0xAA ∉ tail ->
  let fs := map (fun x => frame_of (tx_type x) (tx_data x)) xs in
  exists l r p, line_run (open_line env) (evs ++ [Idle]) = Some l /\ 0 < l_signals l /\ contents r = [] /\ holds p [] /\
    app_usart_cmd_poll (on_line u l) =
      (with_io (fst (dispatch_all fs frame_zero u)) r p, snd (dispatch_all fs frame_zero u)).
Proof.
  intros He Hu Ht Ha Hne Hb Hl Hx Htl fs.
  destruct (run_matches (evs ++ [Idle]) _ _ (open_matches env He)) as (l & Hrun & _ & _ & _ & Hr & Hc & Hs).
  destruct (idle_line_holds evs Ht Hl) as [Hq Hsig]. rewrite Hq in Hc. rewrite Ha in Hc, Hb, Hsig.
  destruct Hu as (_ & _ & _ & Hh & Htext).
  destruct (poll_frames (on_line u l) xs tail) as (r & p & Hr0 & Hp0 & Hpoll); [by split_and! | done | done |].
  exists l, r, p. split_and!; [done | | done | done |].
  - rewrite Hs. apply Hsig. destruct xs as [| x xs]; [done |]. cbn. unfold wire. rewrite <- !app_assoc. intros E.
    apply (f_equal length) in E. rewrite !length_app, length_frame_of in E. cbn in E. lia.
  - rewrite Hpoll. fold fs. unfold on_line.
    change (u <| g_uart_cmd_rx_ring := l_ring l |>) with (with_io u (l_ring l) (g_parser u)).
    rewrite dispatch_all_with_io. cbn [fst snd]. by rewrite with_io_twice.
Qed.

(** The sample stream with an idle gap inside its first frame. *)
Definition sample_events : list line_event :=
  map Arrives (take 5 (concat (map wire sample_stream))) ++ [Idle; Idle] ++ map Arrives (drop 5 (concat (map wire sample_stream)) ++ [3]).

Lemma wire_to_dispatch_witness :
  let fs := map (fun x => frame_of (tx_type x) (tx_data x)) sample_stream in
  exists l r p, line_run (open_line sample_env) (sample_events ++ [Idle]) = Some l /\ 0 < l_signals l /\ contents r = [] /\ holds p [] /\
    app_usart_cmd_poll (on_line (uart_with []) l) =
      (with_io (fst (dispatch_all fs frame_zero (uart_with []))) r p, snd (dispatch_all fs frame_zero (uart_with []))).
Proof.
  apply (wire_to_dispatch sample_env (uart_with []) sample_events sample_stream [3]).
  - by vm_compute.
  - apply (uart_with_inv []). apply Forall_nil_2.
  - by apply (bool_decide_unpack _).
  - vm_compute. reflexivity.
  - done.
  - vm_compute arrived. solve_bytes.
  - vm_compute. lia.
  - repeat (apply Forall_cons_2; [split; [by apply (bool_decide_unpack _) | simpl; lia] |]). apply Forall_nil_2.
  - by apply (bool_decide_unpack _).
Defined.
