(* ===== verification/LcdTime.v ===== *)
(** * Calendar date of a timestamp ([lcd_timestamp_to_local_ymdhm])

    The conversion of [LCD/lcd_ui.c] from seconds since 1970 to a local date
    and time, against the Gregorian calendar. *)

From S2P Require Import Prelude.

(** ** Source *)

Definition i32 (x : Z) : Z := (x + 2 ^ 31) mod 2 ^ 32 - 2 ^ 31.

(** The date part, on the day number. *)
Definition ymd_of_days (days : Z) : Z * Z * Z :=
  let z := i32 (i32 days + 719468) in
  let era := (if 0 <=? z then z else z - 146096) ÷ 146097 in
  let doe := u32 (z - era * 146097) in
  let yoe := u32 (doe - doe / 1460 + doe / 36524 - doe / 146096) / 365 in
  let y := u32 (yoe + u32 era * 400) in
  let doy := u32 (doe - (365 * yoe + yoe / 4 - yoe / 100)) in
  let mp := u32 (5 * doy + 2) / 153 in
  let d := u32 (doy - u32 (153 * mp + 2) / 5 + 1) in
  let '(m, y) := if mp <? 10 then (u32 (mp + 3), y) else (u32 (mp - 9), u32 (y + 1)) in
  (u16 y, u8 m, u8 d).

(** (year, month, day, hour, minute) *)
Definition lcd_timestamp_to_local_ymdhm (timestamp : Z) : Z * Z * Z * Z * Z :=
  let local_seconds := u32 (timestamp + 8 * 3600) in
  let days := local_seconds / 86400 in
  let secs_of_day := local_seconds mod 86400 in
  let '(y, m, d) := ymd_of_days days in
  (y, m, d, u8 (secs_of_day / 3600), u8 ((secs_of_day mod 3600) / 60)).

(** ** Specification: the Gregorian calendar, day by day *)

Definition leap (y : Z) : bool := ((y mod 4 =? 0) && negb (y mod 100 =? 0)) || (y mod 400 =? 0).

Definition days_in_month (y m : Z) : Z :=
  if m =? 2 then (if leap y then 29 else 28)
  else if (m =? 4) || (m =? 6) || (m =? 9) || (m =? 11) then 30 else 31.

Definition next_day (date : Z * Z * Z) : Z * Z * Z :=
  let '(y, m, d) := date in
  if d <? days_in_month y m then (y, m, d + 1)
  else if m <? 12 then (y, m + 1, 1)
  else (y + 1, 1, 1).

(** The date [n] days after 1 January 1970. *)
Fixpoint date_after (n : nat) : Z * Z * Z :=
  match n with
  | O => (1970, 1, 1)
  | S n => next_day (date_after n)
  end.

Definition valid_date (date : Z * Z * Z) : bool :=
  let '(y, m, d) := date in (1 <=? m) && (m <=? 12) && (1 <=? d) && (d <=? days_in_month y m).

(** ** Lemmas *)

Definition same_date (a b : Z * Z * Z) : bool :=
  let '(y, m, d) := a in let '(y', m', d') := b in (y =? y') && (m =? m') && (d =? d').

(** Check of the conversion [f] on [k] consecutive days from day [n], whose
    date is [date]. *)
Fixpoint check_days (f : Z -> Z * Z * Z) (k : nat) (n : Z) (date : Z * Z * Z) : bool :=
  match k with
  | O => true
  | S k => same_date (f n) date && check_days f k (n + 1) (next_day date)
  end.

Lemma same_date_eq a b : same_date a b = true -> a = b.
Proof. destruct a as [[? ?] ?], b as [[? ?] ?]. simpl. intros H. bool_hyps. by subst. Qed.

Lemma check_days_spec f k n date i :
  check_days f k (Z.of_nat n) date = true -> date = date_after n -> (i < k)%nat ->
  f (Z.of_nat (n + i)) = date_after (n + i).
Proof.
  revert n date i. induction k as [|k IH]; intros n date i Hc Hd Hi; [by apply Nat.nlt_0_r in Hi |].
  cbn [check_days] in Hc. apply andb_true_iff in Hc as [H1 H2].
  destruct i as [|i]; [rewrite Nat.add_0_r, <- Hd; by apply same_date_eq |].
  rewrite Nat.add_succ_r. apply (IH (S n) (next_day date));
    [by rewrite Nat2Z.inj_succ, <- Z.add_1_r | by rewrite Hd | by apply Nat.succ_lt_mono].
Qed.

(** The date part without the wrap-arounds. *)
Definition ymd_plain (days : Z) : Z * Z * Z :=
  let z := days + 719468 in
  let era := z / 146097 in
  let doe := z - era * 146097 in
  let yoe := (doe - doe / 1460 + doe / 36524 - doe / 146096) / 365 in
  let doy := doe - (365 * yoe + yoe / 4 - yoe / 100) in
  let mp := (5 * doy + 2) / 153 in
  let d := doy - (153 * mp + 2) / 5 + 1 in
  if mp <? 10 then (yoe + era * 400, mp + 3, d) else (yoe + era * 400 + 1, mp - 9, d).

Lemma ymd_of_days_plain days : 0 <= days < 49711 -> ymd_of_days days = ymd_plain days.
Proof.
  intros Hd. unfold ymd_of_days, ymd_plain, i32.
  replace ((days + 2 ^ 31) mod 2 ^ 32 - 2 ^ 31) with days by lia.
  replace ((days + 719468 + 2 ^ 31) mod 2 ^ 32 - 2 ^ 31) with (days + 719468) by lia.
  set (z := days + 719468) in *. rewrite (proj2 (Z.leb_le 0 z)) by lia.
  rewrite Z.quot_div_nonneg by lia. set (era := z / 146097). assert (4 <= era <= 5) by lia.
  rewrite (u32_id (z - era * 146097)) by wraps. set (doe := z - era * 146097).
  assert (0 <= doe < 146097) by lia.
  rewrite (u32_id (doe - _ + _ - _)) by wraps.
  set (yoe := (doe - doe / 1460 + doe / 36524 - doe / 146096) / 365).
  assert (0 <= yoe < 400) by lia.
  rewrite (u32_id era), (u32_id (yoe + era * 400)) by wraps.
  set (doy := doe - (365 * yoe + yoe / 4 - yoe / 100)).
  assert (0 <= doy <= 366) by lia.
  rewrite (u32_id doy), (u32_id (5 * doy + 2)) by wraps. set (mp := (5 * doy + 2) / 153).
  assert (0 <= mp <= 11) by lia.
  rewrite (u32_id (153 * mp + 2)) by wraps. rewrite (u32_id (doy - (153 * mp + 2) / 5 + 1)) by wraps.
  rewrite (u8_id (doy - (153 * mp + 2) / 5 + 1)) by wraps.
  destruct (Z.ltb_spec mp 10); rewrite !u32_id, u8_id, u16_id by wraps; done.
Qed.

(** All the days a 32-bit timestamp can reach. *)
Definition day_count : nat := Z.to_nat 49711.

Lemma all_days_agree : check_days ymd_plain day_count (Z.of_nat 0) (1970, 1, 1) = true.
Proof. vm_compute. reflexivity. Qed.

Lemma day_count_Z : Z.of_nat day_count = 49711.
Proof. unfold day_count. lia. Qed.

#[global] Opaque day_count.

Lemma ymd_of_days_correct n : (n < day_count)%nat -> ymd_of_days (Z.of_nat n) = date_after n.
Proof.
  intros Hn. rewrite ymd_of_days_plain by (pose proof day_count_Z; lia).
  exact (check_days_spec ymd_plain day_count 0 (1970, 1, 1) n all_days_agree eq_refl Hn).
Qed.

Lemma days_in_month_pos y m : 28 <= days_in_month y m <= 31.
Proof. unfold days_in_month. split_ifs; lia. Qed.

Lemma date_after_valid n : valid_date (date_after n) = true.
Proof.
  induction n as [|n IH]; [done |]. cbn [date_after]. destruct (date_after n) as [[y m] d].
  unfold valid_date in *. bool_hyps. unfold next_day.
  pose proof (days_in_month_pos y (m + 1)). pose proof (days_in_month_pos (y + 1) 1).
  destruct (Z.ltb_spec d (days_in_month y m)); [| destruct (Z.ltb_spec m 12)];
    rewrite !andb_true_iff, !Z.leb_le; lia.
Qed.

(** ** Properties *)

(** C35: for every timestamp up to the end of the 32-bit range (local time),
    the date shown is the date of the Gregorian calendar that many days after
    1 January 1970, a valid one, and the hour and minute are those of the
    local day. *)
Theorem timestamp_to_date_correct ts :
  0 <= ts -> ts + 28800 < 2 ^ 32 ->
  let '(y, m, d, h, mi) := lcd_timestamp_to_local_ymdhm ts in
  (y, m, d) = date_after (Z.to_nat ((ts + 28800) / 86400)) /\ valid_date (y, m, d) = true /\
  h = (ts + 28800) / 3600 mod 24 /\ mi = (ts + 28800) / 60 mod 60.
Proof.
  intros H0 Hts. unfold lcd_timestamp_to_local_ymdhm. change (8 * 3600) with 28800.
  rewrite u32_id by wraps. set (s := ts + 28800) in *. pose proof day_count_Z.
  pose proof (ymd_of_days_correct (Z.to_nat (s / 86400)) ltac:(lia)) as E. rewrite Z2Nat.id in E by lia.
  rewrite E. pose proof (date_after_valid (Z.to_nat (s / 86400))) as Hv.
  destruct (date_after (Z.to_nat (s / 86400))) as [[y m] d].
  rewrite !u8_id by wraps. split_and!; [done | done | lia | lia].
Qed.

Lemma timestamp_to_date_correct_witness :
  lcd_timestamp_to_local_ymdhm 1709161200 = (2024, 2, 29, 7, 0) /\
  (let '(y, m, d, h, mi) := lcd_timestamp_to_local_ymdhm 1709161200 in
   (y, m, d) = date_after (Z.to_nat ((1709161200 + 28800) / 86400)) /\ valid_date (y, m, d) = true /\
   h = (1709161200 + 28800) / 3600 mod 24 /\ mi = (1709161200 + 28800) / 60 mod 60).
Proof. split; [by vm_compute |]. apply (timestamp_to_date_correct 1709161200); lia. Defined.
