(* ===== verification/LcdPages.v ===== *)
(** * The page tree of the display ([lcd_ui.h], [lcd_ui.c], [svc_lcd.c])

    The page identifiers, the page table with the children of every menu, and
    the three queries on it: the node of a page, its depth and its number of
    selectable entries. *)

From S2P Require Import Prelude Platform.

(** ** Source *)

Inductive lcd_page_id_t :=
  | LCD_PAGE_HOME
  | LCD_PAGE_MAIN_MENU
  | LCD_PAGE_DRIVE_RECORD_MENU
  | LCD_PAGE_DEVICE_STATUS_MENU
  | LCD_PAGE_SYSTEM_SETTING_MENU
  | LCD_PAGE_DRIVE_RECORD_FATIGUE
  | LCD_PAGE_DRIVE_RECORD_LOCATION
  | LCD_PAGE_DRIVE_RECORD_MILEAGE
  | LCD_PAGE_DRIVE_RECORD_DRIVER_INFO
  | LCD_PAGE_DRIVE_RECORD_VEHICLE_INFO
  | LCD_PAGE_DRIVE_RECORD_LOAD_STATUS
  | LCD_PAGE_DRIVE_RECORD_LOAD_STATUS_OK
  | LCD_PAGE_DRIVE_RECORD_EXPORT
  | LCD_PAGE_DRIVE_RECORD_INFO_CENTER
  | LCD_PAGE_DRIVE_RECORD_INFO_CENTER_TEXT
  | LCD_PAGE_DRIVE_RECORD_INFO_CENTER_BROADCAST
  | LCD_PAGE_DRIVE_RECORD_INFO_CENTER_EVENT_REPORT
  | LCD_PAGE_DRIVE_RECORD_INFO_CENTER_EWAYBILL
  | LCD_PAGE_DRIVE_RECORD_INFO_CENTER_TEXT_DISPATCH
  | LCD_PAGE_DRIVE_RECORD_INFO_CENTER_TEXT_NORMAL
  | LCD_PAGE_DRIVE_RECORD_INFO_CENTER_TEXT_FAULT
  | LCD_PAGE_DRIVE_RECORD_INFO_CENTER_TEXT_EMERGENCY
  | LCD_PAGE_DRIVE_RECORD_VIN
  | LCD_PAGE_DEVICE_STATUS_VERSION
  | LCD_PAGE_DEVICE_STATUS_GFRS
  | LCD_PAGE_DEVICE_STATUS_SELF_TEST
  | LCD_PAGE_DEVICE_STATUS_LOCATION_MODULE
  | LCD_PAGE_DEVICE_STATUS_VEHICLE
  | LCD_PAGE_DEVICE_STATUS_STORAGE
  | LCD_PAGE_DEVICE_STATUS_AV
  | LCD_PAGE_DEVICE_STATUS_SPEED
  | LCD_PAGE_DEVICE_STATUS_DRIVER_MONITOR
  | LCD_PAGE_SYSTEM_SETTING_KEY_VOLUME
  | LCD_PAGE_COMMON_CONFIG_OK
  | LCD_PAGE_SYSTEM_SETTING_BRIGHTNESS
  | LCD_PAGE_SYSTEM_SETTING_BACKLIGHT_TIME
  | LCD_PAGE_SYSTEM_SETTING_BRIGHTNESS_LEVEL
  | LCD_PAGE_SYSTEM_SETTING_VEHICLE_INFO
  | LCD_PAGE_SYSTEM_SETTING_VEHICLE_INFO_VIN
  | LCD_PAGE_SYSTEM_SETTING_VEHICLE_INFO_PLATE_SET
  | LCD_PAGE_SYSTEM_SETTING_VEHICLE_INFO_PLATE_COLOR
  | LCD_PAGE_SYSTEM_SETTING_VEHICLE_INFO_PLATE_CLASS
  | LCD_PAGE_SYSTEM_SETTING_VEHICLE_INFO_PROVINCE_ID
  | LCD_PAGE_SYSTEM_SETTING_VEHICLE_INFO_CITY_ID
  | LCD_PAGE_SYSTEM_SETTING_HOST_PARAM
  | LCD_PAGE_SYSTEM_SETTING_HOST_PARAM_LOCAL_PHONE
  | LCD_PAGE_SYSTEM_SETTING_HOST_PARAM_SOS_PHONE
  | LCD_PAGE_SYSTEM_SETTING_HOST_PARAM_SERVER1
  | LCD_PAGE_SYSTEM_SETTING_HOST_PARAM_SERVER2
  | LCD_PAGE_SYSTEM_SETTING_INIT_MILEAGE
  | LCD_PAGE_SYSTEM_SETTING_REGISTER
  | LCD_PAGE_SYSTEM_SETTING_UNREGISTER
  | LCD_PAGE_SYSTEM_SETTING_REC_VER
  | LCD_PAGE_SYSTEM_SETTING_COMPONENT_VER
  | LCD_PAGE_MAX.

#[export] Instance page_eq_dec : EqDecision lcd_page_id_t.
Proof. solve_decision. Defined.

(** The integer value of an enumerator. *)
Definition page_num (p : lcd_page_id_t) : Z :=
  match p with
  | LCD_PAGE_HOME => 0
  | LCD_PAGE_MAIN_MENU => 1
  | LCD_PAGE_DRIVE_RECORD_MENU => 2
  | LCD_PAGE_DEVICE_STATUS_MENU => 3
  | LCD_PAGE_SYSTEM_SETTING_MENU => 4
  | LCD_PAGE_DRIVE_RECORD_FATIGUE => 5
  | LCD_PAGE_DRIVE_RECORD_LOCATION => 6
  | LCD_PAGE_DRIVE_RECORD_MILEAGE => 7
  | LCD_PAGE_DRIVE_RECORD_DRIVER_INFO => 8
  | LCD_PAGE_DRIVE_RECORD_VEHICLE_INFO => 9
  | LCD_PAGE_DRIVE_RECORD_LOAD_STATUS => 10
  | LCD_PAGE_DRIVE_RECORD_LOAD_STATUS_OK => 11
  | LCD_PAGE_DRIVE_RECORD_EXPORT => 12
  | LCD_PAGE_DRIVE_RECORD_INFO_CENTER => 13
  | LCD_PAGE_DRIVE_RECORD_INFO_CENTER_TEXT => 14
  | LCD_PAGE_DRIVE_RECORD_INFO_CENTER_BROADCAST => 15
  | LCD_PAGE_DRIVE_RECORD_INFO_CENTER_EVENT_REPORT => 16
  | LCD_PAGE_DRIVE_RECORD_INFO_CENTER_EWAYBILL => 17
  | LCD_PAGE_DRIVE_RECORD_INFO_CENTER_TEXT_DISPATCH => 18
  | LCD_PAGE_DRIVE_RECORD_INFO_CENTER_TEXT_NORMAL => 19
  | LCD_PAGE_DRIVE_RECORD_INFO_CENTER_TEXT_FAULT => 20
  | LCD_PAGE_DRIVE_RECORD_INFO_CENTER_TEXT_EMERGENCY => 21
  | LCD_PAGE_DRIVE_RECORD_VIN => 22
  | LCD_PAGE_DEVICE_STATUS_VERSION => 23
  | LCD_PAGE_DEVICE_STATUS_GFRS => 24
  | LCD_PAGE_DEVICE_STATUS_SELF_TEST => 25
  | LCD_PAGE_DEVICE_STATUS_LOCATION_MODULE => 26
  | LCD_PAGE_DEVICE_STATUS_VEHICLE => 27
  | LCD_PAGE_DEVICE_STATUS_STORAGE => 28
  | LCD_PAGE_DEVICE_STATUS_AV => 29
  | LCD_PAGE_DEVICE_STATUS_SPEED => 30
  | LCD_PAGE_DEVICE_STATUS_DRIVER_MONITOR => 31
  | LCD_PAGE_SYSTEM_SETTING_KEY_VOLUME => 32
  | LCD_PAGE_COMMON_CONFIG_OK => 33
  | LCD_PAGE_SYSTEM_SETTING_BRIGHTNESS => 34
  | LCD_PAGE_SYSTEM_SETTING_BACKLIGHT_TIME => 35
  | LCD_PAGE_SYSTEM_SETTING_BRIGHTNESS_LEVEL => 36
  | LCD_PAGE_SYSTEM_SETTING_VEHICLE_INFO => 37
  | LCD_PAGE_SYSTEM_SETTING_VEHICLE_INFO_VIN => 38
  | LCD_PAGE_SYSTEM_SETTING_VEHICLE_INFO_PLATE_SET => 39
  | LCD_PAGE_SYSTEM_SETTING_VEHICLE_INFO_PLATE_COLOR => 40
  | LCD_PAGE_SYSTEM_SETTING_VEHICLE_INFO_PLATE_CLASS => 41
  | LCD_PAGE_SYSTEM_SETTING_VEHICLE_INFO_PROVINCE_ID => 42
  | LCD_PAGE_SYSTEM_SETTING_VEHICLE_INFO_CITY_ID => 43
  | LCD_PAGE_SYSTEM_SETTING_HOST_PARAM => 44
  | LCD_PAGE_SYSTEM_SETTING_HOST_PARAM_LOCAL_PHONE => 45
  | LCD_PAGE_SYSTEM_SETTING_HOST_PARAM_SOS_PHONE => 46
  | LCD_PAGE_SYSTEM_SETTING_HOST_PARAM_SERVER1 => 47
  | LCD_PAGE_SYSTEM_SETTING_HOST_PARAM_SERVER2 => 48
  | LCD_PAGE_SYSTEM_SETTING_INIT_MILEAGE => 49
  | LCD_PAGE_SYSTEM_SETTING_REGISTER => 50
  | LCD_PAGE_SYSTEM_SETTING_UNREGISTER => 51
  | LCD_PAGE_SYSTEM_SETTING_REC_VER => 52
  | LCD_PAGE_SYSTEM_SETTING_COMPONENT_VER => 53
  | LCD_PAGE_MAX => 54
  end.

Inductive lcd_page_kind_t := LCD_PAGE_KIND_VIEW | LCD_PAGE_KIND_LIST | LCD_PAGE_KIND_ACTION_RESULT.

#[export] Instance kind_eq_dec : EqDecision lcd_page_kind_t.
Proof. solve_decision. Defined.

(** The function pointers of the table: the drawing functions and the confirm
    callbacks. *)
Inductive render_fn :=
  | render_home_ui
  | render_menu_ui
  | render_drive_record_submenu_ui
  | render_fatigue_drive_record_ui
  | render_location_status_ui
  | render_drive_mileage_ui
  | render_driver_info_ui
  | render_vehicle_info_ui
  | render_vehicle_load_status_ui
  | render_vehicle_load_status_ok_ui
  | render_submenu_ui
  | render_info_center_dispatch_ui
  | render_info_center_text_normal_ui
  | render_device_version_ui
  | render_vehicle_status_ui
  | render_key_volume_ui
  | render_common_config_ok_ui
  | render_brightness_menu_ui
  | render_backlight_time_ui
  | render_brightness_level_ui
  | render_vin_set_ui
  | render_plate_set_ui
  | render_province_id_set_ui
  | render_city_id_set_ui
  | render_local_phone_ui.

Inductive confirm_fn :=
  | confirm_load_status
  | confirm_key_volume
  | confirm_backlight_time
  | confirm_brightness_level
  | confirm_vehicle_plate_color
  | confirm_vehicle_plate_class.

Record lcd_page_node_t := mk_node {
  page_id : lcd_page_id_t; parent_id : lcd_page_id_t; kind : lcd_page_kind_t;
  children : pointer (list lcd_page_id_t); child_count : Z; select_count : Z; show_title : bool;
  render : pointer render_fn; on_confirm : pointer confirm_fn;
  auto_return_ms : Z; auto_return_target : lcd_page_id_t
}.

Definition g_main_menu_children : list lcd_page_id_t :=
  [LCD_PAGE_DRIVE_RECORD_MENU;
   LCD_PAGE_DEVICE_STATUS_MENU;
   LCD_PAGE_SYSTEM_SETTING_MENU].

Definition g_drive_record_children : list lcd_page_id_t :=
  [LCD_PAGE_DRIVE_RECORD_FATIGUE;
   LCD_PAGE_DRIVE_RECORD_LOCATION;
   LCD_PAGE_DRIVE_RECORD_MILEAGE;
   LCD_PAGE_DRIVE_RECORD_DRIVER_INFO;
   LCD_PAGE_DRIVE_RECORD_VEHICLE_INFO;
   LCD_PAGE_DRIVE_RECORD_LOAD_STATUS;
   LCD_PAGE_DRIVE_RECORD_EXPORT;
   LCD_PAGE_DRIVE_RECORD_INFO_CENTER;
   LCD_PAGE_DRIVE_RECORD_VIN].

Definition g_device_status_children : list lcd_page_id_t :=
  [LCD_PAGE_DEVICE_STATUS_VERSION;
   LCD_PAGE_DEVICE_STATUS_GFRS;
   LCD_PAGE_DEVICE_STATUS_SELF_TEST;
   LCD_PAGE_DEVICE_STATUS_LOCATION_MODULE;
   LCD_PAGE_DEVICE_STATUS_VEHICLE;
   LCD_PAGE_DEVICE_STATUS_STORAGE;
   LCD_PAGE_DEVICE_STATUS_AV;
   LCD_PAGE_DEVICE_STATUS_SPEED;
   LCD_PAGE_DEVICE_STATUS_DRIVER_MONITOR].

Definition g_info_center_children : list lcd_page_id_t :=
  [LCD_PAGE_DRIVE_RECORD_INFO_CENTER_TEXT;
   LCD_PAGE_DRIVE_RECORD_INFO_CENTER_BROADCAST;
   LCD_PAGE_DRIVE_RECORD_INFO_CENTER_EVENT_REPORT;
   LCD_PAGE_DRIVE_RECORD_INFO_CENTER_EWAYBILL].

Definition g_info_center_text_children : list lcd_page_id_t :=
  [LCD_PAGE_DRIVE_RECORD_INFO_CENTER_TEXT_DISPATCH;
   LCD_PAGE_DRIVE_RECORD_INFO_CENTER_TEXT_NORMAL;
   LCD_PAGE_DRIVE_RECORD_INFO_CENTER_TEXT_FAULT;
   LCD_PAGE_DRIVE_RECORD_INFO_CENTER_TEXT_EMERGENCY].

Definition g_system_setting_children : list lcd_page_id_t :=
  [LCD_PAGE_SYSTEM_SETTING_KEY_VOLUME;
   LCD_PAGE_SYSTEM_SETTING_BRIGHTNESS;
   LCD_PAGE_SYSTEM_SETTING_VEHICLE_INFO;
   LCD_PAGE_SYSTEM_SETTING_HOST_PARAM;
   LCD_PAGE_SYSTEM_SETTING_INIT_MILEAGE;
   LCD_PAGE_SYSTEM_SETTING_REGISTER;
   LCD_PAGE_SYSTEM_SETTING_UNREGISTER;
   LCD_PAGE_SYSTEM_SETTING_REC_VER;
   LCD_PAGE_SYSTEM_SETTING_COMPONENT_VER].

Definition g_brightness_setting_children : list lcd_page_id_t :=
  [LCD_PAGE_SYSTEM_SETTING_BACKLIGHT_TIME;
   LCD_PAGE_SYSTEM_SETTING_BRIGHTNESS_LEVEL].

Definition g_vehicle_info_children : list lcd_page_id_t :=
  [LCD_PAGE_SYSTEM_SETTING_VEHICLE_INFO_VIN;
   LCD_PAGE_SYSTEM_SETTING_VEHICLE_INFO_PLATE_SET;
   LCD_PAGE_SYSTEM_SETTING_VEHICLE_INFO_PLATE_COLOR;
   LCD_PAGE_SYSTEM_SETTING_VEHICLE_INFO_PLATE_CLASS;
   LCD_PAGE_SYSTEM_SETTING_VEHICLE_INFO_PROVINCE_ID;
   LCD_PAGE_SYSTEM_SETTING_VEHICLE_INFO_CITY_ID].

Definition g_host_param_children : list lcd_page_id_t :=
  [LCD_PAGE_SYSTEM_SETTING_HOST_PARAM_LOCAL_PHONE;
   LCD_PAGE_SYSTEM_SETTING_HOST_PARAM_SOS_PHONE;
   LCD_PAGE_SYSTEM_SETTING_HOST_PARAM_SERVER1;
   LCD_PAGE_SYSTEM_SETTING_HOST_PARAM_SERVER2].

(** The initialisers of the table, each with its designator. *)
Definition pages_menus : list (lcd_page_id_t * lcd_page_node_t) := [
  (LCD_PAGE_HOME, mk_node LCD_PAGE_HOME LCD_PAGE_MAX LCD_PAGE_KIND_VIEW None 0 0 false (Some render_home_ui) None 0 LCD_PAGE_MAX);
  (LCD_PAGE_MAIN_MENU, mk_node LCD_PAGE_MAIN_MENU LCD_PAGE_HOME LCD_PAGE_KIND_LIST (Some g_main_menu_children) 3 3 true (Some render_menu_ui) None 0 LCD_PAGE_MAX);
  (LCD_PAGE_DRIVE_RECORD_MENU, mk_node LCD_PAGE_DRIVE_RECORD_MENU LCD_PAGE_MAIN_MENU LCD_PAGE_KIND_LIST (Some g_drive_record_children) 9 9 true (Some render_drive_record_submenu_ui) None 0 LCD_PAGE_MAX);
  (LCD_PAGE_DEVICE_STATUS_MENU, mk_node LCD_PAGE_DEVICE_STATUS_MENU LCD_PAGE_MAIN_MENU LCD_PAGE_KIND_LIST (Some g_device_status_children) 9 9 true (Some render_drive_record_submenu_ui) None 0 LCD_PAGE_MAX);
  (LCD_PAGE_SYSTEM_SETTING_MENU, mk_node LCD_PAGE_SYSTEM_SETTING_MENU LCD_PAGE_MAIN_MENU LCD_PAGE_KIND_LIST (Some g_system_setting_children) 9 9 true (Some render_drive_record_submenu_ui) None 0 LCD_PAGE_MAX)
].

Definition pages_drive_record : list (lcd_page_id_t * lcd_page_node_t) := [
  (LCD_PAGE_DRIVE_RECORD_FATIGUE, mk_node LCD_PAGE_DRIVE_RECORD_FATIGUE LCD_PAGE_DRIVE_RECORD_MENU LCD_PAGE_KIND_VIEW None 0 0 false (Some render_fatigue_drive_record_ui) None 0 LCD_PAGE_MAX);
  (LCD_PAGE_DRIVE_RECORD_LOCATION, mk_node LCD_PAGE_DRIVE_RECORD_LOCATION LCD_PAGE_DRIVE_RECORD_MENU LCD_PAGE_KIND_VIEW None 0 0 false (Some render_location_status_ui) None 0 LCD_PAGE_MAX);
  (LCD_PAGE_DRIVE_RECORD_MILEAGE, mk_node LCD_PAGE_DRIVE_RECORD_MILEAGE LCD_PAGE_DRIVE_RECORD_MENU LCD_PAGE_KIND_VIEW None 0 0 false (Some render_drive_mileage_ui) None 0 LCD_PAGE_MAX);
  (LCD_PAGE_DRIVE_RECORD_DRIVER_INFO, mk_node LCD_PAGE_DRIVE_RECORD_DRIVER_INFO LCD_PAGE_DRIVE_RECORD_MENU LCD_PAGE_KIND_VIEW None 0 0 false (Some render_driver_info_ui) None 0 LCD_PAGE_MAX);
  (LCD_PAGE_DRIVE_RECORD_VEHICLE_INFO, mk_node LCD_PAGE_DRIVE_RECORD_VEHICLE_INFO LCD_PAGE_DRIVE_RECORD_MENU LCD_PAGE_KIND_VIEW None 0 0 false (Some render_vehicle_info_ui) None 0 LCD_PAGE_MAX);
  (LCD_PAGE_DRIVE_RECORD_LOAD_STATUS, mk_node LCD_PAGE_DRIVE_RECORD_LOAD_STATUS LCD_PAGE_DRIVE_RECORD_MENU LCD_PAGE_KIND_LIST None 0 3 false (Some render_vehicle_load_status_ui) (Some confirm_load_status) 0 LCD_PAGE_MAX);
  (LCD_PAGE_DRIVE_RECORD_LOAD_STATUS_OK, mk_node LCD_PAGE_DRIVE_RECORD_LOAD_STATUS_OK LCD_PAGE_DRIVE_RECORD_LOAD_STATUS LCD_PAGE_KIND_ACTION_RESULT None 0 0 false (Some render_vehicle_load_status_ok_ui) None 3000 LCD_PAGE_DRIVE_RECORD_LOAD_STATUS);
  (LCD_PAGE_DRIVE_RECORD_EXPORT, mk_node LCD_PAGE_DRIVE_RECORD_EXPORT LCD_PAGE_DRIVE_RECORD_MENU LCD_PAGE_KIND_VIEW None 0 0 false (Some render_submenu_ui) None 0 LCD_PAGE_MAX)
].

Definition pages_info_center : list (lcd_page_id_t * lcd_page_node_t) := [
  (LCD_PAGE_DRIVE_RECORD_INFO_CENTER, mk_node LCD_PAGE_DRIVE_RECORD_INFO_CENTER LCD_PAGE_DRIVE_RECORD_MENU LCD_PAGE_KIND_LIST (Some g_info_center_children) 4 4 true (Some render_drive_record_submenu_ui) None 0 LCD_PAGE_MAX);
  (LCD_PAGE_DRIVE_RECORD_INFO_CENTER_BROADCAST, mk_node LCD_PAGE_DRIVE_RECORD_INFO_CENTER_BROADCAST LCD_PAGE_DRIVE_RECORD_INFO_CENTER LCD_PAGE_KIND_VIEW None 0 0 false (Some render_submenu_ui) None 0 LCD_PAGE_MAX);
  (LCD_PAGE_DRIVE_RECORD_INFO_CENTER_EVENT_REPORT, mk_node LCD_PAGE_DRIVE_RECORD_INFO_CENTER_EVENT_REPORT LCD_PAGE_DRIVE_RECORD_INFO_CENTER LCD_PAGE_KIND_VIEW None 0 0 false (Some render_submenu_ui) None 0 LCD_PAGE_MAX);
  (LCD_PAGE_DRIVE_RECORD_INFO_CENTER_EWAYBILL, mk_node LCD_PAGE_DRIVE_RECORD_INFO_CENTER_EWAYBILL LCD_PAGE_DRIVE_RECORD_INFO_CENTER LCD_PAGE_KIND_VIEW None 0 0 false (Some render_submenu_ui) None 0 LCD_PAGE_MAX);
  (LCD_PAGE_DRIVE_RECORD_INFO_CENTER_TEXT, mk_node LCD_PAGE_DRIVE_RECORD_INFO_CENTER_TEXT LCD_PAGE_DRIVE_RECORD_INFO_CENTER LCD_PAGE_KIND_LIST (Some g_info_center_text_children) 4 4 true (Some render_drive_record_submenu_ui) None 0 LCD_PAGE_MAX);
  (LCD_PAGE_DRIVE_RECORD_INFO_CENTER_TEXT_DISPATCH, mk_node LCD_PAGE_DRIVE_RECORD_INFO_CENTER_TEXT_DISPATCH LCD_PAGE_DRIVE_RECORD_INFO_CENTER_TEXT LCD_PAGE_KIND_VIEW None 0 0 false (Some render_info_center_dispatch_ui) None 0 LCD_PAGE_MAX);
  (LCD_PAGE_DRIVE_RECORD_INFO_CENTER_TEXT_NORMAL, mk_node LCD_PAGE_DRIVE_RECORD_INFO_CENTER_TEXT_NORMAL LCD_PAGE_DRIVE_RECORD_INFO_CENTER_TEXT LCD_PAGE_KIND_VIEW None 0 0 false (Some render_info_center_text_normal_ui) None 0 LCD_PAGE_MAX);
  (LCD_PAGE_DRIVE_RECORD_INFO_CENTER_TEXT_FAULT, mk_node LCD_PAGE_DRIVE_RECORD_INFO_CENTER_TEXT_FAULT LCD_PAGE_DRIVE_RECORD_INFO_CENTER_TEXT LCD_PAGE_KIND_VIEW None 0 0 false (Some render_submenu_ui) None 0 LCD_PAGE_MAX);
  (LCD_PAGE_DRIVE_RECORD_INFO_CENTER_TEXT_EMERGENCY, mk_node LCD_PAGE_DRIVE_RECORD_INFO_CENTER_TEXT_EMERGENCY LCD_PAGE_DRIVE_RECORD_INFO_CENTER_TEXT LCD_PAGE_KIND_VIEW None 0 0 false (Some render_submenu_ui) None 0 LCD_PAGE_MAX);
  (LCD_PAGE_DRIVE_RECORD_VIN, mk_node LCD_PAGE_DRIVE_RECORD_VIN LCD_PAGE_DRIVE_RECORD_MENU LCD_PAGE_KIND_VIEW None 0 0 false (Some render_submenu_ui) None 0 LCD_PAGE_MAX)
].

Definition pages_device_status : list (lcd_page_id_t * lcd_page_node_t) := [
  (LCD_PAGE_DEVICE_STATUS_VERSION, mk_node LCD_PAGE_DEVICE_STATUS_VERSION LCD_PAGE_DEVICE_STATUS_MENU LCD_PAGE_KIND_VIEW None 0 0 false (Some render_device_version_ui) None 0 LCD_PAGE_MAX);
  (LCD_PAGE_DEVICE_STATUS_GFRS, mk_node LCD_PAGE_DEVICE_STATUS_GFRS LCD_PAGE_DEVICE_STATUS_MENU LCD_PAGE_KIND_VIEW None 0 0 false (Some render_submenu_ui) None 0 LCD_PAGE_MAX);
  (LCD_PAGE_DEVICE_STATUS_SELF_TEST, mk_node LCD_PAGE_DEVICE_STATUS_SELF_TEST LCD_PAGE_DEVICE_STATUS_MENU LCD_PAGE_KIND_VIEW None 0 0 false (Some render_submenu_ui) None 0 LCD_PAGE_MAX);
  (LCD_PAGE_DEVICE_STATUS_LOCATION_MODULE, mk_node LCD_PAGE_DEVICE_STATUS_LOCATION_MODULE LCD_PAGE_DEVICE_STATUS_MENU LCD_PAGE_KIND_VIEW None 0 0 false (Some render_submenu_ui) None 0 LCD_PAGE_MAX);
  (LCD_PAGE_DEVICE_STATUS_VEHICLE, mk_node LCD_PAGE_DEVICE_STATUS_VEHICLE LCD_PAGE_DEVICE_STATUS_MENU LCD_PAGE_KIND_LIST None 0 3 false (Some render_vehicle_status_ui) None 0 LCD_PAGE_MAX);
  (LCD_PAGE_DEVICE_STATUS_STORAGE, mk_node LCD_PAGE_DEVICE_STATUS_STORAGE LCD_PAGE_DEVICE_STATUS_MENU LCD_PAGE_KIND_VIEW None 0 0 false (Some render_submenu_ui) None 0 LCD_PAGE_MAX);
  (LCD_PAGE_DEVICE_STATUS_AV, mk_node LCD_PAGE_DEVICE_STATUS_AV LCD_PAGE_DEVICE_STATUS_MENU LCD_PAGE_KIND_VIEW None 0 0 false (Some render_submenu_ui) None 0 LCD_PAGE_MAX);
  (LCD_PAGE_DEVICE_STATUS_SPEED, mk_node LCD_PAGE_DEVICE_STATUS_SPEED LCD_PAGE_DEVICE_STATUS_MENU LCD_PAGE_KIND_VIEW None 0 0 false (Some render_submenu_ui) None 0 LCD_PAGE_MAX);
  (LCD_PAGE_DEVICE_STATUS_DRIVER_MONITOR, mk_node LCD_PAGE_DEVICE_STATUS_DRIVER_MONITOR LCD_PAGE_DEVICE_STATUS_MENU LCD_PAGE_KIND_VIEW None 0 0 false (Some render_submenu_ui) None 0 LCD_PAGE_MAX)
].

Definition pages_display_setting : list (lcd_page_id_t * lcd_page_node_t) := [
  (LCD_PAGE_SYSTEM_SETTING_KEY_VOLUME, mk_node LCD_PAGE_SYSTEM_SETTING_KEY_VOLUME LCD_PAGE_SYSTEM_SETTING_MENU LCD_PAGE_KIND_LIST None 0 2 false (Some render_key_volume_ui) (Some confirm_key_volume) 0 LCD_PAGE_MAX);
  (LCD_PAGE_COMMON_CONFIG_OK, mk_node LCD_PAGE_COMMON_CONFIG_OK LCD_PAGE_MAX LCD_PAGE_KIND_ACTION_RESULT None 0 0 false (Some render_common_config_ok_ui) None 0 LCD_PAGE_MAX);
  (LCD_PAGE_SYSTEM_SETTING_BRIGHTNESS, mk_node LCD_PAGE_SYSTEM_SETTING_BRIGHTNESS LCD_PAGE_SYSTEM_SETTING_MENU LCD_PAGE_KIND_LIST (Some g_brightness_setting_children) 2 2 false (Some render_brightness_menu_ui) None 0 LCD_PAGE_MAX);
  (LCD_PAGE_SYSTEM_SETTING_BACKLIGHT_TIME, mk_node LCD_PAGE_SYSTEM_SETTING_BACKLIGHT_TIME LCD_PAGE_SYSTEM_SETTING_BRIGHTNESS LCD_PAGE_KIND_LIST None 0 6 false (Some render_backlight_time_ui) (Some confirm_backlight_time) 0 LCD_PAGE_MAX);
  (LCD_PAGE_SYSTEM_SETTING_BRIGHTNESS_LEVEL, mk_node LCD_PAGE_SYSTEM_SETTING_BRIGHTNESS_LEVEL LCD_PAGE_SYSTEM_SETTING_BRIGHTNESS LCD_PAGE_KIND_LIST None 0 5 false (Some render_brightness_level_ui) (Some confirm_brightness_level) 0 LCD_PAGE_MAX)
].

Definition pages_vehicle_info : list (lcd_page_id_t * lcd_page_node_t) := [
  (LCD_PAGE_SYSTEM_SETTING_VEHICLE_INFO, mk_node LCD_PAGE_SYSTEM_SETTING_VEHICLE_INFO LCD_PAGE_SYSTEM_SETTING_MENU LCD_PAGE_KIND_LIST (Some g_vehicle_info_children) 6 6 false (Some render_drive_record_submenu_ui) None 0 LCD_PAGE_MAX);
  (LCD_PAGE_SYSTEM_SETTING_VEHICLE_INFO_VIN, mk_node LCD_PAGE_SYSTEM_SETTING_VEHICLE_INFO_VIN LCD_PAGE_SYSTEM_SETTING_VEHICLE_INFO LCD_PAGE_KIND_VIEW None 0 0 false (Some render_vin_set_ui) None 0 LCD_PAGE_MAX);
  (LCD_PAGE_SYSTEM_SETTING_VEHICLE_INFO_PLATE_SET, mk_node LCD_PAGE_SYSTEM_SETTING_VEHICLE_INFO_PLATE_SET LCD_PAGE_SYSTEM_SETTING_VEHICLE_INFO LCD_PAGE_KIND_VIEW None 0 0 false (Some render_plate_set_ui) None 0 LCD_PAGE_MAX);
  (LCD_PAGE_SYSTEM_SETTING_VEHICLE_INFO_PLATE_COLOR, mk_node LCD_PAGE_SYSTEM_SETTING_VEHICLE_INFO_PLATE_COLOR LCD_PAGE_SYSTEM_SETTING_VEHICLE_INFO LCD_PAGE_KIND_LIST None 0 5 false (Some render_drive_record_submenu_ui) (Some confirm_vehicle_plate_color) 0 LCD_PAGE_MAX);
  (LCD_PAGE_SYSTEM_SETTING_VEHICLE_INFO_PLATE_CLASS, mk_node LCD_PAGE_SYSTEM_SETTING_VEHICLE_INFO_PLATE_CLASS LCD_PAGE_SYSTEM_SETTING_VEHICLE_INFO LCD_PAGE_KIND_LIST None 0 5 false (Some render_drive_record_submenu_ui) (Some confirm_vehicle_plate_class) 0 LCD_PAGE_MAX);
  (LCD_PAGE_SYSTEM_SETTING_VEHICLE_INFO_PROVINCE_ID, mk_node LCD_PAGE_SYSTEM_SETTING_VEHICLE_INFO_PROVINCE_ID LCD_PAGE_SYSTEM_SETTING_VEHICLE_INFO LCD_PAGE_KIND_VIEW None 0 0 false (Some render_province_id_set_ui) None 0 LCD_PAGE_MAX);
  (LCD_PAGE_SYSTEM_SETTING_VEHICLE_INFO_CITY_ID, mk_node LCD_PAGE_SYSTEM_SETTING_VEHICLE_INFO_CITY_ID LCD_PAGE_SYSTEM_SETTING_VEHICLE_INFO LCD_PAGE_KIND_VIEW None 0 0 false (Some render_city_id_set_ui) None 0 LCD_PAGE_MAX)
].

Definition pages_host_param : list (lcd_page_id_t * lcd_page_node_t) := [
  (LCD_PAGE_SYSTEM_SETTING_HOST_PARAM, mk_node LCD_PAGE_SYSTEM_SETTING_HOST_PARAM LCD_PAGE_SYSTEM_SETTING_MENU LCD_PAGE_KIND_LIST (Some g_host_param_children) 4 4 false (Some render_drive_record_submenu_ui) None 0 LCD_PAGE_MAX);
  (LCD_PAGE_SYSTEM_SETTING_HOST_PARAM_LOCAL_PHONE, mk_node LCD_PAGE_SYSTEM_SETTING_HOST_PARAM_LOCAL_PHONE LCD_PAGE_SYSTEM_SETTING_HOST_PARAM LCD_PAGE_KIND_VIEW None 0 0 false (Some render_local_phone_ui) None 0 LCD_PAGE_MAX);
  (LCD_PAGE_SYSTEM_SETTING_HOST_PARAM_SOS_PHONE, mk_node LCD_PAGE_SYSTEM_SETTING_HOST_PARAM_SOS_PHONE LCD_PAGE_SYSTEM_SETTING_HOST_PARAM LCD_PAGE_KIND_VIEW None 0 0 false (Some render_submenu_ui) None 0 LCD_PAGE_MAX);
  (LCD_PAGE_SYSTEM_SETTING_HOST_PARAM_SERVER1, mk_node LCD_PAGE_SYSTEM_SETTING_HOST_PARAM_SERVER1 LCD_PAGE_SYSTEM_SETTING_HOST_PARAM LCD_PAGE_KIND_VIEW None 0 0 false (Some render_submenu_ui) None 0 LCD_PAGE_MAX);
  (LCD_PAGE_SYSTEM_SETTING_HOST_PARAM_SERVER2, mk_node LCD_PAGE_SYSTEM_SETTING_HOST_PARAM_SERVER2 LCD_PAGE_SYSTEM_SETTING_HOST_PARAM LCD_PAGE_KIND_VIEW None 0 0 false (Some render_submenu_ui) None 0 LCD_PAGE_MAX);
  (LCD_PAGE_SYSTEM_SETTING_INIT_MILEAGE, mk_node LCD_PAGE_SYSTEM_SETTING_INIT_MILEAGE LCD_PAGE_SYSTEM_SETTING_MENU LCD_PAGE_KIND_VIEW None 0 0 false (Some render_submenu_ui) None 0 LCD_PAGE_MAX);
  (LCD_PAGE_SYSTEM_SETTING_REGISTER, mk_node LCD_PAGE_SYSTEM_SETTING_REGISTER LCD_PAGE_SYSTEM_SETTING_MENU LCD_PAGE_KIND_VIEW None 0 0 false (Some render_submenu_ui) None 0 LCD_PAGE_MAX);
  (LCD_PAGE_SYSTEM_SETTING_UNREGISTER, mk_node LCD_PAGE_SYSTEM_SETTING_UNREGISTER LCD_PAGE_SYSTEM_SETTING_MENU LCD_PAGE_KIND_VIEW None 0 0 false (Some render_submenu_ui) None 0 LCD_PAGE_MAX);
  (LCD_PAGE_SYSTEM_SETTING_REC_VER, mk_node LCD_PAGE_SYSTEM_SETTING_REC_VER LCD_PAGE_SYSTEM_SETTING_MENU LCD_PAGE_KIND_VIEW None 0 0 false (Some render_submenu_ui) None 0 LCD_PAGE_MAX);
  (LCD_PAGE_SYSTEM_SETTING_COMPONENT_VER, mk_node LCD_PAGE_SYSTEM_SETTING_COMPONENT_VER LCD_PAGE_SYSTEM_SETTING_MENU LCD_PAGE_KIND_VIEW None 0 0 false (Some render_submenu_ui) None 0 LCD_PAGE_MAX)
].

Definition page_inits : list (lcd_page_id_t * lcd_page_node_t) :=
  pages_menus ++ pages_drive_record ++ pages_info_center ++ pages_device_status ++ pages_display_setting ++
  pages_vehicle_info ++ pages_host_param.

(** An element no initialiser names is zero. *)
Definition zero_node : lcd_page_node_t :=
  mk_node LCD_PAGE_HOME LCD_PAGE_HOME LCD_PAGE_KIND_VIEW None 0 0 false None None 0 LCD_PAGE_HOME.

Definition g_lcd_pages : list lcd_page_node_t :=
  foldl (fun pages '(d, n) => <[Z.to_nat (page_num d) := n]> pages)
    (replicate (Z.to_nat (page_num LCD_PAGE_MAX)) zero_node) page_inits.

(** What [lcd_ui_pages_register] stores: table and count. *)
Record page_registry := mk_registry { reg_pages : pointer (list lcd_page_node_t); reg_count : Z }.

Definition lcd_get_page_node (reg : page_registry) (p : lcd_page_id_t) : pointer lcd_page_node_t :=
  match reg_pages reg with
  | None => None
  | Some pages => if reg_count reg <=? page_num p then None else pages !! Z.to_nat (page_num p)
  end.

(** The loop of [lcd_page_get_depth]; [None]: out of fuel. *)
Fixpoint depth_loop (fuel : nat) (reg : page_registry) (p : lcd_page_id_t) (depth : Z) : option Z :=
  match fuel with
  | O => None
  | S fuel =>
      if negb (page_num p <? reg_count reg) then Some depth
      else match lcd_get_page_node reg p with
           | None => Some depth
           | Some page =>
               if reg_count reg <=? page_num (parent_id page) then Some depth
               else depth_loop fuel reg (parent_id page) (u8 (depth + 1))
           end
  end.

Definition lcd_page_get_depth (fuel : nat) (reg : page_registry) (p : lcd_page_id_t) : option Z :=
  depth_loop fuel reg p 0.

Definition lcd_page_get_select_count (reg : page_registry) (p : lcd_page_id_t) : Z :=
  match lcd_get_page_node reg p with
  | None => 0
  | Some page => if negb (select_count page =? 0) then select_count page else child_count page
  end.

(** The registration [svc_lcd_init] makes. *)
Definition registered : page_registry := mk_registry (Some g_lcd_pages) (page_num LCD_PAGE_MAX).

(** ** Lemmas *)

Definition all_pages : list lcd_page_id_t := map page_id g_lcd_pages.

Lemma page_num_range p : 0 <= page_num p <= page_num LCD_PAGE_MAX.
Proof. destruct p; vm_compute; split; discriminate. Qed.

Lemma page_num_inj p q : page_num p = page_num q -> p = q.
Proof. destruct p, q; intros H; try reflexivity; discriminate H. Qed.

Lemma page_num_lt p : p <> LCD_PAGE_MAX -> page_num p < page_num LCD_PAGE_MAX.
Proof. destruct p; intros H; try reflexivity. by destruct H. Qed.

(** The registered node of a page, as a value. *)
Definition node_of (p : lcd_page_id_t) : lcd_page_node_t :=
  default zero_node (lcd_get_page_node registered p).

Lemma get_page_node_registered p :
  lcd_get_page_node registered p = if decide (p = LCD_PAGE_MAX) then None else Some (node_of p).
Proof. destruct p; vm_compute; reflexivity. Qed.

Lemma get_page_node_some p n :
  lcd_get_page_node registered p = Some n -> p <> LCD_PAGE_MAX /\ n = node_of p.
Proof. rewrite get_page_node_registered. by case_decide; intros; simplify_eq. Qed.

(** A check of all pages by evaluation. *)
Lemma forall_pages (b : lcd_page_id_t -> bool) :
  forallb b all_pages = true -> forall p, p <> LCD_PAGE_MAX -> b p = true.
Proof.
  intros H p Hp. rewrite forallb_forall in H. apply H.
  apply list_elem_of_In. destruct p; try (by destruct Hp);
    apply (bool_decide_unpack _); vm_compute; exact I.
Qed.

Definition page_eqb (p q : lcd_page_id_t) : bool := bool_decide (p = q).

(** The consistency of one node with its parent and children. *)
Definition node_ok (p : lcd_page_id_t) : bool :=
  let n := node_of p in
  page_eqb (page_id n) p && negb (page_eqb (parent_id n) p) &&
  match children n with
  | None => child_count n =? 0
  | Some cs =>
      (child_count n =? Z.of_nat (length cs)) && (select_count n =? child_count n) &&
      forallb (fun c => negb (page_eqb c LCD_PAGE_MAX) && page_eqb (parent_id (node_of c)) p) cs
  end &&
  (page_eqb p LCD_PAGE_HOME || page_eqb p LCD_PAGE_MAIN_MENU || page_eqb p LCD_PAGE_COMMON_CONFIG_OK ||
   page_eqb p LCD_PAGE_DRIVE_RECORD_LOAD_STATUS_OK || existsb (page_eqb p) (default [] (children (node_of (parent_id n))))).

Lemma all_nodes_ok p : p <> LCD_PAGE_MAX -> node_ok p = true.
Proof. apply forall_pages. vm_compute. reflexivity. Qed.

Lemma page_eqb_eq p q : page_eqb p q = true -> p = q.
Proof. apply bool_decide_eq_true. Qed.

Lemma existsb_page p cs : existsb (page_eqb p) cs = true -> p ∈ cs.
Proof.
  intros H. apply existsb_exists in H as (q & Hin & E). apply page_eqb_eq in E as ->.
  by apply list_elem_of_In.
Qed.

Lemma forallb_children p cs :
  forallb (fun c => negb (page_eqb c LCD_PAGE_MAX) && page_eqb (parent_id (node_of c)) p) cs = true ->
  Forall (fun c => c <> LCD_PAGE_MAX /\ parent_id (node_of c) = p) cs.
Proof.
  intros H. rewrite forallb_forall in H. apply Forall_forall. intros c Hc.
  apply list_elem_of_In, H, andb_true_iff in Hc as [H1 H2].
  apply negb_true_iff, bool_decide_eq_false in H1. by apply page_eqb_eq in H2.
Qed.

(** More fuel does not change the depth. *)
Lemma depth_loop_more fuel fuel' reg p d r :
  depth_loop fuel reg p d = Some r -> (fuel <= fuel')%nat -> depth_loop fuel' reg p d = Some r.
Proof.
  revert fuel' p d. induction fuel as [|fuel IH]; intros [|fuel'] p d H Hle; try done; [lia |].
  cbn [depth_loop] in *. destruct (negb _); [done |].
  destruct (lcd_get_page_node reg p); [| done]. destruct (_ <=? _); [done |]. apply IH; [done | lia].
Qed.

(** The depth of every page. *)
Definition page_depth (p : lcd_page_id_t) : Z := default 0 (lcd_page_get_depth 6 registered p).

Lemma depth_6 p : lcd_page_get_depth 6 registered p = Some (page_depth p).
Proof. destruct p; vm_compute; reflexivity. Qed.

(** ** Properties *)

(** The page table is a tree. A node carries the identifier of its place;
    the children of a menu are as many as its count says and as can be
    selected, and each of them names the menu as its parent; and every page but
    the home page, the main menu below it and the two result pages is a child
    of its parent. *)
Theorem page_table_is_tree p n :
  lcd_get_page_node registered p = Some n ->
  page_id n = p /\ parent_id n <> p /\
  match children n with
  | None => child_count n = 0
  | Some cs =>
      child_count n = Z.of_nat (length cs) /\ lcd_page_get_select_count registered p = child_count n /\
      Forall (fun c => exists m, lcd_get_page_node registered c = Some m /\ parent_id m = p) cs
  end /\
  (p ∈ [LCD_PAGE_HOME; LCD_PAGE_MAIN_MENU; LCD_PAGE_COMMON_CONFIG_OK; LCD_PAGE_DRIVE_RECORD_LOAD_STATUS_OK] \/
   exists q cs, lcd_get_page_node registered (parent_id n) = Some q /\ children q = Some cs /\ p ∈ cs).
Proof.
  intros Hn. pose proof (get_page_node_some p n Hn) as [Hp ->].
  pose proof (all_nodes_ok p Hp) as Hok. unfold node_ok in Hok.
  apply andb_true_iff in Hok as [Hok Hparent]. apply andb_true_iff in Hok as [Hok Hch].
  apply andb_true_iff in Hok as [Hid Hne]. apply page_eqb_eq in Hid.
  apply negb_true_iff, bool_decide_eq_false in Hne. split_and!; [done | done | |].
  - unfold lcd_page_get_select_count. rewrite Hn. destruct (children (node_of p)) as [cs|]; [| by apply Z.eqb_eq].
    apply andb_true_iff in Hch as [Hch Hcs]. bool_hyps. split_and!; [done | split_ifs; congruence |].
    apply (Forall_impl _ _ _ (forallb_children _ _ Hcs)). intros c [Hc Hpar].
    exists (node_of c). rewrite get_page_node_registered. by rewrite decide_False.
  - rewrite !orb_true_iff in Hparent. destruct Hparent as [[[[->%page_eqb_eq | ->%page_eqb_eq] | ->%page_eqb_eq] | ->%page_eqb_eq] | Hin];
      [left; by apply (bool_decide_unpack _) .. | right].
    apply existsb_page in Hin. destruct (children (node_of (parent_id (node_of p)))) as [cs|] eqn:Ec; [| by apply not_elem_of_nil in Hin].
    exists (node_of (parent_id (node_of p))), cs. split_and!; [| done | done].
    rewrite get_page_node_registered. case_decide as E; [| done]. by rewrite E in Ec.
Qed.

Lemma page_table_is_tree_witness :
  exists n, lcd_get_page_node registered LCD_PAGE_MAIN_MENU = Some n /\ child_count n = 3 /\
  page_id n = LCD_PAGE_MAIN_MENU.
Proof.
  exists (node_of LCD_PAGE_MAIN_MENU). split; [reflexivity |]. split; [reflexivity |].
  apply (page_table_is_tree LCD_PAGE_MAIN_MENU (node_of LCD_PAGE_MAIN_MENU)). reflexivity.
Defined.

(** The walk to the root of [lcd_page_get_depth] ends for every page after
    at most five parents, whatever the number of steps allowed, and the depth
    of a page is one more than that of its parent. *)
Theorem page_depth_terminates p fuel :
  (6 <= fuel)%nat ->
  exists d, lcd_page_get_depth fuel registered p = Some d /\ 0 <= d <= 5 /\
  forall n, lcd_get_page_node registered p = Some n -> parent_id n <> LCD_PAGE_MAX ->
  lcd_page_get_depth fuel registered (parent_id n) = Some (d - 1).
Proof.
  intros Hf. exists (page_depth p).
  assert (forall q, lcd_page_get_depth fuel registered q = Some (page_depth q)) as Hd
    by (intros q; apply (depth_loop_more 6); [apply depth_6 | done]).
  split_and!; [apply Hd | destruct p; vm_compute; discriminate | destruct p; vm_compute; discriminate |].
  intros n Hn Hp. rewrite Hd. f_equal. apply get_page_node_some in Hn as [Hm ->].
  destruct p; try reflexivity; by destruct Hp.
Qed.

Lemma page_depth_terminates_witness :
  lcd_page_get_depth 6 registered LCD_PAGE_SYSTEM_SETTING_VEHICLE_INFO_VIN = Some 4 /\
  exists d, lcd_page_get_depth 6 registered LCD_PAGE_SYSTEM_SETTING_VEHICLE_INFO_VIN = Some d /\ 0 <= d <= 5.
Proof.
  split; [reflexivity |].
  destruct (page_depth_terminates LCD_PAGE_SYSTEM_SETTING_VEHICLE_INFO_VIN 6 ltac:(lia)) as (d & H1 & H2 & _).
  by exists d.
Defined.
