(* ===== verification/LcdGfx.v ===== *)
(** * Drawing and the frame buffer

    The drawing calls the pages make into the u8g2 library, as values, and the
    frame buffer of [LCD/lcd_graphics.c] through which the finished picture
    goes to the panel ([u8g2_port.c]). *)

From S2P Require Import Prelude UartCrc.

(** ** Drawing calls

    The fonts by the names [svc_lcd.c] gives them; [s] of [DrawStr] without
    its terminator. *)
Inductive font := LCD_FONT_ASCII_SMALL | LCD_FONT_CN_12 | u8g2_font_5x7_tf.

Inductive draw :=
  | ClearBuffer
  | SetFontMode (m : Z)
  | SetDrawColor (c : Z)
  | SetFont (f : font)
  | DrawStr (x y : Z) (s : list Z)
  | DrawGlyph (x y code : Z)
  | DrawBox (x y w h : Z)
  | DrawFrame (x y w h : Z)
  | DrawLine (x1 y1 x2 y2 : Z)
  | DrawXBMP (x y w h : Z) (bits : list Z)
  | FlushBuffer.

#[export] Instance font_eq_dec : EqDecision font.
Proof. solve_decision. Defined.

#[export] Instance draw_eq_dec : EqDecision draw.
Proof. solve_decision. Defined.

(** ** Frame buffer: [g_lcd_fb[LCD_PAGES][LCD_COLS]] *)

Definition LCD_COLS : Z := 132.
Definition LCD_PAGES : Z := 8.
Definition LCD_ROWS : Z := 64.

Abbreviation frame_buffer := (list (list Z)).

Definition row (fb : frame_buffer) (page : Z) : list Z := nth (Z.to_nat page) fb [].
Definition set_byte (page x v : Z) (fb : frame_buffer) : frame_buffer :=
  <[Z.to_nat page := put (row fb page) x v]> fb.

Definition lcd_fb_clear (fb : frame_buffer) : frame_buffer :=
  replicate (Z.to_nat LCD_PAGES) (zeros (Z.to_nat LCD_COLS)).

Definition lcd_fb_set_pixel (x y : Z) (on : bool) (fb : frame_buffer) : frame_buffer :=
  if (LCD_COLS <=? x) || (LCD_ROWS <=? y) then fb
  else
    let page := u8 (y / 8) in
    let bit := u8 (7 - y mod 8) in
    let old := get (row fb page) x in
    if on then set_byte page x (u8 (Z.lor old (u8 (Z.shiftl 1 bit)))) fb
    else set_byte page x (u8 (Z.land old (u8 (Z.lnot (u8 (Z.shiftl 1 bit)))))) fb.

Definition lcd_reverse_byte (v : Z) : Z :=
  let v := u8 (Z.lor (Z.shiftr (Z.land v 0xF0) 4) (Z.shiftl (Z.land v 0x0F) 4)) in
  let v := u8 (Z.lor (Z.shiftr (Z.land v 0xCC) 2) (Z.shiftl (Z.land v 0x33) 2)) in
  u8 (Z.lor (Z.shiftr (Z.land v 0xAA) 1) (Z.shiftl (Z.land v 0x55) 1)).

(** The calls [lcd_drv_write_page(page, 0, data, LCD_COLS)] of a flush. *)
Definition lcd_fb_flush (fb : frame_buffer) : list (Z * Z * list Z) :=
  map (fun page => (Z.of_nat page, 0, row fb (Z.of_nat page))) (seq 0 (Z.to_nat LCD_PAGES)).

(** The two loops of [lcd_fb_public_copy_pages]. *)
Definition copy_row (dst_page : Z) (page_ptr : list Z) (fb : frame_buffer) : frame_buffer :=
  foldl (fun fb x => set_byte dst_page (Z.of_nat x) (lcd_reverse_byte (get page_ptr (Z.of_nat x))) fb) fb
    (seq 0 (Z.to_nat LCD_COLS)).

Definition lcd_fb_public_copy_pages (src : pointer (list Z)) (src_stride : Z) (fb : frame_buffer) : frame_buffer :=
  match src with
  | None => fb
  | Some src =>
      foldl (fun fb src_page =>
               let src_page := Z.of_nat src_page in
               let dst_page := u8 (Z.lxor src_page 3) in
               copy_row dst_page (drop (Z.to_nat (src_page * src_stride)) src) fb) fb
        (seq 0 (Z.to_nat LCD_PAGES))
  end.

(** [u8g2_copy_to_lcd_fb]: the u8g2 buffer, [tile_width] tiles wide, goes to
    the panel. *)
Definition u8g2_copy_to_lcd_fb (buf : list Z) (tile_width : Z) (fb : frame_buffer)
    : list (Z * Z * list Z) * frame_buffer :=
  let page_stride := u16 (tile_width * 8) in
  let fb := lcd_fb_clear fb in
  let fb := lcd_fb_public_copy_pages (Some buf) page_stride fb in
  (lcd_fb_flush fb, fb).

(** ** Specification *)

(** A frame buffer of the panel's size. *)
Definition fb_ok (fb : frame_buffer) : Prop :=
  length fb = 8%nat /\ Forall (fun r => length r = 132%nat /\ Forall is_u8 r) fb.

(** The pixel of the frame buffer at column [x] and row [y]. *)
Definition fb_pixel (fb : frame_buffer) (x y : Z) : bool := Z.testbit (get (row fb (y / 8)) x) (7 - y mod 8).

(** The pixel of the u8g2 buffer: vertical bytes, lowest bit on top. *)
Definition buf_pixel (buf : list Z) (stride x y : Z) : bool := Z.testbit (get buf (y / 8 * stride + x)) (y mod 8).

(** ** Lemmas *)

Lemma row_ok fb p : fb_ok fb -> 0 <= p < 8 -> length (row fb p) = 132%nat /\ Forall is_u8 (row fb p).
Proof.
  intros [Hl Hr] Hp. unfold row. destruct (nth_lookup_or_length fb (Z.to_nat p) []) as [E|]; [| lia].
  exact (Forall_lookup_1 _ _ _ _ Hr E).
Qed.

Lemma row_set_byte fb p x v q :
  fb_ok fb -> 0 <= p < 8 -> 0 <= q < 8 ->
  row (set_byte p x v fb) q = if p =? q then put (row fb p) x v else row fb q.
Proof.
  intros [Hl _] Hp Hq. unfold set_byte. generalize (put (row fb p) x v) as r. intros r. unfold row.
  destruct (Z.eqb_spec p q) as [->|]; rewrite nth_lookup.
  - by rewrite list_lookup_insert_eq by lia.
  - rewrite list_lookup_insert_ne by lia. by rewrite <- nth_lookup.
Qed.

Lemma set_byte_ok fb p x v : fb_ok fb -> 0 <= p < 8 -> is_u8 v -> fb_ok (set_byte p x v fb).
Proof.
  intros Hfb Hp Hv. pose proof (row_ok fb p Hfb Hp) as [Hr Hb]. destruct Hfb as [Hl Hrows].
  split; [unfold set_byte; by rewrite length_insert |]. apply Forall_insert; [done |].
  rewrite length_put. split; [done |]. by apply Forall_insert.
Qed.

Lemma clear_ok fb : fb_ok (lcd_fb_clear fb).
Proof. split; [done |]. apply Forall_replicate. split; [done |]. by apply Forall_replicate. Qed.

Lemma reverse_byte_spec v i :
  is_u8 v -> 0 <= i < 8 -> Z.testbit (lcd_reverse_byte v) i = Z.testbit v (7 - i).
Proof.
  intros Hv Hi.
  pose proof (all_words_0 8 (fun v => all_words 3 (fun i =>
    Bool.eqb (Z.testbit (lcd_reverse_byte v) i) (Z.testbit v (7 - i))) 0) v ltac:(vm_compute; reflexivity) Hv) as H.
  cbv beta in H. apply (all_words_0 3 _ i H) in Hi. cbv beta in Hi. by apply eqb_prop.
Qed.

Lemma reverse_byte_range v : is_u8 (lcd_reverse_byte v).
Proof. apply u8_range. Qed.

Lemma get_range l i : Forall is_u8 l -> is_u8 (get l i).
Proof.
  intros H. unfold get. destruct (nth_lookup_or_length l (Z.to_nat i) 0) as [E|E];
    [exact (Forall_lookup_1 _ _ _ _ H E) | rewrite nth_overflow by done; by vm_compute].
Qed.

(** The columns copied so far. *)
Lemma copy_row_upto k dst ptr fb :
  fb_ok fb -> 0 <= dst < 8 -> (k <= 132)%nat ->
  let fb' := foldl (fun fb x => set_byte dst (Z.of_nat x) (lcd_reverse_byte (get ptr (Z.of_nat x))) fb) fb (seq 0 k) in
  fb_ok fb' /\ forall q x, 0 <= q < 8 -> 0 <= x < 132 ->
  get (row fb' q) x = if (q =? dst) && (x <? Z.of_nat k) then lcd_reverse_byte (get ptr x) else get (row fb q) x.
Proof.
  intros Hfb Hd. induction k as [|k IH]; intros Hk fb'.
  - split; [done |]. intros q x Hq Hx. rewrite (proj2 (Z.ltb_ge x _)) by lia. by rewrite andb_false_r.
  - subst fb'. rewrite seq_S, foldl_app. cbn [foldl Nat.add]. destruct IH as [Hok IH]; [lia |].
    split; [apply set_byte_ok; [done.. | apply reverse_byte_range] |]. intros q x Hq Hx.
    rewrite row_set_byte by done. destruct (row_ok _ dst Hok Hd) as [Hlen _].
    destruct (Z.eqb_spec dst q) as [<-|]; [| by rewrite IH, (proj2 (Z.eqb_neq q dst)) by lia].
    rewrite Z.eqb_refl. cbn [andb]. destruct (Z.eq_dec x (Z.of_nat k)) as [->|].
    + rewrite get_put_eq by lia. by rewrite (proj2 (Z.ltb_lt _ _)) by lia.
    + rewrite get_put_ne, IH by lia. rewrite Z.eqb_refl. cbn [andb].
      destruct (Z.ltb_spec x (Z.of_nat k)), (Z.ltb_spec x (Z.of_nat (S k))); done || lia.
Qed.

Lemma copy_row_spec dst ptr fb :
  fb_ok fb -> 0 <= dst < 8 ->
  fb_ok (copy_row dst ptr fb) /\ forall q x, 0 <= q < 8 -> 0 <= x < 132 ->
  get (row (copy_row dst ptr fb) q) x = if q =? dst then lcd_reverse_byte (get ptr x) else get (row fb q) x.
Proof.
  intros Hfb Hd. destruct (copy_row_upto (Z.to_nat LCD_COLS) dst ptr fb Hfb Hd ltac:(unfold LCD_COLS; lia)) as [Hok H].
  split; [exact Hok |]. intros q x Hq Hx. unfold copy_row. rewrite (H q x Hq Hx).
  rewrite (proj2 (Z.ltb_lt x _)) by (unfold LCD_COLS; lia). by rewrite andb_true_r.
Qed.

Lemma lxor3 j : 0 <= j < 8 -> u8 (Z.lxor j 3) = Z.lxor j 3 /\ 0 <= Z.lxor j 3 < 8 /\ Z.lxor (Z.lxor j 3) 3 = j.
Proof.
  intros Hj. pose proof (all_words_0 3 (fun j => (u8 (Z.lxor j 3) =? Z.lxor j 3) && (0 <=? Z.lxor j 3) &&
    (Z.lxor j 3 <? 8) && (Z.lxor (Z.lxor j 3) 3 =? j)) j ltac:(vm_compute; reflexivity) Hj) as H.
  cbv beta in H. by bool_hyps.
Qed.

(** The pages copied so far. *)
Lemma copy_pages_upto k src stride fb :
  fb_ok fb -> 0 <= stride -> (k <= 8)%nat ->
  let fb' := foldl (fun fb src_page => copy_row (u8 (Z.lxor (Z.of_nat src_page) 3))
                      (drop (Z.to_nat (Z.of_nat src_page * stride)) src) fb) fb (seq 0 k) in
  fb_ok fb' /\ forall q x, 0 <= q < 8 -> 0 <= x < 132 ->
  get (row fb' q) x = if Z.lxor q 3 <? Z.of_nat k then lcd_reverse_byte (get src (Z.lxor q 3 * stride + x))
                      else get (row fb q) x.
Proof.
  intros Hfb Hs. induction k as [|k IH]; intros Hk fb'.
  - split; [done |]. intros q x Hq Hx. destruct (lxor3 q Hq) as (_ & ? & _). by rewrite (proj2 (Z.ltb_ge _ _)) by lia.
  - subst fb'. rewrite seq_S, foldl_app. cbn [foldl Nat.add]. destruct IH as [Hok IH]; [lia |].
    destruct (lxor3 (Z.of_nat k) ltac:(lia)) as (-> & Hd & Hback).
    destruct (copy_row_spec _ (drop (Z.to_nat (Z.of_nat k * stride)) src) _ Hok Hd) as [Hok' Hrow].
    split; [exact Hok' |]. intros q x Hq Hx. rewrite Hrow, IH by lia. destruct (lxor3 q Hq) as (_ & Hr & Hbackq).
    destruct (Z.eqb_spec q (Z.lxor (Z.of_nat k) 3)) as [->|Hne].
    + rewrite Hback, (proj2 (Z.ltb_lt _ _)) by lia. rewrite get_drop by lia. do 2 f_equal. lia.
    + assert (Z.lxor q 3 <> Z.of_nat k) by congruence.
      destruct (Z.ltb_spec (Z.lxor q 3) (Z.of_nat k)), (Z.ltb_spec (Z.lxor q 3) (Z.of_nat (S k))); done || lia.
Qed.

(** Exchanging the page bits of a row number. *)
Lemma lxor24 y :
  0 <= y < 64 -> Z.lxor y 24 / 8 = Z.lxor (y / 8) 3 /\ Z.lxor y 24 mod 8 = y mod 8 /\ 0 <= Z.lxor y 24 < 64.
Proof.
  intros Hy. pose proof (all_words_0 6 (fun y => (Z.lxor y 24 / 8 =? Z.lxor (y / 8) 3) && (Z.lxor y 24 mod 8 =? y mod 8)
    && (0 <=? Z.lxor y 24) && (Z.lxor y 24 <? 64)) y ltac:(vm_compute; reflexivity) Hy) as H.
  cbv beta in H. by bool_hyps.
Qed.

(** One changed bit of a byte. *)
Lemma bit_set v b i on :
  is_u8 v -> 0 <= b < 8 -> 0 <= i < 8 ->
  Z.testbit (if on : bool then u8 (Z.lor v (u8 (Z.shiftl 1 b))) else u8 (Z.land v (u8 (Z.lnot (u8 (Z.shiftl 1 b)))))) i =
  if b =? i then on else Z.testbit v i.
Proof.
  intros Hv Hb Hi.
  pose proof (all_words_0 8 (fun v => all_words 3 (fun b => all_words 3 (fun i => forallb (fun on : bool =>
    Bool.eqb (Z.testbit (if on then u8 (Z.lor v (u8 (Z.shiftl 1 b))) else u8 (Z.land v (u8 (Z.lnot (u8 (Z.shiftl 1 b)))))) i)
      (if b =? i then on else Z.testbit v i)) [true; false]) 0) 0) v ltac:(vm_compute; reflexivity) Hv) as H.
  cbv beta in H. apply (all_words_0 3 _ b H) in Hb as H2. cbv beta in H2. apply (all_words_0 3 _ i H2) in Hi as H3.
  cbv beta in H3. rewrite forallb_forall in H3. apply eqb_prop, H3. destruct on; simpl; auto.
Qed.

(** ** Properties *)

(** The picture drawn in the u8g2 buffer is copied as it is, with the upper
    and lower half of each half screen exchanged: bit [y mod 8] of column [x]
    in page [y/8] becomes the pixel at row [y xor 24], whatever the frame
    buffer held; and the whole frame buffer is flushed. *)
Lemma copied_picture buf tile_width fb :
  Forall is_u8 buf -> 0 <= tile_width < 8192 ->
  let '(writes, fb') := u8g2_copy_to_lcd_fb buf tile_width fb in
  writes = lcd_fb_flush fb' /\ fb_ok fb' /\
  forall x y, 0 <= x < 132 -> 0 <= y < 64 -> fb_pixel fb' x (Z.lxor y 24) = buf_pixel buf (8 * tile_width) x y.
Proof.
  intros Hbuf Htw. unfold u8g2_copy_to_lcd_fb, lcd_fb_public_copy_pages. rewrite u16_id by wraps.
  replace (tile_width * 8) with (8 * tile_width) by lia.
  destruct (copy_pages_upto 8 buf (8 * tile_width) (lcd_fb_clear fb) (clear_ok fb) ltac:(lia) ltac:(lia)) as [Hok Hget].
  change (Z.to_nat LCD_PAGES) with 8%nat. set (fb' := foldl _ _ _) in *. clearbody fb'. split_and!; [done.. |].
  intros x y Hx Hy. destruct (lxor24 y Hy) as (E1 & E2 & _). unfold fb_pixel, buf_pixel. rewrite E1, E2.
  destruct (lxor3 (y / 8) ltac:(lia)) as (_ & Hr & Hb). rewrite Hget, Hb by done. rewrite (proj2 (Z.ltb_lt _ _)) by lia.
  rewrite reverse_byte_spec by (apply get_range, Hbuf || lia). f_equal. lia.
Qed.

(** Setting a pixel changes that pixel of the frame buffer and no other,
    and keeps the buffer within its size; outside the panel nothing changes. *)
Theorem set_pixel_correct fb x y on :
  fb_ok fb -> is_u8 x -> is_u8 y ->
  fb_ok (lcd_fb_set_pixel x y on fb) /\
  forall x' y', 0 <= x' < 132 -> 0 <= y' < 64 ->
  fb_pixel (lcd_fb_set_pixel x y on fb) x' y' = if (x =? x') && (y =? y') then on else fb_pixel fb x' y'.
Proof.
  intros Hfb Hx Hy. unfold is_u8 in Hx, Hy. unfold lcd_fb_set_pixel, LCD_COLS, LCD_ROWS.
  destruct (Z.leb_spec 132 x); [split; [done |]; intros; by rewrite (proj2 (Z.eqb_neq x x')) by lia |].
  destruct (Z.leb_spec 64 y); [split; [done |]; intros; by rewrite (proj2 (Z.eqb_neq y y')), andb_false_r by lia |].
  cbn [orb]. rewrite !(u8_id (y / 8)), !(u8_id (7 - y mod 8)) by wraps. cbv zeta.
  destruct (row_ok fb (y / 8) Hfb ltac:(lia)) as [Hlen Hbytes].
  set (v := if on then u8 (Z.lor (get (row fb (y / 8)) x) (u8 (Z.shiftl 1 (7 - y mod 8))))
            else u8 (Z.land (get (row fb (y / 8)) x) (u8 (Z.lnot (u8 (Z.shiftl 1 (7 - y mod 8))))))).
  replace (if on then set_byte _ _ _ fb else set_byte _ _ _ fb) with (set_byte (y / 8) x v fb) by (by destruct on).
  assert (is_u8 v) as Hv by (subst v; destruct on; apply u8_range).
  split; [apply set_byte_ok; [done | lia | done] |]. intros x' y' Hx' Hy'. unfold fb_pixel.
  rewrite row_set_byte by (done || lia). destruct (Z.eqb_spec (y / 8) (y' / 8)) as [E|];
    [| rewrite (proj2 (Z.eqb_neq y y')) by (intros ->; done); by rewrite andb_false_r].
  destruct (Z.eqb_spec x x') as [<-|]; [| by rewrite get_put_ne, E by lia].
  rewrite get_put_eq by lia. subst v. rewrite bit_set by (apply get_range, Hbytes || lia). rewrite E. cbn [andb].
  destruct (Z.eqb_spec (7 - y mod 8) (7 - y' mod 8)), (Z.eqb_spec y y'); try done; lia.
Qed.

Lemma set_pixel_correct_witness :
  fb_pixel (lcd_fb_set_pixel 3 9 true (lcd_fb_clear [])) 3 9 = true.
Proof.
  destruct (set_pixel_correct (lcd_fb_clear []) 3 9 true (clear_ok []) ltac:(by vm_compute) ltac:(by vm_compute)) as [_ H].
  rewrite H by lia. reflexivity.
Defined.
