(* ===== verification/LcdState.v ===== *)
(** * State of the display service

    The static variables of [LCD/lcd_ui.c] and [svc_lcd.c] as records, the
    part of the system the display thread works on (keys, persistent records,
    configuration cache), and the state monad the operations of the thread are
    written in. *)

From S2P Require Import Prelude Platform AppTypes Adc Eeprom Storage McuStatus LcdPages LcdGfx.

(** ** Display data ([lcd_ui.h], [lcd_ui.c]) *)

Definition LCD_TEXT_MSG_MAX_LEN : Z := 4096.

Record lcd_home_ui_data_t := mk_home {
  h_speed_kmh_x10 : Z; h_hour : Z; h_minute : Z; h_second : Z;
  h_drive_hour : Z; h_drive_minute : Z; h_drive_second : Z; h_top_status_value : Z;
  h_latitude : Z; h_longitude : Z; h_timestamp : Z;
  h_latitude_direction : Z; h_longitude_direction : Z; h_card_id : list Z
}.

#[export] Instance eta_home : Eta lcd_home_ui_data_t := fun r =>
  mk_home (h_speed_kmh_x10 r) (h_hour r) (h_minute r) (h_second r) (h_drive_hour r) (h_drive_minute r)
    (h_drive_second r) (h_top_status_value r) (h_latitude r) (h_longitude r) (h_timestamp r)
    (h_latitude_direction r) (h_longitude_direction r) (h_card_id r).

Record lcd_text_msg_t := mk_lcd_text {
  t_valid : Z; t_flag : Z; t_text_type : Z; t_text_len : Z; t_text : list Z; t_page_index : Z; t_page_count : Z
}.

#[export] Instance eta_lcd_text : Eta lcd_text_msg_t := fun r =>
  mk_lcd_text (t_valid r) (t_flag r) (t_text_type r) (t_text_len r) (t_text r) (t_page_index r) (t_page_count r).

(** ** Statics of [lcd_ui.c]

    [g_lcd_ui_nav_enter_hook] is whether the hook is registered: the only
    function ever registered is [lcd_page_on_enter_prepare]. *)
Record lcd_ui := mk_lcd_ui {
  g_lcd_home_ui : lcd_home_ui_data_t;
  g_lcd_text_msg : lcd_text_msg_t;
  g_lcd_overtime_drive_count : Z;
  g_lcd_total_mileage_km : Z;
  g_lcd_total_mileage_rem_m : Z;
  g_lcd_menu_mode : bool;
  g_lcd_current_page_id : lcd_page_id_t;
  g_lcd_page_selected : list Z;
  g_lcd_page_enter_tick : Z;
  g_lcd_need_redraw : bool;
  g_lcd_common_ok_return_page : lcd_page_id_t;
  g_lcd_registry : page_registry;
  g_lcd_ui_nav_enter_hook : bool;
  g_lcd_ui_render_fallback : pointer render_fn;
  g_lcd_vehicle_status_check_tick : Z;
  g_lcd_vehicle_status_last_bits : Z
}.

#[export] Instance eta_lcd_ui : Eta lcd_ui := fun r =>
  mk_lcd_ui (g_lcd_home_ui r) (g_lcd_text_msg r) (g_lcd_overtime_drive_count r) (g_lcd_total_mileage_km r)
    (g_lcd_total_mileage_rem_m r) (g_lcd_menu_mode r) (g_lcd_current_page_id r) (g_lcd_page_selected r)
    (g_lcd_page_enter_tick r) (g_lcd_need_redraw r) (g_lcd_common_ok_return_page r) (g_lcd_registry r)
    (g_lcd_ui_nav_enter_hook r) (g_lcd_ui_render_fallback r) (g_lcd_vehicle_status_check_tick r)
    (g_lcd_vehicle_status_last_bits r).

(** Their values at start-up. *)
Definition lcd_ui_boot : lcd_ui :=
  mk_lcd_ui (mk_home 0 0 0 0 0 0 0 0 0 0 0 0 0 (zeros 20)) (mk_lcd_text 0 0 0 0 (zeros (Z.to_nat 4097)) 0 0) 0 0 0
    false LCD_PAGE_HOME (zeros (Z.to_nat (page_num LCD_PAGE_MAX))) 0 true LCD_PAGE_HOME (mk_registry None 0) false None
    0 0xFFFF.

(** ** Statics of [svc_lcd.c]: the editors

    The VIN, province and city editors have the same eight variables. *)
Record char_editor := mk_editor {
  e_dirty : Z; e_valid : Z; e_area : Z; e_cursor : Z; e_option_index : Z; e_action : Z;
  e_chars : list Z; e_edit_mask : Z
}.

#[export] Instance eta_editor : Eta char_editor := fun r =>
  mk_editor (e_dirty r) (e_valid r) (e_area r) (e_cursor r) (e_option_index r) (e_action r) (e_chars r)
    (e_edit_mask r).

Record plate_editor := mk_plate_editor {
  pl_dirty : Z; pl_focus : Z; pl_valid : Z; pl_province_index : Z; pl_letter_index : Z; pl_digits : list Z
}.

#[export] Instance eta_plate_editor : Eta plate_editor := fun r =>
  mk_plate_editor (pl_dirty r) (pl_focus r) (pl_valid r) (pl_province_index r) (pl_letter_index r) (pl_digits r).

Record phone_editor := mk_phone_editor {
  ph_digits : list Z; ph_cursor : Z; ph_selected_digit : Z; ph_focus : Z; ph_func_index : Z
}.

#[export] Instance eta_phone_editor : Eta phone_editor := fun r =>
  mk_phone_editor (ph_digits r) (ph_cursor r) (ph_selected_digit r) (ph_focus r) (ph_func_index r).

Definition vin_editor_boot : char_editor := mk_editor 0 0 0 0 0 1 (zeros 17) 0.
Definition province_editor_boot : char_editor := mk_editor 0 0 0 0 0 1 (zeros 2) 0.
Definition city_editor_boot : char_editor := mk_editor 0 0 0 0 0 1 (zeros 4) 0.
Definition plate_editor_boot : plate_editor := mk_plate_editor 0 0 0 0 0 (zeros 5).
Definition phone_editor_boot : phone_editor := mk_phone_editor (replicate 11 48 ++ [0]) 0 0 0 1.

(** ** The system around the display thread

    [adc] holds the key events, [sto] the persistent records, [cache] the
    configuration part of the status frame, [vehicle] the
    record [svc_vehicle_io_get_state] returns the address of (a static variable,
    so the readers' tests for a null pointer never fire), [tick] the kernel's tick counter;
    [screen] holds the drawing calls of the last picture. *)
Record lcd (D : Type) := mk_lcd {
  ui : lcd_ui;
  vin : char_editor; province : char_editor; city : char_editor; plate : plate_editor; phone : phone_editor;
  g_lcd_home_subpage : Z;
  adc : adc_state; sto : storage D; cache : app_mcu_config_status_t;
  vehicle : app_vehicle_io_state_t; tick : Z;
  screen : list draw
}.
Arguments mk_lcd {D}. Arguments ui {D}. Arguments vin {D}. Arguments province {D}. Arguments city {D}.
Arguments plate {D}. Arguments phone {D}. Arguments g_lcd_home_subpage {D}. Arguments adc {D}.
Arguments sto {D}. Arguments cache {D}. Arguments vehicle {D}. Arguments tick {D}. Arguments screen {D}.

#[export] Instance eta_lcd D : Eta (lcd D) := fun r =>
  mk_lcd (ui r) (vin r) (province r) (city r) (plate r) (phone r) (g_lcd_home_subpage r) (adc r) (sto r)
    (cache r) (vehicle r) (tick r) (screen r).

(** ** The monad of the display thread *)

Definition LCD (D A : Type) : Type := lcd D -> A * lcd D.

#[export] Instance lcd_ret D : MRet (LCD D) := fun A a w => (a, w).
#[export] Instance lcd_bind D : MBind (LCD D) := fun A B f m w => let '(a, w) := m w in f a w.

Section Monad.
Context {D : Type}.

Definition gets {A} (f : lcd D -> A) : LCD D A := fun w => (f w, w).
Definition modify (f : lcd D -> lcd D) : LCD D unit := fun w => (tt, f w).
Definition skip : LCD D unit := mret tt.

(** Access to the statics of [lcd_ui.c]. *)
Definition get_ui {A} (f : lcd_ui -> A) : LCD D A := gets (fun w => f (ui w)).
Definition set_ui (f : lcd_ui -> lcd_ui) : LCD D unit := modify (fun w => w <| ui := f (ui w) |>).

(** [g_lcd_need_redraw = RT_TRUE] *)
Definition redraw : LCD D unit := set_ui (fun u => u <| g_lcd_need_redraw := true |>).

(** The key events ([svc_adc.c]). *)
Definition consume (ev : adc_state -> bool * adc_state) : LCD D bool := fun w =>
  let '(b, a) := ev (adc w) in (b, w <| adc := a |>).

(** A call into the storage service. *)
Definition storage_call {A} (f : storage D -> A * storage D) : LCD D A := fun w =>
  let '(a, s) := f (sto w) in (a, w <| sto := s |>).

(** [app_usart_cmd_refresh_status_config()] *)
Definition refresh_status_config `{I2cBus D} : LCD D unit := fun w =>
  let '(c, s) := app_usart_cmd_refresh_status_config (sto w) in (tt, w <| sto := s |> <| cache := c |>).

(** ** Reasoning

    [wp m Q w]: from [w], [m] ends in a result and state that satisfy [Q]. *)
Definition wp {A} (m : LCD D A) (Q : A -> lcd D -> Prop) (w : lcd D) : Prop := Q (fst (m w)) (snd (m w)).

Lemma wp_ret {A} (a : A) Q w : Q a w -> wp (mret a) Q w.
Proof. done. Qed.

Lemma wp_bind {A B} (m : LCD D A) (f : A -> LCD D B) Q w :
  wp m (fun a => wp (f a) Q) w -> wp (m ≫= f) Q w.
Proof. unfold wp, mbind, lcd_bind. by destruct (m w). Qed.

Lemma wp_gets {A} (f : lcd D -> A) Q w : Q (f w) w -> wp (gets f) Q w.
Proof. done. Qed.

Lemma wp_modify f Q w : Q tt (f w) -> wp (modify f) Q w.
Proof. done. Qed.

Lemma wp_get_ui {A} (f : lcd_ui -> A) Q w : Q (f (ui w)) w -> wp (get_ui f) Q w.
Proof. done. Qed.

Lemma wp_set_ui f Q w : Q tt (w <| ui := f (ui w) |>) -> wp (set_ui f) Q w.
Proof. done. Qed.

Lemma wp_mono {A} (m : LCD D A) (Q Q' : A -> lcd D -> Prop) w :
  wp m Q w -> (forall a w, Q a w -> Q' a w) -> wp m Q' w.
Proof. unfold wp. auto. Qed.

(** The first operation of a sequence, evaluated. *)
Lemma bind_run {A B} (m : LCD D A) (f : A -> LCD D B) w a w1 : m w = (a, w1) -> (m ≫= f) w = f a w1.
Proof. intros E. unfold mbind, lcd_bind. by rewrite E. Qed.

(** An operation keeps an invariant whatever its result. *)
Definition keeps (I : lcd D -> Prop) {A} (m : LCD D A) : Prop := forall w, I w -> I (snd (m w)).

Lemma keeps_ret I {A} (a : A) : keeps I (mret a).
Proof. by intros w. Qed.

Lemma keeps_skip I : keeps I skip.
Proof. by intros w. Qed.

Lemma keeps_bind I {A B} (m : LCD D A) (f : A -> LCD D B) :
  keeps I m -> (forall a, keeps I (f a)) -> keeps I (m ≫= f).
Proof. intros Hm Hf w Hw. specialize (Hm w Hw). unfold mbind, lcd_bind. destruct (m w). by apply Hf. Qed.

Lemma keeps_gets I {A} (f : lcd D -> A) : keeps I (gets f).
Proof. by intros w. Qed.

Lemma keeps_get_ui I {A} (f : lcd_ui -> A) : keeps I (get_ui f).
Proof. by intros w. Qed.

Lemma keeps_modify I f : (forall w, I w -> I (f w)) -> keeps I (modify f).
Proof. intros H w. apply H. Qed.

Lemma keeps_set_ui I f : (forall w, I w -> I (w <| ui := f (ui w) |>)) -> keeps I (set_ui f).
Proof. intros H w. apply H. Qed.

Lemma keeps_if I {A} (b : bool) (m m' : LCD D A) : keeps I m -> keeps I m' -> keeps I (if b then m else m').
Proof. by destruct b. Qed.

Lemma keeps_decide I {A} P `{Decision P} (m m' : LCD D A) :
  keeps I m -> keeps I m' -> keeps I (if decide P then m else m').
Proof. by case_decide. Qed.
End Monad.

(** [run E] evaluates the first operation of a sequence with [E], [run_skip]
    one that needs no lemma. *)
Ltac run E := erewrite bind_run by exact E; cbv beta iota.
Ltac run_skip := erewrite bind_run by reflexivity; cbv beta iota.

Create HintDb lcd.
#[export] Hint Resolve keeps_ret keeps_skip keeps_bind keeps_gets keeps_get_ui keeps_if keeps_decide : lcd.
