(* ===== verification/LcdData.v ===== *)
(** * Display data of the LCD service

    [lcd_ui_data_reset] and the update functions of [svc_lcd.c] that the
    command thread calls with the values of the host's status messages and
    texts.  They store what changed and ask for a redraw only when the page
    shown is the one concerned. *)

From S2P Require Import Prelude AppTypes UartText LcdPages LcdState.

(** ** Strings of [kservice.c] *)

(** [rt_strncmp].  The source keeps the difference in a signed char; two
    characters that differ have a difference that is not 0 modulo 256 either,
    and its callers use only whether the result is 0. *)
Fixpoint rt_strncmp (cs ct : list Z) (count : nat) : Z :=
  match count with
  | O => 0
  | S count =>
      let a := hd 0 cs in
      let b := hd 0 ct in
      if negb (a - b =? 0) then a - b else if a =? 0 then 0 else rt_strncmp (tl cs) (tl ct) count
  end.

(** The [n] bytes [rt_strncpy] writes: the string, then zeros. *)
Fixpoint strncpy_bytes (src : list Z) (n : nat) : list Z :=
  match n with
  | O => []
  | S n => if hd 0 src =? 0 then zeros (S n) else hd 0 src :: strncpy_bytes (tl src) n
  end.

Definition rt_strncpy (dst src : list Z) (n : nat) : list Z := blit 0 (strncpy_bytes src n) dst.

(** ** Operations *)

Definition lcd_ui_data_reset (u : lcd_ui) : lcd_ui :=
  let home := mk_home 0 0 0 0 0 0 0 0 0 0 0 0 0 (zeros 20) in
  let home := home <| h_hour := 9 |> <| h_minute := 16 |> <| h_second := 45 |> in
  let home := home <| h_card_id := rt_strncpy (h_card_id home) (replicate 18 48 ++ [0]) 19 |> in
  let home := home <| h_card_id := put (h_card_id home) 19 0 |> in
  u <| g_lcd_home_ui := home |> <| g_lcd_text_msg := mk_lcd_text 0 0 0 0 (zeros (Z.to_nat 4097)) 0 0 |>
    <| g_lcd_overtime_drive_count := 0 |> <| g_lcd_total_mileage_km := 0 |> <| g_lcd_total_mileage_rem_m := 0 |>.

(** One [if (field != value) { field = value; changed = RT_TRUE; }]. *)
Definition set_if (x v : Z) (write : lcd_home_ui_data_t -> lcd_home_ui_data_t) (s : lcd_home_ui_data_t * bool)
    : lcd_home_ui_data_t * bool :=
  let '(home, changed) := s in if negb (x =? v) then (write home, true) else (home, changed).

Definition lcd_home_ui_set_data (speed_kmh_x10 hour minute second drive_hour drive_minute drive_second : Z)
    (card_id : pointer (list Z)) (u : lcd_ui) : bool * lcd_ui :=
  let home := g_lcd_home_ui u in
  let s := (home, false) in
  let s := set_if (h_speed_kmh_x10 home) speed_kmh_x10 (fun h => h <| h_speed_kmh_x10 := speed_kmh_x10 |>) s in
  let s := set_if (h_hour home) hour (fun h => h <| h_hour := hour |>) s in
  let s := set_if (h_minute home) minute (fun h => h <| h_minute := minute |>) s in
  let s := set_if (h_second home) second (fun h => h <| h_second := second |>) s in
  let s := set_if (h_drive_hour home) drive_hour (fun h => h <| h_drive_hour := drive_hour |>) s in
  let s := set_if (h_drive_minute home) drive_minute (fun h => h <| h_drive_minute := drive_minute |>) s in
  let s := set_if (h_drive_second home) drive_second (fun h => h <| h_drive_second := drive_second |>) s in
  let '(home, changed) :=
    match card_id with
    | None => s
    | Some card_id =>
        let '(home, changed) := s in
        if negb (rt_strncmp (h_card_id home) card_id 20 =? 0) then
          let home := home <| h_card_id := rt_strncpy (h_card_id home) card_id 19 |> in
          (home <| h_card_id := put (h_card_id home) 19 0 |>, true)
        else (home, changed)
    end in
  let u := u <| g_lcd_home_ui := home |> in
  (changed, if changed && negb (g_lcd_menu_mode u) then u <| g_lcd_need_redraw := true |> else u).

Definition update_home_time (hour minute second : Z) (u : lcd_ui) : lcd_ui :=
  let h := g_lcd_home_ui u in
  snd (lcd_home_ui_set_data (h_speed_kmh_x10 h) hour minute second (h_drive_hour h) (h_drive_minute h)
         (h_drive_second h) (Some (h_card_id h)) u).

Definition update_top_status (value : Z) (u : lcd_ui) : lcd_ui :=
  if negb (h_top_status_value (g_lcd_home_ui u) =? value) then
    let u := u <| g_lcd_home_ui := g_lcd_home_ui u <| h_top_status_value := value |> |> in
    if negb (g_lcd_menu_mode u) then u <| g_lcd_need_redraw := true |> else u
  else u.

Definition update_home_speed (speed_kmh_x10 : Z) (u : lcd_ui) : lcd_ui :=
  let h := g_lcd_home_ui u in
  snd (lcd_home_ui_set_data speed_kmh_x10 (h_hour h) (h_minute h) (h_second h) (h_drive_hour h) (h_drive_minute h)
         (h_drive_second h) (Some (h_card_id h)) u).

Definition update_drive_time (hour minute second : Z) (u : lcd_ui) : lcd_ui :=
  let h := g_lcd_home_ui u in
  snd (lcd_home_ui_set_data (h_speed_kmh_x10 h) (h_hour h) (h_minute h) (h_second h) hour minute second
         (Some (h_card_id h)) u).

Definition update_card_id (card_id : pointer (list Z)) (u : lcd_ui) : lcd_ui :=
  match card_id with
  | None => u
  | Some card_id =>
      let h := g_lcd_home_ui u in
      snd (lcd_home_ui_set_data (h_speed_kmh_x10 h) (h_hour h) (h_minute h) (h_second h) (h_drive_hour h)
             (h_drive_minute h) (h_drive_second h) (Some card_id) u)
  end.

Definition update_home_location (latitude longitude latitude_direction longitude_direction timestamp : Z)
    (u : lcd_ui) : lcd_ui :=
  let home := g_lcd_home_ui u in
  let s := (home, false) in
  let s := set_if (h_latitude home) latitude (fun h => h <| h_latitude := latitude |>) s in
  let s := set_if (h_longitude home) longitude (fun h => h <| h_longitude := longitude |>) s in
  let s := set_if (h_latitude_direction home) latitude_direction
             (fun h => h <| h_latitude_direction := latitude_direction |>) s in
  let s := set_if (h_longitude_direction home) longitude_direction
             (fun h => h <| h_longitude_direction := longitude_direction |>) s in
  let '(home, changed) := set_if (h_timestamp home) timestamp (fun h => h <| h_timestamp := timestamp |>) s in
  let u := u <| g_lcd_home_ui := home |> in
  if changed && bool_decide (g_lcd_current_page_id u = LCD_PAGE_HOME) then u <| g_lcd_need_redraw := true |> else u.

Definition update_text_message (flag text_type : Z) (utf8_text : pointer (list Z)) (text_len : Z) (u : lcd_ui)
    : lcd_ui :=
  match utf8_text with
  | None => u
  | Some utf8_text =>
      let copy_len := if LCD_TEXT_MSG_MAX_LEN <? text_len then LCD_TEXT_MSG_MAX_LEN else text_len in
      let text := blit 0 (slice 0 (Z.to_nat copy_len) utf8_text) (t_text (g_lcd_text_msg u)) in
      let text := put text copy_len 0 in
      let u := u <| g_lcd_text_msg := mk_lcd_text 1 flag text_type copy_len text 0 0 |> in
      if bool_decide (g_lcd_current_page_id u = LCD_PAGE_DRIVE_RECORD_INFO_CENTER_TEXT_NORMAL)
      then u <| g_lcd_need_redraw := true |> else u
  end.

Definition update_overtime_drive_count (count : Z) (u : lcd_ui) : lcd_ui :=
  if negb (g_lcd_overtime_drive_count u =? count) then
    let u := u <| g_lcd_overtime_drive_count := count |> in
    if bool_decide (g_lcd_current_page_id u = LCD_PAGE_DRIVE_RECORD_FATIGUE)
    then u <| g_lcd_need_redraw := true |> else u
  else u.

Definition update_total_mileage (odo_km odo_rem_m : Z) (u : lcd_ui) : lcd_ui :=
  if negb (g_lcd_total_mileage_km u =? odo_km) || negb (g_lcd_total_mileage_rem_m u =? odo_rem_m) then
    let u := u <| g_lcd_total_mileage_km := odo_km |> <| g_lcd_total_mileage_rem_m := odo_rem_m |> in
    if bool_decide (g_lcd_current_page_id u = LCD_PAGE_DRIVE_RECORD_MILEAGE)
    then u <| g_lcd_need_redraw := true |> else u
  else u.

(** The calls of the command thread, executed. *)
Definition apply_call (c : lcd_call) : lcd_ui -> lcd_ui :=
  match c with
  | svc_lcd_update_text_message flag type t len => update_text_message flag type (Some t) len
  | svc_lcd_update_total_mileage km rem_m => update_total_mileage km rem_m
  | svc_lcd_update_home_time h m s => update_home_time h m s
  | svc_lcd_update_top_status v => update_top_status v
  | svc_lcd_update_home_speed v => update_home_speed v
  | svc_lcd_update_drive_time h m s => update_drive_time h m s
  | svc_lcd_update_card_id str => update_card_id (Some str)
  | svc_lcd_update_home_location lat lon latd lond ts => update_home_location lat lon latd lond ts
  end.

Definition apply_calls (cs : list lcd_call) (u : lcd_ui) : lcd_ui := foldl (fun u c => apply_call c u) u cs.

(** ** Specification

    A call is an assignment to the data it carries.  Text and card number are
    stored as terminated strings of bounded length. *)

Definition card_field (str : list Z) : list Z := strncpy_bytes str 19 ++ [0].

Definition text_field (t : list Z) (len : Z) (old : list Z) : list Z :=
  slice 0 (Z.to_nat (Z.min len 4096)) t ++ [0] ++ drop (S (Z.to_nat (Z.min len 4096))) old.

Definition assign (c : lcd_call) (u : lcd_ui) : lcd_ui :=
  let h := g_lcd_home_ui u in
  match c with
  | svc_lcd_update_text_message flag type t len =>
      u <| g_lcd_text_msg := mk_lcd_text 1 flag type (Z.min len 4096) (text_field t len (t_text (g_lcd_text_msg u))) 0 0 |>
  | svc_lcd_update_total_mileage km rem_m => u <| g_lcd_total_mileage_km := km |> <| g_lcd_total_mileage_rem_m := rem_m |>
  | svc_lcd_update_home_time a b c => u <| g_lcd_home_ui := h <| h_hour := a |> <| h_minute := b |> <| h_second := c |> |>
  | svc_lcd_update_top_status v => u <| g_lcd_home_ui := h <| h_top_status_value := v |> |>
  | svc_lcd_update_home_speed v => u <| g_lcd_home_ui := h <| h_speed_kmh_x10 := v |> |>
  | svc_lcd_update_drive_time a b c =>
      u <| g_lcd_home_ui := h <| h_drive_hour := a |> <| h_drive_minute := b |> <| h_drive_second := c |> |>
  | svc_lcd_update_card_id str => u <| g_lcd_home_ui := h <| h_card_id := card_field str |> |>
  | svc_lcd_update_home_location a b c d e =>
      u <| g_lcd_home_ui := h <| h_latitude := a |> <| h_longitude := b |> <| h_latitude_direction := c |>
             <| h_longitude_direction := d |> <| h_timestamp := e |> |>
  end.

(** The pages on which a call takes effect at once. *)
Definition concerns (c : lcd_call) (u : lcd_ui) : bool :=
  match c with
  | svc_lcd_update_text_message _ _ _ _ =>
      bool_decide (g_lcd_current_page_id u = LCD_PAGE_DRIVE_RECORD_INFO_CENTER_TEXT_NORMAL)
  | svc_lcd_update_total_mileage _ _ => bool_decide (g_lcd_current_page_id u = LCD_PAGE_DRIVE_RECORD_MILEAGE)
  | svc_lcd_update_home_location _ _ _ _ _ => bool_decide (g_lcd_current_page_id u = LCD_PAGE_HOME)
  | _ => negb (g_lcd_menu_mode u)
  end.

Definition is_text (c : lcd_call) : bool :=
  match c with svc_lcd_update_text_message _ _ _ _ => true | _ => false end.

(** The stored strings: arrays of their size, the card number terminated. *)
Definition data_inv (u : lcd_ui) : Prop :=
  h_card_id (g_lcd_home_ui u) = card_field (h_card_id (g_lcd_home_ui u)) /\
  Z.of_nat (length (t_text (g_lcd_text_msg u))) = 4097 /\
  0 <= t_text_len (g_lcd_text_msg u) <= 4096 /\
  get (t_text (g_lcd_text_msg u)) (t_text_len (g_lcd_text_msg u)) = 0.

(** ** Lemmas *)

Lemma length_strncpy s n : length (strncpy_bytes s n) = n.
Proof. revert s. induction n as [|n IH]; intros s; cbn [strncpy_bytes]; [done |]. case_match; [apply length_replicate |]. simpl. by rewrite IH. Qed.

Lemma strncmp_refl s n : rt_strncmp s s n = 0.
Proof. revert s. induction n as [|n IH]; intros s; cbn [rt_strncmp]; [done |]. rewrite Z.sub_diag. cbn. by case_match. Qed.

Lemma strncmp_zero s t n k : (k <= n)%nat -> rt_strncmp s t n = 0 -> strncpy_bytes s k = strncpy_bytes t k.
Proof.
  revert s t k. induction n as [|n IH]; intros s t [|k] Hk H; try done; [lia |]. cbn [rt_strncmp strncpy_bytes] in *.
  destruct (Z.eqb_spec (hd 0 s - hd 0 t) 0) as [E|]; cbn [negb] in H; [| done].
  replace (hd 0 t) with (hd 0 s) by lia. destruct (Z.eqb_spec (hd 0 s) 0); [done |]. f_equal. apply IH; [lia | done].
Qed.

Lemma strncpy_idem s n l : strncpy_bytes (strncpy_bytes s n ++ l) n = strncpy_bytes s n.
Proof.
  revert s. induction n as [|n IH]; intros s; cbn [strncpy_bytes]; [done |].
  destruct (Z.eqb_spec (hd 0 s) 0) as [|E]; cbn [zeros replicate app hd tl]; [done |].
  rewrite (proj2 (Z.eqb_neq (hd 0 s) 0)) by done. by rewrite IH.
Qed.

Lemma card_field_idem s : card_field (card_field s) = card_field s.
Proof. unfold card_field. by rewrite strncpy_idem. Qed.

Lemma length_card_field s : length (card_field s) = 20%nat.
Proof. unfold card_field. by rewrite length_app, length_strncpy. Qed.

Lemma card_write old str : length old = 20%nat -> put (rt_strncpy old str 19) 19 0 = card_field str.
Proof.
  intros H. unfold rt_strncpy, blit, card_field, put. rewrite take_0, app_nil_l, length_strncpy.
  rewrite insert_app_r_alt by (rewrite length_strncpy; lia). f_equal. rewrite length_strncpy.
  change (Z.to_nat 19 - 19)%nat with 0%nat. rewrite Nat.add_0_l.
  destruct (drop 19 old) as [|x [|y l]] eqn:E; apply (f_equal length) in E; rewrite length_drop in E; simpl in E; try lia. done.
Qed.

Lemma set_if_same x w s : set_if x x w s = s.
Proof. unfold set_if. destruct s. by rewrite Z.eqb_refl. Qed.

(** A guarded assignment is the assignment; it counts as a change only when
    it is one. *)
Lemma set_if_spec x v w home changed :
  (x = v -> w home = home) ->
  set_if x v w (home, changed) = (w home, changed || negb (x =? v)).
Proof. intros H. unfold set_if. destruct (Z.eqb_spec x v) as [E|]; simpl; [by rewrite H, orb_false_r | by rewrite orb_true_r]. Qed.

Lemma redraw_if (u : lcd_ui) (b : bool) :
  (if b then u <| g_lcd_need_redraw := true |> else u) = u <| g_lcd_need_redraw := g_lcd_need_redraw u || b |>.
Proof. destruct u, b; cbn; [by rewrite orb_true_r | by rewrite orb_false_r]. Qed.

Lemma text_write (t old : list Z) n :
  (n <= length t)%nat -> (n < length old)%nat ->
  put (blit 0 (slice 0 n t) old) (Z.of_nat n) 0 = slice 0 n t ++ [0] ++ drop (S n) old.
Proof.
  intros Ht Ho. unfold blit, put. rewrite take_0, app_nil_l, length_slice, Nat2Z.id by lia.
  rewrite insert_app_r_alt by (rewrite length_slice; lia). f_equal. rewrite length_slice, Nat.sub_diag, Nat.add_0_l by lia.
  destruct (nth_lookup_or_length old n 0) as [E|]; [| lia]. by rewrite (drop_S old _ n E).
Qed.

(** Whether a call counts as a change, as the code compares. *)
Definition changed (c : lcd_call) (u : lcd_ui) : bool :=
  let h := g_lcd_home_ui u in
  match c with
  | svc_lcd_update_text_message _ _ _ _ => true
  | svc_lcd_update_total_mileage km rem_m =>
      negb (g_lcd_total_mileage_km u =? km) || negb (g_lcd_total_mileage_rem_m u =? rem_m)
  | svc_lcd_update_home_time a b c =>
      negb (h_hour h =? a) || negb (h_minute h =? b) || negb (h_second h =? c)
  | svc_lcd_update_top_status v => negb (h_top_status_value h =? v)
  | svc_lcd_update_home_speed v => negb (h_speed_kmh_x10 h =? v)
  | svc_lcd_update_drive_time a b c =>
      negb (h_drive_hour h =? a) || negb (h_drive_minute h =? b) || negb (h_drive_second h =? c)
  | svc_lcd_update_card_id str => negb (rt_strncmp (h_card_id h) str 20 =? 0)
  | svc_lcd_update_home_location a b c d e =>
      negb (h_latitude h =? a) || negb (h_longitude h =? b) || negb (h_latitude_direction h =? c)
      || negb (h_longitude_direction h =? d) || negb (h_timestamp h =? e)
  end.

(** The guarded assignments of a call, fused. *)
Ltac fuse_home :=
  unfold lcd_home_ui_set_data; cbv zeta; rewrite ?set_if_same;
  repeat (rewrite set_if_spec; [| intros <-; match goal with u : lcd_ui |- _ => by destruct (g_lcd_home_ui u) end]);
  cbv beta iota; try match goal with |- context [rt_strncmp ?a ?b 20] => change a with b end; rewrite ?strncmp_refl; change (0 =? 0) with true; cbn [negb]; cbv beta iota; cbn [snd].

Lemma apply_call_assign c u :
  data_inv u -> call_ok c ->
  apply_call c u = assign c u <| g_lcd_need_redraw := g_lcd_need_redraw u || (changed c u && concerns c u) |>.
Proof.
  intros (Hcard & Htext & _ & _) Hok. destruct c as [flag type t len| | | | | | |]; unfold apply_call, assign, changed, concerns.
  - destruct Hok as (Ht & Hlen & _). unfold update_text_message, LCD_TEXT_MSG_MAX_LEN.
    replace (if 4096 <? len then 4096 else len) with (Z.min len 4096) by (destruct (Z.ltb_spec 4096 len); lia).
    destruct (Z_of_nat_complete (Z.min len 4096) ltac:(lia)) as [n En]. unfold text_field. rewrite En, Nat2Z.id.
    rewrite redraw_if, text_write by (rewrite ?Ht; unfold text_max; lia).
    by destruct u.
  - unfold update_total_mileage. destruct (negb _ || negb _) eqn:E; [by cbv zeta; rewrite redraw_if; destruct u |].
    rewrite orb_false_r. bool_hyps. subst. by destruct u.
  - unfold update_home_time. fuse_home. rewrite redraw_if. by destruct u.
  - unfold update_top_status. destruct (negb _) eqn:E; [by cbv zeta; rewrite redraw_if; destruct u |].
    rewrite orb_false_r. bool_hyps. subst. by destruct u as [[]].
  - unfold update_home_speed. fuse_home. rewrite redraw_if. by destruct u.
  - unfold update_drive_time. fuse_home. rewrite redraw_if. by destruct u.
  - unfold update_card_id. fuse_home. destruct (Z.eqb_spec (rt_strncmp (h_card_id (g_lcd_home_ui u)) str 20) 0) as [E|E]; cbn [negb snd].
    + apply (strncmp_zero _ _ _ 19) in E; [| lia].
      assert (card_field str = h_card_id (g_lcd_home_ui u)) as ->
        by (rewrite Hcard at 1; unfold card_field; by rewrite E).
      destruct u as [[]]. cbn. by rewrite orb_false_r.
    + rewrite redraw_if. cbn [h_card_id update_with]. rewrite card_write; [by destruct u as [[]] |].
      rewrite Hcard. apply length_card_field.
  - unfold update_home_location. fuse_home. rewrite redraw_if. by destruct u.
Qed.

Lemma assign_redraw c u b : assign c (u <| g_lcd_need_redraw := b |>) = assign c u <| g_lcd_need_redraw := b |>.
Proof. destruct c; by destruct u. Qed.

Lemma text_field_ok t len old :
  Z.of_nat (length t) = 4097 -> 0 <= len <= 4096 -> Z.of_nat (length old) = 4097 ->
  Z.of_nat (length (text_field t len old)) = 4097 /\ get (text_field t len old) (Z.min len 4096) = 0.
Proof.
  intros Ht Hlen Ho. unfold text_field. split.
  - rewrite !length_app, length_slice, length_drop by lia. simpl. lia.
  - unfold get. rewrite app_nth2; rewrite length_slice by lia; [| lia]. by rewrite Nat.sub_diag.
Qed.

Lemma assign_inv c u : data_inv u -> call_ok c -> data_inv (assign c u).
Proof.
  intros (Hcard & Htext & Hlen & Hz) Hok. destruct c as [flag type t len| | | | | | |]; try exact (conj Hcard (conj Htext (conj Hlen Hz))).
  - destruct Hok as (Ht & Hl & _).
    assert (Z.of_nat (length t) = 4097) as Ht' by (rewrite Ht; unfold text_max; lia).
    destruct (text_field_ok t len _ Ht' Hl Htext) as [H1 H2].
    refine (conj Hcard (conj H1 (conj _ H2))). cbn. lia.
  - refine (conj _ (conj Htext (conj Hlen Hz))). symmetry. apply card_field_idem.
Qed.

Lemma data_inv_redraw u b : data_inv u -> data_inv (u <| g_lcd_need_redraw := b |>).
Proof. done. Qed.

Lemma apply_call_inv c u : data_inv u -> call_ok c -> data_inv (apply_call c u).
Proof. intros Hu Hc. rewrite apply_call_assign by done. by apply data_inv_redraw, assign_inv. Qed.

Lemma reset_data_inv u : data_inv (lcd_ui_data_reset u).
Proof. split_and!; [by vm_compute | | by vm_compute.. |]; unfold lcd_ui_data_reset; cbn; [unfold zeros; rewrite length_replicate; lia | done]. Qed.

(** A change is noticed. *)
Lemma unchanged_same c u : data_inv u -> changed c u = false -> assign c u = u.
Proof.
  intros (Hcard & _) H. destruct c; cbn [changed] in H; try discriminate H; bool_hyps; unfold assign; subst;
    try (by destruct u as [[]]).
  assert (card_field str = h_card_id (g_lcd_home_ui u)) as ->; [| by destruct u as [[]]].
  rewrite Hcard. unfold card_field. by rewrite (strncmp_zero _ _ 20 19 ltac:(lia) H).
Qed.

Lemma assign_all_redraw cs u b :
  foldl (fun u c => assign c u) (u <| g_lcd_need_redraw := b |>) cs =
  foldl (fun u c => assign c u) u cs <| g_lcd_need_redraw := b |>.
Proof. revert u. induction cs as [|c cs IH]; intros u; [done |]. cbn [foldl]. by rewrite assign_redraw, IH. Qed.

Lemma apply_calls_spec cs u :
  data_inv u -> Forall call_ok cs ->
  apply_calls cs u = foldl (fun u c => assign c u) u cs <| g_lcd_need_redraw := g_lcd_need_redraw (apply_calls cs u) |> /\
  data_inv (apply_calls cs u) /\
  (g_lcd_need_redraw u = true -> g_lcd_need_redraw (apply_calls cs u) = true).
Proof.
  intros Hu Hcs. revert u Hu. induction Hcs as [|c cs Hc _ IH]; intros u Hu; [by split_and!; destruct u |].
  destruct (IH (apply_call c u) (apply_call_inv c u Hu Hc)) as (H1 & H2 & H3).
  unfold apply_calls in *. cbn [foldl]. split; [| split; [done |]].
  - rewrite H1 at 1. by rewrite (apply_call_assign c u Hu Hc), assign_all_redraw.
  - intros Hr. apply H3. rewrite (apply_call_assign c u Hu Hc). cbn. by rewrite Hr.
Qed.

(** ** Properties *)

(** Whatever sequence of updates arrives, the data kept for display are
    those of plain assignments in the same order, with the strings bounded and
    terminated; nothing else of the display state changes but the redraw
    request, which is never withdrawn. *)
Theorem display_holds_latest cs u :
  data_inv u -> Forall call_ok cs ->
  apply_calls cs u = foldl (fun u c => assign c u) u cs <| g_lcd_need_redraw := g_lcd_need_redraw (apply_calls cs u) |> /\
  data_inv (apply_calls cs u) /\
  (g_lcd_need_redraw u = true -> g_lcd_need_redraw (apply_calls cs u) = true).
Proof. apply apply_calls_spec. Qed.

Definition sample_calls : list lcd_call :=
  [svc_lcd_update_home_time 12 30 59; svc_lcd_update_home_speed 605; svc_lcd_update_card_id (replicate 18 51 ++ [0]);
   svc_lcd_update_home_location 31230000 121470000 0 0 1700000000].

Lemma display_holds_latest_witness :
  h_speed_kmh_x10 (g_lcd_home_ui (apply_calls sample_calls (lcd_ui_data_reset lcd_ui_boot))) = 605 /\
  data_inv (apply_calls sample_calls (lcd_ui_data_reset lcd_ui_boot)) /\
  g_lcd_need_redraw (apply_calls sample_calls (lcd_ui_data_reset lcd_ui_boot)) = true.
Proof.
  split; [by vm_compute |].
  destruct (display_holds_latest sample_calls (lcd_ui_data_reset lcd_ui_boot) (reset_data_inv _)
              ltac:(by repeat constructor)) as (_ & H1 & H2). split; [exact H1 | by apply H2].
Defined.
