(* ===== verification/LcdText.v ===== *)
(** * Display of text messages

    The UTF-8 decoder of [svc_lcd.c] and the text page built on it: 30
    characters per page, in three lines of ten, paging with the keys, and the
    page count computed while drawing. *)

From S2P Require Import Prelude UartCrc LcdPages LcdState LcdData.

Definition LCD_TEXT_MSG_LINES_PER_PAGE : Z := 3.
Definition LCD_TEXT_MSG_LINE_MAX_CHARS : Z := 10.

(** ** Operations *)

(** Code point and number of bytes consumed at the start of a string. *)
Definition lcd_utf8_next_codepoint (s : pointer (list Z)) : Z * Z :=
  match s with
  | None => (0, 0)
  | Some p =>
      if get p 0 =? 0 then (0, 0)
      else if get p 0 <? 0x80 then (get p 0, 1)
      else if (Z.land (get p 0) 0xE0 =? 0xC0) && negb (get p 1 =? 0) then
        (u16 (Z.lor (Z.shiftl (Z.land (get p 0) 0x1F) 6) (Z.land (get p 1) 0x3F)), 2)
      else if (Z.land (get p 0) 0xF0 =? 0xE0) && negb (get p 1 =? 0) && negb (get p 2 =? 0) then
        (u16 (Z.lor (Z.lor (Z.shiftl (Z.land (get p 0) 0x0F) 12) (Z.shiftl (Z.land (get p 1) 0x3F) 6))
                (Z.land (get p 2) 0x3F)), 3)
      else (63, 1)
  end.

(** [&text[offset]] *)
Definition text_at (text : list Z) (offset : Z) : list Z := drop (Z.to_nat offset) text.

(** The loop that skips to the first character of the page; offset and
    characters passed. [None]: out of fuel. *)
Fixpoint skip_loop (fuel : nat) (text : list Z) (page_start_char offset current_char_index : Z) : option (Z * Z) :=
  match fuel with
  | O => None
  | S fuel =>
      if negb (get text offset =? 0) && (current_char_index <? page_start_char) then
        let '(code, consumed) := lcd_utf8_next_codepoint (Some (text_at text offset)) in
        if (code =? 0) || (consumed =? 0) then Some (offset, current_char_index)
        else skip_loop fuel text page_start_char (u16 (offset + consumed)) (u16 (current_char_index + 1))
      else Some (offset, current_char_index)
  end.

(** The characters of one line, drawn from left to right, and the offset
    behind them. *)
Fixpoint line_loop (fuel : nat) (text : list Z) (offset line_chars : Z) : option (list Z * Z) :=
  match fuel with
  | O => None
  | S fuel =>
      if negb (get text offset =? 0) && (line_chars <? LCD_TEXT_MSG_LINE_MAX_CHARS) then
        let '(code, consumed) := lcd_utf8_next_codepoint (Some (text_at text offset)) in
        if (code =? 0) || (consumed =? 0) then Some ([], offset)
        else if (code =? 13) || (code =? 10) then Some ([], u16 (offset + consumed))
        else '(codes, offset) ← line_loop fuel text (u16 (offset + consumed)) (u8 (line_chars + 1));
             Some (code :: codes, offset)
      else Some ([], offset)
  end.

(** The lines of a page. *)
Fixpoint lines_loop (lines fuel : nat) (text : list Z) (offset : Z) : option (list (list Z)) :=
  match lines with
  | O => Some []
  | S lines =>
      '(codes, offset) ← line_loop fuel text offset 0;
      rest ← lines_loop lines fuel text offset;
      Some (codes :: rest)
  end.

(** The characters of the whole text, counted. *)
Fixpoint count_loop (fuel : nat) (text : list Z) (offset current_char_index : Z) : option Z :=
  match fuel with
  | O => None
  | S fuel =>
      if negb (get text offset =? 0) then
        let '(code, consumed) := lcd_utf8_next_codepoint (Some (text_at text offset)) in
        if (code =? 0) || (consumed =? 0) then Some current_char_index
        else count_loop fuel text (u16 (offset + consumed)) (u16 (current_char_index + 1))
      else Some current_char_index
  end.

Definition text_fuel : nat := Z.to_nat 4098.

(** [lcd_render_info_center_text_normal_ui]: the lines drawn ([None]: the
    no-text notice) and the message with its page count set. *)
Definition render_text (m : lcd_text_msg_t) : option (option (list (list Z)) * lcd_text_msg_t) :=
  if (t_valid m =? 0) || (t_text_len m =? 0) then Some (None, m)
  else
    let page_start_char :=
      u16 (t_page_index m * LCD_TEXT_MSG_LINES_PER_PAGE * LCD_TEXT_MSG_LINE_MAX_CHARS) in
    '(offset, _) ← skip_loop text_fuel (t_text m) page_start_char 0 0;
    lines ← lines_loop (Z.to_nat LCD_TEXT_MSG_LINES_PER_PAGE) text_fuel (t_text m) offset;
    count ← count_loop text_fuel (t_text m) 0 0;
    let page_count :=
      u16 ((count + LCD_TEXT_MSG_LINES_PER_PAGE * LCD_TEXT_MSG_LINE_MAX_CHARS - 1) /
           (LCD_TEXT_MSG_LINES_PER_PAGE * LCD_TEXT_MSG_LINE_MAX_CHARS)) in
    Some (Some lines, m <| t_page_count := if page_count =? 0 then 1 else page_count |>).

Definition lcd_prepare_text_normal_page (m : lcd_text_msg_t) : lcd_text_msg_t :=
  m <| t_page_index := 0 |> <| t_page_count := 1 |>.

(** The paging keys. *)
Definition text_page_up (m : lcd_text_msg_t) : bool * lcd_text_msg_t :=
  if 0 <? t_page_index m then (true, m <| t_page_index := t_page_index m - 1 |>) else (false, m).

Definition text_page_down (m : lcd_text_msg_t) : bool * lcd_text_msg_t :=
  if (0 <? t_page_count m) && (t_page_index m + 1 <? t_page_count m)
  then (true, m <| t_page_index := u16 (t_page_index m + 1) |>) else (false, m).

(** ** Specification: the characters of a string *)

Fixpoint decode (fuel : nat) (s : list Z) : list Z :=
  match fuel with
  | O => []
  | S fuel =>
      let '(code, consumed) := lcd_utf8_next_codepoint (Some s) in
      if (code =? 0) || (consumed =? 0) then [] else code :: decode fuel (drop (Z.to_nat consumed) s)
  end.

(** The characters of a text in the buffer. *)
Definition text_codes (text : list Z) : list Z := decode (length text) text.

(** UTF-8 of a code point below 2^16. *)
Definition utf8 (c : Z) : list Z :=
  if c <? 0x80 then [c]
  else if c <? 0x800 then [0xC0 + c / 64; 0x80 + c mod 64]
  else [0xE0 + c / 4096; 0x80 + c / 64 mod 64; 0x80 + c mod 64].

(** The lines of a page that shows the characters [l]. *)
Fixpoint chunks (n : nat) (l : list Z) : list (list Z) :=
  match n with
  | O => []
  | S n => take 10 l :: chunks n (drop 10 l)
  end.

Definition no_newline (l : list Z) : Prop := Forall (fun c => c <> 13 /\ c <> 10) l.

(** ** Lemmas *)

(** What the decoder consumes lies before the terminator. *)
Lemma next_consumed s code consumed :
  lcd_utf8_next_codepoint (Some s) = (code, consumed) ->
  0 <= consumed <= 3 /\ (consumed = 0 -> code = 0) /\ (get s 0 <> 0 -> 1 <= consumed) /\
  forall i, 0 <= i < consumed -> get s i <> 0.
Proof.
  unfold lcd_utf8_next_codepoint. intros H.
  destruct (Z.eqb_spec (get s 0) 0); [simplify_eq; split_and!; try done; lia |].
  destruct (get s 0 <? 128); [simplify_eq; split_and!; try done; intros i Hi; by replace i with 0 by lia |].
  destruct ((Z.land (get s 0) 224 =? 192) && negb (get s 1 =? 0)) eqn:E2.
  { bool_hyps. injection H as _ <-. split_and!; try done. intros i Hi.
    assert (i = 0 \/ i = 1) as [-> | ->] by lia; done. }
  destruct ((Z.land (get s 0) 240 =? 224) && negb (get s 1 =? 0) && negb (get s 2 =? 0)) eqn:E3.
  { bool_hyps. injection H as _ <-. split_and!; try done. intros i Hi.
    assert (i = 0 \/ i = 1 \/ i = 2) as [-> | [-> | ->]] by lia; done. }
  simplify_eq. split_and!; try done. intros i Hi. by replace i with 0 by lia.
Qed.

Lemma get_text_at text o i : 0 <= o -> 0 <= i -> get (text_at text o) i = get text (o + i).
Proof. intros. unfold get, text_at. rewrite !nth_lookup, lookup_drop. do 3 f_equal. lia. Qed.

Lemma text_at_at text o c : 0 <= o -> 0 <= c -> drop (Z.to_nat c) (text_at text o) = text_at text (o + c).
Proof. intros. unfold text_at. rewrite drop_drop. f_equal. lia. Qed.

Section Terminated.
Context (text : list Z) (n : Z) (Hn : 0 <= n <= 4096) (Hz : get text n = 0).

(** The step of every loop. *)
Lemma next_at o code consumed :
  0 <= o <= n -> lcd_utf8_next_codepoint (Some (text_at text o)) = (code, consumed) ->
  0 <= consumed /\ (consumed = 0 -> code = 0) /\ (get text o <> 0 -> 1 <= consumed) /\ o + consumed <= n.
Proof.
  intros Ho E. destruct (next_consumed _ _ _ E) as (H1 & H2 & H3 & H4). rewrite get_text_at, Z.add_0_r in H3 by lia.
  split_and!; [lia | done | done |]. destruct (Z_le_gt_dec (o + consumed) n) as [|Hgt]; [done |].
  destruct (H4 (n - o)); [lia |]. rewrite get_text_at by lia. by replace (o + (n - o)) with n by lia.
Qed.

(** The characters from an offset on. *)
Definition codes_at (o : Z) : list Z := decode (Z.to_nat (n - o + 1)) (text_at text o).

Lemma decode_fuel f1 f2 o :
  0 <= o <= n -> n - o < Z.of_nat f1 -> n - o < Z.of_nat f2 -> decode f1 (text_at text o) = decode f2 (text_at text o).
Proof.
  revert f2 o. induction f1 as [|f1 IH]; intros [|f2] o Ho H1 H2; [done | lia.. |]. cbn [decode].
  destruct (lcd_utf8_next_codepoint _) as [code consumed] eqn:E.
  destruct (next_at o code consumed Ho E) as (Ha & Hb & _ & Hc).
  destruct (Z.eqb_spec code 0); [done |]. destruct (Z.eqb_spec consumed 0); [done |]. simpl. f_equal.
  rewrite text_at_at by lia. apply IH; lia.
Qed.

Lemma codes_at_step o :
  0 <= o <= n ->
  codes_at o = let '(code, consumed) := lcd_utf8_next_codepoint (Some (text_at text o)) in
               if (code =? 0) || (consumed =? 0) then [] else code :: codes_at (o + consumed).
Proof.
  intros Ho. unfold codes_at at 1. rewrite (decode_fuel _ (S (Z.to_nat (n - o))) o) by lia. cbn [decode].
  destruct (lcd_utf8_next_codepoint _) as [code consumed] eqn:E.
  destruct (next_at o code consumed Ho E) as (Ha & Hb & _ & Hc).
  destruct (Z.eqb_spec code 0); [done |]. destruct (Z.eqb_spec consumed 0); [done |]. simpl. f_equal.
  rewrite text_at_at by lia. apply decode_fuel; lia.
Qed.

Lemma codes_at_end o : 0 <= o <= n -> get text o = 0 -> codes_at o = [].
Proof.
  intros Ho H. rewrite codes_at_step by done. unfold lcd_utf8_next_codepoint. by rewrite get_text_at, Z.add_0_r, H by lia.
Qed.

(** Case analysis of a loop at an offset: the end of the text, the end of the
    decodable part, or one more character. *)
Lemma loop_cases o :
  0 <= o <= n ->
  (get text o = 0 /\ codes_at o = []) \/
  (get text o <> 0 /\ exists code consumed, lcd_utf8_next_codepoint (Some (text_at text o)) = (code, consumed) /\
    ((code = 0 /\ codes_at o = []) \/
     (code <> 0 /\ 1 <= consumed /\ o + consumed <= n /\ codes_at o = code :: codes_at (o + consumed)))).
Proof.
  intros Ho. destruct (Z.eq_dec (get text o) 0) as [E|Hne]; [left; by rewrite codes_at_end | right]. split; [done |].
  pose proof (codes_at_step o Ho) as Hs. destruct (lcd_utf8_next_codepoint _) as [code consumed] eqn:E.
  destruct (next_at o code consumed Ho E) as (Ha & Hb & Hc & Hd). specialize (Hc Hne).
  exists code, consumed. split; [done |]. destruct (Z.eqb_spec code 0) as [->|]; [by left |].
  right. rewrite (proj2 (Z.eqb_neq consumed 0)) in Hs by lia. split_and!; auto.
Qed.

Ltac loop_step Ho :=
  destruct (loop_cases _ Ho) as [[Hg Hcs] | [Hg (code & consumed & E & [[-> Hcs] | (Hcode & Hc1 & Hc2 & Hcs)])]];
  [rewrite Hg, Hcs; cbn [negb Z.eqb andb] |
   rewrite (proj2 (Z.eqb_neq _ _) Hg), E, ?Hcs; cbn [negb Z.eqb andb orb] |
   rewrite (proj2 (Z.eqb_neq _ _) Hg), E, ?Hcs, (proj2 (Z.eqb_neq code 0) Hcode),
     (proj2 (Z.eqb_neq consumed 0)) by lia; cbn [negb andb orb]].

Lemma count_loop_spec fuel o idx :
  0 <= o <= n -> n - o < Z.of_nat fuel -> 0 <= idx -> idx + (n - o) < 2 ^ 16 ->
  count_loop fuel text o idx = Some (idx + Z.of_nat (length (codes_at o))) /\ Z.of_nat (length (codes_at o)) <= n - o.
Proof.
  revert o idx. induction fuel as [|fuel IH]; intros o idx Ho Hf Hi Hw; [lia |]. cbn [count_loop].
  loop_step Ho; [split; simpl; [f_equal | ]; lia | split; simpl; [f_equal |]; lia |].
  rewrite !u16_id by wraps. destruct (IH (o + consumed) (idx + 1)) as [H1 H2]; [lia.. |]. rewrite H1. cbn [length].
  split; [f_equal |]; lia.
Qed.

Lemma skip_loop_spec fuel start o idx :
  0 <= o <= n -> n - o < Z.of_nat fuel -> 0 <= idx <= start -> idx + (n - o) < 2 ^ 16 ->
  exists o' idx', skip_loop fuel text start o idx = Some (o', idx') /\ 0 <= o' <= n /\
  codes_at o' = drop (Z.to_nat (start - idx)) (codes_at o).
Proof.
  revert o idx. induction fuel as [|fuel IH]; intros o idx Ho Hf Hi Hw; [lia |]. cbn [skip_loop].
  destruct (Z.ltb_spec idx start) as [Hlt|Hge].
  - loop_step Ho; [exists o, idx; by rewrite drop_nil | exists o, idx; by rewrite drop_nil |].
    rewrite !u16_id by wraps. destruct (IH (o + consumed) (idx + 1)) as (o' & i' & H1 & H2 & H3); [lia.. |].
    exists o', i'. split_and!; [done | lia | lia |]. rewrite H3.
    by replace (Z.to_nat (start - idx)) with (S (Z.to_nat (start - (idx + 1)))) by lia.
  - rewrite andb_false_r. exists o, idx. split_and!; [done | lia | lia |].
    by replace (Z.to_nat (start - idx)) with 0%nat by lia.
Qed.

Lemma line_loop_spec fuel o lc :
  0 <= o <= n -> n - o < Z.of_nat fuel -> 0 <= lc <= 10 ->
  exists codes o', line_loop fuel text o lc = Some (codes, o') /\ 0 <= o' <= n /\
  (no_newline (codes_at o) ->
   codes = take (Z.to_nat (10 - lc)) (codes_at o) /\ codes_at o' = drop (Z.to_nat (10 - lc)) (codes_at o)).
Proof.
  revert o lc. induction fuel as [|fuel IH]; intros o lc Ho Hf Hl; [lia |]. cbn [line_loop].
  unfold LCD_TEXT_MSG_LINE_MAX_CHARS. destruct (Z.ltb_spec lc 10) as [Hlt|Hge].
  - loop_step Ho; [exists [], o; by rewrite take_nil, drop_nil | exists [], o; by rewrite take_nil, drop_nil |].
    rewrite u16_id, u8_id by wraps. destruct ((code =? 13) || (code =? 10)) eqn:En.
    + exists [], (o + consumed). split_and!; [done | lia | lia |]. intros Hnl. apply Forall_cons_1 in Hnl as [[H1 H2] _].
      apply orb_true_iff in En as [?%Z.eqb_eq | ?%Z.eqb_eq]; done.
    + destruct (IH (o + consumed) (lc + 1)) as (codes & o' & H1 & H2 & H3); [lia.. |]. rewrite H1. simpl.
      exists (code :: codes), o'. split_and!; [done | lia | lia |]. intros Hnl. apply Forall_cons_1 in Hnl as [_ Hnl].
      destruct (H3 Hnl) as [-> ->]. replace (Z.to_nat (10 - lc)) with (S (Z.to_nat (10 - (lc + 1)))) by lia. done.
  - rewrite andb_false_r. exists [], o. split_and!; [done | lia | lia |].
    by replace (Z.to_nat (10 - lc)) with 0%nat by lia.
Qed.

Lemma lines_loop_spec k fuel o :
  0 <= o <= n -> n < Z.of_nat fuel ->
  exists lines, lines_loop k fuel text o = Some lines /\ (no_newline (codes_at o) -> lines = chunks k (codes_at o)).
Proof.
  revert o. induction k as [|k IH]; intros o Ho Hf; [by exists [] |]. cbn [lines_loop].
  destruct (line_loop_spec fuel o 0) as (codes & o' & -> & Ho' & H); [lia.. |]. simpl.
  destruct (IH o' Ho' Hf) as (lines & -> & Hl). exists (codes :: lines). split; [done |]. intros Hnl.
  destruct (H Hnl) as [-> E]. cbn [chunks]. rewrite Hl; [by rewrite E |]. rewrite E. by apply Forall_drop.
Qed.

Lemma text_codes_at : n < Z.of_nat (length text) -> text_codes text = codes_at 0.
Proof. intros H. unfold text_codes. replace text with (text_at text 0) at 2 by done. apply decode_fuel; lia. Qed.
End Terminated.

Lemma concat_chunks k l : concat (chunks k l) = take (10 * k) l.
Proof.
  revert l. induction k as [|k IH]; intros l; cbn [chunks concat]; [done |]. rewrite IH.
  replace (10 * S k)%nat with (10 + 10 * k)%nat by lia. by rewrite take_take_drop.
Qed.

Lemma concat_pages (l : list Z) k : concat (map (fun i => take 30 (drop (30 * i) l)) (seq 0 k)) = take (30 * k) l.
Proof.
  induction k as [|k IH]; [done |]. rewrite seq_S, map_app, concat_app, IH. cbn [map concat Nat.add].
  rewrite app_nil_r. replace (30 * S k)%nat with (30 * k + 30)%nat by lia. by rewrite take_take_drop.
Qed.

(** A stored message that is shown: bounded and terminated. *)
Definition text_ok (m : lcd_text_msg_t) : Prop :=
  t_valid m <> 0 /\ 0 < t_text_len m <= 4096 /\ Z.of_nat (length (t_text m)) = 4097 /\
  get (t_text m) (t_text_len m) = 0.

(** The number of pages of a text of [len] characters. *)
Definition pages_of (len : Z) : Z := Z.max 1 ((len + 29) / 30).

Lemma render_text_spec m :
  text_ok m -> 0 <= t_page_index m <= 2184 ->
  exists lines,
    render_text m = Some (Some lines, m <| t_page_count := pages_of (Z.of_nat (length (text_codes (t_text m)))) |>) /\
    (no_newline (text_codes (t_text m)) ->
     lines = chunks 3 (drop (30 * Z.to_nat (t_page_index m)) (text_codes (t_text m)))) /\
    pages_of (Z.of_nat (length (text_codes (t_text m)))) <= 137.
Proof.
  intros (Hv & Hlen & Hl & Hz) Hi. unfold render_text.
  rewrite (proj2 (Z.eqb_neq (t_valid m) 0) Hv), (proj2 (Z.eqb_neq (t_text_len m) 0)) by lia. cbn [orb].
  unfold LCD_TEXT_MSG_LINES_PER_PAGE, LCD_TEXT_MSG_LINE_MAX_CHARS. cbv zeta. rewrite (u16_id (_ * 3 * 10)) by wraps.
  assert (Z.of_nat text_fuel = 4098) as Hfuel by (unfold text_fuel; lia).
  set (n := t_text_len m) in *. rewrite (text_codes_at (t_text m) n ltac:(lia) Hz) by lia.
  destruct (skip_loop_spec (t_text m) n ltac:(lia) Hz text_fuel (t_page_index m * 3 * 10) 0 0)
    as (o & i & -> & Ho & Ecodes); [lia.. |]. cbn [mbind option_bind].
  destruct (lines_loop_spec (t_text m) n ltac:(lia) Hz (Z.to_nat 3) text_fuel o Ho ltac:(lia)) as (lines & El & Hlines).
  rewrite El. cbn [mbind option_bind].
  destruct (count_loop_spec (t_text m) n ltac:(lia) Hz text_fuel 0 0) as [-> Hb]; [lia.. |]. cbn [mbind option_bind].
  set (len := Z.of_nat (length (codes_at (t_text m) n 0))) in *.
  exists lines. rewrite u16_id by wraps. split_and!.
  - unfold pages_of. by destruct (Z.eqb_spec ((0 + len + 3 * 10 - 1) / (3 * 10)) 0);
      [rewrite Z.max_l by lia | rewrite Z.max_r by lia; replace (0 + len + 3 * 10 - 1) with (len + 29) by lia].
  - intros Hnl. rewrite Hlines; rewrite Ecodes; [| by apply Forall_drop].
    f_equal. f_equal. lia.
  - unfold pages_of. lia.
Qed.

Lemma text_pages_max m : text_ok m -> pages_of (Z.of_nat (length (text_codes (t_text m)))) <= 137.
Proof.
  intros Hm. assert (text_ok (m <| t_page_index := 0 |>)) as Hm0 by done.
  destruct (render_text_spec _ Hm0) as (_ & _ & _ & Hp); [cbn; lia | exact Hp].
Qed.

(** The characters drawn on page [k] of a message. *)
Definition page_chars (m : lcd_text_msg_t) (k : Z) : list Z :=
  match render_text (m <| t_page_index := k |>) with
  | Some (Some lines, _) => concat lines
  | _ => []
  end.

(** The head bytes of two- and three-byte sequences and continuation bytes. *)
Lemma head2 b : 0 <= b < 32 -> Z.land (192 + b) 224 = 192 /\ Z.land (192 + b) 31 = b.
Proof.
  intros Hb. pose proof (all_words_0 5 (fun b => (Z.land (192 + b) 224 =? 192) && (Z.land (192 + b) 31 =? b)) b
    ltac:(vm_compute; reflexivity) Hb) as H. cbv beta in H. by bool_hyps.
Qed.

Lemma head3 b :
  0 <= b < 16 -> Z.land (224 + b) 224 = 224 /\ Z.land (224 + b) 240 = 224 /\ Z.land (224 + b) 15 = b.
Proof.
  intros Hb. pose proof (all_words_0 4 (fun b => (Z.land (224 + b) 224 =? 224) && (Z.land (224 + b) 240 =? 224)
    && (Z.land (224 + b) 15 =? b)) b ltac:(vm_compute; reflexivity) Hb) as H. cbv beta in H. by bool_hyps.
Qed.

Lemma continuation b : 0 <= b < 64 -> Z.land (128 + b) 63 = b.
Proof.
  intros Hb. pose proof (all_words_0 6 (fun b => Z.land (128 + b) 63 =? b) b ltac:(vm_compute; reflexivity) Hb) as H.
  cbv beta in H. by bool_hyps.
Qed.

Lemma next_utf8 c s :
  1 <= c < 2 ^ 16 ->
  lcd_utf8_next_codepoint (Some (utf8 c ++ s)) = (c, Z.of_nat (length (utf8 c))).
Proof.
  intros Hc. unfold utf8. destruct (Z.ltb_spec c 128); [| destruct (Z.ltb_spec c 2048)];
    unfold lcd_utf8_next_codepoint, get; change (Z.to_nat 0) with 0%nat; change (Z.to_nat 1) with 1%nat;
    change (Z.to_nat 2) with 2%nat; cbn [app nth length].
  - rewrite (proj2 (Z.eqb_neq c 0)), (proj2 (Z.ltb_lt c 128)) by lia. done.
  - destruct (head2 (c / 64) ltac:(lia)) as [-> ->]. rewrite (continuation (c mod 64)) by lia.
    rewrite (proj2 (Z.eqb_neq (192 + _) 0)), (proj2 (Z.ltb_ge (192 + _) 128)), (proj2 (Z.eqb_neq (128 + _) 0)) by lia.
    cbn [Z.eqb andb negb]. rewrite Z.lor_comm, lor_shiftl by lia. rewrite u16_id by wraps. f_equal. lia.
  - destruct (head3 (c / 4096) ltac:(lia)) as (-> & -> & ->).
    rewrite (continuation (c / 64 mod 64)), (continuation (c mod 64)) by lia.
    rewrite (proj2 (Z.eqb_neq (224 + _) 0)), (proj2 (Z.ltb_ge (224 + _) 128)), !(proj2 (Z.eqb_neq (128 + _) 0)) by lia.
    cbn [Z.eqb Pos.eqb andb negb]. rewrite (Z.lor_comm (Z.shiftl _ 12)), <- Z.lor_assoc, (Z.lor_comm (Z.shiftl _ 12)), Z.lor_assoc.
    rewrite (Z.lor_comm (Z.shiftl _ 6)), (lor_shiftl (c mod 64) _ 6), lor_shiftl by lia.
    rewrite u16_id by wraps. f_equal. lia.
Qed.

Lemma decode_utf8 fuel cs rest :
  Forall (fun c => 1 <= c < 2 ^ 16) cs -> (length cs < fuel)%nat ->
  decode fuel (concat (map utf8 cs) ++ 0 :: rest) = cs.
Proof.
  intros H. revert fuel. induction H as [|c cs Hc _ IH]; intros [|fuel] Hf; try (simpl in Hf; lia); [done |].
  cbn [map concat decode]. rewrite <- app_assoc, next_utf8 by done.
  rewrite (proj2 (Z.eqb_neq c 0)) by lia.
  assert (length (utf8 c) <> 0%nat) by (unfold utf8; repeat case_match; done).
  rewrite (proj2 (Z.eqb_neq (Z.of_nat _) 0)) by lia. cbn [orb]. f_equal.
  rewrite Nat2Z.id, drop_app_length. apply IH. simpl in Hf. lia.
Qed.

Lemma length_utf8s cs : (length cs <= length (concat (map utf8 cs)))%nat.
Proof.
  induction cs as [|c cs IH]; [done |]. cbn [map concat length]. rewrite length_app.
  assert (length (utf8 c) <> 0%nat) by (unfold utf8; repeat case_match; done). lia.
Qed.

(** ** Properties *)

(** A message that holds the UTF-8 encoding of characters below 2^16 is
    decoded to exactly these characters, whatever the buffer holds behind the
    terminator. *)
Theorem utf8_text_roundtrip cs rest :
  Forall (fun c => 1 <= c < 2 ^ 16) cs -> text_codes (concat (map utf8 cs) ++ 0 :: rest) = cs.
Proof.
  intros H. apply decode_utf8; [done |]. rewrite length_app. pose proof (length_utf8s cs). simpl. lia.
Qed.

Lemma utf8_text_roundtrip_witness : text_codes (concat (map utf8 [72; 0xE9; 0x4EAC]) ++ 0 :: [7]) = [72; 0xE9; 0x4EAC].
Proof. apply (utf8_text_roundtrip [72; 0xE9; 0x4EAC] [7]). repeat constructor; lia. Defined.

(** C34: the pages of a text without line breaks show all of its characters,
    in order and each once: drawing any page never fails, and the pages up to
    the page count drawn with them, put together, are the characters of the
    text. *)
Theorem text_pages_show_all m :
  text_ok m -> no_newline (text_codes (t_text m)) ->
  exists count, 1 <= count <= 137 /\
  (forall k, 0 <= k < count -> exists lines,
     render_text (m <| t_page_index := k |>) = Some (Some lines, m <| t_page_index := k |> <| t_page_count := count |>) /\
     length lines = 3%nat /\ Forall (fun l => (length l <= 10)%nat) lines) /\
  concat (map (fun k => page_chars m (Z.of_nat k)) (seq 0 (Z.to_nat count))) = text_codes (t_text m).
Proof.
  intros Hm Hnl. set (len := Z.of_nat (length (text_codes (t_text m)))). exists (pages_of len).
  assert (forall k, 0 <= k <= 2184 -> text_ok (m <| t_page_index := k |>)) as Hk by done.
  assert (pages_of len <= 137) as Hmax by (by apply text_pages_max).
  assert (1 <= pages_of len) by (unfold pages_of; lia).
  split_and!; [done | done | |].
  - intros k Hk'. destruct (render_text_spec _ (Hk k ltac:(lia))) as (lines & E & Hl & _); [cbn; lia |].
    exists lines. split; [done |]. rewrite (Hl Hnl). cbn [chunks]. split; [done |]. repeat (apply Forall_cons_2; [rewrite length_take; lia |]). apply Forall_nil_2.
  - transitivity (take (30 * Z.to_nat (pages_of len)) (text_codes (t_text m)));
      [| apply take_ge; subst len; unfold pages_of in *; lia].
    rewrite <- concat_pages. f_equal. apply map_ext_in. intros k Hin%in_seq. unfold page_chars.
    destruct (render_text_spec _ (Hk (Z.of_nat k) ltac:(lia))) as (lines & -> & Hl & _); [cbn; lia |].
    rewrite (Hl Hnl), concat_chunks. cbn [t_page_index update_with]. by rewrite Nat2Z.id.
Qed.

(** A message of 35 characters. *)
Definition sample_text : lcd_text_msg_t :=
  mk_lcd_text 1 0 1 35 (replicate 35 65 ++ zeros (Z.to_nat 4062)) 0 0.

Lemma sample_text_ok : text_ok sample_text.
Proof. unfold text_ok, sample_text, zeros. cbn [t_valid t_text_len t_text]. rewrite length_app, !length_replicate. split_and!; by vm_compute. Qed.

Lemma text_pages_show_all_witness :
  exists count, 1 <= count <= 137 /\
  concat (map (fun k => page_chars sample_text (Z.of_nat k)) (seq 0 (Z.to_nat count))) = text_codes (t_text sample_text).
Proof.
  destruct (text_pages_show_all sample_text sample_text_ok) as (count & H1 & _ & H3).
  { apply (bool_decide_unpack _). vm_compute. exact I. }
  by exists count.
Defined.

(** Four short lines. *)
Definition lines_text : lcd_text_msg_t :=
  mk_lcd_text 1 0 1 7 ([97; 10; 98; 10; 99; 10; 100] ++ zeros (Z.to_nat 4090)) 0 0.

(** With line breaks characters can be lost: a text of four lines has one
    page, which shows three of them; the fourth is on no page that can be
    reached. *)
Theorem newline_hides_characters :
  text_codes (t_text lines_text) = [97; 10; 98; 10; 99; 10; 100] /\
  render_text lines_text = Some (Some [[97]; [98]; [99]], lines_text <| t_page_count := 1 |>) /\
  text_page_down (lines_text <| t_page_count := 1 |>) = (false, lines_text <| t_page_count := 1 |>).
Proof. split_and!; by vm_compute. Qed.
