(* ===== verification/LcdTables.v ===== *)
(** * Text tables of the display ([svc_lcd.c])

    The menu texts as code points, the character tables of the editors, the
    icons, and the list resources with their lookup ([lcd_ui.c]).  A C array of
    characters includes its terminator. *)

From S2P Require Import Prelude McuStatus LcdPages LcdText.

(** ** Tables *)

Definition g_icon_signal_12x12 : list Z :=
  [0x00; 0x00; 0x00; 0xe0; 0x3e; 0xe0; 0x1e; 0xc0; 0x0c; 0xc2; 0x0c; 0xc3; 0x8c; 0xc3; 0xcc; 0xc3; 0xec; 0xc3;
   0xfc; 0x03; 0x00; 0x00; 0x00; 0xf0].
Definition g_icon_g_12x12 : list Z :=
  [0xff; 0x3f; 0x03; 0x3c; 0x03; 0x3c; 0xf3; 0xbd; 0x1b; 0xbc; 0x9b; 0xbd; 0x1b; 0xbd; 0xfb; 0x3d; 0xf3; 0x3c;
   0x03; 0xfc; 0xff; 0xff; 0xff; 0x0f].
Definition g_icon_status_12x12 : list Z :=
  [0x00; 0xc0; 0x0c; 0x46; 0xb4; 0xc5; 0xcc; 0x84; 0xa8; 0x02; 0x10; 0x83; 0xb8; 0x83; 0xc8; 0x44; 0xe4; 0xc5;
   0x1c; 0x06; 0x00; 0x00; 0x00; 0xf0].
Definition g_menu_title_u8g2 : list Z := [0x83DC; 0x5355].
Definition g_menu_item_text_1 : list Z := [0x884C; 0x9A76; 0x8BB0; 0x5F55].
Definition g_menu_item_text_2 : list Z := [0x8BBE; 0x5907; 0x72B6; 0x6001].
Definition g_menu_item_text_3 : list Z := [0x7CFB; 0x7EDF; 0x8BBE; 0x7F6E].
Definition g_menu_item_text_4 : list Z := [0x5B9A; 0x4F4D; 0x6A21; 0x5757; 0x72B6; 0x6001].
Definition g_menu_item_text_5 : list Z := [0x6574; 0x8F66; 0x72B6; 0x6001].
Definition g_menu_item_text_6 : list Z := [0x5B58; 0x50A8; 0x5668; 0x68C0; 0x6D4B].
Definition g_menu_item_text_7 : list Z := [0x5F55; 0x97F3; 0x5F55; 0x50CF; 0x68C0; 0x6D4B].
Definition g_menu_item_texts_u8g2 : list (list Z) := [g_menu_item_text_1; g_menu_item_text_2; g_menu_item_text_3].
Definition g_menu_item_text_counts_u8g2 : list Z := [4; 4; 4].
Definition g_drive_sub_item_1 : list Z := [0x75B2; 0x52B3; 0x9A7E; 0x9A76].
Definition g_drive_sub_item_2 : list Z := [0x4F4D; 0x7F6E; 0x5B9A; 0x4F4D].
Definition g_drive_sub_item_3 : list Z := [0x884C; 0x9A76; 0x8BB0; 0x5F55].
Definition g_drive_sub_item_4 : list Z := [0x9A7E; 0x9A76; 0x5458; 0x4FE1; 0x606F].
Definition g_drive_sub_item_5 : list Z := [0x8F66; 0x8F86; 0x4FE1; 0x606F].
Definition g_drive_sub_item_6 : list Z := [0x8F66; 0x8F86; 0x8F7D; 0x91CD; 0x4FE1; 0x606F].
Definition g_drive_sub_item_7 : list Z := [0x6570; 0x636E; 0x5BFC; 0x51FA].
Definition g_drive_sub_item_8 : list Z := [0x4FE1; 0x606F; 0x4E2D; 0x5FC3].
Definition g_drive_sub_item_9 : list Z := [0x901A; 0x8BDD; 0x8BB0; 0x5F55].
Definition g_drive_sub_item_texts_u8g2 : list (list Z) :=
  [g_drive_sub_item_1; g_drive_sub_item_2; g_drive_sub_item_3; g_drive_sub_item_4; g_drive_sub_item_5;
   g_drive_sub_item_6; g_drive_sub_item_7; g_drive_sub_item_8; g_drive_sub_item_9].
Definition g_drive_sub_item_counts_u8g2 : list Z := [4; 4; 4; 5; 4; 6; 4; 4; 4].
Definition g_device_sub_item_1 : list Z := [0x7248; 0x672C; 0x53F7; 0x67E5; 0x8BE2].
Definition g_device_sub_item_2 : list Z := [0x0047; 0x0046; 0x0052; 0x0053; 0x4FE1; 0x606F].
Definition g_device_sub_item_3 : list Z := [0x72B6; 0x6001; 0x81EA; 0x68C0].
Definition g_device_sub_item_4 : list Z := [0x5B9A; 0x4F4D; 0x6A21; 0x5757; 0x72B6; 0x6001].
Definition g_device_sub_item_5 : list Z := [0x6574; 0x8F66; 0x72B6; 0x6001].
Definition g_device_sub_item_6 : list Z := [0x5B58; 0x50A8; 0x5668; 0x68C0; 0x6D4B].
Definition g_device_sub_item_7 : list Z := [0x5F55; 0x97F3; 0x5F55; 0x50CF; 0x68C0; 0x6D4B].
Definition g_device_sub_item_8 : list Z := [0x901F; 0x5EA6; 0x67E5; 0x8BE2].
Definition g_device_sub_item_9 : list Z := [0x9A7E; 0x9A76; 0x5458; 0x72B6; 0x6001; 0x76D1; 0x63A7].
Definition g_info_center_item_1 : list Z := [0x6587; 0x672C; 0x4FE1; 0x606F].
Definition g_info_center_item_2 : list Z := [0x4FE1; 0x606F; 0x70B9; 0x64AD].
Definition g_info_center_item_3 : list Z := [0x4E8B; 0x4EF6; 0x4E0A; 0x62A5].
Definition g_info_center_item_4 : list Z := [0x7535; 0x5B50; 0x8FD0; 0x5355].
Definition g_info_center_item_texts_u8g2 : list (list Z) :=
  [g_info_center_item_1; g_info_center_item_2; g_info_center_item_3; g_info_center_item_4].
Definition g_info_center_item_counts_u8g2 : list Z := [4; 4; 4; 4].
Definition g_info_text_item_1 : list Z := [0x8C03; 0x5EA6; 0x4FE1; 0x606F].
Definition g_info_text_item_2 : list Z := [0x666E; 0x901A; 0x4FE1; 0x606F].
Definition g_info_text_item_3 : list Z := [0x6545; 0x969C; 0x4FE1; 0x606F].
Definition g_info_text_item_4 : list Z := [0x7D27; 0x6025; 0x4FE1; 0x606F].
Definition g_info_text_item_texts_u8g2 : list (list Z) :=
  [g_info_text_item_1; g_info_text_item_2; g_info_text_item_3; g_info_text_item_4].
Definition g_info_text_item_counts_u8g2 : list Z := [4; 4; 4; 4].
Definition g_device_sub_item_texts_u8g2 : list (list Z) :=
  [g_device_sub_item_1; g_device_sub_item_2; g_device_sub_item_3; g_device_sub_item_4; g_device_sub_item_5;
   g_device_sub_item_6; g_device_sub_item_7; g_device_sub_item_8; g_device_sub_item_9].
Definition g_device_sub_item_counts_u8g2 : list Z := [5; 6; 4; 6; 4; 5; 6; 4; 7].
Definition g_system_sub_item_1 : list Z := [0x6309; 0x952E; 0x97F3; 0x91CF; 0x8BBE; 0x7F6E].
Definition g_system_sub_item_2 : list Z := [0x5C4F; 0x5E55; 0x4EAE; 0x5EA6; 0x8BBE; 0x7F6E].
Definition g_system_sub_item_3 : list Z := [0x8F66; 0x8F86; 0x4FE1; 0x606F; 0x8BBE; 0x7F6E].
Definition g_system_sub_item_4 : list Z := [0x4E3B; 0x673A; 0x53C2; 0x6570; 0x8BBE; 0x7F6E].
Definition g_system_sub_item_5 : list Z := [0x521D; 0x59CB; 0x91CC; 0x7A0B].
Definition g_system_sub_item_6 : list Z := [0x4E3B; 0x673A; 0x6CE8; 0x518C].
Definition g_system_sub_item_7 : list Z := [0x4E3B; 0x673A; 0x6CE8; 0x9500].
Definition g_system_sub_item_8 : list Z := [0x8BB0; 0x5F55; 0x4EEA; 0x8F6F; 0x4EF6; 0x7248; 0x672C].
Definition g_system_sub_item_9 : list Z := [0x5143; 0x5668; 0x4EF6; 0x8F6F; 0x4EF6; 0x7248; 0x672C].
Definition g_system_sub_item_texts_u8g2 : list (list Z) :=
  [g_system_sub_item_1; g_system_sub_item_2; g_system_sub_item_3; g_system_sub_item_4; g_system_sub_item_5;
   g_system_sub_item_6; g_system_sub_item_7; g_system_sub_item_8; g_system_sub_item_9].
Definition g_system_sub_item_counts_u8g2 : list Z := [6; 6; 6; 6; 4; 4; 4; 7; 7].
Definition g_vehicle_info_setting_item_1 : list Z := [0x8F66; 0x8F86; 0x0056; 0x0049; 0x004E].
Definition g_vehicle_info_setting_item_2 : list Z := [0x8F66; 0x724C; 0x8BBE; 0x7F6E].
Definition g_vehicle_info_setting_item_3 : list Z := [0x8F66; 0x724C; 0x989C; 0x8272].
Definition g_vehicle_info_setting_item_4 : list Z := [0x8F66; 0x724C; 0x5206; 0x7C7B].
Definition g_vehicle_info_setting_item_5 : list Z := [0x7701; 0x57DF; 0x0049; 0x0044].
Definition g_vehicle_info_setting_item_6 : list Z := [0x5E02; 0x57DF; 0x0049; 0x0044].
Definition g_host_param_item_1 : list Z := [0x672C; 0x673A; 0x53F7; 0x7801; 0x8BBE; 0x7F6E].
Definition g_host_param_item_2 : list Z := [0x0053; 0x004F; 0x0053; 0x53F7; 0x7801; 0x8BBE; 0x7F6E].
Definition g_host_param_item_3 : list Z := [0x7B2C; 0x4E00; 0x670D; 0x52A1; 0x5668].
Definition g_host_param_item_4 : list Z := [0x7B2C; 0x4E8C; 0x670D; 0x52A1; 0x5668].
Definition g_host_param_item_texts_u8g2 : list (list Z) :=
  [g_host_param_item_1; g_host_param_item_2; g_host_param_item_3; g_host_param_item_4].
Definition g_host_param_item_counts_u8g2 : list Z := [6; 7; 5; 5].
Definition g_vehicle_info_setting_item_texts_u8g2 : list (list Z) :=
  [g_vehicle_info_setting_item_1; g_vehicle_info_setting_item_2; g_vehicle_info_setting_item_3;
   g_vehicle_info_setting_item_4; g_vehicle_info_setting_item_5; g_vehicle_info_setting_item_6].
Definition g_vehicle_info_setting_item_counts_u8g2 : list Z := [5; 4; 4; 4; 4; 4].
Definition g_vehicle_plate_class_item_1 : list Z := [0x4E58; 0x7528; 0x8F66].
Definition g_vehicle_plate_class_item_2 : list Z := [0x8D27; 0x8F66].
Definition g_vehicle_plate_class_item_3 : list Z := [0x4E13; 0x7528; 0x6C7D; 0x8F66].
Definition g_vehicle_plate_class_item_4 : list Z := [0x6302; 0x8F66].
Definition g_vehicle_plate_class_item_5 : list Z := [0x6C7D; 0x8F66; 0x5217; 0x8F66].
Definition g_vehicle_plate_class_item_texts_u8g2 : list (list Z) :=
  [g_vehicle_plate_class_item_1; g_vehicle_plate_class_item_2; g_vehicle_plate_class_item_3;
   g_vehicle_plate_class_item_4; g_vehicle_plate_class_item_5].
Definition g_vehicle_plate_class_item_counts_u8g2 : list Z := [3; 2; 4; 2; 4].
Definition g_vehicle_plate_color_item_1 : list Z := [0x84DD; 0x8272].
Definition g_vehicle_plate_color_item_2 : list Z := [0x9EC4; 0x8272].
Definition g_vehicle_plate_color_item_3 : list Z := [0x767D; 0x8272].
Definition g_vehicle_plate_color_item_4 : list Z := [0x9ED1; 0x8272].
Definition g_vehicle_plate_color_item_5 : list Z := [0x7EFF; 0x8272].
Definition g_vehicle_plate_color_item_texts_u8g2 : list (list Z) :=
  [g_vehicle_plate_color_item_1; g_vehicle_plate_color_item_2; g_vehicle_plate_color_item_3;
   g_vehicle_plate_color_item_4; g_vehicle_plate_color_item_5].
Definition g_vehicle_plate_color_item_counts_u8g2 : list Z := [2; 2; 2; 2; 2].
Definition g_lcd_plate_province_codes : list Z :=
  [0x4EAC; 0x6D25; 0x6CAA; 0x6E1D; 0x5180; 0x8C6B; 0x4E91; 0x8FBD; 0x9ED1; 0x6E58; 0x7696; 0x9C81; 0x65B0;
   0x82CF; 0x6D59; 0x8D63; 0x9102; 0x6842; 0x7518; 0x664B; 0x8499; 0x9655; 0x5409; 0x95FD; 0x8D35; 0x7CA4;
   0x9752; 0x85CF; 0x5DDD; 0x5B81; 0x743C].
Definition g_lcd_plate_letters : list Z :=
  [65; 66; 67; 68; 69; 70; 71; 72; 73; 74; 75; 76; 77; 78; 79; 80; 81; 82; 83; 84; 85; 86; 87; 88; 89; 90; 0].
Definition g_lcd_plate_tail_chars : list Z :=
  [48; 49; 50; 51; 52; 53; 54; 55; 56; 57; 65; 66; 67; 68; 69; 70; 71; 72; 73; 74; 75; 76; 77; 78; 79; 80; 81;
   82; 83; 84; 85; 86; 87; 88; 89; 90; 0].

(** ** List resources *)

Record lcd_ui_list_resource_t := mk_resource {
  res_page_id : lcd_page_id_t; res_item_texts : list (list Z); res_item_counts : list Z; res_item_count : Z;
  res_title_text : list Z; res_title_count : Z
}.

Definition g_lcd_list_resources : list lcd_ui_list_resource_t := [
  mk_resource LCD_PAGE_DRIVE_RECORD_MENU g_drive_sub_item_texts_u8g2 g_drive_sub_item_counts_u8g2 9 g_menu_item_text_1 4;
  mk_resource LCD_PAGE_DEVICE_STATUS_MENU g_device_sub_item_texts_u8g2 g_device_sub_item_counts_u8g2 9 g_menu_item_text_2 4;
  mk_resource LCD_PAGE_SYSTEM_SETTING_MENU g_system_sub_item_texts_u8g2 g_system_sub_item_counts_u8g2 9 g_menu_item_text_3 4;
  mk_resource LCD_PAGE_SYSTEM_SETTING_VEHICLE_INFO g_vehicle_info_setting_item_texts_u8g2 g_vehicle_info_setting_item_counts_u8g2 6 g_system_sub_item_3 6;
  mk_resource LCD_PAGE_SYSTEM_SETTING_VEHICLE_INFO_PLATE_COLOR g_vehicle_plate_color_item_texts_u8g2 g_vehicle_plate_color_item_counts_u8g2 5 g_vehicle_info_setting_item_3 4;
  mk_resource LCD_PAGE_SYSTEM_SETTING_VEHICLE_INFO_PLATE_CLASS g_vehicle_plate_class_item_texts_u8g2 g_vehicle_plate_class_item_counts_u8g2 5 g_vehicle_info_setting_item_4 4;
  mk_resource LCD_PAGE_DRIVE_RECORD_INFO_CENTER g_info_center_item_texts_u8g2 g_info_center_item_counts_u8g2 4 g_drive_sub_item_8 4;
  mk_resource LCD_PAGE_DRIVE_RECORD_INFO_CENTER_TEXT g_info_text_item_texts_u8g2 g_info_text_item_counts_u8g2 4 g_info_center_item_1 4;
  mk_resource LCD_PAGE_SYSTEM_SETTING_HOST_PARAM g_host_param_item_texts_u8g2 g_host_param_item_counts_u8g2 4 g_system_sub_item_4 6
].

(** [lcd_get_list_page_resources] over the registered array: the first entry
    of the page ([None]: [RT_FALSE]). *)
Definition lcd_get_list_page_resources (p : lcd_page_id_t) : option lcd_ui_list_resource_t :=
  List.find (fun r => bool_decide (res_page_id r = p)) g_lcd_list_resources.

(** [strchr], as an index: the terminator is part of the string. *)
Fixpoint strchr_from (s : list Z) (c i : Z) : option Z :=
  match s with
  | [] => None
  | x :: s => if x =? c then Some i else if x =? 0 then None else strchr_from s c (i + 1)
  end.
Definition strchr (s : list Z) (c : Z) : option Z := strchr_from s c 0.

(** ** Lemmas *)

Lemma tail_chars_index i : 0 <= i < 36 -> strchr g_lcd_plate_tail_chars (get g_lcd_plate_tail_chars i) = Some i.
Proof.
  intros Hi. assert (forallb (fun i => bool_decide (strchr g_lcd_plate_tail_chars (get g_lcd_plate_tail_chars (Z.of_nat i)) =
    Some (Z.of_nat i))) (seq 0 36) = true) as H by (vm_compute; reflexivity).
  rewrite forallb_forall in H. specialize (H (Z.to_nat i)). rewrite in_seq, Z2Nat.id in H by lia.
  apply (bool_decide_unpack _), Is_true_true, H. lia.
Qed.

(** ** Properties *)

(** The list resources match the page table and their own sizes: one entry
    at most per page, as many texts and lengths as items, every text at least
    as long as it is drawn, and as many items as the page lets select. *)
Theorem list_resources_fit p r :
  lcd_get_list_page_resources p = Some r ->
  res_page_id r = p /\ res_item_count r = Z.of_nat (length (res_item_texts r)) /\
  length (res_item_counts r) = length (res_item_texts r) /\
  Forall2 (fun t n => n = Z.of_nat (length t)) (res_item_texts r) (res_item_counts r) /\
  res_title_count r <= Z.of_nat (length (res_title_text r)) /\
  lcd_page_get_select_count registered p = res_item_count r.
Proof.
  intros H. apply List.find_some in H as [Hin Hp]. apply bool_decide_eq_true in Hp as <-.
  repeat (destruct Hin as [<- | Hin]; [split_and!; first [reflexivity | by repeat constructor | by vm_compute] |]).
  by destruct Hin.
Qed.

Lemma list_resources_fit_witness :
  exists r, lcd_get_list_page_resources LCD_PAGE_SYSTEM_SETTING_MENU = Some r /\ res_item_count r = 9 /\
  lcd_page_get_select_count registered LCD_PAGE_SYSTEM_SETTING_MENU = res_item_count r.
Proof.
  eexists. split; [reflexivity |]. split; [reflexivity |].
  apply (list_resources_fit LCD_PAGE_SYSTEM_SETTING_MENU _ eq_refl).
Defined.

(** Display and host agree on the provinces: the UTF-8 name the status
    frame carries for an index is that of the character the plate editor shows
    for it. *)
Theorem province_names_agree : map utf8 g_lcd_plate_province_codes = g_mcu_plate_province_utf8.
Proof. vm_compute. reflexivity. Qed.
