(* ===== verification/LcdRender.v ===== *)
(** * The pages as drawing calls ([svc_lcd.c], [lcd_ui.c])

    Every drawing function of the display as the list of u8g2 calls it makes,
    a function of the state it reads.  [u8g2_port_get] returns the address of a
    static object, so the null checks of the sources never fire.  The widths of
    the glyphs come from the font tables of u8g2 and are a parameter. *)

From Stdlib Require Import String.
From S2P Require Import Prelude Printf Platform AppTypes McuStatus LcdPages LcdGfx LcdState LcdTime LcdText LcdTables.

Class FontMetrics := { glyph_width : font -> Z -> Z }.

Definition colon : list Z := str ":".

(** ** Helpers *)

(** [for (i = 0; i < n; i++)], collecting what is drawn. *)
Definition each (n : Z) (f : Z -> list draw) : list draw := flat_map (fun i => f (Z.of_nat i)) (seq 0 (Z.to_nat n)).

(** What most pages begin with. *)
Definition page_begin : list draw := [ClearBuffer; SetFontMode 1; SetDrawColor 1].

(** A box behind what is drawn next, in inverted colour. *)
Definition highlight (b : bool) (x y w h : Z) : list draw := if b then [DrawBox x y w h; SetDrawColor 0] else [].

Section Render.
Context `{FontMetrics}.

Fixpoint draw_glyphs (f : font) (x y : Z) (codes : list Z) : list draw :=
  match codes with
  | [] => []
  | c :: codes => DrawGlyph x y c :: draw_glyphs f (u16 (x + glyph_width f c)) y codes
  end.

Definition lcd_u8g2_draw_unicode_seq (f : font) (x y : Z) (codes : list Z) (count : Z) : list draw :=
  draw_glyphs f x y (take (Z.to_nat count) codes).

Definition lcd_u8g2_get_unicode_seq_width (f : font) (codes : list Z) (count : Z) : Z :=
  foldl (fun width c => u16 (width + glyph_width f c)) 0 (take (Z.to_nat count) codes).

(** All calls below draw Chinese text with the 12-pixel font set. *)
Abbreviation draw_cn := (lcd_u8g2_draw_unicode_seq LCD_FONT_CN_12).

(** ** Lists and menus *)

Definition list_item (index baseline_y : Z) (selected : bool) (text : list Z) (count : Z) : list draw :=
  (if selected then [SetDrawColor 1; DrawBox 0 (u8 (baseline_y - 11)) LCD_COLS 13; SetDrawColor 0]
   else [SetDrawColor 1]) ++
  [SetFont LCD_FONT_ASCII_SMALL; DrawStr 2 baseline_y (sprinted 4 "%u." [VInt (index + 1)]); SetFont LCD_FONT_CN_12] ++
  draw_cn 16 baseline_y text count ++ [SetDrawColor 1].

Definition lcd_u8g2_draw_menu_item (index baseline_y : Z) (selected : bool) : list draw :=
  list_item index baseline_y selected (nth (Z.to_nat index) g_menu_item_texts_u8g2 [])
    (get g_menu_item_text_counts_u8g2 index).

Definition lcd_u8g2_draw_submenu_item (page : lcd_page_id_t) (index baseline_y : Z) (selected : bool) : list draw :=
  match lcd_get_list_page_resources page with
  | None => [SetDrawColor 1]
  | Some r =>
      if res_item_count r <=? index then [SetDrawColor 1]
      else list_item index baseline_y selected (nth (Z.to_nat index) (res_item_texts r) []) (get (res_item_counts r) index)
  end.

(** Rows [page_start .. page_start + row_count - 1] of a list, at the given
    heights. *)
Definition draw_rows (item : Z -> Z -> bool -> list draw) (page_start row_count selected_index : Z) (row_y : list Z)
    : list draw :=
  each row_count (fun row =>
    let item_index := u8 (page_start + row) in
    item item_index (get row_y row) (item_index =? selected_index)).

Definition lcd_render_menu_ui (u : lcd_ui) : list draw :=
  let selected_index := get (g_lcd_page_selected u) (page_num LCD_PAGE_MAIN_MENU) in
  page_begin ++
  (if selected_index <? 3 then
     [SetFont LCD_FONT_CN_12] ++ draw_cn 2 12 g_menu_title_u8g2 2 ++
     draw_rows lcd_u8g2_draw_menu_item 0 3 selected_index [28; 42; 56]
   else draw_rows lcd_u8g2_draw_menu_item 3 4 selected_index [14; 28; 42; 56]) ++
  [FlushBuffer].

Definition lcd_render_submenu_ui (u : lcd_ui) : list draw :=
  let depth := default 0 (lcd_page_get_depth 55 (g_lcd_registry u) (g_lcd_current_page_id u)) in
  page_begin ++
  [SetFont LCD_FONT_ASCII_SMALL; DrawStr 18 24 (str "SUBMENU");
   DrawStr 18 40 (sprinted 12 "LEVEL %u" [VInt depth]); FlushBuffer].

(** First row and number of rows of the part of a list that is shown, and
    their heights; [None]: no branch of the code applies. *)
Definition list_window (show_title : bool) (item_count selected_index : Z) : option (Z * Z * list Z) :=
  if show_title then
    if selected_index <? 3 then Some (0, if item_count <? 3 then item_count else 3, [28; 42; 56])
    else if (selected_index <? 7) && (3 <? item_count) then
      let row_count := u8 (item_count - 3) in Some (3, if 4 <? row_count then 4 else row_count, [14; 28; 42; 56])
    else if 7 <? item_count then
      let row_count := u8 (item_count - 7) in Some (7, if 2 <? row_count then 2 else row_count, [28; 42])
    else None
  else if selected_index <? 4 then Some (0, if item_count <? 4 then item_count else 4, [16; 30; 44; 58])
  else let row_count := u8 (item_count - 4) in Some (4, if 4 <? row_count then 4 else row_count, [16; 30; 44; 58]).

Definition lcd_render_drive_record_submenu_ui (u : lcd_ui) : list draw :=
  let page := g_lcd_current_page_id u in
  let show := match lcd_get_page_node (g_lcd_registry u) page with Some n => show_title n | None => true end in
  page_begin ++
  match lcd_get_list_page_resources page with
  | None => lcd_render_submenu_ui u
  | Some r =>
      let selected_index := get (g_lcd_page_selected u) (page_num page) in
      (if show && (selected_index <? 3)
       then [SetFont LCD_FONT_CN_12] ++ draw_cn 2 12 (res_title_text r) (res_title_count r) else []) ++
      match list_window show (res_item_count r) selected_index with
      | Some (page_start, row_count, row_y) =>
          draw_rows (lcd_u8g2_draw_submenu_item page) page_start row_count selected_index row_y
      | None => []
      end ++ [FlushBuffer]
  end.

(** Two choices below each other. *)
Definition two_choices (selected_index : Z) (t0 : list Z) (n0 : Z) (t1 : list Z) (n1 : Z) : list draw :=
  highlight (selected_index =? 0) 0 11 LCD_COLS 15 ++ draw_cn 2 23 t0 n0 ++ [SetDrawColor 1] ++
  highlight (selected_index =? 1) 0 31 LCD_COLS 15 ++ draw_cn 2 43 t1 n1 ++ [SetDrawColor 1].

Definition lcd_render_key_volume_ui (u : lcd_ui) : list draw :=
  page_begin ++ [SetFont LCD_FONT_CN_12] ++
  two_choices (get (g_lcd_page_selected u) (page_num LCD_PAGE_SYSTEM_SETTING_KEY_VOLUME))
    [0x6309; 0x952E; 0x9759; 0x97F3] 4 [0x6309; 0x952E; 0x53D1; 0x97F3] 4 ++ [FlushBuffer].

Definition lcd_render_common_config_ok_ui : list draw :=
  page_begin ++ [SetFont LCD_FONT_CN_12] ++
  draw_cn 24 32 [0x914D; 0x7F6E; 0x6570; 0x636E; 0x6210; 0x529F; 0xFF01] 7 ++
  [DrawFrame 46 46 40 14] ++ draw_cn 54 58 [0x786E; 0x8BA4] 2 ++ [FlushBuffer].

Definition lcd_render_brightness_menu_ui (u : lcd_ui) : list draw :=
  page_begin ++ [SetFont LCD_FONT_CN_12] ++
  two_choices (get (g_lcd_page_selected u) (page_num LCD_PAGE_SYSTEM_SETTING_BRIGHTNESS))
    [0x80CC; 0x5149; 0x6301; 0x7EED; 0x65F6; 0x95F4; 0x8BBE; 0x7F6E] 8
    [0x5C4F; 0x5E55; 0x4EAE; 0x5EA6; 0x8BBE; 0x7F6E] 6 ++ [FlushBuffer].

(** The cells of the two-column setting pages. *)
Definition left_cell (sel : bool) (y : Z) (text : list Z) (count : Z) : list draw :=
  highlight sel 0 (y - 12) 58 15 ++ draw_cn 2 y text count ++ [SetDrawColor 1].
Definition right_cell (sel : bool) (y : Z) (text : list Z) (count : Z) : list draw :=
  let width := lcd_u8g2_get_unicode_seq_width LCD_FONT_CN_12 text count in
  let right_x := u16 (LCD_COLS - 2 - width) in
  highlight sel 66 (y - 12) (u8 (LCD_COLS - 66)) 15 ++ draw_cn right_x y text count ++ [SetDrawColor 1].

Definition lcd_render_backlight_time_ui (u : lcd_ui) : list draw :=
  let s := get (g_lcd_page_selected u) (page_num LCD_PAGE_SYSTEM_SETTING_BACKLIGHT_TIME) in
  page_begin ++ [SetFont LCD_FONT_CN_12] ++
  left_cell (s =? 0) 23 [0x5173; 0x95ED] 2 ++ right_cell (s =? 1) 23 [0x0031; 0x0035; 0x79D2] 3 ++
  left_cell (s =? 2) 39 [0x0033; 0x0030; 0x79D2] 3 ++ right_cell (s =? 3) 39 [0x0031; 0x006D; 0x0069; 0x006E] 4 ++
  left_cell (s =? 4) 55 [0x0032; 0x006D; 0x0069; 0x006E] 4 ++ right_cell (s =? 5) 55 [0x5E38; 0x4EAE] 2 ++
  [FlushBuffer].

Definition lcd_render_brightness_level_ui (u : lcd_ui) : list draw :=
  let s := get (g_lcd_page_selected u) (page_num LCD_PAGE_SYSTEM_SETTING_BRIGHTNESS_LEVEL) in
  page_begin ++ [SetFont LCD_FONT_CN_12] ++
  left_cell (s =? 0) 23 [0x0031; 0x0030; 0x0025] 3 ++ right_cell (s =? 1) 23 [0x0033; 0x0030; 0x0025] 3 ++
  left_cell (s =? 2) 39 [0x0035; 0x0030; 0x0025] 3 ++ right_cell (s =? 3) 39 [0x0037; 0x0030; 0x0025] 3 ++
  highlight (s =? 4) 0 43 LCD_COLS 15 ++ draw_cn 2 55 [0x0031; 0x0030; 0x0030; 0x0025] 4 ++ [SetDrawColor 1] ++
  [FlushBuffer].

(** ** Data pages *)

Definition lcd_render_fatigue_drive_record_ui (u : lcd_ui) : list draw :=
  page_begin ++ [SetFont LCD_FONT_CN_12] ++ draw_cn 2 16 [0x8D85; 0x65F6; 0x9A7E; 0x9A76; 0x8BB0; 0x5F55] 6 ++
  [DrawStr 74 16 colon; SetFont LCD_FONT_ASCII_SMALL;
   DrawStr 86 16 (sprinted 12 "%u" [VInt (g_lcd_overtime_drive_count u)]); FlushBuffer].

(** Kilometres with three decimals. *)
Definition mileage_string (km rem_m : Z) : list Z := sprinted 24 "%lu.%03u km" [VInt km; VInt rem_m].

Definition lcd_render_drive_mileage_ui (u : lcd_ui) : list draw :=
  page_begin ++ [SetFont LCD_FONT_CN_12] ++ draw_cn 2 16 [0x7D2F; 0x8BA1; 0x884C; 0x9A76; 0x91CC; 0x7A0B] 6 ++
  [SetFont LCD_FONT_ASCII_SMALL;
   DrawStr 2 38 (mileage_string (g_lcd_total_mileage_km u) (g_lcd_total_mileage_rem_m u)); FlushBuffer].

Definition lcd_render_driver_info_ui (u : lcd_ui) : list draw :=
  let card := h_card_id (g_lcd_home_ui u) in
  let all_zero := forallb (fun i => get card (Z.of_nat i) =? 48) (seq 0 18) in
  page_begin ++ [SetFont LCD_FONT_CN_12] ++ draw_cn 2 14 [0x9A7E; 0x9A76; 0x5458; 0x8BC1; 0x53F7] 5 ++
  [DrawStr 64 14 colon; SetFont LCD_FONT_ASCII_SMALL; DrawStr 2 32 (cstr card); SetFont LCD_FONT_CN_12] ++
  (if all_zero then draw_cn 2 50 [0x672A; 0x767B; 0x5F55] 3 else draw_cn 2 50 [0x5DF2; 0x767B; 0x5F55] 3) ++
  [FlushBuffer].

Definition lcd_render_info_center_dispatch_ui : list draw :=
  page_begin ++ [SetFont LCD_FONT_CN_12] ++ draw_cn 2 16 [0x8C03; 0x5EA6; 0x4FE1; 0x606F] 4 ++
  [DrawStr 50 16 colon; SetFont LCD_FONT_ASCII_SMALL; DrawStr 58 16 (str "0"); SetFont LCD_FONT_CN_12] ++
  draw_cn 70 16 [0x65F6; 0x95F4] 2 ++ [DrawStr 94 16 colon] ++ draw_cn 102 16 [0x65E0] 1 ++
  draw_cn 2 36 [0x65E0; 0x6587; 0x672C] 3 ++ [FlushBuffer].

Definition lcd_render_vehicle_info_ui : list draw :=
  page_begin ++ [SetFont LCD_FONT_CN_12] ++
  draw_cn 2 12 [0x8F66; 0x724C; 0x53F7] 3 ++ [DrawStr 38 12 colon] ++
  draw_cn 2 24 [0x8F66; 0x8F86; 0x5206; 0x7C7B] 4 ++ [DrawStr 50 24 colon] ++
  draw_cn 2 36 [0x7EC8; 0x7AEF; 0x0049; 0x0044] 4 ++ [DrawStr 46 36 colon] ++
  draw_cn 2 48 [0x8109; 0x51B2; 0x7CFB; 0x6570] 4 ++ [DrawStr 50 48 colon] ++
  [SetFont LCD_FONT_ASCII_SMALL; DrawStr 56 48 (str "3600 P/Km"); SetFont LCD_FONT_CN_12] ++
  draw_cn 2 60 [0x0056; 0x0049; 0x004E; 0x7801] 4 ++ [DrawStr 38 60 colon; FlushBuffer].

Definition lcd_vehicle_draw_symbol (x y : Z) (ok : bool) : list draw :=
  if ok then
    [DrawLine (x + 1) (y - 5) (x + 4) (y - 2); DrawLine (x + 4) (y - 2) (x + 10) (y - 10);
     DrawLine (x + 1) (y - 4) (x + 4) (y - 1); DrawLine (x + 4) (y - 1) (x + 10) (y - 9)]
  else
    [DrawLine (x + 1) (y - 10) (x + 9) (y - 2); DrawLine (x + 9) (y - 10) (x + 1) (y - 2);
     DrawLine (x + 2) (y - 10) (x + 10) (y - 2); DrawLine (x + 10) (y - 10) (x + 2) (y - 2)].

Definition lcd_vehicle_draw_cn_left (y : Z) (label : list Z) (label_count : Z) (ok : bool) : list draw :=
  draw_cn 2 y label label_count ++ lcd_vehicle_draw_symbol (u8 (2 + label_count * 12 + 2)) y ok.

Definition lcd_vehicle_draw_cn_right (y : Z) (label : list Z) (label_count : Z) (ok : bool) : list draw :=
  let symbol_x := 118 in
  let label_x := u8 (symbol_x - 2 - label_count * 12) in
  draw_cn label_x y label label_count ++ lcd_vehicle_draw_symbol symbol_x y ok.

Definition lcd_vehicle_draw_ascii_left (y : Z) (label : list Z) (ok : bool) : list draw :=
  [SetFont LCD_FONT_ASCII_SMALL; DrawStr 2 y label; SetFont LCD_FONT_CN_12] ++ lcd_vehicle_draw_symbol 32 y ok.

Definition lcd_vehicle_draw_ascii_right (y : Z) (label : list Z) (ok : bool) : list draw :=
  [SetFont LCD_FONT_ASCII_SMALL; DrawStr 84 y label; SetFont LCD_FONT_CN_12] ++ lcd_vehicle_draw_symbol 118 y ok.

Definition lit (x : Z) : bool := negb (x =? 0).

Definition lcd_render_vehicle_status_ui (u : lcd_ui) (s : app_vehicle_io_state_t) : list draw :=
  let page := get (g_lcd_page_selected u) (page_num LCD_PAGE_DEVICE_STATUS_VEHICLE) in
  page_begin ++ [SetFont LCD_FONT_CN_12] ++
  (if page =? 0 then
     lcd_vehicle_draw_ascii_left 14 (str "ACC") (lit (wk_acc s)) ++
     lcd_vehicle_draw_ascii_right 14 (str "ON") (lit (wk_on s)) ++
     lcd_vehicle_draw_cn_left 34 [0x5236; 0x52A8] 2 (lit (sw_kl2 s)) ++
     lcd_vehicle_draw_cn_right 34 [0x5DE6; 0x8F6C; 0x5411; 0x706F] 4 (lit (sw_kl3 s)) ++
     lcd_vehicle_draw_cn_left 54 [0x53F3; 0x8F6C; 0x5411; 0x706F] 4 (lit (sw_kl4 s)) ++
     lcd_vehicle_draw_cn_right 54 [0x5C0F; 0x706F] 2 (lit (sw_kl1 s))
   else if page =? 1 then
     lcd_vehicle_draw_ascii_left 14 (str "SOS") true ++
     lcd_vehicle_draw_cn_right 14 [0x8FDC; 0x5149; 0x706F] 3 (lit (sw_kl5 s)) ++
     lcd_vehicle_draw_cn_left 34 [0x8FD1; 0x5149; 0x706F] 3 (lit (sw_kl6 s)) ++
     lcd_vehicle_draw_cn_right 34 [0x540E; 0x96FE; 0x706F] 3 (lit (sw_kl7 s)) ++
     lcd_vehicle_draw_cn_left 54 [0x5012; 0x8F66] 2 (lit (sw_kl8 s)) ++
     lcd_vehicle_draw_cn_right 54 [0x8F66; 0x95E8] 2 (negb (lit (sw_kl10 s)))
   else lcd_vehicle_draw_cn_left 24 [0x5EA7; 0x6905; 0x5B89; 0x5168; 0x5E26] 5 (negb (lit (sw_kl9 s)))) ++
  [FlushBuffer].

Definition lcd_render_vehicle_load_status_ui (u : lcd_ui) : list draw :=
  let texts := [[0x8BBE; 0x4E3A; 0x7A7A; 0x8F7D]; [0x8BBE; 0x4E3A; 0x534A; 0x8F7D]; [0x8BBE; 0x4E3A; 0x6EE1; 0x8F7D]] in
  page_begin ++
  each 3 (fun i =>
    let y := u8 (18 + i * 16) in
    highlight (get (g_lcd_page_selected u) (page_num LCD_PAGE_DRIVE_RECORD_LOAD_STATUS) =? i) 0 (u8 (y - 11)) LCD_COLS 13 ++
    [SetFont LCD_FONT_CN_12] ++ draw_cn 10 y (nth (Z.to_nat i) texts []) 4 ++ [SetDrawColor 1]) ++
  [FlushBuffer].

Definition lcd_render_vehicle_load_status_ok_ui : list draw :=
  page_begin ++ [SetFont LCD_FONT_CN_12] ++ draw_cn 34 28 [0x8BBE; 0x7F6E; 0x6210; 0x529F] 4 ++
  draw_cn 52 58 [0x786E; 0x8BA4] 2 ++ [FlushBuffer].

(** A speed in tenths. *)
Definition speed_string (speed : Z) : list Z :=
  sprinted 16 "%u.%u km/h" [VInt (speed / 10); VInt (speed mod 10)].

Definition lcd_render_location_status_ui (u : lcd_ui) : list draw :=
  let h := g_lcd_home_ui u in
  page_begin ++ [SetFont LCD_FONT_CN_12] ++ draw_cn 2 16 [0x536B; 0x661F] 2 ++
  [DrawStr 28 16 colon; SetFont LCD_FONT_ASCII_SMALL; DrawStr 36 16 (sprinted 8 "%02u" [VInt (h_top_status_value h)]);
   DrawStr 72 16 (speed_string (h_speed_kmh_x10 h)); SetFont LCD_FONT_CN_12] ++
  (if h_top_status_value h =? 0 then draw_cn 2 38 [0x672A; 0x5B9A; 0x4F4D] 3 else draw_cn 2 38 [0x5DF2; 0x5B9A; 0x4F4D] 3) ++
  [FlushBuffer].

Definition lcd_render_device_version_ui : list draw :=
  page_begin ++ [SetFont LCD_FONT_CN_12] ++ draw_cn 2 18 [0x8F6F; 0x4EF6; 0x7248; 0x672C] 4 ++
  [SetFont LCD_FONT_ASCII_SMALL; DrawStr 54 18 colon; DrawStr 62 18 APP_SOFTWARE_VERSION; FlushBuffer].

(** ** Home page *)

(** The bits of a 12x12 icon, row by row, as [u8g2_DrawXBMP] takes them. *)
Definition icon_bit (bits row : Z) (xbmp : list Z) (col : Z) : list Z :=
  if negb (Z.land bits (u16 (Z.shiftl 1 col)) =? 0) then
    let i := row * 2 + Z.shiftr col 3 in put xbmp i (u8 (Z.lor (get xbmp i) (u8 (Z.shiftl 1 (Z.land col 7)))))
  else xbmp.

Definition lcd_u8g2_draw_bitmap12x12 (x y : Z) (glyph : list Z) : list draw :=
  let xbmp := foldl (fun xbmp row =>
      let row := Z.of_nat row in
      let bits := Z.lor (get glyph (row * 2)) (u16 (Z.shiftl (get glyph (row * 2 + 1)) 8)) in
      foldl (fun xbmp col => icon_bit bits row xbmp (Z.of_nat col)) xbmp (seq 0 12)) (zeros 24) (seq 0 12) in
  [DrawXBMP x y 12 12 xbmp].

Definition lcd_u8g2_draw_top_icons (u : lcd_ui) (x y : Z) : list draw :=
  let v := h_top_status_value (g_lcd_home_ui u) in
  lcd_u8g2_draw_bitmap12x12 x y g_icon_signal_12x12 ++
  (if negb (v =? 0) then
     lcd_u8g2_draw_bitmap12x12 (u8 (x + 18)) y g_icon_g_12x12 ++
     lcd_u8g2_draw_bitmap12x12 (u8 (x + 36)) y g_icon_status_12x12 ++
     [SetFont u8g2_font_5x7_tf; DrawStr (u8 (x + 50)) (u8 (y + 9)) (sprinted 4 "%02u" [VInt v])]
   else []).

Definition time_string (h m s : Z) : list Z :=
  sprinted 16 "%02u:%02u:%02u" [VInt h; VInt m; VInt s].

(** A coordinate in millionths. *)
Definition coord_string (negative : bool) (v : Z) : list Z :=
  sprinted 24 "%s%lu.%06lu" [VStr (Some (if negative then str "-" else [])); VInt (v / 1000000); VInt (v mod 1000000)].

Definition date_string (timestamp : Z) : list Z :=
  let '(year, month, day, hour, minute) := lcd_timestamp_to_local_ymdhm timestamp in
  sprinted 24 "%u.%u.%u    %02u:%02u" [VInt year; VInt month; VInt day; VInt hour; VInt minute].

Definition lcd_render_home_sub_ui (u : lcd_ui) : list draw :=
  let h := g_lcd_home_ui u in
  page_begin ++ lcd_u8g2_draw_top_icons u 2 2 ++
  [SetFont LCD_FONT_CN_12] ++ draw_cn 2 24 [0x7EAC; 0x5EA6; 0xFF1A] 3 ++ draw_cn 2 40 [0x7ECF; 0x5EA6; 0xFF1A] 3 ++
  [SetFont LCD_FONT_ASCII_SMALL;
   DrawStr 40 24 (coord_string (negb (h_latitude_direction h =? 0)) (h_latitude h));
   DrawStr 40 40 (coord_string (negb (h_longitude_direction h =? 0)) (h_longitude h));
   DrawStr 8 56 (date_string (h_timestamp h)); FlushBuffer].

Definition lcd_render_home_ui (subpage : Z) (u : lcd_ui) : list draw :=
  let h := g_lcd_home_ui u in
  if negb (subpage =? 0) then lcd_render_home_sub_ui u
  else
    [ClearBuffer; SetFontMode 1; SetDrawColor 1] ++ lcd_u8g2_draw_top_icons u 2 2 ++
    [SetFont LCD_FONT_ASCII_SMALL; DrawStr 10 24 (speed_string (h_speed_kmh_x10 h));
     DrawStr 72 24 (time_string (h_hour h) (h_minute h) (h_second h)); SetFont LCD_FONT_CN_12] ++
    draw_cn 8 40 [0x8FDE; 0x7EED; 0x9A7E; 0x9A76] 4 ++
    [SetFont LCD_FONT_ASCII_SMALL; DrawStr 72 40 (time_string (h_drive_hour h) (h_drive_minute h) (h_drive_second h));
     DrawBox 2 50 6 8; SetFont LCD_FONT_ASCII_SMALL; DrawStr 12 58 (cstr (h_card_id h)); FlushBuffer].

Definition lcd_render_boot_check_ui : list draw :=
  page_begin ++ [SetFont LCD_FONT_CN_12] ++ draw_cn 28 30 [0x6B63; 0x5728; 0x81EA; 0x68C0] 4 ++
  [SetFont LCD_FONT_ASCII_SMALL; DrawStr 76 30 (str "......"); FlushBuffer].

(** ** Text page *)

Definition draw_text_lines (lines : list (list Z)) : list draw :=
  each 3 (fun line => draw_glyphs LCD_FONT_CN_12 2 (u16 (16 + line * 16)) (nth (Z.to_nat line) lines [])).

(** The picture and the message with its page count; [None]: the loops ran
    out of fuel. *)
Definition lcd_render_info_center_text_normal_ui (m : lcd_text_msg_t) : option (list draw * lcd_text_msg_t) :=
  '(lines, m) ← render_text m;
  Some (page_begin ++ [SetFont LCD_FONT_CN_12] ++
    match lines with
    | None => draw_cn 2 28 [0x65E0; 0x6587; 0x672C] 3 ++ [FlushBuffer]
    | Some lines =>
        draw_text_lines lines ++
        [SetFont LCD_FONT_ASCII_SMALL;
         DrawStr 96 62 (sprinted 16 "%u/%u" [VInt (t_page_index m + 1); VInt (t_page_count m)]); FlushBuffer]
    end, m).

(** ** Editors *)

Definition lcd_render_local_phone_ui (e : phone_editor) : list draw :=
  let cursor_x := u8 (62 + ph_cursor e * 6) in
  page_begin ++ [SetFont LCD_FONT_CN_12] ++ draw_cn 2 12 [0x672C; 0x673A; 0x53F7; 0x7801; 0xFF1A] 5 ++
  [SetFont LCD_FONT_ASCII_SMALL; DrawStr 62 12 (cstr (ph_digits e))] ++
  (if ph_focus e =? 0 then
     [DrawBox (cursor_x - 1) 2 8 12; SetDrawColor 0; SetFont LCD_FONT_ASCII_SMALL;
      DrawStr cursor_x 12 (cstr [get (ph_digits e) (ph_cursor e)]); SetDrawColor 1]
   else [DrawFrame (cursor_x - 1) 2 8 12]) ++
  [SetFont LCD_FONT_ASCII_SMALL] ++
  each 10 (fun i =>
    let x := u8 (4 + i * 12) in
    highlight ((ph_focus e =? 1) && (i =? ph_selected_digit e)) (x - 1) 20 10 12 ++
    [DrawStr x 30 [48 + i]; SetDrawColor 1]) ++
  [SetFont LCD_FONT_CN_12] ++
  highlight ((ph_focus e =? 2) && (ph_func_index e =? 0)) 10 40 34 14 ++ draw_cn 16 52 [0x9000; 0x51FA] 2 ++ [SetDrawColor 1] ++
  highlight ((ph_focus e =? 2) && (ph_func_index e =? 1)) 78 40 34 14 ++ draw_cn 84 52 [0x4FDD; 0x5B58] 2 ++ [SetDrawColor 1] ++
  [FlushBuffer].

Definition lcd_plate_draw_ascii_cell (x y ch : Z) (selected : bool) : list draw :=
  highlight selected (u8 (x - 1)) (u8 (y - 10)) 8 12 ++ [DrawStr x y (cstr [ch]); SetDrawColor 1].

Definition lcd_plate_draw_ascii_option (x y ch : Z) (selected : bool) : list draw :=
  highlight selected (u8 (x - 1)) (u8 (y - 10)) 9 12 ++ [DrawStr x y (cstr [ch]); SetDrawColor 1].

Definition lcd_plate_draw_top_line (e : plate_editor) : list draw :=
  if (pl_valid e =? 0) && (pl_dirty e =? 0) then [SetFont LCD_FONT_ASCII_SMALL; DrawStr 2 12 (str "_ _._ _ _ _ _")]
  else
    [SetFont LCD_FONT_CN_12] ++ highlight (pl_focus e =? 0) 1 1 14 14 ++
    [DrawGlyph 2 12 (get g_lcd_plate_province_codes (pl_province_index e)); SetDrawColor 1; SetFont LCD_FONT_ASCII_SMALL] ++
    lcd_plate_draw_ascii_cell 18 12 (get g_lcd_plate_letters (pl_letter_index e)) (pl_focus e =? 1) ++
    [DrawStr 26 12 (str ".")] ++
    each 5 (fun i => lcd_plate_draw_ascii_cell (get [34; 42; 50; 58; 66] i) 12
                       (get g_lcd_plate_tail_chars (get (pl_digits e) i)) (pl_focus e =? 2 + i)).

(** First option shown in the option area of the plate editor. *)
Definition province_start (index : Z) : Z :=
  let province_count := 31 in
  if index <? 2 then 0 else if u8 (province_count - 2) <=? index then u8 (province_count - 4) else u8 (index - 1).
Definition letter_start (index : Z) : Z := if index <? 3 then 0 else if 22 <? index then 20 else u8 (index - 3).
Definition tail_start (index : Z) : Z := if index <? 4 then 0 else if 31 <? index then 27 else u8 (index - 4).

Definition lcd_render_plate_set_ui (e : plate_editor) : list draw :=
  page_begin ++ lcd_plate_draw_top_line e ++ [DrawFrame 2 18 128 28] ++
  (if pl_focus e =? 0 then
     [SetFont LCD_FONT_CN_12] ++
     each 4 (fun i =>
       let province_index := u8 (province_start (pl_province_index e) + i) in
       let x := u8 (14 + i * 28) in
       highlight (province_index =? pl_province_index e) (u8 (x - 3)) 24 18 16 ++
       [DrawGlyph x 37 (get g_lcd_plate_province_codes province_index); SetDrawColor 1])
   else if pl_focus e =? 1 then
     [SetFont LCD_FONT_ASCII_SMALL] ++
     each 6 (fun i =>
       let letter_index := u8 (letter_start (pl_letter_index e) + i) in
       lcd_plate_draw_ascii_option (u8 (12 + i * 18)) 36 (get g_lcd_plate_letters letter_index)
         (letter_index =? pl_letter_index e))
   else if (2 <=? pl_focus e) && (pl_focus e <=? 6) then
     let selected_digit := get (pl_digits e) (pl_focus e - 2) in
     [SetFont LCD_FONT_ASCII_SMALL] ++
     each 9 (fun i =>
       let tail_index := u8 (tail_start selected_digit + i) in
       lcd_plate_draw_ascii_option (u8 (6 + i * 14)) 30 (get g_lcd_plate_tail_chars tail_index) (tail_index =? selected_digit)) ++
     each 9 (fun i => (* the loop ends at index 36; those after it are larger *)
       let tail_index := u8 (tail_start selected_digit + 9 + i) in
       if 36 <=? tail_index then [] else
       lcd_plate_draw_ascii_option (u8 (6 + i * 14)) 42 (get g_lcd_plate_tail_chars tail_index) (tail_index =? selected_digit))
   else []) ++
  [SetFont LCD_FONT_CN_12] ++
  highlight (pl_focus e =? 7) 0 49 34 14 ++ draw_cn 2 60 [0x786E; 0x8BA4] 2 ++ [SetDrawColor 1] ++
  highlight (pl_focus e =? 8) 96 49 34 14 ++ draw_cn 104 60 [0x9000; 0x51FA] 2 ++ [SetDrawColor 1] ++
  [FlushBuffer].

(** The first line of a character editor: position [i] at [x0 + i * dx]. *)
Definition editor_top_line (len x0 dx : Z) (e : char_editor) : list draw :=
  [SetFont LCD_FONT_ASCII_SMALL] ++
  each len (fun i =>
    let ch := if negb (Z.land (e_edit_mask e) (Z.shiftl 1 i) =? 0)
              then get g_lcd_plate_tail_chars (get (e_chars e) i) else 95 in
    lcd_plate_draw_ascii_cell (u8 (x0 + i * dx)) 12 ch (negb (e_area e =? 2) && (e_cursor e =? i))).

(** The two buttons at the bottom of a character editor. *)
Definition editor_buttons (e : char_editor) : list draw :=
  [SetFont LCD_FONT_CN_12] ++
  highlight ((e_area e =? 2) && (e_action e =? 0)) 0 49 34 14 ++ draw_cn 2 60 [0x786E; 0x8BA4] 2 ++ [SetDrawColor 1] ++
  highlight ((e_area e =? 2) && (e_action e =? 1)) 96 49 34 14 ++ draw_cn 104 60 [0x9000; 0x51FA] 2 ++ [SetDrawColor 1] ++
  [FlushBuffer].

Definition lcd_vin_draw_top_line (e : char_editor) : list draw := editor_top_line 17 4 7 e.
Definition lcd_province_id_draw_top_line (e : char_editor) : list draw := editor_top_line 2 56 12 e.
Definition lcd_city_id_draw_top_line (e : char_editor) : list draw := editor_top_line 4 44 12 e.

Definition lcd_render_vin_set_ui (e : char_editor) : list draw :=
  page_begin ++ lcd_vin_draw_top_line e ++ [DrawFrame 2 18 128 28] ++
  (if e_area e =? 1 then
     [SetFont LCD_FONT_ASCII_SMALL] ++
     each 18 (fun i => lcd_plate_draw_ascii_option (u8 (4 + i * 7)) 30 (get g_lcd_plate_tail_chars i) (i =? e_option_index e)) ++
     each 18 (fun j => let i := 18 + j in
       lcd_plate_draw_ascii_option (u8 (4 + (i - 18) * 7)) 42 (get g_lcd_plate_tail_chars i) (i =? e_option_index e))
   else []) ++
  editor_buttons e.

(** The option row of the two digit editors. *)
Definition digit_options (e : char_editor) : list draw :=
  if e_area e =? 1 then
    [SetFont LCD_FONT_ASCII_SMALL] ++
    each 10 (fun i => lcd_plate_draw_ascii_option (u8 (26 + i * 9)) 36 (get g_lcd_plate_tail_chars i) (i =? e_option_index e))
  else [].

Definition lcd_render_province_id_set_ui (e : char_editor) : list draw :=
  page_begin ++ lcd_province_id_draw_top_line e ++ [DrawFrame 2 18 128 28] ++ digit_options e ++ editor_buttons e.

Definition lcd_render_city_id_set_ui (e : char_editor) : list draw :=
  page_begin ++ lcd_city_id_draw_top_line e ++ [DrawFrame 2 18 128 28] ++ digit_options e ++ editor_buttons e.

(** ** The picture of a drawing function

    [None]: the text loops ran out of fuel. *)
Definition picture {D} (f : render_fn) (w : lcd D) : option (list draw) :=
  let u := ui w in
  match f with
  | render_home_ui => Some (lcd_render_home_ui (g_lcd_home_subpage w) u)
  | render_menu_ui => Some (lcd_render_menu_ui u)
  | render_drive_record_submenu_ui => Some (lcd_render_drive_record_submenu_ui u)
  | render_fatigue_drive_record_ui => Some (lcd_render_fatigue_drive_record_ui u)
  | render_location_status_ui => Some (lcd_render_location_status_ui u)
  | render_drive_mileage_ui => Some (lcd_render_drive_mileage_ui u)
  | render_driver_info_ui => Some (lcd_render_driver_info_ui u)
  | render_vehicle_info_ui => Some lcd_render_vehicle_info_ui
  | render_vehicle_load_status_ui => Some (lcd_render_vehicle_load_status_ui u)
  | render_vehicle_load_status_ok_ui => Some lcd_render_vehicle_load_status_ok_ui
  | render_submenu_ui => Some (lcd_render_submenu_ui u)
  | render_info_center_dispatch_ui => Some lcd_render_info_center_dispatch_ui
  | render_info_center_text_normal_ui => fst <$> lcd_render_info_center_text_normal_ui (g_lcd_text_msg u)
  | render_device_version_ui => Some lcd_render_device_version_ui
  | render_vehicle_status_ui => Some (lcd_render_vehicle_status_ui u (vehicle w))
  | render_key_volume_ui => Some (lcd_render_key_volume_ui u)
  | render_common_config_ok_ui => Some lcd_render_common_config_ok_ui
  | render_brightness_menu_ui => Some (lcd_render_brightness_menu_ui u)
  | render_backlight_time_ui => Some (lcd_render_backlight_time_ui u)
  | render_brightness_level_ui => Some (lcd_render_brightness_level_ui u)
  | render_vin_set_ui => Some (lcd_render_vin_set_ui (vin w))
  | render_plate_set_ui => Some (lcd_render_plate_set_ui (plate w))
  | render_province_id_set_ui => Some (lcd_render_province_id_set_ui (province w))
  | render_city_id_set_ui => Some (lcd_render_city_id_set_ui (city w))
  | render_local_phone_ui => Some (lcd_render_local_phone_ui (phone w))
  end.

(** Calling a drawing function: the picture goes to the screen; the text page
    also sets its page count. *)
Definition render_page {D} (f : render_fn) : LCD D unit := fun w =>
  let w' := match picture f w with Some p => w <| screen := p |> | None => w end in
  (tt, match f with
       | render_info_center_text_normal_ui =>
           match lcd_render_info_center_text_normal_ui (g_lcd_text_msg (ui w)) with
           | Some (_, m) => w' <| ui := ui w <| g_lcd_text_msg := m |> |>
           | None => w'
           end
       | _ => w'
       end).

(** [lcd_render_current_page] *)
Definition lcd_render_current_page {D} : LCD D unit :=
  page ← get_ui (fun u => lcd_get_page_node (g_lcd_registry u) (g_lcd_current_page_id u));
  fallback ← get_ui g_lcd_ui_render_fallback;
  match page ≫= render with
  | Some f => render_page f
  | None => match fallback with Some f => render_page f | None => skip end
  end.
End Render.
