(* ===== verification/LcdNav.v ===== *)
(** * Page navigation ([lcd_ui.c] and the page callbacks of [svc_lcd.c])

    Entering a page with its preparation, going back, moving the selection,
    confirming, the automatic return of result pages and the refresh of the
    vehicle page. *)

From S2P Require Import Prelude Platform AppTypes Eeprom Storage McuStatus LcdPages LcdGfx LcdState LcdText LcdTables LcdRender.

(** ** Preparation of the setting pages *)

(** Preparation of a character editor of length [len]: [loaded] are the stored
    characters when a valid value is stored, [index] the table index of a
    character. *)
Definition prepare_chars (len : Z) (index : Z -> Z) (loaded : option (list Z)) : char_editor :=
  let '(valid, edit_mask, chars) :=
    match loaded with
    | Some cs => (1, Z.shiftl 1 len - 1, map (fun i => index (get cs (Z.of_nat i))) (seq 0 (Z.to_nat len)))
    | None => (0, 0, zeros (Z.to_nat len))
    end in
  mk_editor 0 valid 0 0 (get chars 0) 1 chars edit_mask.

(** [strchr] in the character table, 0 when absent. *)
Definition tail_index (ch : Z) : Z := u8 (default 0 (strchr g_lcd_plate_tail_chars ch)).

(** [(uint8_t)(ch - '0')] *)
Definition digit_index (ch : Z) : Z := u8 (ch - 48).

Section Nav.
Context {D : Type} `{I2cBus D} `{FontMetrics}.

(** A load into a local variable: the result and the value left in it. *)
Definition load {A} (a : A) (f : pointer A -> storage D -> bool * pointer A * storage D) : LCD D (bool * A) :=
  storage_call (fun st => let '(ok, v, st) := f (Some a) st in ((ok, default a v), st)).

Definition lcd_prepare_vin_set_page : LCD D unit :=
  '(ok, v) ← load (mk_vin 0 (zeros 18)) svc_storage_load_vin;
  modify (fun w => w <| vin := prepare_chars 17 tail_index
                                 (if ok && (vin_valid v =? 1) then Some (vin_chars v) else None) |>).

Definition lcd_prepare_province_id_set_page : LCD D unit :=
  '(ok, v) ← load (mk_province_id 0 (zeros 3)) svc_storage_load_province_id;
  modify (fun w => w <| province := prepare_chars 2 digit_index
                                 (if ok && (province_valid v =? 1) then Some (province_chars v) else None) |>).

Definition lcd_prepare_city_id_set_page : LCD D unit :=
  '(ok, v) ← load (mk_city_id 0 (zeros 5)) svc_storage_load_city_id;
  modify (fun w => w <| city := prepare_chars 4 digit_index
                                 (if ok && (city_valid v =? 1) then Some (city_chars v) else None) |>).

Definition prepare_plate (ok : bool) (p : svc_storage_plate_number_t) : plate_editor :=
  if ok && (plate_valid p =? 1) && (province_index p <? 31) && (65 <=? letter p) && (letter p <=? 90) then
    mk_plate_editor 0 0 1 (province_index p) (u8 (letter p - 65))
      (map (fun i => tail_index (get (plate_digits p) (Z.of_nat i))) (seq 0 5))
  else mk_plate_editor 0 0 0 0 0 (zeros 5).

Definition lcd_prepare_plate_set_page : LCD D unit :=
  '(ok, p) ← load (mk_plate 0 0 0 (zeros 6)) svc_storage_load_plate_number;
  modify (fun w => w <| plate := prepare_plate ok p |>).

(** The twelve bytes of a phone number. *)
Definition phone_bytes (l : list Z) : list Z := map (fun i => get l (Z.of_nat i)) (seq 0 12).

Definition prepare_phone (ok : bool) (digits : list Z) : phone_editor :=
  let digits := if ok then phone_bytes digits else replicate 11 48 ++ [0] in
  mk_phone_editor digits 0 (u8 (get digits 0 - 48)) 0 1.

Definition lcd_prepare_local_phone_page : LCD D unit :=
  '(ok, digits) ← load (zeros 12) svc_storage_load_local_phone;
  modify (fun w => w <| phone := prepare_phone ok digits |>).

(** Selection of the stored plate class or colour. *)
Definition stored_choice (ok : bool) (v : Z) : Z := if ok then (if (1 <=? v) && (v <=? 5) then u8 (v - 1) else 0) else 0.

Definition set_selected (p : lcd_page_id_t) (v : Z) : LCD D unit :=
  set_ui (fun u => u <| g_lcd_page_selected := put (g_lcd_page_selected u) (page_num p) v |>).

Definition lcd_prepare_vehicle_plate_class_page : LCD D unit :=
  '(ok, v) ← load 0 svc_storage_load_plate_class;
  set_selected LCD_PAGE_SYSTEM_SETTING_VEHICLE_INFO_PLATE_CLASS (stored_choice ok v).

Definition lcd_prepare_vehicle_plate_color_page : LCD D unit :=
  '(ok, v) ← load 0 svc_storage_load_plate_color;
  set_selected LCD_PAGE_SYSTEM_SETTING_VEHICLE_INFO_PLATE_COLOR (stored_choice ok v).

Definition prepare_text_page : LCD D unit :=
  set_ui (fun u => u <| g_lcd_text_msg := lcd_prepare_text_normal_page (g_lcd_text_msg u) |>).

(** The hook called on every page change. *)
Definition lcd_page_on_enter_prepare (p : lcd_page_id_t) : LCD D unit :=
  (if decide (p = LCD_PAGE_SYSTEM_SETTING_HOST_PARAM_LOCAL_PHONE) then lcd_prepare_local_phone_page else skip);;
  (if decide (p = LCD_PAGE_SYSTEM_SETTING_VEHICLE_INFO_PLATE_CLASS) then lcd_prepare_vehicle_plate_class_page else skip);;
  (if decide (p = LCD_PAGE_SYSTEM_SETTING_VEHICLE_INFO_PLATE_COLOR) then lcd_prepare_vehicle_plate_color_page else skip);;
  (if decide (p = LCD_PAGE_DRIVE_RECORD_INFO_CENTER_TEXT_NORMAL) then prepare_text_page else skip);;
  (if decide (p = LCD_PAGE_SYSTEM_SETTING_VEHICLE_INFO_PLATE_SET) then lcd_prepare_plate_set_page else skip);;
  (if decide (p = LCD_PAGE_SYSTEM_SETTING_VEHICLE_INFO_VIN) then lcd_prepare_vin_set_page else skip);;
  (if decide (p = LCD_PAGE_SYSTEM_SETTING_VEHICLE_INFO_PROVINCE_ID) then lcd_prepare_province_id_set_page else skip);;
  (if decide (p = LCD_PAGE_SYSTEM_SETTING_VEHICLE_INFO_CITY_ID) then lcd_prepare_city_id_set_page else skip).

(** ** Navigation ([lcd_ui.c]) *)

Definition lcd_page_enter (p : lcd_page_id_t) : LCD D unit :=
  if page_num LCD_PAGE_MAX <=? page_num p then skip
  else
    set_ui (fun u => u <| g_lcd_current_page_id := p |>);;
    hook ← get_ui g_lcd_ui_nav_enter_hook;
    (if hook : bool then lcd_page_on_enter_prepare p else skip);;
    now ← gets tick;
    set_ui (fun u => u <| g_lcd_menu_mode := negb (bool_decide (p = LCD_PAGE_HOME)) |>
                       <| g_lcd_page_enter_tick := now |> <| g_lcd_need_redraw := true |>).

Definition lcd_page_enter_common_ok (return_page : lcd_page_id_t) : LCD D unit :=
  let return_page := if page_num LCD_PAGE_MAX <=? page_num return_page then LCD_PAGE_HOME else return_page in
  set_ui (fun u => u <| g_lcd_common_ok_return_page := return_page |>);;
  lcd_page_enter LCD_PAGE_COMMON_CONFIG_OK.

(** The node of the current page. *)
Definition current_node : LCD D (pointer lcd_page_node_t) :=
  get_ui (fun u => lcd_get_page_node (g_lcd_registry u) (g_lcd_current_page_id u)).

Definition lcd_page_handle_back : LCD D unit :=
  page ← current_node;
  current ← get_ui g_lcd_current_page_id;
  if decide (current = LCD_PAGE_COMMON_CONFIG_OK) then
    target ← get_ui g_lcd_common_ok_return_page; lcd_page_enter target
  else if decide (current = LCD_PAGE_HOME) then lcd_page_enter LCD_PAGE_MAIN_MENU
  else match page with
       | Some n => if page_num (parent_id n) <? page_num LCD_PAGE_MAX then lcd_page_enter (parent_id n)
                   else lcd_page_enter LCD_PAGE_HOME
       | None => lcd_page_enter LCD_PAGE_HOME
       end.

Definition lcd_page_handle_nav (delta : Z) : LCD D unit :=
  current ← get_ui g_lcd_current_page_id;
  select_count ← get_ui (fun u => lcd_page_get_select_count (g_lcd_registry u) current);
  selected ← get_ui (fun u => get (g_lcd_page_selected u) (page_num current));
  if select_count =? 0 then skip
  else if (delta <? 0) && (0 <? selected) then set_selected current (u8 (selected - 1));; redraw
  else if (0 <? delta) && (selected + 1 <? select_count) then set_selected current (u8 (selected + 1));; redraw
  else skip.

(** ** Confirm callbacks *)

Definition lcd_page_confirm_load_status : LCD D unit := lcd_page_enter LCD_PAGE_DRIVE_RECORD_LOAD_STATUS_OK.
Definition lcd_page_confirm_key_volume : LCD D unit := lcd_page_enter_common_ok LCD_PAGE_SYSTEM_SETTING_KEY_VOLUME.
Definition lcd_page_confirm_backlight_time : LCD D unit := lcd_page_enter_common_ok LCD_PAGE_SYSTEM_SETTING_BACKLIGHT_TIME.
Definition lcd_page_confirm_brightness_level : LCD D unit :=
  lcd_page_enter_common_ok LCD_PAGE_SYSTEM_SETTING_BRIGHTNESS_LEVEL.

(** After a successful save: the status frame's configuration is reloaded and
    the result page shown. *)
Definition saved_ok (ok : bool) (page : lcd_page_id_t) : LCD D unit :=
  if ok then refresh_status_config;; lcd_page_enter_common_ok page else skip.

Definition lcd_page_confirm_vehicle_plate_class : LCD D unit :=
  v ← get_ui (fun u => u8 (get (g_lcd_page_selected u) (page_num LCD_PAGE_SYSTEM_SETTING_VEHICLE_INFO_PLATE_CLASS) + 1));
  ok ← storage_call (svc_storage_save_plate_class (Some v));
  saved_ok ok LCD_PAGE_SYSTEM_SETTING_VEHICLE_INFO_PLATE_CLASS.

Definition lcd_page_confirm_vehicle_plate_color : LCD D unit :=
  v ← get_ui (fun u => u8 (get (g_lcd_page_selected u) (page_num LCD_PAGE_SYSTEM_SETTING_VEHICLE_INFO_PLATE_COLOR) + 1));
  ok ← storage_call (svc_storage_save_plate_color (Some v));
  saved_ok ok LCD_PAGE_SYSTEM_SETTING_VEHICLE_INFO_PLATE_COLOR.

(** [page->on_confirm()] *)
Definition run_confirm (f : confirm_fn) : LCD D unit :=
  match f with
  | confirm_load_status => lcd_page_confirm_load_status
  | confirm_key_volume => lcd_page_confirm_key_volume
  | confirm_backlight_time => lcd_page_confirm_backlight_time
  | confirm_brightness_level => lcd_page_confirm_brightness_level
  | confirm_vehicle_plate_color => lcd_page_confirm_vehicle_plate_color
  | confirm_vehicle_plate_class => lcd_page_confirm_vehicle_plate_class
  end.

Definition lcd_page_handle_confirm : LCD D unit :=
  page ← current_node;
  current ← get_ui g_lcd_current_page_id;
  match page with
  | None => skip
  | Some n =>
      if decide (kind n = LCD_PAGE_KIND_ACTION_RESULT) then
        if decide (current = LCD_PAGE_COMMON_CONFIG_OK) then
          target ← get_ui g_lcd_common_ok_return_page; lcd_page_enter target
        else if page_num (auto_return_target n) <? page_num LCD_PAGE_MAX then lcd_page_enter (auto_return_target n)
        else skip
      else match on_confirm n with
      | Some f => run_confirm f
      | None =>
          match kind n, children n with
          | LCD_PAGE_KIND_LIST, Some cs =>
              if 0 <? child_count n then
                selected_index ← get_ui (fun u => get (g_lcd_page_selected u) (page_num current));
                if selected_index <? child_count n then lcd_page_enter (nth (Z.to_nat selected_index) cs LCD_PAGE_MAX)
                else skip
              else skip
          | _, _ => skip
          end
      end
  end.

Definition lcd_page_handle_auto_return : LCD D unit :=
  page ← current_node;
  match page with
  | None => skip
  | Some n =>
      if (auto_return_ms n =? 0) || (page_num LCD_PAGE_MAX <=? page_num (auto_return_target n)) then skip
      else
        now ← gets tick;
        entered ← get_ui g_lcd_page_enter_tick;
        if rt_tick_from_millisecond (auto_return_ms n) <=? u32 (now - entered)
        then lcd_page_enter (auto_return_target n) else skip
  end.

Definition lcd_vehicle_status_pack_bits (s : app_vehicle_io_state_t) : Z :=
  let bit x n := if negb (x =? 0) then Z.shiftl 1 n else 0 in
  foldl Z.lor 0
    [bit (wk_acc s) 0; bit (wk_on s) 1; bit (sw_kl1 s) 2; bit (sw_kl2 s) 3; bit (sw_kl3 s) 4; bit (sw_kl4 s) 5;
     bit (sw_kl5 s) 6; bit (sw_kl6 s) 7; bit (sw_kl7 s) 8; bit (sw_kl8 s) 9; bit (sw_kl9 s) 10; bit (sw_kl10 s) 11].

Definition lcd_page_handle_dynamic_refresh : LCD D unit :=
  current ← get_ui g_lcd_current_page_id;
  if negb (bool_decide (current = LCD_PAGE_DEVICE_STATUS_VEHICLE)) then
    set_ui (fun u => u <| g_lcd_vehicle_status_last_bits := 0xFFFF |>)
  else
    now ← gets tick;
    check_tick ← get_ui g_lcd_vehicle_status_check_tick;
    if u32 (now - check_tick) <? rt_tick_from_millisecond 100 then skip
    else
      set_ui (fun u => u <| g_lcd_vehicle_status_check_tick := now |>);;
      state ← gets vehicle;
      last_bits ← get_ui g_lcd_vehicle_status_last_bits;
      let bits := lcd_vehicle_status_pack_bits state in
      if last_bits =? 0xFFFF then set_ui (fun u => u <| g_lcd_vehicle_status_last_bits := bits |>)
      else if negb (bits =? last_bits) then
        set_ui (fun u => u <| g_lcd_vehicle_status_last_bits := bits |>);; redraw
      else skip.
End Nav.
