(* ===== verification/LcdKeys.v ===== *)
(** * Key handling of the display thread ([svc_lcd.c])

    The text page, the five editors with their saves, the round of the thread
    and its initialisation. *)

From S2P Require Import Prelude Platform AppTypes Adc Eeprom Storage McuStatus UartText LcdPages LcdGfx LcdState LcdData LcdText LcdTables LcdRender LcdNav.

Section Keys.
Context {D : Type} `{I2cBus D} `{FontMetrics}.

(** The keys: [s1] back, [s2] up, [s3] down, [s4] confirm. *)
Definition s1 : LCD D bool := consume svc_adc_consume_s1_event.
Definition s2 : LCD D bool := consume svc_adc_consume_s2_event.
Definition s3 : LCD D bool := consume svc_adc_consume_s3_event.
Definition s4 : LCD D bool := consume svc_adc_consume_s4_event.

Definition on_page (p : lcd_page_id_t) : LCD D bool := get_ui (fun u => bool_decide (g_lcd_current_page_id u = p)).

(** ** Text page *)

(** A paging key: redraw when the page changed. *)
Definition turn_page (f : lcd_text_msg_t -> bool * lcd_text_msg_t) : LCD D unit :=
  changed ← get_ui (fun u => fst (f (g_lcd_text_msg u)));
  set_ui (fun u => u <| g_lcd_text_msg := snd (f (g_lcd_text_msg u)) |>);;
  if changed : bool then redraw else skip.

Definition lcd_handle_text_normal_keys : LCD D bool :=
  here ← on_page LCD_PAGE_DRIVE_RECORD_INFO_CENTER_TEXT_NORMAL;
  if negb here then mret false
  else
    k1 ← s1;
    if k1 : bool then lcd_page_enter LCD_PAGE_DRIVE_RECORD_INFO_CENTER_TEXT;; mret true
    else
      k2 ← s2;
      if k2 : bool then turn_page text_page_up;; mret true
      else
        k3 ← s3;
        if k3 : bool then turn_page text_page_down;; mret true
        else s4;; mret true.

(** ** Character editors: VIN, province and city

    The three editors differ in page, length, number of characters, the width
    of the mask and the record they save. *)
Record editor_desc := mk_desc {
  d_page : lcd_page_id_t; d_len : Z; d_count : Z; d_mask : Z -> Z;
  d_get : lcd D -> char_editor; d_set : char_editor -> lcd D -> lcd D;
  d_save : list Z -> storage D -> bool * storage D
}.

(** Areas: 0 position, 1 character, 2 action; actions: 0 confirm, 1 exit. *)
Definition step_down (x n : Z) : Z := if 0 <? x then x - 1 else n - 1.
Definition step_up (x n : Z) : Z := if x <? n - 1 then u8 (x + 1) else 0.
Definition toggle (a : Z) : Z := if a =? 0 then 1 else 0.

Definition edit_s1 (e : char_editor) : char_editor :=
  if e_area e =? 0 then e <| e_option_index := get (e_chars e) (e_cursor e) |> <| e_area := 1 |>
  else if e_area e =? 1 then e <| e_action := 1 |> <| e_area := 2 |>
  else e <| e_area := 0 |>.

(** S2 and S3, with the step of the key. *)
Definition edit_move (d : editor_desc) (step : Z -> Z -> Z) (e : char_editor) : char_editor :=
  if e_area e =? 0 then e <| e_cursor := step (e_cursor e) (d_len d) |>
  else if e_area e =? 1 then e <| e_option_index := step (e_option_index e) (d_count d) |>
  else e <| e_action := toggle (e_action e) |>.

(** S4 in the character area: take the character, go on to the next position
    or to the confirm button. *)
Definition edit_take (d : editor_desc) (e : char_editor) : char_editor :=
  let e := e <| e_chars := put (e_chars e) (e_cursor e) (e_option_index e) |>
             <| e_edit_mask := d_mask d (Z.lor (e_edit_mask e) (d_mask d (Z.shiftl 1 (e_cursor e)))) |>
             <| e_dirty := 1 |> in
  if e_cursor e <? d_len d - 1 then
    let cursor := u8 (e_cursor e + 1) in
    e <| e_cursor := cursor |> <| e_option_index := get (e_chars e) cursor |> <| e_area := 1 |>
  else e <| e_action := 0 |> <| e_area := 2 |>.

Definition complete_mask (len : Z) : Z := Z.shiftl 1 len - 1.

(** The first position not yet set. *)
Definition first_missing (len mask cursor : Z) : Z :=
  default cursor (option_map Z.of_nat (List.find (fun i => Z.land mask (Z.shiftl 1 (Z.of_nat i)) =? 0) (seq 0 (Z.to_nat len)))).

(** The string a character editor saves. *)
Definition editor_string (len : Z) (e : char_editor) : list Z :=
  map (fun i => get g_lcd_plate_tail_chars (get (e_chars e) (Z.of_nat i))) (seq 0 (Z.to_nat len)) ++ [0].

Definition edit (d : editor_desc) (f : char_editor -> char_editor) : LCD D unit := modify (fun w => d_set d (f (d_get d w)) w).

Definition editor_save_and_ok (d : editor_desc) : LCD D unit :=
  e ← gets (d_get d);
  ok ← storage_call (d_save d (editor_string (d_len d) e));
  if ok : bool then
    edit d (fun e => e <| e_valid := 1 |> <| e_dirty := 0 |>);;
    refresh_status_config;;
    lcd_page_enter_common_ok (d_page d)
  else skip.

Definition editor_s4 (d : editor_desc) : LCD D unit :=
  e ← gets (d_get d);
  if e_area e =? 1 then edit d (edit_take d);; redraw
  else if e_area e =? 2 then
    if e_action e =? 1 then lcd_page_enter LCD_PAGE_SYSTEM_SETTING_VEHICLE_INFO
    else if negb (e_edit_mask e =? complete_mask (d_len d)) then
      edit d (fun e => e <| e_cursor := first_missing (d_len d) (e_edit_mask e) (e_cursor e) |> <| e_area := 0 |>);;
      redraw
    else editor_save_and_ok d
  else redraw.

Definition editor_keys (d : editor_desc) : LCD D bool :=
  here ← on_page (d_page d);
  if negb here then mret false
  else
    k1 ← s1;
    if k1 : bool then edit d edit_s1;; redraw;; mret true
    else
      k2 ← s2;
      if k2 : bool then edit d (edit_move d step_down);; redraw;; mret true
      else
        k3 ← s3;
        if k3 : bool then edit d (edit_move d step_up);; redraw;; mret true
        else
          k4 ← s4;
          if k4 : bool then editor_s4 d;; mret true else mret false.

Definition vin_desc : editor_desc :=
  mk_desc LCD_PAGE_SYSTEM_SETTING_VEHICLE_INFO_VIN 17 36 u32 vin (fun e w => w <| vin := e |>)
    (fun s => svc_storage_save_vin (Some (mk_vin 1 s))).
Definition province_desc : editor_desc :=
  mk_desc LCD_PAGE_SYSTEM_SETTING_VEHICLE_INFO_PROVINCE_ID 2 10 u8 province (fun e w => w <| province := e |>)
    (fun s => svc_storage_save_province_id (Some (mk_province_id 1 s))).
Definition city_desc : editor_desc :=
  mk_desc LCD_PAGE_SYSTEM_SETTING_VEHICLE_INFO_CITY_ID 4 10 u8 city (fun e w => w <| city := e |>)
    (fun s => svc_storage_save_city_id (Some (mk_city_id 1 s))).

Definition lcd_vin_save_and_ok : LCD D unit := editor_save_and_ok vin_desc.
Definition lcd_province_id_save_and_ok : LCD D unit := editor_save_and_ok province_desc.
Definition lcd_city_id_save_and_ok : LCD D unit := editor_save_and_ok city_desc.

Definition lcd_handle_vin_set_keys : LCD D bool := editor_keys vin_desc.
Definition lcd_handle_province_id_set_keys : LCD D bool := editor_keys province_desc.
Definition lcd_handle_city_id_set_keys : LCD D bool := editor_keys city_desc.

(** ** Plate editor

    Focus: 0 province, 1 letter, 2-6 characters, 7 confirm, 8 exit. *)

Definition plate_s1 (e : plate_editor) : plate_editor :=
  e <| pl_focus := if pl_focus e <? 8 then u8 (pl_focus e + 1) else 0 |>.

Definition plate_s2 (e : plate_editor) : plate_editor :=
  if pl_focus e =? 0 then
    e <| pl_province_index := if 0 <? pl_province_index e then pl_province_index e - 1 else u8 (31 - 1) |> <| pl_dirty := 1 |>
  else if pl_focus e =? 1 then
    e <| pl_letter_index := if 0 <? pl_letter_index e then pl_letter_index e - 1 else 25 |> <| pl_dirty := 1 |>
  else if (2 <=? pl_focus e) && (pl_focus e <=? 6) then
    let digit_index := u8 (pl_focus e - 2) in
    let v := get (pl_digits e) digit_index in
    e <| pl_digits := put (pl_digits e) digit_index (if 0 <? v then v - 1 else 35) |> <| pl_dirty := 1 |>
  else if pl_focus e =? 7 then e <| pl_focus := 8 |>
  else e <| pl_focus := 7 |>.

Definition plate_s3 (e : plate_editor) : plate_editor :=
  if pl_focus e =? 0 then
    let v := u8 (pl_province_index e + 1) in
    e <| pl_province_index := if 31 <=? v then 0 else v |> <| pl_dirty := 1 |>
  else if pl_focus e =? 1 then
    e <| pl_letter_index := if pl_letter_index e <? 25 then u8 (pl_letter_index e + 1) else 0 |> <| pl_dirty := 1 |>
  else if (2 <=? pl_focus e) && (pl_focus e <=? 6) then
    let digit_index := u8 (pl_focus e - 2) in
    let v := get (pl_digits e) digit_index in
    e <| pl_digits := put (pl_digits e) digit_index (if v <? 35 then u8 (v + 1) else 0) |> <| pl_dirty := 1 |>
  else if pl_focus e =? 7 then e <| pl_focus := 8 |>
  else e <| pl_focus := 7 |>.

(** The record the plate editor saves. *)
Definition plate_record (e : plate_editor) : svc_storage_plate_number_t :=
  mk_plate 1 (pl_province_index e) (get g_lcd_plate_letters (pl_letter_index e))
    (map (fun i => get g_lcd_plate_tail_chars (get (pl_digits e) (Z.of_nat i))) (seq 0 5) ++ [0]).

Definition edit_plate (f : plate_editor -> plate_editor) : LCD D unit := modify (fun w => w <| plate := f (plate w) |>).

Definition lcd_plate_save_and_ok : LCD D unit :=
  e ← gets plate;
  ok ← storage_call (svc_storage_save_plate_number (Some (plate_record e)));
  if ok : bool then
    edit_plate (fun e => e <| pl_valid := 1 |> <| pl_dirty := 0 |>);;
    refresh_status_config;;
    lcd_page_enter_common_ok LCD_PAGE_SYSTEM_SETTING_VEHICLE_INFO_PLATE_SET
  else skip.

Definition lcd_handle_plate_set_keys : LCD D bool :=
  here ← on_page LCD_PAGE_SYSTEM_SETTING_VEHICLE_INFO_PLATE_SET;
  if negb here then mret false
  else
    k1 ← s1;
    if k1 : bool then edit_plate plate_s1;; redraw;; mret true
    else
      k2 ← s2;
      if k2 : bool then edit_plate plate_s2;; redraw;; mret true
      else
        k3 ← s3;
        if k3 : bool then edit_plate plate_s3;; redraw;; mret true
        else
          k4 ← s4;
          if k4 : bool then
            e ← gets plate;
            (if pl_focus e =? 7 then lcd_plate_save_and_ok
             else if pl_focus e =? 8 then lcd_page_enter LCD_PAGE_SYSTEM_SETTING_VEHICLE_INFO
             else redraw);;
            mret true
          else mret false.

(** ** Phone editor

    Focus: 0 number, 1 digit, 2 action; function: 0 exit, 1 save. *)

Definition digit_at (e : phone_editor) (cursor : Z) : Z := u8 (get (ph_digits e) cursor - 48).

Definition phone_s2 (e : phone_editor) : phone_editor :=
  if ph_focus e =? 0 then
    let cursor := if 0 <? ph_cursor e then ph_cursor e - 1 else ph_cursor e in
    e <| ph_cursor := cursor |> <| ph_selected_digit := digit_at e cursor |>
  else if ph_focus e =? 1 then
    e <| ph_selected_digit := if 0 <? ph_selected_digit e then ph_selected_digit e - 1 else 9 |>
  else e <| ph_func_index := if 0 <? ph_func_index e then ph_func_index e - 1 else 1 |>.

Definition phone_s3 (e : phone_editor) : phone_editor :=
  if ph_focus e =? 0 then
    let cursor := if ph_cursor e <? 10 then u8 (ph_cursor e + 1) else ph_cursor e in
    e <| ph_cursor := cursor |> <| ph_selected_digit := digit_at e cursor |>
  else if ph_focus e =? 1 then
    e <| ph_selected_digit := if ph_selected_digit e <? 9 then u8 (ph_selected_digit e + 1) else 0 |>
  else e <| ph_func_index := if ph_func_index e <? 1 then u8 (ph_func_index e + 1) else 0 |>.

Definition phone_s1 (e : phone_editor) : phone_editor :=
  if ph_focus e =? 0 then e <| ph_focus := 1 |> <| ph_selected_digit := digit_at e (ph_cursor e) |>
  else if ph_focus e =? 1 then e <| ph_focus := 2 |>
  else e <| ph_focus := 0 |>.

(** S4 on the number and on a digit. *)
Definition phone_take (e : phone_editor) : phone_editor :=
  let digits := put (ph_digits e) (ph_cursor e) (u8 (48 + ph_selected_digit e)) in
  let cursor := if ph_cursor e <? 10 then u8 (ph_cursor e + 1) else ph_cursor e in
  e <| ph_digits := digits |> <| ph_cursor := cursor |> <| ph_selected_digit := u8 (get digits cursor - 48) |>.

Definition edit_phone (f : phone_editor -> phone_editor) : LCD D unit := modify (fun w => w <| phone := f (phone w) |>).

Definition phone_s4 : LCD D unit :=
  e ← gets phone;
  if ph_focus e =? 0 then edit_phone (fun e => e <| ph_selected_digit := digit_at e (ph_cursor e) |>);; redraw
  else if ph_focus e =? 1 then edit_phone phone_take;; redraw
  else
    (if ph_func_index e =? 0 then lcd_page_enter LCD_PAGE_SYSTEM_SETTING_HOST_PARAM
     else
       ok ← storage_call (svc_storage_save_local_phone (Some (phone_bytes (ph_digits e))));
       saved_ok ok LCD_PAGE_SYSTEM_SETTING_HOST_PARAM_LOCAL_PHONE);;
    redraw.

Definition lcd_handle_local_phone_keys : LCD D bool :=
  here ← on_page LCD_PAGE_SYSTEM_SETTING_HOST_PARAM_LOCAL_PHONE;
  if negb here then mret false
  else
    k2 ← s2; (if k2 : bool then edit_phone phone_s2;; redraw else skip);;
    k3 ← s3; (if k3 : bool then edit_phone phone_s3;; redraw else skip);;
    k1 ← s1; (if k1 : bool then edit_phone phone_s1;; redraw else skip);;
    k4 ← s4; (if k4 : bool then phone_s4 else skip);;
    mret true.

(** ** The thread *)

(** The end of every round that does not stop early. *)
Definition finish_round : LCD D unit :=
  lcd_page_handle_auto_return;;
  lcd_page_handle_dynamic_refresh;;
  need ← get_ui g_lcd_need_redraw;
  if need : bool then
    lcd_render_current_page;; set_ui (fun u => u <| g_lcd_need_redraw := false |>)
  else skip.

Definition generic_keys : LCD D unit :=
  k1 ← s1; (if k1 : bool then lcd_page_handle_back else skip);;
  k2 ← s2; (if k2 : bool then lcd_page_handle_nav (-1) else skip);;
  k3 ← s3; (if k3 : bool then lcd_page_handle_nav 1 else skip);;
  k4 ← s4; (if k4 : bool then lcd_page_handle_confirm else skip);;
  finish_round.

(** The handlers in turn: the first that handles the page ends the round. *)
Fixpoint handle_keys (handlers : list (LCD D bool)) : LCD D unit :=
  match handlers with
  | [] => generic_keys
  | h :: handlers => handled ← h; if handled : bool then finish_round else handle_keys handlers
  end.

Definition key_handlers : list (LCD D bool) :=
  [lcd_handle_text_normal_keys; lcd_handle_vin_set_keys; lcd_handle_province_id_set_keys;
   lcd_handle_city_id_set_keys; lcd_handle_plate_set_keys; lcd_handle_local_phone_keys].

(** One pass of the loop of [svc_lcd_thread_entry]. *)
Definition svc_lcd_thread_round : LCD D unit :=
  home ← on_page LCD_PAGE_HOME;
  if home : bool then
    k1 ← s1;
    if k1 : bool then skip
    else
      k2 ← s2;
      k23 ← (if k2 : bool then mret true else s3);
      if k23 : bool then
        modify (fun w => w <| g_lcd_home_subpage := if g_lcd_home_subpage w =? 0 then 1 else 0 |>);;
        redraw;; finish_round
      else
        k4 ← s4;
        if k4 : bool then lcd_page_enter LCD_PAGE_MAIN_MENU;; finish_round
        else handle_keys key_handlers
  else handle_keys key_handlers.

(** ** Start *)

Definition lcd_ui_core_reset (u : lcd_ui) : lcd_ui :=
  u <| g_lcd_menu_mode := false |> <| g_lcd_page_selected := zeros (Z.to_nat (page_num LCD_PAGE_MAX)) |>
    <| g_lcd_current_page_id := LCD_PAGE_HOME |> <| g_lcd_page_enter_tick := 0 |> <| g_lcd_need_redraw := true |>
    <| g_lcd_common_ok_return_page := LCD_PAGE_HOME |>.

(** [svc_lcd_init] without the panel's own initialisation. *)
Definition svc_lcd_init : LCD D Z :=
  set_ui (fun u => lcd_ui_data_reset u <| g_lcd_registry := registered |> <| g_lcd_ui_nav_enter_hook := true |>
                     <| g_lcd_ui_render_fallback := Some render_submenu_ui |>);;
  mret RT_EOK.

(** [svc_lcd_thread_entry] up to its loop. *)
Definition svc_lcd_thread_start : LCD D unit :=
  set_ui lcd_ui_core_reset;;
  modify (fun w => w <| screen := lcd_render_boot_check_ui |>);;
  redraw.
End Keys.
Arguments editor_desc D : clear implicits.
