(* ===== verification/LcdInv.v ===== *)
(** * Invariant of the display thread

    The ranges the code of [svc_lcd.c] and [lcd_ui.c] relies on when it indexes
    its tables, and that every operation of the thread keeps them, whatever the
    keys, the stored records and the bus do. *)

From S2P Require Import Prelude Platform AppTypes Adc Eeprom Storage McuStatus StorageSpec UartText LcdPages LcdGfx LcdState LcdData LcdText LcdTables LcdRender LcdNav LcdKeys.

(** ** The invariant *)

Definition editor_inv (len count : Z) (e : char_editor) : Prop :=
  0 <= e_area e <= 2 /\ 0 <= e_cursor e < len /\ 0 <= e_option_index e < count /\ 0 <= e_action e <= 1 /\
  length (e_chars e) = Z.to_nat len /\ Forall (fun c => 0 <= c < count) (e_chars e) /\ 0 <= e_edit_mask e < 2 ^ len.

Definition plate_inv (e : plate_editor) : Prop :=
  0 <= pl_focus e <= 8 /\ 0 <= pl_province_index e < 31 /\ 0 <= pl_letter_index e < 26 /\
  length (pl_digits e) = 5%nat /\ Forall (fun c => 0 <= c < 36) (pl_digits e).

Definition phone_inv (e : phone_editor) : Prop :=
  length (ph_digits e) = 12%nat /\ svc_storage_phone_digits_valid (ph_digits e) = true /\
  0 <= ph_cursor e <= 10 /\ 0 <= ph_selected_digit e <= 9 /\ 0 <= ph_focus e <= 2 /\ 0 <= ph_func_index e <= 1.

(** The page of the text shown exists, and the count does not exceed the pages
    of the text. *)
Definition text_page_inv (m : lcd_text_msg_t) : Prop :=
  let pages := pages_of (Z.of_nat (length (text_codes (t_text m)))) in
  0 <= t_page_index m < pages /\ 0 <= t_page_count m <= pages.

(** The selection of every page is one of its entries (0 if it has none). *)
Definition selected_inv (sel : list Z) : Prop :=
  length sel = Z.to_nat (page_num LCD_PAGE_MAX) /\
  forall p, p <> LCD_PAGE_MAX -> 0 <= get sel (page_num p) < Z.max 1 (lcd_page_get_select_count registered p).

(** [ui_base]: everything but the mode flag, which lags behind while a page is
    being entered. *)
Definition ui_base (u : lcd_ui) : Prop :=
  g_lcd_registry u = registered /\ g_lcd_ui_nav_enter_hook u = true /\ g_lcd_current_page_id u <> LCD_PAGE_MAX /\
  selected_inv (g_lcd_page_selected u) /\
  g_lcd_common_ok_return_page u <> LCD_PAGE_MAX /\ g_lcd_common_ok_return_page u <> LCD_PAGE_COMMON_CONFIG_OK /\
  data_inv u /\ text_page_inv (g_lcd_text_msg u).

Definition editors_inv {D} (w : lcd D) : Prop :=
  editor_inv 17 36 (vin w) /\ editor_inv 2 10 (province w) /\ editor_inv 4 10 (city w) /\ plate_inv (plate w) /\
  phone_inv (phone w) /\ 0 <= g_lcd_home_subpage w <= 1.

Definition lcd_base {D} (w : lcd D) : Prop := ui_base (ui w) /\ editors_inv w.

Definition lcd_inv {D} (w : lcd D) : Prop :=
  lcd_base w /\ g_lcd_menu_mode (ui w) = negb (bool_decide (g_lcd_current_page_id (ui w) = LCD_PAGE_HOME)).

(** A conjunction of ranges of updated fields. *)
Ltac in_range := split_and!; first [done | cbn; done | cbn; lia].

(** ** Editors *)

Lemma Forall_get (P : Z -> Prop) l i : Forall P l -> 0 <= i < Z.of_nat (length l) -> P (get l i).
Proof.
  intros H Hi. unfold get. destruct (nth_lookup_or_length l (Z.to_nat i) 0) as [E|]; [| lia].
  exact (Forall_lookup_1 _ _ _ _ H E).
Qed.

Lemma step_down_range x n : 0 <= x < n -> 0 <= step_down x n < n.
Proof. unfold step_down. destruct (Z.ltb_spec 0 x); lia. Qed.

Lemma step_up_range x n : 0 <= x < n -> n <= 256 -> 0 <= step_up x n < n.
Proof. unfold step_up. destruct (Z.ltb_spec x (n - 1)); intros; [rewrite u8_id by wraps |]; lia. Qed.

Lemma mask_range m c len : 0 <= m < 2 ^ len -> 0 <= c < len -> 0 <= Z.lor m (2 ^ c) < 2 ^ len.
Proof.
  intros Hm Hc. split; [apply Z.lor_nonneg; lia |].
  destruct (decide (Z.lor m (2 ^ c) = 0)) as [->|]; [lia |].
  assert (0 <= Z.lor m (2 ^ c)) by (apply Z.lor_nonneg; lia).
  apply Z.log2_lt_pow2; [lia |]. rewrite Z.log2_lor by lia.
  apply Z.max_lub_lt; [destruct (decide (m = 0)) as [->|]; [simpl; lia | apply Z.log2_lt_pow2; lia] |].
  rewrite Z.log2_pow2; lia.
Qed.

Section Editors.
Context {D : Type} `{I2cBus D}.

Definition desc_ok (d : editor_desc D) : Prop :=
  0 < d_len d <= 32 /\ 0 < d_count d <= 36 /\ forall x, 0 <= x < 2 ^ d_len d -> d_mask d x = x.

Definition d_inv (d : editor_desc D) (e : char_editor) : Prop := editor_inv (d_len d) (d_count d) e.

Ltac open_editor He := destruct He as (Ha & Hc & Ho & Hact & Hlen & Hchars & Hmask).

Lemma edit_s1_inv d e : desc_ok d -> d_inv d e -> d_inv d (edit_s1 e).
Proof.
  intros (Hd & _) He. open_editor He. unfold edit_s1, d_inv, editor_inv.
  pose proof (Forall_get _ _ (e_cursor e) Hchars ltac:(lia)) as Hget. cbv beta in Hget.
  destruct (Z.eqb_spec (e_area e) 0); [| destruct (Z.eqb_spec (e_area e) 1)]; in_range.
Qed.

Lemma edit_move_inv d step e :
  desc_ok d -> (forall x n, 0 <= x < n -> n <= 256 -> 0 <= step x n < n) -> d_inv d e -> d_inv d (edit_move d step e).
Proof.
  intros (Hd & Hn & _) Hs He. open_editor He. unfold edit_move, d_inv, editor_inv, toggle.
  destruct (Z.eqb_spec (e_area e) 0); [| destruct (Z.eqb_spec (e_area e) 1)].
  - destruct (Hs _ _ Hc ltac:(lia)). in_range.
  - destruct (Hs _ _ Ho ltac:(lia)). in_range.
  - destruct (e_action e =? 0); in_range.
Qed.

Lemma edit_take_inv d e : desc_ok d -> d_inv d e -> d_inv d (edit_take d e).
Proof.
  intros (Hd & Hn & Hm) He. open_editor He. unfold edit_take.
  rewrite Z.shiftl_1_l. rewrite (Hm (2 ^ e_cursor e)) by (split; [lia | apply Z.pow_lt_mono_r; lia]).
  pose proof (mask_range _ _ _ Hmask Hc) as Hor. rewrite (Hm _ Hor).
  assert (Forall (fun c => 0 <= c < d_count d) (put (e_chars e) (e_cursor e) (e_option_index e))) as Hput
    by (by apply Forall_insert).
  cbn [e_cursor update_with]. destruct (Z.ltb_spec (e_cursor e) (d_len d - 1)).
  - rewrite u8_id by wraps. unfold d_inv, editor_inv. cbn [e_chars e_cursor e_area e_option_index e_action e_edit_mask update_with].
    pose proof (Forall_get _ _ (e_cursor e + 1) Hput ltac:(rewrite length_put; lia)) as Hget. cbv beta in Hget.
    rewrite length_put. in_range.
  - unfold d_inv, editor_inv. cbn [e_chars e_cursor e_area e_option_index e_action e_edit_mask update_with].
    rewrite length_put. in_range.
Qed.

Lemma first_missing_range len m c : 0 <= c < len -> 0 <= first_missing len m c < len.
Proof.
  intros Hc. unfold first_missing. destruct (List.find _ _) as [i|] eqn:E; [| done].
  apply List.find_some in E as [Hin%in_seq _]. simpl. lia.
Qed.

Lemma edit_missing_inv d e :
  desc_ok d -> d_inv d e ->
  d_inv d (e <| e_cursor := first_missing (d_len d) (e_edit_mask e) (e_cursor e) |> <| e_area := 0 |>).
Proof.
  intros _ He. open_editor He. destruct (first_missing_range _ (e_edit_mask e) _ Hc).
  unfold d_inv, editor_inv. in_range.
Qed.

Lemma edit_saved_inv d e : d_inv d e -> d_inv d (e <| e_valid := 1 |> <| e_dirty := 0 |>).
Proof. done. Qed.
End Editors.

(** Preparation: the stored characters have table indices. *)
Lemma prepare_chars_inv len count index loaded :
  0 < len <= 32 -> 0 < count -> (forall cs i, loaded = Some cs -> 0 <= i < len -> 0 <= index (get cs i) < count) ->
  editor_inv len count (prepare_chars len index loaded).
Proof.
  intros Hl Hc Hi. unfold prepare_chars.
  assert (forall chars, length chars = Z.to_nat len -> Forall (fun c => 0 <= c < count) chars -> forall v m, 0 <= m < 2 ^ len ->
    editor_inv len count (mk_editor 0 v 0 0 (get chars 0) 1 chars m)) as Hmk.
  { intros chars H1 H2 v m Hm. pose proof (Forall_get _ _ 0 H2 ltac:(lia)) as Hget. cbv beta in Hget.
    unfold editor_inv. in_range. }
  destruct loaded as [cs|]; apply Hmk.
  - by rewrite length_map, length_seq.
  - apply Forall_forall. intros x Hx. apply list_elem_of_In, in_map_iff in Hx as (i & <- & Hin%in_seq).
    apply (Hi cs); [done | lia].
  - rewrite Z.shiftl_1_l. pose proof (Z.pow_pos_nonneg 2 len). lia.
  - apply length_replicate.
  - apply Forall_replicate. lia.
  - pose proof (Z.pow_pos_nonneg 2 len). lia.
Qed.

Lemma tail_index_range ch : is_digit ch || is_upper ch = true -> 0 <= tail_index ch < 36.
Proof.
  intros H. assert (forallb (fun k => let ch := Z.of_nat k in negb (is_digit ch || is_upper ch) ||
    ((0 <=? tail_index ch) && (tail_index ch <? 36))) (seq 0 91) = true) as Hall by (vm_compute; reflexivity).
  assert (0 <= ch <= 90) as Hch by (unfold is_digit, is_upper in H; apply orb_true_iff in H as [H | H]; clear Hall; bool_hyps; lia).
  rewrite forallb_forall in Hall. specialize (Hall (Z.to_nat ch) ltac:(apply in_seq; lia)). cbv zeta in Hall.
  rewrite Z2Nat.id, H in Hall by lia. cbn [negb orb] in Hall. bool_hyps. lia.
Qed.

Lemma digit_index_range ch : is_digit ch = true -> 0 <= digit_index ch < 10 /\ digit_index ch = ch - 48.
Proof. unfold is_digit, digit_index. intros. bool_hyps. rewrite u8_id by wraps. lia. Qed.

Lemma chars_ok_get p n l i : chars_ok p n l = true -> 0 <= i < n -> p (get l i) = true.
Proof.
  unfold chars_ok. rewrite forallb_forall. intros H Hi. specialize (H (Z.to_nat i) ltac:(apply in_seq; lia)).
  cbv beta in H. by rewrite Z2Nat.id in H by lia.
Qed.

(** What a load delivers passed the validity check. *)
Section Loads.
Context {D : Type} `{I2cBus D}.

Lemma fetch_valid {P} `{Payload P} addr (valid : record P -> bool) (st st' : storage D) r :
  fetch addr valid st = (Some r, st') -> valid r = true.
Proof.
  unfold fetch. intros E. destruct (negb _); [done |]. destruct (read_record addr st) as [[ok r'] s].
  destruct ok; cbn [negb] in E; [| done]. destruct (valid r') eqn:Ev; cbn [negb] in E; by simplify_eq.
Qed.

Lemma load_vin_valid a (st st' : storage D) v :
  svc_storage_load_vin (Some a) st = (true, v, st') -> svc_storage_vin_valid v = true.
Proof.
  unfold svc_storage_load_vin. destruct (fetch _ _ st) as [[r|] s] eqn:E; intros; simplify_eq.
  apply fetch_valid in E. unfold svc_storage_vin_record_is_valid in E.
  destruct (header_ok _ _ r), (svc_storage_vin_valid (Some (payload r))); done.
Qed.

Lemma load_province_valid a (st st' : storage D) v :
  svc_storage_load_province_id (Some a) st = (true, v, st') -> svc_storage_province_id_valid v = true.
Proof.
  unfold svc_storage_load_province_id. destruct (fetch _ _ st) as [[r|] s] eqn:E; intros; simplify_eq.
  apply fetch_valid in E. unfold svc_storage_province_id_record_is_valid in E.
  destruct (header_ok _ _ r), (svc_storage_province_id_valid (Some (payload r))); done.
Qed.

Lemma load_city_valid a (st st' : storage D) v :
  svc_storage_load_city_id (Some a) st = (true, v, st') -> svc_storage_city_id_valid v = true.
Proof.
  unfold svc_storage_load_city_id. destruct (fetch _ _ st) as [[r|] s] eqn:E; intros; simplify_eq.
  apply fetch_valid in E. unfold svc_storage_city_id_record_is_valid in E.
  destruct (header_ok _ _ r), (svc_storage_city_id_valid (Some (payload r))); done.
Qed.

End Loads.

Lemma loaded_config_valid {D} `{EepromReady D} (st : storage D) ok c st' :
  loaded_config st = (ok, c, st') -> config_valid c = true /\ wf c.
Proof.
  unfold loaded_config, svc_storage_load_config.
  destruct (fetch SVC_STORAGE_CONFIG_ADDR svc_storage_config_record_is_valid st) as [[r|] s] eqn:E; intros; simplify_eq; cbn;
    [| apply default_config_ok].
  split; [apply fetch_valid in E; by apply config_record_valid |].
  destruct (g_eeprom_i2c_bus st) eqn:Hb; [| unfold fetch in E; by rewrite Hb in E].
  pose proof (fetch_spec SVC_STORAGE_CONFIG_ADDR svc_storage_config_record_is_valid ltac:(done) ltac:(by vm_compute) ltac:(by vm_compute) st Hb) as Hf.
  rewrite E in Hf. destruct Hf as (_ & _ & _ & Hf & _). exact (slot_wf _ _ _ _ (Hf r eq_refl)).
Qed.

(** ** Navigation *)

Section Nav.
Context {D : Type} {bus : I2cBus D} {laws : EepromLaws D} {rdy : EepromReady D} {fonts : FontMetrics}.

(** The invariant does not concern keys, storage and cache. *)
Class Stable (I : lcd D -> Prop) := {
  stable_sto : forall w s, I w -> I (w <| sto := s |>);
  stable_adc : forall w a, I w -> I (w <| adc := a |>);
  stable_cache : forall w c, I w -> I (w <| cache := c |>)
}.

(** The invariant while a page is being entered. *)
Definition at_page (p : lcd_page_id_t) (w : lcd D) : Prop := lcd_base w /\ g_lcd_current_page_id (ui w) = p.

#[export] Instance stable_base : Stable lcd_base.
Proof. by split. Qed.
#[export] Instance stable_inv : Stable lcd_inv.
Proof. by split. Qed.
#[export] Instance stable_at_page p : Stable (at_page p).
Proof. by split. Qed.

Lemma keeps_storage_call I `{!Stable I} {A} (f : storage D -> A * storage D) : keeps I (storage_call f).
Proof. intros w Hw. unfold storage_call. destruct (f (sto w)). by apply stable_sto. Qed.

Lemma keeps_consume I `{!Stable I} ev : keeps I (consume (D := D) ev).
Proof. intros w Hw. unfold consume. destruct (ev (adc w)). by apply stable_adc. Qed.

Lemma keeps_refresh I `{!Stable I} : keeps I (refresh_status_config (D := D)).
Proof.
  intros w Hw. unfold refresh_status_config. destruct (app_usart_cmd_refresh_status_config _).
  by apply stable_cache, stable_sto.
Qed.

(** A load whose result has a known property. *)
Lemma keeps_load I `{!Stable I} {A B} (a : A) f (P : bool -> A -> Prop) (k : bool * A -> LCD D B) :
  (forall st ok v st', f (Some a) st = (ok, v, st') -> P ok (default a v)) ->
  (forall ok v, P ok v -> keeps I (k (ok, v))) -> keeps I (load a f ≫= k).
Proof.
  intros Hf Hk w Hw. unfold load, storage_call, mbind, lcd_bind. destruct (f (Some a) (sto w)) as [[ok v] st] eqn:E.
  by apply (Hk ok (default a v) (Hf _ _ _ _ E)), stable_sto.
Qed.

Lemma keeps_base f p :
  (forall w, editors_inv w -> editors_inv (f w)) -> (forall w, ui (f w) = ui w) -> keeps (at_page p) (modify f).
Proof. intros He Hu w [[H1 H2] H3]. unfold at_page, lcd_base. cbn. rewrite Hu. auto. Qed.

(** The characters of a valid stored value. *)
Lemma vin_char v i : svc_storage_vin_valid (Some v) = true -> vin_valid v = 1 -> 0 <= i < 17 -> 0 <= tail_index (get (vin_chars v) i) < 36.
Proof.
  intros Hv E Hi. unfold svc_storage_vin_valid in Hv. rewrite E in Hv. cbn in Hv.
  destruct (negb _); [done |]. apply tail_index_range. exact (chars_ok_get _ _ _ i Hv Hi).
Qed.

Lemma province_char v i :
  svc_storage_province_id_valid (Some v) = true -> province_valid v = 1 -> 0 <= i < 2 -> is_digit (get (province_chars v) i) = true.
Proof.
  intros Hv E Hi. unfold svc_storage_province_id_valid in Hv. rewrite E in Hv. cbn in Hv.
  destruct (negb _); [done |]. exact (chars_ok_get _ _ _ i Hv Hi).
Qed.

Lemma city_char v i :
  svc_storage_city_id_valid (Some v) = true -> city_valid v = 1 -> 0 <= i < 4 -> is_digit (get (city_chars v) i) = true.
Proof.
  intros Hv E Hi. unfold svc_storage_city_id_valid in Hv. rewrite E in Hv. cbn in Hv.
  destruct (negb _); [done |]. exact (chars_ok_get _ _ _ i Hv Hi).
Qed.

Lemma plate_char p i :
  svc_storage_plate_number_valid (Some p) = true -> 0 <= i < 5 -> 0 <= tail_index (get (plate_digits p) i) < 36.
Proof.
  intros Hp Hi. unfold svc_storage_plate_number_valid in Hp.
  destruct (1 <? plate_valid p); [done |]. destruct (SVC_STORAGE_PLATE_PROVINCE_COUNT <=? province_index p); [done |].
  destruct ((letter p <? 65) || (90 <? letter p)); [done |].
  destruct (chars_ok (fun ch => is_digit ch || is_upper ch) 5 (plate_digits p)) eqn:E; [| done].
  apply tail_index_range. exact (chars_ok_get _ _ _ i E Hi).
Qed.

(** Validity of what a load left in its variable. *)
Ltac valid_load lem :=
  let E := fresh "E" in
  intros st ok v st' E; intros ->; apply lem in E; destruct v; [exact E | discriminate E].

Lemma prepare_vin_keeps p : keeps (at_page p) (lcd_prepare_vin_set_page (D := D)).
Proof.
  apply (keeps_load _ _ _ (fun ok v => ok = true -> svc_storage_vin_valid (Some v) = true)); [valid_load (@load_vin_valid D) |].
  intros ok v Hv. apply keeps_base; [| done]. intros w (_ & H2 & H3 & H4 & H5 & H6). split; [| done].
  apply prepare_chars_inv; [lia.. |]. intros cs i E Hi. destruct ok, (Z.eqb_spec (vin_valid v) 1); simplify_eq/=.
  apply vin_char; auto.
Qed.

Lemma prepare_province_keeps p : keeps (at_page p) (lcd_prepare_province_id_set_page (D := D)).
Proof.
  apply (keeps_load _ _ _ (fun ok v => ok = true -> svc_storage_province_id_valid (Some v) = true)); [valid_load (@load_province_valid D) |].
  intros ok v Hv. apply keeps_base; [| done]. intros w (H1 & _ & H3 & H4 & H5 & H6). split; [done | split; [| done]].
  apply prepare_chars_inv; [lia.. |]. intros cs i E Hi. destruct ok, (Z.eqb_spec (province_valid v) 1); simplify_eq/=.
  apply digit_index_range, province_char; auto.
Qed.

Lemma prepare_city_keeps p : keeps (at_page p) (lcd_prepare_city_id_set_page (D := D)).
Proof.
  apply (keeps_load _ _ _ (fun ok v => ok = true -> svc_storage_city_id_valid (Some v) = true)); [valid_load (@load_city_valid D) |].
  intros ok v Hv. apply keeps_base; [| done]. intros w (H1 & H2 & _ & H4 & H5 & H6). do 2 (split; [done |]). split; [| done].
  apply prepare_chars_inv; [lia.. |]. intros cs i E Hi. destruct ok, (Z.eqb_spec (city_valid v) 1); simplify_eq/=.
  apply digit_index_range, city_char; auto.
Qed.

Lemma load_field_valid {A} (f : svc_storage_config_t -> A) (st : storage D) ok v st' :
  (let '(result, c, st) := loaded_config st in (result, Some (f c), st)) = (ok, v, st') ->
  exists c, config_valid c = true /\ wf c /\ v = Some (f c).
Proof.
  destruct (loaded_config st) as [[r c] s] eqn:E. intros; simplify_eq. exists c. by destruct (loaded_config_valid _ _ _ _ E).
Qed.

Lemma config_valid_facts c :
  config_valid c = true -> svc_storage_phone_digits_valid (local_phone c) = true /\
  svc_storage_plate_number_valid (Some (plate_number c)) = true.
Proof. unfold config_valid. intros. by bool_hyps. Qed.

Lemma prepare_plate_inv ok p : svc_storage_plate_number_valid (Some p) = true -> 0 <= province_index p -> plate_inv (prepare_plate ok p).
Proof.
  intros Hp Hi. unfold prepare_plate. destruct (_ && _) eqn:E.
  - bool_hyps. rewrite u8_id by wraps. unfold plate_inv. cbn [pl_focus pl_province_index pl_letter_index pl_digits].
    assert (Forall (fun c => 0 <= c < 36) (map (fun i => tail_index (get (plate_digits p) (Z.of_nat i))) (seq 0 5))) as Hd.
    { apply Forall_forall. intros x Hx. apply list_elem_of_In, in_map_iff in Hx as (i & <- & Hin%in_seq).
      apply plate_char; [done | lia]. }
    in_range.
  - assert (Forall (fun c => 0 <= c < 36) (zeros 5)) by (apply Forall_replicate; lia). unfold plate_inv. in_range.
Qed.

Lemma prepare_plate_keeps p : keeps (at_page p) (lcd_prepare_plate_set_page (D := D)).
Proof.
  apply (keeps_load _ _ _ (fun ok v => plate_inv (prepare_plate ok v))).
  - intros st ok v st' E. apply (load_field_valid plate_number) in E as (c & Hc & Hwf & ->).
    apply config_valid_facts in Hc as [_ Hp]. apply prepare_plate_inv; [done |]. cbn. apply Hwf.
  - intros ok v Hv. apply keeps_base; [| done]. intros w (H1 & H2 & H3 & _ & H5 & H6).
    exact (conj H1 (conj H2 (conj H3 (conj Hv (conj H5 H6))))).
Qed.

Lemma phone_bytes_valid l : svc_storage_phone_digits_valid l = true -> svc_storage_phone_digits_valid (phone_bytes l) = true.
Proof. intros H'. rewrite <- H'. reflexivity. Qed.

Lemma phone_digit l i : svc_storage_phone_digits_valid l = true -> 0 <= i <= 10 -> 48 <= get l i <= 57.
Proof.
  unfold svc_storage_phone_digits_valid. intros Hv Hi. apply andb_true_iff in Hv as [Hv _].
  apply (chars_ok_get _ _ _ i) in Hv; [| lia]. unfold is_digit in Hv. bool_hyps. lia.
Qed.

Lemma prepare_phone_inv ok l : svc_storage_phone_digits_valid l = true -> phone_inv (prepare_phone ok l).
Proof.
  intros Hl. unfold prepare_phone.
  assert (forall l', length l' = 12%nat -> svc_storage_phone_digits_valid l' = true ->
    phone_inv (mk_phone_editor l' 0 (u8 (get l' 0 - 48)) 0 1)) as Hmk.
  { intros l' Hlen Hv. pose proof (phone_digit l' 0 Hv ltac:(lia)). rewrite u8_id by wraps. unfold phone_inv. in_range. }
  by destruct ok; apply Hmk.
Qed.

Lemma prepare_phone_keeps p : keeps (at_page p) (lcd_prepare_local_phone_page (D := D)).
Proof.
  apply (keeps_load _ _ _ (fun ok v => phone_inv (prepare_phone ok v))).
  - intros st ok v st' E. apply (load_field_valid local_phone) in E as (c & Hc & _ & ->).
    apply config_valid_facts in Hc as [Hp _]. by apply prepare_phone_inv.
  - intros ok v Hv. apply keeps_base; [| done]. intros w (H1 & H2 & H3 & H4 & _ & H6).
    exact (conj H1 (conj H2 (conj H3 (conj H4 (conj Hv H6))))).
Qed.

Lemma stored_choice_range ok v : 0 <= stored_choice ok v < 5.
Proof.
  unfold stored_choice. destruct ok; [| lia]. destruct ((1 <=? v) && (v <=? 5)) eqn:E; [| lia].
  bool_hyps. rewrite u8_id by wraps. lia.
Qed.

Lemma selected_inv_put sel p v :
  selected_inv sel -> p <> LCD_PAGE_MAX -> 0 <= v < Z.max 1 (lcd_page_get_select_count registered p) ->
  selected_inv (put sel (page_num p) v).
Proof.
  intros [Hl Hs] Hp Hv. split; [by rewrite length_put |]. intros q Hq. pose proof (page_num_range p).
  pose proof (page_num_range q). pose proof (page_num_lt p Hp).
  destruct (decide (page_num p = page_num q)) as [E|].
  - apply page_num_inj in E as <-. by rewrite get_put_eq by (rewrite Hl; lia).
  - rewrite get_put_ne by lia. by apply Hs.
Qed.

Lemma set_selected_keeps q p v :
  p <> LCD_PAGE_MAX -> 0 <= v < Z.max 1 (lcd_page_get_select_count registered p) ->
  keeps (at_page q) (set_selected (D := D) p v).
Proof.
  intros Hp Hv w [[(H1 & H2 & H3 & H4 & H5 & H6 & H7 & H8) He] Hc]. split; [split; [| done] | done].
  split; [done |]. split; [done |]. split; [done |]. split; [by apply selected_inv_put |]. done.
Qed.

Lemma prepare_class_keeps p : keeps (at_page p) (lcd_prepare_vehicle_plate_class_page (D := D)).
Proof.
  apply (keeps_load _ _ _ (fun _ _ => True)); [done |]. intros ok v _. apply set_selected_keeps; [done |].
  pose proof (stored_choice_range ok v). change (lcd_page_get_select_count _ _) with 5. lia.
Qed.

Lemma prepare_color_keeps p : keeps (at_page p) (lcd_prepare_vehicle_plate_color_page (D := D)).
Proof.
  apply (keeps_load _ _ _ (fun _ _ => True)); [done |]. intros ok v _. apply set_selected_keeps; [done |].
  pose proof (stored_choice_range ok v). change (lcd_page_get_select_count _ _) with 5. lia.
Qed.

Lemma pages_of_pos n : 1 <= pages_of n.
Proof. unfold pages_of. lia. Qed.

Lemma prepare_text_inv m : text_page_inv (lcd_prepare_text_normal_page m).
Proof.
  pose proof (pages_of_pos (Z.of_nat (length (text_codes (t_text m))))) as Hp.
  destruct m as [v f ty len t pi pc]. unfold text_page_inv. cbn [lcd_prepare_text_normal_page update_with t_text t_page_index t_page_count] in *. lia.
Qed.

Lemma prepare_text_keeps p : keeps (at_page p) (prepare_text_page (D := D)).
Proof.
  intros w [[(H1 & H2 & H3 & H4 & H5 & H6 & H7 & H8) He] Hc]. split; [split; [| done] | done].
  do 6 (split; [done |]). split; [exact H7 |]. apply prepare_text_inv.
Qed.

Lemma prepare_keeps p q : keeps (at_page q) (lcd_page_on_enter_prepare (D := D) p).
Proof.
  unfold lcd_page_on_enter_prepare.
  repeat first [apply keeps_bind; [| intros _] | apply keeps_decide | apply keeps_skip | apply prepare_phone_keeps
    | apply prepare_class_keeps | apply prepare_color_keeps | apply prepare_text_keeps | apply prepare_plate_keeps
    | apply prepare_vin_keeps | apply prepare_province_keeps | apply prepare_city_keeps].
Qed.

(** The page as it is entered: preparation, then mode, time and redraw. *)
Definition enter_done (p : lcd_page_id_t) (w : lcd D) : lcd D :=
  w <| ui := ui w <| g_lcd_menu_mode := negb (bool_decide (p = LCD_PAGE_HOME)) |>
               <| g_lcd_page_enter_tick := tick w |> <| g_lcd_need_redraw := true |> |>.

Lemma page_enter_eq p w :
  p <> LCD_PAGE_MAX -> g_lcd_ui_nav_enter_hook (ui w) = true ->
  lcd_page_enter p w =
  (tt, enter_done p (snd (lcd_page_on_enter_prepare p (w <| ui := ui w <| g_lcd_current_page_id := p |> |>)))).
Proof.
  intros Hp Hh. unfold lcd_page_enter. pose proof (page_num_lt p Hp). rewrite (proj2 (Z.leb_gt _ _)) by done.
  unfold mbind, lcd_bind, set_ui, modify, get_ui, gets. cbn [ui update_with g_lcd_ui_nav_enter_hook]. rewrite Hh.
  by destruct (lcd_page_on_enter_prepare p _) as [[] w'].
Qed.

Lemma page_enter_inv p w :
  lcd_base w -> p <> LCD_PAGE_MAX ->
  lcd_inv (snd (lcd_page_enter p w)) /\ g_lcd_current_page_id (ui (snd (lcd_page_enter p w))) = p /\
  g_lcd_need_redraw (ui (snd (lcd_page_enter p w))) = true.
Proof.
  intros [Hu He] Hp. rewrite page_enter_eq by (done || apply Hu). cbn [snd].
  assert (at_page p (w <| ui := ui w <| g_lcd_current_page_id := p |> |>)) as Hat.
  { destruct Hu as (H1 & H2 & H3 & H4). split; [split; [| done] | done]. exact (conj H1 (conj H2 (conj Hp H4))). }
  destruct (prepare_keeps p p _ Hat) as [[Hu' He'] Hc]. set (w' := snd _) in *. clearbody w'.
  unfold enter_done. split; [split; [split; [exact Hu' | exact He'] |] |]; [| by split].
  cbn [ui update_with g_lcd_menu_mode g_lcd_current_page_id]. by rewrite Hc.
Qed.

Lemma page_enter_keeps p : keeps lcd_inv (lcd_page_enter (D := D) p).
Proof.
  intros w [Hw Hm]. destruct (decide (p = LCD_PAGE_MAX)) as [->|Hp]; [done |]. by apply page_enter_inv.
Qed.

Lemma common_ok_keeps p : p <> LCD_PAGE_COMMON_CONFIG_OK -> keeps lcd_inv (lcd_page_enter_common_ok (D := D) p).
Proof.
  intros Hp. apply keeps_bind; [| intros _; apply page_enter_keeps]. apply keeps_set_ui. intros w [[Hu He] Hm].
  split; [split; [| done] | done]. destruct Hu as (H1 & H2 & H3 & H4 & _ & _ & H7).
  do 4 (split; [done |]). cbn [ui update_with g_lcd_common_ok_return_page]. case_match eqn:E; [done |].
  split; [intros ->; done |]. split; [done | exact H7].
Qed.

(** An update of the [lcd_ui.c] statics the invariant does not speak of. *)
Lemma keeps_free (f : lcd_ui -> lcd_ui) :
  (forall u, ui_base u -> ui_base (f u)) -> (forall u, g_lcd_menu_mode (f u) = g_lcd_menu_mode u) ->
  (forall u, g_lcd_current_page_id (f u) = g_lcd_current_page_id u) -> keeps lcd_inv (set_ui (D := D) f).
Proof. intros Hf Hm Hc w [[Hu He] Hmode]. split; [split; [by apply Hf | done] |]. cbn. by rewrite Hm, Hc. Qed.

Lemma redraw_keeps : keeps lcd_inv (redraw (D := D)).
Proof. by apply keeps_free. Qed.

Lemma nav_selected_keeps p v :
  p <> LCD_PAGE_MAX -> 0 <= v < Z.max 1 (lcd_page_get_select_count registered p) -> keeps lcd_inv (set_selected (D := D) p v).
Proof.
  intros Hp Hv w [Hw Hm]. split; [| done]. by apply (set_selected_keeps (g_lcd_current_page_id (ui w)) p v Hp Hv w).
Qed.

Lemma select_count_range p : 0 <= lcd_page_get_select_count registered p <= 9.
Proof. destruct p; vm_compute; split; discriminate. Qed.

Lemma handle_nav_keeps delta : keeps lcd_inv (lcd_page_handle_nav (D := D) delta).
Proof.
  intros w Hw. unfold lcd_page_handle_nav, mbind, lcd_bind, get_ui, gets.
  pose proof Hw as [[(Hr & _ & Hc & [_ Hsel] & _) _] _]. rewrite Hr. set (p := g_lcd_current_page_id (ui w)) in *.
  set (v := get (g_lcd_page_selected (ui w)) (page_num p)). pose proof (Hsel p Hc : 0 <= v < _) as Hv.
  pose proof (select_count_range p). set (n := lcd_page_get_select_count registered p) in *.
  assert (forall x, 0 <= x < Z.max 1 n -> lcd_inv (snd ((set_selected p x;; redraw) w))) as Hset.
  { intros x Hx. apply (keeps_bind lcd_inv (set_selected p x) (fun _ => redraw)); [by apply nav_selected_keeps | intros _; apply redraw_keeps | done]. }
  destruct (Z.eqb_spec n 0); [done |].
  destruct ((delta <? 0) && (0 <? v)) eqn:E1; [apply Hset; bool_hyps; rewrite u8_id by wraps; lia |].
  destruct ((0 <? delta) && (v + 1 <? n)) eqn:E2; [apply Hset; bool_hyps; rewrite u8_id by wraps; lia | done].
Qed.
End Nav.
#[export] Hint Resolve keeps_storage_call keeps_consume keeps_refresh : lcd.
