(* ===== verification/LcdTask.v ===== *)
(** * The display thread keeps its invariant

    Every handler and every round of [svc_lcd_thread_entry] keeps the ranges of
    [LcdInv], and the display answers to the keys as its page tree says. *)

From S2P Require Import Prelude Platform AppTypes Adc Eeprom Storage McuStatus StorageSpec UartText LcdPages LcdGfx LcdState LcdData LcdText LcdTables LcdRender LcdNav LcdKeys LcdInv.

Section Task.
Context {D : Type} {bus : I2cBus D} {laws : EepromLaws D} {rdy : EepromReady D} {fonts : FontMetrics}.

(** ** Navigation *)

Lemma handle_back_keeps : keeps lcd_inv (lcd_page_handle_back (D := D)).
Proof.
  unfold lcd_page_handle_back. apply keeps_bind; [apply keeps_get_ui | intros n].
  apply keeps_bind; [apply keeps_get_ui | intros p]. apply keeps_decide; [apply keeps_bind; [apply keeps_get_ui | intros q]; apply page_enter_keeps |].
  apply keeps_decide; [apply page_enter_keeps |]. destruct n; [apply keeps_if |]; apply page_enter_keeps.
Qed.

Lemma saved_ok_keeps ok p : p <> LCD_PAGE_COMMON_CONFIG_OK -> keeps lcd_inv (saved_ok (D := D) ok p).
Proof.
  intros Hp. apply keeps_if; [| apply keeps_skip]. apply keeps_bind; [apply keeps_refresh, _ | intros _].
  by apply common_ok_keeps.
Qed.

Lemma run_confirm_keeps f : keeps lcd_inv (run_confirm (D := D) f).
Proof.
  destruct f; cbn [run_confirm].
  - apply page_enter_keeps.
  - apply common_ok_keeps; discriminate.
  - apply common_ok_keeps; discriminate.
  - apply common_ok_keeps; discriminate.
  - apply keeps_bind; [apply keeps_get_ui | intros v].
    apply keeps_bind; [apply keeps_storage_call, _ | intros ok]. by apply saved_ok_keeps.
  - apply keeps_bind; [apply keeps_get_ui | intros v].
    apply keeps_bind; [apply keeps_storage_call, _ | intros ok]. by apply saved_ok_keeps.
Qed.

Lemma handle_confirm_keeps : keeps lcd_inv (lcd_page_handle_confirm (D := D)).
Proof.
  unfold lcd_page_handle_confirm. apply keeps_bind; [apply keeps_get_ui | intros [n|]];
    (apply keeps_bind; [apply keeps_get_ui | intros p]); [| apply keeps_skip].
  apply keeps_decide.
  - apply keeps_decide; [apply keeps_bind; [apply keeps_get_ui | intros q]; apply page_enter_keeps |].
    apply keeps_if; [apply page_enter_keeps | apply keeps_skip].
  - destruct (on_confirm n); [apply run_confirm_keeps |].
    destruct (kind n), (children n); try apply keeps_skip. apply keeps_if; [| apply keeps_skip].
    apply keeps_bind; [apply keeps_get_ui | intros s]. apply keeps_if; [apply page_enter_keeps | apply keeps_skip].
Qed.

Lemma auto_return_keeps : keeps lcd_inv (lcd_page_handle_auto_return (D := D)).
Proof.
  unfold lcd_page_handle_auto_return. apply keeps_bind; [apply keeps_get_ui | intros [n|]]; [| apply keeps_skip].
  apply keeps_if; [apply keeps_skip |]. apply keeps_bind; [apply keeps_gets | intros t].
  apply keeps_bind; [apply keeps_get_ui | intros t']. apply keeps_if; [apply page_enter_keeps | apply keeps_skip].
Qed.

Lemma dynamic_refresh_keeps : keeps lcd_inv (lcd_page_handle_dynamic_refresh (D := D)).
Proof.
  unfold lcd_page_handle_dynamic_refresh. apply keeps_bind; [apply keeps_get_ui | intros p].
  apply keeps_if; [by apply keeps_free |]. apply keeps_bind; [apply keeps_gets | intros t].
  apply keeps_bind; [apply keeps_get_ui | intros c]. apply keeps_if; [apply keeps_skip |].
  apply keeps_bind; [by apply keeps_free | intros _]. apply keeps_bind; [apply keeps_gets | intros s].
  apply keeps_bind; [apply keeps_get_ui | intros l].
  apply keeps_if; [by apply keeps_free |]. apply keeps_if; [| apply keeps_skip].
  apply keeps_bind; [by apply keeps_free | intros _; apply redraw_keeps].
Qed.

(** ** Drawing *)

(** What drawing the text page does to the message. *)
Lemma text_render_msg (m m' : lcd_text_msg_t) p :
  lcd_render_info_center_text_normal_ui m = Some (p, m') -> Z.of_nat (length (t_text m)) = 4097 ->
  0 <= t_text_len m <= 4096 -> get (t_text m) (t_text_len m) = 0 -> text_page_inv m ->
  m' = m \/ m' = m <| t_page_count := pages_of (Z.of_nat (length (text_codes (t_text m)))) |>.
Proof.
  intros E Hl Hlen Hz [Hi _]. unfold lcd_render_info_center_text_normal_ui in E.
  destruct (decide (t_valid m = 0 \/ t_text_len m = 0)) as [Hn|Hn].
  - left. unfold render_text in E. destruct Hn as [Hn|Hn]; rewrite Hn in E; [| rewrite orb_true_r in E]; by simplify_eq/=.
  - right. assert (text_ok m) as Hok by (split_and!; [naive_solver | lia.. | done]).
    pose proof (text_pages_max m Hok). destruct (render_text_spec m Hok) as (lines & Er & _); [lia |].
    rewrite Er in E. by simplify_eq/=.
Qed.

Lemma text_render_inv u p m :
  ui_base u -> lcd_render_info_center_text_normal_ui (g_lcd_text_msg u) = Some (p, m) ->
  ui_base (u <| g_lcd_text_msg := m |>).
Proof.
  intros (H1 & H2 & H3 & H4 & H5 & H6 & (Hc & Hl & Hlen & Hz) & H8) E.
  destruct (text_render_msg _ _ _ E Hl Hlen Hz H8) as [-> | ->]; do 6 (split; [done |]).
  - exact (conj (conj Hc (conj Hl (conj Hlen Hz))) H8).
  - split; [exact (conj Hc (conj Hl (conj Hlen Hz))) |]. destruct H8 as [Hi _].
    pose proof (pages_of_pos (Z.of_nat (length (text_codes (t_text (g_lcd_text_msg u)))))).
    split; [exact Hi |]. cbn [g_lcd_text_msg update_with t_page_count t_text]. lia.
Qed.

Lemma render_page_keeps f : keeps lcd_inv (render_page (D := D) f).
Proof.
  intros w [[Hu He] Hm]. unfold render_page.
  set (w' := match picture f w with Some p => w <| screen := p |> | None => w end).
  assert (ui w' = ui w /\ lcd_inv w') as [Eu Hw'] by (subst w'; destruct (picture f w); done).
  cbn [snd]. destruct f; try done. destruct (lcd_render_info_center_text_normal_ui _) as [[p m]|] eqn:E; [| done].
  destruct Hw' as [[Hu' He'] Hm']. split; [split; [| exact He'] |].
  - by apply (text_render_inv _ p).
  - exact Hm.
Qed.

Lemma render_current_keeps : keeps lcd_inv (lcd_render_current_page (D := D)).
Proof.
  unfold lcd_render_current_page. apply keeps_bind; [apply keeps_get_ui | intros n].
  apply keeps_bind; [apply keeps_get_ui | intros fb]. destruct (n ≫= render); [apply render_page_keeps |].
  destruct fb; [apply render_page_keeps | apply keeps_skip].
Qed.

Lemma finish_round_keeps : keeps lcd_inv (finish_round (D := D)).
Proof.
  unfold finish_round. apply keeps_bind; [apply auto_return_keeps | intros _].
  apply keeps_bind; [apply dynamic_refresh_keeps | intros _]. apply keeps_bind; [apply keeps_get_ui | intros need].
  apply keeps_if; [| apply keeps_skip]. apply keeps_bind; [apply render_current_keeps | intros _]. by apply keeps_free.
Qed.

(** ** Keys *)

Lemma text_turn_keeps f :
  (forall m, text_page_inv m -> text_page_inv (snd (f m)) /\ t_text (snd (f m)) = t_text m /\ t_text_len (snd (f m)) = t_text_len m) ->
  keeps lcd_inv (turn_page (D := D) f).
Proof.
  intros Hf. apply keeps_bind; [apply keeps_get_ui | intros c].
  apply keeps_bind; [| intros _; apply keeps_if; [apply redraw_keeps | apply keeps_skip]].
  apply keeps_free; [| done..]. intros u (H1 & H2 & H3 & H4 & H5 & H6 & (Hc & Hl & Hlen & Hz) & H8).
  destruct (Hf _ H8) as (Hi & Et & En). do 6 (split; [done |]). split; [| exact Hi].
  split; [exact Hc |]. cbn [g_lcd_text_msg update_with]. rewrite Et, En. exact (conj Hl (conj Hlen Hz)).
Qed.

Lemma text_page_up_inv m : text_page_inv m ->
  text_page_inv (snd (text_page_up m)) /\ t_text (snd (text_page_up m)) = t_text m /\ t_text_len (snd (text_page_up m)) = t_text_len m.
Proof.
  intros [Hi Hn]. unfold text_page_up. destruct (Z.ltb_spec 0 (t_page_index m)); [| done].
  split; [| done]. split; [| exact Hn]. cbn [snd t_page_index t_text update_with]. lia.
Qed.

Lemma text_page_down_inv m : text_page_inv m ->
  text_page_inv (snd (text_page_down m)) /\ t_text (snd (text_page_down m)) = t_text m /\ t_text_len (snd (text_page_down m)) = t_text_len m.
Proof.
  intros [Hi Hn]. unfold text_page_down. destruct (_ && _) eqn:E; [| done]. bool_hyps.
  split; [| done]. split; [| exact Hn]. cbn [snd t_page_index t_text update_with].
  pose proof (Z.mod_le (t_page_index m + 1) 65536). pose proof (Z.mod_pos_bound (t_page_index m + 1) 65536).
  unfold u16. lia.
Qed.

(** The keys of one of the pages: each is taken, then handled. *)
Ltac key := apply keeps_bind; [apply keeps_consume, _ | intros []].
Ltac page_keys := apply keeps_bind; [apply keeps_get_ui | intros []]; cbn [negb]; [| apply keeps_ret].
Ltac then_true := apply keeps_bind; [| intros _; apply keeps_ret].
Ltac then_redraw := apply keeps_bind; [| intros _; first [apply redraw_keeps | apply keeps_bind; [apply redraw_keeps | intros _; apply keeps_ret]]].

Lemma text_keys_keeps : keeps lcd_inv (lcd_handle_text_normal_keys (D := D)).
Proof.
  unfold lcd_handle_text_normal_keys. page_keys.
  key; [then_true; apply page_enter_keeps |].
  key; [then_true; apply text_turn_keeps, text_page_up_inv |].
  key; [then_true; apply text_turn_keeps, text_page_down_inv |].
  then_true. apply keeps_consume, _.
Qed.

(** *** Character editors *)

(** What an editor relies on: its sizes, and that its variables are its own. *)
Class GoodDesc (d : editor_desc D) : Prop := {
  good_ok : desc_ok d;
  good_page : d_page d <> LCD_PAGE_COMMON_CONFIG_OK;
  good_set : forall w e, lcd_inv w -> d_inv d e -> lcd_inv (d_set d e w);
  good_get : forall w, lcd_inv w -> d_inv d (d_get d w)
}.

#[export] Instance good_vin : GoodDesc vin_desc.
Proof.
  split; [| done | |].
  - split; [done |]. split; [done |]. intros x Hx. apply u32_id. cbn in *. wraps.
  - intros w e [[Hu (H1 & H2)] Hm] He. exact (conj (conj Hu (conj He H2)) Hm).
  - intros w [[_ (H1 & _)] _]. exact H1.
Qed.
#[export] Instance good_province : GoodDesc province_desc.
Proof.
  split; [| done | |].
  - split; [done |]. split; [done |]. intros x Hx. apply u8_id. cbn in *. wraps.
  - intros w e [[Hu (H1 & H2 & H3)] Hm] He. exact (conj (conj Hu (conj H1 (conj He H3))) Hm).
  - intros w [[_ (_ & H2 & _)] _]. exact H2.
Qed.
#[export] Instance good_city : GoodDesc city_desc.
Proof.
  split; [| done | |].
  - split; [done |]. split; [done |]. intros x Hx. apply u8_id. cbn in *. wraps.
  - intros w e [[Hu (H1 & H2 & H3 & H4)] Hm] He. exact (conj (conj Hu (conj H1 (conj H2 (conj He H4)))) Hm).
  - intros w [[_ (_ & _ & H3 & _)] _]. exact H3.
Qed.

Lemma edit_keeps d `{!GoodDesc d} f : (forall e, d_inv d e -> d_inv d (f e)) -> keeps lcd_inv (edit d f).
Proof. intros Hf. apply keeps_modify. intros w Hw. by apply good_set, Hf, good_get. Qed.

Lemma editor_save_keeps d `{!GoodDesc d} : keeps lcd_inv (editor_save_and_ok d).
Proof.
  unfold editor_save_and_ok. apply keeps_bind; [apply keeps_gets | intros e].
  apply keeps_bind; [apply keeps_storage_call, _ | intros []]; [| apply keeps_skip].
  apply keeps_bind; [apply edit_keeps; [done |]; intros e'; apply edit_saved_inv | intros _].
  apply keeps_bind; [apply keeps_refresh, _ | intros _]. apply common_ok_keeps, good_page.
Qed.

Lemma editor_s4_keeps d `{!GoodDesc d} : keeps lcd_inv (editor_s4 d).
Proof.
  unfold editor_s4. apply keeps_bind; [apply keeps_gets | intros e]. pose proof good_ok.
  apply keeps_if; [then_redraw; apply edit_keeps; [done |]; intros e'; by apply edit_take_inv |].
  apply keeps_if; [| apply redraw_keeps]. apply keeps_if; [apply page_enter_keeps |].
  apply keeps_if; [| by apply editor_save_keeps].
  then_redraw. apply edit_keeps; [done |]. intros e'. by apply edit_missing_inv.
Qed.

Lemma editor_keys_keeps d `{!GoodDesc d} : keeps lcd_inv (editor_keys d).
Proof.
  pose proof good_ok. unfold editor_keys. page_keys.
  key; [then_redraw; apply edit_keeps; [done |]; intros e; by apply edit_s1_inv |].
  key; [then_redraw; apply edit_keeps; [done |]; intros e; apply edit_move_inv; [done |]; intros; by apply step_down_range |].
  key; [then_redraw; apply edit_keeps; [done |]; intros e; apply edit_move_inv; [done |]; intros; by apply step_up_range |].
  key; [then_true; by apply editor_s4_keeps | apply keeps_ret].
Qed.

(** *** Plate editor *)

Lemma plate_s1_inv e : plate_inv e -> plate_inv (plate_s1 e).
Proof.
  intros (H1 & H2). split; [| exact H2]. unfold plate_s1. cbn [pl_focus update_with].
  destruct (Z.ltb_spec (pl_focus e) 8); [rewrite u8_id by wraps |]; lia.
Qed.

(** A character of the plate changed. *)
Lemma plate_put_inv e i v : plate_inv e -> 0 <= v < 36 ->
  plate_inv (e <| pl_digits := put (pl_digits e) i v |> <| pl_dirty := 1 |>).
Proof.
  intros (H1 & H2 & H3 & H4 & H5) Hv. split; [exact H1 |]. split; [exact H2 |]. split; [exact H3 |].
  cbn [pl_digits update_with]. rewrite length_put. split; [done |]. by apply Forall_insert.
Qed.

Lemma plate_digit_range e i : plate_inv e -> 0 <= get (pl_digits e) i < 36.
Proof.
  intros (_ & _ & _ & _ & H). unfold get. destruct (nth_in_or_default (Z.to_nat i) (pl_digits e) 0) as [Hin| ->]; [| lia].
  rewrite Forall_forall in H. apply H. by apply list_elem_of_In.
Qed.

Lemma plate_s2_inv e : plate_inv e -> plate_inv (plate_s2 e).
Proof.
  intros He. pose proof (plate_digit_range e (u8 (pl_focus e - 2)) He). pose proof He as (H1 & H2 & H3 & H4). unfold plate_s2. cbv zeta.
  destruct (Z.eqb_spec (pl_focus e) 0); [| destruct (Z.eqb_spec (pl_focus e) 1); [| destruct (_ && _)]].
  - refine (conj H1 (conj _ (conj H3 H4))). cbn [pl_province_index update_with]. change (u8 (31 - 1)) with 30.
    destruct (Z.ltb_spec 0 (pl_province_index e)); lia.
  - refine (conj H1 (conj H2 (conj _ H4))). cbn [pl_letter_index update_with].
    destruct (Z.ltb_spec 0 (pl_letter_index e)); lia.
  - apply plate_put_inv; [done |]. destruct (Z.ltb_spec 0 (get (pl_digits e) (u8 (pl_focus e - 2)))); lia.
  - destruct (pl_focus e =? 7); (refine (conj _ (conj H2 (conj H3 H4))); cbn; lia).
Qed.

Lemma plate_s3_inv e : plate_inv e -> plate_inv (plate_s3 e).
Proof.
  intros He. pose proof (plate_digit_range e (u8 (pl_focus e - 2)) He). pose proof He as (H1 & H2 & H3 & H4). unfold plate_s3. cbv zeta.
  destruct (Z.eqb_spec (pl_focus e) 0); [| destruct (Z.eqb_spec (pl_focus e) 1); [| destruct (_ && _)]].
  - refine (conj H1 (conj _ (conj H3 H4))). cbn [pl_province_index update_with]. rewrite u8_id by wraps.
    destruct (Z.leb_spec 31 (pl_province_index e + 1)); lia.
  - refine (conj H1 (conj H2 (conj _ H4))). cbn [pl_letter_index update_with].
    destruct (Z.ltb_spec (pl_letter_index e) 25); [rewrite u8_id by wraps |]; lia.
  - apply plate_put_inv; [done |].
    destruct (Z.ltb_spec (get (pl_digits e) (u8 (pl_focus e - 2))) 35); [rewrite u8_id by wraps |]; lia.
  - destruct (pl_focus e =? 7); (refine (conj _ (conj H2 (conj H3 H4))); cbn; lia).
Qed.

Lemma edit_plate_keeps f : (forall e, plate_inv e -> plate_inv (f e)) -> keeps lcd_inv (edit_plate (D := D) f).
Proof.
  intros Hf. apply keeps_modify. intros w [[Hu (H1 & H2 & H3 & H4 & H5)] Hm].
  exact (conj (conj Hu (conj H1 (conj H2 (conj H3 (conj (Hf _ H4) H5))))) Hm).
Qed.

Lemma plate_save_keeps : keeps lcd_inv (lcd_plate_save_and_ok (D := D)).
Proof.
  unfold lcd_plate_save_and_ok. apply keeps_bind; [apply keeps_gets | intros e].
  apply keeps_bind; [apply keeps_storage_call, _ | intros []]; [| apply keeps_skip].
  apply keeps_bind; [by apply edit_plate_keeps | intros _].
  apply keeps_bind; [apply keeps_refresh, _ | intros _]. apply common_ok_keeps. discriminate.
Qed.

Lemma plate_keys_keeps : keeps lcd_inv (lcd_handle_plate_set_keys (D := D)).
Proof.
  unfold lcd_handle_plate_set_keys. page_keys.
  key; [then_redraw; apply edit_plate_keeps, plate_s1_inv |].
  key; [then_redraw; apply edit_plate_keeps, plate_s2_inv |].
  key; [then_redraw; apply edit_plate_keeps, plate_s3_inv |].
  key; [| apply keeps_ret]. apply keeps_bind; [apply keeps_gets | intros e]. then_true.
  apply keeps_if; [apply plate_save_keeps |]. apply keeps_if; [apply page_enter_keeps | apply redraw_keeps].
Qed.

(** *** Phone editor *)

Lemma digit_at_range e c : phone_inv e -> 0 <= c <= 10 -> 0 <= digit_at e c <= 9.
Proof.
  intros (_ & Hv & _) Hc. pose proof (phone_digit _ _ Hv Hc). unfold digit_at. rewrite u8_id by wraps. lia.
Qed.

Lemma phone_s1_inv e : phone_inv e -> phone_inv (phone_s1 e).
Proof.
  intros He. pose proof He as (H1 & H2 & H3 & H4 & H5 & H6). pose proof (digit_at_range e _ He H3).
  unfold phone_s1. destruct (ph_focus e =? 0); [| destruct (ph_focus e =? 1)]; (refine (conj H1 (conj H2 (conj H3 _))); in_range).
Qed.

Lemma phone_s2_inv e : phone_inv e -> phone_inv (phone_s2 e).
Proof.
  intros He. pose proof He as (H1 & H2 & H3 & H4 & H5 & H6). unfold phone_s2. cbv zeta.
  destruct (ph_focus e =? 0); [| destruct (ph_focus e =? 1)].
  - pose proof (digit_at_range e (ph_cursor e - 1) He). pose proof (digit_at_range e (ph_cursor e) He).
    destruct (Z.ltb_spec 0 (ph_cursor e)); (refine (conj H1 (conj H2 _)); in_range).
  - destruct (Z.ltb_spec 0 (ph_selected_digit e)); (refine (conj H1 (conj H2 (conj H3 _))); in_range).
  - destruct (Z.ltb_spec 0 (ph_func_index e)); (refine (conj H1 (conj H2 (conj H3 (conj H4 (conj H5 _))))); in_range).
Qed.

Lemma phone_s3_inv e : phone_inv e -> phone_inv (phone_s3 e).
Proof.
  intros He. pose proof He as (H1 & H2 & H3 & H4 & H5 & H6). unfold phone_s3. cbv zeta.
  destruct (ph_focus e =? 0); [| destruct (ph_focus e =? 1)].
  - pose proof (digit_at_range e (ph_cursor e + 1) He). pose proof (digit_at_range e (ph_cursor e) He).
    destruct (Z.ltb_spec (ph_cursor e) 10); rewrite ?u8_id by wraps; (refine (conj H1 (conj H2 _)); in_range).
  - destruct (Z.ltb_spec (ph_selected_digit e) 9); rewrite ?u8_id by wraps; (refine (conj H1 (conj H2 (conj H3 _))); in_range).
  - destruct (Z.ltb_spec (ph_func_index e) 1); rewrite ?u8_id by wraps; (refine (conj H1 (conj H2 (conj H3 (conj H4 (conj H5 _))))); in_range).
Qed.

(** A digit put in a valid number leaves it valid. *)
Lemma phone_put_valid l i v : svc_storage_phone_digits_valid l = true -> length l = 12%nat -> 0 <= i <= 10 -> 48 <= v <= 57 ->
  svc_storage_phone_digits_valid (put l i v) = true.
Proof.
  unfold svc_storage_phone_digits_valid. intros Hv Hl Hi Hd. apply andb_true_iff in Hv as [Hv Hz]. apply andb_true_iff. split.
  - unfold chars_ok in *. rewrite forallb_forall in *. intros k Hk. specialize (Hv k Hk).
    destruct (decide (i = Z.of_nat k)) as [->|].
    + rewrite get_put_eq by (rewrite Hl; lia). unfold is_digit. lia.
    + rewrite get_put_ne by lia. exact Hv.
  - rewrite get_put_ne by lia. exact Hz.
Qed.

Lemma phone_take_inv e : phone_inv e -> phone_inv (phone_take e).
Proof.
  intros He. pose proof He as (H1 & H2 & H3 & H4 & H5 & H6). unfold phone_take. cbv zeta.
  rewrite (u8_id (48 + _)) by wraps. set (l := put _ _ _).
  assert (svc_storage_phone_digits_valid l = true) as Hl by (apply phone_put_valid; [done | done | done | lia]).
  assert (length l = 12%nat) as Hlen by (subst l; by rewrite length_put). set (c := if _ <? _ then _ else _).
  assert (0 <= c <= 10) as Hc by (subst c; destruct (Z.ltb_spec (ph_cursor e) 10); rewrite ?u8_id by wraps; lia).
  pose proof (phone_digit _ _ Hl Hc). rewrite u8_id by wraps. refine (conj Hlen (conj Hl (conj Hc (conj _ (conj H5 H6))))). cbn. lia.
Qed.

Lemma edit_phone_keeps f : (forall e, phone_inv e -> phone_inv (f e)) -> keeps lcd_inv (edit_phone (D := D) f).
Proof.
  intros Hf. apply keeps_modify. intros w [[Hu (H1 & H2 & H3 & H4 & H5 & H6)] Hm].
  exact (conj (conj Hu (conj H1 (conj H2 (conj H3 (conj H4 (conj (Hf _ H5) H6)))))) Hm).
Qed.

Lemma phone_s4_keeps : keeps lcd_inv (phone_s4 (D := D)).
Proof.
  unfold phone_s4. apply keeps_bind; [apply keeps_gets | intros e].
  apply keeps_if; [then_redraw; apply edit_phone_keeps |].
  { intros e' He. pose proof He as (H1 & H2 & H3 & H4 & H5). pose proof (digit_at_range e' _ He H3).
    refine (conj H1 (conj H2 (conj H3 (conj _ H5)))). cbn. lia. }
  apply keeps_if; [then_redraw; apply edit_phone_keeps, phone_take_inv |]. then_redraw.
  apply keeps_if; [apply page_enter_keeps |]. apply keeps_bind; [apply keeps_storage_call, _ | intros ok].
  apply saved_ok_keeps. discriminate.
Qed.

(** A key that is handled if pressed. *)
Lemma if_key_keeps {A} ev (m : LCD D unit) (f : unit -> LCD D A) :
  keeps lcd_inv m -> (forall x, keeps lcd_inv (f x)) ->
  keeps lcd_inv (k ← consume (D := D) ev; (if k : bool then m else skip) ≫= f).
Proof.
  intros Hm Hf. apply keeps_bind; [apply keeps_consume, _ | intros k]. apply keeps_bind; [| done].
  apply keeps_if; [done | apply keeps_skip].
Qed.

Lemma phone_keys_keeps : keeps lcd_inv (lcd_handle_local_phone_keys (D := D)).
Proof.
  unfold lcd_handle_local_phone_keys. page_keys.
  apply if_key_keeps; [then_redraw; apply edit_phone_keeps, phone_s2_inv | intros _].
  apply if_key_keeps; [then_redraw; apply edit_phone_keeps, phone_s3_inv | intros _].
  apply if_key_keeps; [then_redraw; apply edit_phone_keeps, phone_s1_inv | intros _].
  apply if_key_keeps; [apply phone_s4_keeps | intros _; apply keeps_ret].
Qed.

(** ** The round *)

Lemma generic_keys_keeps : keeps lcd_inv (generic_keys (D := D)).
Proof.
  unfold generic_keys. apply if_key_keeps; [apply handle_back_keeps | intros _].
  apply if_key_keeps; [apply handle_nav_keeps | intros _]. apply if_key_keeps; [apply handle_nav_keeps | intros _].
  apply if_key_keeps; [apply handle_confirm_keeps | intros _]. apply finish_round_keeps.
Qed.

Lemma handle_keys_keeps hs : Forall (fun h => keeps lcd_inv h) hs -> keeps lcd_inv (handle_keys (D := D) hs).
Proof.
  induction 1 as [|h hs Hh _ IH]; [apply generic_keys_keeps |]. cbn [handle_keys].
  apply keeps_bind; [done | intros []]; [apply finish_round_keeps | done].
Qed.

Lemma key_handlers_keep : Forall (fun h => keeps lcd_inv h) (key_handlers (D := D)).
Proof.
  constructor; [apply text_keys_keeps |]. do 3 (constructor; [apply editor_keys_keeps, _ |]).
  constructor; [apply plate_keys_keeps |]. constructor; [apply phone_keys_keeps | constructor].
Qed.

Lemma subpage_keeps :
  keeps (D := D) lcd_inv (modify (fun w => w <| g_lcd_home_subpage := if g_lcd_home_subpage w =? 0 then 1 else 0 |>)).
Proof.
  apply keeps_modify. intros w [[Hu (H1 & H2 & H3 & H4 & H5 & H6)] Hm].
  refine (conj (conj Hu (conj H1 (conj H2 (conj H3 (conj H4 (conj H5 _)))))) Hm). cbn. case_match; lia.
Qed.

Lemma round_keeps : keeps lcd_inv (svc_lcd_thread_round (D := D)).
Proof.
  unfold svc_lcd_thread_round. pose proof (handle_keys_keeps _ key_handlers_keep).
  apply keeps_bind; [apply keeps_get_ui | intros []]; [| done]. key; [apply keeps_skip |].
  apply keeps_bind; [apply keeps_consume, _ | intros k2].
  apply keeps_bind; [apply keeps_if; [apply keeps_ret | apply keeps_consume, _] | intros []].
  - apply keeps_bind; [apply subpage_keeps | intros _]. apply keeps_bind; [apply redraw_keeps | intros _]. apply finish_round_keeps.
  - key; [| done]. apply keeps_bind; [apply page_enter_keeps | intros _]. apply finish_round_keeps.
Qed.
End Task.
