(* ===== verification/LcdSystem.v ===== *)
(** * The display in the running system

    The display thread runs beside the command thread, which updates its data,
    the threads that raise key events and read the inputs, and the clock.  A
    step relation interleaves them; the theorems hold in every state it
    reaches from start-up. *)

From S2P Require Import Prelude Platform AppTypes Adc Eeprom Storage McuStatus StorageSpec UartText LcdPages LcdGfx LcdState LcdData LcdText LcdTables LcdRender LcdNav LcdKeys LcdInv LcdTask.

Section System.
Context {D : Type} {bus : I2cBus D} {laws : EepromLaws D} {rdy : EepromReady D} {fonts : FontMetrics}.

(** ** Steps *)

Inductive lcd_step : lcd D -> lcd D -> Prop :=
  | step_round w : lcd_step w (snd (svc_lcd_thread_round w))
  | step_call w c : call_ok c -> lcd_step w (w <| ui := apply_call c (ui w) |>)
  | step_keys w a : lcd_step w (w <| adc := a |>)
  | step_storage w s : lcd_step w (w <| sto := s |>)
  | step_cache w c : lcd_step w (w <| cache := c |>)
  | step_inputs w v : lcd_step w (w <| vehicle := v |>)
  | step_tick w t : lcd_step w (w <| tick := t |>).

(** The statics as the program starts, around whatever the other parts of the
    system hold. *)
Definition lcd_boot (w : lcd D) : lcd D :=
  mk_lcd lcd_ui_boot vin_editor_boot province_editor_boot city_editor_boot plate_editor_boot phone_editor_boot 0
    (adc w) (sto w) (cache w) (vehicle w) (tick w) (screen w).

(** Start-up, then the display thread until its loop. *)
Definition lcd_started (w : lcd D) : lcd D := snd ((svc_lcd_init;; svc_lcd_thread_start) (lcd_boot w)).

Definition reachable (w : lcd D) : Prop := exists w0, rtc lcd_step (lcd_started w0) w.

(** ** The invariant holds throughout *)

Lemma started_inv w : lcd_inv (lcd_started w).
Proof.
  assert (data_inv (ui (lcd_started w))) as Hd by (apply data_inv_redraw, (reset_data_inv lcd_ui_boot)).
  split; [split |].
  - do 3 (split; [done |]). split; [| do 2 (split; [done |]); split; [exact Hd | by vm_compute]].
    split; [done |]. intros p Hp. change (g_lcd_page_selected _) with (zeros (Z.to_nat (page_num LCD_PAGE_MAX))).
    replace (get _ (page_num p)) with 0 by (symmetry; apply get_zeros).
    pose proof (select_count_range p). lia.
  - assert (forall n m, 0 < m -> Forall (fun c => 0 <= c < m) (zeros n)) as Hz by (intros; apply Forall_replicate; lia).
    pose proof (Hz 17%nat 36 eq_refl). pose proof (Hz 2%nat 10 eq_refl). pose proof (Hz 4%nat 10 eq_refl).
    pose proof (Hz 5%nat 36 eq_refl). unfold editors_inv, editor_inv, plate_inv, phone_inv. clear Hz Hd. in_range.
  - done.
Qed.

Lemma assign_text_inv c u : text_page_inv (g_lcd_text_msg u) -> text_page_inv (g_lcd_text_msg (assign c u)).
Proof.
  intros H. destruct c; try exact H. unfold text_page_inv. cbn [assign g_lcd_text_msg update_with t_page_index t_page_count].
  pose proof (pages_of_pos (Z.of_nat (length (text_codes (text_field text len (t_text (g_lcd_text_msg u))))))).
  cbn [t_text]. lia.
Qed.

(** A call of the command thread leaves the navigation state alone. *)
Lemma assign_frame c u :
  let u' := assign c u in
  g_lcd_registry u' = g_lcd_registry u /\ g_lcd_ui_nav_enter_hook u' = g_lcd_ui_nav_enter_hook u /\
  g_lcd_current_page_id u' = g_lcd_current_page_id u /\ g_lcd_page_selected u' = g_lcd_page_selected u /\
  g_lcd_common_ok_return_page u' = g_lcd_common_ok_return_page u /\ g_lcd_menu_mode u' = g_lcd_menu_mode u.
Proof. by destruct c. Qed.

Lemma call_inv (w : lcd D) c : lcd_inv w -> call_ok c -> lcd_inv (w <| ui := apply_call c (ui w) |>).
Proof.
  intros [[(H1 & H2 & H3 & H4 & H5 & H6 & H7 & H8) He] Hm] Hc. pose proof (apply_call_inv c _ H7 Hc) as Hd.
  rewrite (apply_call_assign c _ H7 Hc) in *. pose proof (assign_text_inv c _ H8) as Ht.
  destruct (assign_frame c (ui w)) as (E1 & E2 & E3 & E4 & E5 & E6). set (u := assign c (ui w)) in *. clearbody u.
  rewrite <- E1 in H1. rewrite <- E2 in H2. rewrite <- E3 in H3. rewrite <- E4 in H4. rewrite <- E5 in H5, H6. rewrite <- E3, <- E6 in Hm.
  exact (conj (conj (conj H1 (conj H2 (conj H3 (conj H4 (conj H5 (conj H6 (conj Hd Ht))))))) He) Hm).
Qed.

Lemma step_inv w w' : lcd_step w w' -> lcd_inv w -> lcd_inv w'.
Proof. intros [] Hw; try done; [by apply round_keeps | by apply call_inv]. Qed.

Lemma steps_inv w w' : rtc lcd_step w w' -> lcd_inv w -> lcd_inv w'.
Proof. induction 1; [done |]. intros. eauto using step_inv. Qed.

Lemma reachable_inv w : reachable w -> lcd_inv w.
Proof. intros [w0 H]. exact (steps_inv _ _ H (started_inv w0)). Qed.

(** ** What is on the screen

    [page_fn p] draws page [p]; every registered page has its own function. *)
Definition page_fn (p : lcd_page_id_t) : render_fn := default render_submenu_ui (render (node_of p)).

Definition current_picture (w : lcd D) : option (list draw) := picture (page_fn (g_lcd_current_page_id (ui w))) w.

(** The pages that show data whose changes do not ask for a redraw, or do so
    only when they are polled. *)
Definition lagging (p : lcd_page_id_t) : bool :=
  bool_decide (p ∈ [LCD_PAGE_DRIVE_RECORD_LOCATION; LCD_PAGE_DRIVE_RECORD_DRIVER_INFO; LCD_PAGE_DEVICE_STATUS_VEHICLE]).

Definition fresh (w : lcd D) : Prop :=
  g_lcd_need_redraw (ui w) = true \/ lagging (g_lcd_current_page_id (ui w)) = true \/ current_picture w = Some (screen w).

(** [quieter w w']: from [w] to [w'] either a redraw is asked for, or nothing
    that can be seen changes. *)
Definition quieter (w w' : lcd D) : Prop :=
  g_lcd_need_redraw (ui w') = true \/
  (g_lcd_need_redraw (ui w') = g_lcd_need_redraw (ui w) /\ g_lcd_current_page_id (ui w') = g_lcd_current_page_id (ui w) /\
   screen w' = screen w /\ forall f, picture f w' = picture f w).

#[local] Instance quieter_preorder : PreOrder quieter.
Proof.
  split; [by right |]. intros w w1 w2 H1 [H2 | (E1 & E2 & E3 & E4)]; [by left |].
  destruct H1 as [H1 | (F1 & F2 & F3 & F4)]; [left; congruence |]. right. split_and!; congruence.
Qed.

Lemma quieter_fresh w w' : quieter w w' -> fresh w -> fresh w'.
Proof.
  intros [H | (E1 & E2 & E3 & E4)] Hw; [by left |]. unfold fresh, current_picture. by rewrite E1, E2, E3, E4.
Qed.

Definition quiet {A} (m : LCD D A) : Prop := forall w, quieter w (snd (m w)).
Definition marks {A} (m : LCD D A) : Prop := forall w, g_lcd_need_redraw (ui (snd (m w))) = true.

Lemma quiet_ret {A} (a : A) : quiet (mret a).
Proof. intros w. reflexivity. Qed.
Lemma quiet_gets {A} (f : lcd D -> A) : quiet (gets f).
Proof. intros w. reflexivity. Qed.
Lemma quiet_bind {A B} (m : LCD D A) (f : A -> LCD D B) : quiet m -> (forall a, quiet (f a)) -> quiet (m ≫= f).
Proof.
  intros Hm Hf w. specialize (Hm w). unfold mbind, lcd_bind. destruct (m w) as [a w1]. etrans; [exact Hm | apply Hf].
Qed.
Lemma quiet_if {A} (b : bool) (m m' : LCD D A) : quiet m -> quiet m' -> quiet (if b then m else m').
Proof. by destruct b. Qed.
Lemma quiet_decide {A} P `{Decision P} (m m' : LCD D A) : quiet m -> quiet m' -> quiet (if decide P then m else m').
Proof. by case_decide. Qed.
Lemma quiet_marks {A} (m : LCD D A) : marks m -> quiet m.
Proof. intros H w. by left. Qed.
Lemma marks_bind {A B} (m : LCD D A) (f : A -> LCD D B) : (forall a, marks (f a)) -> marks (m ≫= f).
Proof. intros Hf w. unfold mbind, lcd_bind. destruct (m w). apply Hf. Qed.
Lemma marks_redraw : marks redraw.
Proof. by intros w. Qed.

(** Updates of what no page shows. *)
Ltac unseen := right; do 3 (split; [done |]); by intros [].

Lemma quiet_adc ev : quiet (consume ev).
Proof. intros w. unfold consume. destruct (ev (adc w)). unseen. Qed.
Lemma quiet_storage {A} (f : storage D -> A * storage D) : quiet (storage_call f).
Proof. intros w. unfold storage_call. destruct (f (sto w)). unseen. Qed.
Lemma quiet_refresh : quiet refresh_status_config.
Proof. intros w. unfold refresh_status_config. destruct (app_usart_cmd_refresh_status_config _). unseen. Qed.
Lemma quiet_check_tick t : quiet (set_ui (fun u => u <| g_lcd_vehicle_status_check_tick := t |>)).
Proof. intros w. unseen. Qed.
Lemma quiet_last_bits b : quiet (set_ui (fun u => u <| g_lcd_vehicle_status_last_bits := b |>)).
Proof. intros w. unseen. Qed.

Lemma marks_enter p : p <> LCD_PAGE_MAX -> marks (lcd_page_enter p).
Proof.
  intros Hp. unfold lcd_page_enter. rewrite (proj2 (Z.leb_gt _ _)) by (by apply page_num_lt).
  do 4 (apply marks_bind; intros ?). by intros w.
Qed.
Lemma quiet_enter p : quiet (lcd_page_enter p).
Proof. destruct (decide (p = LCD_PAGE_MAX)) as [->|Hp]; [apply quiet_ret | by apply quiet_marks, marks_enter]. Qed.
Lemma quiet_common_ok p : quiet (lcd_page_enter_common_ok p).
Proof. apply quiet_marks, marks_bind. intros _. by apply marks_enter. Qed.
Lemma quiet_saved ok p : quiet (saved_ok ok p).
Proof. apply quiet_if; [apply quiet_bind; [apply quiet_refresh | intros _; apply quiet_common_ok] | apply quiet_ret]. Qed.
Lemma quiet_redraw (m : LCD D unit) : quiet (m;; redraw).
Proof. apply quiet_marks, marks_bind. intros _. apply marks_redraw. Qed.
Lemma quiet_redraw_then {A} (m : LCD D unit) (a : A) : quiet (m;; redraw;; mret a).
Proof. apply quiet_marks, marks_bind. by intros _ w. Qed.

Lemma quiet_stored (m : LCD D unit) p : quiet (m;; refresh_status_config;; lcd_page_enter_common_ok p).
Proof. apply quiet_marks. do 3 (apply marks_bind; intros _). by apply marks_enter. Qed.

(** Operations put together from quiet ones. *)
Ltac quietly :=
  repeat lazymatch goal with
    | |- quiet (_;; redraw) => apply quiet_redraw
    | |- quiet (_;; redraw;; mret _) => apply quiet_redraw_then
    | |- quiet (_;; refresh_status_config;; lcd_page_enter_common_ok _) => apply quiet_stored
    | |- quiet redraw => apply quiet_marks, marks_redraw
    | |- quiet (lcd_page_enter _) => apply quiet_enter
    | |- quiet (lcd_page_enter_common_ok _) => apply quiet_common_ok
    | |- quiet (saved_ok _ _) => apply quiet_saved
    | |- quiet (consume _) => apply quiet_adc
    | |- quiet (storage_call _) => apply quiet_storage
    | |- quiet refresh_status_config => apply quiet_refresh
    | |- quiet (get_ui _) => apply quiet_gets
    | |- quiet (gets _) => apply quiet_gets
    | |- quiet (mret _) => apply quiet_ret
    | |- quiet skip => apply quiet_ret
    | |- quiet (if decide _ then _ else _) => apply quiet_decide
    | |- quiet (match ?x with _ => _ end) => destruct x
    | |- quiet (_ ≫= _) => apply quiet_bind; [| intros ?]
    | |- quiet (set_ui _) => first [apply quiet_check_tick | apply quiet_last_bits]
    end.

Lemma quiet_back : quiet lcd_page_handle_back.
Proof. unfold lcd_page_handle_back, current_node. quietly. Qed.
Lemma quiet_nav delta : quiet (lcd_page_handle_nav delta).
Proof. unfold lcd_page_handle_nav. quietly. Qed.
Lemma quiet_confirm : quiet lcd_page_handle_confirm.
Proof. unfold lcd_page_handle_confirm, current_node, run_confirm, lcd_page_confirm_load_status, lcd_page_confirm_key_volume,
    lcd_page_confirm_backlight_time, lcd_page_confirm_brightness_level, lcd_page_confirm_vehicle_plate_color, lcd_page_confirm_vehicle_plate_class.
  quietly. Qed.
Lemma quiet_auto_return : quiet lcd_page_handle_auto_return.
Proof. unfold lcd_page_handle_auto_return, current_node. quietly. Qed.
Lemma quiet_dynamic : quiet lcd_page_handle_dynamic_refresh.
Proof. unfold lcd_page_handle_dynamic_refresh. quietly. Qed.

Lemma quiet_turn f : (forall m, fst (f m) = false -> snd (f m) = m) -> quiet (turn_page f).
Proof.
  intros Hf w. unfold turn_page, mbind, lcd_bind, get_ui, gets, set_ui, modify. cbn [ui update_with].
  destruct (fst (f (g_lcd_text_msg (ui w)))) eqn:E; [by left |]. right. rewrite (Hf _ E). destruct w as [[]]. done.
Qed.

Lemma quiet_text_keys : quiet lcd_handle_text_normal_keys.
Proof.
  unfold lcd_handle_text_normal_keys, on_page, s1, s2, s3, s4. quietly; apply quiet_turn; intros m;
    [unfold text_page_up | unfold text_page_down]; by case_match.
Qed.

Lemma quiet_editor_keys d : quiet (editor_keys d).
Proof.
  unfold editor_keys, editor_s4, editor_save_and_ok, on_page, s1, s2, s3, s4. quietly.
Qed.

Lemma quiet_plate_keys : quiet lcd_handle_plate_set_keys.
Proof.
  unfold lcd_handle_plate_set_keys, lcd_plate_save_and_ok, on_page, s1, s2, s3, s4. quietly.
Qed.

Lemma quiet_phone_keys : quiet lcd_handle_local_phone_keys.
Proof. unfold lcd_handle_local_phone_keys, phone_s4, on_page, s1, s2, s3, s4. quietly. Qed.

Lemma key_handlers_quiet : Forall quiet key_handlers.
Proof.
  constructor; [apply quiet_text_keys |]. do 3 (constructor; [apply quiet_editor_keys |]).
  constructor; [apply quiet_plate_keys |]. constructor; [apply quiet_phone_keys | constructor].
Qed.

(** *** Drawing *)

(** Drawing the text page again draws the same. *)
Lemma render_text_again m l m' : render_text m = Some (l, m') -> render_text m' = Some (l, m').
Proof.
  destruct m as [v fl ty n t i c]. unfold render_text. cbn [t_valid t_text_len t_text t_page_index].
  destruct ((v =? 0) || (n =? 0)) eqn:E; [intros [= <- <-]; cbn [t_valid t_text_len]; by rewrite E |]. cbv zeta.
  destruct (skip_loop text_fuel t (u16 (i * LCD_TEXT_MSG_LINES_PER_PAGE * LCD_TEXT_MSG_LINE_MAX_CHARS)) 0 0) as [[o j]|] eqn:E1;
    cbn [mbind option_bind]; [| discriminate].
  destruct (lines_loop _ text_fuel t o) as [ls|] eqn:E2; cbn [mbind option_bind]; [| discriminate].
  destruct (count_loop text_fuel t 0 0) as [k|] eqn:E3; cbn [mbind option_bind]; [| discriminate].
  intros [= <- <-]. cbn [update_with t_valid t_text_len t_text t_page_index]. rewrite E. cbv zeta.
  rewrite E1. cbn [mbind option_bind]. rewrite E2. cbn [mbind option_bind]. rewrite E3. done.
Qed.

Lemma text_picture_again m p m' :
  lcd_render_info_center_text_normal_ui m = Some (p, m') -> lcd_render_info_center_text_normal_ui m' = Some (p, m').
Proof.
  unfold lcd_render_info_center_text_normal_ui. destruct (render_text m) as [[l m1]|] eqn:E; cbn [mbind option_bind]; [| discriminate].
  intros [= <- <-]. by rewrite (render_text_again _ _ _ E).
Qed.

Lemma page_has_render p : p <> LCD_PAGE_MAX -> render (node_of p) = Some (page_fn p).
Proof. intros Hp. destruct p; try reflexivity. by destruct Hp. Qed.

Lemma render_current (w : lcd D) : lcd_inv w -> lcd_render_current_page w = render_page (page_fn (g_lcd_current_page_id (ui w))) w.
Proof.
  intros [[(H1 & _ & H3 & _) _] _]. unfold lcd_render_current_page, mbind, lcd_bind, get_ui, gets.
  rewrite H1, get_page_node_registered, decide_False by done. cbn [option_bind]. by rewrite page_has_render.
Qed.

(** The text of the text page can always be drawn. *)
Lemma text_picture u : ui_base u -> exists p m, lcd_render_info_center_text_normal_ui (g_lcd_text_msg u) = Some (p, m).
Proof.
  intros (_ & _ & _ & _ & _ & _ & (_ & Hl & Hlen & Hz) & [Hi _]). set (m := g_lcd_text_msg u) in *.
  unfold lcd_render_info_center_text_normal_ui. destruct (decide (t_valid m = 0 \/ t_text_len m = 0)) as [Hn|Hn].
  - unfold render_text. destruct Hn as [-> | ->]; [| rewrite orb_true_r]; cbn; eauto.
  - assert (text_ok m) as Hok by (split; [tauto |]; split; [lia |]; exact (conj Hl Hz)).
    pose proof (text_pages_max m Hok). destruct (render_text_spec m Hok) as (lines & -> & _); [lia |].
    cbn [mbind option_bind]. eauto.
Qed.

(** Every page can be drawn in every state the thread reaches. *)
Lemma picture_defined f (w : lcd D) : lcd_inv w -> exists p, picture f w = Some p.
Proof.
  intros [[Hu _] _]. destruct f; try (by eexists).
  destruct (text_picture _ Hu) as (p & m & E). exists p. cbn [picture]. by rewrite E.
Qed.

Lemma picture_need f (w : lcd D) b : picture f (w <| ui := ui w <| g_lcd_need_redraw := b |> |>) = picture f w.
Proof. by destruct f. Qed.

Lemma render_same_page f (w : lcd D) : g_lcd_current_page_id (ui (snd (render_page f w))) = g_lcd_current_page_id (ui w).
Proof.
  unfold render_page. assert (ui (match picture f w with Some p => w <| screen := p |> | None => w end) = ui w) as E by by case_match.
  cbn [snd]. destruct f; try (by rewrite E). destruct (lcd_render_info_center_text_normal_ui _) as [[]|]; [done | by rewrite E].
Qed.

(** After drawing, the picture of the page is on the screen. *)
Lemma render_shows f (w : lcd D) : lcd_inv w ->
  let w' := snd (render_page f w) in picture f w' = Some (screen w') /\ picture f w' = picture f w.
Proof.
  intros Hw. destruct (picture_defined f w Hw) as [p E]. unfold render_page. rewrite E. cbn [snd].
  destruct f; try (split; exact E).
  cbn [picture] in E. destruct (lcd_render_info_center_text_normal_ui (g_lcd_text_msg (ui w))) as [[q m]|] eqn:Et; [| discriminate E].
  injection E as ->. cbn [picture]. cbn [ui update_with g_lcd_text_msg screen].
  by rewrite (text_picture_again _ _ _ Et).
Qed.

(** ** The screen follows the state *)

Definition coherent (w : lcd D) : Prop := lcd_inv w /\ fresh w.

Lemma not_lagging_fn p : lagging p = false -> page_fn p <> render_vehicle_status_ui /\ page_fn p <> render_location_status_ui /\ page_fn p <> render_driver_info_ui.
Proof. destruct p; vm_compute; intros H; try discriminate H; split_and!; discriminate. Qed.

Lemma finish_quiet_part w : quieter w (snd ((lcd_page_handle_auto_return;; lcd_page_handle_dynamic_refresh) w)).
Proof. apply quiet_bind; [apply quiet_auto_return | intros _; apply quiet_dynamic]. Qed.

(** A finished round leaves no redraw pending, and its screen is right. *)
Lemma finish_round_shows w : coherent w ->
  let w' := snd (finish_round w) in g_lcd_need_redraw (ui w') = false /\ coherent w'.
Proof.
  intros [Hw Hf]. cbv zeta. assert (lcd_inv (snd (finish_round w))) as Hinv by by apply finish_round_keeps.
  enough (g_lcd_need_redraw (ui (snd (finish_round w))) = false /\ fresh (snd (finish_round w))) as [Hn Hfr] by exact (conj Hn (conj Hinv Hfr)).
  pose proof (quieter_fresh _ _ (finish_quiet_part w) Hf) as Hf1.
  assert (lcd_inv (snd ((lcd_page_handle_auto_return;; lcd_page_handle_dynamic_refresh) w))) as Hw1
    by (apply keeps_bind; [apply auto_return_keeps | intros _; apply dynamic_refresh_keeps | done]).
  unfold finish_round, mbind, lcd_bind, get_ui, gets in *. destruct (lcd_page_handle_auto_return w) as [[] wa].
  destruct (lcd_page_handle_dynamic_refresh wa) as [[] wb]. cbn [snd] in *. clear Hinv Hf Hw.
  destruct (g_lcd_need_redraw (ui wb)) eqn:En; [| done].
  rewrite render_current by done. set (f := page_fn _) in *. pose proof (render_shows f wb Hw1) as Hs.
  pose proof (render_same_page f wb) as Hp. destruct (render_page f wb) as [[] wc]. cbn [snd] in Hs, Hp. split; [done |].
  right. destruct (lagging (g_lcd_current_page_id (ui wc))) eqn:El; [by left | right]. rewrite Hp in El.
  destruct Hs as [Hs' _]. unfold current_picture.
  change (g_lcd_current_page_id (ui (snd _))) with (g_lcd_current_page_id (ui wc)). rewrite Hp. fold f.
  change (Some (screen (snd _))) with (Some (screen wc)). rewrite <- Hs'. exact (picture_need f wc false).
Qed.

Lemma quiet_coherent {A} (m : LCD D A) : quiet m -> keeps lcd_inv m -> keeps coherent m.
Proof. intros Hq Hk w [Hw Hf]. split; [by apply Hk | exact (quieter_fresh _ _ (Hq w) Hf)]. Qed.

(** A finished round: nothing is pending and the screen is right. *)
Definition drawn (w : lcd D) : Prop := g_lcd_need_redraw (ui w) = false /\ coherent w.
Definition ends {A} (m : LCD D A) : Prop := forall w, coherent w -> drawn (snd (m w)).

Lemma ends_bind {A B} (m : LCD D A) (f : A -> LCD D B) :
  quiet m -> keeps lcd_inv m -> (forall a, ends (f a)) -> ends (m ≫= f).
Proof.
  intros Hq Hk Hf w Hw. pose proof (quiet_coherent m Hq Hk w Hw) as Hw1. unfold mbind, lcd_bind. destruct (m w) as [a w1].
  by apply Hf.
Qed.

Lemma ends_assoc (m n k : LCD D unit) : ends ((m;; n);; k) -> ends (m;; n;; k).
Proof. intros H w Hw. specialize (H w Hw). unfold mbind, lcd_bind in *. by destruct (m w). Qed.

Lemma ends_key ev (m : LCD D unit) (f : unit -> LCD D unit) :
  quiet m -> keeps lcd_inv m -> (forall x, ends (f x)) ->
  ends (k ← consume (D := D) ev; (if k : bool then m else skip) ≫= f).
Proof.
  intros Hq Hk Hf. apply ends_bind; [apply quiet_adc | apply keeps_consume, _ | intros k].
  apply ends_bind; [by apply quiet_if; [| apply quiet_ret] | by apply keeps_if; [| apply keeps_skip] | done].
Qed.

Lemma ends_finish : ends finish_round.
Proof. intros w Hw. exact (finish_round_shows w Hw). Qed.

Lemma ends_generic : ends generic_keys.
Proof.
  unfold generic_keys. apply ends_key; [apply quiet_back | apply handle_back_keeps | intros _].
  apply ends_key; [apply quiet_nav | apply handle_nav_keeps | intros _].
  apply ends_key; [apply quiet_nav | apply handle_nav_keeps | intros _].
  apply ends_key; [apply quiet_confirm | apply handle_confirm_keeps | intros _; apply ends_finish].
Qed.

Lemma ends_handle hs : Forall quiet hs -> Forall (fun h => keeps lcd_inv h) hs -> ends (handle_keys hs).
Proof.
  induction 1 as [|h hs Hh _ IH]; intros Hk; [apply ends_generic |]. apply Forall_cons in Hk as [Hk Hks]. cbn [handle_keys].
  apply ends_bind; [done | done | intros []]; [apply ends_finish | by apply IH].
Qed.

Lemma round_ends w :
  coherent w -> (g_lcd_current_page_id (ui w) = LCD_PAGE_HOME -> g_adc_s1_event (adc w) = false) ->
  drawn (snd (svc_lcd_thread_round w)).
Proof.
  intros Hw Hs1. pose proof (ends_handle _ key_handlers_quiet key_handlers_keep) as Hh.
  unfold svc_lcd_thread_round. unfold mbind at 1, lcd_bind at 1, on_page at 1, get_ui at 1, gets at 1.
  case_bool_decide as E; [| by apply Hh].
  unfold s1 at 1, consume at 1, svc_adc_consume_s1_event at 1. unfold mbind at 1, lcd_bind at 1. cbv beta iota zeta.
  rewrite (Hs1 E). match goal with |- drawn (snd (?m ?w1)) => assert (coherent w1) as Hw1 by exact Hw; revert Hw1; generalize w1; change (ends m) end.
  clear w Hw Hs1 E. apply ends_bind; [apply quiet_adc | apply keeps_consume, _ | intros k2].
  apply ends_bind; [apply quiet_if; [apply quiet_ret | apply quiet_adc] | apply keeps_if; [apply keeps_ret | apply keeps_consume, _] | intros []].
  - apply ends_assoc, ends_bind; [apply quiet_redraw | | intros _; apply ends_finish].
    apply keeps_bind; [apply subpage_keeps | intros _; apply redraw_keeps].
  - apply ends_bind; [apply quiet_adc | apply keeps_consume, _ | intros []]; [| done].
    apply ends_bind; [apply quiet_enter | apply page_enter_keeps | intros _; apply ends_finish].
Qed.

Lemma round_coherent w : coherent w -> coherent (snd (svc_lcd_thread_round w)).
Proof.
  intros Hw. destruct (decide (g_lcd_current_page_id (ui w) = LCD_PAGE_HOME /\ g_adc_s1_event (adc w) = true)) as [[E1 E2]|Hn].
  - unfold svc_lcd_thread_round, mbind, lcd_bind, on_page, get_ui, gets. rewrite bool_decide_true by done.
    unfold s1, consume, svc_adc_consume_s1_event. rewrite E2. cbv beta iota zeta.
    exact (quiet_coherent (consume svc_adc_consume_s1_event) (quiet_adc _) (keeps_consume _ _) w Hw).
  - apply round_ends; [done |]. intros E. destruct (g_adc_s1_event (adc w)); tauto.
Qed.

(** A call whose data the page does not show leaves its picture alone. *)
Lemma picture_unconcerned f c (w : lcd D) b :
  f <> render_location_status_ui -> f <> render_driver_info_ui ->
  match c with
  | svc_lcd_update_text_message _ _ _ _ => f <> render_info_center_text_normal_ui
  | svc_lcd_update_total_mileage _ _ => f <> render_drive_mileage_ui
  | _ => f <> render_home_ui
  end -> picture f (w <| ui := assign c (ui w) <| g_lcd_need_redraw := b |> |>) = picture f w.
Proof. intros H1 H2 H3. destruct c, f; try reflexivity; tauto. Qed.

Lemma page_of_fn p : p <> LCD_PAGE_MAX ->
  (page_fn p = render_home_ui -> p = LCD_PAGE_HOME) /\ (page_fn p = render_drive_mileage_ui -> p = LCD_PAGE_DRIVE_RECORD_MILEAGE) /\
  (page_fn p = render_info_center_text_normal_ui -> p = LCD_PAGE_DRIVE_RECORD_INFO_CENTER_TEXT_NORMAL).
Proof.
  intros Hp.
  assert (match page_fn p with
          | render_home_ui => p = LCD_PAGE_HOME
          | render_drive_mileage_ui => p = LCD_PAGE_DRIVE_RECORD_MILEAGE
          | render_info_center_text_normal_ui => p = LCD_PAGE_DRIVE_RECORD_INFO_CENTER_TEXT_NORMAL
          | _ => True
          end) as H by (destruct p; vm_compute; first [exact I | reflexivity]).
  split; [| split]; intros E; by rewrite E in H.
Qed.

Lemma call_coherent w c : coherent w -> call_ok c -> coherent (w <| ui := apply_call c (ui w) |>).
Proof.
  intros [Hw Hf] Hc. split; [by apply call_inv |].
  pose proof Hw as [[(_ & _ & Hp & _ & _ & _ & Hd & _) _] Hm]. rewrite (apply_call_assign c _ Hd Hc).
  destruct Hf as [Hf | Hf]; [left; cbn; by rewrite Hf |].
  destruct (changed c (ui w) && concerns c (ui w)) eqn:E; [left; cbn; apply orb_true_r |].
  set (b := g_lcd_need_redraw (ui w) || false). destruct (assign_frame c (ui w)) as (_ & _ & Ep & _).
  right. destruct Hf as [Hf | Hf]; [left; cbn [ui update_with g_lcd_current_page_id]; by rewrite Ep |].
  destruct (lagging (g_lcd_current_page_id (ui w))) eqn:El; [left; cbn [ui update_with g_lcd_current_page_id]; by rewrite Ep |].
  right. apply not_lagging_fn in El as (_ & El1 & El2). apply page_of_fn in Hp as (Hp1 & Hp2 & Hp3).
  enough (picture (page_fn (g_lcd_current_page_id (ui w))) (w <| ui := assign c (ui w) <| g_lcd_need_redraw := b |> |>) =
    Some (screen w)) as Hg by (rewrite <- Ep in Hg; exact Hg).
  unfold current_picture in Hf. rewrite <- Hf.
  destruct (changed c (ui w)) eqn:Ec; [| rewrite (unchanged_same c _ Hd Ec); apply picture_need].
  apply picture_unconcerned; [done | done |].
  destruct c; cbn [concerns andb] in E; try (apply negb_false_iff in E; rewrite E in Hm);
    try apply bool_decide_eq_false in E; intros Hfn; try (by auto);
    rewrite (bool_decide_true _ (Hp1 Hfn)) in Hm; discriminate Hm.
Qed.

Lemma step_coherent w w' : lcd_step w w' -> coherent w -> coherent w'.
Proof.
  intros Hs Hw. destruct Hs as [w|w c Hc|w a|w s|w c|w v|w t]; [by apply round_coherent | by apply call_coherent | ..];
    destruct Hw as [Hw Hf]; (split; [done |]); try exact (quieter_fresh w _ ltac:(unseen) Hf).
  destruct Hf as [Hf | [Hf | Hf]]; [by left | by right; left |].
  destruct (lagging (g_lcd_current_page_id (ui w))) eqn:El; [right; left; exact El |]. right. right.
  apply not_lagging_fn in El as [El _]. change (screen (w <| vehicle := v |>)) with (screen w). rewrite <- Hf.
  unfold current_picture. change (ui (w <| vehicle := v |>)) with (ui w). by destruct (page_fn _).
Qed.

Lemma reachable_coherent w : reachable w -> coherent w.
Proof.
  intros [w0 H]. assert (coherent (lcd_started w0)) as H0 by (split; [apply started_inv | by left]).
  induction H; [done |]. eauto using step_coherent.
Qed.

(** ** Rounds without keys *)

Definition idle (a : adc_state) : Prop :=
  g_adc_s1_event a = false /\ g_adc_s2_event a = false /\ g_adc_s3_event a = false /\ g_adc_s4_event a = false.

Lemma idle_keys (w : lcd D) : idle (adc w) -> s1 w = (false, w) /\ s2 w = (false, w) /\ s3 w = (false, w) /\ s4 w = (false, w).
Proof.
  destruct w as [? ? ? ? ? ? ? a]. destruct a. intros (H1 & H2 & H3 & H4). cbn in H1, H2, H3, H4. subst. done.
Qed.

(** The pages with key handlers of their own. *)
Definition special (p : lcd_page_id_t) : bool :=
  bool_decide (p ∈ [LCD_PAGE_DRIVE_RECORD_INFO_CENTER_TEXT_NORMAL; LCD_PAGE_SYSTEM_SETTING_VEHICLE_INFO_VIN;
    LCD_PAGE_SYSTEM_SETTING_VEHICLE_INFO_PROVINCE_ID; LCD_PAGE_SYSTEM_SETTING_VEHICLE_INFO_CITY_ID;
    LCD_PAGE_SYSTEM_SETTING_VEHICLE_INFO_PLATE_SET; LCD_PAGE_SYSTEM_SETTING_HOST_PARAM_LOCAL_PHONE]).

Lemma on_page_run p (w : lcd D) : on_page p w = (bool_decide (g_lcd_current_page_id (ui w) = p), w).
Proof. done. Qed.

(** A handler of another page. *)
Lemma elsewhere {A} p (a : A) (m : LCD D A) (w : lcd D) :
  g_lcd_current_page_id (ui w) <> p -> (here ← on_page p; if negb here then mret a else m) w = (a, w).
Proof. intros H. erewrite bind_run by apply on_page_run. by rewrite bool_decide_false. Qed.

(** On any other page the handlers pass the keys on. *)
Lemma handle_generic (w : lcd D) :
  special (g_lcd_current_page_id (ui w)) = false -> handle_keys key_handlers w = generic_keys w.
Proof.
  unfold special. intros Hs. apply bool_decide_eq_false in Hs. rewrite !not_elem_of_cons in Hs.
  destruct Hs as (H1 & H2 & H3 & H4 & H5 & H6 & _). unfold key_handlers. cbn [handle_keys].
  do 6 (erewrite bind_run by (by apply elsewhere); cbv iota). done.
Qed.

Lemma idle_round (w : lcd D) :
  idle (adc w) -> special (g_lcd_current_page_id (ui w)) = false -> svc_lcd_thread_round w = finish_round w.
Proof.
  intros Hi Hs. destruct (idle_keys w Hi) as (E1 & E2 & E3 & E4).
  assert (handle_keys key_handlers w = finish_round w) as Eh.
  { rewrite handle_generic by done. unfold generic_keys.
    run E1. run_skip. run E2. run_skip. run E3. run_skip. run E4. by run_skip. }
  unfold svc_lcd_thread_round. erewrite bind_run by apply on_page_run. case_bool_decide; [| done].
  run E1. run E2. run E3. by run E4.
Qed.

(** The end of a round on a page that neither returns by itself nor polls. *)
Definition bits_cleared (w : lcd D) : lcd D := w <| ui := ui w <| g_lcd_vehicle_status_last_bits := 0xFFFF |> |>.

Lemma finish_plain (w : lcd D) :
  lcd_inv w -> auto_return_ms (node_of (g_lcd_current_page_id (ui w))) = 0 ->
  g_lcd_current_page_id (ui w) <> LCD_PAGE_DEVICE_STATUS_VEHICLE ->
  finish_round w =
  (if g_lcd_need_redraw (ui w) then lcd_render_current_page;; set_ui (fun u => u <| g_lcd_need_redraw := false |>) else skip)
    (bits_cleared w).
Proof.
  intros [[(Hr & _ & Hm & _) _] _] Ha Hv.
  assert (lcd_page_handle_auto_return w = (tt, w)) as E1.
  { unfold lcd_page_handle_auto_return, current_node. run_skip. rewrite Hr, get_page_node_registered, decide_False by done.
    by rewrite Ha. }
  assert (lcd_page_handle_dynamic_refresh w = (tt, bits_cleared w)) as E2.
  { unfold lcd_page_handle_dynamic_refresh. run_skip. by rewrite bool_decide_false. }
  unfold finish_round. run E1. run E2. by run_skip.
Qed.

(** Nothing but the redraw changes on the home page. *)
Lemma home_finish (w : lcd D) : lcd_inv w -> g_lcd_current_page_id (ui w) = LCD_PAGE_HOME ->
  let w' := snd (finish_round w) in
  g_lcd_home_ui (ui w') = g_lcd_home_ui (ui w) /\ g_lcd_home_subpage w' = g_lcd_home_subpage w /\
  g_lcd_current_page_id (ui w') = LCD_PAGE_HOME.
Proof.
  intros Hw Hp. cbv zeta. rewrite finish_plain by (done || by rewrite Hp). assert (lcd_inv (bits_cleared w)) as Hw1 by exact Hw.
  destruct (g_lcd_need_redraw (ui w)); [| done]. unfold mbind, lcd_bind. rewrite render_current by done.
  change (g_lcd_current_page_id (ui (bits_cleared w))) with (g_lcd_current_page_id (ui w)). rewrite Hp. done.
Qed.

Lemma home_ui_data s u u' : g_lcd_home_ui u = g_lcd_home_ui u' -> lcd_render_home_ui s u = lcd_render_home_ui s u'.
Proof. intros E. unfold lcd_render_home_ui, lcd_render_home_sub_ui, lcd_u8g2_draw_top_icons. by rewrite E. Qed.

Lemma apply_calls_coherent cs w : coherent w -> Forall call_ok cs -> coherent (w <| ui := apply_calls cs (ui w) |>).
Proof.
  intros Hw Hcs. revert w Hw. induction Hcs as [|c cs Hc _ IH]; intros w Hw; [by destruct w |].
  exact (IH _ (call_coherent w c Hw Hc)).
Qed.

Lemma assign_all_page cs u : g_lcd_current_page_id (foldl (fun u c => assign c u) u cs) = g_lcd_current_page_id u.
Proof. revert u. induction cs as [|c cs IH]; intros u; [done |]. cbn [foldl]. rewrite IH. by destruct c. Qed.

Lemma home_latest (w : lcd D) cs :
  coherent w -> g_lcd_current_page_id (ui w) = LCD_PAGE_HOME -> idle (adc w) -> Forall call_ok cs ->
  screen (snd (svc_lcd_thread_round (w <| ui := apply_calls cs (ui w) |>))) =
  lcd_render_home_ui (g_lcd_home_subpage w) (foldl (fun u c => assign c u) (ui w) cs).
Proof.
  intros Hw Hp Hi Hcs. pose proof (apply_calls_coherent cs w Hw Hcs) as Hw1.
  pose proof Hw as [[[(_ & _ & _ & _ & _ & _ & Hd & _) _] _] _]. destruct (apply_calls_spec cs (ui w) Hd Hcs) as [Ea _].
  set (w1 := w <| ui := apply_calls cs (ui w) |>) in *.
  assert (g_lcd_current_page_id (ui w1) = LCD_PAGE_HOME) as Hp1.
  { subst w1. cbn [ui update_with]. rewrite Ea. cbn [update_with g_lcd_current_page_id]. by rewrite assign_all_page. }
  rewrite (idle_round w1) by (done || by rewrite Hp1).
  destruct (home_finish w1 (proj1 Hw1) Hp1) as (E1 & E2 & E3). destruct (finish_round_shows w1 Hw1) as [Hn [_ Hf]].
  destruct Hf as [Hf | [Hf | Hf]]; [by rewrite Hn in Hf | by rewrite E3 in Hf |].
  unfold current_picture in Hf. rewrite E3 in Hf. injection Hf as <-. rewrite E2.
  apply home_ui_data. rewrite E1. subst w1. cbn [ui update_with]. rewrite Ea. done.
Qed.

(** On the location page and the driver page no update is noticed. *)
Lemma unnoticed (w : lcd D) c :
  lcd_inv w -> g_lcd_current_page_id (ui w) ∈ [LCD_PAGE_DRIVE_RECORD_LOCATION; LCD_PAGE_DRIVE_RECORD_DRIVER_INFO] ->
  concerns c (ui w) = false.
Proof.
  intros [_ Hm] Hp. rewrite !elem_of_cons in Hp. destruct Hp as [Hp | [Hp | Hp%not_elem_of_nil]]; [| | done];
    rewrite Hp in Hm; destruct c; cbn [concerns]; rewrite ?Hp, ?Hm; done.
Qed.

Lemma stale_call (w : lcd D) c :
  lcd_inv w -> g_lcd_current_page_id (ui w) ∈ [LCD_PAGE_DRIVE_RECORD_LOCATION; LCD_PAGE_DRIVE_RECORD_DRIVER_INFO] ->
  g_lcd_need_redraw (ui w) = false -> call_ok c ->
  g_lcd_need_redraw (apply_call c (ui w)) = false /\
  g_lcd_current_page_id (apply_call c (ui w)) = g_lcd_current_page_id (ui w).
Proof.
  intros Hw Hp Hn Hc. pose proof Hw as [[(_ & _ & _ & _ & _ & _ & Hd & _) _] _].
  rewrite (apply_call_assign c _ Hd Hc), (unnoticed w c Hw Hp), andb_false_r, Hn. by destruct c.
Qed.

(** A round without keys on these pages does nothing. *)
Lemma stale_round (w : lcd D) :
  lcd_inv w -> g_lcd_current_page_id (ui w) ∈ [LCD_PAGE_DRIVE_RECORD_LOCATION; LCD_PAGE_DRIVE_RECORD_DRIVER_INFO] ->
  g_lcd_need_redraw (ui w) = false -> idle (adc w) ->
  snd (svc_lcd_thread_round w) = bits_cleared w.
Proof.
  intros Hw Hp Hn Hi. rewrite !elem_of_cons in Hp. destruct Hp as [Hp | [Hp | Hp%not_elem_of_nil]]; [| | done];
    (rewrite idle_round by (done || by rewrite Hp)); (rewrite finish_plain by (done || by rewrite Hp)); by rewrite Hn.
Qed.

Lemma calls_unseen cs (w : lcd D) :
  lcd_inv w -> g_lcd_current_page_id (ui w) ∈ [LCD_PAGE_DRIVE_RECORD_LOCATION; LCD_PAGE_DRIVE_RECORD_DRIVER_INFO] ->
  g_lcd_need_redraw (ui w) = false -> Forall call_ok cs ->
  lcd_inv (w <| ui := apply_calls cs (ui w) |>) /\ g_lcd_need_redraw (apply_calls cs (ui w)) = false /\
  g_lcd_current_page_id (apply_calls cs (ui w)) = g_lcd_current_page_id (ui w).
Proof.
  intros Hw Hp Hn Hcs. revert w Hw Hp Hn. induction Hcs as [|c cs Hc _ IH]; intros w Hw Hp Hn; [by destruct w |].
  destruct (stale_call w c Hw Hp Hn Hc) as [Hn1 Hp1]. pose proof (call_inv w c Hw Hc) as Hw1.
  destruct (IH _ Hw1) as (H1 & H2 & H3); [cbn [ui update_with]; by rewrite Hp1 | exact Hn1 |].
  refine (conj H1 (conj H2 _)). etrans; [exact H3 | exact Hp1].
Qed.
End System.

(** ** Properties *)

(** The display of a device that has just been switched on, for the examples. *)
#[local] Instance sample_fonts : FontMetrics := {| glyph_width _ _ := 12 |}.
Definition sample_lcd : lcd Chip.chip :=
  mk_lcd lcd_ui_boot vin_editor_boot province_editor_boot city_editor_boot plate_editor_boot phone_editor_boot 0
    svc_adc_init sample_storage cfg_status_zero (mk_vehicle_io_state 0 0 0 0 0 0 0 0 0 0 0 0 0 0 0 0) 0 [].

(** C12: in every state the display reaches from start-up, under any sequence
    of keys, updates, clock values, input states and storage contents, the
    page shown is a registered page, every selection is an entry of its page,
    every index of the five editors lies inside its table and its array, the
    strings kept are bounded and terminated, and the page of a text exists;
    hence every page, the text page and the vehicle page included, has a
    picture. *)
Theorem display_state_well_typed {D} `{EepromReady D} {fonts : FontMetrics} (w : lcd D) :
  reachable w ->
  lcd_inv w /\ forall f, exists p, picture f w = Some p.
Proof. intros Hw. apply reachable_inv in Hw. split; [done |]. intros f. by apply picture_defined. Qed.

Lemma display_state_well_typed_witness :
  lcd_inv (lcd_started sample_lcd) /\
  reachable (lcd_started sample_lcd).
Proof.
  assert (reachable (lcd_started sample_lcd)) as H
    by (exists sample_lcd; apply rtc_refl).
  split; [apply (display_state_well_typed _ H) | exact H].
Defined.

(** C10: the screen follows the state.  Outside the three pages whose data
    change unnoticed, every reachable state either has a redraw pending or
    shows exactly the picture of its page; and a round that is not cut short
    (S1 on the home page) leaves no redraw pending. *)
Theorem screen_follows_state {D} `{EepromReady D} {fonts : FontMetrics} (w : lcd D) :
  reachable w ->
  (lagging (g_lcd_current_page_id (ui w)) = false -> g_lcd_need_redraw (ui w) = false -> current_picture w = Some (screen w)) /\
  ((g_lcd_current_page_id (ui w) = LCD_PAGE_HOME -> g_adc_s1_event (adc w) = false) ->
   let w' := snd (svc_lcd_thread_round w) in
   g_lcd_need_redraw (ui w') = false /\
   (lagging (g_lcd_current_page_id (ui w')) = false -> current_picture w' = Some (screen w'))).
Proof.
  intros Hw%reachable_coherent.
  assert (forall v : lcd D, coherent v -> lagging (g_lcd_current_page_id (ui v)) = false -> g_lcd_need_redraw (ui v) = false ->
    current_picture v = Some (screen v)) as Hc by (intros v [_ [? | [? | ?]]] ? ?; congruence).
  split; [by apply Hc |]. intros Hs. destruct (round_ends w Hw Hs) as [Hn Hw']. split; [done |]. intros Hl. by apply Hc.
Qed.

Lemma screen_follows_state_witness :
  let w := lcd_started sample_lcd in
  let w' := snd (svc_lcd_thread_round w) in
  g_lcd_need_redraw (ui w) = true /\ g_lcd_need_redraw (ui w') = false /\
  current_picture w' = Some (screen w').
Proof.
  intros w w'. split; [reflexivity |].
  destruct (screen_follows_state w (ex_intro _ sample_lcd (rtc_refl _ _))) as [_ H].
  destruct (H ltac:(reflexivity)) as [H1 H2]. split; [exact H1 | apply H2; vm_compute; reflexivity].
Defined.

(** On the home page what the host reports is on the screen after the
    next round: any sequence of updates, then a round without keys, and the
    screen is the home page drawn with the values last assigned. *)
Theorem home_shows_latest {D} `{EepromReady D} {fonts : FontMetrics} (w : lcd D) cs :
  reachable w -> g_lcd_current_page_id (ui w) = LCD_PAGE_HOME -> idle (adc w) -> Forall call_ok cs ->
  screen (snd (svc_lcd_thread_round (w <| ui := apply_calls cs (ui w) |>))) =
  lcd_render_home_ui (g_lcd_home_subpage w) (foldl (fun u c => assign c u) (ui w) cs).
Proof. intros Hw. by apply home_latest, reachable_coherent. Qed.

Definition sample_home : lcd Chip.chip := lcd_started sample_lcd.
Definition sample_screen : list draw :=
  lcd_render_home_ui (g_lcd_home_subpage sample_home) (foldl (fun u c => assign c u) (ui sample_home) sample_calls).

Lemma home_shows_latest_witness :
  screen (snd (svc_lcd_thread_round (sample_home <| ui := apply_calls sample_calls (ui sample_home) |>))) = sample_screen /\
  In (DrawStr 72 24 (time_string 12 30 59)) sample_screen /\ In (DrawStr 10 24 (speed_string 605)) sample_screen.
Proof.
  split; [| vm_compute; tauto].
  refine (home_shows_latest sample_home sample_calls _ _ _ _).
  - exists sample_lcd. apply rtc_refl.
  - vm_compute. reflexivity.
  - vm_compute. tauto.
  - by repeat constructor.
Defined.

(** C38: the location page and the driver page go stale.  While one of them is
    open, whatever the host reports (speed, satellites, card number), rounds
    without keys leave the screen as it is and ask for no redraw, although the
    data shown there have changed. *)
Theorem open_page_goes_stale {D} `{EepromReady D} {fonts : FontMetrics} (w : lcd D) cs :
  reachable w -> g_lcd_current_page_id (ui w) ∈ [LCD_PAGE_DRIVE_RECORD_LOCATION; LCD_PAGE_DRIVE_RECORD_DRIVER_INFO] ->
  g_lcd_need_redraw (ui w) = false -> idle (adc w) -> Forall call_ok cs ->
  let w' := snd (svc_lcd_thread_round (w <| ui := apply_calls cs (ui w) |>)) in
  screen w' = screen w /\ g_lcd_need_redraw (ui w') = false /\
  g_lcd_current_page_id (ui w') = g_lcd_current_page_id (ui w) /\ idle (adc w').
Proof.
  intros Hw%reachable_inv Hp Hn Hi Hcs. destruct (calls_unseen cs w Hw Hp Hn Hcs) as (Hw1 & Hn1 & Hp1).
  cbv zeta. rewrite stale_round; [| exact Hw1 | cbn [ui update_with]; by rewrite Hp1 | exact Hn1 | exact Hi].
  exact (conj eq_refl (conj Hn1 (conj Hp1 Hi))).
Qed.

(** From the home page with S4, S4, S3 and S4: main menu, drive record menu,
    its second entry. *)
Definition sample_key (k : adc_key_t) (w : lcd Chip.chip) : lcd Chip.chip :=
  snd (svc_lcd_thread_round
    (w <| adc := match k with
                 | ADC_KEY_S1 => svc_adc_init <| g_adc_s1_event := true |>
                 | ADC_KEY_S2 => svc_adc_init <| g_adc_s2_event := true |>
                 | ADC_KEY_S3 => svc_adc_init <| g_adc_s3_event := true |>
                 | _ => svc_adc_init <| g_adc_s4_event := true |>
                 end |>)).
Definition sample_location_page : lcd Chip.chip :=
  foldl (fun w k => sample_key k w) (lcd_started sample_lcd)
    [ADC_KEY_S4; ADC_KEY_S4; ADC_KEY_S3; ADC_KEY_S4].

Lemma sample_key_reachable k w : reachable w -> reachable (sample_key k w).
Proof.
  intros [w0 H]. exists w0. etrans; [exact H |]. eapply rtc_l; [apply (step_keys) |].
  apply rtc_once, step_round.
Qed.

Definition sample_stale : lcd Chip.chip :=
  snd (svc_lcd_thread_round (sample_location_page <| ui := apply_calls sample_calls (ui sample_location_page) |>)).

Lemma open_page_goes_stale_witness :
  (screen sample_stale = screen sample_location_page /\ g_lcd_need_redraw (ui sample_stale) = false) /\
  In (DrawStr 72 16 (speed_string 0)) (screen sample_location_page) /\
  In (DrawStr 72 16 (speed_string 605)) (lcd_render_location_status_ui (ui sample_stale)).
Proof.
  split; [| split; vm_compute; tauto].
  assert (g_lcd_current_page_id (ui sample_location_page) = LCD_PAGE_DRIVE_RECORD_LOCATION) as Hp by (vm_compute; reflexivity).
  refine (let H := open_page_goes_stale sample_location_page sample_calls _ _ _ _ _ in conj (proj1 H) (proj1 (proj2 H))).
  - do 4 apply sample_key_reachable. exists sample_lcd. apply rtc_refl.
  - rewrite Hp. apply elem_of_cons. by left.
  - vm_compute. reflexivity.
  - vm_compute. tauto.
  - by repeat constructor.
Defined.
