(* ===== verification/LcdSettings.v ===== *)
(** * Settings: what is confirmed is stored, and shown again

    The editors of the display against the abstract store of [StorageSpec]. *)

From S2P Require Import Prelude Platform AppTypes Adc Eeprom Storage McuStatus StorageSpec UartText LcdPages LcdGfx LcdState LcdData LcdText LcdTables LcdRender LcdNav LcdKeys LcdInv LcdTask LcdSystem.

Section Settings.
Context {D : Type} {bus : I2cBus D} {laws : EepromLaws D} {rdy : EepromReady D} {fonts : FontMetrics}.

(** ** Steps of a save *)

(** The configuration part of the status frame for a store. *)
Definition view_cache (v : store_view) : app_mcu_config_status_t :=
  config_cache (default g_default_config (v_config v)) (default (mk_vin 0 (zeros 18)) (v_vin v))
    (default (mk_province_id 0 (zeros 3)) (v_province v)) (default (mk_city_id 0 (zeros 5)) (v_city v)).

Definition store (w : lcd D) : store_view := view (eeprom (sto w)).

Lemma refresh_run w : good (sto w) ->
  exists s, refresh_status_config w = (tt, w <| sto := s |> <| cache := view_cache (store w) |>) /\ good s /\ view (eeprom s) = store w.
Proof.
  intros Hg. unfold refresh_status_config. destruct (refresh_reads (sto w) Hg) as (E1 & E2 & E3).
  destruct (app_usart_cmd_refresh_status_config (sto w)) as [c s]. cbn [fst snd] in *.
  exists s. unfold view_cache, store. rewrite <- E1. exact (conj eq_refl (conj E3 E2)).
Qed.

(** A load into a local variable. *)
Lemma load_run {A} (a : A) f (w : lcd D) ok v :
  reads (f (Some a) (sto w)) ok v (sto w) ->
  exists s, load a f w = ((ok, v), w <| sto := s |>) /\ good s /\ view (eeprom s) = store w.
Proof.
  intros (E1 & E2 & E3 & E4). unfold load, storage_call. destruct (f (Some a) (sto w)) as [[ok' v'] s]. cbn [fst snd] in *.
  subst. by exists s.
Qed.

(** A save of a valid value. *)
Lemma save_run op (w : lcd D) v' :
  wf_op op -> good (sto w) -> spec_step op (store w) = (true, v') ->
  exists s, storage_call (exec op) w = (true, w <| sto := s |>) /\ good s /\ view (eeprom s) = v'.
Proof.
  intros Hop Hg Hs. destruct (exec_refines op (sto w) Hop Hg) as (E1 & E2 & E3). unfold store in Hs. rewrite Hs in E1, E2.
  unfold storage_call. destruct (exec op (sto w)) as [ok s]. cbn [fst snd] in *. subst. by exists s.
Qed.

(** The result page prepares nothing. *)
Definition shown_ok (p : lcd_page_id_t) (w : lcd D) : lcd D :=
  enter_done LCD_PAGE_COMMON_CONFIG_OK
    (w <| ui := ui w <| g_lcd_common_ok_return_page := p |> <| g_lcd_current_page_id := LCD_PAGE_COMMON_CONFIG_OK |> |>).

Lemma common_ok_run p (w : lcd D) :
  p <> LCD_PAGE_MAX -> g_lcd_ui_nav_enter_hook (ui w) = true -> lcd_page_enter_common_ok p w = (tt, shown_ok p w).
Proof.
  intros Hp Hh. unfold lcd_page_enter_common_ok. rewrite (proj2 (Z.leb_gt _ _)) by (by apply page_num_lt).
  erewrite bind_run by reflexivity. rewrite page_enter_eq by done. done.
Qed.

(** ** The character editors *)

(** What an editor stores: the operation that saves its string, the string
    held by a store, and how the page is prepared from it. *)
Class StoredDesc (d : editor_desc D) := {
  d_op : list Z -> save_op;
  d_stored : store_view -> option (list Z);
  d_index : Z -> Z;
  stored_save : forall s, d_save d s = exec (d_op s);
  stored_wf : forall s, Z.of_nat (length s) = d_len d + 1 -> Forall is_u8 s -> wf_op (d_op s);
  stored_step : forall e v, d_inv d e -> exists v', spec_step (d_op (editor_string (d_len d) e)) v = (true, v') /\
    d_stored v' = Some (editor_string (d_len d) e);
  stored_prepare : forall w cs, good (sto w) -> d_stored (store w) = Some cs ->
    d_get d (snd (lcd_page_on_enter_prepare (d_page d) w)) = prepare_chars (d_len d) d_index (Some cs);
  stored_index : forall i, 0 <= i < d_count d -> d_index (get g_lcd_plate_tail_chars i) = i;
  stored_page : d_page d <> LCD_PAGE_MAX;
  stored_apart : forall w e, sto (d_set d e w) = sto w /\ ui (d_set d e w) = ui w /\ cache (d_set d e w) = cache w /\ d_get d (d_set d e w) = e;
  stored_ui : forall w u, d_get d (w <| ui := u |>) = d_get d w
}.

(** The characters of the table. *)
Lemma tail_char i : 0 <= i < 36 ->
  let c := get g_lcd_plate_tail_chars i in
  is_u8 c /\ is_digit c || is_upper c = true /\ tail_index c = i /\ (i < 10 -> is_digit c = true /\ digit_index c = i).
Proof.
  intros Hi. assert (forallb (fun k => let i := Z.of_nat k in let c := get g_lcd_plate_tail_chars i in
    (0 <=? c) && (c <? 256) && (is_digit c || is_upper c) && (tail_index c =? i) &&
    ((10 <=? i) || (is_digit c && (digit_index c =? i)))) (seq 0 36) = true) as Hall by (vm_compute; reflexivity).
  rewrite forallb_forall in Hall. specialize (Hall (Z.to_nat i) ltac:(apply in_seq; lia)). cbv zeta in *.
  rewrite Z2Nat.id in Hall by lia. apply andb_true_iff in Hall as [Hall H5]. apply andb_true_iff in Hall as [Hall H4].
  apply andb_true_iff in Hall as [Hall H3]. bool_hyps. split; [wraps |]. split; [done |]. split; [done |].
  intros H10. rewrite (proj2 (Z.leb_gt 10 i)) in H5 by lia. cbn [orb] in H5. apply andb_true_iff in H5 as [? ?%Z.eqb_eq]. done.
Qed.

Lemma editor_string_get len count e i :
  0 < len -> 0 <= i < len -> get (editor_string len e) i = get g_lcd_plate_tail_chars (get (e_chars e) i) /\
  (editor_inv len count e -> 0 <= get (e_chars e) i < count).
Proof.
  intros Hl Hi. split.
  - unfold editor_string, get. rewrite app_nth1 by (rewrite length_map, length_seq; lia).
    rewrite (nth_indep _ 0 ((fun k => get g_lcd_plate_tail_chars (get (e_chars e) (Z.of_nat k))) 0%nat)) by (rewrite length_map, length_seq; lia).
    rewrite (map_nth (fun k => get g_lcd_plate_tail_chars (get (e_chars e) (Z.of_nat k)))), seq_nth by lia.
    unfold get. by rewrite Nat.add_0_l, Nat2Z.id.
  - intros (_ & _ & _ & _ & Hlen & Hc & _). exact (Forall_get _ _ i Hc ltac:(lia)).
Qed.

Lemma editor_string_end len e : 0 < len -> get (editor_string len e) len = 0 /\ Z.of_nat (length (editor_string len e)) = len + 1.
Proof.
  intros Hl. unfold editor_string, get. rewrite app_nth2, length_app, length_map, length_seq by (rewrite length_map, length_seq; lia).
  rewrite Nat.sub_diag. cbn. lia.
Qed.

(** The string of an editor in range is one of its characters. *)
Lemma editor_string_ok len count e : 0 < len -> count <= 36 -> editor_inv len count e ->
  Forall is_u8 (editor_string len e) /\ chars_ok (fun ch => is_digit ch || is_upper ch) len (editor_string len e) = true /\
  (count <= 10 -> chars_ok is_digit len (editor_string len e) = true).
Proof.
  intros Hl Hn He.
  assert (forall k, In k (seq 0 (Z.to_nat len)) -> get (editor_string len e) (Z.of_nat k) = get g_lcd_plate_tail_chars (get (e_chars e) (Z.of_nat k)) /\
    0 <= get (e_chars e) (Z.of_nat k) < count) as Hk.
  { intros k Hk%in_seq. destruct (editor_string_get len count e (Z.of_nat k)) as [E Hr]; [lia.. |]. auto. }
  split; [| split; [| intros H10]].
  - apply Forall_app. split; [| by repeat constructor]. apply Forall_forall. intros x Hx.
    apply list_elem_of_In, in_map_iff in Hx as (k & <- & Hin). destruct (Hk k Hin) as [_ Hr]. apply tail_char. lia.
  - apply forallb_forall. intros k Hin. destruct (Hk k Hin) as [-> Hr]. apply tail_char. lia.
  - apply forallb_forall. intros k Hin. destruct (Hk k Hin) as [-> Hr]. apply tail_char; lia.
Qed.

(** Only the preparation of the page itself runs. *)
Lemma run_tail {A} (m : LCD D A) (f : A -> LCD D unit) w : (forall a w, f a w = (tt, w)) -> snd ((m ≫= f) w) = snd (m w).
Proof. intros Hf. unfold mbind, lcd_bind. destruct (m w). by rewrite Hf. Qed.

Ltac only_prepare :=
  unfold lcd_page_on_enter_prepare; repeat first [rewrite decide_True by done | rewrite decide_False by done];
  repeat (erewrite bind_run by reflexivity; cbv beta); try (rewrite run_tail by (intros [] ?; reflexivity)).

(** The string of a stored record with a validity flag. *)
Definition flagged {A} (valid : A -> Z) (chars : A -> list Z) (r : option A) : option (list Z) :=
  match r with
  | Some x => if valid x =? 1 then Some (chars x) else None
  | None => None
  end.

(** Preparation from a record that is stored. *)
Lemma prepare_run {A} (a : A) f (valid : A -> Z) (chars : A -> list Z) r len index (set : char_editor -> lcd D -> lcd D) w cs :
  reads (f (Some a) (sto w)) (bool_decide (is_Some r)) (default a r) (sto w) -> flagged valid chars r = Some cs ->
  exists s, ('(ok, v) ← load a f; modify (fun w => set (prepare_chars len index (if ok && (valid v =? 1) then Some (chars v) else None)) w)) w =
    (tt, set (prepare_chars len index (Some cs)) (w <| sto := s |>)).
Proof.
  intros Hr Hf. destruct (load_run a f w _ _ Hr) as (s & E & _). exists s. run E.
  destruct r as [x|]; [| done]. rewrite bool_decide_true by done. cbn [default flagged andb] in *. unfold id. destruct (valid x =? 1); [| done].
  by injection Hf as <-.
Qed.

(** The validity of what is saved, and its terminator. *)
Lemma editor_record_ok len count e : 0 < len -> count <= 36 -> editor_inv len count e ->
  get (editor_string len e) len = 0 /\ chars_ok (fun ch => is_digit ch || is_upper ch) len (editor_string len e) = true /\
  (count <= 10 -> chars_ok is_digit len (editor_string len e) = true).
Proof. intros Hl Hn He. split; [by apply editor_string_end | by apply (editor_string_ok len count)]. Qed.

#[export] Instance stored_vin : StoredDesc vin_desc.
Proof.
  refine {| d_op s := SaveVin (mk_vin 1 s); d_index := tail_index;
            d_stored v := flagged vin_valid vin_chars (v_vin v) |}; try done.
  - intros s Hs Hb. cbn in *. split; [done |]. split; [lia | done].
  - intros e v He. destruct (editor_record_ok 17 36 e) as (Hz & Hok & Hd); [lia | lia | exact He |]. eexists. cbn [spec_step d_len vin_desc]. unfold svc_storage_vin_valid.
    cbn [vin_valid vin_chars]. unfold SVC_STORAGE_VIN_LEN. rewrite Hz, Hok. done.
  - intros w cs Hg Hcs. cbn [d_page d_get d_len vin_desc]. only_prepare.
    destruct (prepare_run (mk_vin 0 (zeros 18)) svc_storage_load_vin vin_valid vin_chars (v_vin (store w)) 17 tail_index
      (fun e w => w <| vin := e |>) w cs) as [s E]; [apply fetch_reads; [placed | done] | done |].
    unfold lcd_prepare_vin_set_page. rewrite E. done.
  - intros i Hi. apply tail_char. exact Hi.
Defined.

#[export] Instance stored_province : StoredDesc province_desc.
Proof.
  refine {| d_op s := SaveProvince (mk_province_id 1 s); d_index := digit_index;
            d_stored v := flagged province_valid province_chars (v_province v) |}; try done.
  - intros s Hs Hb. cbn in *. split; [done |]. split; [lia | done].
  - intros e v He. destruct (editor_record_ok 2 10 e) as (Hz & Hok & Hd); [lia | lia | exact He |]. eexists. cbn [spec_step d_len province_desc]. unfold svc_storage_province_id_valid.
    cbn [province_valid province_chars]. unfold SVC_STORAGE_PROVINCE_ID_LEN. rewrite Hz, Hd by lia. done.
  - intros w cs Hg Hcs. cbn [d_page d_get d_len province_desc]. only_prepare.
    destruct (prepare_run (mk_province_id 0 (zeros 3)) svc_storage_load_province_id province_valid province_chars (v_province (store w)) 2 digit_index
      (fun e w => w <| province := e |>) w cs) as [s E]; [apply fetch_reads; [placed | done] | done |].
    unfold lcd_prepare_province_id_set_page. rewrite E. done.
  - intros i Hi. cbn in Hi. apply tail_char; lia.
Defined.

#[export] Instance stored_city : StoredDesc city_desc.
Proof.
  refine {| d_op s := SaveCity (mk_city_id 1 s); d_index := digit_index;
            d_stored v := flagged city_valid city_chars (v_city v) |}; try done.
  - intros s Hs Hb. cbn in *. split; [done |]. split; [lia | done].
  - intros e v He. destruct (editor_record_ok 4 10 e) as (Hz & Hok & Hd); [lia | lia | exact He |]. eexists. cbn [spec_step d_len city_desc]. unfold svc_storage_city_id_valid.
    cbn [city_valid city_chars]. unfold SVC_STORAGE_CITY_ID_LEN. rewrite Hz, Hd by lia. done.
  - intros w cs Hg Hcs. cbn [d_page d_get d_len city_desc]. only_prepare.
    destruct (prepare_run (mk_city_id 0 (zeros 5)) svc_storage_load_city_id city_valid city_chars (v_city (store w)) 4 digit_index
      (fun e w => w <| city := e |>) w cs) as [s E]; [apply fetch_reads; [placed | done] | done |].
    unfold lcd_prepare_city_id_set_page. rewrite E. done.
  - intros i Hi. cbn in Hi. apply tail_char; lia.
Defined.

(** The indices of the characters of a string are those it was made of. *)
Lemma string_indices len count index e :
  0 < len -> editor_inv len count e -> (forall i, 0 <= i < count -> index (get g_lcd_plate_tail_chars i) = i) ->
  map (fun i => index (get (editor_string len e) (Z.of_nat i))) (seq 0 (Z.to_nat len)) = e_chars e.
Proof.
  intros Hl He Hi. pose proof He as (_ & _ & _ & _ & Hlen & _).
  apply nth_ext with (d := 0) (d' := 0); [by rewrite length_map, length_seq |]. intros k Hk. rewrite length_map, length_seq in Hk.
  rewrite (nth_indep _ 0 ((fun i => index (get (editor_string len e) (Z.of_nat i))) 0%nat)) by (rewrite length_map, length_seq; lia).
  rewrite (map_nth (fun i => index (get (editor_string len e) (Z.of_nat i)))), seq_nth, Nat.add_0_l by lia.
  destruct (editor_string_get len count e (Z.of_nat k)) as [-> Hr]; [lia.. |].
  rewrite Hi by auto. unfold get. by rewrite Nat2Z.id.
Qed.

(** Preparing a page from a string gives back its characters. *)
Lemma prepare_string d `{!StoredDesc d} `{!GoodDesc d} e :
  d_inv d e ->
  let e' := prepare_chars (d_len d) d_index (Some (editor_string (d_len d) e)) in
  e_chars e' = e_chars e /\ e_edit_mask e' = complete_mask (d_len d) /\ e_valid e' = 1.
Proof.
  intros He. split; [| done]. cbn [prepare_chars e_chars]. destruct (good_ok (d := d)) as (Hl & Hn & _).
  apply (string_indices _ (d_count d)); [lia | done | exact stored_index].
Qed.

(** The state after a save that succeeded. *)
Lemma editor_save_run d `{!StoredDesc d} `{!GoodDesc d} w :
  lcd_inv w -> good (sto w) ->
  exists v s, spec_step (d_op (editor_string (d_len d) (d_get d w))) (store w) = (true, v) /\
    d_stored v = Some (editor_string (d_len d) (d_get d w)) /\ good s /\ view (eeprom s) = v /\
    exists w1, lcd_inv w1 /\ sto w1 = s /\ cache w1 = view_cache v /\
    editor_save_and_ok d w = (tt, shown_ok (d_page d) w1).
Proof.
  intros Hw Hg. pose proof (good_get w Hw) as He. destruct (good_ok (d := d)) as (Hl & Hn & _).
  destruct (stored_step _ (store w) He) as (v & Hs & Hst).
  assert (wf_op (d_op (editor_string (d_len d) (d_get d w)))) as Hop.
  { apply stored_wf; [apply editor_string_end; lia |]. by apply (editor_string_ok (d_len d) (d_count d)); [lia | lia |]. }
  destruct (save_run _ w v Hop Hg Hs) as (s & E1 & Hg1 & Hv1). set (w1 := w <| sto := s |>) in *.
  assert (lcd_inv w1) as Hw1 by exact Hw. set (f := fun e => e <| e_valid := 1 |> <| e_dirty := 0 |>).
  set (w2 := d_set d (f (d_get d w1)) w1). assert (lcd_inv w2) as Hw2 by by apply good_set, edit_saved_inv, good_get.
  destruct (stored_apart w1 (f (d_get d w1))) as (Es & _). fold w2 in Es.
  destruct (refresh_run w2) as (s2 & E3 & Hg2 & Hv2); [by rewrite Es |].
  exists v, s2. split; [done |]. split; [done |]. split; [done |]. unfold store in Hv2. rewrite Es in Hv2.
  split; [by rewrite Hv2 |]. exists (w2 <| sto := s2 |> <| cache := view_cache (store w2) |>).
  split; [exact Hw2 |]. split; [done |]. split; [cbn [cache update_with]; unfold store; rewrite Es; exact (f_equal view_cache Hv1) |].
  unfold editor_save_and_ok. run_skip. rewrite stored_save. run E1. run_skip. run E3.
  apply common_ok_run; [apply stored_page |]. apply Hw2.
Qed.

(** *** Plate and phone *)

(** The characters of the plate as those of an editor. *)
Definition plate_chars (e : plate_editor) : char_editor := mk_editor 0 0 0 0 0 0 (pl_digits e) 0.

Lemma plate_letter_char i : 0 <= i < 26 -> get g_lcd_plate_letters i = 65 + i.
Proof.
  intros Hi. assert (forallb (fun k => get g_lcd_plate_letters (Z.of_nat k) =? 65 + Z.of_nat k) (seq 0 26) = true) as Hall
    by (vm_compute; reflexivity).
  rewrite forallb_forall in Hall. specialize (Hall (Z.to_nat i) ltac:(apply in_seq; lia)).
  rewrite Z2Nat.id in Hall by lia. by apply Z.eqb_eq.
Qed.

Lemma plate_record_ok e : plate_inv e ->
  wf_plate (plate_record e) /\ svc_storage_plate_number_valid (Some (plate_record e)) = true /\
  prepare_plate true (plate_record e) = mk_plate_editor 0 0 1 (pl_province_index e) (pl_letter_index e) (pl_digits e).
Proof.
  intros (_ & Hp & Hl & Hlen & Hd).
  change (plate_record e) with (mk_plate 1 (pl_province_index e) (get g_lcd_plate_letters (pl_letter_index e)) (editor_string 5 (plate_chars e))).
  rewrite plate_letter_char by done.
  assert (editor_inv 5 36 (plate_chars e)) as He by (unfold editor_inv; in_range).
  destruct (editor_string_ok 5 36 (plate_chars e)) as (Hb & Hc & _); [lia | lia | done |].
  destruct (editor_string_end 5 (plate_chars e)) as [Hz Hsz]; [lia |]. split; [| split].
  - unfold wf_plate. cbn [plate_valid province_index letter plate_digits]. split_and!; [wraps.. | lia | done].
  - unfold svc_storage_plate_number_valid. cbn [plate_valid province_index letter plate_digits].
    change (1 <? 1) with false. rewrite (proj2 (Z.leb_gt SVC_STORAGE_PLATE_PROVINCE_COUNT _)) by (unfold SVC_STORAGE_PLATE_PROVINCE_COUNT; lia).
    rewrite (proj2 (Z.ltb_ge (65 + _) 65)), (proj2 (Z.ltb_ge 90 (65 + _))) by lia. cbn [orb]. rewrite Hc, Hz. done.
  - unfold prepare_plate. cbn [plate_valid province_index letter plate_digits].
    rewrite (proj2 (Z.ltb_lt (pl_province_index e) 31)), (proj2 (Z.leb_le 65 (65 + _))), (proj2 (Z.leb_le (65 + _) 90)) by lia.
    cbn [andb Z.eqb Pos.eqb]. f_equal; [rewrite u8_id by wraps; lia |].
    apply (string_indices 5 36 tail_index (plate_chars e)); [lia | done |]. intros i Hi. by apply tail_char.
Qed.

(** After a save: the status frame's part is reloaded, the result page shown. *)
Lemma after_save_run p (w : lcd D) :
  lcd_inv w -> good (sto w) -> p <> LCD_PAGE_MAX ->
  exists s, (refresh_status_config;; lcd_page_enter_common_ok p) w =
    (tt, shown_ok p (w <| sto := s |> <| cache := view_cache (store w) |>)) /\ good s /\ view (eeprom s) = store w.
Proof.
  intros Hw Hg Hp. destruct (refresh_run w Hg) as (s & E & Hs & Hv). exists s. split; [| done].
  run E. apply common_ok_run; [done | apply Hw].
Qed.

(** The plate page prepared from a store. *)
Lemma prepare_plate_run (w : lcd D) c :
  good (sto w) -> v_config (store w) = Some c ->
  plate (snd (lcd_page_on_enter_prepare LCD_PAGE_SYSTEM_SETTING_VEHICLE_INFO_PLATE_SET w)) = prepare_plate true (plate_number c).
Proof.
  intros Hg Hc. only_prepare. unfold lcd_prepare_plate_set_page.
  pose proof (loaded_reads plate_number (sto w) Hg) as Hr. unfold store in Hc. rewrite Hc in Hr. rewrite bool_decide_true in Hr by done.
  destruct (load_run (mk_plate 0 0 0 (zeros 6)) svc_storage_load_plate_number w _ _ Hr) as (s & E & _). by run E.
Qed.

Lemma prepare_phone_run (w : lcd D) c :
  good (sto w) -> v_config (store w) = Some c ->
  phone (snd (lcd_page_on_enter_prepare LCD_PAGE_SYSTEM_SETTING_HOST_PARAM_LOCAL_PHONE w)) = prepare_phone true (local_phone c).
Proof.
  intros Hg Hc. only_prepare. unfold lcd_prepare_local_phone_page.
  pose proof (loaded_reads local_phone (sto w) Hg) as Hr. unfold store in Hc. rewrite Hc in Hr. rewrite bool_decide_true in Hr by done.
  destruct (load_run (zeros 12) svc_storage_load_local_phone w _ _ Hr) as (s & E & _). by run E.
Qed.

Lemma phone_bytes_id l : length l = 12%nat -> phone_bytes l = l.
Proof.
  intros H. do 12 (destruct l as [|? l]; [discriminate H |]). destruct l; [done | discriminate H].
Qed.

Lemma phone_bytes_wf l : length l = 12%nat -> svc_storage_phone_digits_valid l = true -> Forall is_u8 l.
Proof.
  intros Hl Hv. apply Forall_lookup. intros k x Hk. pose proof (lookup_lt_Some _ _ _ Hk).
  assert (get l (Z.of_nat k) = x) as <- by (unfold get; rewrite Nat2Z.id; by apply nth_lookup_Some).
  destruct (decide (k = 11%nat)) as [->|]; [| pose proof (phone_digit l (Z.of_nat k) Hv ltac:(lia)); wraps].
  unfold svc_storage_phone_digits_valid in Hv. apply andb_true_iff in Hv as [_ Hz]. apply Z.eqb_eq in Hz. change (Z.of_nat 11) with 11. rewrite Hz. wraps.
Qed.

Lemma plate_set_inv (w : lcd D) e : lcd_inv w -> plate_inv e -> lcd_inv (w <| plate := e |>).
Proof.
  intros [[Hu (A1 & A2 & A3 & _ & A5)] Hm] Hp. exact (conj (conj Hu (conj A1 (conj A2 (conj A3 (conj Hp A5))))) Hm).
Qed.

Lemma phone_set_inv (w : lcd D) e : lcd_inv w -> phone_inv e -> lcd_inv (w <| phone := e |>).
Proof.
  intros [[Hu (A1 & A2 & A3 & A4 & _ & A6)] Hm] Hp. exact (conj (conj Hu (conj A1 (conj A2 (conj A3 (conj A4 (conj Hp A6)))))) Hm).
Qed.

Lemma redraw_again (w : lcd D) : g_lcd_need_redraw (ui w) = true -> redraw w = (tt, w).
Proof. destruct w as [[]]. cbn. by intros ->. Qed.

(** ** Leaving the result page *)

Definition leaves (leave : LCD D unit) : Prop := leave = lcd_page_handle_back \/ leave = lcd_page_handle_confirm.

Lemma leave_run leave (w : lcd D) :
  leaves leave -> lcd_inv w -> g_lcd_current_page_id (ui w) = LCD_PAGE_COMMON_CONFIG_OK ->
  leave w = lcd_page_enter (g_lcd_common_ok_return_page (ui w)) w.
Proof.
  intros Hl [[(Hr & _) _] _] Hp. destruct Hl as [-> | ->].
  - unfold lcd_page_handle_back. run_skip. run_skip. by rewrite Hp.
  - unfold lcd_page_handle_confirm, current_node. run_skip. rewrite Hr, Hp. run_skip. by rewrite Hp.
Qed.

Lemma shown_ok_inv p (w : lcd D) : lcd_inv w -> p <> LCD_PAGE_MAX -> p <> LCD_PAGE_COMMON_CONFIG_OK -> lcd_inv (shown_ok p w).
Proof.
  intros Hw Hp Hp'. pose proof (common_ok_keeps p Hp' w Hw) as H. rewrite common_ok_run in H by (done || apply Hw). exact H.
Qed.

(** The editor after its page is entered again. *)
Lemma reenter_run d `{!StoredDesc d} `{!GoodDesc d} w e :
  lcd_inv w -> good (sto w) -> d_inv d e -> d_stored (store w) = Some (editor_string (d_len d) e) ->
  let w' := snd (lcd_page_enter (d_page d) w) in
  g_lcd_current_page_id (ui w') = d_page d /\ e_chars (d_get d w') = e_chars e /\
  e_edit_mask (d_get d w') = complete_mask (d_len d) /\ e_valid (d_get d w') = 1.
Proof.
  intros [Hw Hm] Hg He Hst. split; [apply page_enter_inv; [done | apply stored_page] |].
  rewrite page_enter_eq; [| apply stored_page | apply Hw]. cbn [snd]. unfold enter_done. rewrite stored_ui.
  set (w0 := w <| ui := ui w <| g_lcd_current_page_id := d_page d |> |>). rewrite (stored_prepare w0 _ Hg Hst).
  by apply prepare_string.
Qed.

(** ** The first position not set *)

Lemma land_bit m i : 0 <= i -> (Z.land m (Z.shiftl 1 i) =? 0) = negb (Z.testbit m i).
Proof.
  intros Hi. rewrite Z.shiftl_1_l. destruct (Z.testbit m i) eqn:E; cbn [negb].
  - apply Z.eqb_neq. intros H. assert (Z.testbit (Z.land m (2 ^ i)) i = false) as Hb by (rewrite H; apply Z.bits_0).
    rewrite Z.land_spec, E, Z.pow2_bits_true in Hb by lia. discriminate Hb.
  - apply Z.eqb_eq, Z.bits_inj'. intros k Hk. rewrite Z.land_spec, Z.bits_0, Z.pow2_bits_eqb by lia.
    destruct (Z.eqb_spec i k) as [<-|]; [by rewrite E | apply andb_false_r].
Qed.

Lemma full_mask m len : 0 < len -> 0 <= m < 2 ^ len -> (forall j, 0 <= j < len -> Z.testbit m j = true) -> m = complete_mask len.
Proof.
  intros Hl Hm Hb. unfold complete_mask. rewrite Z.shiftl_1_l. change (2 ^ len - 1) with (Z.pred (2 ^ len)).
  rewrite <- Z.ones_equiv. apply Z.bits_inj'. intros k Hk. destruct (Z.lt_ge_cases k len).
  - by rewrite Z.ones_spec_low, Hb by lia.
  - rewrite Z.ones_spec_high by lia. destruct (decide (m = 0)) as [->|]; [apply Z.bits_0 |].
    apply Z.bits_above_log2; [lia |]. enough (Z.log2 m < len) by lia. apply Z.log2_lt_pow2; lia.
Qed.

Lemma first_missing_spec len m c :
  0 < len -> 0 <= m < 2 ^ len -> m <> complete_mask len ->
  let i := first_missing len m c in
  0 <= i < len /\ Z.testbit m i = false /\ forall j, 0 <= j < i -> Z.testbit m j = true.
Proof.
  intros Hl Hm Hn. unfold first_missing. cbv zeta.
  set (p := fun i => Z.land m (Z.shiftl 1 (Z.of_nat i)) =? 0).
  assert (forall i, p i = negb (Z.testbit m (Z.of_nat i))) as Hp by (intros i; apply land_bit; lia).
  assert (forall a n, match List.find p (seq a n) with
    | Some i => (a <= i < a + n)%nat /\ p i = true /\ forall j, (a <= j < i)%nat -> p j = false
    | None => forall j, (a <= j < a + n)%nat -> p j = false end) as Hfind.
  { intros a n. revert a. induction n as [|n IH]; intros a; cbn [seq List.find]; [lia |].
    destruct (p a) eqn:E; [split; [lia |]; split; [done |]; lia |]. specialize (IH (S a)).
    assert (forall j, j = a \/ (S a <= j)%nat -> (a <= j)%nat) by lia.
    destruct (List.find p (seq (S a) n)) as [i|].
    - destruct IH as (H1 & H2 & H3). split; [lia |]. split; [done |]. intros j Hj. destruct (decide (j = a)) as [->|]; [done | apply H3; lia].
    - intros j Hj. destruct (decide (j = a)) as [->|]; [done | apply IH; lia]. }
  specialize (Hfind 0%nat (Z.to_nat len)). destruct (List.find p (seq 0 (Z.to_nat len))) as [i|]; cbn [option_map default].
  - destruct Hfind as (H1 & H2 & H3). unfold id. split; [lia |]. split; [rewrite Hp in H2; by apply negb_true_iff |].
    intros j Hj. specialize (H3 (Z.to_nat j) ltac:(lia)). rewrite Hp, Z2Nat.id in H3 by lia. by apply negb_false_iff.
  - destruct Hn. apply full_mask; [done | done |]. intros j Hj. specialize (Hfind (Z.to_nat j) ltac:(lia)).
    rewrite Hp, Z2Nat.id in Hfind by lia. by apply negb_false_iff.
Qed.
End Settings.

(** ** Properties *)

(** C9: confirming a completed VIN, province or city editor.  On a chip that
    answers, S4 on the confirm button stores exactly the characters shown and
    no other record changes, the status frame is updated from the new store,
    and the result page comes up; leaving it, with S1 or S4, shows the editor
    again with the same characters, all of them set. *)
Theorem editor_save_roundtrip {D} `{EepromReady D} {fonts : FontMetrics} (d : editor_desc D) `{!GoodDesc d} `{!StoredDesc d} w leave :
  lcd_inv w -> good (sto w) ->
  e_area (d_get d w) = 2 -> e_action (d_get d w) = 0 -> e_edit_mask (d_get d w) = complete_mask (d_len d) -> leaves leave ->
  let w' := snd (editor_s4 d w) in
  let w'' := snd (leave w') in
  spec_step (d_op (editor_string (d_len d) (d_get d w))) (store w) = (true, store w') /\
  cache w' = view_cache (store w') /\ g_lcd_current_page_id (ui w') = LCD_PAGE_COMMON_CONFIG_OK /\
  g_lcd_current_page_id (ui w'') = d_page d /\ e_chars (d_get d w'') = e_chars (d_get d w) /\
  e_edit_mask (d_get d w'') = complete_mask (d_len d) /\ e_valid (d_get d w'') = 1.
Proof.
  intros Hw Hg Ha Hact Hmask Hl. cbv zeta.
  destruct (editor_save_run d w Hw Hg) as (v & s & Hs & Hst & Hg' & Hv & w1 & Hw1 & Es & Ec & Er).
  assert (editor_s4 d w = (tt, shown_ok (d_page d) w1)) as E.
  { unfold editor_s4. run_skip. rewrite Ha, Hact, Hmask, (Z.eqb_refl (complete_mask _)). exact Er. }
  rewrite E. cbn [snd]. pose proof (shown_ok_inv (d_page d) w1 Hw1 stored_page good_page) as Hok.
  rewrite (leave_run leave _ Hl Hok eq_refl).
  assert (store (shown_ok (d_page d) w1) = v) as Ev by (unfold store; change (sto (shown_ok _ _)) with (sto w1); by rewrite Es).
  rewrite Ev. split; [done |]. split; [exact Ec |]. split; [done |].
  apply (reenter_run d); [exact Hok | change (sto (shown_ok _ _)) with (sto w1); by rewrite Es | by apply good_get | by rewrite Ev].
Qed.

(** A started display whose VIN editor is complete, on its confirm button. *)
#[local] Instance sample_metrics : FontMetrics := sample_fonts.
Definition sample_vin : char_editor :=
  mk_editor 1 0 2 16 5 0 [21; 28; 31; 0; 1; 2; 3; 4; 5; 6; 7; 8; 9; 10; 11; 12; 13] 131071.
Definition sample_editing : lcd Chip.chip := lcd_started sample_lcd <| vin := sample_vin |>.

Lemma sample_editing_inv : lcd_inv sample_editing.
Proof.
  apply (good_set (d := vin_desc) (lcd_started sample_lcd) sample_vin (started_inv sample_lcd)).
  assert (Forall (fun c => 0 <= c < 36) (e_chars sample_vin)) by (repeat constructor; done).
  unfold d_inv, editor_inv. in_range.
Qed.

Lemma editor_save_roundtrip_witness :
  let w' := snd (editor_s4 vin_desc sample_editing) in
  v_vin (store w') = Some (mk_vin 1 (editor_string 17 sample_vin)) /\
  e_chars (vin (snd (lcd_page_handle_back w'))) = e_chars sample_vin.
Proof.
  pose proof (editor_save_roundtrip vin_desc sample_editing lcd_page_handle_back sample_editing_inv
    ltac:(by vm_compute) eq_refl eq_refl eq_refl ltac:(by left)) as H.
  cbv zeta in *. destruct H as (H1 & _ & _ & _ & H5 & _). split; [| exact H5].
  assert (forall v v', spec_step (SaveVin (mk_vin 1 (editor_string 17 sample_vin))) v = (true, v') ->
    v_vin v' = Some (mk_vin 1 (editor_string 17 sample_vin))) as Hv.
  { intros v v' E. change (spec_step _ v) with (true, v <| v_vin := Some (mk_vin 1 (editor_string 17 sample_vin)) |>) in E.
    by injection E as <-. }
  exact (Hv _ _ H1).
Defined.

(** An editor with a position not yet set is not saved.  S4 on its confirm
    button stores nothing and moves the cursor to the first such position. *)
Theorem editor_incomplete_not_saved {D} `{EepromReady D} {fonts : FontMetrics} (d : editor_desc D) `{!GoodDesc d} `{!StoredDesc d} w :
  lcd_inv w -> e_area (d_get d w) = 2 -> e_action (d_get d w) = 0 -> e_edit_mask (d_get d w) <> complete_mask (d_len d) ->
  let w' := snd (editor_s4 d w) in
  sto w' = sto w /\ cache w' = cache w /\ g_lcd_current_page_id (ui w') = g_lcd_current_page_id (ui w) /\
  exists i, 0 <= i < d_len d /\ Z.testbit (e_edit_mask (d_get d w)) i = false /\
  (forall j, 0 <= j < i -> Z.testbit (e_edit_mask (d_get d w)) j = true) /\
  e_cursor (d_get d w') = i /\ e_area (d_get d w') = 0 /\ e_chars (d_get d w') = e_chars (d_get d w).
Proof.
  intros Hw Ha Hact Hn. cbv zeta. pose proof (good_get w Hw) as (_ & _ & _ & _ & _ & _ & Hm). destruct (good_ok (d := d)) as (Hl & _).
  set (i := first_missing (d_len d) (e_edit_mask (d_get d w)) (e_cursor (d_get d w))).
  assert (editor_s4 d w = (tt, (d_set d (d_get d w <| e_cursor := i |> <| e_area := 0 |>) w) <| ui :=
    ui (d_set d (d_get d w <| e_cursor := i |> <| e_area := 0 |>) w) <| g_lcd_need_redraw := true |> |>)) as E.
  { unfold editor_s4. run_skip. rewrite Ha, Hact, (proj2 (Z.eqb_neq _ _) Hn). reflexivity. }
  rewrite E. cbn [snd]. destruct (stored_apart w (d_get d w <| e_cursor := i |> <| e_area := 0 |>)) as (E1 & E2 & E3 & E4).
  split; [exact E1 |]. split; [exact E3 |]. split; [exact (f_equal g_lcd_current_page_id E2) |].
  exists i. destruct (first_missing_spec (d_len d) (e_edit_mask (d_get d w)) (e_cursor (d_get d w)) ltac:(lia) Hm Hn) as (Hi & Hb & Hj).
  split; [exact Hi |]. split; [exact Hb |]. split; [exact Hj |]. rewrite stored_ui, E4. done.
Qed.

(** The same editor with positions 4 and 11 not yet set. *)
Definition sample_partial : char_editor := sample_vin <| e_edit_mask := 131071 - 16 - 2048 |>.
Definition sample_partial_lcd : lcd Chip.chip := lcd_started sample_lcd <| vin := sample_partial |>.

Lemma editor_incomplete_not_saved_witness :
  let w' := snd (editor_s4 vin_desc sample_partial_lcd) in
  sto w' = sto sample_partial_lcd /\ e_cursor (vin w') = 4.
Proof.
  assert (lcd_inv sample_partial_lcd) as Hinv.
  { apply (good_set (d := vin_desc) (lcd_started sample_lcd) sample_partial (started_inv sample_lcd)).
    assert (Forall (fun c => 0 <= c < 36) (e_chars sample_vin)) by (repeat constructor; done).
    unfold d_inv, editor_inv. in_range. }
  split; [| vm_compute; reflexivity].
  exact (proj1 (editor_incomplete_not_saved vin_desc sample_partial_lcd Hinv eq_refl eq_refl ltac:(by vm_compute))).
Defined.

(** The plate editor.  On a chip that answers, S4 on its confirm button
    stores province, letter and characters as shown; leaving the result page
    shows them again. *)
Theorem plate_save_roundtrip {D} `{EepromReady D} {fonts : FontMetrics} (w : lcd D) leave :
  lcd_inv w -> good (sto w) -> leaves leave ->
  let w' := snd (lcd_plate_save_and_ok w) in
  let w'' := snd (leave w') in
  spec_step (SavePlate (plate_record (plate w))) (store w) = (true, store w') /\
  cache w' = view_cache (store w') /\ g_lcd_current_page_id (ui w') = LCD_PAGE_COMMON_CONFIG_OK /\
  g_lcd_current_page_id (ui w'') = LCD_PAGE_SYSTEM_SETTING_VEHICLE_INFO_PLATE_SET /\
  plate w'' = mk_plate_editor 0 0 1 (pl_province_index (plate w)) (pl_letter_index (plate w)) (pl_digits (plate w)).
Proof.
  intros Hw Hg Hl. cbv zeta. pose proof Hw as [[_ (_ & _ & _ & Hp & _)] _]. destruct (plate_record_ok _ Hp) as (Hwf & Hval & Hprep).
  set (r := plate_record (plate w)) in *. set (c := default g_default_config (v_config (store w)) <| plate_number := r |>).
  assert (spec_step (SavePlate r) (store w) = (true, store w <| v_config := Some c |>)) as Hs by (cbn [spec_step]; by rewrite Hval).
  destruct (save_run (SavePlate r) w _ Hwf Hg Hs) as (s & E1 & Hg1 & Hv1).
  set (w2 := w <| sto := s |> <| plate := plate w <| pl_valid := 1 |> <| pl_dirty := 0 |> |>).
  assert (lcd_inv w2) as Hw2 by exact (plate_set_inv (w <| sto := s |>) (plate w <| pl_valid := 1 |> <| pl_dirty := 0 |>) Hw Hp).
  destruct (after_save_run LCD_PAGE_SYSTEM_SETTING_VEHICLE_INFO_PLATE_SET w2 Hw2 Hg1 ltac:(done)) as (s3 & E3 & Hg3 & Hv3).
  set (w3 := w2 <| sto := s3 |> <| cache := view_cache (store w2) |>) in *. set (p := LCD_PAGE_SYSTEM_SETTING_VEHICLE_INFO_PLATE_SET) in *.
  assert (lcd_plate_save_and_ok w = (tt, shown_ok p w3)) as E by (unfold lcd_plate_save_and_ok; run_skip; run E1; run_skip; exact E3).
  assert (store w2 = store w <| v_config := Some c |>) as V2 by exact Hv1.
  assert (store (shown_ok p w3) = store w2) as V3 by exact Hv3. assert (lcd_inv w3) as Hw3 by exact Hw2.
  rewrite E. cbn [snd]. pose proof (shown_ok_inv p w3 Hw3 ltac:(done) ltac:(done)) as Hok. rewrite (leave_run leave _ Hl Hok eq_refl).
  change (g_lcd_common_ok_return_page (ui (shown_ok p w3))) with p. rewrite V3, Hs, V2. split; [done |]. split; [change (cache (shown_ok p w3)) with (view_cache (store w2)); by rewrite V2 |]. split; [done |].
  split; [by apply page_enter_inv; [apply Hok |] |]. rewrite page_enter_eq by (done || apply Hok). cbn [snd]. unfold enter_done. cbn [plate update_with].
  set (w4 := shown_ok p w3 <| ui := ui (shown_ok p w3) <| g_lcd_current_page_id := p |> |>). rewrite (prepare_plate_run w4 c); [exact Hprep | exact Hg3 |].
  assert (sto w4 = s3) as Es by reflexivity. unfold store. by rewrite Es, Hv3, V2.
Qed.

(** A started display with a plate being edited. *)
Definition sample_plate : plate_editor := mk_plate_editor 1 7 0 12 3 [1; 2; 10; 35; 0].
Definition sample_plate_lcd : lcd Chip.chip := lcd_started sample_lcd <| plate := sample_plate |>.

Lemma plate_save_roundtrip_witness :
  let w' := snd (lcd_plate_save_and_ok sample_plate_lcd) in
  g_lcd_current_page_id (ui w') = LCD_PAGE_COMMON_CONFIG_OK /\
  plate (snd (lcd_page_handle_confirm w')) = mk_plate_editor 0 0 1 12 3 [1; 2; 10; 35; 0].
Proof.
  assert (lcd_inv sample_plate_lcd) as Hinv.
  { apply plate_set_inv; [apply started_inv |].
    assert (Forall (fun c => 0 <= c < 36) (pl_digits sample_plate)) by (repeat constructor; done). unfold plate_inv. in_range. }
  destruct (plate_save_roundtrip sample_plate_lcd lcd_page_handle_confirm Hinv ltac:(by vm_compute) ltac:(by right)) as (_ & _ & H3 & _ & H5).
  split; [exact H3 | exact H5].
Defined.

(** The phone editor.  On a chip that answers, S4 on its save button stores
    the number shown; leaving the result page shows it again. *)
Theorem phone_save_roundtrip {D} `{EepromReady D} {fonts : FontMetrics} (w : lcd D) leave :
  lcd_inv w -> good (sto w) -> ph_focus (phone w) = 2 -> ph_func_index (phone w) = 1 -> leaves leave ->
  let w' := snd (phone_s4 w) in
  let w'' := snd (leave w') in
  spec_step (SavePhone (ph_digits (phone w))) (store w) = (true, store w') /\
  cache w' = view_cache (store w') /\ g_lcd_current_page_id (ui w') = LCD_PAGE_COMMON_CONFIG_OK /\
  g_lcd_current_page_id (ui w'') = LCD_PAGE_SYSTEM_SETTING_HOST_PARAM_LOCAL_PHONE /\
  ph_digits (phone w'') = ph_digits (phone w).
Proof.
  intros Hw Hg Hf Hi Hl. cbv zeta. pose proof Hw as [[_ (_ & _ & _ & _ & (Hlen & Hval & _) & _)] _].
  set (l := ph_digits (phone w)) in *. set (c := default g_default_config (v_config (store w)) <| local_phone := l |>).
  assert (spec_step (SavePhone l) (store w) = (true, store w <| v_config := Some c |>)) as Hs by (cbn [spec_step]; by rewrite Hval).
  destruct (save_run (SavePhone l) w _ (conj Hlen (phone_bytes_wf l Hlen Hval)) Hg Hs) as (s & E1 & Hg1 & Hv1).
  set (p := LCD_PAGE_SYSTEM_SETTING_HOST_PARAM_LOCAL_PHONE) in *. set (w2 := w <| sto := s |>) in *.
  destruct (after_save_run p w2 Hw Hg1 ltac:(done)) as (s3 & E3 & Hg3 & Hv3).
  set (w3 := w2 <| sto := s3 |> <| cache := view_cache (store w2) |>) in *.
  assert (phone_s4 w = (tt, shown_ok p w3)) as E.
  { unfold phone_s4. run_skip. rewrite Hf, Hi. cbn [Z.eqb Pos.eqb]. fold l.
    rewrite (phone_bytes_id l Hlen). rewrite (bind_run _ _ _ tt (shown_ok p w3)); [by apply redraw_again |]. run E1. exact E3. }
  assert (store w2 = store w <| v_config := Some c |>) as V2 by exact Hv1.
  assert (store (shown_ok p w3) = store w2) as V3 by exact Hv3. assert (lcd_inv w3) as Hw3 by exact Hw.
  rewrite E. cbn [snd]. pose proof (shown_ok_inv p w3 Hw3 ltac:(done) ltac:(done)) as Hok. rewrite (leave_run leave _ Hl Hok eq_refl).
  change (g_lcd_common_ok_return_page (ui (shown_ok p w3))) with p. rewrite V3, Hs, V2. split; [done |].
  split; [change (cache (shown_ok p w3)) with (view_cache (store w2)); by rewrite V2 |]. split; [done |].
  split; [by apply page_enter_inv; [apply Hok |] |]. rewrite page_enter_eq by (done || apply Hok). cbn [snd]. unfold enter_done. cbn [phone update_with].
  set (w4 := shown_ok p w3 <| ui := ui (shown_ok p w3) <| g_lcd_current_page_id := p |> |>).
  assert (sto w4 = s3) as Es by reflexivity.
  rewrite (prepare_phone_run w4 c); [cbn [prepare_phone ph_digits]; by apply phone_bytes_id | by rewrite Es | unfold store; by rewrite Es, Hv3, V2].
Qed.

Definition sample_phone_lcd : lcd Chip.chip :=
  lcd_started sample_lcd <| phone := mk_phone_editor [49; 51; 56; 48; 48; 49; 51; 56; 48; 48; 48; 0] 10 0 2 1 |>.

Lemma phone_save_roundtrip_witness :
  let w' := snd (phone_s4 sample_phone_lcd) in
  g_lcd_current_page_id (ui w') = LCD_PAGE_COMMON_CONFIG_OK /\
  ph_digits (phone (snd (lcd_page_handle_back w'))) = [49; 51; 56; 48; 48; 49; 51; 56; 48; 48; 48; 0].
Proof.
  assert (lcd_inv sample_phone_lcd) as Hinv by (apply phone_set_inv; [apply started_inv | unfold phone_inv; in_range]).
  destruct (phone_save_roundtrip sample_phone_lcd lcd_page_handle_back Hinv ltac:(by vm_compute) eq_refl eq_refl ltac:(by left))
    as (_ & _ & H3 & _ & H5).
  split; [exact H3 | exact H5].
Defined.
