(* ===== verification/LcdJourney.v ===== *)
(** * The way home

    Keys pressed one at a time: whatever page is shown and whatever state its
    editor is in, some keys lead back to the home page. *)

From S2P Require Import Prelude Platform AppTypes Adc Eeprom Storage McuStatus StorageSpec UartText LcdPages LcdGfx LcdState LcdData LcdText LcdTables LcdRender LcdNav LcdKeys LcdInv LcdTask LcdSystem LcdSettings.

Section Journey.
Context {D : Type} {bus : I2cBus D} {laws : EepromLaws D} {rdy : EepromReady D} {fonts : FontMetrics}.

(** ** Pressing a key *)

(** The events of the four keys. *)
Definition with_keys (k1 k2 k3 k4 : bool) (w : lcd D) : lcd D :=
  w <| adc := adc w <| g_adc_s1_event := k1 |> <| g_adc_s2_event := k2 |> <| g_adc_s3_event := k3 |> <| g_adc_s4_event := k4 |> |>.

Definition key_is (k k' : adc_key_t) : bool :=
  match k, k' with
  | ADC_KEY_S1, ADC_KEY_S1 | ADC_KEY_S2, ADC_KEY_S2 | ADC_KEY_S3, ADC_KEY_S3 | ADC_KEY_S4, ADC_KEY_S4 => true
  | _, _ => false
  end.

(** A round in which exactly key [k] is pressed. *)
Definition press (k : adc_key_t) (w : lcd D) : lcd D :=
  snd (svc_lcd_thread_round (with_keys (key_is k ADC_KEY_S1) (key_is k ADC_KEY_S2) (key_is k ADC_KEY_S3) (key_is k ADC_KEY_S4) w)).

Definition press_all (ks : list adc_key_t) (w : lcd D) : lcd D := foldl (fun w k => press k w) w ks.

Lemma take_s1 a b c d w : s1 (with_keys a b c d w) = (a, with_keys false b c d w).
Proof. done. Qed.
Lemma take_s2 a b c d w : s2 (with_keys a b c d w) = (b, with_keys a false c d w).
Proof. done. Qed.
Lemma take_s3 a b c d w : s3 (with_keys a b c d w) = (c, with_keys a b false d w).
Proof. done. Qed.
Lemma take_s4 a b c d w : s4 (with_keys a b c d w) = (d, with_keys a b c false w).
Proof. done. Qed.

Lemma with_keys_inv a b c d w : lcd_inv w -> lcd_inv (with_keys a b c d w).
Proof. done. Qed.

Lemma press_inv k w : lcd_inv w -> lcd_inv (press k w).
Proof. intros Hw. by apply round_keeps, with_keys_inv. Qed.

(** ** The end of a round keeps the page and the editors *)

Definition same_editors (w w' : lcd D) : Prop :=
  vin w' = vin w /\ province w' = province w /\ city w' = city w /\ plate w' = plate w /\ phone w' = phone w.

Definition same_place (w w' : lcd D) : Prop :=
  g_lcd_current_page_id (ui w') = g_lcd_current_page_id (ui w) /\ same_editors w w'.

#[local] Instance same_place_preorder : PreOrder same_place.
Proof.
  split; [done |]. intros w w1 w2 (E1 & E2 & E3 & E4 & E5 & E6) (F1 & F2 & F3 & F4 & F5 & F6).
  repeat split; congruence.
Qed.

Lemma dynamic_same_place w : same_place w (snd (lcd_page_handle_dynamic_refresh w)).
Proof.
  unfold lcd_page_handle_dynamic_refresh. do 1 run_skip. destruct (negb _); [done |]. run_skip. run_skip. destruct (_ <? _); [done |].
  run_skip. run_skip. run_skip. destruct (_ =? _); [done |]. destruct (negb _); [| done]. done.
Qed.

Lemma render_same_place f (w : lcd D) : same_place w (snd (render_page f w)).
Proof.
  split; [apply render_same_page |]. unfold render_page, same_editors. cbn [snd].
  destruct (picture f w), f; try done; by destruct (lcd_render_info_center_text_normal_ui _) as [[]|].
Qed.

(** A page just entered does not return by itself. *)
Definition settled (w : lcd D) : Prop :=
  g_lcd_page_enter_tick (ui w) = tick w \/ auto_return_ms (node_of (g_lcd_current_page_id (ui w))) = 0.

Lemma auto_return_ms_value p : auto_return_ms (node_of p) = 0 \/ auto_return_ms (node_of p) = 3000.
Proof. destruct p; vm_compute; first [left; reflexivity | right; reflexivity]. Qed.

Lemma settled_stays w : lcd_inv w -> settled w -> lcd_page_handle_auto_return w = (tt, w).
Proof.
  intros [[(Hr & _ & Hp & _) _] _] Hs. unfold lcd_page_handle_auto_return, current_node. run_skip.
  rewrite Hr, get_page_node_registered, decide_False by done. destruct (_ || _) eqn:E; [done |]. run_skip. run_skip.
  apply orb_false_iff in E as [E%Z.eqb_neq _]. destruct Hs as [-> | Hs]; [| done].
  destruct (auto_return_ms_value (g_lcd_current_page_id (ui w))) as [E' | E']; [done |]. rewrite E', Z.sub_diag. done.
Qed.

Lemma finish_stays w : lcd_inv w -> lcd_page_handle_auto_return w = (tt, w) -> same_place w (snd (finish_round w)).
Proof.
  intros Hw Hs. unfold finish_round. run Hs.
  pose proof (dynamic_same_place w) as H1. pose proof (dynamic_refresh_keeps w Hw) as Hw1. unfold mbind at 1, lcd_bind at 1.
  destruct (lcd_page_handle_dynamic_refresh w) as [[] w1]. cbn [snd] in *. run_skip. destruct (g_lcd_need_redraw (ui w1)); [| exact H1].
  pose proof (render_same_place (page_fn (g_lcd_current_page_id (ui w1))) w1) as H2. unfold mbind, lcd_bind. rewrite render_current by done.
  destruct (render_page _ w1) as [[] w2]. cbn [snd] in H2. etrans; [exact H1 |]. exact H2.
Qed.

Lemma finish_same_place w : lcd_inv w -> settled w -> same_place w (snd (finish_round w)).
Proof. intros Hw Hs. by apply finish_stays, settled_stays. Qed.

(** An automatic return, then the rest of the round, is a round on the new page. *)
Lemma finish_after w m : lcd_inv (snd m) -> settled (snd m) -> lcd_page_handle_auto_return w = m ->
  snd (finish_round w) = snd (finish_round (snd m)).
Proof.
  intros Hw Hs E. unfold finish_round. destruct m as [[] w1]. cbn [snd] in *. run E. symmetry. by run (settled_stays w1 Hw Hs).
Qed.

(** ** Entering a page uses no key *)

Lemma keeps_adc_load {A} (x : A) f (k : bool * A -> LCD D unit) a :
  (forall r, keeps (fun w => adc w = a) (k r)) -> keeps (fun w => adc w = a) (load x f ≫= k).
Proof.
  intros Hk. apply keeps_bind; [| done]. intros w Hw. unfold load, storage_call. by destruct (f (Some x) (sto w)) as [[]].
Qed.

Lemma prepare_adc p a : keeps (fun w : lcd D => adc w = a) (lcd_page_on_enter_prepare p).
Proof.
  unfold lcd_page_on_enter_prepare.
  repeat first [apply keeps_bind; [apply keeps_decide; [| apply keeps_skip] | intros _] | apply keeps_decide; [| apply keeps_skip]];
    first [apply keeps_adc_load; intros []; by intros w Hw | by intros w Hw].
Qed.

(** The page is there, it has just been entered, and the keys are untouched. *)
Lemma entered p w : lcd_inv w -> p <> LCD_PAGE_MAX ->
  let w' := snd (lcd_page_enter p w) in
  lcd_inv w' /\ g_lcd_current_page_id (ui w') = p /\ settled w' /\ adc w' = adc w.
Proof.
  intros Hw Hp. destruct (page_enter_inv p w (proj1 Hw) Hp) as (H1 & H2 & _). cbv zeta. split; [done |]. split; [done |].
  rewrite page_enter_eq by (done || apply Hw). split; [by left |]. cbn [snd]. unfold enter_done. cbn [adc update_with].
  by apply (prepare_adc p (adc w)).
Qed.

(** Entering a page, then the end of the round. *)
Lemma entered_finish p w : lcd_inv w -> p <> LCD_PAGE_MAX ->
  g_lcd_current_page_id (ui (snd (finish_round (snd (lcd_page_enter p w))))) = p.
Proof.
  intros Hw Hp. destruct (entered p w Hw Hp) as (H1 & H2 & H3 & _). destruct (finish_same_place _ H1 H3) as [-> _]. exact H2.
Qed.

(** ** S1 on the pages without keys of their own *)

Definition back_target (w : lcd D) : lcd_page_id_t :=
  let p := g_lcd_current_page_id (ui w) in
  if decide (p = LCD_PAGE_COMMON_CONFIG_OK) then g_lcd_common_ok_return_page (ui w)
  else if decide (parent_id (node_of p) = LCD_PAGE_MAX) then LCD_PAGE_HOME else parent_id (node_of p).

Lemma back_target_ok w : lcd_inv w -> back_target w <> LCD_PAGE_MAX.
Proof.
  intros [[(_ & _ & _ & _ & H5 & _) _] _]. unfold back_target. case_decide; [done |]. by case_decide.
Qed.

Lemma handle_back_run w : lcd_inv w -> g_lcd_current_page_id (ui w) <> LCD_PAGE_HOME ->
  lcd_page_handle_back w = lcd_page_enter (back_target w) w.
Proof.
  intros [[(Hr & _ & Hp & _) _] _] Hh. unfold lcd_page_handle_back, current_node, back_target. run_skip. run_skip.
  cbv zeta. rewrite Hr, get_page_node_registered, (decide_False (P := _ = LCD_PAGE_MAX)) by done.
  destruct (decide (g_lcd_current_page_id (ui w) = LCD_PAGE_COMMON_CONFIG_OK)); [by run_skip |].
  rewrite (decide_False (P := _ = LCD_PAGE_HOME)) by done.
  pose proof (page_num_lt (parent_id (node_of (g_lcd_current_page_id (ui w))))) as Hlt.
  destruct (Z.ltb_spec (page_num (parent_id (node_of (g_lcd_current_page_id (ui w))))) (page_num LCD_PAGE_MAX)) as [H1|H1].
  - rewrite decide_False; [done |]. intros E. rewrite E in H1. lia.
  - destruct (decide _) as [|Hn]; [done |]. specialize (Hlt Hn). lia.
Qed.

Lemma press_back w :
  lcd_inv w -> special (g_lcd_current_page_id (ui w)) = false -> g_lcd_current_page_id (ui w) <> LCD_PAGE_HOME ->
  g_lcd_current_page_id (ui (press ADC_KEY_S1 w)) = back_target w.
Proof.
  intros Hw Hs Hh. unfold press. cbn [key_is]. unfold svc_lcd_thread_round. erewrite bind_run by apply on_page_run.
  rewrite bool_decide_false by exact Hh. rewrite handle_generic by exact Hs. unfold generic_keys.
  run (take_s1 true false false false w). set (w0 := with_keys false false false false w).
  rewrite (bind_run _ _ _ tt (snd (lcd_page_enter (back_target w) w0))); [| rewrite handle_back_run by done; by destruct (lcd_page_enter _ w0) as [[] ?]].
  pose proof (entered (back_target w) w0 Hw (back_target_ok w Hw)) as (H1 & H2 & H3 & H4). set (w1 := snd _) in *.
  destruct (idle_keys w1) as (_ & E2 & E3 & E4); [rewrite H4; repeat split |].
  run E2. run_skip. run E3. run_skip. run E4. run_skip.
  destruct (finish_same_place w1 H1 H3) as [-> _]. exact H2.
Qed.

(** ** Reaching the home page *)

Definition reach (n : nat) (w : lcd D) : Prop :=
  exists ks, (length ks <= n)%nat /\ g_lcd_current_page_id (ui (press_all ks w)) = LCD_PAGE_HOME.

Lemma reach_press n k w : reach n (press k w) -> reach (S n) w.
Proof. intros (ks & H1 & H2). exists (k :: ks). split; [simpl; lia | done]. Qed.

Lemma reach_more n m w : reach n w -> (n <= m)%nat -> reach m w.
Proof. intros (ks & H1 & H2) H. exists ks. split; [lia | done]. Qed.

Definition ordinary (p : lcd_page_id_t) : bool :=
  negb (special p) && negb (bool_decide (p = LCD_PAGE_COMMON_CONFIG_OK)) && negb (bool_decide (p = LCD_PAGE_MAX)).

(** The parent of an ordinary page is an ordinary page closer to the root. *)
Lemma ordinary_parent p : ordinary p = true -> p <> LCD_PAGE_HOME ->
  let q := if decide (parent_id (node_of p) = LCD_PAGE_MAX) then LCD_PAGE_HOME else parent_id (node_of p) in
  ordinary q = true /\ 0 <= page_depth q < page_depth p.
Proof.
  intros Ho Hh. assert (forallb (fun p => negb (ordinary p) || bool_decide (p = LCD_PAGE_HOME) ||
    let q := if decide (parent_id (node_of p) = LCD_PAGE_MAX) then LCD_PAGE_HOME else parent_id (node_of p) in
    ordinary q && (0 <=? page_depth q) && (page_depth q <? page_depth p)) all_pages = true) as Hall by (vm_compute; reflexivity).
  assert (p <> LCD_PAGE_MAX) as Hm by (intros ->; discriminate Ho).
  pose proof (forall_pages _ Hall p Hm) as H. cbv beta zeta in *. rewrite Ho, bool_decide_false in H by done. cbn [negb orb] in H.
  apply andb_true_iff in H as [H H3]. apply andb_true_iff in H as [H1 H2]. split; [done | lia].
Qed.

Lemma climb n w : lcd_inv w -> ordinary (g_lcd_current_page_id (ui w)) = true ->
  page_depth (g_lcd_current_page_id (ui w)) <= Z.of_nat n -> reach n w.
Proof.
  revert w. induction n as [|n IH]; intros w Hw Ho Hd.
  - destruct (decide (g_lcd_current_page_id (ui w) = LCD_PAGE_HOME)) as [E|E]; [by exists [] |].
    destruct (ordinary_parent _ Ho E). lia.
  - destruct (decide (g_lcd_current_page_id (ui w) = LCD_PAGE_HOME)) as [E|E]; [exists []; split; [simpl; lia | done] |].
    destruct (ordinary_parent _ Ho E) as [H1 H2]. pose proof Ho as Ho'. unfold ordinary in Ho'.
    apply andb_true_iff in Ho' as [Ho' _]. apply andb_true_iff in Ho' as [Hs Hc]. apply negb_true_iff in Hs.
    apply negb_true_iff, bool_decide_eq_false in Hc.
    apply (reach_press n ADC_KEY_S1). pose proof (press_back w Hw Hs E) as Hb. unfold back_target in Hb. cbv zeta in Hb.
    rewrite (decide_False (P := _ = LCD_PAGE_COMMON_CONFIG_OK)) in Hb by done.
    apply IH; [by apply press_inv | by rewrite Hb | rewrite Hb; lia].
Qed.

Lemma page_depth_max p : 0 <= page_depth p <= 5.
Proof. destruct p; vm_compute; split; discriminate. Qed.

(** A page reached in one press from which the way is known. *)
Lemma reach_via k w p : lcd_inv w -> g_lcd_current_page_id (ui (press k w)) = p -> ordinary p = true ->
  reach (S (Z.to_nat (page_depth p))) w.
Proof.
  intros Hw Hp Ho. apply (reach_press _ k), climb; [by apply press_inv | by rewrite Hp |].
  rewrite Hp. pose proof (page_depth_max p). lia.
Qed.

(** ** The pages with keys of their own *)

(** The keys of handler [h] on its page. *)
Definition handled_by (p : lcd_page_id_t) (h : LCD D bool) : Prop :=
  forall w, g_lcd_current_page_id (ui w) = p ->
  exists rest, svc_lcd_thread_round w = (handled ← h; if handled : bool then finish_round else rest) w.

Ltac skip_handlers Hp := repeat (erewrite bind_run by (apply elsewhere; rewrite Hp; discriminate); cbv iota).

(** The round on a page of its own handler: the handlers before it pass. *)
Ltac own_page :=
  let w := fresh "w" in let Hp := fresh "Hp" in
  intros w Hp; eexists; unfold svc_lcd_thread_round; erewrite bind_run by apply on_page_run;
  rewrite bool_decide_false by (rewrite Hp; discriminate); unfold key_handlers; cbn [handle_keys]; skip_handlers Hp; reflexivity.

Lemma text_handled : handled_by LCD_PAGE_DRIVE_RECORD_INFO_CENTER_TEXT_NORMAL lcd_handle_text_normal_keys.
Proof. own_page. Qed.
Lemma vin_handled : handled_by (d_page vin_desc) (editor_keys vin_desc).
Proof. own_page. Qed.
Lemma province_handled : handled_by (d_page province_desc) (editor_keys province_desc).
Proof. own_page. Qed.
Lemma city_handled : handled_by (d_page city_desc) (editor_keys city_desc).
Proof. own_page. Qed.
Lemma plate_handled : handled_by LCD_PAGE_SYSTEM_SETTING_VEHICLE_INFO_PLATE_SET lcd_handle_plate_set_keys.
Proof. own_page. Qed.
Lemma phone_handled : handled_by LCD_PAGE_SYSTEM_SETTING_HOST_PARAM_LOCAL_PHONE lcd_handle_local_phone_keys.
Proof. own_page. Qed.

(** A handled key: the page after the round, when the handler ends settled. *)
Lemma handled_run p h w w1 :
  handled_by p h -> g_lcd_current_page_id (ui w) = p -> h w = (true, w1) -> svc_lcd_thread_round w = finish_round w1.
Proof. intros Hh Hp E. destruct (Hh w Hp) as [rest ->]. by run E. Qed.

Lemma text_way w : lcd_inv w -> g_lcd_current_page_id (ui w) = LCD_PAGE_DRIVE_RECORD_INFO_CENTER_TEXT_NORMAL ->
  g_lcd_current_page_id (ui (press ADC_KEY_S1 w)) = LCD_PAGE_DRIVE_RECORD_INFO_CENTER_TEXT.
Proof.
  intros Hw Hp. unfold press. cbn [key_is]. set (w0 := with_keys false false false false w).
  rewrite (handled_run _ _ (with_keys true false false false w) (snd (lcd_page_enter LCD_PAGE_DRIVE_RECORD_INFO_CENTER_TEXT w0)) text_handled Hp); [by apply entered_finish |].
  unfold lcd_handle_text_normal_keys. erewrite bind_run by apply on_page_run. rewrite bool_decide_true by exact Hp. cbn [negb].
  run (take_s1 true false false false w). unfold mbind, lcd_bind. by destruct (lcd_page_enter _ _) as [[] ?].
Qed.

(** *** Character editors *)

Class OwnKeys (d : editor_desc D) : Prop := {
  own_handled : handled_by (d_page d) (editor_keys d);
  own_settled : auto_return_ms (node_of (d_page d)) = 0;
  own_same : forall w w', same_editors w w' -> d_get d w' = d_get d w
}.
#[local] Instance own_vin : OwnKeys vin_desc.
Proof. split; [apply vin_handled | done | by intros w w' (? & _)]. Qed.
#[local] Instance own_province : OwnKeys province_desc.
Proof. split; [apply province_handled | done | by intros w w' (_ & ? & _)]. Qed.
#[local] Instance own_city : OwnKeys city_desc.
Proof. split; [apply city_handled | done | by intros w w' (_ & _ & ? & _)]. Qed.

Section Editor.
Context (d : editor_desc D) `{!GoodDesc d} `{!StoredDesc d} `{!OwnKeys d}.

(** A key that edits. *)
Lemma edited w w0 f :
  lcd_inv w0 -> same_place w w0 -> g_lcd_current_page_id (ui w) = d_page d -> (forall e, d_inv d e -> d_inv d (f e)) ->
  let w1 := snd ((edit d f;; redraw) w0) in
  let w' := snd (finish_round w1) in
  g_lcd_current_page_id (ui w') = d_page d /\ d_get d w' = f (d_get d w).
Proof.
  intros Hw [E0 Es] Hp Hf. cbv zeta. destruct (stored_apart w0 (f (d_get d w0))) as (_ & Eu & _ & Eg).
  set (w1 := snd ((edit d f;; redraw) w0)).
  assert (g_lcd_current_page_id (ui w1) = d_page d) as Hp1.
  { rewrite <- Hp, <- E0. exact (f_equal g_lcd_current_page_id Eu). }
  assert (lcd_inv w1) as Hw1 by (apply keeps_bind; [by apply edit_keeps | intros _; apply redraw_keeps | done]).
  destruct (finish_same_place w1 Hw1) as [H1 H2]; [right; rewrite Hp1; apply own_settled |].
  split; [by rewrite H1 |]. rewrite (own_same _ _ H2), <- (own_same _ _ Es), <- Eg. exact (stored_ui _ _).
Qed.

Lemma editor_press_s1 w : lcd_inv w -> g_lcd_current_page_id (ui w) = d_page d ->
  g_lcd_current_page_id (ui (press ADC_KEY_S1 w)) = d_page d /\ d_get d (press ADC_KEY_S1 w) = edit_s1 (d_get d w).
Proof.
  intros Hw Hp. set (w0 := with_keys false false false false w).
  assert (press ADC_KEY_S1 w = snd (finish_round (snd ((edit d edit_s1;; redraw) w0)))) as ->.
  { unfold press. cbn [key_is]. f_equal. eapply handled_run; [apply own_handled | exact Hp |]. unfold editor_keys. erewrite bind_run by apply on_page_run.
    rewrite bool_decide_true by exact Hp. cbn [negb]. run (take_s1 true false false false w). reflexivity. }
  apply (edited w w0); [done | done | done |]. intros e He. by apply edit_s1_inv; [apply good_ok |].
Qed.

Lemma editor_press_s2 w : lcd_inv w -> g_lcd_current_page_id (ui w) = d_page d ->
  g_lcd_current_page_id (ui (press ADC_KEY_S2 w)) = d_page d /\ d_get d (press ADC_KEY_S2 w) = edit_move d step_down (d_get d w).
Proof.
  intros Hw Hp. set (w0 := with_keys false false false false w).
  assert (press ADC_KEY_S2 w = snd (finish_round (snd ((edit d (edit_move d step_down);; redraw) w0)))) as ->.
  { unfold press. cbn [key_is]. f_equal. eapply handled_run; [apply own_handled | exact Hp |]. unfold editor_keys. erewrite bind_run by apply on_page_run.
    rewrite bool_decide_true by exact Hp. cbn [negb]. run (take_s1 false true false false w). run (take_s2 false true false false w). reflexivity. }
  apply (edited w w0); [done | done | done |]. intros e He. apply edit_move_inv; [apply good_ok | | done]. intros; by apply step_down_range.
Qed.

Lemma editor_press_exit w : lcd_inv w -> g_lcd_current_page_id (ui w) = d_page d ->
  e_area (d_get d w) = 2 -> e_action (d_get d w) = 1 ->
  g_lcd_current_page_id (ui (press ADC_KEY_S4 w)) = LCD_PAGE_SYSTEM_SETTING_VEHICLE_INFO.
Proof.
  intros Hw Hp Ha Hact. set (w0 := with_keys false false false false w).
  assert (press ADC_KEY_S4 w = snd (finish_round (snd (lcd_page_enter LCD_PAGE_SYSTEM_SETTING_VEHICLE_INFO w0)))) as ->.
  { unfold press. cbn [key_is]. f_equal. eapply handled_run; [apply own_handled | exact Hp |]. unfold editor_keys. erewrite bind_run by apply on_page_run.
    rewrite bool_decide_true by exact Hp. cbn [negb]. run (take_s1 false false false true w). run (take_s2 false false false true w).
    run (take_s3 false false false true w). run (take_s4 false false false true w). fold w0.
    assert (d_get d w0 = d_get d w) as E by by apply own_same.
    rewrite (bind_run _ _ _ tt (snd (lcd_page_enter LCD_PAGE_SYSTEM_SETTING_VEHICLE_INFO w0))); [reflexivity |].
    unfold editor_s4. run_skip. rewrite E, Ha, Hact. cbn [Z.eqb Pos.eqb]. by destruct (lcd_page_enter _ _) as [[] ?]. }
  by apply entered_finish.
Qed.

(** From every state of an editor at most three keys leave it. *)
Lemma editor_way w : lcd_inv w -> g_lcd_current_page_id (ui w) = d_page d -> reach 6 w.
Proof.
  intros Hw Hp. pose proof (good_get w Hw) as (Ha & _ & _ & Hact & _).
  assert (forall v, lcd_inv v -> g_lcd_current_page_id (ui v) = d_page d -> e_area (d_get d v) = 2 -> e_action (d_get d v) = 1 -> reach 4 v) as Hexit.
  { intros v Hv Hpv Hav Hactv. exact (reach_via _ v _ Hv (editor_press_exit v Hv Hpv Hav Hactv) eq_refl). }
  assert (forall v, lcd_inv v -> g_lcd_current_page_id (ui v) = d_page d -> e_area (d_get d v) = 1 -> reach 5 v) as Hone.
  { intros v Hv Hpv Hav. destruct (editor_press_s1 v Hv Hpv) as [Hp1 He1]. unfold edit_s1 in He1. rewrite Hav in He1. cbn [Z.eqb Pos.eqb] in He1.
    apply (reach_press _ ADC_KEY_S1), Hexit; [by apply press_inv | done | by rewrite He1..]. }
  destruct (decide (e_area (d_get d w) = 0)) as [E|]; [| destruct (decide (e_area (d_get d w) = 1)) as [E|]].
  - destruct (editor_press_s1 w Hw Hp) as [Hp1 He1]. unfold edit_s1 in He1. rewrite E in He1. cbn [Z.eqb Pos.eqb] in He1.
    apply (reach_press _ ADC_KEY_S1), Hone; [by apply press_inv | done | by rewrite He1].
  - apply (reach_more 5); [by apply Hone | lia].
  - assert (e_area (d_get d w) = 2) as E by lia. destruct (decide (e_action (d_get d w) = 1)) as [E'|]; [apply (reach_more 4); [by apply Hexit | lia] |].
    destruct (editor_press_s2 w Hw Hp) as [Hp1 He1]. unfold edit_move, toggle in He1. rewrite E in He1. cbn [Z.eqb Pos.eqb] in He1.
    replace (e_action (d_get d w)) with 0 in He1 by lia. cbn [Z.eqb] in He1.
    apply (reach_more 5); [| lia]. apply (reach_press _ ADC_KEY_S2), Hexit; [by apply press_inv | done | by rewrite He1..].
Qed.
End Editor.

(** *** Plate editor *)

Lemma plate_press_s1 w : lcd_inv w -> g_lcd_current_page_id (ui w) = LCD_PAGE_SYSTEM_SETTING_VEHICLE_INFO_PLATE_SET ->
  g_lcd_current_page_id (ui (press ADC_KEY_S1 w)) = LCD_PAGE_SYSTEM_SETTING_VEHICLE_INFO_PLATE_SET /\
  plate (press ADC_KEY_S1 w) = plate_s1 (plate w).
Proof.
  intros Hw Hp. set (w0 := with_keys false false false false w). set (w1 := snd ((edit_plate plate_s1;; redraw) w0)).
  assert (press ADC_KEY_S1 w = snd (finish_round w1)) as ->.
  { unfold press. cbn [key_is]. f_equal. eapply handled_run; [apply plate_handled | exact Hp |]. unfold lcd_handle_plate_set_keys.
    erewrite bind_run by apply on_page_run. rewrite bool_decide_true by exact Hp. cbn [negb]. run (take_s1 true false false false w). reflexivity. }
  assert (lcd_inv w1) as Hw1 by (apply keeps_bind; [apply edit_plate_keeps, plate_s1_inv | intros _; apply redraw_keeps | exact Hw]).
  destruct (finish_same_place w1 Hw1) as [H1 (_ & _ & _ & H2 & _)]; [right; exact (f_equal (fun p => auto_return_ms (node_of p)) Hp) |].
  rewrite H1, H2. exact (conj Hp eq_refl).
Qed.

Lemma plate_press_exit w : lcd_inv w -> g_lcd_current_page_id (ui w) = LCD_PAGE_SYSTEM_SETTING_VEHICLE_INFO_PLATE_SET ->
  pl_focus (plate w) = 8 -> g_lcd_current_page_id (ui (press ADC_KEY_S4 w)) = LCD_PAGE_SYSTEM_SETTING_VEHICLE_INFO.
Proof.
  intros Hw Hp Hf. set (w0 := with_keys false false false false w).
  assert (press ADC_KEY_S4 w = snd (finish_round (snd (lcd_page_enter LCD_PAGE_SYSTEM_SETTING_VEHICLE_INFO w0)))) as ->.
  { unfold press. cbn [key_is]. f_equal. eapply handled_run; [apply plate_handled | exact Hp |]. unfold lcd_handle_plate_set_keys.
    erewrite bind_run by apply on_page_run. rewrite bool_decide_true by exact Hp. cbn [negb]. run (take_s1 false false false true w).
    run (take_s2 false false false true w). run (take_s3 false false false true w). run (take_s4 false false false true w). fold w0. run_skip.
    change (plate w0) with (plate w). rewrite Hf. cbn [Z.eqb Pos.eqb]. unfold mbind, lcd_bind. by destruct (lcd_page_enter _ _) as [[] ?]. }
  by apply entered_finish.
Qed.

Lemma plate_way n w : lcd_inv w -> g_lcd_current_page_id (ui w) = LCD_PAGE_SYSTEM_SETTING_VEHICLE_INFO_PLATE_SET ->
  8 - pl_focus (plate w) <= Z.of_nat n -> reach (n + 4) w.
Proof.
  revert w. induction n as [|n IH]; intros w Hw Hp Hn; pose proof Hw as [[_ (_ & _ & _ & (Hf & _) & _)] _].
  - apply (reach_via ADC_KEY_S4 w _ Hw (plate_press_exit w Hw Hp ltac:(lia)) eq_refl).
  - destruct (decide (pl_focus (plate w) = 8)) as [E|].
    + apply (reach_more 4); [| lia]. exact (reach_via ADC_KEY_S4 w _ Hw (plate_press_exit w Hw Hp E) eq_refl).
    + destruct (plate_press_s1 w Hw Hp) as [Hp1 He1]. apply (reach_press (n + 4) ADC_KEY_S1), IH; [by apply press_inv | done |].
      rewrite He1. unfold plate_s1. cbn [pl_focus update_with]. rewrite (proj2 (Z.ltb_lt _ _)) by lia. rewrite u8_id by wraps. lia.
Qed.

(** *** Phone editor *)

Abbreviation phone_page := LCD_PAGE_SYSTEM_SETTING_HOST_PARAM_LOCAL_PHONE.

(** The keys one after the other, as the phone page takes them. *)
Lemma phone_edited f w :
  lcd_inv w -> g_lcd_current_page_id (ui w) = phone_page -> (forall e, phone_inv e -> phone_inv (f e)) ->
  let w' := snd (finish_round (snd ((edit_phone f;; redraw) (with_keys false false false false w)))) in
  g_lcd_current_page_id (ui w') = phone_page /\ phone w' = f (phone w).
Proof.
  intros Hw Hp Hf. cbv zeta. set (w1 := snd ((edit_phone f;; redraw) (with_keys false false false false w))).
  assert (lcd_inv w1) as Hw1 by (apply keeps_bind; [by apply edit_phone_keeps | intros _; apply redraw_keeps | exact Hw]).
  destruct (finish_same_place w1 Hw1) as [H1 (_ & _ & _ & _ & H2)]; [right; exact (f_equal (fun p => auto_return_ms (node_of p)) Hp) |].
  rewrite H1, H2. exact (conj Hp eq_refl).
Qed.

Lemma phone_press_s1 w : lcd_inv w -> g_lcd_current_page_id (ui w) = phone_page ->
  g_lcd_current_page_id (ui (press ADC_KEY_S1 w)) = phone_page /\ phone (press ADC_KEY_S1 w) = phone_s1 (phone w).
Proof.
  intros Hw Hp.
  assert (press ADC_KEY_S1 w = snd (finish_round (snd ((edit_phone phone_s1;; redraw) (with_keys false false false false w))))) as ->;
    [| apply phone_edited; [done | done | exact phone_s1_inv]].
  unfold press. cbn [key_is]. f_equal. eapply handled_run; [apply phone_handled | exact Hp |]. unfold lcd_handle_local_phone_keys.
  erewrite bind_run by apply on_page_run. rewrite bool_decide_true by exact Hp. cbn [negb].
  run (take_s2 true false false false w). run_skip. run (take_s3 true false false false w). run_skip. run (take_s1 true false false false w). reflexivity.
Qed.

Lemma phone_press_s2 w : lcd_inv w -> g_lcd_current_page_id (ui w) = phone_page ->
  g_lcd_current_page_id (ui (press ADC_KEY_S2 w)) = phone_page /\ phone (press ADC_KEY_S2 w) = phone_s2 (phone w).
Proof.
  intros Hw Hp.
  assert (press ADC_KEY_S2 w = snd (finish_round (snd ((edit_phone phone_s2;; redraw) (with_keys false false false false w))))) as ->;
    [| apply phone_edited; [done | done | exact phone_s2_inv]].
  unfold press. cbn [key_is]. f_equal. eapply handled_run; [apply phone_handled | exact Hp |]. unfold lcd_handle_local_phone_keys.
  erewrite bind_run by apply on_page_run. rewrite bool_decide_true by exact Hp. cbn [negb].
  run (take_s2 false true false false w). reflexivity.
Qed.

Lemma phone_press_exit w : lcd_inv w -> g_lcd_current_page_id (ui w) = phone_page ->
  ph_focus (phone w) = 2 -> ph_func_index (phone w) = 0 ->
  g_lcd_current_page_id (ui (press ADC_KEY_S4 w)) = LCD_PAGE_SYSTEM_SETTING_HOST_PARAM.
Proof.
  intros Hw Hp Hf Hi. set (w0 := with_keys false false false false w).
  assert (press ADC_KEY_S4 w = snd (finish_round (snd (lcd_page_enter LCD_PAGE_SYSTEM_SETTING_HOST_PARAM w0)))) as ->;
    [| by apply entered_finish].
  unfold press. cbn [key_is]. f_equal. eapply handled_run; [apply phone_handled | exact Hp |]. unfold lcd_handle_local_phone_keys.
  erewrite bind_run by apply on_page_run. rewrite bool_decide_true by exact Hp. cbn [negb].
  run (take_s2 false false false true w). run_skip. run (take_s3 false false false true w). run_skip.
  run (take_s1 false false false true w). run_skip. run (take_s4 false false false true w). fold w0.
  rewrite (bind_run _ _ _ tt (snd (lcd_page_enter LCD_PAGE_SYSTEM_SETTING_HOST_PARAM w0))); [reflexivity |].
  unfold phone_s4. run_skip. change (phone w0) with (phone w). rewrite Hf, Hi. cbn [Z.eqb Pos.eqb].
  pose proof (page_enter_inv LCD_PAGE_SYSTEM_SETTING_HOST_PARAM w0 (proj1 Hw) ltac:(done)) as (_ & _ & Hn).
  rewrite (bind_run _ _ _ tt (snd (lcd_page_enter LCD_PAGE_SYSTEM_SETTING_HOST_PARAM w0))); [by apply redraw_again |].
  by destruct (lcd_page_enter _ _) as [[] ?].
Qed.

Lemma phone_way w : lcd_inv w -> g_lcd_current_page_id (ui w) = phone_page -> reach 7 w.
Proof.
  intros Hw Hp. pose proof Hw as [[_ (_ & _ & _ & _ & (_ & _ & _ & _ & Hf & Hi) & _)] _].
  assert (forall v, lcd_inv v -> g_lcd_current_page_id (ui v) = phone_page -> ph_focus (phone v) = 2 -> reach 5 v) as H2.
  { intros v Hv Hpv Hfv. pose proof Hv as [[_ (_ & _ & _ & _ & (_ & _ & _ & _ & _ & Hiv) & _)] _].
    assert (forall u, lcd_inv u -> g_lcd_current_page_id (ui u) = phone_page -> ph_focus (phone u) = 2 -> ph_func_index (phone u) = 0 -> reach 4 u) as H1.
    { intros u Hu Hpu Hfu Hiu. exact (reach_via ADC_KEY_S4 u _ Hu (phone_press_exit u Hu Hpu Hfu Hiu) eq_refl). }
    destruct (decide (ph_func_index (phone v) = 0)); [apply (reach_more 4); [by apply H1 | lia] |].
    destruct (phone_press_s2 v Hv Hpv) as [Hp1 He1]. unfold phone_s2 in He1. rewrite Hfv in He1. cbn [Z.eqb Pos.eqb] in He1.
    replace (ph_func_index (phone v)) with 1 in He1 by lia. apply (reach_press 4 ADC_KEY_S2), H1; [by apply press_inv | done | by rewrite He1..]. }
  assert (forall v, lcd_inv v -> g_lcd_current_page_id (ui v) = phone_page -> ph_focus (phone v) = 1 -> reach 6 v) as H1.
  { intros v Hv Hpv Hfv. destruct (phone_press_s1 v Hv Hpv) as [Hp1 He1]. unfold phone_s1 in He1. rewrite Hfv in He1. cbn [Z.eqb Pos.eqb] in He1.
    apply (reach_press 5 ADC_KEY_S1), H2; [by apply press_inv | done | by rewrite He1]. }
  destruct (decide (ph_focus (phone w) = 2)); [apply (reach_more 5); [by apply H2 | lia] |].
  destruct (decide (ph_focus (phone w) = 1)); [apply (reach_more 6); [by apply H1 | lia] |].
  destruct (phone_press_s1 w Hw Hp) as [Hp1 He1]. unfold phone_s1 in He1. replace (ph_focus (phone w)) with 0 in He1 by lia. cbn [Z.eqb] in He1.
  apply (reach_press 6 ADC_KEY_S1), H1; [by apply press_inv | done | by rewrite He1].
Qed.

(** ** All pages *)

Lemma way_home w : lcd_inv w -> g_lcd_current_page_id (ui w) <> LCD_PAGE_COMMON_CONFIG_OK -> reach 12 w.
Proof.
  intros Hw Hc. pose proof Hw as [[(_ & _ & Hm & _) _] _]. destruct (ordinary (g_lcd_current_page_id (ui w))) eqn:Ho.
  - pose proof (page_depth_max (g_lcd_current_page_id (ui w))). apply (reach_more 5); [apply climb; [done | done | lia] | lia].
  - unfold ordinary in Ho. rewrite (bool_decide_false _ Hc), (bool_decide_false _ Hm) in Ho. cbn [negb] in Ho. rewrite !andb_true_r in Ho.
    apply negb_false_iff, bool_decide_eq_true in Ho. rewrite !elem_of_cons in Ho.
    destruct Ho as [E | [E | [E | [E | [E | [E | E%not_elem_of_nil]]]]]]; [| | | | | | done].
    + apply (reach_more 5); [| lia]. exact (reach_via ADC_KEY_S1 w _ Hw (text_way w Hw E) eq_refl).
    + apply (reach_more 6); [by apply (editor_way vin_desc) | lia].
    + apply (reach_more 6); [by apply (editor_way province_desc) | lia].
    + apply (reach_more 6); [by apply (editor_way city_desc) | lia].
    + apply (plate_way 8); [done | done |]. destruct Hw as [[_ (_ & _ & _ & (Hf & _) & _)] _]. lia.
    + apply (reach_more 7); [by apply phone_way | lia].
Qed.
End Journey.

(** ** Properties *)

(** C13: no dead end.  In every state the display reaches, whatever page is
    shown, whatever its editor is in the middle of and whatever the storage
    does, at most 13 keys, pressed one after the other, lead to the home page. *)
Theorem home_always_reachable {D} `{EepromReady D} {fonts : FontMetrics} (w : lcd D) :
  reachable w ->
  exists ks, (length ks <= 13)%nat /\ g_lcd_current_page_id (ui (press_all ks w)) = LCD_PAGE_HOME.
Proof.
  intros Hw%reachable_inv. change (reach 13 w).
  destruct (decide (g_lcd_current_page_id (ui w) = LCD_PAGE_COMMON_CONFIG_OK)) as [E|E].
  - assert (g_lcd_current_page_id (ui (press ADC_KEY_S1 w)) = g_lcd_common_ok_return_page (ui w)) as Hp.
    { rewrite (press_back w Hw); [unfold back_target; by rewrite E | by rewrite E | by rewrite E]. }
    apply (reach_press 12 ADC_KEY_S1), way_home; [by apply press_inv |]. rewrite Hp. by destruct Hw as [[(_ & _ & _ & _ & _ & H6 & _) _] _].
  - apply (reach_more 12); [by apply way_home | lia].
Qed.

#[local] Instance journey_fonts : FontMetrics := sample_fonts.

Lemma home_always_reachable_witness :
  g_lcd_current_page_id (ui sample_location_page) = LCD_PAGE_DRIVE_RECORD_LOCATION /\
  exists ks, (length ks <= 13)%nat /\ g_lcd_current_page_id (ui (press_all ks sample_location_page)) = LCD_PAGE_HOME.
Proof.
  split; [vm_compute; reflexivity |]. apply (home_always_reachable sample_location_page).
  do 4 apply sample_key_reachable. exists sample_lcd. apply rtc_refl.
Defined.

(** The result page of the load status returns by itself: rounds without
    keys leave it open for 3000 ms after it was entered, and the first round
    after that goes back to the load status page, also when the tick counter
    wraps in between. *)
Theorem result_page_returns {D} `{EepromReady D} {fonts : FontMetrics} (w : lcd D) :
  reachable w -> g_lcd_current_page_id (ui w) = LCD_PAGE_DRIVE_RECORD_LOAD_STATUS_OK -> idle (adc w) ->
  g_lcd_current_page_id (ui (snd (svc_lcd_thread_round w))) =
  if rt_tick_from_millisecond 3000 <=? u32 (tick w - g_lcd_page_enter_tick (ui w))
  then LCD_PAGE_DRIVE_RECORD_LOAD_STATUS else LCD_PAGE_DRIVE_RECORD_LOAD_STATUS_OK.
Proof.
  intros Hw%reachable_inv Hp Hi. rewrite idle_round by (done || by rewrite Hp). pose proof Hw as [[(Hr & _) _] _].
  assert (lcd_page_handle_auto_return w = if rt_tick_from_millisecond 3000 <=? u32 (tick w - g_lcd_page_enter_tick (ui w))
    then lcd_page_enter LCD_PAGE_DRIVE_RECORD_LOAD_STATUS w else (tt, w)) as E.
  { unfold lcd_page_handle_auto_return, current_node. run_skip. rewrite Hr, Hp, get_page_node_registered, decide_False by done.
    change (auto_return_ms (node_of LCD_PAGE_DRIVE_RECORD_LOAD_STATUS_OK)) with 3000.
    change (auto_return_target (node_of LCD_PAGE_DRIVE_RECORD_LOAD_STATUS_OK)) with LCD_PAGE_DRIVE_RECORD_LOAD_STATUS.
    change ((3000 =? 0) || _) with false. cbv iota. run_skip. run_skip. by destruct (_ <=? _). }
  destruct (rt_tick_from_millisecond 3000 <=? u32 (tick w - g_lcd_page_enter_tick (ui w))) eqn:Ht.
  - destruct (entered LCD_PAGE_DRIVE_RECORD_LOAD_STATUS w Hw ltac:(done)) as (H2 & H3 & H4 & _).
    rewrite (finish_after w _ H2 H4 E). destruct (finish_same_place _ H2 H4) as [-> _]. exact H3.
  - destruct (finish_stays w Hw E) as [-> _]. exact Hp.
Qed.

(** From the home page to the load status page and its result. *)
Definition sample_load_ok : lcd Chip.chip :=
  foldl (fun w k => sample_key k w) (lcd_started sample_lcd)
    [ADC_KEY_S4; ADC_KEY_S4; ADC_KEY_S3; ADC_KEY_S3; ADC_KEY_S3; ADC_KEY_S3; ADC_KEY_S3; ADC_KEY_S4; ADC_KEY_S4]
  <| adc := svc_adc_init |> <| tick := 3000 |>.

Lemma result_page_returns_witness :
  g_lcd_current_page_id (ui sample_load_ok) = LCD_PAGE_DRIVE_RECORD_LOAD_STATUS_OK /\
  g_lcd_current_page_id (ui (snd (svc_lcd_thread_round sample_load_ok))) = LCD_PAGE_DRIVE_RECORD_LOAD_STATUS.
Proof.
  assert (g_lcd_current_page_id (ui sample_load_ok) = LCD_PAGE_DRIVE_RECORD_LOAD_STATUS_OK) as Hp by (vm_compute; reflexivity).
  split; [exact Hp |]. rewrite (result_page_returns sample_load_ok); [vm_compute; reflexivity | | exact Hp | vm_compute; tauto].
  assert (forall ks w, reachable w -> reachable (foldl (fun w k => sample_key k w) w ks)) as Hk.
  { induction ks as [|k ks IH]; intros w Hw; [done |]. by apply IH, sample_key_reachable. }
  destruct (Hk [ADC_KEY_S4; ADC_KEY_S4; ADC_KEY_S3; ADC_KEY_S3; ADC_KEY_S3; ADC_KEY_S3; ADC_KEY_S3; ADC_KEY_S4; ADC_KEY_S4]
    (lcd_started sample_lcd)) as [w0 H]; [exists sample_lcd; apply rtc_refl |].
  exists w0. etrans; [exact H |]. eapply rtc_l; [apply step_keys |]. apply rtc_once, step_tick.
Defined.
