(* ===== verification/LcdPictures.v ===== *)
(** * What the pictures show

    The list pages mark exactly the selected entry, and the numbers on the
    screen are complete: no string is cut off by its buffer, and its digits
    read back as the value. *)

From Stdlib Require Import String.
From S2P Require Import Prelude Printf Platform AppTypes Adc Eeprom Storage McuStatus StorageSpec UartText LcdPages LcdGfx LcdState LcdData LcdTime LcdText LcdTables LcdRender LcdNav LcdKeys LcdInv LcdTask LcdSystem.

(** ** Lists *)

Definition no_box (d : draw) : Prop := match d with DrawBox _ _ _ _ => False | _ => True end.

Section Lists.
Context {fonts : FontMetrics}.

Lemma glyphs_no_box f x y codes : Forall no_box (draw_glyphs f x y codes).
Proof. revert x. induction codes as [|c codes IH]; intros x; [constructor |]. by constructor. Qed.

Lemma seq_no_box f x y codes n : Forall no_box (lcd_u8g2_draw_unicode_seq f x y codes n).
Proof. apply glyphs_no_box. Qed.

Lemma item_no_box i y text n : Forall no_box (list_item i y false text n).
Proof.
  unfold list_item. repeat (apply Forall_app; split); try by repeat constructor. apply seq_no_box.
Qed.

Lemma flat_map_no_box {A} (f : A -> list draw) l : (forall x, In x l -> Forall no_box (f x)) -> Forall no_box (flat_map f l).
Proof.
  induction l as [|x l IH]; intros H; [constructor |]. cbn [flat_map]. apply Forall_app. split; [apply H; by left |].
  apply IH. intros y Hy. apply H. by right.
Qed.

(** A loop around one of its rounds. *)
Lemma each_split n k f : 0 <= k < n ->
  exists a b, each n f = flat_map (fun i => f (Z.of_nat i)) a ++ f k ++ flat_map (fun i => f (Z.of_nat i)) b /\
  (forall i, In i a \/ In i b -> 0 <= Z.of_nat i < n /\ Z.of_nat i <> k).
Proof.
  intros Hk. unfold each. exists (seq 0 (Z.to_nat k)), (seq (S (Z.to_nat k)) (Z.to_nat n - Z.to_nat k - 1)). split.
  - replace (Z.to_nat n) with (Z.to_nat k + S (Z.to_nat n - Z.to_nat k - 1))%nat at 1 by lia.
    rewrite seq_app, flat_map_app. cbn [seq flat_map]. by rewrite Nat.add_0_l, Z2Nat.id by lia.
  - intros i [Hi%in_seq | Hi%in_seq]; lia.
Qed.

(** The part of a list that is shown contains the selection. *)
Lemma list_window_shows (show : bool) n sel :
  0 <= sel < n -> n <= 9 -> (show = false -> n <= 8) ->
  exists start rows ys, list_window show n sel = Some (start, rows, ys) /\
  0 <= start <= sel /\ sel < start + rows <= n /\ rows <= Z.of_nat (length ys).
Proof.
  intros Hs Hn Hshow. unfold list_window. destruct show.
  - destruct (Z.ltb_spec sel 3).
    + eexists _, _, _. split; [reflexivity |]. destruct (Z.ltb_spec n 3); simpl; lia.
    + destruct ((sel <? 7) && (3 <? n)) eqn:E; bool_hyps.
      * eexists _, _, _. split; [reflexivity |]. rewrite u8_id by wraps. destruct (Z.ltb_spec 4 (n - 3)); simpl; lia.
      * apply andb_false_iff in E. destruct (Z.ltb_spec 7 n).
        -- eexists _, _, _. split; [reflexivity |]. rewrite u8_id by wraps. destruct (Z.ltb_spec 2 (n - 7)); simpl; lia.
        -- lia.
  - specialize (Hshow eq_refl). destruct (Z.ltb_spec sel 4); (eexists _, _, _; split; [reflexivity |]).
    + destruct (Z.ltb_spec n 4); simpl; lia.
    + rewrite u8_id by wraps. destruct (Z.ltb_spec 4 (n - 4)); simpl; lia.
Qed.

(** The sizes of the registered lists. *)
Lemma resource_sizes p r : lcd_get_list_page_resources p = Some r ->
  1 <= res_item_count r <= 9 /\ (show_title (node_of p) = false -> res_item_count r <= 8) /\
  lcd_page_get_select_count registered p = res_item_count r.
Proof.
  intros H. apply List.find_some in H as [Hin Hp]. apply bool_decide_eq_true in Hp as <-.
  repeat (destruct Hin as [<- | Hin]; [vm_compute; split_and!; first [discriminate | reflexivity | intros; discriminate] |]).
  by destruct Hin.
Qed.

(** The rows of a list: one entry is marked. *)
Lemma rows_marked p r start rows sel ys :
  lcd_get_list_page_resources p = Some r -> res_item_count r <= 9 -> 0 <= start <= sel -> sel < start + rows <= res_item_count r ->
  exists pre post y, draw_rows (lcd_u8g2_draw_submenu_item p) start rows sel ys =
    pre ++ list_item sel y true (nth (Z.to_nat sel) (res_item_texts r) []) (get (res_item_counts r) sel) ++ post /\
    Forall no_box pre /\ Forall no_box post.
Proof.
  intros Hr Hn Hs He. unfold draw_rows.
  assert (forall row, 0 <= row < rows -> u8 (start + row) = start + row) as Hu by (intros; apply u8_id; wraps).
  match goal with |- context [each rows ?f] => destruct (each_split rows (sel - start) f ltac:(lia)) as (a & b & -> & Hab) end.
  assert (forall l, (forall i, In i l -> 0 <= Z.of_nat i < rows /\ Z.of_nat i <> sel - start) -> Forall no_box
    (flat_map (fun i => let item_index := u8 (start + Z.of_nat i) in
       lcd_u8g2_draw_submenu_item p item_index (get ys (Z.of_nat i)) (item_index =? sel)) l)) as Hrest.
  { intros l Hl. apply flat_map_no_box. intros i Hi. destruct (Hl i Hi) as [H1 H2]. cbv zeta. rewrite (Hu _ H1).
    rewrite (proj2 (Z.eqb_neq _ _)) by lia. unfold lcd_u8g2_draw_submenu_item. rewrite Hr.
    destruct (_ <=? _); [by repeat constructor | apply item_no_box]. }
  assert (lcd_u8g2_draw_submenu_item p (u8 (start + (sel - start))) (get ys (sel - start)) (u8 (start + (sel - start)) =? sel) =
    list_item sel (get ys (sel - start)) true (nth (Z.to_nat sel) (res_item_texts r) []) (get (res_item_counts r) sel)) as E.
  { rewrite (Hu (sel - start)) by lia. replace (start + (sel - start)) with sel by lia.
    rewrite Z.eqb_refl. unfold lcd_u8g2_draw_submenu_item. rewrite Hr. by rewrite (proj2 (Z.leb_gt _ _)) by lia. }
  eexists _, _, (get ys (sel - start)). split; [cbv zeta; by rewrite E |].
  split; apply Hrest; intros i Hi; apply Hab; tauto.
Qed.

Lemma box_around (pre post l a b : list draw) :
  Forall no_box a -> Forall no_box b -> Forall no_box pre -> Forall no_box post ->
  exists pre' post', a ++ (pre ++ l ++ post) ++ b = pre' ++ l ++ post' /\ Forall no_box pre' /\ Forall no_box post'.
Proof.
  intros. exists (a ++ pre), (post ++ b). split; [by rewrite <- !app_assoc |]. split; by apply Forall_app.
Qed.

Lemma list_page_marked u p r :
  ui_base u -> g_lcd_current_page_id u = p -> lcd_get_list_page_resources p = Some r ->
  let sel := get (g_lcd_page_selected u) (page_num p) in
  0 <= sel < res_item_count r /\
  exists pre post y, lcd_render_drive_record_submenu_ui u =
    pre ++ list_item sel y true (nth (Z.to_nat sel) (res_item_texts r) []) (get (res_item_counts r) sel) ++ post /\
    Forall no_box pre /\ Forall no_box post.
Proof.
  intros (Hreg & _ & Hp & [_ Hsel] & _) <- Hr. cbv zeta. set (p := g_lcd_current_page_id u) in *.
  destruct (resource_sizes p r Hr) as (Hn & Hshow & Hc). specialize (Hsel p Hp). rewrite Hc in Hsel.
  set (sel := get (g_lcd_page_selected u) (page_num p)) in *. split; [lia |].
  unfold lcd_render_drive_record_submenu_ui. fold p. rewrite Hr, Hreg, get_page_node_registered, decide_False by done. fold sel.
  destruct (list_window_shows (show_title (node_of p)) (res_item_count r) sel ltac:(lia) ltac:(lia) Hshow) as (start & rows & ys & -> & H1 & H2 & _).
  destruct (rows_marked p r start rows sel ys Hr ltac:(lia) H1 H2) as (pre & post & y & -> & Hpre & Hpost).
  rewrite app_assoc. set (hd := page_begin ++ _).
  assert (Forall no_box hd) as Hhd.
  { subst hd. apply Forall_app. split; [by repeat constructor |]. destruct (_ && _); [| constructor]. constructor; [done | apply seq_no_box]. }
  destruct (box_around pre post (list_item sel y true (nth (Z.to_nat sel) (res_item_texts r) []) (get (res_item_counts r) sel)) hd [FlushBuffer]
    Hhd ltac:(by repeat constructor) Hpre Hpost) as (pre' & post' & -> & H3 & H4). by exists pre', post', y.
Qed.
#[local] Instance render_fn_eq_dec : EqDecision render_fn.
Proof. solve_decision. Defined.

(** The pages the list function is registered for. *)
Lemma list_renderer p : page_fn p = render_drive_record_submenu_ui <-> is_Some (lcd_get_list_page_resources p).
Proof.
  assert (bool_decide (page_fn p = render_drive_record_submenu_ui) =
    match lcd_get_list_page_resources p with Some _ => true | None => false end) as E by (destruct p; by vm_compute).
  destruct (lcd_get_list_page_resources p); [apply bool_decide_eq_true in E; by split; [eexists |] |].
  apply bool_decide_eq_false in E. split; [done | by intros []].
Qed.
End Lists.

(** ** Numbers *)

(** The value of a string of digits. *)
Definition dec_value (s : list Z) : Z := foldl (fun v c => v * 10 + (c - 48)) 0 s.
Definition digit (c : Z) : Prop := 48 <= c <= 57.

Lemma dec_value_from s v : foldl (fun v c => v * 10 + (c - 48)) v s = v * 10 ^ Z.of_nat (length s) + dec_value s.
Proof.
  unfold dec_value. revert v. induction s as [|c s IH] using rev_ind; intros v; [cbn; lia |].
  rewrite !foldl_app, length_app, IH, Nat2Z.inj_add, Z.pow_add_r by lia. cbn [foldl]. change (Z.of_nat (length [c])) with 1. lia.
Qed.

Lemma dec_value_app s t : dec_value (s ++ t) = dec_value s * 10 ^ Z.of_nat (length t) + dec_value t.
Proof. unfold dec_value at 1. by rewrite foldl_app, dec_value_from. Qed.

Lemma dec_loop_spec fuel n acc : 0 <= n < 10 ^ Z.of_nat fuel -> (0 < fuel)%nat ->
  exists ds, dec_loop fuel n acc = ds ++ acc /\ dec_value ds = n /\ (1 <= length ds <= fuel)%nat /\ Forall digit ds.
Proof.
  revert n acc. induction fuel as [|fuel IH]; intros n acc Hn Hf; [lia |]. cbn [dec_loop].
  assert (digit (48 + n mod 10)) as Hd by (unfold digit; lia).
  destruct (Z.eqb_spec (n / 10) 0) as [E|E].
  - exists [48 + n mod 10]. split; [done |]. split; [cbn; lia |]. split; [simpl; lia | by apply Forall_singleton].
  - rewrite Nat2Z.inj_succ, Z.pow_succ_r in Hn by lia.
    assert (fuel <> 0%nat) by (intros ->; simpl in Hn; lia).
    destruct (IH (n / 10) ((48 + n mod 10) :: acc)) as (ds & -> & Hv & Hl & Hds); [lia | lia |].
    exists (ds ++ [48 + n mod 10]). split; [by rewrite <- app_assoc |]. split; [| split].
    + rewrite dec_value_app, Hv. change (10 ^ Z.of_nat (length [48 + n mod 10])) with 10. unfold dec_value. cbn [foldl]. lia.
    + rewrite length_app. simpl. lia.
    + apply Forall_app. split; [done | by apply Forall_singleton].
Qed.

Lemma dec_loop_fuel k fuel n acc : 0 <= n < 10 ^ Z.of_nat k -> (0 < k <= fuel)%nat -> dec_loop fuel n acc = dec_loop k n acc.
Proof.
  revert fuel n acc. induction k as [|k IH]; intros fuel n acc Hn Hf; [lia |]. destruct fuel as [|fuel]; [lia |]. cbn [dec_loop].
  destruct (Z.eqb_spec (n / 10) 0) as [|E]; [done |]. rewrite Nat2Z.inj_succ, Z.pow_succ_r in Hn by lia.
  assert (k <> 0%nat) by (intros ->; simpl in Hn; lia). apply IH; [lia | lia].
Qed.

Lemma fmt_u_spec k n : 0 <= n < 10 ^ Z.of_nat k -> (0 < k <= 10)%nat ->
  dec_value (fmt_u n) = n /\ (1 <= length (fmt_u n) <= k)%nat /\ Forall digit (fmt_u n).
Proof.
  intros Hn Hk. unfold fmt_u. rewrite (dec_loop_fuel k) by done.
  destruct (dec_loop_spec k n [] Hn ltac:(lia)) as (ds & -> & H). by rewrite app_nil_r.
Qed.

Lemma zeros_value k s : dec_value (replicate k 48 ++ s) = dec_value s.
Proof.
  rewrite dec_value_app. enough (dec_value (replicate k 48) = 0) as -> by lia.
  induction k as [|k IH]; [done |]. cbn [replicate]. unfold dec_value. cbn [foldl]. exact IH.
Qed.

(** A number padded to [k] digits. *)
Lemma fmt_0u_spec k n : 0 <= n < 10 ^ Z.of_nat k -> (0 < k <= 10)%nat ->
  dec_value (fmt_0u k n) = n /\ length (fmt_0u k n) = k /\ Forall digit (fmt_0u k n).
Proof.
  intros Hn Hk. destruct (fmt_u_spec k n Hn Hk) as (H1 & H2 & H3). unfold fmt_0u. rewrite zeros_value. split; [done |].
  split; [rewrite length_app, length_replicate; lia |]. apply Forall_app. split; [apply Forall_replicate; unfold digit; lia | done].
Qed.

(** A number that may be wider than its padding. *)
Lemma fmt_0u_length w k n : 0 <= n < 10 ^ Z.of_nat k -> (0 < k <= 10)%nat -> (length (fmt_0u w n) <= Nat.max w k)%nat.
Proof.
  intros Hn Hk. destruct (fmt_u_spec k n Hn Hk) as (_ & H2 & _). unfold fmt_0u. rewrite length_app, length_replicate. lia.
Qed.

(** The strings of the display as their numbers. *)
Lemma sprinted_fits size fmt args out : prints (str fmt) args out -> Forall (fun c => c <> 0) out -> (length out < size <= 1000)%nat ->
  sprinted size fmt args = out.
Proof. intros Hp Hz Hl. rewrite (sprinted_text _ _ _ out) by (done || lia). apply take_ge. lia. Qed.

Lemma speed_prints a b : is_u32 a -> is_u32 b ->
  prints (str "%u.%u km/h") [VInt a; VInt b] (fmt_u a ++ str "." ++ fmt_u b ++ str " km/h").
Proof. intros Ha Hb. printing; done. Qed.

Lemma time_prints h m s : is_u32 h -> is_u32 m -> is_u32 s ->
  prints (str "%02u:%02u:%02u") [VInt h; VInt m; VInt s] (fmt_0u 2 h ++ colon ++ fmt_0u 2 m ++ colon ++ fmt_0u 2 s).
Proof. intros Hh Hm Hs. rewrite <- (app_nil_r (fmt_0u 2 s)). printing; done. Qed.

Lemma coord_prints p a b : Forall (fun c => c <> 0) p -> (length p <= 1)%nat -> is_u32 a -> is_u32 b ->
  prints (str "%s%lu.%06lu") [VStr (Some p); VInt a; VInt b] (p ++ fmt_u a ++ str "." ++ fmt_0u 6 b).
Proof. intros Hp Hl Ha Hb. rewrite <- (app_nil_r (fmt_0u 6 b)). printing; done || lia. Qed.

Lemma mileage_prints a b : is_u32 a -> is_u32 b ->
  prints (str "%lu.%03u km") [VInt a; VInt b] (fmt_u a ++ str "." ++ fmt_0u 3 b ++ str " km").
Proof. intros Ha Hb. printing; done. Qed.

Lemma no_terminator s : Forall (fun c => c <> 0) (str s) <-> forallb (fun c => negb (c =? 0)) (str s) = true.
Proof.
  rewrite forallb_forall, Forall_forall. split; intros H c Hc; specialize (H c).
  - apply negb_true_iff, Z.eqb_neq, H. by apply list_elem_of_In.
  - apply Z.eqb_neq, negb_true_iff, H. by apply list_elem_of_In.
Qed.

Ltac printable :=
  repeat match goal with |- Forall _ (_ ++ _) => apply Forall_app_2 end; first [apply fmt_u_nonzero; wraps | apply fmt_0u_nonzero; wraps | by apply no_terminator | idtac].

(** ** Properties *)

(** C32: the pages drawn by the shared list function mark exactly their
    selection.  The page table registers that function for exactly the nine
    pages that have a list of entries in the resource table (the three menus
    below the main menu, the two of the information centre, vehicle data, plate
    colour and class, host parameters); on such a page the selected entry
    exists, and in the picture of the page its number and text are drawn inside
    the highlight box and no other box is drawn, whichever part of a long list
    is on the screen. *)
Theorem list_page_marks_selection {D} {fonts : FontMetrics} (w : lcd D) p :
  ui_base (ui w) -> g_lcd_current_page_id (ui w) = p ->
  (page_fn p = render_drive_record_submenu_ui <-> is_Some (lcd_get_list_page_resources p)) /\
  forall r, lcd_get_list_page_resources p = Some r ->
  let sel := get (g_lcd_page_selected (ui w)) (page_num p) in
  0 <= sel < res_item_count r /\
  exists pre post y, current_picture w =
    Some (pre ++ list_item sel y true (nth (Z.to_nat sel) (res_item_texts r) []) (get (res_item_counts r) sel) ++ post) /\
    Forall no_box pre /\ Forall no_box post.
Proof.
  intros Hu Hp. pose proof (list_renderer p) as Hf. split; [done |]. intros r Hr.
  destruct (list_page_marked (ui w) p r Hu Hp Hr) as (Hs & pre & post & y & E & H). split; [done |]. exists pre, post, y. split; [| done].
  unfold current_picture. rewrite Hp, (proj2 Hf) by by eexists. cbn [picture]. by rewrite E.
Qed.

#[local] Instance picture_fonts : FontMetrics := sample_fonts.

(** The system setting menu with its eighth entry selected. *)
Definition sample_menu : lcd Chip.chip :=
  foldl (fun w k => sample_key k w) (lcd_started sample_lcd)
    [ADC_KEY_S4; ADC_KEY_S3; ADC_KEY_S3; ADC_KEY_S4; ADC_KEY_S3; ADC_KEY_S3; ADC_KEY_S3; ADC_KEY_S3; ADC_KEY_S3; ADC_KEY_S3; ADC_KEY_S3].

Definition sample_resource : lcd_ui_list_resource_t :=
  mk_resource LCD_PAGE_SYSTEM_SETTING_MENU g_system_sub_item_texts_u8g2 g_system_sub_item_counts_u8g2 9 g_menu_item_text_3 4.

Lemma sample_keys_reachable ks w : reachable w -> reachable (foldl (fun w k => sample_key k w) w ks).
Proof. revert w. induction ks as [|k ks IH]; intros w Hw; [done |]. by apply IH, sample_key_reachable. Qed.

Lemma list_page_marks_selection_witness :
  get (g_lcd_page_selected (ui sample_menu)) (page_num LCD_PAGE_SYSTEM_SETTING_MENU) = 7 /\
  exists pre post y, current_picture sample_menu =
    Some (pre ++ list_item 7 y true (nth (Z.to_nat 7) (res_item_texts sample_resource) []) (get (res_item_counts sample_resource) 7) ++ post).
Proof.
  assert (get (g_lcd_page_selected (ui sample_menu)) (page_num LCD_PAGE_SYSTEM_SETTING_MENU) = 7) as E by (vm_compute; reflexivity).
  split; [exact E |].
  assert (ui_base (ui sample_menu)) as Hu.
  { apply (reachable_inv sample_menu). apply sample_keys_reachable. exists sample_lcd. apply rtc_refl. }
  destruct (list_page_marks_selection sample_menu LCD_PAGE_SYSTEM_SETTING_MENU Hu ltac:(vm_compute; reflexivity)) as [_ H].
  destruct (H sample_resource eq_refl) as (_ & pre & post & y & H' & _).
  cbv zeta in H'. rewrite E in H'. exists pre, post, y. exact H'.
Defined.

(** C33: the numbers on the screen are complete.  For every value the data can
    hold the speed, the time, a coordinate and the mileage fit their buffers,
    so that nothing is cut off, and their digits read back as the value. *)
Theorem numbers_shown_completely v h m s c km rem_m (neg : bool) :
  is_u16 v -> is_u8 h -> is_u8 m -> is_u8 s -> is_u32 c -> is_u32 km -> 0 <= rem_m < 1000 ->
  (speed_string v = fmt_u (v / 10) ++ str "." ++ fmt_u (v mod 10) ++ str " km/h" /\
   dec_value (fmt_u (v / 10)) * 10 + dec_value (fmt_u (v mod 10)) = v) /\
  (time_string h m s = fmt_0u 2 h ++ colon ++ fmt_0u 2 m ++ colon ++ fmt_0u 2 s /\
   dec_value (fmt_0u 2 h) = h /\ dec_value (fmt_0u 2 m) = m /\ dec_value (fmt_0u 2 s) = s) /\
  (coord_string neg c = (if neg then str "-" else []) ++ fmt_u (c / 1000000) ++ str "." ++ fmt_0u 6 (c mod 1000000) /\
   length (fmt_0u 6 (c mod 1000000)) = 6%nat /\
   dec_value (fmt_u (c / 1000000)) * 1000000 + dec_value (fmt_0u 6 (c mod 1000000)) = c) /\
  (mileage_string km rem_m = fmt_u km ++ str "." ++ fmt_0u 3 rem_m ++ str " km" /\
   length (fmt_0u 3 rem_m) = 3%nat /\ dec_value (fmt_u km) * 1000 + dec_value (fmt_0u 3 rem_m) = km * 1000 + rem_m).
Proof.
  unfold is_u16, is_u8, is_u32. intros Hv Hh Hm Hs Hc Hk Hr.
  destruct (fmt_u_spec 4 (v / 10)) as (V1 & V2 & _); [simpl; lia | lia |].
  destruct (fmt_u_spec 1 (v mod 10)) as (V3 & V4 & _); [simpl; lia | lia |].
  destruct (fmt_u_spec 4 (c / 1000000)) as (C1 & C2 & _); [simpl; lia | lia |].
  destruct (fmt_0u_spec 6 (c mod 1000000)) as (C3 & C4 & _); [simpl; lia | lia |].
  destruct (fmt_u_spec 10 km) as (K1 & K2 & _); [simpl; lia | lia |].
  destruct (fmt_0u_spec 3 rem_m) as (K3 & K4 & _); [simpl; lia | lia |].
  assert (forall x, 0 <= x < 256 -> dec_value (fmt_0u 2 x) = x /\ (length (fmt_0u 2 x) <= 3)%nat) as T.
  { intros x Hx. destruct (fmt_u_spec 3 x) as (T1 & _); [simpl; lia | lia |]. split; [unfold fmt_0u; by rewrite zeros_value |].
    apply (fmt_0u_length 2 3); [simpl; lia | lia]. }
  destruct (T h ltac:(lia)) as [H1 H2]. destruct (T m ltac:(lia)) as [M1 M2]. destruct (T s ltac:(lia)) as [S1 S2].
  unfold colon in *.
  assert (Forall (fun c => c <> 0) (if neg then str "-" else [])) as Hneg by (destruct neg; [by apply no_terminator | done]).
  split; [split; [apply sprinted_fits; [apply speed_prints; wraps | printable | rewrite !length_app; simpl; lia] | lia] |].
  split; [split; [apply sprinted_fits; [apply time_prints; wraps | printable | rewrite !length_app; simpl; lia] | done] |].
  split; [split; [apply sprinted_fits; [apply coord_prints; [done | destruct neg; simpl; lia | wraps | wraps] | printable; done
    | rewrite !length_app; destruct neg; simpl; lia] | split; [done | lia]] |].
  split; [apply sprinted_fits; [apply mileage_prints; wraps | printable | rewrite !length_app; simpl; lia] | split; [done | lia]].
Qed.

Lemma numbers_shown_completely_witness :
  speed_string 65535 = str "6553.5 km/h" /\ coord_string true 121473701 = str "-121.473701" /\
  speed_string 65535 = fmt_u (65535 / 10) ++ str "." ++ fmt_u (65535 mod 10) ++ str " km/h".
Proof.
  split; [reflexivity |]. split; [reflexivity |].
  apply (numbers_shown_completely 65535 23 59 59 121473701 4294967295 999 true); by vm_compute.
Defined.
