(* ===== verification/LcdHost.v ===== *)
(** * From the wire to the screen

    The command task and the display put together: a status frame received on
    the serial line is on the screen after the next round of the display. *)

From S2P Require Import Prelude Platform AppTypes Adc Eeprom Storage StorageSpec UartRing UartText UartFrame Odometer SocStatus McuStatus UartCmd LcdPages LcdGfx LcdState LcdData LcdText LcdTables LcdRender LcdNav LcdKeys LcdInv LcdTask LcdSystem.

(** The home data after a status message: the nine values of the message the
    display keeps (speed, timestamp, driving time, satellites, the two
    coordinates with their direction bits, card number), the timestamp also as
    the time of day.  The other values of the message are not for the display. *)
Definition status_home (m : app_soc_status_msg_t) : lcd_home_ui_data_t :=
  let '(hh, mi, s) := app_uart_cmd_time_to_hms (timestamp m) in
  let '(dh, dm, ds) := app_uart_cmd_seconds_to_hms (driver_time m) in
  mk_home (driver_speed m) hh mi s dh dm ds (used_satellite m) (latitude m) (longitude m) (timestamp m)
    (latitude_direction m) (longitude_direction m) (card_field (app_uart_cmd_bcd_to_str18 (driver_number m))).

Section Host.
Context {D : Type} {bus : I2cBus D} {laws : EepromLaws D} {rdy : EepromReady D} {fonts : FontMetrics}.

(** What the calls of a status frame make of the display data. *)
Lemma status_calls_home (u : uart_cmd D) m (v : lcd_ui) :
  soc_ok m -> uart_inv u [] (frame_of 1 (encode_soc m)) ->
  let calls := snd (app_usart_cmd_poll u) in
  Forall call_ok calls /\ g_lcd_home_ui (foldl (fun u c => assign c u) v calls) = status_home m.
Proof.
  intros Hm Hu. pose proof (status_frame_calls u m Hm Hu) as H. unfold status_home.
  pose proof (update_calls_mileage (driver_speed m) (timestamp m) (g_odometer u) (g_storage u)) as Hmi.
  destruct (app_uart_cmd_update_total_mileage _ _ _ _) as [[o st] c]. cbn [snd] in Hmi.
  destruct (app_uart_cmd_time_to_hms _) as [[hh mi] s]. destruct (app_uart_cmd_seconds_to_hms _) as [[dh dm] ds].
  destruct (app_usart_cmd_poll u) as [u' calls]. destruct H as (_ & _ & _ & ->). cbv zeta. cbn [snd]. split.
  - apply Forall_app_2; [| by repeat constructor]. apply (Forall_impl _ _ _ Hmi). by intros x (km & rem_m & ->).
  - rewrite foldl_app. by generalize (foldl (fun u c => assign c u) v c).
Qed.

(** A round without keys on the home page keeps the data. *)
Lemma home_data_kept (w : lcd D) cs :
  coherent w -> g_lcd_current_page_id (ui w) = LCD_PAGE_HOME -> idle (adc w) -> Forall call_ok cs ->
  g_lcd_home_ui (ui (snd (svc_lcd_thread_round (w <| ui := apply_calls cs (ui w) |>)))) =
  g_lcd_home_ui (foldl (fun u c => assign c u) (ui w) cs).
Proof.
  intros Hw Hp Hi Hcs. pose proof (apply_calls_coherent cs w Hw Hcs) as [Hw1 _].
  pose proof Hw as [[[(_ & _ & _ & _ & _ & _ & Hd & _) _] _] _]. destruct (apply_calls_spec cs (ui w) Hd Hcs) as [Ea _].
  set (w1 := w <| ui := apply_calls cs (ui w) |>) in *.
  assert (g_lcd_current_page_id (ui w1) = LCD_PAGE_HOME) as Hp1.
  { subst w1. cbn [ui update_with]. rewrite Ea. cbn [update_with g_lcd_current_page_id]. by rewrite assign_all_page. }
  rewrite (idle_round w1) by (done || by rewrite Hp1).
  destruct (home_finish w1 Hw1 Hp1) as (-> & _). subst w1. cbn [ui update_with]. by rewrite Ea.
Qed.
End Host.

(** ** Properties *)

(** C6: from the wire to the screen.  On the home page, when a status frame has
    been received, the poll of the command task followed by a round of the
    display without keys leaves in the display data the clock and position time
    from the timestamp of the message, its satellites, speed, driving time, card
    number, coordinates and their directions; and the screen is the subpage of
    the home page that is open, drawn with these values (each subpage shows its
    part of them; the satellites only when there are any). *)
Theorem status_reaches_screen {D} `{EepromReady D} {fonts : FontMetrics} (u : uart_cmd D) m (w : lcd D) :
  soc_ok m -> uart_inv u [] (frame_of 1 (encode_soc m)) ->
  reachable w -> g_lcd_current_page_id (ui w) = LCD_PAGE_HOME -> idle (adc w) ->
  let w' := snd (svc_lcd_thread_round (w <| ui := apply_calls (snd (app_usart_cmd_poll u)) (ui w) |>)) in
  g_lcd_home_ui (ui w') = status_home m /\
  screen w' = lcd_render_home_ui (g_lcd_home_subpage w) (ui w <| g_lcd_home_ui := status_home m |>).
Proof.
  intros Hm Hu Hw%reachable_coherent Hp Hi. destruct (status_calls_home u m (ui w) Hm Hu) as [Hok Hh]. cbv zeta.
  rewrite (home_data_kept w _ Hw Hp Hi Hok), (home_latest w _ Hw Hp Hi Hok). split; [exact Hh | by apply home_ui_data].
Qed.

#[local] Instance host_fonts : FontMetrics := sample_fonts.

(** The end of a round with the command thread, which has the higher priority,
    coming in between the drawing and the reset of the request. *)
Definition finish_round_preempted {D} `{EepromReady D} (cs : list lcd_call) : LCD D unit :=
  lcd_page_handle_auto_return;;
  lcd_page_handle_dynamic_refresh;;
  need ← get_ui g_lcd_need_redraw;
  if need : bool then
    lcd_render_current_page;; set_ui (apply_calls cs);; set_ui (fun u => u <| g_lcd_need_redraw := false |>)
  else skip.

(** Its request is then lost: nothing is pending and the screen is not that of
    the data. *)
Lemma redraw_request_lost :
  let w' := snd (finish_round_preempted sample_calls sample_home) in
  g_lcd_need_redraw (ui w') = false /\ current_picture w' <> Some (screen w').
Proof. split; [by vm_compute |]. vm_compute. discriminate. Qed.

Definition sample_uart : uart_cmd Chip.chip := uart_with (frame_of 1 (encode_soc sample_soc)).
Definition sample_status_screen : list draw :=
  lcd_render_home_ui (g_lcd_home_subpage sample_home) (ui sample_home <| g_lcd_home_ui := status_home sample_soc |>).

Lemma status_reaches_screen_witness :
  screen (snd (svc_lcd_thread_round (sample_home <| ui := apply_calls (snd (app_usart_cmd_poll sample_uart)) (ui sample_home) |>))) =
  sample_status_screen /\ In (DrawStr 10 24 (speed_string 725)) sample_status_screen.
Proof.
  split; [| vm_compute; tauto].
  refine (proj2 (status_reaches_screen sample_uart sample_soc sample_home sample_soc_ok _ _ _ _)).
  - assert (contents (ring_with (frame_of 1 (encode_soc sample_soc))) = frame_of 1 (encode_soc sample_soc)) as <- by (by vm_compute).
    apply uart_with_inv. vm_compute contents. solve_bytes.
  - exists sample_lcd. apply rtc_refl.
  - vm_compute. reflexivity.
  - vm_compute. tauto.
Defined.
