(* ===== verification/Pins.v ===== *)
(** * Traces of pin operations

    What a bit-banged driver does is the sequence of its accesses to the pins
    and of its delays.  A driver function without state of its own is modelled
    as the trace it produces; what it achieves is what the device on the other
    side makes of the trace. *)

From S2P Require Import Prelude Platform.

Inductive event :=
  | FuncGpio (port pin : Z)       (** [HPM_IOC->PAD[...].FUNC_CTL = ..._GPIO_...] *)
  | AssignGpio0 (port pin : Z)    (** [gpiom_set_pin_controller(..., gpiom_soc_gpio0)] *)
  | OutputEnable (port pin : Z)   (** [gpio_set_pin_output] *)
  | WritePin (port pin high : Z)  (** [gpio_write_pin] *)
  | DelayUs (us : Z)              (** [board_delay_us] *)
  | DelayMs (ms : Z).             (** [rt_thread_mdelay] *)

#[export] Instance event_eq_dec : EqDecision event.
Proof. solve_decision. Defined.

(** The output latches after a trace. *)
Definition latch_step (latch : gpio_regs) (e : event) : gpio_regs :=
  match e with WritePin port pin high => gpio_write_pin latch port pin high | _ => latch end.
Definition latch_after (evs : list event) (latch : gpio_regs) : gpio_regs := foldl latch_step latch evs.

(** The time a trace takes, in microseconds; pin accesses are counted as 0. *)
Definition event_us (e : event) : Z := match e with DelayUs us => us | DelayMs ms => 1000 * ms | _ => 0 end.
Definition elapsed_us (evs : list event) : Z := foldr (fun e t => event_us e + t) 0 evs.

Lemma latch_after_app a b latch : latch_after (a ++ b) latch = latch_after b (latch_after a latch).
Proof. apply foldl_app. Qed.

Lemma elapsed_us_app a b : elapsed_us (a ++ b) = elapsed_us a + elapsed_us b.
Proof. unfold elapsed_us. induction a as [|e a IH]; cbn [foldr app]; [done |]. rewrite IH. lia. Qed.

(** The level a trace leaves a pin at: that of the last write to it. *)
Definition last_write (port pin : Z) (evs : list event) : option bool :=
  foldl (fun l e => match e with
                    | WritePin port' pin' high => if (port =? port') && (pin =? pin') then Some (negb (high =? 0)) else l
                    | _ => l
                    end) None evs.

Definition writes_pins (evs : list event) : bool :=
  forallb (fun e => match e with WritePin _ pin _ => 0 <=? pin | _ => true end) evs.

Lemma pin_after_trace port pin evs latch :
  0 <= pin -> writes_pins evs = true ->
  pin_level (latch_after evs latch) port pin = default (pin_level latch port pin) (last_write port pin evs).
Proof.
  intros Hpin. unfold last_write. assert (pin_level latch port pin = default (pin_level latch port pin) None) as E0 by done.
  revert E0. generalize (@None bool) as l. generalize (pin_level latch port pin) at 2 3 as d. revert latch.
  induction evs as [|e evs IH]; intros latch d l E Hw; cbn [latch_after foldl] in *; [done |].
  cbn [writes_pins forallb] in Hw. apply andb_true_iff in Hw as [He Hw].
  apply IH; [| done]. destruct e as [| | |port' pin' high| |]; cbn [latch_step]; try done.
  apply Z.leb_le in He. rewrite pin_level_write by done. by destruct (_ && _).
Qed.
