(* ===== verification/LcdPanel.v ===== *)
(** * The panel driver ([LCD/lcd_drv.c], [u8g2_port.c])

    The bit-banged serial interface to the ST7567 controller, its commands,
    start-up sequence and page writes, as traces of pin operations; the serial
    receiver of the controller, and the picture that arrives in its display
    memory. *)

From S2P Require Import Prelude Platform Pins UartCrc LcdGfx.

(** ** Pins and commands *)

Definition LCD_RSTB_PIN : Z := 3.
Definition LCD_BACKLIGHT_PIN : Z := 16.
Definition LCD_CSN_PIN : Z := 28.
Definition LCD_A0_PIN : Z := 29.
Definition LCD_SCK_PIN : Z := 30.
Definition LCD_SDA_PIN : Z := 31.

(** With [LCD_SW_SPI_SWAP_LINES] 0 and [LCD_SW_SPI_IDLE_HIGH] 1. *)
Definition LCD_CLK_PIN : Z := LCD_SCK_PIN.
Definition LCD_DAT_PIN : Z := LCD_SDA_PIN.

Definition ST7567_CMD_DISPLAY_ON : Z := 0xAF.
Definition ST7567_CMD_SET_START_LINE : Z := 0x40.
Definition ST7567_CMD_SET_PAGE : Z := 0xB0.
Definition ST7567_CMD_SET_COL_HI : Z := 0x10.
Definition ST7567_CMD_SET_COL_LO : Z := 0x00.
Definition ST7567_CMD_SEG_NORMAL : Z := 0xA0.
Definition ST7567_CMD_INVERSE_OFF : Z := 0xA6.
Definition ST7567_CMD_ALL_PIXEL_OFF : Z := 0xA4.
Definition ST7567_CMD_BIAS_1_9 : Z := 0xA2.
Definition ST7567_CMD_POWER_ALL_ON : Z := 0x2F.
Definition ST7567_CMD_REG_RATIO : Z := 0x20.
Definition ST7567_CMD_SET_EV : Z := 0x81.
Definition ST7567_CMD_SET_BOOSTER : Z := 0xF8.
Definition ST7567_CMD_BOOSTER_X5 : Z := 0x01.
Definition ST7567_CMD_COM_NORMAL : Z := 0xC0.
Definition ST7567_INIT_EV : Z := 0x28.
Definition ST7567_INIT_REG_RATIO : Z := 0x07.
Definition LCD_HW_COL_OFFSET : Z := 0.

(** ** The driver *)

Definition output_pin (port pin : Z) : list event := [FuncGpio port pin; AssignGpio0 port pin; OutputEnable port pin].

Definition lcd_drv_spi_hw_init : list event :=
  output_pin GPIOA LCD_SCK_PIN ++ output_pin GPIOA LCD_SDA_PIN ++
  [WritePin GPIOA LCD_CLK_PIN 1; WritePin GPIOA LCD_DAT_PIN 0].

Definition lcd_drv_ctrl_pins_init : list event :=
  output_pin GPIOA LCD_RSTB_PIN ++ output_pin GPIOC LCD_BACKLIGHT_PIN ++
  output_pin GPIOA LCD_CSN_PIN ++ output_pin GPIOA LCD_A0_PIN.

Definition lcd_drv_spi_delay_us : list event := [DelayUs 1].
Definition lcd_drv_sck_set (high : bool) : list event := [WritePin GPIOA LCD_CLK_PIN (if high then 1 else 0)].
Definition lcd_drv_sda_set (high : bool) : list event := [WritePin GPIOA LCD_DAT_PIN (if high then 1 else 0)].
Definition lcd_rst_set (active : bool) : list event := [WritePin GPIOA LCD_RSTB_PIN (if active then 0 else 1)].
Definition lcd_backlight_on : list event := [WritePin GPIOC LCD_BACKLIGHT_PIN 1].
Definition lcd_backlight_off : list event := [WritePin GPIOC LCD_BACKLIGHT_PIN 0].
Definition lcd_a0_set (is_data : bool) : list event := [WritePin GPIOA LCD_A0_PIN (if is_data then 1 else 0)].
Definition lcd_csn_set (active : bool) : list event := [WritePin GPIOA LCD_CSN_PIN (if active then 0 else 1)].

(** The loop of [lcd_drv_spi_write_byte], [n] bits to go. *)
Fixpoint spi_bits (n : nat) (byte : Z) : list event :=
  match n with
  | O => []
  | S n =>
      lcd_drv_sck_set true ++ lcd_drv_sda_set (negb (Z.land byte 0x80 =? 0)) ++ lcd_drv_spi_delay_us ++
      lcd_drv_sck_set false ++ lcd_drv_spi_delay_us ++ spi_bits n (u8 (Z.shiftl byte 1))
  end.

Definition lcd_drv_spi_write_byte (byte : Z) : list event := spi_bits 8 byte ++ lcd_drv_sck_set true.

Definition lcd_spi_send_byte (byte : Z) : list event := lcd_drv_spi_write_byte byte.

Definition lcd_drv_write_cmd (cmd : Z) : list event :=
  lcd_csn_set true ++ lcd_a0_set false ++ lcd_drv_spi_write_byte cmd ++ lcd_csn_set false.

Definition lcd_drv_write_data_buf (buf : list Z) (len : Z) : list event :=
  lcd_csn_set true ++ lcd_a0_set true ++
  flat_map (fun i => lcd_drv_spi_write_byte (get buf (Z.of_nat i))) (seq 0 (Z.to_nat len)) ++
  lcd_csn_set false.

Definition lcd_drv_set_page_col (page col : Z) : list event :=
  let hw_col := u8 (col + LCD_HW_COL_OFFSET) in
  let hw_col := if LCD_COLS <=? hw_col then u8 (hw_col - LCD_COLS) else hw_col in
  lcd_drv_write_cmd (u8 (Z.lor ST7567_CMD_SET_PAGE (Z.land page 0x0F))) ++
  lcd_drv_write_cmd (u8 (Z.lor ST7567_CMD_SET_COL_HI (Z.land (Z.shiftr hw_col 4) 0x0F))) ++
  lcd_drv_write_cmd (u8 (Z.lor ST7567_CMD_SET_COL_LO (Z.land hw_col 0x0F))).

Definition lcd_reset : list event :=
  [WritePin GPIOA LCD_RSTB_PIN 0; DelayMs 20; WritePin GPIOA LCD_RSTB_PIN 1; DelayMs 5].

(** Every page of the panel written with the same row. *)
Definition lcd_clear : list event :=
  flat_map (fun page => lcd_drv_set_page_col (Z.of_nat page) 0 ++
                        lcd_drv_write_data_buf (zeros (Z.to_nat LCD_COLS)) LCD_COLS) (seq 0 (Z.to_nat LCD_PAGES)).

Definition lcd_fill_all : list event :=
  flat_map (fun page => lcd_drv_set_page_col (Z.of_nat page) 0 ++
                        lcd_drv_write_data_buf (replicate (Z.to_nat LCD_COLS) 0xFF) LCD_COLS) (seq 0 (Z.to_nat LCD_PAGES)).

Definition lcd_drv_init_seq : list event :=
  [DelayMs 10] ++ lcd_reset ++
  lcd_drv_write_cmd ST7567_CMD_BIAS_1_9 ++
  lcd_drv_write_cmd ST7567_CMD_SEG_NORMAL ++
  lcd_drv_write_cmd ST7567_CMD_COM_NORMAL ++
  lcd_drv_write_cmd (Z.lor ST7567_CMD_SET_START_LINE 0x00) ++
  lcd_drv_write_cmd (Z.lor ST7567_CMD_REG_RATIO ST7567_INIT_REG_RATIO) ++
  lcd_drv_write_cmd ST7567_CMD_SET_EV ++
  lcd_drv_write_cmd ST7567_INIT_EV ++
  lcd_drv_write_cmd ST7567_CMD_SET_BOOSTER ++
  lcd_drv_write_cmd ST7567_CMD_BOOSTER_X5 ++
  lcd_drv_write_cmd ST7567_CMD_POWER_ALL_ON ++
  [DelayMs 120] ++
  lcd_drv_write_cmd ST7567_CMD_INVERSE_OFF ++
  lcd_drv_write_cmd ST7567_CMD_ALL_PIXEL_OFF ++
  lcd_clear ++
  lcd_drv_write_cmd ST7567_CMD_DISPLAY_ON.

Definition lcd_drv_init : Z * list event :=
  (RT_EOK, lcd_drv_ctrl_pins_init ++ lcd_drv_spi_hw_init ++
           lcd_csn_set false ++ lcd_a0_set true ++ lcd_backlight_off ++ lcd_drv_init_seq).

Definition lcd_drv_write_page (page col : Z) (buf : pointer (list Z)) (len : Z) : list event :=
  match buf with
  | None => []
  | Some buf =>
      if (LCD_PAGES <=? page) || (LCD_COLS <=? col) || (len =? 0) then []
      else lcd_drv_set_page_col page col ++ lcd_drv_write_data_buf buf len
  end.

(** ** The callbacks given to u8g2 *)

Inductive u8x8_msg :=
  | U8X8_MSG_BYTE_INIT | U8X8_MSG_BYTE_SET_DC | U8X8_MSG_BYTE_START_TRANSFER | U8X8_MSG_BYTE_END_TRANSFER
  | U8X8_MSG_BYTE_SEND | U8X8_MSG_GPIO_AND_DELAY_INIT | U8X8_MSG_DELAY_MILLI | U8X8_MSG_GPIO_RESET
  | U8X8_MSG_GPIO_DC | U8X8_MSG_GPIO_CS | U8X8_MSG_OTHER (msg : Z).

Definition u8x8_byte_st7567_bb (msg : u8x8_msg) (arg_int : Z) (arg_ptr : list Z) : Z * list event :=
  match msg with
  | U8X8_MSG_BYTE_INIT => (1, [])
  | U8X8_MSG_BYTE_SET_DC => (1, lcd_a0_set (negb (arg_int =? 0)))
  | U8X8_MSG_BYTE_START_TRANSFER => (1, lcd_csn_set true)
  | U8X8_MSG_BYTE_END_TRANSFER => (1, lcd_csn_set false)
  | U8X8_MSG_BYTE_SEND =>
      (1, flat_map (fun i => lcd_spi_send_byte (get arg_ptr (Z.of_nat i))) (seq 0 (Z.to_nat arg_int)))
  | _ => (0, [])
  end.

Definition u8x8_gpio_and_delay_st7567 (msg : u8x8_msg) (arg_int : Z) : Z * list event :=
  match msg with
  | U8X8_MSG_GPIO_AND_DELAY_INIT => (1, [])
  | U8X8_MSG_DELAY_MILLI => (1, [DelayMs arg_int])
  | U8X8_MSG_GPIO_RESET => (1, lcd_rst_set (negb (arg_int =? 0)))
  | U8X8_MSG_GPIO_DC => (1, lcd_a0_set (negb (arg_int =? 0)))
  | U8X8_MSG_GPIO_CS => (1, lcd_csn_set (negb (arg_int =? 0)))
  | _ => (0, [])
  end.

(** ** The picture on its way to the panel *)

(** [u8g2_port_flush_buffer] with the page writes of the driver. *)
Definition u8g2_port_flush_buffer (buf : list Z) (tile_width : Z) (fb : frame_buffer) : list event * frame_buffer :=
  let '(writes, fb) := u8g2_copy_to_lcd_fb buf tile_width fb in
  (flat_map (fun '(page, col, data) => lcd_drv_write_page page col (Some data) LCD_COLS) writes, fb).

(** Pictures shown one after the other. *)
Fixpoint flush_all (bufs : list (list Z)) (tile_width : Z) (fb : frame_buffer) : list event :=
  match bufs with
  | [] => []
  | buf :: bufs => let '(evs, fb) := u8g2_port_flush_buffer buf tile_width fb in evs ++ flush_all bufs tile_width fb
  end.

(** ** The controller

    [ST7567] is the controller behind its serial interface: what it does on
    reset, on a command byte and on a data byte, and what can be observed of
    it.  Some commands are followed by an argument byte, which [awaits] tells.
    The laws are those of its data sheet for the commands the driver sends. *)

Record panel_mode := mk_panel_mode { m_on : bool; m_inverse : bool; m_all_on : bool; m_power : bool }.

(** The effect of a command on the mode. *)
Definition mode_cmd (c : Z) (m : panel_mode) : panel_mode :=
  if c =? ST7567_CMD_DISPLAY_ON then mk_panel_mode true (m_inverse m) (m_all_on m) (m_power m)
  else if c =? ST7567_CMD_INVERSE_OFF then mk_panel_mode (m_on m) false (m_all_on m) (m_power m)
  else if c =? ST7567_CMD_ALL_PIXEL_OFF then mk_panel_mode (m_on m) (m_inverse m) false (m_power m)
  else if c =? ST7567_CMD_POWER_ALL_ON then mk_panel_mode (m_on m) (m_inverse m) (m_all_on m) true
  else m.

(** Commands of one byte and commands with an argument byte. *)
Definition simple_cmds : list Z := [0xA2; 0xA0; 0xC0; 0x40; 0x27; 0x2F; 0xA6; 0xA4; 0xAF].
Definition argument_cmds : list Z := [0x81; 0xF8].

Class ST7567 (P : Type) := {
  panel_reset : P -> P;
  panel_cmd : Z -> P -> P;
  panel_data : Z -> P -> P;
  ddram : P -> Z -> Z -> Z;
  page_addr : P -> Z;
  col_addr : P -> Z;
  mode : P -> panel_mode;
  awaits : P -> bool;
}.

(** The commands that change neither memory nor addresses leave this alone. *)
Definition same_memory {P} `{ST7567 P} (p p' : P) : Prop := forall q x, ddram p' q x = ddram p q x.

Class ST7567Laws (P : Type) `{ST7567 P} := {
  reset_ready p : awaits (panel_reset p) = false;
  cmd_page p n : awaits p = false -> 0 <= n < 16 -> let p' := panel_cmd (0xB0 + n) p in
    awaits p' = false /\ page_addr p' = n /\ col_addr p' = col_addr p /\ same_memory p p' /\ mode p' = mode p;
  cmd_col_hi p n : awaits p = false -> 0 <= n < 16 -> let p' := panel_cmd (0x10 + n) p in
    awaits p' = false /\ page_addr p' = page_addr p /\ col_addr p' = 16 * n + col_addr p mod 16 /\ same_memory p p' /\ mode p' = mode p;
  cmd_col_lo p n : awaits p = false -> 0 <= n < 16 -> let p' := panel_cmd n p in
    awaits p' = false /\ page_addr p' = page_addr p /\ col_addr p' = col_addr p / 16 * 16 + n /\ same_memory p p' /\ mode p' = mode p;
  cmd_simple p c : awaits p = false -> c ∈ simple_cmds -> let p' := panel_cmd c p in
    awaits p' = false /\ same_memory p p' /\ mode p' = mode_cmd c (mode p);
  cmd_argument p c a : awaits p = false -> c ∈ argument_cmds -> is_u8 a -> let p' := panel_cmd a (panel_cmd c p) in
    awaits p' = false /\ same_memory p p' /\ mode p' = mode p;
  data_written p v : awaits p = false -> is_u8 v -> 0 <= page_addr p < 8 -> 0 <= col_addr p < 132 -> let p' := panel_data v p in
    awaits p' = false /\ page_addr p' = page_addr p /\ (col_addr p < 131 -> col_addr p' = col_addr p + 1) /\ mode p' = mode p /\
    forall q x, ddram p' q x = if (q =? page_addr p) && (x =? col_addr p) then v else ddram p q x;
}.

(** ** Its serial receiver

    Selected by CSN low, it takes one bit of SDA at one edge of the clock,
    highest bit first, and with the eighth bit the line A0 tells command from
    data.  Which edge it is depends on the controller. *)

Inductive clock_edge := Rising | Falling.

Record receiver (P : Type) := mk_receiver {
  r_selected : bool;
  r_a0 : bool;
  r_sck : bool;
  r_sda : bool;
  r_bits : list bool;
  r_panel : P;
}.
Arguments mk_receiver {P}.
Arguments r_selected {P}.
Arguments r_a0 {P}.
Arguments r_sck {P}.
Arguments r_sda {P}.
Arguments r_bits {P}.
Arguments r_panel {P}.

Definition bits_value (bits : list bool) : Z := foldl (fun v b => 2 * v + b2u b) 0 bits.

Definition is_edge (e : clock_edge) (before after : bool) : bool :=
  match e with Rising => negb before && after | Falling => before && negb after end.

Section Receiver.
Context {P : Type} `{ST7567 P} (edge : clock_edge).

Definition rx_bit (r : receiver P) : receiver P :=
  let bits := r_bits r ++ [r_sda r] in
  if Nat.eqb (length bits) 8
  then mk_receiver (r_selected r) (r_a0 r) (r_sck r) (r_sda r) []
         ((if r_a0 r then panel_data else panel_cmd) (bits_value bits) (r_panel r))
  else mk_receiver (r_selected r) (r_a0 r) (r_sck r) (r_sda r) bits (r_panel r).

Definition rx_pin (pin : Z) (level : bool) (r : receiver P) : receiver P :=
  if pin =? LCD_CSN_PIN then
    mk_receiver (negb level) (r_a0 r) (r_sck r) (r_sda r) (if level then [] else r_bits r) (r_panel r)
  else if pin =? LCD_A0_PIN then mk_receiver (r_selected r) level (r_sck r) (r_sda r) (r_bits r) (r_panel r)
  else if pin =? LCD_SDA_PIN then mk_receiver (r_selected r) (r_a0 r) (r_sck r) level (r_bits r) (r_panel r)
  else if pin =? LCD_SCK_PIN then
    let r' := mk_receiver (r_selected r) (r_a0 r) level (r_sda r) (r_bits r) (r_panel r) in
    if r_selected r && is_edge edge (r_sck r) level then rx_bit r' else r'
  else if (pin =? LCD_RSTB_PIN) && negb level then
    mk_receiver (r_selected r) (r_a0 r) (r_sck r) (r_sda r) [] (panel_reset (r_panel r))
  else r.

Definition rx_step (r : receiver P) (e : event) : receiver P :=
  match e with
  | WritePin port pin high => if port =? GPIOA then rx_pin pin (negb (high =? 0)) r else r
  | _ => r
  end.

Definition rx_run (evs : list event) (r : receiver P) : receiver P := foldl rx_step r evs.

(** Between transfers. *)
Definition idle (r : receiver P) : Prop := r_selected r = false /\ r_sck r = true /\ r_bits r = [].

(** [evs] keeps the interface idle and has the effect [f] on the controller. *)
Definition sends (evs : list event) (f : P -> P) : Prop :=
  forall r, idle r -> idle (rx_run evs r) /\ r_panel (rx_run evs r) = f (r_panel r).

Lemma rx_run_app a b r : rx_run (a ++ b) r = rx_run b (rx_run a r).
Proof. apply foldl_app. Qed.

Lemma sends_app a b f g : sends a f -> sends b g -> sends (a ++ b) (fun p => g (f p)).
Proof.
  intros Ha Hb r Hr. rewrite rx_run_app. destruct (Ha r Hr) as [Hi Hp]. destruct (Hb _ Hi) as [Hi' Hp'].
  split; [done |]. by rewrite Hp', Hp.
Qed.

Lemma sends_nil : sends [] (fun p => p).
Proof. by intros r Hr. Qed.

Lemma sends_delay ms : sends [DelayMs ms] (fun p => p).
Proof. by intros r Hr. Qed.

(** A byte as the bits the loop sends. *)
Definition byte_bits (b : Z) : list bool := map (Z.testbit b) [7; 6; 5; 4; 3; 2; 1; 0].
Definition bit_events (b : bool) : list event :=
  lcd_drv_sck_set true ++ lcd_drv_sda_set b ++ lcd_drv_spi_delay_us ++ lcd_drv_sck_set false ++ lcd_drv_spi_delay_us.

Lemma write_byte_bits b : is_u8 b ->
  lcd_drv_spi_write_byte b = flat_map bit_events (byte_bits b) ++ lcd_drv_sck_set true /\ bits_value (byte_bits b) = b.
Proof.
  set (sent b := flat_map bit_events (byte_bits b) ++ lcd_drv_sck_set true).
  assert (all_words 8 (fun b => bool_decide (lcd_drv_spi_write_byte b = sent b) && (bits_value (byte_bits b) =? b)) 0 = true) as Hc
    by (vm_compute; reflexivity).
  intros Hb. apply (all_words_0 8 _ b Hc) in Hb. cbv beta in Hb. bool_hyps. split; [| done]. by eapply bool_decide_eq_true.
Qed.

End Receiver.

(** The first [n] elements of an array, taken by index. *)
Lemma flat_map_get {A} (f : Z -> list A) n l : (n <= length l)%nat ->
  flat_map (fun i => f (get l (Z.of_nat i))) (seq 0 n) = flat_map f (take n l).
Proof.
  intros Hn. induction n as [|n IH]; [done |]. destruct (lookup_lt_is_Some_2 l n) as [v Hv]; [lia |].
  rewrite seq_S, (take_S_r _ _ _ Hv), !flat_map_app, IH by lia. cbn [flat_map Nat.add]. do 2 f_equal.
  unfold get. rewrite Nat2Z.id. by rewrite (nth_lookup_Some _ _ _ _ Hv).
Qed.

(** Eight bits make one byte, whichever edge is taken. *)
Lemma rx_eight_bits {P} `{ST7567 P} edge b7 b6 b5 b4 b3 b2 b1 b0 a0 sda (p : P) :
  rx_run edge (flat_map bit_events [b7; b6; b5; b4; b3; b2; b1; b0] ++ lcd_drv_sck_set true) (mk_receiver true a0 true sda [] p) =
  mk_receiver true a0 true b0 [] ((if a0 then panel_data else panel_cmd) (bits_value [b7; b6; b5; b4; b3; b2; b1; b0]) p).
Proof. destruct b7, b6, b5, b4, b3, b2, b1, b0, edge; reflexivity. Qed.

Section Transfers.
Context {P : Type} `{ST7567 P} (edge : clock_edge).

Lemma rx_csn active sel a0 sck sda bits (p : P) :
  rx_run edge (lcd_csn_set active) (mk_receiver sel a0 sck sda bits p) =
  mk_receiver active a0 sck sda (if active then bits else []) p.
Proof. by destruct active. Qed.

Lemma rx_a0 is_data sel a0 sck sda bits (p : P) :
  rx_run edge (lcd_a0_set is_data) (mk_receiver sel a0 sck sda bits p) = mk_receiver sel is_data sck sda bits p.
Proof. by destruct is_data. Qed.

Lemma rx_byte b a0 sda (p : P) : is_u8 b ->
  rx_run edge (lcd_drv_spi_write_byte b) (mk_receiver true a0 true sda [] p) =
  mk_receiver true a0 true (Z.testbit b 0) [] ((if a0 then panel_data else panel_cmd) b p).
Proof. intros Hb. destruct (write_byte_bits b Hb) as [-> Hv]. unfold byte_bits in *. cbn [map] in *. by rewrite rx_eight_bits, Hv. Qed.

Lemma rx_bytes bs sda (p : P) : Forall is_u8 bs ->
  exists sda', rx_run edge (flat_map lcd_drv_spi_write_byte bs) (mk_receiver true true true sda [] p) =
  mk_receiver true true true sda' [] (foldl (fun p v => panel_data v p) p bs).
Proof.
  intros Hbs. revert sda p. induction Hbs as [|b bs Hb _ IH]; intros sda p; [by exists sda |].
  cbn [flat_map foldl]. rewrite rx_run_app, rx_byte by done. apply IH.
Qed.

Lemma sends_cmd c : is_u8 c -> sends edge (lcd_drv_write_cmd c) (panel_cmd c).
Proof.
  intros Hc [sel a0 sck sda bits p] (Hsel & Hsck & Hbits). cbn [r_selected r_sck r_bits] in Hsel, Hsck, Hbits. subst. unfold lcd_drv_write_cmd.
  rewrite !rx_run_app, rx_csn, rx_a0, rx_byte, rx_csn by done. done.
Qed.

Lemma sends_data buf len : Forall is_u8 buf -> 0 <= len <= Z.of_nat (length buf) ->
  sends edge (lcd_drv_write_data_buf buf len) (fun p => foldl (fun p v => panel_data v p) p (take (Z.to_nat len) buf)).
Proof.
  intros Hb Hlen [sel a0 sck sda bits p] (Hsel & Hsck & Hbits). cbn [r_selected r_sck r_bits] in Hsel, Hsck, Hbits. subst. unfold lcd_drv_write_data_buf.
  rewrite !rx_run_app, rx_csn, rx_a0, flat_map_get by lia.
  destruct (rx_bytes (take (Z.to_nat len) buf) sda p ltac:(by apply Forall_take)) as [sda' ->]. by rewrite rx_csn.
Qed.
End Transfers.

(** ** What the controller makes of it *)

Section Panel.
Context {P : Type} `{ST7567Laws P} (edge : clock_edge).

(** The trace changes the mode by [g] and the byte at page [q], column [x] of
    the memory by [upd q x], and leaves the controller ready. *)
Definition does (evs : list event) (g : panel_mode -> panel_mode) (upd : Z -> Z -> Z -> Z) : Prop :=
  exists f : P -> P, sends edge evs f /\ forall p, awaits p = false ->
  awaits (f p) = false /\ mode (f p) = g (mode p) /\ forall q x, ddram (f p) q x = upd q x (ddram p q x).

Definition keep (q x v : Z) : Z := v.

Lemma does_app a b g1 g2 u1 u2 :
  does a g1 u1 -> does b g2 u2 -> does (a ++ b) (fun m => g2 (g1 m)) (fun q x v => u2 q x (u1 q x v)).
Proof.
  intros (f1 & Hs1 & H1) (f2 & Hs2 & H2). exists (fun p => f2 (f1 p)). split; [by apply sends_app |].
  intros p Hp. destruct (H1 p Hp) as (Hr1 & Hm1 & Hd1). destruct (H2 _ Hr1) as (Hr2 & Hm2 & Hd2).
  split_and!; [done | by rewrite Hm2, Hm1 |]. intros q x. by rewrite Hd2, Hd1.
Qed.

Lemma does_nothing evs : sends edge evs (fun p => p) -> does evs (fun m => m) keep.
Proof. intros Hs. by exists (fun p => p). Qed.

Lemma does_simple c : c ∈ simple_cmds -> does (lcd_drv_write_cmd c) (mode_cmd c) keep.
Proof.
  intros Hc. exists (panel_cmd c). split.
  - apply sends_cmd. revert c Hc. apply Forall_forall. apply (bool_decide_unpack _). by vm_compute.
  - intros p Hp. destruct (cmd_simple p c Hp Hc) as (? & ? & ?). done.
Qed.

Lemma does_argument c a : c ∈ argument_cmds -> is_u8 a ->
  does (lcd_drv_write_cmd c ++ lcd_drv_write_cmd a) (fun m => m) keep.
Proof.
  intros Hc Ha. exists (fun p => panel_cmd a (panel_cmd c p)). split.
  - apply sends_app; apply sends_cmd; [| done]. revert c Hc. apply Forall_forall. apply (bool_decide_unpack _). by vm_compute.
  - intros p Hp. destruct (cmd_argument p c a Hp Hc Ha) as (? & ? & ?). done.
Qed.

(** The three address commands. *)
Lemma page_col_bytes page col : 0 <= page < 8 -> 0 <= col < 132 ->
  lcd_drv_set_page_col page col =
  lcd_drv_write_cmd (0xB0 + page) ++ lcd_drv_write_cmd (0x10 + col / 16) ++ lcd_drv_write_cmd (col mod 16).
Proof.
  intros Hp Hc. unfold lcd_drv_set_page_col, LCD_HW_COL_OFFSET, LCD_COLS. rewrite Z.add_0_r, (u8_id col) by wraps.
  rewrite (proj2 (Z.leb_gt 132 col)) by lia. cbv zeta.
  pose proof (all_words_0 3 (fun p => u8 (Z.lor ST7567_CMD_SET_PAGE (Z.land p 0x0F)) =? 0xB0 + p) page
    ltac:(vm_compute; reflexivity) Hp) as E1. cbv beta in E1.
  pose proof (all_words_0 8 (fun c => (u8 (Z.lor ST7567_CMD_SET_COL_HI (Z.land (Z.shiftr c 4) 0x0F)) =? 0x10 + c / 16) &&
    (u8 (Z.lor ST7567_CMD_SET_COL_LO (Z.land c 0x0F)) =? c mod 16)) col
    ltac:(vm_compute; reflexivity) ltac:(simpl; lia)) as E2. cbv beta in E2.
  bool_hyps. by repeat f_equal.
Qed.

Lemma sends_page_col page col : 0 <= page < 8 -> 0 <= col < 132 ->
  exists f : P -> P, sends edge (lcd_drv_set_page_col page col) f /\ forall p, awaits p = false ->
  awaits (f p) = false /\ page_addr (f p) = page /\ col_addr (f p) = col /\ same_memory p (f p) /\ mode (f p) = mode p.
Proof.
  intros Hp Hc. rewrite page_col_bytes by done.
  exists (fun p => panel_cmd (col mod 16) (panel_cmd (0x10 + col / 16) (panel_cmd (0xB0 + page) p))). split.
  { apply (sends_app edge _ _ (panel_cmd (0xB0 + page)) (fun p => panel_cmd (col mod 16) (panel_cmd (0x10 + col / 16) p)));
      [| apply (sends_app edge _ _ (panel_cmd _) (panel_cmd _))]; apply sends_cmd; wraps. }
  intros p Hr. destruct (cmd_page p page Hr ltac:(lia)) as (Hr1 & Hp1 & _ & Hm1 & Ho1).
  destruct (cmd_col_hi _ (col / 16) Hr1 ltac:(lia)) as (Hr2 & Hp2 & Hc2 & Hm2 & Ho2).
  destruct (cmd_col_lo _ (col mod 16) Hr2 ltac:(lia)) as (Hr3 & Hp3 & Hc3 & Hm3 & Ho3).
  split_and!; [done | congruence | rewrite Hc3, Hc2; lia | | congruence].
  intros q x. by rewrite Hm3, Hm2, Hm1.
Qed.

(** Data bytes fill the page from the column on. *)
Lemma data_run l p :
  awaits p = false -> 0 <= page_addr p < 8 -> Forall is_u8 l -> 0 <= col_addr p -> col_addr p + Z.of_nat (length l) <= 132 ->
  let p' := foldl (fun p v => panel_data v p) p l in
  awaits p' = false /\ mode p' = mode p /\ forall q x, ddram p' q x =
  if (q =? page_addr p) && (col_addr p <=? x) && (x <? col_addr p + Z.of_nat (length l)) then get l (x - col_addr p)
  else ddram p q x.
Proof.
  intros Hr Hp Hl. revert p Hr Hp. induction Hl as [|v l Hv _ IH]; intros p Hr Hp Hc Hlen; cbn [foldl length] in *.
  - split_and!; [done.. |]. intros q x. destruct (_ =? _); [| done]. cbn [andb].
    destruct (Z.leb_spec (col_addr p) x), (Z.ltb_spec x (col_addr p + Z.of_nat 0)); done || lia.
  - destruct (data_written p v Hr Hv Hp ltac:(lia)) as (Hr' & Hp' & Hc' & Hm' & Hd').
    destruct l as [|v' l'].
    + cbn [foldl length]. split_and!; [done.. |]. intros q x. rewrite Hd'. destruct (_ =? _); [| done]. cbn [andb].
      destruct (Z.eqb_spec x (col_addr p)) as [E|], (Z.leb_spec (col_addr p) x), (Z.ltb_spec x (col_addr p + Z.of_nat 1));
        try lia; [by rewrite E, Z.sub_diag | done..].
    + rewrite <- Hp' in Hp. cbn [length] in Hlen. specialize (Hc' ltac:(lia)).
      destruct (IH _ Hr' Hp ltac:(lia) ltac:(cbn [length]; lia)) as (Hr2 & Hm2 & Hd2).
      split_and!; [done | congruence |]. intros q x. rewrite Hd2, Hd', Hp', Hc'. cbn [length].
      destruct (_ =? _); [| done]. cbn [andb].
      destruct (Z.eqb_spec x (col_addr p)) as [->|].
      * rewrite (proj2 (Z.leb_gt (col_addr p + 1) _)), Z.leb_refl by lia. cbn [andb].
        rewrite (proj2 (Z.ltb_lt (col_addr p) _)) by lia. by rewrite Z.sub_diag.
      * destruct (Z.leb_spec (col_addr p + 1) x), (Z.leb_spec (col_addr p) x); try lia; cbn [andb]; try done.
        destruct (Z.ltb_spec x (col_addr p + 1 + Z.of_nat (S (length l')))), (Z.ltb_spec x (col_addr p + Z.of_nat (S (S (length l')))));
          try lia; try done. unfold get. replace (Z.to_nat (x - col_addr p)) with (S (Z.to_nat (x - (col_addr p + 1)))) by lia. done.
Qed.

(** One page of the panel, from its first column. *)
Definition in_page (page q x : Z) : bool := (q =? page) && (0 <=? x) && (x <? 132).

Lemma does_page page buf : 0 <= page < 8 -> length buf = 132%nat -> Forall is_u8 buf ->
  does (lcd_drv_set_page_col page 0 ++ lcd_drv_write_data_buf buf LCD_COLS) (fun m => m)
    (fun q x v => if in_page page q x then get buf x else v).
Proof.
  intros Hp Hl Hb. destruct (sends_page_col page 0 Hp ltac:(lia)) as (f & Hs & Hf).
  exists (fun p => foldl (fun p v => panel_data v p) (f p) buf). split.
  { apply (sends_app edge _ _ f (fun p => foldl (fun p v => panel_data v p) p buf)); [done |].
    intros r Hr. destruct (sends_data edge buf LCD_COLS Hb ltac:(unfold LCD_COLS; lia) r Hr) as [Hi E]. split; [done |].
    rewrite E, take_ge; [done |]. unfold LCD_COLS. lia. }
  intros p Hr. destruct (Hf p Hr) as (Hr1 & Hp1 & Hc1 & Hm1 & Ho1).
  destruct (data_run buf (f p) Hr1 ltac:(lia) Hb ltac:(lia) ltac:(lia)) as (Hr2 & Hm2 & Hd2).
  split_and!; [done | congruence |]. intros q x. rewrite Hd2, Hp1, Hc1, Hl, Z.sub_0_r, Hm1. done.
Qed.

(** Page after page. *)
Lemma does_pages (rows : Z -> list Z) k : (k <= 8)%nat ->
  (forall q, 0 <= q < 8 -> length (rows q) = 132%nat /\ Forall is_u8 (rows q)) ->
  exists upd, does (flat_map (fun page => lcd_drv_set_page_col (Z.of_nat page) 0 ++
    lcd_drv_write_data_buf (rows (Z.of_nat page)) LCD_COLS) (seq 0 k)) (fun m => m) upd /\
  forall q x v, 0 <= q < Z.of_nat k -> 0 <= x < 132 -> upd q x v = get (rows q) x.
Proof.
  intros Hk Hrows. induction k as [|k IH]; [exists keep; split; [apply does_nothing, sends_nil | intros; lia] |].
  destruct IH as (upd & Hd & Hu); [lia |]. destruct (Hrows (Z.of_nat k) ltac:(lia)) as [Hl Hb].
  rewrite seq_S, flat_map_app. cbn [flat_map Nat.add]. rewrite app_nil_r.
  eexists. split; [apply (does_app _ _ _ _ _ _ Hd (does_page (Z.of_nat k) (rows (Z.of_nat k)) ltac:(lia) Hl Hb)) |].
  intros q x v Hq Hx. cbv beta. unfold in_page. rewrite (proj2 (Z.leb_le 0 x)), (proj2 (Z.ltb_lt x 132)), !andb_true_r by lia.
  destruct (Z.eqb_spec q (Z.of_nat k)) as [->|]; [done |]. apply Hu; lia.
Qed.

(** The whole of the panel's memory. *)
Definition shows (rows : Z -> list Z) (p : P) : Prop :=
  forall q x, 0 <= q < 8 -> 0 <= x < 132 -> ddram p q x = get (rows q) x.

Lemma does_all_pages rows evs :
  (forall q, 0 <= q < 8 -> length (rows q) = 132%nat /\ Forall is_u8 (rows q)) ->
  evs = flat_map (fun page => lcd_drv_set_page_col (Z.of_nat page) 0 ++
          lcd_drv_write_data_buf (rows (Z.of_nat page)) LCD_COLS) (seq 0 (Z.to_nat LCD_PAGES)) ->
  exists f : P -> P, sends edge evs f /\ forall p, awaits p = false ->
  awaits (f p) = false /\ mode (f p) = mode p /\ shows rows (f p).
Proof.
  intros Hrows ->. destruct (does_pages rows 8 ltac:(lia) Hrows) as (upd & (f & Hs & Hf) & Hu). exists f. split; [exact Hs |].
  intros p Hp. destruct (Hf p Hp) as (? & ? & Hd). split_and!; [done.. |]. intros q x Hq Hx. rewrite Hd. by apply Hu.
Qed.

Lemma does_picture buf tile_width fb :
  Forall is_u8 buf -> 0 <= tile_width < 8192 ->
  let fb' := snd (u8g2_port_flush_buffer buf tile_width fb) in
  (forall x y, 0 <= x < 132 -> 0 <= y < 64 -> fb_pixel fb' x (Z.lxor y 24) = buf_pixel buf (8 * tile_width) x y) /\
  exists f : P -> P, sends edge (fst (u8g2_port_flush_buffer buf tile_width fb)) f /\ forall p, awaits p = false ->
  awaits (f p) = false /\ mode (f p) = mode p /\ shows (row fb') (f p).
Proof.
  intros Hb Ht. pose proof (copied_picture buf tile_width fb Hb Ht) as Hc. unfold u8g2_port_flush_buffer.
  destruct (u8g2_copy_to_lcd_fb buf tile_width fb) as [writes fb']. destruct Hc as (-> & Hok & Hpix).
  cbn [fst snd]. split; [exact Hpix |]. apply does_all_pages; [intros q Hq; by apply row_ok |].
  unfold lcd_fb_flush. rewrite !flat_map_concat_map, map_map. done.
Qed.

(** ** Start-up *)

(** The commands between reset and clearing. *)
Definition setup_cmds : list event :=
  lcd_drv_write_cmd 0xA2 ++ lcd_drv_write_cmd 0xA0 ++ lcd_drv_write_cmd 0xC0 ++ lcd_drv_write_cmd 0x40 ++
  lcd_drv_write_cmd 0x27 ++ (lcd_drv_write_cmd 0x81 ++ lcd_drv_write_cmd 0x28) ++
  (lcd_drv_write_cmd 0xF8 ++ lcd_drv_write_cmd 0x01) ++ lcd_drv_write_cmd 0x2F ++ [DelayMs 120] ++
  lcd_drv_write_cmd 0xA6 ++ lcd_drv_write_cmd 0xA4.

Lemma init_seq_parts : lcd_drv_init_seq = [DelayMs 10] ++ lcd_reset ++ setup_cmds ++ lcd_clear ++ lcd_drv_write_cmd 0xAF.
Proof. unfold lcd_drv_init_seq, setup_cmds. by rewrite <- !app_assoc. Qed.

Lemma does_setup : exists g upd, does setup_cmds g upd /\ forall m, g m = mk_panel_mode (m_on m) false false true.
Proof.
  do 2 eexists. split.
  - unfold setup_cmds.
    repeat lazymatch goal with
      | |- does (lcd_drv_write_cmd 0x81 ++ _) _ _ => apply does_argument; [apply (bool_decide_unpack _); by vm_compute | by vm_compute]
      | |- does (lcd_drv_write_cmd 0xF8 ++ _) _ _ => apply does_argument; [apply (bool_decide_unpack _); by vm_compute | by vm_compute]
      | |- does (_ ++ _) _ _ => eapply does_app
      | |- does (lcd_drv_write_cmd _) _ _ => apply does_simple; apply (bool_decide_unpack _); by vm_compute
      | |- does [DelayMs _] _ _ => apply does_nothing, sends_delay
      end.
  - intros m. reflexivity.
Qed.

Definition init_pins : list event :=
  lcd_drv_ctrl_pins_init ++ lcd_drv_spi_hw_init ++ lcd_csn_set false ++ lcd_a0_set true ++ lcd_backlight_off.

Lemma init_pins_idle r : idle (P := P) (rx_run edge init_pins r).
Proof.
  unfold init_pins.
  destruct r as [sel a0 sck sda bits p]. rewrite !rx_run_app. destruct sel, sck, edge; try done.
  cbn. unfold rx_bit. case_match; done.
Qed.

Lemma sends_reset : sends edge lcd_reset (panel_reset (P := P)).
Proof. intros [sel a0 sck sda bits p] (Hsel & Hsck & Hbits). cbn in Hsel, Hsck, Hbits. by subst. Qed.

Definition lit : panel_mode := mk_panel_mode true false false true.

Lemma init_spec r : let r' := rx_run edge (snd lcd_drv_init) r in
  idle r' /\ awaits (r_panel r') = false /\ mode (r_panel r') = lit /\ shows (fun _ => zeros 132) (r_panel r').
Proof.
  destruct does_setup as (g & upd & (f1 & Hs1 & H1) & Hg).
  destruct (does_all_pages (fun _ => zeros 132) lcd_clear) as (f2 & Hs2 & H2);
    [intros; split; [done | by apply Forall_replicate] | done |].
  destruct (does_simple 0xAF) as (f3 & Hs3 & H3); [apply (bool_decide_unpack _); by vm_compute |].
  assert (sends edge lcd_drv_init_seq (fun p => f3 (f2 (f1 (panel_reset p))))) as Hs.
  { rewrite init_seq_parts. apply (sends_app edge _ _ (fun p => p) (fun p => f3 (f2 (f1 (panel_reset p)))) (sends_delay edge 10)).
    apply (sends_app edge _ _ _ (fun p => f3 (f2 (f1 p))) sends_reset).
    apply (sends_app edge _ _ _ (fun p => f3 (f2 p)) Hs1). exact (sends_app edge _ _ _ _ Hs2 Hs3). }
  assert (snd lcd_drv_init = init_pins ++ lcd_drv_init_seq) as -> by (unfold init_pins; by rewrite <- !app_assoc).
  cbv zeta. rewrite rx_run_app. destruct (Hs _ (init_pins_idle r)) as [Hi ->]. split; [exact Hi |].
  destruct (H1 _ (reset_ready (r_panel (rx_run edge init_pins r)))) as (Hr1 & Hm1 & _).
  destruct (H2 _ Hr1) as (Hr2 & Hm2 & Hd2). destruct (H3 _ Hr2) as (Hr3 & Hm3 & Hd3).
  split_and!; [done | by rewrite Hm3, Hm2, Hm1, Hg |]. intros q x Hq Hx. rewrite Hd3. by apply Hd2.
Qed.

(** ** Pictures *)

(** The pixel of the panel at column [x] and row [y]. *)
Definition panel_pixel (p : P) (x y : Z) : bool := Z.testbit (ddram p (y / 8) x) (7 - y mod 8).

(** The pixels of a u8g2 buffer, and none before the first one. *)
Definition picture_pixel (tile_width : Z) (buf : option (list Z)) (x y : Z) : bool :=
  match buf with Some buf => buf_pixel buf (8 * tile_width) x y | None => false end.

Definition displays (pixel : Z -> Z -> bool) (r : receiver P) : Prop :=
  idle r /\ awaits (r_panel r) = false /\ mode (r_panel r) = lit /\
  forall x y, 0 <= x < 132 -> 0 <= y < 64 -> panel_pixel (r_panel r) x (Z.lxor y 24) = pixel x y.

(** A buffer of [tile_width] tiles by eight pages. *)
Definition picture_ok (tile_width : Z) (buf : list Z) : Prop :=
  Z.of_nat (length buf) = 64 * tile_width /\ Forall is_u8 buf.

Lemma init_displays r : displays (fun _ _ => false) (rx_run edge (snd lcd_drv_init) r).
Proof.
  destruct (init_spec r) as (Hi & Hr & Hm & Hd). split_and!; [done.. |]. intros x y Hx Hy.
  destruct (lxor24 y Hy) as (_ & _ & ?). unfold panel_pixel. rewrite Hd, get_zeros by lia. apply Z.bits_0.
Qed.

Lemma flush_displays pixel buf tile_width fb r :
  picture_ok tile_width buf -> 17 <= tile_width < 8192 -> displays pixel r ->
  displays (picture_pixel tile_width (Some buf)) (rx_run edge (fst (u8g2_port_flush_buffer buf tile_width fb)) r).
Proof.
  intros [_ Hb] Ht (Hi & Hr & Hm & _). destruct (does_picture buf tile_width fb Hb ltac:(lia)) as [Hpix (f & Hs & Hf)].
  destruct (Hs r Hi) as [Hi' E]. unfold displays. rewrite E. destruct (Hf _ Hr) as (Hr' & Hm' & Hd').
  split_and!; [done.. | congruence |]. intros x y Hx Hy. destruct (lxor24 y Hy) as (_ & _ & ?).
  unfold panel_pixel, picture_pixel. rewrite Hd' by lia. by apply Hpix.
Qed.

Lemma flush_all_displays bufs tile_width fb r prev :
  Forall (picture_ok tile_width) bufs -> 17 <= tile_width < 8192 -> displays (picture_pixel tile_width prev) r ->
  displays (picture_pixel tile_width (from_option Some prev (last bufs))) (rx_run edge (flush_all bufs tile_width fb) r).
Proof.
  intros Hb Ht. revert fb r prev. induction Hb as [|buf bufs Hbuf _ IH]; intros fb r prev Hd; [done |].
  cbn [flush_all]. pose proof (flush_displays _ buf tile_width fb r Hbuf Ht Hd) as Hd'.
  destruct (u8g2_port_flush_buffer buf tile_width fb) as [evs fb']. cbn [fst] in Hd'. rewrite rx_run_app.
  specialize (IH fb' _ _ Hd'). destruct bufs as [|b bufs]; [done |]. change (last (buf :: b :: bufs)) with (last (b :: bufs)).
  destruct (last (b :: bufs)) eqn:E; [done |]. by apply last_None in E.
Qed.
End Panel.

(** ** A controller *)

Module Simulator.
Record panel := mk_panel {
  s_mem : Z -> Z -> Z;
  s_page : Z;
  s_col : Z;
  s_mode : panel_mode;
  s_awaits : bool;
}.

Definition sim_cmd (c : Z) (p : panel) : panel :=
  let '(mk_panel mem page col m aw) := p in
  if aw then mk_panel mem page col m false
  else if (0xB0 <=? c) && (c <? 0xC0) then mk_panel mem (c - 0xB0) col m false
  else if (0x10 <=? c) && (c <? 0x20) then mk_panel mem page (16 * (c - 0x10) + col mod 16) m false
  else if (0 <=? c) && (c <? 0x10) then mk_panel mem page (col / 16 * 16 + c) m false
  else mk_panel mem page col (mode_cmd c m) ((c =? 0x81) || (c =? 0xF8)).

Definition sim_data (v : Z) (p : panel) : panel :=
  let '(mk_panel mem page col m aw) := p in
  mk_panel (fun q x => if (q =? page) && (x =? col) then v else mem q x) page (Z.min 131 (col + 1)) m aw.

Definition sim_reset (p : panel) : panel := mk_panel (s_mem p) 0 0 (mk_panel_mode false false false false) false.

(** A controller whose memory holds anything at power-on. *)
Definition power_on (mem : Z -> Z -> Z) : panel := mk_panel mem 0 0 (mk_panel_mode false true true false) true.
End Simulator.
Import Simulator.

#[export] Instance sim_panel : ST7567 panel := {|
  panel_reset := sim_reset; panel_cmd := sim_cmd; panel_data := sim_data; ddram := s_mem; page_addr := s_page;
  col_addr := s_col; mode := s_mode; awaits := s_awaits |}.

#[export] Instance sim_laws : ST7567Laws panel.
Proof.
  split.
  - done.
  - intros [mem page col m aw] n E Hn. cbn in E. subst aw. cbn -[Z.add]. rewrite (proj2 (Z.leb_le _ _)), (proj2 (Z.ltb_lt _ _)) by lia.
    split_and!; try done. cbn. lia.
  - intros [mem page col m aw] n E Hn. cbn in E. subst aw. cbn -[Z.add]. rewrite (proj2 (Z.leb_gt 0xB0 _)) by lia. cbn [andb].
    rewrite (proj2 (Z.leb_le _ _)), (proj2 (Z.ltb_lt _ _)) by lia. split_and!; try done. cbn. lia.
  - intros [mem page col m aw] n E Hn. cbn in E. subst aw. cbn -[Z.add].
    rewrite (proj2 (Z.leb_gt 0xB0 _)), (proj2 (Z.leb_gt 0x10 _)) by lia. cbn [andb].
    rewrite (proj2 (Z.leb_le _ _)), (proj2 (Z.ltb_lt _ _)) by lia. done.
  - intros [mem page col m aw] c E Hc. cbn in E. subst aw. revert c Hc. apply Forall_forall.
    repeat (apply Forall_cons_2; [by repeat split |]). apply Forall_nil_2.
  - intros [mem page col m aw] c a E Hc _. cbn in E. subst aw. revert c Hc. apply Forall_forall.
    repeat (apply Forall_cons_2; [by repeat split |]). apply Forall_nil_2.
  - intros [mem page col m aw] v E Hv Hp Hc. cbn in *. split_and!; try done. lia.
Qed.

(** ** Properties *)

(** C36: what is drawn is what the panel shows.  From any state of the lines
    and of the controller, the start-up of the driver and then any number of
    pictures leave the controller switched on, powered, neither inverted nor
    in its test mode, with the last picture in its display memory (all clear
    when there was none): the pixel of the u8g2 buffer at column [x] and row
    [y] is the pixel at row [y xor 24], the upper and lower half of each half
    screen being exchanged.  It holds for a controller that takes the data
    line at the falling edge of the clock and for one that takes it at the
    rising edge. *)
Theorem panel_shows_last_picture {P} `{ST7567Laws P} edge (r : receiver P) bufs tile_width fb :
  Forall (picture_ok tile_width) bufs -> 17 <= tile_width < 8192 ->
  displays (picture_pixel tile_width (last bufs)) (rx_run edge (snd lcd_drv_init ++ flush_all bufs tile_width fb) r).
Proof.
  intros Hb Ht. rewrite rx_run_app.
  pose proof (flush_all_displays edge bufs tile_width fb _ None Hb Ht (init_displays edge r)) as Hd.
  by destruct (last bufs).
Qed.

Definition sample_buf : list Z := replicate 136 1 ++ zeros 952.

Lemma panel_shows_last_picture_witness :
  let r' := rx_run Rising (snd lcd_drv_init ++ flush_all [zeros 1088; sample_buf] 17 [])
              (mk_receiver true false false false [true; true] (power_on (fun _ _ => 255))) in
  mode (r_panel r') = lit /\ panel_pixel (r_panel r') 5 24 = true /\ panel_pixel (r_panel r') 5 25 = false.
Proof.
  pose proof (panel_shows_last_picture Rising (mk_receiver true false false false [true; true] (power_on (fun _ _ => 255)))
    [zeros 1088; sample_buf] 17 []
    ltac:(repeat (apply Forall_cons_2; [split; [done | apply (bool_decide_unpack _); vm_compute; exact I] |]); apply Forall_nil_2)
    ltac:(lia)) as (_ & _ & Hm & Hpix).
  cbv zeta. split; [exact Hm |]. split; [exact (Hpix 5 0 ltac:(lia) ltac:(lia)) | exact (Hpix 5 1 ltac:(lia) ltac:(lia))].
Defined.

(** The start-up waits for the supply, resets for 20 ms and gives the booster
    120 ms before the display is switched on. *)
Lemma init_waits : exists a b, snd lcd_drv_init = a ++ lcd_drv_write_cmd ST7567_CMD_POWER_ALL_ON ++ b ++
    lcd_drv_write_cmd ST7567_CMD_DISPLAY_ON /\ 35000 <= elapsed_us a /\ 120000 <= elapsed_us b.
Proof.
  exists (init_pins ++ [DelayMs 10] ++ lcd_reset ++ lcd_drv_write_cmd 0xA2 ++ lcd_drv_write_cmd 0xA0 ++ lcd_drv_write_cmd 0xC0 ++
    lcd_drv_write_cmd 0x40 ++ lcd_drv_write_cmd 0x27 ++ lcd_drv_write_cmd 0x81 ++ lcd_drv_write_cmd 0x28 ++
    lcd_drv_write_cmd 0xF8 ++ lcd_drv_write_cmd 0x01),
    ([DelayMs 120] ++ lcd_drv_write_cmd 0xA6 ++ lcd_drv_write_cmd 0xA4 ++ lcd_clear).
  split; [| split; vm_compute; discriminate].
  unfold lcd_drv_init, lcd_drv_init_seq, init_pins. cbn [snd]. by rewrite <- !app_assoc.
Qed.
