(* ===== verification/Startup.v ===== *)
(** * Start-up and the status LED

    [app_init.c], [app_task.c] and [main.c] over the models of the services,
    the LED service [svc_led.c], and the pins of [rtt_board.c].  What the
    kernel answers (devices found, threads created) is an input. *)

From S2P Require Import Prelude Platform Pins AppTypes Adc VehicleIo Power Can Eeprom Storage UartRing UartText UartFrame Odometer McuStatus UartCmd LcdPanel LcdPages LcdState LcdData LcdRender LcdKeys LcdSystem.

(** ** Board pins and the LED *)

Definition APP_LED0 : Z := 0.
Definition APP_LED_ON : Z := 1.
Definition APP_LED_OFF : Z := 0.
Definition APP_LED_TOGGLE_PERIOD_MS : Z := 500.

Definition app_init_led_pins : list event :=
  output_pin GPIOC 10 ++ [WritePin GPIOC 10 APP_LED_OFF] ++
  output_pin GPIOC 12 ++ [WritePin GPIOC 12 1] ++
  output_pin GPIOC 13 ++ [WritePin GPIOC 13 1].

Definition app_led_write (index state : Z) : list event :=
  if index =? APP_LED0 then [WritePin GPIOC 10 state] else [].

(** One turn of the loop of [svc_led_thread_entry]. *)
Definition svc_led_thread_round : list event :=
  app_led_write APP_LED0 APP_LED_ON ++ [DelayMs APP_LED_TOGGLE_PERIOD_MS] ++
  app_led_write APP_LED0 APP_LED_OFF ++ [DelayMs APP_LED_TOGGLE_PERIOD_MS].

Definition svc_led_init : Z := RT_EOK.

(** ** The system *)

(** The threads of the services (those of the CAN nodes are in their state). *)
Inductive thread := LED_TH | POWER_TH | LCD_TH | IO_TH | ADC_TH | STORAGE_TH | UART_CMD_TH | UART_TX_TH.

#[export] Instance thread_eq_dec : EqDecision thread.
Proof. solve_decision. Defined.

(** The display's state holds the modules it shares with the others: key
    events, persistent records and configuration cache. *)
Record system (D : Type) := mk_system {
  s_lcd : lcd D;
  s_power : power;
  s_can : can;
  s_io : vehicle_io;
  s_uart : uart_cmd D;
  s_latch : gpio_regs;
  s_threads : list thread;
}.
Arguments mk_system {D}.
Arguments s_lcd {D}.
Arguments s_power {D}.
Arguments s_can {D}.
Arguments s_io {D}.
Arguments s_uart {D}.
Arguments s_latch {D}.
Arguments s_threads {D}.

#[export] Instance eta_system D : Eta (system D) := fun s =>
  mk_system (s_lcd s) (s_power s) (s_can s) (s_io s) (s_uart s) (s_latch s) (s_threads s).

(** What the kernel answers during start-up. *)
Record answers := mk_answers {
  a_tick : Z;
  a_i2c_found : bool;
  a_sem_init : Z;
  a_uart_found : bool;
  a_uart_open : Z;
  a_uart_set_rx : Z;
  a_created : thread -> bool;
  a_can : list kcall -> kcall -> Z;
}.

Section Startup.
Context {D : Type} `{I2cBus D} (a : answers).

(** A function of the command module, on the records and the cache it shares
    with the display. *)
Definition uart_part {A} (f : uart_cmd D -> A * uart_cmd D) (s : system D) : A * system D :=
  let '(r, u) := f (s_uart s <| g_storage := sto (s_lcd s) |> <| g_mcu_config_cache := cache (s_lcd s) |>) in
  (r, s <| s_uart := u |> <| s_lcd := s_lcd s <| sto := g_storage u |> <| cache := g_mcu_config_cache u |> |>).

Definition app_framework_init (s : system D) : Z * system D :=
  let s := s <| s_latch := latch_after app_init_led_pins (s_latch s) |> in
  let s := s <| s_lcd := s_lcd s <| adc := svc_adc_init |> |> in
  let s := s <| s_latch := latch_after (snd lcd_drv_init) (s_latch s) |> <| s_lcd := snd (svc_lcd_init (s_lcd s)) |> in
  let s := s <| s_power := svc_power_init (a_tick a) (s_latch s) (pin_level (s_latch s) GPIOC LCD_BACKLIGHT_PIN) |> in
  let s := s <| s_latch := gpio_latch (s_power s) |> in
  let s := s <| s_can := snd (svc_can_init (s_can s)) |> in
  let s := s <| s_io := svc_vehicle_io_init |> <| s_lcd := s_lcd s <| vehicle := svc_vehicle_io_get_state svc_vehicle_io_init |> |> in
  let s := s <| s_lcd := s_lcd s <| sto := snd (svc_storage_init (a_i2c_found a) (sto (s_lcd s))) |> |> in
  let '(r, s) := uart_part (app_usart_cmd_init (a_sem_init a) (a_uart_found a) (a_uart_open a) (a_uart_set_rx a)) s in
  if negb (r =? RT_EOK) then (- RT_ERROR, s) else (RT_EOK, s).

(** Creating and starting a thread, the body of most [svc_*_task_start]. *)
Definition thread_start (t : thread) (s : system D) : Z * system D :=
  if a_created a t then (RT_EOK, s <| s_threads := s_threads s ++ [t] |>) else (- RT_ERROR, s).

Definition svc_led_task_start := thread_start LED_TH.
Definition svc_power_task_start := thread_start POWER_TH.
Definition svc_lcd_task_start := thread_start LCD_TH.
Definition svc_vehicle_io_task_start := thread_start IO_TH.
Definition svc_adc_task_start := thread_start ADC_TH.
Definition svc_storage_task_start := thread_start STORAGE_TH.

Definition can_task_start (s : system D) : Z * system D :=
  let '(r, c) := svc_can_task_start (a_can a) (s_can s) in (r, s <| s_can := c |>).

(** [app_usart_cmd_task_start] with the two threads it starts; the mileage it
    reports goes to the display. *)
Definition uart_task_start (s : system D) : Z * system D :=
  let '(r, calls, s) :=
    uart_part (fun u => let '(r, u, calls) := app_usart_cmd_task_start (a_created a UART_CMD_TH) (a_created a UART_TX_TH) u in
                        ((r, calls), u)) s in
  let s := s <| s_lcd := s_lcd s <| ui := apply_calls calls (ui (s_lcd s)) |> |> in
  (r, s <| s_threads := s_threads s ++
             (if a_created a UART_CMD_TH then UART_CMD_TH :: (if a_created a UART_TX_TH then [UART_TX_TH] else []) else []) |>).

(** Calls one after the other, until one fails. *)
Fixpoint start_all (starts : list (system D -> Z * system D)) (s : system D) : Z * system D :=
  match starts with
  | [] => (RT_EOK, s)
  | start :: starts =>
      let '(result, s) := start s in
      if negb (result =? RT_EOK) then (result, s) else start_all starts s
  end.

Definition app_task_start : system D -> Z * system D :=
  start_all [svc_led_task_start; svc_power_task_start; can_task_start; svc_lcd_task_start; svc_vehicle_io_task_start;
             svc_adc_task_start; svc_storage_task_start; uart_task_start].

(** [main] ignores both results. *)
Definition main (s : system D) : Z * system D :=
  let s := snd (app_framework_init s) in
  let s := snd (app_task_start s) in
  (0, s).

(** ** Specification *)

(** The statics as the program starts; the pins, and whatever the EEPROM and
    the uninitialised parts hold, are given. *)
Definition uart_boot (st : storage D) : uart_cmd D :=
  mk_uart_cmd ring_zero frame_zero None false text_zero cfg_status_zero parser_zero odometer_zero st.
Definition system_boot (w : lcd D) (p : power) (io : vehicle_io) (latch : gpio_regs) : system D :=
  mk_system (lcd_boot w) p can_boot io (uart_boot (sto w)) latch [].

Definition all_threads : list thread := [LED_TH; POWER_TH; LCD_TH; IO_TH; ADC_TH; STORAGE_TH; UART_CMD_TH; UART_TX_TH].

(** The display before its thread runs: initialised, and its data updated. *)
Definition lcd_waiting (w : lcd D) : Prop :=
  exists w0 cs, Forall call_ok cs /\
  w = let w1 := snd (svc_lcd_init (lcd_boot w0)) in w1 <| ui := apply_calls cs (ui w1) |>.

(** The parts initialised, whatever threads run. *)
Definition initialised (p : power) (s : system D) : Prop :=
  s_power s = p /\ s_latch s = gpio_latch p /\ uart_inv (s_uart s) [] [] /\ lcd_waiting (s_lcd s).

(** ** Lemmas *)

Lemma start_all_keeps (I : system D -> Prop) starts s :
  Forall (fun start => forall s, I s -> I (snd (start s))) starts -> I s -> I (snd (start_all starts s)).
Proof.
  intros Hs. revert s. induction Hs as [|start starts Hst _ IH]; intros s HI; [done |]. cbn [start_all].
  specialize (Hst s HI). destruct (start s) as [result s']. destruct (negb _); [done | by apply IH].
Qed.

Lemma uart_init_inv si f o rx (u : uart_cmd D) :
  holds (g_parser u) [] -> uart_inv (snd (app_usart_cmd_init si f o rx u)) [] [].
Proof.
  intros Hp. unfold app_usart_cmd_init. destruct (app_usart_cmd_refresh_status_config _) as [c st].
  destruct ring_zero_inv as [Hr Hc]. pose proof text_zero_inv as Ht.
  repeat case_match; by split_and!.
Qed.

(** The other parts of the system may change meanwhile. *)
Lemma waiting_frame w ad st c v t : lcd_waiting w ->
  lcd_waiting (w <| adc := ad |> <| sto := st |> <| cache := c |> <| vehicle := v |> <| tick := t |>).
Proof.
  intros (w0 & cs & Hcs & ->). exists (w0 <| adc := ad |> <| sto := st |> <| cache := c |> <| vehicle := v |> <| tick := t |>), cs.
  by split.
Qed.

Lemma waiting_records w st c : lcd_waiting w -> lcd_waiting (w <| sto := st |> <| cache := c |>).
Proof. exact (waiting_frame w (adc w) st c (vehicle w) (tick w)). Qed.

Lemma waiting_calls w cs : lcd_waiting w -> Forall call_ok cs -> lcd_waiting (w <| ui := apply_calls cs (ui w) |>).
Proof.
  intros (w0 & cs0 & Hcs0 & ->) Hcs. exists w0, (cs0 ++ cs). split; [by apply Forall_app_2 |].
  unfold apply_calls. by rewrite foldl_app.
Qed.

Lemma framework_initialised w p io latch :
  let s := snd (app_framework_init (system_boot w p io latch)) in
  let latch1 := latch_after (snd lcd_drv_init) (latch_after app_init_led_pins latch) in
  initialised (svc_power_init (a_tick a) latch1 (pin_level latch1 GPIOC LCD_BACKLIGHT_PIN)) s /\ s_threads s = [].
Proof.
  unfold app_framework_init, uart_part. generalize (snd lcd_drv_init) as drv. intros drv.
  cbv zeta. set (u0 := update_with g_mcu_config_cache _ _).
  pose proof (uart_init_inv (a_sem_init a) (a_uart_found a) (a_uart_open a) (a_uart_set_rx a) u0 parser_zero_holds) as Hu.
  destruct (app_usart_cmd_init _ _ _ _ u0) as [r u]. cbn [snd] in Hu. clearbody u0.
  destruct (negb _); (split; [| reflexivity]); (split_and!; [reflexivity | reflexivity | exact Hu |]); apply waiting_records;
    exists (w <| adc := svc_adc_init |> <| vehicle := svc_vehicle_io_get_state svc_vehicle_io_init |>
              <| sto := snd (svc_storage_init (a_i2c_found a) (sto w)) |>), []; by split.
Qed.

Lemma thread_start_keeps p t s : initialised p s -> initialised p (snd (thread_start t s)).
Proof. unfold thread_start. by case_match. Qed.

Lemma can_start_keeps p s : initialised p s -> initialised p (snd (can_task_start s)).
Proof. unfold can_task_start. by destruct (svc_can_task_start _ _). Qed.

Lemma uart_start_keeps p s : initialised p s -> initialised p (snd (uart_task_start s)).
Proof.
  intros (Hp & Hl & Hu & Hw). unfold uart_task_start, uart_part, app_usart_cmd_task_start.
  destruct (a_created a UART_CMD_TH); cbn [negb].
  2: { split_and!; [exact Hp | exact Hl | exact Hu |]. apply (waiting_calls _ []); [by apply waiting_records | done]. }
  set (o0 := g_odometer _). set (st0 := g_storage _). pose proof (update_calls_ok 0 1 o0 st0) as Hc.
  destruct (app_uart_cmd_update_total_mileage 0 1 o0 st0) as [[o st] calls]. cbn [snd] in Hc.
  destruct (a_created a UART_TX_TH); cbn [negb]; (split_and!; [exact Hp | exact Hl | exact Hu |]);
    (apply (waiting_calls _ calls); [by apply waiting_records | done]).
Qed.

Lemma tasks_keep p s : initialised p s -> initialised p (snd (app_task_start s)).
Proof.
  apply start_all_keeps.
  repeat (apply Forall_cons_2; [intros s'; apply thread_start_keeps || apply can_start_keeps || apply uart_start_keeps |]).
  apply Forall_nil_2.
Qed.

(** A start that adds the first threads of [ts], all of them exactly when it
    succeeds (a start without threads of its own may fail as well). *)
Definition starts (ts : list thread) (start : system D -> Z * system D) : Prop :=
  forall s, exists k, (k <= length ts)%nat /\ s_threads (snd (start s)) = s_threads s ++ take k ts /\
  (fst (start s) = RT_EOK -> k = length ts) /\ (ts <> [] -> k = length ts -> fst (start s) = RT_EOK).

Ltac by_counting := split_and!; try done; cbn [length fst]; unfold RT_EOK, RT_ERROR; lia.

Lemma starts_thread t : starts [t] (thread_start t).
Proof. intros s. unfold thread_start. destruct (a_created a t); [exists 1%nat | exists 0%nat; rewrite app_nil_r]; by_counting. Qed.

Lemma starts_can : starts [] can_task_start.
Proof.
  intros s. exists 0%nat. unfold can_task_start. destruct (svc_can_task_start _ _). cbn. rewrite app_nil_r. by_counting.
Qed.

Lemma starts_uart : starts [UART_CMD_TH; UART_TX_TH] uart_task_start.
Proof.
  intros s. unfold uart_task_start, uart_part, app_usart_cmd_task_start.
  destruct (a_created a UART_CMD_TH); cbn [negb]; [| exists 0%nat; by_counting].
  destruct (app_uart_cmd_update_total_mileage 0 1 _ _) as [[o st] calls].
  destruct (a_created a UART_TX_TH); cbn [negb]; [exists 2%nat | exists 1%nat]; by_counting.
Qed.

(** Starts one after the other: a prefix of all their threads, the whole list
    exactly on success. *)
Lemma starts_all tss sts : Forall2 starts tss sts -> last tss <> Some [] ->
  forall s, exists k, (k <= length (concat tss))%nat /\ s_threads (snd (start_all sts s)) = s_threads s ++ take k (concat tss) /\
  (fst (start_all sts s) = RT_EOK <-> k = length (concat tss)).
Proof.
  induction 1 as [|ts start tss sts Hst Hsts IH]; intros Hlast s; cbn [start_all concat].
  { exists 0%nat. by rewrite app_nil_r. }
  destruct (Hst s) as (k & Hk & Hth & Hok & Hfull). destruct (start s) as [r s']. cbn [fst snd] in *.
  destruct (Z.eqb_spec r RT_EOK) as [->|Hr]; cbn [negb].
  - specialize (Hok eq_refl). subst k. destruct tss as [|ts' tss].
    + inversion Hsts; subst. exists (length ts). cbn [start_all concat fst snd]. rewrite app_nil_r. by split_and!.
    + destruct (IH Hlast s') as (k & Hk' & Hth' & Hiff). exists (length ts + k)%nat. rewrite length_app. split; [lia |].
      rewrite Hth', Hth, take_ge by lia. rewrite take_app_add, <- app_assoc. split; [done |]. rewrite Hiff. lia.
  - exists k. rewrite length_app. split; [lia |]. cbn [fst snd]. rewrite Hth, take_app_le by lia. split; [done |].
    split; [done |]. intros ->. exfalso. assert (concat tss = []) as Hc by (apply nil_length_inv; lia).
    destruct ts as [|t ts]; [| apply Hr, Hfull; [done | lia]].
    clear -Hlast Hc. revert Hlast Hc. induction tss as [|ts' tss IH]; intros Hlast Hc; [done |].
    apply app_nil in Hc as [-> Hc]. by apply IH.
Qed.

(** Threads are started in order, as long as every start succeeds. *)
Lemma threads_prefix s : s_threads s = [] ->
  exists n, s_threads (snd (app_task_start s)) = take n all_threads /\ (fst (app_task_start s) = RT_EOK <-> n = 8%nat).
Proof.
  intros H0. destruct (starts_all [[LED_TH]; [POWER_TH]; []; [LCD_TH]; [IO_TH]; [ADC_TH]; [STORAGE_TH]; [UART_CMD_TH; UART_TX_TH]]
    [svc_led_task_start; svc_power_task_start; can_task_start; svc_lcd_task_start; svc_vehicle_io_task_start;
     svc_adc_task_start; svc_storage_task_start; uart_task_start]
    ltac:(repeat constructor; apply starts_thread || apply starts_can || apply starts_uart) ltac:(done) s) as (n & _ & Hth & Hn).
  exists n. split; [| exact Hn]. by rewrite H0 in Hth.
Qed.
End Startup.

Section Display.
Context {D : Type} {bus : I2cBus D} {laws : EepromLaws D} {rdy : EepromReady D} {fonts : FontMetrics}.

(** Updating the data and resetting the navigation commute on the home page. *)
Lemma call_commutes c u : data_inv u -> call_ok c -> g_lcd_current_page_id u = LCD_PAGE_HOME ->
  apply_call c (lcd_ui_core_reset u) = lcd_ui_core_reset (apply_call c u) /\
  g_lcd_current_page_id (apply_call c u) = LCD_PAGE_HOME.
Proof.
  intros Hd Hc Hp. assert (data_inv (lcd_ui_core_reset u)) as Hd' by exact Hd.
  rewrite (apply_call_assign c u Hd Hc), (apply_call_assign c _ Hd' Hc).
  change (g_lcd_need_redraw (lcd_ui_core_reset u)) with true. cbn [orb]. destruct c; (split; [reflexivity | exact Hp]).
Qed.

Lemma data_inv_registered u r h f : data_inv u ->
  data_inv (u <| g_lcd_registry := r |> <| g_lcd_ui_nav_enter_hook := h |> <| g_lcd_ui_render_fallback := f |>).
Proof. by destruct u. Qed.

Lemma init_data_inv (w : lcd D) : data_inv (ui (snd (svc_lcd_init w))).
Proof. apply (data_inv_registered (lcd_ui_data_reset (ui w))), reset_data_inv. Qed.

Lemma thread_start_ui (w : lcd D) u :
  snd (svc_lcd_thread_start (w <| ui := u |>)) = snd (svc_lcd_thread_start w) <| ui := lcd_ui_core_reset u |> /\
  ui (snd (svc_lcd_thread_start w)) = lcd_ui_core_reset (ui w).
Proof. by destruct w. Qed.

Lemma calls_commute cs u : data_inv u -> Forall call_ok cs -> g_lcd_current_page_id u = LCD_PAGE_HOME ->
  lcd_ui_core_reset (apply_calls cs u) = apply_calls cs (lcd_ui_core_reset u).
Proof.
  intros Hd Hcs. revert u Hd. induction Hcs as [|c cs Hc _ IH]; intros u Hd Hp; [done |].
  destruct (call_commutes c u Hd Hc Hp) as [E Hp']. unfold apply_calls in *. cbn [foldl]. rewrite E.
  apply IH; [by apply apply_call_inv | done].
Qed.

Lemma calls_steps cs (w : lcd D) : Forall call_ok cs -> rtc lcd_step w (w <| ui := apply_calls cs (ui w) |>).
Proof.
  intros Hcs. induction cs as [|c cs IH] using rev_ind; [by destruct w; apply rtc_refl |].
  apply Forall_app in Hcs as [Hcs Hc]. rewrite Forall_singleton in Hc.
  eapply rtc_r; [apply (IH Hcs) |]. unfold apply_calls. rewrite foldl_app.
  exact (step_call (w <| ui := apply_calls cs (ui w) |>) c Hc).
Qed.

Lemma waiting_reachable w : lcd_waiting w -> reachable (snd (svc_lcd_thread_start w)).
Proof.
  intros (w0 & cs & Hcs & ->). exists w0. cbv zeta. unfold lcd_started.
  change (snd ((svc_lcd_init;; svc_lcd_thread_start) (lcd_boot w0))) with (snd (svc_lcd_thread_start (snd (svc_lcd_init (lcd_boot w0))))).
  assert (g_lcd_current_page_id (ui (snd (svc_lcd_init (lcd_boot w0)))) = LCD_PAGE_HOME) as Hp by done.
  pose proof (init_data_inv (lcd_boot w0)) as Hd.
  revert Hp Hd. generalize (snd (svc_lcd_init (lcd_boot w0))) as w1. intros w1 Hp Hd.
  destruct (thread_start_ui w1 (apply_calls cs (ui w1))) as [-> E]. rewrite calls_commute, <- E by done. by apply calls_steps.
Qed.
End Display.

(** The levels of the output pins after initialisation. *)
Lemma init_levels a latch :
  let latch1 := latch_after (snd lcd_drv_init) (latch_after app_init_led_pins latch) in
  let p := svc_power_init (a_tick a) latch1 (pin_level latch1 GPIOC LCD_BACKLIGHT_PIN) in
  hold_on p = true /\ main24_on p = true /\ soc_on p = true /\ cam_on p = false /\
  map (pin_level (gpio_latch p) GPIOC) [10; SVC_POWER_CTRL_SUPERCAP_CHRG_PIN; LCD_BACKLIGHT_PIN] = [false; false; false] /\
  backlight_on p = false.
Proof.
  cbv zeta. set (latch1 := latch_after _ _).
  assert (pin_level latch1 GPIOC 10 = false /\ pin_level latch1 GPIOC LCD_BACKLIGHT_PIN = false) as [H10 H16].
  { subst latch1. rewrite !pin_after_trace by (done || (vm_compute; reflexivity)). by vm_compute. }
  clearbody latch1. cbn [map]. unfold hold_on, main24_on, soc_on, cam_on, svc_power_init. cbn [gpio_latch backlight_on].
  unfold svc_power_init_ctrl_pins. rewrite !pin_level_write by done. cbn [Z.eqb Pos.eqb andb negb].
  by rewrite H10, H16.
Qed.

(** ** Properties *)

(** C37: start-up.  Whatever the pins and the EEPROM held, whatever the kernel
    answers and wherever the sequence stops: the device holds its own supply,
    the 24 V and SOC supplies are on, camera supply, capacitor charging,
    backlight and LED are off; the command task is in its initial state with
    nothing received; the display thread starts from a reachable state of the
    display; and the running threads are the first ones of the fixed order, all
    of them exactly when the start reports success. *)
Theorem startup_safe {D} `{EepromReady D} {fonts : FontMetrics} (a : answers) (w : lcd D) p io latch :
  let s1 := snd (app_framework_init a (system_boot w p io latch)) in
  let s := snd (main a (system_boot w p io latch)) in
  hold_on (s_power s) = true /\ main24_on (s_power s) = true /\ soc_on (s_power s) = true /\ cam_on (s_power s) = false /\
  map (pin_level (s_latch s) GPIOC) [10; SVC_POWER_CTRL_SUPERCAP_CHRG_PIN; LCD_BACKLIGHT_PIN] = [false; false; false] /\
  uart_inv (s_uart s) [] [] /\ reachable (snd (svc_lcd_thread_start (s_lcd s))) /\
  exists n, s_threads s = take n all_threads /\ (fst (app_task_start a s1) = RT_EOK <-> n = 8%nat).
Proof.
  destruct (framework_initialised a w p io latch) as [Hi Ht]. cbv zeta in *. unfold main. cbn [snd].
  destruct (tasks_keep a _ _ Hi) as (-> & -> & Hu & Hw). destruct (init_levels a latch) as (? & ? & ? & ? & ? & _).
  split_and!; try assumption; [by apply waiting_reachable | by apply threads_prefix].
Qed.

#[local] Instance startup_fonts : FontMetrics := sample_fonts.

(** No memory for the thread of the ADC service. *)
Definition sample_answers : answers :=
  mk_answers 120 true 0 true 0 0 (fun t => negb (bool_decide (t = ADC_TH))) sample_kernel.

Lemma startup_safe_witness :
  let s := snd (main sample_answers (system_boot sample_lcd (svc_power_init 0 (fun _ => 0) false) svc_vehicle_io_init (fun _ => -1))) in
  hold_on (s_power s) = true /\ cam_on (s_power s) = false /\ s_threads s = [LED_TH; POWER_TH; LCD_TH; IO_TH].
Proof.
  pose proof (startup_safe sample_answers sample_lcd (svc_power_init 0 (fun _ => 0) false) svc_vehicle_io_init (fun _ => -1))
    as (Hh & _ & _ & Hc & _).
  cbv zeta in *. split; [exact Hh |]. split; [exact Hc |]. vm_compute. reflexivity.
Defined.

(** The LED is on for the first half of every second and off for the second
    half, whatever it was before. *)
Lemma led_blinks latch :
  exists on off, svc_led_thread_round = on ++ off /\ elapsed_us on = 500000 /\ elapsed_us off = 500000 /\
  pin_level (latch_after on latch) GPIOC 10 = true /\ pin_level (latch_after (on ++ off) latch) GPIOC 10 = false.
Proof.
  exists [WritePin GPIOC 10 1; DelayMs 500], [WritePin GPIOC 10 0; DelayMs 500].
  split_and!; [done.. | |]; by rewrite pin_after_trace.
Qed.
