(* ===== verification/System.v ===== *)
(** * The whole system

    All threads of the firmware over their shared state (key events and
    snapshots, vehicle inputs, persistent records, display data, output pins),
    one turn of a thread at a time, from the end of [main] on.  Every part
    behaves inside the system as its own model says, whatever the others do.

    A turn is one step.  The power thread has the highest priority and reads one
    word of each snapshot, and a pin is written through the set and clear
    registers of its port; preemption inside the turns of the other threads is
    not modelled here.  The storage thread only sleeps and the transmit thread
    only sends: they have no turn.  A reset is a new start. *)

From S2P Require Import Prelude Ringbuffer Platform Pins AppTypes Adc VehicleIo Power Can Eeprom Storage UartRing Serial UartText UartFrame Odometer McuStatus UartCmd LcdGfx LcdPanel LcdPages LcdState LcdData LcdRender LcdKeys LcdSystem Startup.

(** ** State

    [x_up]: the display thread has passed its start; [x_clock]: the time of
    the last turn of the power thread; [x_since]: since when the power stage has
    been a shutdown stage without a break. *)
Record run (D : Type) := mk_run { x_sys : system D; x_up : bool; x_clock : Z; x_since : option Z }.
Arguments mk_run {D}.
Arguments x_sys {D}.
Arguments x_up {D}.
Arguments x_clock {D}.
Arguments x_since {D}.

#[export] Instance eta_run D : Eta (run D) := fun x => mk_run (x_sys x) (x_up x) (x_clock x) (x_since x).

(** The power service with these levels on the pins. *)
Definition with_pins (l : gpio_regs) (b : bool) (p : power) : power := p <| gpio_latch := l |> <| backlight_on := b |>.

Section System.
Context {D : Type} {bus : I2cBus D} {laws : EepromLaws D} {rdy : EepromReady D} {fonts : FontMetrics}.

(** ** Turns *)

Definition set_lcd (f : lcd D -> lcd D) (s : system D) : system D := s <| s_lcd := f (s_lcd s) |>.
Definition write_pins (evs : list event) (s : system D) : system D := s <| s_latch := latch_after evs (s_latch s) |>.

(** What the power thread finds, and what it leaves behind, on the shared pins. *)
Definition power_view (s : system D) : power :=
  with_pins (s_latch s) (pin_level (s_latch s) GPIOC LCD_BACKLIGHT_PIN) (s_power s).
Definition after_power (s : system D) (p : power) : system D :=
  s <| s_power := p |>
    <| s_latch := if backlight_on p then gpio_latch p else gpio_write_pin (gpio_latch p) GPIOC LCD_BACKLIGHT_PIN 0 |>.

Definition adc_turn (d : adc_device) : system D -> system D := set_lcd (fun w => w <| adc := svc_adc_sample_update d (adc w) |>).

Definition io_turn (di : gpio_regs) (s : system D) : system D :=
  let io := svc_vehicle_io_thread_round (s_io s) (di, svc_adc_get_snapshot (adc (s_lcd s))) in
  set_lcd (fun w => w <| vehicle := svc_vehicle_io_get_state io |>) (s <| s_io := io |>).

(** [app_usart_cmd_thread_entry] after its semaphore was released. *)
Definition poll_turn (s : system D) : system D :=
  let '(calls, s) := uart_part (fun u => let '(u, calls) := app_usart_cmd_poll u in (calls, u)) s in
  set_lcd (fun w => w <| ui := apply_calls calls (ui w) |>) s.

(** The receive callback; [blocks] are what the reads of the device return. *)
Definition rx_turn (blocks : list (list Z)) (size : Z) (s : system D) : system D :=
  s <| s_uart := s_uart s <| g_uart_cmd_rx_ring := fst (app_uart_cmd_rx_indicate blocks size (g_uart_cmd_rx_ring (s_uart s))) |> |>.

(** A read returns between 1 and 128 bytes. *)
Definition read_block (b : list Z) : Prop := 0 < Z.of_nat (length b) <= 128 /\ Forall is_u8 b.

(** The input the round reads is what the services hold. *)
Definition reads (s : system D) (r : round) : Prop :=
  adc_snapshot r = svc_adc_get_snapshot (adc (s_lcd s)) /\ vehicle_state r = svc_vehicle_io_get_state (s_io s).

(** The samples and input levels that may occur are restricted by [ga] and
    [gi]. *)
Inductive sys_step (ga : adc_device -> Prop) (gi : gpio_regs -> Prop) : run D -> run D -> Prop :=
  | do_adc x d : ADC_TH ∈ s_threads (x_sys x) -> ga d -> sys_step ga gi x (x <| x_sys := adc_turn d (x_sys x) |>)
  | do_io x di : IO_TH ∈ s_threads (x_sys x) -> gi di -> sys_step ga gi x (x <| x_sys := io_turn di (x_sys x) |>)
  | do_power x r p' :
      POWER_TH ∈ s_threads (x_sys x) -> reads (x_sys x) r -> timed (x_clock x) r ->
      svc_power_thread_round r (power_view (x_sys x)) = Some p' ->
      sys_step ga gi x (mk_run (after_power (x_sys x) p') (x_up x) (t_cam r) (since_step p' (t_trans r) (x_since x)))
  | do_led x state : LED_TH ∈ s_threads (x_sys x) ->
      sys_step ga gi x (x <| x_sys := write_pins (app_led_write APP_LED0 state) (x_sys x) |>)
  | do_lcd_start x : LCD_TH ∈ s_threads (x_sys x) -> x_up x = false ->
      sys_step ga gi x (x <| x_sys := write_pins lcd_backlight_on (set_lcd (fun w => snd (svc_lcd_thread_start w)) (x_sys x)) |>
                          <| x_up := true |>)
  | do_lcd x : x_up x = true -> sys_step ga gi x (x <| x_sys := set_lcd (fun w => snd (svc_lcd_thread_round w)) (x_sys x) |>)
  | do_flush x buf tile_width fb : x_up x = true ->
      sys_step ga gi x (x <| x_sys := write_pins (fst (u8g2_port_flush_buffer buf tile_width fb)) (x_sys x) |>)
  | do_rx x blocks size : Forall read_block blocks -> 0 <= size ->
      sys_step ga gi x (x <| x_sys := rx_turn blocks size (x_sys x) |>)
  | do_poll x : UART_CMD_TH ∈ s_threads (x_sys x) -> sys_step ga gi x (x <| x_sys := poll_turn (x_sys x) |>)
  | do_can_rx x node msg t : sys_step ga gi x (x <| x_sys := x_sys x <| s_can := app_can_handle_rx node msg t (s_can (x_sys x)) |> |>)
  | do_can_monitor x t : sys_step ga gi x (x <| x_sys := x_sys x <| s_can := app_can_monitor_pass t (s_can (x_sys x)) |> |>)
  | do_tick x t : sys_step ga gi x (x <| x_sys := set_lcd (fun w => w <| tick := t |>) (x_sys x) |>).

Definition anything {A} (_ : A) : Prop := True.

(** The system at the end of [main]; the clock starts at the initialisation of
    the power service. *)
Definition started (a : answers) (w : lcd D) (p : power) (io : vehicle_io) (latch : gpio_regs) : run D :=
  mk_run (snd (main a (system_boot w p io latch))) false (a_tick a) None.

Definition sys_reachable (x : run D) : Prop :=
  exists a w p io latch, rtc (sys_step anything anything) (started a w p io latch) x.
End System.

(** ** The pins of the power service *)

Definition power_pins : list (Z * Z) := [(GPIOC, 11); (GPIOC, 12); (GPIOC, 13); (GPIOC, 14); (GPIOA, 23)].

Lemma power_pin_pos port pin : (port, pin) ∈ power_pins -> 0 <= pin.
Proof. intros H. repeat (apply elem_of_cons in H as [[= _ ->]|H]; [lia |]). by apply elem_of_nil in H. Qed.

(** The same supplies are switched on. *)
Definition agree (l l' : gpio_regs) : Prop :=
  Forall (fun '(port, pin) => pin_level l port pin = pin_level l' port pin) power_pins.

#[export] Instance agree_equivalence : Equivalence agree.
Proof.
  split.
  - intros l. unfold agree. by repeat constructor.
  - intros l l' H. apply (Forall_impl _ _ _ H). by intros [port pin].
  - intros l l' l'' H H'. apply Forall_forall. intros [port pin] Hin.
    pose proof (proj1 (Forall_forall _ _) H _ Hin) as E. pose proof (proj1 (Forall_forall _ _) H' _ Hin) as E'.
    cbn in *. congruence.
Qed.

Lemma agree_write port pin high l l' : 0 <= pin -> agree l l' ->
  agree (gpio_write_pin l port pin high) (gpio_write_pin l' port pin high).
Proof.
  intros Hpin H. apply Forall_forall. intros [port' pin'] Hin.
  pose proof (proj1 (Forall_forall _ _) H _ Hin) as E. cbn in E.
  pose proof (power_pin_pos _ _ Hin).
  rewrite !pin_level_write by done. by destruct (_ && _).
Qed.

(** Accesses that leave these pins alone. *)
Definition spares (e : event) : bool :=
  match e with
  | WritePin port pin _ => (0 <=? pin) && negb (existsb (fun '(port', pin') => (port' =? port) && (pin' =? pin)) power_pins)
  | _ => true
  end.

Lemma spares_agree evs l : forallb spares evs = true -> agree (latch_after evs l) l.
Proof.
  revert l. induction evs as [|e evs IH]; intros l H; [reflexivity |]. cbn [forallb] in H. apply andb_true_iff in H as [He H].
  unfold latch_after in *. cbn [foldl]. etransitivity; [by apply IH |].
  destruct e as [| | |port pin high| |]; cbn [latch_step]; try reflexivity. cbn [spares] in He.
  apply andb_true_iff in He as [Hpin He]. apply Z.leb_le in Hpin. apply negb_true_iff in He.
  apply Forall_forall. intros [port' pin'] Hin.
  pose proof (power_pin_pos _ _ Hin).
  rewrite pin_level_write by done. destruct (_ && _) eqn:E; [| done]. exfalso. revert He. apply not_false_iff_true, existsb_exists.
  exists (port', pin'). by split; [apply list_elem_of_In |].
Qed.

Lemma forallb_flat_map {A B} (f : B -> bool) (g : A -> list B) l :
  (forall x, forallb f (g x) = true) -> forallb f (flat_map g l) = true.
Proof. intros H. induction l as [|x l IH]; [done |]. cbn [flat_map]. by rewrite forallb_app, H. Qed.

(** The display and the LED leave them alone. *)
Lemma byte_spares b : forallb spares (lcd_drv_spi_write_byte b) = true.
Proof.
  unfold lcd_drv_spi_write_byte. rewrite forallb_app, andb_true_iff. split; [| by destruct b].
  generalize 8%nat as n. intros n. revert b. induction n as [|n IH]; intros b; [done |]. cbn [spi_bits].
  rewrite !forallb_app, IH. done.
Qed.

Lemma cmd_spares c : forallb spares (lcd_drv_write_cmd c) = true.
Proof. unfold lcd_drv_write_cmd. by rewrite !forallb_app, byte_spares. Qed.

Lemma page_spares page col buf len : forallb spares (lcd_drv_write_page page col buf len) = true.
Proof.
  unfold lcd_drv_write_page. destruct buf as [buf|]; [| done]. destruct (_ || _); [done |].
  unfold lcd_drv_set_page_col, lcd_drv_write_data_buf. rewrite !forallb_app, !cmd_spares.
  rewrite (forallb_flat_map spares) by (intros; apply byte_spares). done.
Qed.

Lemma flush_spares buf tile_width fb : forallb spares (fst (u8g2_port_flush_buffer buf tile_width fb)) = true.
Proof.
  unfold u8g2_port_flush_buffer. destruct (u8g2_copy_to_lcd_fb buf tile_width fb) as [writes fb']. cbn [fst].
  apply forallb_flat_map. intros [[page col] data]. apply page_spares.
Qed.

(** ** The power service does not look at the other pins *)

(** Case split on the tests of a handler, with the fields of the state
    computed in between. *)
Ltac power_fields :=
  cbn -[svc_power_update_confirm_counter svc_power_ms_to_confirm_count svc_power_ticks_to_ms Z.leb stage_eqb u32
        svc_power_is_main_present_raw svc_power_eval_normal_stage gpio_write_pin].
Ltac split_power_ifs :=
  power_fields;
  repeat (match goal with
          | |- context [if ?c then _ else _] =>
              lazymatch c with context [if _ then _ else _] => fail | _ => destruct c end
          end; power_fields).

Lemma eval_with_pins t a v p l b :
  svc_power_eval_stage t a v (with_pins l b p) =
  match svc_power_eval_stage t a v p with None => None | Some (s, p') => Some (s, with_pins l b p') end.
Proof.
  destruct p. unfold svc_power_eval_stage, svc_power_eval_counters, svc_power_get_shutdown_pending_elapsed_ms,
    svc_power_get_hold_elapsed_ms, svc_power_is_shutdown_flow_stage, with_pins. split_power_ifs; done.
Qed.

Lemma transition_with_pins t s p l b :
  exists b', svc_power_handle_stage_transition t s (with_pins l b p) =
  with_pins l b' (svc_power_handle_stage_transition t s p) /\
  gpio_latch (svc_power_handle_stage_transition t s p) = gpio_latch p.
Proof.
  destruct p. unfold svc_power_handle_stage_transition, with_pins. split_power_ifs; by eexists.
Qed.

Lemma cut_with_pins t p l b : agree l (gpio_latch p) ->
  exists l', svc_power_handle_final_power_cut t (with_pins l b p) = with_pins l' b (svc_power_handle_final_power_cut t p) /\
  backlight_on (svc_power_handle_final_power_cut t p) = backlight_on p /\
  agree l' (gpio_latch (svc_power_handle_final_power_cut t p)).
Proof.
  intros H. destruct p. unfold svc_power_handle_final_power_cut, svc_power_get_shutdown_pending_elapsed_ms,
    svc_power_cut_soc_outputs, svc_power_release_mcu_hold, with_pins. cbn in H.
  split_power_ifs; eexists; (split; [reflexivity |]); (split; [done |]); repeat (apply agree_write; [done |]); exact H.
Qed.

Lemma cam_with_pins t p l b : agree l (gpio_latch p) ->
  exists l', svc_power_handle_cam_12v_enable t (with_pins l b p) = with_pins l' b (svc_power_handle_cam_12v_enable t p) /\
  agree l' (gpio_latch (svc_power_handle_cam_12v_enable t p)).
Proof.
  intros H. destruct p. unfold svc_power_handle_cam_12v_enable, with_pins. cbn in H.
  split_power_ifs; eexists; (split; [reflexivity |]); repeat (apply agree_write; [done |]); exact H.
Qed.

Lemma round_with_pins r p l b : agree l (gpio_latch p) ->
  match svc_power_thread_round r p with
  | None => svc_power_thread_round r (with_pins l b p) = None
  | Some p' => exists l' b', svc_power_thread_round r (with_pins l b p) = Some (with_pins l' b' p') /\ agree l' (gpio_latch p')
  end.
Proof.
  intros H. unfold svc_power_thread_round. rewrite eval_with_pins.
  assert (forall s p1, svc_power_eval_stage (u32 (t_eval r)) (adc_snapshot r) (vehicle_state r) p = Some (s, p1) ->
    gpio_latch p1 = gpio_latch p) as Hl.
  { intros s p1. destruct p. unfold svc_power_eval_stage, svc_power_eval_counters. split_power_ifs; by intros [= <- <-]. }
  destruct (svc_power_eval_stage _ _ _ p) as [[s p1]|]; [| done]. specialize (Hl s p1 eq_refl). cbv zeta.
  destruct (transition_with_pins (u32 (t_trans r)) s p1 l b) as (b2 & -> & Hl2).
  destruct (cut_with_pins (u32 (t_cut r)) (svc_power_handle_stage_transition (u32 (t_trans r)) s p1) l b2) as (l3 & -> & _ & H3);
    [by rewrite Hl2, Hl |].
  destruct (cam_with_pins (u32 (t_cam r)) _ l3 b2 H3) as (l4 & -> & H4). by eexists l4, b2.
Qed.

(** ** Invariant *)

Section Invariant.
Context {D : Type} {bus : I2cBus D} {laws : EepromLaws D} {rdy : EepromReady D} {fonts : FontMetrics}.

Definition lcd_ok (up : bool) (w : lcd D) : Prop := if up then reachable w else lcd_waiting w.

(** The power service with other levels on the pins that are not its own. *)
Definition power_ok (t0 : Z) (x : run D) : Prop :=
  exists q l b, reach t0 q (x_since x) (x_clock x) /\ s_power (x_sys x) = with_pins l b q /\ agree (s_latch (x_sys x)) (gpio_latch q).

Definition uart_ok (s : system D) : Prop := exists q bytes, uart_inv (s_uart s) q bytes.

Definition sys_inv (t0 : Z) (x : run D) : Prop :=
  lcd_ok (x_up x) (s_lcd (x_sys x)) /\ power_ok t0 x /\ uart_ok (x_sys x).

Lemma lcd_ok_env up w ad st c v t : lcd_ok up w ->
  lcd_ok up (w <| adc := ad |> <| sto := st |> <| cache := c |> <| vehicle := v |> <| tick := t |>).
Proof.
  destruct up; [| apply waiting_frame]. intros [w0 Hw]. exists w0.
  do 5 (eapply rtc_r; [| econstructor]). exact Hw.
Qed.

Lemma lcd_ok_adc up w ad : lcd_ok up w -> lcd_ok up (w <| adc := ad |>).
Proof. exact (lcd_ok_env up w ad (sto w) (cache w) (vehicle w) (tick w)). Qed.

Lemma lcd_ok_vehicle up w v : lcd_ok up w -> lcd_ok up (w <| vehicle := v |>).
Proof. exact (lcd_ok_env up w (adc w) (sto w) (cache w) v (tick w)). Qed.

Lemma lcd_ok_tick up w t : lcd_ok up w -> lcd_ok up (w <| tick := t |>).
Proof. exact (lcd_ok_env up w (adc w) (sto w) (cache w) (vehicle w) t). Qed.

Lemma lcd_ok_calls up w cs : lcd_ok up w -> Forall call_ok cs -> lcd_ok up (w <| ui := apply_calls cs (ui w) |>).
Proof.
  destruct up; [| apply waiting_calls]. intros [w0 Hw] Hcs. exists w0. transitivity w; [exact Hw | by apply calls_steps].
Qed.

Lemma lcd_ok_round w : lcd_ok true w -> lcd_ok true (snd (svc_lcd_thread_round w)).
Proof. intros [w0 Hw]. exists w0. eapply rtc_r; [exact Hw | constructor]. Qed.

(** Pins that are not its own do not concern the power service. *)
Lemma power_ok_pins t0 x evs s' up :
  forallb spares evs = true -> s_power s' = s_power (x_sys x) -> s_latch s' = latch_after evs (s_latch (x_sys x)) ->
  power_ok t0 x -> power_ok t0 (x <| x_sys := s' |> <| x_up := up |>).
Proof.
  intros He Hp Hl (q & l & b & Hq & Hs & Ha). exists q, l, b. split; [exact Hq |]. cbn [x_sys update_with].
  split; [by rewrite <- Hs |]. change (agree (s_latch s') (gpio_latch q)). rewrite Hl. by rewrite (spares_agree evs).
Qed.

Lemma backlight_agree l : agree (gpio_write_pin l GPIOC LCD_BACKLIGHT_PIN 0) l.
Proof. apply (spares_agree [WritePin GPIOC LCD_BACKLIGHT_PIN 0]). reflexivity. Qed.

Lemma view_with_pins (s : system D) q l b : s_power s = with_pins l b q ->
  power_view s = with_pins (s_latch s) (pin_level (s_latch s) GPIOC LCD_BACKLIGHT_PIN) q.
Proof. unfold power_view. by intros ->. Qed.

(** A turn of the power thread is a round of its model. *)
Lemma power_turn_spec r (s : system D) p' q l b :
  s_power s = with_pins l b q -> agree (s_latch s) (gpio_latch q) -> svc_power_thread_round r (power_view s) = Some p' ->
  exists q' l' b', svc_power_thread_round r q = Some q' /\ p' = with_pins l' b' q' /\ agree (gpio_latch p') (gpio_latch q').
Proof.
  intros Hs Ha Ep. rewrite (view_with_pins _ _ _ _ Hs) in Ep.
  pose proof (round_with_pins r q (s_latch s) (pin_level (s_latch s) GPIOC LCD_BACKLIGHT_PIN) Ha) as Hw.
  destruct (svc_power_thread_round r q) as [q'|]; [| congruence].
  destruct Hw as (l' & b' & Ew & Ha'). rewrite Ew in Ep. injection Ep as <-. by exists q', l', b'.
Qed.

Lemma after_power_latch (s : system D) p : agree (s_latch (after_power s p)) (gpio_latch p).
Proof. unfold after_power. cbn [s_latch update_with]. destruct (backlight_on p); [reflexivity | apply backlight_agree]. Qed.

Lemma power_turn_ok t0 x r p' : power_ok t0 x -> timed (x_clock x) r ->
  svc_power_thread_round r (power_view (x_sys x)) = Some p' ->
  power_ok t0 (mk_run (after_power (x_sys x) p') (x_up x) (t_cam r) (since_step p' (t_trans r) (x_since x))).
Proof.
  intros (q & l & b & Hq & Hs & Ha) Ht Hr.
  destruct (power_turn_spec r _ _ q l b Hs Ha Hr) as (q' & l' & b' & Eq & E & Ha').
  exists q', l', b'. split; [| split; [exact E | exact (transitivity (after_power_latch _ _) Ha')]].
  rewrite E. exact (reach_round t0 q _ _ r q' Hq Ht Eq).
Qed.

(** A turn that writes none of the supply pins. *)
Lemma sys_inv_turn t0 x evs s' up :
  forallb spares evs = true -> s_power s' = s_power (x_sys x) -> s_latch s' = latch_after evs (s_latch (x_sys x)) ->
  lcd_ok up (s_lcd s') -> uart_ok s' -> sys_inv t0 x -> sys_inv t0 (x <| x_sys := s' |> <| x_up := up |>).
Proof.
  intros He Hp Hl Hw Hu (_ & Hpow & _). split; [exact Hw |]. split; [exact (power_ok_pins t0 x evs s' up He Hp Hl Hpow) | exact Hu].
Qed.

Lemma rx_uart_ok blocks size (s : system D) : Forall read_block blocks -> 0 <= size -> uart_ok s -> uart_ok (rx_turn blocks size s).
Proof.
  intros Hb Hsz (q & l & Hr & Hc & Hl & Hh & Ht).
  destruct (rx_loop_spec blocks size _ false Hr (Forall_impl _ _ _ Hb (fun _ => @proj1 _ _)) Hsz) as (taken & rest & E & Hx).
  unfold rx_turn, app_uart_cmd_rx_indicate. destruct (app_uart_cmd_rx_loop _ _ _ false) as [r' hd]. destruct Hx as (Hr' & Hc' & _).
  rewrite Hc in Hc'. exists q, (take capacity (l ++ concat taken)).
  split_and!; [exact Hr' | exact Hc' | | exact Hh | exact Ht]. apply Forall_take, Forall_app_2; [exact Hl |].
  rewrite E in Hb. apply Forall_app in Hb as [Hb _]. apply Forall_concat. exact (Forall_impl _ _ _ Hb (fun _ => @proj2 _ _)).
Qed.

(** The notification of the serial driver is such a turn: the reads of its
    buffer return what [do_rx] lets them return. *)
Lemma driver_takes_turn ga gi x l rb q :
  device_ready (l_dev l) -> serial_rx (l_dev l) = Some rb -> rb_holds rb q -> Forall is_u8 q ->
  l_ring l = g_uart_cmd_rx_ring (s_uart (x_sys x)) ->
  exists l', notify_application (Z.of_nat (length q)) l = Some l' /\
    sys_step ga gi x (x <| x_sys := x_sys x <| s_uart := s_uart (x_sys x) <| g_uart_cmd_rx_ring := l_ring l' |> |> |>).
Proof.
  intros Hd Hrb Hq Hb Hr. unfold notify_application. rewrite Nat2Z.id.
  destruct (rx_blocks_all (length q) (l_dev l) rb q Hd Hrb Hq ltac:(lia)) as (blocks & rb' & -> & Hcat & Hbl & _ & _).
  cbn [mbind option_bind]. rewrite Hr. destruct (app_uart_cmd_rx_indicate blocks _ _) as [r' sig] eqn:E. eexists. split; [reflexivity |].
  replace (l_ring (mk_line _ r' _)) with (fst (app_uart_cmd_rx_indicate blocks (Z.of_nat (length q)) (g_uart_cmd_rx_ring (s_uart (x_sys x)))))
    by (by rewrite E). apply (do_rx ga gi x blocks (Z.of_nat (length q))); [| lia].
  rewrite <- Hcat in Hb. clear -Hbl Hb. induction Hbl as [| b blocks Hl _ IH]; [constructor |].
  cbn in Hb. apply Forall_app in Hb as [Hb1 Hb2]. constructor; [by split | by apply IH].
Qed.

Lemma uart_inv_frame (u : uart_cmd D) st c q l : uart_inv u q l -> uart_inv (u <| g_storage := st |> <| g_mcu_config_cache := c |>) q l.
Proof. exact id. Qed.

Lemma poll_turn_ok up (s : system D) : lcd_ok up (s_lcd s) -> uart_ok s -> lcd_ok up (s_lcd (poll_turn s)) /\ uart_ok (poll_turn s).
Proof.
  intros Hw (q & l & Hu). unfold poll_turn, uart_part.
  pose proof (poll_spec _ q l (uart_inv_frame _ (sto (s_lcd s)) (cache (s_lcd s)) q l Hu)) as Hp.
  destruct (app_usart_cmd_poll _) as [u calls]. destruct Hp as [[q' Hu'] Hc]. split; [| by exists q', []].
  apply (lcd_ok_calls up (s_lcd s <| sto := g_storage u |> <| cache := g_mcu_config_cache u |>)); [| exact Hc].
  exact (lcd_ok_env up (s_lcd s) (adc (s_lcd s)) (g_storage u) (g_mcu_config_cache u) (vehicle (s_lcd s)) (tick (s_lcd s)) Hw).
Qed.

Lemma poll_turn_frame (s : system D) : s_power (poll_turn s) = s_power s /\ s_latch (poll_turn s) = s_latch s.
Proof. unfold poll_turn, uart_part. by destruct (app_usart_cmd_poll _). Qed.

Lemma sys_step_inv ga gi t0 x x' : sys_inv t0 x -> sys_step ga gi x x' -> sys_inv t0 x'.
Proof.
  intros Hi Hs. pose proof Hi as (Hw & Hp & Hu).
  destruct Hs as [x d _ _|x di _ _|x r p' _ _ Ht Hr|x st _|x _ Hup|x Hup|x buf tw fb Hup|x blocks size Hb Hsz|x _|x node msg t|x t|x t].
  - apply (sys_inv_turn t0 x [] _ (x_up x)); [done.. | | exact Hu | exact Hi]. apply (lcd_ok_adc _ _ _ Hw).
  - apply (sys_inv_turn t0 x [] _ (x_up x)); [done.. | | exact Hu | exact Hi]. apply (lcd_ok_vehicle _ _ _ Hw).
  - split; [exact Hw |]. split; [by apply power_turn_ok | exact Hu].
  - by apply (sys_inv_turn t0 x (app_led_write APP_LED0 st) _ (x_up x)).
  - apply (sys_inv_turn t0 x lcd_backlight_on _ true); [done.. | | exact Hu | exact Hi]. rewrite Hup in Hw. by apply waiting_reachable.
  - apply (sys_inv_turn t0 x [] _ (x_up x)); [done.. | | exact Hu | exact Hi]. rewrite Hup in *. by apply lcd_ok_round.
  - apply (sys_inv_turn t0 x (fst (u8g2_port_flush_buffer buf tw fb)) _ (x_up x)); [apply flush_spares | done | done | exact Hw | exact Hu | exact Hi].
  - apply (sys_inv_turn t0 x [] _ (x_up x)); [done.. | exact Hw | by apply rx_uart_ok | exact Hi].
  - destruct (poll_turn_ok _ _ Hw Hu) as [Hw' Hu']. destruct (poll_turn_frame (x_sys x)) as [Ep El].
    by apply (sys_inv_turn t0 x [] _ (x_up x)).
  - by apply (sys_inv_turn t0 x [] _ (x_up x)).
  - by apply (sys_inv_turn t0 x [] _ (x_up x)).
  - apply (sys_inv_turn t0 x [] _ (x_up x)); [done.. | | exact Hu | exact Hi]. apply (lcd_ok_tick _ _ _ Hw).
Qed.

Lemma started_sys_inv a w p io latch : sys_inv (a_tick a) (started a w p io latch).
Proof.
  destruct (framework_initialised a w p io latch) as [Hi _]. cbv zeta in Hi.
  destruct (tasks_keep a _ _ Hi) as (Hp & Hl & Hu & Hw). unfold started, main. cbn [snd].
  split; [exact Hw |]. split; [| by exists [], []]. cbn [x_sys].
  exists (s_power (snd (app_task_start a (snd (app_framework_init a (system_boot w p io latch)))))).
  eexists _, _. cbn [x_sys x_since x_clock]. rewrite Hp. split; [constructor |]. split; [reflexivity |]. by rewrite Hl.
Qed.

Lemma reachable_sys_inv x : sys_reachable x -> exists t0, sys_inv t0 x.
Proof.
  intros (a & w & p & io & latch & Hx). exists (a_tick a). revert Hx. generalize (started_sys_inv a w p io latch).
  generalize (started a w p io latch) as x0. intros x0 Hi Hx. induction Hx as [|x0 x1 x Hs _ IH]; [done |].
  apply IH. by eapply sys_step_inv.
Qed.

(** ** The supply pins in the system *)

Definition supply_pin (pin : Z) (x : run D) : bool := pin_level (s_latch (x_sys x)) GPIOC pin.

Lemma supply_pin_agree pin x l : (GPIOC, pin) ∈ power_pins -> agree (s_latch (x_sys x)) l -> supply_pin pin x = pin_level l GPIOC pin.
Proof. intros Hin H. exact (proj1 (Forall_forall _ _) H _ Hin). Qed.

(** Only the power thread touches its pins, its state and its clock. *)
Lemma step_cases ga gi x x' : sys_step ga gi x x' ->
  (agree (s_latch (x_sys x')) (s_latch (x_sys x)) /\ s_power (x_sys x') = s_power (x_sys x)) \/
  exists r p', reads (x_sys x) r /\ timed (x_clock x) r /\ svc_power_thread_round r (power_view (x_sys x)) = Some p' /\
  x' = mk_run (after_power (x_sys x) p') (x_up x) (t_cam r) (since_step p' (t_trans r) (x_since x)).
Proof.
  intros Hs. destruct Hs as [x d _ _|x di _ _|x r p' _ Hrd Ht Hr|x st _|x _ Hup|x Hup|x buf tw fb Hup|x blocks size Hb Hsz|x _|x node msg t|x t|x t].
  3: { right. by exists r, p'. }
  all: left.
  all: try (split; reflexivity).
  - split; [| reflexivity]. apply (spares_agree (app_led_write APP_LED0 st)). reflexivity.
  - split; [| reflexivity]. apply (spares_agree lcd_backlight_on). reflexivity.
  - split; [| reflexivity]. apply (spares_agree (fst (u8g2_port_flush_buffer buf tw fb))), flush_spares.
  - destruct (poll_turn_frame (x_sys x)) as [Ep El]. split; [| exact Ep]. cbn [x_sys update_with]. rewrite El. reflexivity.
Qed.

Definition supplies (x : run D) : bool * bool * bool :=
  (supply_pin SVC_POWER_CTRL_PWR_HOLD_PIN x, supply_pin SVC_POWER_CTRL_PWREN_SOC_PIN x, supply_pin SVC_POWER_CTRL_PWREN_24V_PIN x).

Lemma supplies_agree x p : agree (s_latch (x_sys x)) (gpio_latch p) -> supplies x = (hold_on p, soc_on p, main24_on p).
Proof.
  intros H. unfold supplies.
  rewrite (supply_pin_agree SVC_POWER_CTRL_PWR_HOLD_PIN x _ ltac:(apply (bool_decide_unpack _); by vm_compute) H).
  rewrite (supply_pin_agree SVC_POWER_CTRL_PWREN_SOC_PIN x _ ltac:(apply (bool_decide_unpack _); by vm_compute) H).
  rewrite (supply_pin_agree SVC_POWER_CTRL_PWREN_24V_PIN x _ ltac:(apply (bool_decide_unpack _); by vm_compute) H). reflexivity.
Qed.

Lemma supplies_inv x h so m : supplies x = (h, so, m) ->
  supply_pin SVC_POWER_CTRL_PWR_HOLD_PIN x = h /\ supply_pin SVC_POWER_CTRL_PWREN_SOC_PIN x = so /\
  supply_pin SVC_POWER_CTRL_PWREN_24V_PIN x = m.
Proof. unfold supplies. generalize (supply_pin SVC_POWER_CTRL_PWR_HOLD_PIN x) (supply_pin SVC_POWER_CTRL_PWREN_SOC_PIN x)
  (supply_pin SVC_POWER_CTRL_PWREN_24V_PIN x). by intros ? ? ? [= -> -> ->]. Qed.

(** A step of the system for the power service: nothing, or a round. *)
Lemma step_power ga gi t0 x x' : power_ok t0 x -> sys_step ga gi x x' ->
  (supplies x' = supplies x /\ g_power_stage (s_power (x_sys x')) = g_power_stage (s_power (x_sys x))) \/
  exists r q q', reads (x_sys x) r /\ timed (x_clock x) r /\ reach t0 q (x_since x) (x_clock x) /\
  svc_power_thread_round r q = Some q' /\ x_clock x' = t_cam r /\
  g_power_stage (s_power (x_sys x)) = g_power_stage q /\ g_power_stage (s_power (x_sys x')) = g_power_stage q' /\
  supplies x = (hold_on q, soc_on q, main24_on q) /\ supplies x' = (hold_on q', soc_on q', main24_on q').
Proof.
  intros (q & l & b & Hq & Hsp & Ha) Hs. destruct (step_cases _ _ _ _ Hs) as [[Hl Hp]|(r & p' & Hrd & Ht & Hr & ->)].
  - left. rewrite Hp. split; [| reflexivity].
    rewrite (supplies_agree x q Ha). apply supplies_agree. exact (transitivity Hl Ha).
  - right. destruct (power_turn_spec r _ _ q l b Hsp Ha Hr) as (q' & l' & b' & Eq & E & Ha'). exists r, q, q'.
    split_and!; [exact Hrd | exact Ht | exact Hq | exact Eq | reflexivity | by rewrite Hsp | cbn [x_sys]; by rewrite E
      | exact (supplies_agree x q Ha) |].
    apply supplies_agree. exact (transitivity (after_power_latch (x_sys x) p') Ha').
Qed.
End Invariant.

(** ** Concrete runs *)

Section Runs.
Context {D : Type} {bus : I2cBus D} {laws : EepromLaws D} {rdy : EepromReady D} {fonts : FontMetrics}.

(** A turn of the power thread at time [t], if it does not reset. *)
Definition power_at (t : Z) (x : run D) : option (run D) :=
  let s := x_sys x in
  let r := mk_round (svc_adc_get_snapshot (adc (s_lcd s))) (svc_vehicle_io_get_state (s_io s)) t t t t in
  if bool_decide (POWER_TH ∈ s_threads s) && (x_clock x <=? t) then
    match svc_power_thread_round r (power_view s) with
    | Some p' => Some (mk_run (after_power s p') (x_up x) t (since_step p' t (x_since x)))
    | None => None
    end
  else None.

Lemma power_at_step ga gi t x x' : power_at t x = Some x' -> sys_step ga gi x x'.
Proof.
  unfold power_at. cbv zeta. destruct (bool_decide_reflect (POWER_TH ∈ s_threads (x_sys x))) as [Hth|]; [| done].
  destruct (Z.leb_spec (x_clock x) t) as [Ht|]; [| done]. cbn [andb].
  set (r := mk_round _ _ t t t t). intros H.
  destruct (svc_power_thread_round r (power_view (x_sys x))) as [p'|] eqn:Er; [| done]. injection H as <-.
  apply (do_power ga gi x r p' Hth (conj eq_refl eq_refl)); [| exact Er]. subst r. unfold timed. cbn. lia.
Qed.

Definition power_turns (ts : list Z) (x : run D) : option (run D) :=
  foldl (fun o t => match o with Some x => power_at t x | None => None end) (Some x) ts.

Lemma power_turns_steps ga gi ts x x' : power_turns ts x = Some x' -> rtc (sys_step ga gi) x x'.
Proof.
  unfold power_turns. induction ts as [|t ts IH] using rev_ind in x' |- *; [by intros [= ->] |].
  rewrite foldl_app. cbn [foldl]. destruct (foldl _ _ ts) as [x1|]; [| done]. intros H.
  eapply rtc_r; [by apply IH | by eapply power_at_step].
Qed.
End Runs.

(** ** Properties *)

(** C1: in the running system, whatever all its threads, the host and the
    hardware do, PWR_HOLD is released only by the power thread after its stage
    has been a shutdown stage for 3 s without a break, and the SOC and 24 V
    supplies are off then: no pin access of the display, the LED or the
    backlight reaches the supply pins. *)
Theorem system_hold_safe {D} `{EepromReady D} {fonts : FontMetrics} (x x' : run D) :
  sys_reachable x -> sys_step anything anything x x' ->
  supply_pin SVC_POWER_CTRL_PWR_HOLD_PIN x = true -> supply_pin SVC_POWER_CTRL_PWR_HOLD_PIN x' = false ->
  (exists ts, x_since x = Some ts /\ ts + 3000 <= x_clock x') /\
  g_power_stage (s_power (x_sys x')) = SVC_POWER_STAGE_SHUTDOWN_IN_PROGRESS /\
  supply_pin SVC_POWER_CTRL_PWREN_SOC_PIN x' = false /\ supply_pin SVC_POWER_CTRL_PWREN_24V_PIN x' = false.
Proof.
  intros Hx Hs Hon Hoff. destruct (reachable_sys_inv x Hx) as (t0 & _ & Hp & _).
  destruct (step_power _ _ t0 x x' Hp Hs) as [[E _]|(r & q & q' & _ & Ht & Hq & Eq & Hc & _ & Hst & E & E')];
    [unfold supplies in E; congruence |].
  apply supplies_inv in E as (Eh & _ & _). apply supplies_inv in E' as (Eh' & Es' & E24').
  destruct (hold_release t0 q (x_since x) (x_clock x) r q' Hq Ht Eq) as ((ts & Hts & Hlate) & Hst' & Hsoc & H24); [congruence.. |].
  split_and!; [| congruence..]. exists ts. split; [exact Hts |]. destruct Ht as (_ & _ & _ & ?). lia.
Qed.

#[local] Instance system_fonts : FontMetrics := sample_fonts.

(** All threads run; the supply is at 26 V (ADC value 43000) and the ignition
    is off. *)
Definition all_answers : answers := mk_answers 1000 true 0 true 0 0 (fun _ => true) sample_kernel.
Definition device_26v : adc_device := mk_adc_device (fun _ => 43000) (fun _ => 0).
Definition boot_run : run Chip.chip :=
  started all_answers sample_lcd (svc_power_init 0 (fun _ => 0) false) svc_vehicle_io_init (fun _ => -1).
Definition powered_run : run Chip.chip := boot_run <| x_sys := adc_turn device_26v (x_sys boot_run) |>.
Definition pending_run : run Chip.chip := default powered_run (power_turns (map (fun i => 1000 + 100 * Z.of_nat i) (seq 1 10)) powered_run).
Definition cut_run : run Chip.chip := default pending_run (power_at 5000 pending_run).

Lemma default_some {A} (d : A) o : bool_decide (is_Some o) = true -> o = Some (default d o).
Proof. intros [a ->]%bool_decide_eq_true. done. Qed.

Lemma powered_step ga gi : ga device_26v -> sys_step ga gi boot_run powered_run.
Proof. intros H. apply do_adc; [| exact H]. apply (bool_decide_unpack _). by vm_compute. Qed.

Lemma pending_steps ga gi : rtc (sys_step ga gi) powered_run pending_run.
Proof. eapply power_turns_steps, default_some. by vm_compute. Qed.

Lemma pending_reachable : sys_reachable pending_run.
Proof.
  exists all_answers, sample_lcd, (svc_power_init 0 (fun _ => 0) false), svc_vehicle_io_init, (fun _ => -1).
  eapply rtc_l; [by apply powered_step | apply pending_steps].
Qed.

Lemma system_hold_safe_witness :
  supplies pending_run = (true, true, true) /\
  (exists ts, x_since pending_run = Some ts /\ ts + 3000 <= x_clock cut_run) /\
  supply_pin SVC_POWER_CTRL_PWREN_SOC_PIN cut_run = false.
Proof.
  split; [by vm_compute |].
  destruct (system_hold_safe pending_run cut_run pending_reachable) as (Hts & _ & Hsoc & _).
  - eapply power_at_step, default_some. by vm_compute.
  - by vm_compute.
  - by vm_compute.
  - split; [exact Hts | exact Hsoc].
Defined.

(** C11: composition.  In every reachable state of the running system, with all
    threads interleaved, each part is in a state its own model reaches: the
    display once its thread has started; the power service, with the same stage
    and the same levels on the supply pins, although the pins are shared; and
    the command task, with its ring, parser and text buffers consistent.  The
    properties of the parts hold of the system. *)
Theorem system_components {D} `{EepromReady D} {fonts : FontMetrics} (x : run D) :
  sys_reachable x ->
  (x_up x = true -> reachable (s_lcd (x_sys x))) /\
  (exists t0 q, reach t0 q (x_since x) (x_clock x) /\ g_power_stage (s_power (x_sys x)) = g_power_stage q /\
                supplies x = (hold_on q, soc_on q, main24_on q)) /\
  (exists q bytes, uart_inv (s_uart (x_sys x)) q bytes).
Proof.
  intros Hx. destruct (reachable_sys_inv x Hx) as (t0 & Hw & (q & l & b & Hq & Hs & Ha) & Hu).
  split; [by intros Hup; rewrite Hup in Hw |]. split; [| exact Hu]. exists t0, q.
  split; [exact Hq |]. split; [by rewrite Hs | exact (supplies_agree x q Ha)].
Qed.

(** After start-up the display thread starts as well. *)
Definition shown_run : run Chip.chip :=
  boot_run <| x_sys := write_pins lcd_backlight_on (set_lcd (fun w => snd (svc_lcd_thread_start w)) (x_sys boot_run)) |> <| x_up := true |>.

Lemma shown_step : sys_step anything anything boot_run shown_run.
Proof. refine (do_lcd_start _ _ boot_run _ eq_refl). apply (bool_decide_unpack _). by vm_compute. Qed.

Lemma system_components_witness :
  x_up shown_run = true /\ reachable (s_lcd (x_sys shown_run)) /\ exists q bytes, uart_inv (s_uart (x_sys shown_run)) q bytes.
Proof.
  split; [reflexivity |]. destruct (system_components shown_run) as (Hw & _ & Hu).
  - exists all_answers, sample_lcd, (svc_power_init 0 (fun _ => 0) false), svc_vehicle_io_init, (fun _ => -1).
    apply rtc_once. exact shown_step.
  - split; [by apply Hw | exact Hu].
Defined.
