(* ===== verification/Driving.v ===== *)
(** * Driving

    From the voltage at the 24 V input and the level of the ignition input to
    the supply outputs, through the ADC service, the input service and the power
    thread, with every other thread running: while the supply is there and the
    ignition is on, the recorder is not switched off. *)

From S2P Require Import Prelude Platform Pins AppTypes Adc VehicleIo Power Can Eeprom Storage UartRing UartText UartFrame McuStatus UartCmd LcdGfx LcdPanel LcdPages LcdState LcdData LcdText LcdTables LcdRender LcdNav LcdKeys LcdSystem Startup System.

(** ** The display leaves the measured values alone *)

Section Display.
Context {D : Type} {bus : I2cBus D} {laws : EepromLaws D} {rdy : EepromReady D} {fonts : FontMetrics}.

Definition measured (a : app_adc_snapshot_t) (w : lcd D) : Prop := svc_adc_get_snapshot (adc w) = a.

Lemma measured_storage {A} a (f : storage D -> A * storage D) : keeps (measured a) (storage_call f).
Proof. intros w Hw. unfold storage_call. by destruct (f (sto w)). Qed.

Lemma measured_refresh a : keeps (measured a) (refresh_status_config (D := D)).
Proof. intros w Hw. unfold refresh_status_config. by destruct (app_usart_cmd_refresh_status_config (sto w)). Qed.

(** Operations put together from those that do. *)
Ltac measuring :=
  repeat lazymatch goal with
    | |- keeps _ (consume _) => by intros w Hw
    | |- keeps _ (modify _) => by intros w Hw
    | |- keeps _ (set_ui _) => by intros w Hw
    | |- keeps _ redraw => by intros w Hw
    | |- keeps _ (set_selected _ _) => by intros w Hw
    | |- keeps _ (edit_plate _) => by intros w Hw
    | |- keeps _ (edit_phone _) => by intros w Hw
    | |- keeps _ (storage_call _) => apply measured_storage
    | |- keeps _ (load _ _) => apply measured_storage
    | |- keeps _ refresh_status_config => apply measured_refresh
    | |- keeps _ (get_ui _) => apply keeps_get_ui
    | |- keeps _ (gets _) => apply keeps_gets
    | |- keeps _ (mret _) => apply keeps_ret
    | |- keeps _ skip => apply keeps_skip
    | H : keeps _ ?m |- keeps _ ?m => exact H
    | H : forall p, keeps _ (?m p) |- keeps _ (?m _) => apply H
    | |- keeps _ (if decide _ then _ else _) => apply keeps_decide
    | |- keeps _ (match ?x with _ => _ end) => destruct x
    | |- keeps _ (_ ≫= _) => apply keeps_bind; [| intros ?]
    end.

Lemma measured_enter a p : keeps (measured a) (lcd_page_enter (D := D) p).
Proof.
  unfold lcd_page_enter, lcd_page_on_enter_prepare, lcd_prepare_local_phone_page, lcd_prepare_vehicle_plate_class_page,
    lcd_prepare_vehicle_plate_color_page, prepare_text_page, lcd_prepare_plate_set_page, lcd_prepare_vin_set_page,
    lcd_prepare_province_id_set_page, lcd_prepare_city_id_set_page. measuring.
Qed.

Lemma measured_finish a : keeps (measured a) (finish_round (D := D)).
Proof.
  pose proof (measured_enter a).
  assert (keeps (measured a) (lcd_render_current_page (D := D))).
  { unfold lcd_render_current_page. measuring; intros w Hw; unfold render_page; cbn [snd]; repeat case_match; done. }
  unfold finish_round, lcd_page_handle_auto_return, lcd_page_handle_dynamic_refresh, current_node. measuring.
Qed.

Lemma measured_editor a d : (forall e w, measured a w -> measured a (d_set d e w)) -> keeps (measured a) (editor_keys (D := D) d).
Proof.
  intros Hd. pose proof (measured_enter a).
  assert (forall f, keeps (measured a) (edit d f)) by (intros f w Hw; by apply Hd).
  unfold editor_keys, editor_s4, editor_save_and_ok, lcd_page_enter_common_ok, on_page, s1, s2, s3, s4. measuring.
Qed.

Lemma measured_handlers a : Forall (fun h => keeps (measured a) h) (key_handlers (D := D)).
Proof.
  pose proof (measured_enter a).
  repeat apply Forall_cons_2; [| by apply measured_editor.. | | |]; [| | | apply Forall_nil_2].
  - unfold lcd_handle_text_normal_keys, turn_page, on_page, s1, s2, s3, s4. measuring.
  - unfold lcd_handle_plate_set_keys, lcd_plate_save_and_ok, lcd_page_enter_common_ok, on_page, s1, s2, s3, s4. measuring.
  - unfold lcd_handle_local_phone_keys, phone_s4, saved_ok, lcd_page_enter_common_ok, on_page, s1, s2, s3, s4. measuring.
Qed.

Lemma measured_handle a hs : Forall (fun h => keeps (measured a) h) hs -> keeps (measured a) (handle_keys (D := D) hs).
Proof.
  pose proof (measured_enter a). pose proof (measured_finish a).
  induction 1 as [|h hs Hh _ IH]; cbn [handle_keys]; [| measuring].
  unfold generic_keys, lcd_page_handle_back, lcd_page_handle_nav, lcd_page_handle_confirm, run_confirm, lcd_page_confirm_load_status,
    lcd_page_confirm_key_volume, lcd_page_confirm_backlight_time, lcd_page_confirm_brightness_level,
    lcd_page_confirm_vehicle_plate_color, lcd_page_confirm_vehicle_plate_class, saved_ok, lcd_page_enter_common_ok,
    current_node, s1, s2, s3, s4. measuring.
Qed.

Lemma round_measured a : keeps (measured a) (svc_lcd_thread_round (D := D)).
Proof.
  pose proof (measured_enter a). pose proof (measured_finish a). pose proof (measured_handle a _ (measured_handlers a)).
  unfold svc_lcd_thread_round, on_page, s1, s2, s3, s4. measuring.
Qed.
End Display.

(** ** Measured values *)

(** A sample at or above the threshold of the supply, and a level of the ON
    input (active low) that counts as on. *)
Definition supply_present (d : adc_device) : Prop :=
  APP_PWR_MAIN_PRESENT_THRESHOLD_MV <=
  svc_adc_estimate_input_mv (rt_adc_read d APP_ADC_CH_BAT_24V) APP_ADC_BAT24_DIV_UP_KOHM APP_ADC_BAT24_DIV_DOWN_KOHM.
Definition ignition_on (di : gpio_regs) : Prop := gpio_read_pin di GPIOC WK_ON_PIN = 0.

Lemma key_events_snapshot st : g_adc_snapshot (svc_adc_update_key_events st) = g_adc_snapshot st.
Proof. unfold svc_adc_update_key_events. repeat case_match; done. Qed.

Lemma sample_bat24 d st :
  est_bat24_mv (svc_adc_get_snapshot (svc_adc_sample_update d st)) =
  svc_adc_estimate_input_mv (rt_adc_read d APP_ADC_CH_BAT_24V) APP_ADC_BAT24_DIV_UP_KOHM APP_ADC_BAT24_DIV_DOWN_KOHM.
Proof. unfold svc_adc_sample_update, svc_adc_get_snapshot. by rewrite key_events_snapshot. Qed.

Lemma round_wk_on io di a :
  wk_on (svc_vehicle_io_get_state (svc_vehicle_io_thread_round io (di, a))) = b2u (gpio_read_pin di GPIOC WK_ON_PIN =? 0).
Proof. unfold svc_vehicle_io_thread_round, svc_vehicle_io_debug_print_sw_kl. by destruct (negb _). Qed.

(** ** The power service while driving *)

Lemma on_active_count t0 q since t : reach t0 q since t -> g_power_stage q = SVC_POWER_STAGE_ON_ACTIVE -> 10 <= g_main_present_confirm_count q.
Proof.
  intros [latch bl | p since' t' r q' _ _ Hr]; [done |]. destruct (round_stage_supply _ _ _ Hr) as (-> & -> & _).
  unfold next_stage. destruct (Z.leb_spec 10 (present_count' r p)) as [|_]; [done |]. destruct (latched' r p); [| done]. by destruct (_ && _).
Qed.

Lemma on_active_stays r q : main_ok r = true -> wk_on (vehicle_state r) <> 0 -> 10 <= g_main_present_confirm_count q ->
  next_stage r q = SVC_POWER_STAGE_ON_ACTIVE.
Proof.
  intros Hm Hw Hc. unfold next_stage, present_count', svc_power_update_confirm_counter. rewrite Hm.
  assert (10 <= (if g_main_present_confirm_count q <? 255 then u8 (g_main_present_confirm_count q + 1) else g_main_present_confirm_count q)) as Hc'.
  { destruct (Z.ltb_spec (g_main_present_confirm_count q) 255); [| done]. wraps. }
  apply Z.leb_le in Hc' as ->. unfold svc_power_eval_normal_stage. by apply Z.eqb_neq in Hw as ->.
Qed.

(** The recovery reset is taken only in a shutdown stage. *)
Lemma on_active_no_reset r p : g_power_stage p = SVC_POWER_STAGE_ON_ACTIVE -> is_Some (svc_power_thread_round r p).
Proof.
  intros Hs. unfold svc_power_thread_round. pose proof (eval_stage_spec r p) as H.
  destruct (svc_power_eval_stage _ _ _ p) as [[s p1]|]; [by eexists |]. destruct H as (_ & _ & H). by rewrite Hs in H.
Qed.

(** ** The system while driving *)

Section Driving.
Context {D : Type} {bus : I2cBus D} {laws : EepromLaws D} {rdy : EepromReady D} {fonts : FontMetrics}.

(** What the two services hold for the power thread. *)
Definition inputs_good (s : system D) : Prop :=
  APP_PWR_MAIN_PRESENT_THRESHOLD_MV <= est_bat24_mv (svc_adc_get_snapshot (adc (s_lcd s))) /\
  wk_on (svc_vehicle_io_get_state (s_io s)) <> 0.

Definition driving (x : run D) : Prop :=
  g_power_stage (s_power (x_sys x)) = SVC_POWER_STAGE_ON_ACTIVE /\ inputs_good (x_sys x).

Lemma inputs_good_same s s' :
  svc_adc_get_snapshot (adc (s_lcd s')) = svc_adc_get_snapshot (adc (s_lcd s)) -> s_io s' = s_io s ->
  inputs_good s -> inputs_good s'.
Proof. unfold inputs_good. by intros -> ->. Qed.

Lemma poll_inputs (s : system D) : adc (s_lcd (poll_turn s)) = adc (s_lcd s) /\ s_io (poll_turn s) = s_io s.
Proof. unfold poll_turn, uart_part. by destruct (app_usart_cmd_poll _). Qed.

Lemma step_inputs x x' : sys_step supply_present ignition_on x x' -> inputs_good (x_sys x) -> inputs_good (x_sys x').
Proof.
  intros Hs Hi.
  destruct Hs as [x d _ Hd|x di _ Hd|x r p' _ _ _ _|x st _|x _ _|x _|x buf tw fb _|x blocks size _ _|x _|x node msg t|x t|x t];
    try exact Hi.
  - split; [| apply Hi]. cbn [x_sys update_with]. unfold adc_turn, set_lcd. cbn [s_lcd adc update_with]. by rewrite sample_bat24.
  - split; [apply Hi |]. cbn [x_sys update_with]. unfold io_turn. cbv zeta. unfold set_lcd. cbn [s_io update_with].
    rewrite round_wk_on, Hd. done.
  - eapply inputs_good_same; [| | exact Hi]; [| done]. cbn [x_sys update_with].
    exact (round_measured (svc_adc_get_snapshot (adc (s_lcd (x_sys x)))) (s_lcd (x_sys x)) eq_refl).
  - destruct (poll_inputs (x_sys x)) as [Ea Ei]. eapply inputs_good_same; [| | exact Hi]; cbn [x_sys update_with]; [by rewrite Ea | done].
Qed.

Lemma reads_main_ok (s : system D) r : inputs_good s -> reads s r -> main_ok r = true /\ wk_on (vehicle_state r) <> 0.
Proof. intros [H1 H2] [E1 E2]. rewrite E2. split; [| done]. unfold main_ok. rewrite E1. by apply Z.leb_le. Qed.

Lemma step_driving t0 x x' : sys_inv t0 x -> driving x -> sys_step supply_present ignition_on x x' ->
  driving x' /\ supplies x' = supplies x.
Proof.
  intros (_ & Hp & _) [Hst Hi] Hs. pose proof (step_inputs x x' Hs Hi) as Hi'.
  destruct (step_power _ _ t0 x x' Hp Hs) as [[E Hst']|(r & q & q' & Hrd & _ & Hq & Eq & _ & Hstq & Hst' & E & E')].
  - split; [split; [congruence | exact Hi'] | exact E].
  - destruct (reads_main_ok _ _ Hi Hrd) as [Hm Hw]. rewrite Hst in Hstq.
    pose proof (on_active_stays r q Hm Hw (on_active_count _ _ _ _ Hq (eq_sym Hstq))) as Hn.
    destruct (round_stage_supply _ _ _ Eq) as (Hq' & _). destruct (round_no_cut r q q' Eq) as (Hs1 & Hs2 & Hs3); [by rewrite Hn |].
    split; [split; [congruence | exact Hi'] |]. rewrite E, E'. congruence.
Qed.

Lemma steps_driving t0 x x' : sys_inv t0 x -> driving x -> rtc (sys_step supply_present ignition_on) x x' ->
  driving x' /\ supplies x' = supplies x.
Proof.
  intros Hi Hd Hs. induction Hs as [|x x1 x' Hs _ IH]; [done |].
  destruct (step_driving t0 x x1 Hi Hd Hs) as [Hd1 <-]. apply IH; [by eapply sys_step_inv | done].
Qed.
End Driving.

(** ** Properties *)

(** C3: while the vehicle is driven the recorder stays on.  From any reachable
    state of the running system in the stage ON_ACTIVE, as long as every sample
    of the 24 V input is at least 18 V and every reading of the ON input is
    active, whatever the keys, the host, the CAN buses, the display and the time
    do, the stage stays ON_ACTIVE, hold, SOC and 24 V outputs stay as they are,
    and the power thread never takes its reset. *)
Theorem driving_keeps_power {D} `{EepromReady D} {fonts : FontMetrics} (x x' : run D) :
  sys_reachable x -> driving x -> rtc (sys_step supply_present ignition_on) x x' ->
  g_power_stage (s_power (x_sys x')) = SVC_POWER_STAGE_ON_ACTIVE /\ supplies x' = supplies x /\
  forall r, is_Some (svc_power_thread_round r (power_view (x_sys x'))).
Proof.
  intros Hx Hd Hs. destruct (reachable_sys_inv x Hx) as [t0 Hi]. destruct (steps_driving t0 x x' Hi Hd Hs) as [[Hst _] E].
  split; [exact Hst |]. split; [exact E |]. intros r. by apply on_active_no_reset.
Qed.

#[local] Instance driving_fonts : FontMetrics := sample_fonts.

(** Ignition on, 1 s of rounds; then four more seconds, with the LED switched. *)
Definition key_on_run : run Chip.chip := powered_run <| x_sys := io_turn (fun _ => 0) (x_sys powered_run) |>.
Definition drive_run : run Chip.chip :=
  default key_on_run (power_turns (map (fun i => 1000 + 100 * Z.of_nat i) (seq 1 10)) key_on_run).
Definition cruise_run : run Chip.chip :=
  default drive_run (power_turns (map (fun i => 2000 + 100 * Z.of_nat i) (seq 1 40)) drive_run).
Definition later_run : run Chip.chip :=
  cruise_run <| x_sys := write_pins (app_led_write APP_LED0 APP_LED_ON) (x_sys cruise_run) |>.

Lemma drive_reachable : sys_reachable drive_run.
Proof.
  exists all_answers, sample_lcd, (svc_power_init 0 (fun _ => 0) false), svc_vehicle_io_init, (fun _ => -1).
  eapply rtc_l; [by apply powered_step |]. eapply (rtc_l _ _ key_on_run).
  - apply do_io; [| done]. apply (bool_decide_unpack _). by vm_compute.
  - eapply power_turns_steps, default_some. by vm_compute.
Qed.

Lemma cruise_steps ga gi : rtc (sys_step ga gi) drive_run cruise_run.
Proof. eapply power_turns_steps, default_some. by vm_compute. Qed.

Lemma later_step ga gi : sys_step ga gi cruise_run later_run.
Proof. apply do_led. apply (bool_decide_unpack _). by vm_compute. Qed.

Lemma driving_keeps_power_witness :
  supplies drive_run = (true, true, true) /\ supplies later_run = supplies drive_run /\ x_clock later_run = 6000.
Proof.
  split; [by vm_compute |]. split; [| by vm_compute].
  destruct (driving_keeps_power drive_run later_run drive_reachable) as (_ & E & _).
  - split; [by vm_compute |]. split; [by vm_compute |]. by vm_compute.
  - exact (rtc_r _ _ _ (cruise_steps _ _) (later_step _ _)).
  - exact E.
Defined.
